(* ===== verification/_CoqProject ===== *)
-Q . S2P
Prelude.v
PyIo.v
PyStr.v
PyInt.v
PyFloat.v
PyDict.v
PySort.v
FileSystem.v
FileMoves.v
PyRegex.v
PyTime.v
LogEvents.v
NodeLog.v
NodeLogs.v
Naming.v
Fields.v
PyJson.v
PyRepr.v
Config.v
ParameterFiles.v
TimeIntervals.v
RunResult.v
ResultText.v
ClientLog.v
LogFiles.v
Sha1.v
RepoStatus.v
Bench.v
LocalBench.v
LocalLogs.v
Settings.v
Instances.v
HostSelection.v
RemoteBench.v
Tasks.v
SignetConfig.v
SignetBuild.v
RemoteConfig.v
TxClient.v
ClientThreads.v
Nodes.v
NodeScripts.v
JsonMinify.v
PySub.v
StubPatch.v
CodeConsistency.v
Engine.v
EngineActions.v
EngineFacts.v
EngineSteps.v
EngineInv.v
EngineNet.v
EngineRoast.v
EngineRuns.v
EngineProgress.v
EngineDriver.v
EngineDriverFacts.v
EngineCluster.v
