(* ===== verification/Prelude.v ===== *)
(** * A verification development of itcoin-fbft

    itcoin-fbft is a PBFT consensus layer for a bitcoin signet.  Its replica is an engine
    in Prolog driven by a program in C++; around it are Python programs: the scripts that
    maintain the repository and the framework that deploys, measures and evaluates
    networks of replicas.  The development models both.

    ** The program and its files

    The replica (src/engine/fbft-replica-engine.pl, src/src/fbft):
    - Engine.v: the database of the engine.  Each dynamic predicate is a constructor of
      [Fact] or a field of [State]; a goal is the list of its solutions.  Quorums, windows,
      [prepared], the sets of a view change and the new view that is computed from them.
    - EngineActions.v: every action of the engine, [pre_X] for its precondition and
      [apply_X] for its effect (a transaction: [None] changes nothing), ROAST included, and
      what the C++ actions do around it ([effect], [receive], [active_actions]).
    - EngineFacts.v, EngineSteps.v, EngineInv.v: membership lemmas, the fourteen ways in
      which an operation changes a replica ([step]), the invariant of a correct replica.
    - EngineNet.v: the network, in which correct replicas act and receive in any order what
      was sent and faulty ones send anything; agreement.  EngineRoast.v: the tables of the
      signing sessions.  EngineProgress.v: what a backup does with enough prepares, what a
      view change and a new view carry over.  EngineRuns.v: runs that show faults.
    - EngineDriver.v: Replica2.cpp and [ReplicaState::Apply], that is the buffers, the
      generation of requests, the loop on random active actions; EngineDriverFacts.v, its
      lemmas; EngineCluster.v, the refinement of the network by the drivers.

    Maintenance scripts (each file models one script):
    - RepoStatus.v: scripts/check-repo-src-changed.py.  The status directory is a map
      from paths to bytes, git and mercurial the record [system]; [main] is the body of
      the script, [script] the script with its two options.  Sha1.v is [hashlib.sha1].
    - JsonMinify.v: infra/json_minify.py.  [json_minify] is the loop on the matches of
      the tokenizer with its three flags.
    - StubPatch.v: scripts/allow-null-return-in-json-rpc.py, on a tree of files, with
      the substitution of PySub.v ([re.sub] on patterns of a fixed length).
    - CodeConsistency.v: scripts/check-code-consistency.py, the network a parameter.

    The evaluation of the runs (benchmark/benchmark_framework/logs.py):
    - LogEvents.v: the event classes and their [from_log_row]; the rows the C++ replica
      writes ([log_row], [message_text]) are translated from src/fbft and src/blockchain.
    - NodeLog.v, NodeLogs.v, TimeIntervals.v: the scan of the log of a node, the
      aggregation over the nodes, the phases of a block.
    - RunResult.v: statistics of a run and the rows of both CSV files; ResultText.v: their
      texts and the summary.  ClientLog.v: the logs of the clients and their notifications.
    - LogFiles.v: [LogParser] and [ExperimentResult] on a file system, from the directory
      of a run to the rows added to the CSV files.

    The parameters and the runs:
    - Fields.v, Config.v, ParameterFiles.v, Settings.v: typed fields (utils.py), the
      benchmark parameters (config.py), their JSON file, the settings (settings.py).
    - Naming.v: names, paths, quorums and commands (utils.py, paths.py, commands.py).
    - Bench.v, LocalBench.v: the template method [Bench.run] (base.py) over the record
      [Bench] of its abstract methods, with the class of laws a subclass owes it, and
      the local subclass (local.py), which is proved to have them.  Effects are a state
      and exception monad, [io], over an abstract state of the machine.  LocalLogs.v puts
      a file system in that machine and composes [_process_logs] with LogFiles.v.
    - Instances.v, HostSelection.v, RemoteBench.v: the instances on AWS (instance.py), the
      selection of hosts and the remote subclass (remote.py), over parameters for boto3,
      fabric and joblib.
    - Tasks.v: the tasks of benchmark/fabfile.py over these operations.
    - SignetConfig.v, SignetBuild.v, RemoteConfig.v: benchmark/setup-signet.py, that is its
      configuration files, [build] on a file system, and what it reads of the addresses
      that remote.py gives it.
    - TxClient.v, ClientThreads.v: benchmark/run-client.py, the rounds of transactions and
      the steps of its two threads and of the signals in any interleaving.
    - Nodes.v, NodeScripts.v: benchmark/run-donor.py, run-replicas.py, run-signet.py, their
      loops and waits, and their [main] on a file system.

    The language: Prelude.v (exceptions, results, tactics), PyIo.v (the monad of effects,
    invariants and loops), PyStr.v, PyInt.v, PyFloat.v (binary64 as integers of 2^-1074,
    one rounding by operation), PyDict.v (insertion order kept), PySort.v, PyRegex.v
    (backtracking, proved against a declarative matching), PyTime.v ([strptime],
    [strftime]), PyJson.v ([json.loads], [json.dumps]), PyRepr.v ([repr] of a float, the
    shortest text that is read back), FileSystem.v and FileMoves.v (a tree of directories
    and files with [open], [glob], [copytree], [rename], [rmtree]).

    ** What the theorems show

    The properties of the manifest are numbered in the doc comments of their theorems.
    - The replica: with at most F faulty replicas of 3F+1, two correct ones never prepare
      different requests for one view and number, but for a replica that has received one
      prepare with two valid signatures ([cluster_agreement], by an invariant on the
      network of engines that the drivers refine); primaries announce and backups
      prepare one request; views and heights grow, a block empties the window below it; a
      backup with enough prepares commits; a view change announces what its log has prepared
      and a new view carries it over; ROAST sessions have F+1 signers and accept every share
      when pre-signatures can be aggregated; the generation of requests ends; an early
      message waits for its block and is then accepted.  Across views there is no such agreement: EngineRuns.v evaluates a run of
      four correct replicas, with two timeouts in a row, that ends in a fork, and other
      runs and lemmas where the code does not do what its comments or the protocol say.
    - The scripts: the status script refines "47 when the reading is not the one before",
      with its exit codes and errors; the minifier gives the text of each document with
      comments, keeps the layout when asked and is idempotent; the stub has no test
      without null left, whatever its text, and the script is idempotent; the consistency
      check is the equality of 25 lines.
    - The parsers: each row a replica writes is read back, the result of a validity test
      excepted; the scan of a log keeps exactly the last event of a class and a height;
      the phases of a log of blocks are found; the aggregation, latencies, throughput and CSV files are characterised on every log.
      From the files of a run to its CSV row, [run_recorded] and [local_run_recorded] say
      that the latencies are those of the messages in the logs and that no other file
      changes.
    - The configuration: exactly which dictionaries and files are accepted, with which
      exception otherwise; what is printed is read back, floats included; the addresses
      reach the nodes; [build_layout] gives each node its directory and its files.
    - The runs: when a kill that returns stops the nodes, each benchmark fails at start-up,
      ends on an idle testbed or raises the exception of one run; the experiments of a directory run in order and apart from each other; hosts, peers,
      ports and directories are distinct and enough; a choice of coins ends and covers, no
      coin is spent twice, transactions conserve value to a satoshi; a client returns only
      after a signal and the end of its round; a killed replica is read back from its log.
    - Where the code does something else than it says, a lemma shows the behaviour
      ([end_test_block_validity_unread], [unknown_checkpoint_processed],
      [local_bench_second_run], [donor_never_stops], [from_directory_once], [build_output_exists] and others, listed as findings).

    ** Bounds and fuel

    - [JsonMinify.minify_loop] and [PyJson.scan_once] take the length of the text as fuel,
      and it is enough: [minify_loop_scan] shows the first is a structural scan, and
      [loads_errors] that the second never runs out.
    - Loops on random draws (peers, coins) take the draws as a list; their termination
      theorems say which lists are enough.  [Bench.wait_loop] has the duration as fuel
      ([wait_loop_naps]).
    - [PyRepr.float_repr] tries one to seventeen digits, and [float_repr_ok] shows that a
      text is found that is read back as the float.
    - [GenerateRequests] takes five rounds ([generate_requests_done]) and
      [ApplyActiveActions] is bounded by the code itself, eleven rounds.
    - Integers are unbounded as in Python and Prolog, [u32] being written where the C++
      wraps; floats are rounded at each operation, without
      infinities, and an integer too large for a float is an [OverflowError]; bounds such as 2^50 nodes in [byzantine_quorum_spec] are those under
      which the rounding is shown harmless.

    ** Not modelled

    Of the replica: the transport, the blockchain and the wallet, which are parameters
    (TestBlockValidity, GenerateBlock, the shares, the verification of signatures, assumed
    not to accept a message its sender has not signed); the JSON texts of the messages and
    SHA-1, the digest of a view change being a parameter; the persisted view of a restart,
    but for [init]; what C++ reads of the unbound block of a "null" request, a parameter;
    exceptions of C++ other than those that [Apply] catches, which are [None] and end the
    process in the code.  Of the Python: the polyfill of fabfile.py, which patches a
    library; messages printed for humans other than the summaries, the list of the
    instances and the causes of an error; argparse and click, whose values are inputs, as
    are the messages of ZMQ; the bitcoin test framework, boto3, fabric, joblib and numpy's
    percentiles, which are parameters; SSH keys and tmux.  Texts are sequences of code
    points below 256. *)

From stdpp Require Export base list option strings numbers gmap sorting.
From Stdlib Require Export ZArith Lia.

#[global] Open Scope Z_scope.

(** ** Exceptions and fallible computations *)

(** The Python exceptions the modelled code raises or lets through.  Only the
    class is kept: the messages are formatted for humans and no modelled code
    reads them back, except that of [ParseError], whose two capture groups name
    the replica and the view.  [Unmodelled] and [OutOfFuel] are no exceptions of the
    program: the first is the outcome of a computation on values that the model has
    not (a character above code point 255), the second that of a loop cut short. *)
Inductive exn : Type :=
  | ValueError
  | KeyError
  | IndexError
  | AttributeError
  | AssertionError
  | TypeError
  | ZeroDivisionError
  | OverflowError
  | UnboundLocalError
  | RuntimeError
  | StatisticsError
  | ArgumentTypeError
  | OSError
  | JSONDecodeError
  | SubprocessError
  | ParseError
  | ConfigError
  | SettingsError
  | ClientError (code : string)
  | AWSError (code : string)
  | GroupException
  | FabricError
  | SSHException
  | JSONRPCException
  | CalledProcessError
  | BenchError (cause : exn)
  | SystemExit (code : Z)
  | Unmodelled
  | OutOfFuel.

#[global] Instance exn_eq_dec : EqDecision exn.
Proof. solve_decision. Defined.

(** The outcome of a Python expression: a value or the exception it raises. *)
Inductive result (A : Type) : Type :=
  | Ok (a : A)
  | Raise (e : exn).
Arguments Ok {_} _.
Arguments Raise {_} _.

#[global] Instance result_eq_dec {A} `{EqDecision A} : EqDecision (result A).
Proof. solve_decision. Defined.

#[global] Instance result_ret : MRet result := fun A a => Ok a.
#[global] Instance result_bind : MBind result := fun A B f m =>
  match m with Ok a => f a | Raise e => Raise e end.
#[global] Instance result_fmap : FMap result := fun A B f m =>
  match m with Ok a => Ok (f a) | Raise e => Raise e end.

Definition is_ok {A} (m : result A) : bool :=
  match m with Ok _ => true | Raise _ => false end.

(** [assert b] of the source. *)
Definition py_assert (b : bool) : result unit :=
  if b then Ok tt else Raise AssertionError.

(** [raise e] unless [b]. *)
Definition ensure (b : bool) (e : exn) : result unit :=
  if b then Ok tt else Raise e.

(** Reading an option the way Python does: [None] raises [e]. *)
Definition or_raise {A} (e : exn) (o : option A) : result A :=
  match o with Some a => Ok a | None => Raise e end.

(** [try: m except classes: h], the handler choosing on the exception. *)
Definition py_except {A} (m : result A) (h : exn -> result A) : result A :=
  match m with Ok a => Ok a | Raise e => h e end.

Section ResultLemmas.
Context {A B : Type}.

Lemma bind_Ok (m : result A) (f : A -> result B) (b : B) :
  m ≫= f = Ok b <-> exists a, m = Ok a /\ f a = Ok b.
Proof. destruct m; simpl; naive_solver. Qed.

Lemma bind_Raise (m : result A) (f : A -> result B) (e : exn) :
  m ≫= f = Raise e <-> m = Raise e \/ exists a, m = Ok a /\ f a = Raise e.
Proof. destruct m; simpl; naive_solver. Qed.

Lemma or_raise_Ok (e : exn) (o : option A) (a : A) :
  or_raise e o = Ok a <-> o = Some a.
Proof. destruct o; simpl; naive_solver. Qed.

Lemma ensure_Ok (b : bool) (e : exn) : ensure b e = Ok tt <-> b = true.
Proof. destruct b; simpl; naive_solver. Qed.

Lemma py_assert_Ok (b : bool) : py_assert b = Ok tt <-> b = true.
Proof. destruct b; simpl; naive_solver. Qed.
End ResultLemmas.

Lemma mapM_Ok {A B} (f : A -> result B) (l : list A) (k : list B) :
  mapM f l = Ok k <-> Forall2 (fun x y => f x = Ok y) l k.
Proof.
  split.
  - revert k. induction l as [|x l IH]; intros k; simpl.
    + intros [= <-]. constructor.
    + intros (y & Hy & (ys & Hys & [= <-])%bind_Ok)%bind_Ok. constructor; auto.
  - induction 1 as [|x y l k Hxy _ IH]; simpl; [done|]. by rewrite Hxy; simpl; rewrite IH.
Qed.

(** A [for] loop that threads a state and stops at the first exception. *)
Fixpoint foldM {S A} (f : S -> A -> result S) (s : S) (l : list A) : result S :=
  match l with
  | [] => Ok s
  | a :: l' => s' ← f s a; foldM f s' l'
  end.

Lemma foldM_app {S A} (f : S -> A -> result S) s l k :
  foldM f s (l ++ k) = (s' ← foldM f s l; foldM f s' k).
Proof. revert s. induction l as [|a l IH]; intros s; simpl; [done|]. destruct (f s a); simpl; auto. Qed.

(** A loop whose steps all succeed is a pure fold. *)
Lemma foldM_pure {S A} (f : S -> A -> result S) (g : S -> A -> S) s l :
  (forall s a, a ∈ l -> f s a = Ok (g s a)) -> foldM f s l = Ok (foldl g s l).
Proof.
  revert s. induction l as [|a l IH]; intros s H; simpl; [done|].
  rewrite H by left. simpl. apply IH. intros s' a' Ha. apply H. by right.
Qed.

(** Decompose a successful sequence of calls into the success of each one. *)
Ltac inv_ok :=
  repeat match goal with
  | H : _ ≫= _ = Ok _ |- _ =>
      let a := fresh "a" in let Ha := fresh "Ha" in
      apply bind_Ok in H as (a & Ha & H)
  | H : Ok _ = Ok _ |- _ => injection H as H
  | H : mret _ = Ok _ |- _ => injection H as H
  | H : Raise _ = Ok _ |- _ => discriminate H
  | H : or_raise _ _ = Ok _ |- _ => apply or_raise_Ok in H
  | H : ensure _ _ = Ok ?u |- _ => destruct u; apply ensure_Ok in H
  | H : py_assert _ = Ok ?u |- _ => destruct u; apply py_assert_Ok in H
  end.

(** Split every boolean conjunction and reflect the comparisons on [Z]. *)
Ltac bool_hyps :=
  repeat match goal with
  | H : _ && _ = true |- _ => apply andb_true_iff in H as [? ?]
  | H : (_ <=? _) = true |- _ => apply Z.leb_le in H
  | H : (_ <=? _) = false |- _ => apply Z.leb_gt in H
  | H : (_ <? _) = true |- _ => apply Z.ltb_lt in H
  | H : (_ <? _) = false |- _ => apply Z.ltb_ge in H
  | H : (_ =? _) = true |- _ => apply Z.eqb_eq in H
  | H : (_ =? _) = false |- _ => apply Z.eqb_neq in H
  | H : bool_decide _ = true |- _ => apply bool_decide_eq_true in H
  | H : bool_decide _ = false |- _ => apply bool_decide_eq_false in H
  end.

(** ** The least and the greatest of a non-empty list *)
Lemma foldl_extremum (op : Z -> Z -> Z) (R : Z -> Z -> Prop) `{!PreOrder R} x xs :
  (forall a b, (op a b = a \/ op a b = b) /\ R (op a b) a /\ R (op a b) b) ->
  foldl op x xs ∈ x :: xs /\ Forall (R (foldl op x xs)) (x :: xs).
Proof.
  intros Hop. revert x. induction xs as [|y xs IH]; intros x; cbn [foldl]; [split; [by left|by repeat constructor]|].
  destruct (IH (op x y)) as [Hin Hall]. destruct (Hop x y) as (Hxy & Hx & Hy).
  rewrite !Forall_cons in *. destruct Hall as [Ho Hall]. split; [|repeat split; try done; by etransitivity].
  apply elem_of_cons in Hin as [->|Hin]; [destruct Hxy as [->| ->]; set_solver|set_solver].
Qed.

Lemma foldl_max_spec x xs : foldl Z.max x xs ∈ x :: xs /\ Forall (fun y => y <= foldl Z.max x xs) (x :: xs).
Proof.
  assert (PreOrder (fun a b => b <= a)) by (split; [intros ?; lia|intros ? ? ?; lia]).
  apply (foldl_extremum Z.max (fun a b => b <= a)). intros. lia.
Qed.

Lemma foldl_min_spec x xs : foldl Z.min x xs ∈ x :: xs /\ Forall (fun y => foldl Z.min x xs <= y) (x :: xs).
Proof. apply (foldl_extremum Z.min Z.le). intros. lia. Qed.

(** ** Python's [range(n)] on integers *)
Definition range (n : Z) : list Z := seqZ 0 n.

Lemma elem_of_range (i n : Z) : i ∈ range n <-> 0 <= i < n.
Proof. unfold range. rewrite elem_of_seqZ. lia. Qed.

(** ** Hint database of the development: arithmetic side conditions *)
Create HintDb py discriminated.
#[export] Hint Extern 4 (_ <= _)%Z => lia : py.
#[export] Hint Extern 4 (_ < _)%Z => lia : py.
#[export] Hint Resolve elem_of_range : py.
