(* ===== verification/PyIo.v ===== *)
(** * Effects

    A state and exception monad: an effect on a world returns the world and a value or an
    exception.  What a handler sees after an exception is the world as the failed call
    left it. *)

From S2P Require Import Prelude.

Section Io.
Context {W : Type}.
Definition io (A : Type) : Type := W -> W * result A.

Definition io_ret {A} (a : A) : io A := fun w => (w, Ok a).
Definition io_bind {A B} (m : io A) (f : A -> io B) : io B := fun w =>
  match m w with
  | (w', Ok a) => f a w'
  | (w', Raise e) => (w', Raise e)
  end.
Definition lift {A} (m : result A) : io A := fun w => (w, m).
(** [try: m except ...: h]. *)
Definition io_except {A} (m : io A) (h : exn -> io A) : io A := fun w =>
  match m w with
  | (w', Ok a) => (w', Ok a)
  | (w', Raise e) => h e w'
  end.

Fixpoint io_each {A} (f : A -> io unit) (l : list A) : io unit :=
  match l with
  | [] => io_ret tt
  | a :: l' => io_bind (f a) (fun _ => io_each f l')
  end.

Lemma io_bind_Ok {A B} (m : io A) (f : A -> io B) w w' b :
  io_bind m f w = (w', Ok b) <-> exists w1 a, m w = (w1, Ok a) /\ f a w1 = (w', Ok b).
Proof. unfold io_bind. destruct (m w) as [w1 [a|e]]; naive_solver. Qed.

Lemma io_bind_Raise {A B} (m : io A) (f : A -> io B) w w' e :
  io_bind m f w = (w', Raise e) <->
  m w = (w', Raise e) \/ exists w1 a, m w = (w1, Ok a) /\ f a w1 = (w', Raise e).
Proof. unfold io_bind. destruct (m w) as [w1 [a|e']]; naive_solver. Qed.
End Io.
Arguments io : clear implicits.

Notation "x <~ m ; k" := (io_bind m (fun x => k)) (at level 20, m at level 100, k at level 200, right associativity).

(** ** Invariants of effects *)

(** Whatever its outcome, the effect keeps the invariant. *)
Definition keeps {W A} (I : W -> Prop) (m : io W A) : Prop := forall w, I w -> I (m w).1.

Section Keeps.
Context {W : Type} (I : W -> Prop).

Lemma keeps_ret {A} (a : A) : keeps I (io_ret a).
Proof. by intros w. Qed.

Lemma keeps_lift {A} (r : result A) : keeps I (lift r).
Proof. by intros w. Qed.

Lemma keeps_bind {A B} (m : io W A) (f : A -> io W B) : keeps I m -> (forall a, keeps I (f a)) -> keeps I (io_bind m f).
Proof. intros Hm Hf w Hw. unfold io_bind. specialize (Hm w Hw). destruct (m w) as [w' [a|e]]; [by apply Hf|done]. Qed.

Lemma keeps_except {A} (m : io W A) (h : exn -> io W A) : keeps I m -> (forall e, keeps I (h e)) -> keeps I (io_except m h).
Proof. intros Hm Hh w Hw. unfold io_except. specialize (Hm w Hw). destruct (m w) as [w' [a|e]]; [done|by apply Hh]. Qed.

Lemma keeps_each {A} (f : A -> io W unit) l : (forall a, a ∈ l -> keeps I (f a)) -> keeps I (io_each f l).
Proof.
  induction l as [|a l IH]; intros Hf; cbn [io_each]; [apply keeps_ret|].
  apply keeps_bind; [apply Hf; by left|]. intros _. apply IH. intros b Hb. apply Hf. by right.
Qed.
End Keeps.

#[export] Hint Resolve keeps_ret keeps_lift keeps_bind keeps_except keeps_each : py.

(** ** The outcome of a loop *)

(** The items that were done, one after the other. *)
Inductive done {W A} (f : A -> io W unit) : list A -> W -> W -> Prop :=
  | done_nil w : done f [] w w
  | done_cons a l w w1 w' : f a w = (w1, Ok tt) -> done f l w1 w' -> done f (a :: l) w w'.

Lemma io_each_outcome {W A} (f : A -> io W unit) l w w' r :
  io_each f l w = (w', r) ->
  match r with
  | Ok _ => done f l w w'
  | Raise e => exists before a after w1, l = before ++ a :: after /\ done f before w w1 /\ f a w1 = (w', Raise e)
  end.
Proof.
  revert w. induction l as [|a l IH]; intros w; cbn [io_each].
  - intros [= <- <-]. constructor.
  - unfold io_bind. destruct (f a w) as [w1 [[]|e]] eqn:E.
    + intros H%IH. destruct r as [[]|e]; [by econstructor|]. destruct H as (before & b & after & w2 & -> & Hd & Hb).
      exists (a :: before), b, after, w2. split; [done|]. split; [by econstructor|done].
    + intros [= <- <-]. exists [], a, l, w. split; [done|]. split; [constructor|done].
Qed.
