(* ===== verification/PyStr.v ===== *)
(** * Python strings

    A [str] is a Rocq [string]; each character stands for the code point of the
    same number, so the model covers the code points 0 to 255 (what the logs,
    the paths and the configuration files of the benchmark contain).  This file
    models the parts of the [str] type the source uses: comparison, membership,
    [startswith], [splitlines], [strip], [join], [lower], and the universal
    newline translation of files opened in text mode. *)

From S2P Require Import Prelude.
From Stdlib Require Export Ascii String.

#[global] Arguments String.append !_ _ /.

Abbreviation length := List.length.

Definition nl : ascii := "010"%char.
Definition cr : ascii := "013"%char.
(** The one-character strings for a newline and for a double quote. *)
Definition NL : string := String nl EmptyString.
Definition DQ : string := String "034"%char EmptyString.

Lemma str_app_nil_r (s : string) : (s ++ "")%string = s.
Proof. induction s; simpl; congruence. Qed.

Lemma str_app_assoc (a b c : string) : (a ++ (b ++ c))%string = ((a ++ b) ++ c)%string.
Proof. induction a; simpl; congruence. Qed.

Lemma str_length_app (a b : string) :
  String.length (a ++ b) = (String.length a + String.length b)%nat.
Proof. induction a; simpl; congruence. Qed.

Lemma str_app_inj_l (a b c : string) : (a ++ b)%string = (a ++ c)%string -> b = c.
Proof. induction a; simpl; naive_solver. Qed.

(** ** Predicates on all the characters, occurrence of a character *)

Fixpoint str_all (p : ascii -> bool) (s : string) : bool :=
  match s with
  | EmptyString => true
  | String c s' => p c && str_all p s'
  end.

(** [c in s] for a single character. *)
Definition has_char (c : ascii) (s : string) : bool := negb (str_all (fun d => negb (Ascii.eqb c d)) s).

Lemma str_all_app p (a b : string) : str_all p (a ++ b) = str_all p a && str_all p b.
Proof. induction a; simpl; [done|]. by rewrite IHa, andb_assoc. Qed.

Lemma has_char_app c (a b : string) : has_char c (a ++ b) = has_char c a || has_char c b.
Proof. unfold has_char. rewrite str_all_app. by rewrite negb_andb. Qed.

Lemma has_char_cons c d (s : string) : has_char c (String d s) = Ascii.eqb c d || has_char c s.
Proof. unfold has_char. simpl. by destruct (Ascii.eqb c d). Qed.

Lemma str_all_weaken (p q : ascii -> bool) (s : string) :
  (forall c, p c = true -> q c = true) -> str_all p s = true -> str_all q s = true.
Proof.
  intros Hpq. induction s as [|c s IH]; simpl; [done|].
  rewrite !andb_true_iff. naive_solver.
Qed.

Lemma str_all_no_char (p : ascii -> bool) c (s : string) :
  p c = false -> str_all p s = true -> has_char c s = false.
Proof.
  intros Hc. unfold has_char. induction s as [|d s IH]; simpl; [done|].
  rewrite andb_true_iff. intros [Hd Hs]. destruct (Ascii.eqb_spec c d) as [->|]; simpl; [congruence|auto].
Qed.

(** ** Prefixes and substrings *)

(** [s[len(l):]] when [s.startswith(l)]. *)
Fixpoint strip_prefix (l s : string) : option string :=
  match l, s with
  | EmptyString, _ => Some s
  | String c l', String d s' => if Ascii.eqb c d then strip_prefix l' s' else None
  | String _ _, EmptyString => None
  end.

Definition startswith (l s : string) : bool :=
  match strip_prefix l s with Some _ => true | None => false end.

(** [l in s]. *)
Fixpoint contains (l s : string) : bool :=
  startswith l s || match s with EmptyString => false | String _ s' => contains l s' end.

Lemma strip_prefix_app (l s : string) : strip_prefix l (l ++ s) = Some s.
Proof. induction l; simpl; [done|]. by rewrite Ascii.eqb_refl. Qed.

Lemma strip_prefix_Some (l s r : string) : strip_prefix l s = Some r <-> s = (l ++ r)%string.
Proof.
  split; [|intros ->; apply strip_prefix_app].
  revert s. induction l as [|c l IH]; intros s; simpl; [congruence|].
  destruct s as [|d s]; [done|]. destruct (Ascii.eqb_spec c d); [|done].
  intros H%IH. congruence.
Qed.

Lemma strip_prefix_no_char (l s : string) c :
  has_char c l = true -> has_char c s = false -> strip_prefix l s = None.
Proof.
  intros Hl Hs. destruct (strip_prefix l s) eqn:E; [|done].
  apply strip_prefix_Some in E as ->. rewrite has_char_app, Hl in Hs. done.
Qed.

Lemma contains_true_iff (l s : string) :
  contains l s = true <-> exists a b, s = (a ++ l ++ b)%string.
Proof.
  induction s as [|c s IH]; simpl; unfold startswith in *.
  - destruct l; simpl; split; try done.
    + by exists EmptyString, EmptyString.
    + intros ([|? ?] & b & [=]).
  - rewrite orb_true_iff, IH. split.
    + intros [H|(a & b & ->)].
      * destruct (strip_prefix l (String c s)) as [r|] eqn:E; [|done].
        apply strip_prefix_Some in E. exists EmptyString, r. done.
      * by exists (String c a), b.
    + intros ([|d a] & b & H); simpl in H.
      * left. by rewrite H, strip_prefix_app.
      * right. injection H as -> ->. by exists a, b.
Qed.

Lemma contains_no_char (l s : string) c :
  has_char c l = true -> has_char c s = false -> contains l s = false.
Proof.
  intros Hl Hs. destruct (contains l s) eqn:E; [|done].
  apply contains_true_iff in E as (a & b & ->).
  rewrite !has_char_app, Hl, orb_true_r in Hs. done.
Qed.

(** ** [splitlines] and universal newlines *)

(** The line boundaries of [str.splitlines] below code point 256. *)
Definition is_line_break (c : ascii) : bool :=
  let n := nat_of_ascii c in
  ((10 <=? n)%nat && (n <=? 13)%nat) || ((28 <=? n)%nat && (n <=? 30)%nat) || (n =? 133)%nat.

(** [s.splitlines()], [cur] being the reversed start of the current line. *)
Fixpoint str_rev_app (s acc : string) : string :=
  match s with EmptyString => acc | String c s' => str_rev_app s' (String c acc) end.

Fixpoint splitlines_go (cur s : string) : list string :=
  match s with
  | EmptyString => match cur with EmptyString => [] | _ => [str_rev_app cur EmptyString] end
  | String c s' =>
      if is_line_break c then
        let rest := match s' with
                    | String d s'' =>
                        if Ascii.eqb c cr && Ascii.eqb d nl then splitlines_go EmptyString s''
                        else splitlines_go EmptyString s'
                    | EmptyString => []
                    end in
        str_rev_app cur EmptyString :: rest
      else splitlines_go (String c cur) s'
  end.

Definition splitlines (s : string) : list string := splitlines_go EmptyString s.

(** Reading a file in text mode replaces CR LF and CR by LF. *)
Fixpoint universal_newlines (s : string) : string :=
  match s with
  | EmptyString => EmptyString
  | String c s' =>
      if Ascii.eqb c cr then
        match s' with
        | String d s'' => if Ascii.eqb d nl then String nl (universal_newlines s'')
                          else String nl (universal_newlines s')
        | EmptyString => String nl EmptyString
        end
      else String c (universal_newlines s')
  end.

Lemma str_rev_app_app (a b : string) : (str_rev_app a "" ++ b)%string = str_rev_app a b.
Proof.
  enough (forall c d, (str_rev_app a c ++ d)%string = str_rev_app a (c ++ d)) as H by apply H.
  induction a as [|x a IH]; intros c d; simpl; [done|]. by rewrite IH.
Qed.

Lemma splitlines_line (cur l s : string) :
  str_all (fun c => negb (is_line_break c)) l = true ->
  splitlines_go cur (l ++ String nl s)
  = str_rev_app cur l :: splitlines s.
Proof.
  revert cur. induction l as [|c l IH]; intros cur; simpl.
  - intros _. f_equal. by destruct s.
  - rewrite andb_true_iff, negb_true_iff. intros [-> Hl]. by rewrite IH.
Qed.

(** Splitting newline-terminated rows gives the rows back. *)
Lemma splitlines_rows (rows : list string) :
  Forall (fun r => str_all (fun c => negb (is_line_break c)) r = true) rows ->
  splitlines (foldr (fun r s => r ++ String nl s)%string EmptyString rows) = rows.
Proof.
  induction 1 as [|r rows Hr _ IH]; simpl; [done|].
  unfold splitlines at 1. rewrite splitlines_line by done. simpl. by rewrite IH.
Qed.

Lemma universal_newlines_no_cr (s : string) : has_char cr (universal_newlines s) = false.
Proof.
  enough (forall n s, (String.length s <= n)%nat -> has_char cr (universal_newlines s) = false) by eauto.
  clear s. induction n as [|n IH]; intros [|c s] Hn; simpl in *; try lia; [done..|].
  destruct (Ascii.eqb_spec c cr) as [->|Hc].
  - destruct s as [|d s]; [done|]. simpl in Hn.
    destruct (Ascii.eqb d nl); rewrite has_char_cons; [apply (IH s)|apply (IH (String d s))]; simpl; lia.
  - rewrite has_char_cons, IH by lia. destruct (Ascii.eqb_spec cr c); simpl; congruence.
Qed.

Lemma universal_newlines_id (s : string) : has_char cr s = false -> universal_newlines s = s.
Proof.
  induction s as [|c s IH]; simpl; [done|]. rewrite has_char_cons, orb_false_iff. intros [Hc Hs].
  destruct (Ascii.eqb_spec c cr) as [->|_]; [done|]. by rewrite IH.
Qed.

(** A text that does not begin with a newline is translated apart from what is before it. *)
Lemma universal_newlines_app (a b : string) (c : ascii) :
  c <> nl -> universal_newlines (a ++ String c b) = (universal_newlines a ++ universal_newlines (String c b))%string.
Proof.
  intros Hc. enough (forall n a, (String.length a <= n)%nat ->
    universal_newlines (a ++ String c b) = (universal_newlines a ++ universal_newlines (String c b))%string) as H by eauto.
  clear a. induction n as [|n IH]; intros [|d a] Hn; cbn [String.length] in Hn; try lia; [done..|].
  cbn [String.append]. destruct (Ascii.eqb d cr) eqn:Hd.
  - destruct a as [|e a].
    + cbn [universal_newlines String.append]. rewrite Hd. destruct (Ascii.eqb_spec c nl); [done|]. done.
    + cbn [String.append String.length] in *. cbn [universal_newlines] in *. rewrite Hd.
      destruct (Ascii.eqb e nl); cbn [String.append]; f_equal; [apply IH; lia|apply (IH (String e a)); cbn; lia].
  - cbn [universal_newlines]. rewrite Hd. cbn [String.append]. f_equal. apply IH. lia.
Qed.

(** Two cuts of the same text. *)
Lemma str_app_cut (a b c d : string) :
  (a ++ b)%string = (c ++ d)%string ->
  (exists t, c = (a ++ t)%string /\ b = (t ++ d)%string) \/ exists t, a = (c ++ t)%string /\ d = (t ++ b)%string.
Proof.
  revert c. induction a as [|x a IH]; intros c H; cbn in H; [left; by exists c|].
  destruct c as [|y c]; cbn in H; [right; by exists (String x a)|]. injection H as <- H.
  destruct (IH c H) as [(t & -> & ->)|(t & -> & ->)]; [left|right]; by exists t.
Qed.

(** ** [strip] and [lower] *)

(** [str.isspace] below code point 256. *)
Definition is_space (c : ascii) : bool :=
  let n := nat_of_ascii c in
  ((9 <=? n)%nat && (n <=? 13)%nat) || ((28 <=? n)%nat && (n <=? 32)%nat)
  || (n =? 133)%nat || (n =? 160)%nat.

Fixpoint lstrip (s : string) : string :=
  match s with
  | EmptyString => EmptyString
  | String c s' => if is_space c then lstrip s' else s
  end.

Definition rstrip (s : string) : string :=
  str_rev_app (lstrip (str_rev_app s EmptyString)) EmptyString.

Definition strip (s : string) : string := rstrip (lstrip s).

(** ASCII case folding, what [re.IGNORECASE] does on ASCII letters. *)
Definition lower_char (c : ascii) : ascii :=
  let n := nat_of_ascii c in
  if (65 <=? n)%nat && (n <=? 90)%nat then ascii_of_nat (n + 32) else c.

Fixpoint lower (s : string) : string :=
  match s with EmptyString => EmptyString | String c s' => String (lower_char c) (lower s') end.

Lemma lstrip_no_space (s : string) : str_all (fun c => negb (is_space c)) s = true -> lstrip s = s.
Proof. destruct s as [|c s]; simpl; [done|]. by destruct (is_space c). Qed.

Lemma str_all_rev_app p (a b : string) : str_all p (str_rev_app a b) = str_all p a && str_all p b.
Proof.
  revert b. induction a as [|c a IH]; intros b; simpl; [done|]. rewrite IH. simpl.
  by destruct (p c), (str_all p a).
Qed.

Lemma str_rev_app_involutive (a b c : string) :
  str_rev_app (str_rev_app a b) c = str_rev_app b (a ++ c)%string.
Proof. revert b. induction a as [|x a IH]; intros b; simpl; [done|]. by rewrite IH. Qed.

Lemma str_rev_app_cat (a b c : string) :
  str_rev_app (a ++ b) c = str_rev_app b (str_rev_app a c).
Proof. revert c. induction a as [|x a IH]; intros c; simpl; [done|]. by rewrite IH. Qed.

Lemma rstrip_space (s : string) c : is_space c = true -> rstrip (s ++ String c "") = rstrip s.
Proof. intros Hc. unfold rstrip. rewrite str_rev_app_cat. simpl. by rewrite Hc. Qed.

Lemma rstrip_no_space (s : string) : str_all (fun c => negb (is_space c)) s = true -> rstrip s = s.
Proof.
  intros Hs. unfold rstrip. rewrite lstrip_no_space by (rewrite str_all_rev_app, Hs; done).
  rewrite str_rev_app_involutive. simpl. apply str_app_nil_r.
Qed.

Lemma strip_no_space (s : string) : str_all (fun c => negb (is_space c)) s = true -> strip s = s.
Proof. intros Hs. unfold strip. by rewrite lstrip_no_space, rstrip_no_space. Qed.

(** A word written with a newline after it is read back by [strip]. *)
Lemma strip_word_nl (s : string) :
  str_all (fun c => negb (is_space c)) s = true -> strip (s ++ NL) = s.
Proof.
  intros Hs. destruct s as [|c s]; [done|]. unfold strip, NL.
  assert (lstrip (String c s ++ String nl "") = (String c s ++ String nl "")%string) as ->.
  - simpl in *. apply andb_true_iff in Hs as [Hc _]. by destruct (is_space c).
  - by rewrite rstrip_space, rstrip_no_space.
Qed.

(** ** [str.split()] *)
Fixpoint split_go (cur s : string) : list string :=
  let word := match cur with EmptyString => [] | _ => [str_rev_app cur EmptyString] end in
  match s with
  | EmptyString => word
  | String c s' => if is_space c then word ++ split_go EmptyString s' else split_go (String c cur) s'
  end.
Definition split_words (s : string) : list string := split_go EmptyString s.

Lemma split_go_word cur w s :
  str_all (fun c => negb (is_space c)) w = true -> split_go cur (w ++ s) = split_go (str_rev_app w cur) s.
Proof.
  revert cur. induction w as [|c w IH]; intros cur Hw; [done|]. cbn [str_all] in Hw.
  apply andb_true_iff in Hw as [Hc Hw]. apply negb_true_iff in Hc.
  cbn [String.append split_go]. rewrite Hc. rewrite IH by done. done.
Qed.

Lemma str_rev_nonempty w : w <> EmptyString -> exists c r, str_rev_app w "" = String c r.
Proof.
  intros Hne. destruct (str_rev_app w "") as [|c r] eqn:E; [|by exists c, r]. exfalso. apply Hne.
  apply (f_equal (fun s => str_rev_app s "")) in E. rewrite str_rev_app_involutive in E. cbn in E.
  by rewrite str_app_nil_r in E.
Qed.

Lemma str_rev_twice w : str_rev_app (str_rev_app w "") "" = w.
Proof. rewrite str_rev_app_involutive. cbn. apply str_app_nil_r. Qed.

Lemma split_words_cons w s :
  w <> EmptyString -> str_all (fun c => negb (is_space c)) w = true ->
  split_words (w ++ " " ++ s) = w :: split_words s.
Proof.
  intros Hne Hw. unfold split_words. rewrite split_go_word by done.
  destruct (str_rev_nonempty w Hne) as (c & r & E). rewrite E.
  change (split_go (String c r) (" " ++ s)) with (str_rev_app (String c r) "" :: split_go "" s).
  by rewrite <-E, str_rev_twice.
Qed.

Lemma split_words_one w :
  w <> EmptyString -> str_all (fun c => negb (is_space c)) w = true -> split_words w = [w].
Proof.
  intros Hne Hw. rewrite <-(str_app_nil_r w) at 1. unfold split_words. rewrite split_go_word by done.
  destruct (str_rev_nonempty w Hne) as (c & r & E). rewrite E.
  change (split_go (String c r) "") with [str_rev_app (String c r) ""]. by rewrite <-E, str_rev_twice.
Qed.

(** ** Spaces *)

(** [' ' * n] *)
Fixpoint blanks (n : nat) : string := match n with O => EmptyString | S n => String " " (blanks n) end.

Lemma blanks_app n m : (blanks n ++ blanks m)%string = blanks (n + m).
Proof. induction n as [|n IH]; [done|]. cbn. by rewrite IH. Qed.

(** [sep.join(l)] *)
Fixpoint join (sep : string) (l : list string) : string :=
  match l with
  | [] => EmptyString
  | [s] => s
  | s :: l' => (s ++ sep ++ join sep l')%string
  end.
