(* ===== verification/PyInt.v ===== *)
(** * Decimal text of Python integers

    [str(n)], the format [{:0w}] and [int(s)], with the lemmas that make them
    inverse to each other and that relate the alphabetical order of texts of the
    same width with the order of the integers. *)

From S2P Require Import Prelude PyStr.

(** ** Digits *)

Definition digit_char (d : Z) : ascii := ascii_of_nat (48 + Z.to_nat d).
Definition digit_val (c : ascii) : Z := Z.of_nat (nat_of_ascii c) - 48.
Definition is_digit (c : ascii) : bool :=
  let n := nat_of_ascii c in (48 <=? n)%nat && (n <=? 57)%nat.

#[global] Arguments digit_char : simpl never.
#[global] Arguments digit_val : simpl never.
#[global] Arguments is_digit : simpl never.

(** The [w] last decimal digits of [n]. *)
Fixpoint fixed_width (w : nat) (n : Z) : string :=
  match w with
  | O => EmptyString
  | S w' => String (digit_char (n / 10 ^ Z.of_nat w' mod 10)) (fixed_width w' n)
  end.

(** The number of decimal digits of [n >= 0]. *)
Fixpoint ndigits_go (fuel : nat) (n : Z) : nat :=
  match fuel with
  | O => 1
  | S f => if n <? 10 then 1%nat else S (ndigits_go f (n / 10))
  end.
Definition ndigits (n : Z) : nat := ndigits_go (Z.to_nat (Z.log2 n)) n.

(** [str(n)] *)
Definition str_of_Z (n : Z) : string :=
  if n <? 0 then ("-" ++ fixed_width (ndigits (- n)) (- n))%string
  else fixed_width (ndigits n) n.

(** ['{:0w}'.format(n)]: zeros after the sign, never truncates. *)
Definition fmt0 (w : nat) (n : Z) : string :=
  if n <? 0 then ("-" ++ fixed_width (Nat.max (w - 1) (ndigits (- n))) (- n))%string
  else fixed_width (Nat.max w (ndigits n)) n.

(** The value of a text of digits. *)
Fixpoint digits_val (acc : Z) (s : string) : Z :=
  match s with
  | EmptyString => acc
  | String c s' => digits_val (10 * acc + digit_val c) s'
  end.

(** The digits of [int]'s argument, single underscores allowed between two. *)
Fixpoint int_body (acc : Z) (after_digit : bool) (s : string) : option Z :=
  match s with
  | EmptyString => if after_digit then Some acc else None
  | String c s' =>
      if is_digit c then int_body (10 * acc + digit_val c) true s'
      else if Ascii.eqb c "_" && after_digit then int_body acc false s'
      else None
  end.

(** [int(s)] *)
Definition py_int (s : string) : result Z :=
  or_raise ValueError
    match strip s with
    | String "-" s' => Z.opp <$> int_body 0 false s'
    | String "+" s' => int_body 0 false s'
    | s' => int_body 0 false s'
    end.

(** ** Lemmas *)

Lemma digit_char_val (d : Z) : 0 <= d < 10 -> digit_val (digit_char d) = d.
Proof.
  intros H. unfold digit_val, digit_char. rewrite nat_ascii_embedding by lia. lia.
Qed.

Lemma digit_char_is_digit (d : Z) : 0 <= d < 10 -> is_digit (digit_char d) = true.
Proof.
  intros H. unfold is_digit, digit_char. rewrite nat_ascii_embedding by lia.
  apply andb_true_iff. rewrite !Nat.leb_le. lia.
Qed.

Lemma fixed_width_length w n : String.length (fixed_width w n) = w.
Proof. induction w; simpl; congruence. Qed.

Lemma fixed_width_digits w n : str_all is_digit (fixed_width w n) = true.
Proof.
  induction w as [|w IH]; cbn [fixed_width str_all]; [done|].
  rewrite digit_char_is_digit by (apply Z.mod_pos_bound; lia). done.
Qed.

Lemma pow10_succ (w : nat) : 10 ^ Z.of_nat (S w) = 10 * 10 ^ Z.of_nat w.
Proof. rewrite Nat2Z.inj_succ, Z.pow_succ_r; lia. Qed.

Lemma pow10_pos (w : nat) : 0 < 10 ^ Z.of_nat w.
Proof. apply Z.pow_pos_nonneg; lia. Qed.

Lemma mod_pow10_succ (n : Z) (w : nat) :
  n mod 10 ^ Z.of_nat (S w) = 10 ^ Z.of_nat w * (n / 10 ^ Z.of_nat w mod 10) + n mod 10 ^ Z.of_nat w.
Proof.
  pose proof (pow10_pos w). rewrite pow10_succ, (Z.mul_comm 10), Z.rem_mul_r by lia. lia.
Qed.

Lemma digits_val_fixed_width acc w n :
  digits_val acc (fixed_width w n) = acc * 10 ^ Z.of_nat w + n mod 10 ^ Z.of_nat w.
Proof.
  revert acc. induction w as [|w IH]; intros acc; cbn [fixed_width digits_val].
  - rewrite Z.mod_1_r. lia.
  - rewrite digit_char_val by (apply Z.mod_pos_bound; lia).
    rewrite IH, mod_pow10_succ, pow10_succ. lia.
Qed.

Lemma ndigits_go_spec fuel n :
  0 <= n < 2 ^ Z.of_nat (S fuel) ->
  n < 10 ^ Z.of_nat (ndigits_go fuel n)
  /\ (ndigits_go fuel n = 1%nat \/ 10 ^ (Z.of_nat (ndigits_go fuel n) - 1) <= n).
Proof.
  revert n. induction fuel as [|f IH]; intros n Hn.
  - simpl in *. lia.
  - cbn [ndigits_go]. rewrite Nat2Z.inj_succ, Z.pow_succ_r in Hn by lia.
    destruct (Z.ltb_spec n 10); [simpl; lia|].
    pose proof (Z.div_mod n 10 ltac:(lia)). pose proof (Z.mod_pos_bound n 10 ltac:(lia)).
    destruct (IH (n / 10)) as [B1 B2]; [lia|].
    rewrite pow10_succ. split; [lia|right].
    replace (Z.of_nat (S _) - 1) with (Z.succ (Z.of_nat (ndigits_go f (n / 10)) - 1)) by lia.
    destruct B2 as [->|B2]; [simpl; lia|].
    destruct (Nat.eq_dec (ndigits_go f (n / 10)) 0) as [->|]; [simpl; lia|].
    rewrite Z.pow_succ_r by lia. lia.
Qed.

Lemma ndigits_spec n :
  0 <= n -> n < 10 ^ Z.of_nat (ndigits n)
            /\ (ndigits n = 1%nat \/ 10 ^ (Z.of_nat (ndigits n) - 1) <= n).
Proof.
  intros Hn. apply ndigits_go_spec. split; [done|].
  rewrite Nat2Z.inj_succ, Z2Nat.id by apply Z.log2_nonneg.
  destruct (Z.eq_dec n 0) as [->|]; [simpl; lia|]. apply Z.log2_spec; lia.
Qed.

Lemma ndigits_pos n : (1 <= ndigits n)%nat.
Proof. unfold ndigits. destruct (Z.to_nat _); simpl; [lia|]. destruct (_ <? _); lia. Qed.

Lemma ndigits_mono a b : 0 <= a <= b -> (ndigits a <= ndigits b)%nat.
Proof.
  intros H. destruct (ndigits_spec a) as [_ [Ha|Ha]]; [lia| |].
  - pose proof (ndigits_pos b). lia.
  - destruct (ndigits_spec b) as [Hb _]; [lia|].
    destruct (Nat.le_gt_cases (ndigits a) (ndigits b)); [done|].
    assert (10 ^ Z.of_nat (ndigits b) <= 10 ^ (Z.of_nat (ndigits a) - 1)); [|lia].
    apply Z.pow_le_mono_r; lia.
Qed.

Lemma digits_val_fixed_width_small w n :
  0 <= n < 10 ^ Z.of_nat w -> digits_val 0 (fixed_width w n) = n.
Proof. intros H. rewrite digits_val_fixed_width, Z.mod_small; lia. Qed.

Lemma fixed_width_inj w a b :
  0 <= a < 10 ^ Z.of_nat w -> 0 <= b < 10 ^ Z.of_nat w ->
  fixed_width w a = fixed_width w b -> a = b.
Proof.
  intros Ha Hb H%(f_equal (digits_val 0)). by rewrite !digits_val_fixed_width_small in H.
Qed.

Lemma int_body_digits acc d s :
  str_all is_digit s = true -> (d = true \/ s <> EmptyString) -> int_body acc d s = Some (digits_val acc s).
Proof.
  revert acc d. induction s as [|c s IH]; intros acc d; simpl.
  - intros _ [->|]; done.
  - rewrite andb_true_iff. intros [-> Hs] _. apply IH; auto.
Qed.

Lemma is_digit_not_space c : is_digit c = true -> negb (is_space c) = true.
Proof.
  unfold is_digit, is_space. rewrite andb_true_iff, !Nat.leb_le. intros [H1 H2].
  rewrite negb_true_iff, !orb_false_iff, !andb_false_iff, !Nat.leb_gt, !Nat.eqb_neq. lia.
Qed.

(** [int] on a capture of [[0-9]+]. *)
Lemma py_int_digits s :
  str_all is_digit s = true -> s <> EmptyString -> py_int s = Ok (digits_val 0 s).
Proof.
  intros Hd Hs. unfold py_int.
  rewrite strip_no_space by (eapply str_all_weaken; [apply is_digit_not_space|done]).
  destruct s as [|c s]; [done|]. assert (is_digit c = true) as Hc by (simpl in Hd; by destruct (is_digit c)).
  pose proof (int_body_digits 0 false (String c s) Hd (or_intror Hs)) as E.
  clear Hd. destruct c as [[] [] [] [] [] [] [] []]; first [discriminate Hc | by rewrite E].
Qed.

Lemma str_of_Z_nonneg n : 0 <= n -> str_of_Z n = fixed_width (ndigits n) n.
Proof. intros H. unfold str_of_Z. destruct (Z.ltb_spec n 0); [lia|done]. Qed.

Lemma str_of_Z_digits n : 0 <= n -> str_all is_digit (str_of_Z n) = true.
Proof. intros H. rewrite str_of_Z_nonneg by done. apply fixed_width_digits. Qed.

Lemma str_of_Z_nonempty n : 0 <= n -> str_of_Z n <> EmptyString.
Proof.
  intros H. rewrite str_of_Z_nonneg by done. pose proof (ndigits_pos n).
  by destruct (ndigits n); [lia|].
Qed.

(** [int(str(n)) = n] *)
Lemma py_int_str_of_Z n : 0 <= n -> py_int (str_of_Z n) = Ok n.
Proof.
  intros H. rewrite py_int_digits by eauto using str_of_Z_digits, str_of_Z_nonempty.
  rewrite str_of_Z_nonneg, digits_val_fixed_width_small by (try apply conj; try apply ndigits_spec; lia).
  done.
Qed.

(** ** Alphabetical order *)

Lemma N_of_digit_char a : 0 <= a < 10 -> N_of_ascii (digit_char a) = Z.to_N (48 + a).
Proof.
  intros H. pose proof (digit_char_val a H) as E. unfold digit_val, nat_of_ascii in E. lia.
Qed.

Lemma digit_char_compare a b : 0 <= a < 10 -> 0 <= b < 10 ->
  Ascii.compare (digit_char a) (digit_char b) = (a ?= b)%Z.
Proof.
  intros Ha Hb. unfold Ascii.compare. rewrite !N_of_digit_char by done.
  rewrite Z2N.inj_compare by lia. destruct (Z.compare_spec (48 + a) (48 + b)), (Z.compare_spec a b); lia || done.
Qed.

Lemma fixed_width_compare w a b :
  0 <= a < 10 ^ Z.of_nat w -> 0 <= b < 10 ^ Z.of_nat w ->
  String.compare (fixed_width w a) (fixed_width w b) = (a ?= b)%Z.
Proof.
  intros Ha Hb.
  enough (String.compare (fixed_width w a) (fixed_width w b)
          = (a mod 10 ^ Z.of_nat w ?= b mod 10 ^ Z.of_nat w)%Z) as ->.
  { by rewrite !Z.mod_small. }
  clear Ha Hb. induction w as [|w IH]; [simpl; by rewrite !Z.mod_1_r|].
  cbn [fixed_width String.compare].
  rewrite digit_char_compare by (apply Z.mod_pos_bound; lia).
  rewrite IH, !mod_pow10_succ. clear IH. pose proof (pow10_pos w).
  pose proof (Z.mod_pos_bound a (10 ^ Z.of_nat w) ltac:(lia)).
  pose proof (Z.mod_pos_bound b (10 ^ Z.of_nat w) ltac:(lia)).
  generalize dependent (10 ^ Z.of_nat w). intros p Hp Ha Hb.
  destruct (Z.compare_spec (a / p mod 10) (b / p mod 10)) as [->|Hlt|Hlt].
  - by rewrite Z.add_compare_mono_l.
  - symmetry. apply Z.compare_lt_iff. nia.
  - symmetry. apply Z.compare_gt_iff. nia.
Qed.

Lemma str_compare_app (p a b : string) : String.compare (p ++ a) (p ++ b) = String.compare a b.
Proof.
  induction p as [|c p IH]; simpl; [done|].
  assert (Ascii.compare c c = Eq) as -> by (unfold Ascii.compare; apply N.compare_refl). done.
Qed.
