(* ===== verification/PyFloat.v ===== *)
(** * Python floats

    A Python [float] is an IEEE 754 binary64 number.  Every finite one is an
    integer multiple of 2^-1074, so a float is represented by that integer: the
    real number [x * 2^-1074] is the float [x : Z], subnormal numbers included.
    Each operation is the exact rational operation followed by one rounding to
    the nearest representable number, ties to even ([round_frac]).  Overflow to
    infinity is not modelled (the exponent is unbounded above): the program's
    floats are times, durations and rates.  The two signed zeros are identified.
    A NaN is the [None] of [option float], in the only place the code makes one. *)

From S2P Require Import Prelude.

Definition float : Type := Z.

(** The float 1.0, that is 2^1074 units; kept folded by the tactics. *)
Definition one : Z := 2 ^ 1074.

(** The integer nearest to [n / d], ties to even: Python's [round]. *)
Definition round_half_even (n d : Z) : Z :=
  let q := n / d in
  let r := n mod d in
  if 2 * r <? d then q
  else if d <? 2 * r then q + 1
  else if Z.even q then q else q + 1.

(** The binary exponent of the last place of a 53-bit significand for [q] units. *)
Definition ulp_exp (q : Z) : Z := Z.max 0 (Z.log2 q - 52).

(** The float nearest to [n / d] units, for [d > 0]. *)
Definition round_frac (n d : Z) : float :=
  let e := ulp_exp (Z.abs n / d) in
  round_half_even n (d * 2 ^ e) * 2 ^ e.

(** [float(n)] for an integer. *)
Definition of_int (n : Z) : float := round_frac (n * one) 1.
(** [float(n)] raises when the float nearest to [n] is beyond the range. *)
Definition int_fits (n : Z) : bool := Z.abs (of_int n) <? 2 ^ 1024 * one.
#[global] Arguments int_fits : simpl never.
Definition float_of_int (n : Z) : result float := if int_fits n then Ok (of_int n) else Raise OverflowError.
(** [x + y], [x - y], [x * y]. *)
Definition fadd (x y : float) : float := round_frac (x + y) 1.
Definition fsub (x y : float) : float := round_frac (x - y) 1.
Definition fmul (x y : float) : float := round_frac (x * y) one.

(** [n / d] on the exact values of the operands, raising on a zero divisor. *)
Definition div_units (n d : Z) : result float :=
  if d =? 0 then Raise ZeroDivisionError
  else Ok (if 0 <? d then round_frac (n * one) d else round_frac (- n * one) (- d)).

(** [x / y] on floats and [n / d] on integers: both round the exact quotient once. *)
Definition fdiv (x y : float) : result float := div_units x y.
Definition truediv (n d : Z) : result float := div_units n d.

(** [math.floor(x)], [int(x)] and [round(x)]. *)
Definition ffloor (x : float) : Z := x / one.
Definition ftrunc (x : float) : Z := Z.quot x one.
Definition fround (x : float) : Z := round_half_even x one.

(** [round(x, nd)]: round the decimal expansion, then to the nearest float. *)
Definition fround_digits (nd : Z) (x : float) : float :=
  round_frac (round_half_even (x * 10 ^ nd) one * one) (10 ^ nd).

(** ** Lemmas *)

Lemma one_pos : 0 < one.
Proof. unfold one. apply Z.pow_pos_nonneg; lia. Qed.

Lemma one_split k : 0 <= k <= 1074 -> one = 2 ^ k * 2 ^ (1074 - k).
Proof. intros H. unfold one. rewrite <-Z.pow_add_r by lia. f_equal. lia. Qed.

#[global] Opaque one.

(** The rounded integer is within one half of the quotient. *)
Lemma round_half_even_bound n d :
  0 < d -> - d <= 2 * (round_half_even n d * d - n) <= d.
Proof.
  intros Hd. unfold round_half_even.
  pose proof (Z.div_mod n d ltac:(lia)). pose proof (Z.mod_pos_bound n d Hd).
  destruct (Z.ltb_spec (2 * (n mod d)) d); [nia|].
  destruct (Z.ltb_spec d (2 * (n mod d))); [nia|].
  destruct (Z.even _); nia.
Qed.

Lemma round_half_even_exact n d : 0 < d -> round_half_even (n * d) d = n.
Proof.
  intros Hd. unfold round_half_even. rewrite Z.div_mul, Z.mod_mul by lia.
  destruct (Z.ltb_spec (2 * 0) d); lia.
Qed.

Lemma round_half_even_mono n1 n2 d :
  0 < d -> n1 <= n2 -> round_half_even n1 d <= round_half_even n2 d.
Proof.
  intros Hd Hn. pose proof (round_half_even_bound n1 d Hd). pose proof (round_half_even_bound n2 d Hd).
  destruct (Z.eq_dec (n1 / d) (n2 / d)) as [E|E].
  - unfold round_half_even in *. rewrite <-E in *.
    pose proof (Z.div_mod n1 d ltac:(lia)). pose proof (Z.div_mod n2 d ltac:(lia)). rewrite <-E in *.
    assert (n1 mod d <= n2 mod d) by lia. clear H H0.
    destruct (Z.ltb_spec (2 * (n1 mod d)) d), (Z.ltb_spec d (2 * (n1 mod d))),
      (Z.ltb_spec (2 * (n2 mod d)) d), (Z.ltb_spec d (2 * (n2 mod d))),
      (Z.even (n1 / d)); lia.
  - assert (n1 / d < n2 / d) by (pose proof (Z.div_le_mono n1 n2 d Hd Hn); lia).
    assert (round_half_even n1 d <= n1 / d + 1 /\ n2 / d <= round_half_even n2 d); [|lia].
    unfold round_half_even. split; repeat destruct (_ <? _); try destruct (Z.even _); lia.
Qed.

Lemma round_half_even_nonneg n d : 0 < d -> 0 <= n -> 0 <= round_half_even n d.
Proof.
  intros Hd Hn. rewrite <-(round_half_even_exact 0 d) by done.
  apply round_half_even_mono; lia.
Qed.

Lemma ulp_exp_nonneg q : 0 <= ulp_exp q.
Proof. unfold ulp_exp. lia. Qed.

Lemma pow2_pos e : 0 <= e -> 0 < 2 ^ e.
Proof. intros. apply Z.pow_pos_nonneg; lia. Qed.

(** A number of less than 53 bits is a float. *)
Lemma round_frac_exact n : Z.abs n < 2 ^ 53 -> round_frac n 1 = n.
Proof.
  intros H. unfold round_frac. rewrite Z.div_1_r.
  assert (ulp_exp (Z.abs n) = 0) as ->.
  { unfold ulp_exp. destruct (Z.eq_dec n 0) as [->|]; [done|].
    assert (Z.log2 (Z.abs n) < 53) by (apply Z.log2_lt_pow2; lia). lia. }
  rewrite Z.mul_1_r, Z.mul_1_r, <-(Z.mul_1_r n) at 1. apply round_half_even_exact. lia.
Qed.

Lemma round_frac_nonneg n d : 0 < d -> 0 <= n -> 0 <= round_frac n d.
Proof.
  intros Hd Hn. unfold round_frac. pose proof (pow2_pos _ (ulp_exp_nonneg (Z.abs n / d))).
  apply Z.mul_nonneg_nonneg; [|lia]. apply round_half_even_nonneg; lia || nia.
Qed.

(** Rounding an integer number of units keeps its sign. *)
Lemma round_frac_neg n : n < 0 -> round_frac n 1 < 0.
Proof.
  intros Hn. unfold round_frac. rewrite Z.div_1_r, Z.mul_1_l.
  set (e := ulp_exp (Z.abs n)). pose proof (pow2_pos e (ulp_exp_nonneg _)) as Hp.
  pose proof (round_half_even_bound n (2 ^ e) Hp) as Hb.
  assert (2 ^ e <= Z.abs n) as He.
  { unfold e, ulp_exp. pose proof (Z.log2_spec (Z.abs n) ltac:(lia)) as [? _].
    pose proof (Z.log2_nonneg (Z.abs n)).
    destruct (Z.max_spec 0 (Z.log2 (Z.abs n) - 52)) as [[? ->]|[? ->]]; [|simpl; lia].
    assert (2 ^ (Z.log2 (Z.abs n) - 52) <= 2 ^ Z.log2 (Z.abs n)) by (apply Z.pow_le_mono_r; lia). lia. }
  nia.
Qed.

(** A float difference is nonnegative exactly when the operands are ordered. *)
Lemma fsub_nonneg x y : 0 <= fsub x y <-> y <= x.
Proof.
  unfold fsub. split; intros H.
  - destruct (Z.le_gt_cases y x); [done|]. pose proof (round_frac_neg (x - y)). lia.
  - apply round_frac_nonneg; lia.
Qed.

(** A float difference is positive exactly when the operands are strictly ordered. *)
Lemma round_frac_opp n : round_frac (- n) 1 = - round_frac n 1.
Proof.
  unfold round_frac. rewrite Z.abs_opp, Z.div_1_r, Z.mul_1_l.
  set (e := ulp_exp (Z.abs n)). pose proof (pow2_pos e (ulp_exp_nonneg _)) as Hp.
  rewrite <-Z.mul_opp_l. f_equal. revert Hp. generalize (2 ^ e). intros d Hd.
  unfold round_half_even.
  destruct (Z.eq_dec (n mod d) 0) as [E|E].
  - rewrite Z.mod_opp_l_z, Z.div_opp_l_z, E by lia. destruct (Z.ltb_spec (2 * 0) d); lia.
  - rewrite Z.mod_opp_l_nz, Z.div_opp_l_nz by lia.
    pose proof (Z.mod_pos_bound n d Hd).
    replace (- (n / d) - 1) with (- (n / d + 1)) by lia.
    rewrite Z.even_opp, Z.even_add. change (Z.even 1) with false.
    destruct (Z.ltb_spec (2 * (d - n mod d)) d), (Z.ltb_spec d (2 * (d - n mod d))),
      (Z.ltb_spec (2 * (n mod d)) d), (Z.ltb_spec d (2 * (n mod d)));
      destruct (Z.even (n / d)); simpl; lia.
Qed.

Lemma fsub_pos x y : 0 < fsub x y <-> y < x.
Proof.
  split; intros H.
  - destruct (Z.le_gt_cases x y); [|lia]. assert (0 <= fsub y x) by (by apply fsub_nonneg).
    unfold fsub in *. replace (x - y) with (- (y - x)) in H by lia. rewrite round_frac_opp in H. lia.
  - unfold fsub. replace (x - y) with (- (y - x)) by lia. rewrite round_frac_opp.
    pose proof (round_frac_neg (y - x)). lia.
Qed.

Lemma fsub_diag x : fsub x x = 0.
Proof. unfold fsub. by rewrite Z.sub_diag. Qed.

(** The error of one rounding, in units: half of the last place. *)
Lemma round_frac_bound n d :
  0 < d ->
  - (d * 2 ^ ulp_exp (Z.abs n / d)) <= 2 * (round_frac n d * d - n) <= d * 2 ^ ulp_exp (Z.abs n / d).
Proof.
  intros Hd. unfold round_frac.
  pose proof (pow2_pos _ (ulp_exp_nonneg (Z.abs n / d))) as Hp.
  pose proof (round_half_even_bound n (d * 2 ^ ulp_exp (Z.abs n / d)) ltac:(nia)). lia.
Qed.

(** Below [2^k] units, with [k >= 53], the last place is at most [2^(k-53)] units. *)
Lemma ulp_exp_le q k : 0 <= q < 2 ^ k -> 53 <= k -> ulp_exp q <= k - 53.
Proof.
  intros Hq Hk. unfold ulp_exp. destruct (Z.eq_dec q 0) as [->|]; [simpl; lia|].
  assert (Z.log2 q < k) by (apply Z.log2_lt_pow2; lia). lia.
Qed.

(** Consecutive multiples of [1 / d] stay apart after rounding, as long as the
    quotients are below [2^k] and [d] is small against the 53 bits left. *)
Lemma round_frac_apart a b d k :
  0 < d -> 53 <= k <= 1074 + 53 -> d * 2 ^ (k - 53) < one ->
  0 <= a < b -> b * one / d < 2 ^ k ->
  round_frac (a * one) d < round_frac (b * one) d.
Proof.
  intros Hd Hk Hdk Hab Hb. pose proof one_pos.
  assert (forall x, 0 <= x <= b -> d * 2 ^ ulp_exp (Z.abs (x * one) / d) <= d * 2 ^ (k - 53)) as He.
  { intros x Hx. apply Z.mul_le_mono_nonneg_l; [lia|]. apply Z.pow_le_mono_r; [lia|].
    apply ulp_exp_le; [|lia]. rewrite Z.abs_eq by nia. split; [apply Z.div_pos; nia|].
    apply Z.le_lt_trans with (b * one / d); [|done]. apply Z.div_le_mono; nia. }
  pose proof (round_frac_bound (a * one) d Hd). pose proof (round_frac_bound (b * one) d Hd).
  pose proof (He a ltac:(lia)). pose proof (He b ltac:(lia)). nia.
Qed.

(** Sums of non-negative floats. *)
Lemma round_frac_pos n : 0 < n -> 0 < round_frac n 1.
Proof. intros H. pose proof (round_frac_neg (- n)). rewrite round_frac_opp in *. lia. Qed.

Lemma fadd_nonneg x y : 0 <= x -> 0 <= y -> 0 <= fadd x y.
Proof. intros. apply round_frac_nonneg; lia. Qed.

Lemma fadd_pos x y : 0 <= x -> 0 <= y -> 0 < x + y -> 0 < fadd x y.
Proof. intros. by apply round_frac_pos. Qed.

Definition fsum (xs : list float) : float := foldl fadd 0 xs.

Lemma fsum_snoc xs x : fsum (xs ++ [x]) = fadd (fsum xs) x.
Proof. unfold fsum. by rewrite foldl_app. Qed.

Lemma fsum_nonneg xs : Forall (fun x => 0 <= x) xs -> 0 <= fsum xs.
Proof.
  induction xs as [|x xs IH] using rev_ind; [done|].
  rewrite Forall_app, Forall_singleton, fsum_snoc. intros []. auto using fadd_nonneg.
Qed.

Lemma fsum_pos xs : xs <> [] -> Forall (fun x => 0 < x) xs -> 0 < fsum xs.
Proof.
  induction xs as [|x xs _] using rev_ind; [done|]. intros _.
  rewrite Forall_app, Forall_singleton, fsum_snoc. intros [Hxs Hx].
  assert (0 <= fsum xs) by (apply fsum_nonneg; eapply Forall_impl; [exact Hxs|cbn; lia]).
  apply fadd_pos; lia.
Qed.

(** A multiple of a power of two by a number of at most 53 bits is a float. *)
Lemma round_frac_repr m k : Z.abs m < 2 ^ 53 -> 0 <= k -> round_frac (m * 2 ^ k) 1 = m * 2 ^ k.
Proof.
  intros Hm Hk. unfold round_frac. rewrite Z.div_1_r, Z.mul_1_l.
  assert (ulp_exp (Z.abs (m * 2 ^ k)) <= k) as He.
  { unfold ulp_exp. rewrite Z.abs_mul, (Z.abs_eq (2 ^ k)) by (pose proof (pow2_pos k); lia).
    destruct (Z.eq_dec m 0) as [->|Hm0]; [change (Z.abs 0 * 2 ^ k) with 0; change (Z.log2 0) with 0; lia|].
    rewrite Z.log2_mul_pow2 by lia.
    assert (Z.log2 (Z.abs m) < 53) by (apply Z.log2_lt_pow2; lia). lia. }
  set (e := ulp_exp _) in *. assert (0 <= e) as He0 by apply ulp_exp_nonneg.
  replace (2 ^ k) with (2 ^ (k - e) * 2 ^ e) by (rewrite <-Z.pow_add_r by lia; f_equal; lia).
  rewrite Z.mul_assoc, round_half_even_exact by (apply pow2_pos; lia). lia.
Qed.

Lemma of_int_exact n : Z.abs n < 2 ^ 53 -> of_int n = n * one.
Proof.
  intros Hn. unfold of_int. rewrite (one_split 1074), Z.sub_diag, Z.pow_0_r, Z.mul_1_r by lia.
  by apply round_frac_repr.
Qed.

Lemma fsub_ints a b : Z.abs (a - b) < 2 ^ 53 -> fsub (a * one) (b * one) = (a - b) * one.
Proof. intros H. unfold fsub. rewrite <-Z.mul_sub_distr_r. by apply of_int_exact. Qed.

Lemma round_frac_scale n d k : 0 < k -> 0 < d -> round_frac (n * k) (d * k) = round_frac n d.
Proof.
  intros Hk Hd. unfold round_frac.
  assert (Z.abs (n * k) / (d * k) = Z.abs n / d) as ->
    by (rewrite Z.abs_mul, (Z.abs_eq k) by lia; apply Z.div_mul_cancel_r; lia).
  f_equal. set (p := 2 ^ ulp_exp (Z.abs n / d)). assert (0 < p) by apply pow2_pos, ulp_exp_nonneg.
  unfold round_half_even. replace (d * k * p) with (d * p * k) by lia.
  rewrite Z.div_mul_cancel_r, Z.mul_mod_distr_r by nia.
  destruct (Z.ltb_spec (2 * ((n mod (d * p)) * k)) (d * p * k)), (Z.ltb_spec (2 * (n mod (d * p))) (d * p)); try nia; try done.
  destruct (Z.ltb_spec (d * p * k) (2 * ((n mod (d * p)) * k))), (Z.ltb_spec (d * p) (2 * (n mod (d * p)))); try nia; done.
Qed.

Lemma fmul_ints a b : Z.abs (a * b) < 2 ^ 53 -> fmul (a * one) (b * one) = a * b * one.
Proof.
  intros H. unfold fmul. replace (a * one * (b * one)) with (a * b * one * one) by lia.
  rewrite <-(Z.mul_1_l one) at 3. rewrite round_frac_scale by (apply one_pos || lia). by apply of_int_exact.
Qed.

Lemma ftrunc_int n : ftrunc (n * one) = n.
Proof. unfold ftrunc. apply Z.quot_mul. pose proof one_pos. lia. Qed.

Lemma ffloor_int n : ffloor (n * one) = n.
Proof. unfold ffloor. apply Z.div_mul. pose proof one_pos. lia. Qed.
