(* ===== verification/PyDict.v ===== *)
(** * Python dictionaries

    A [dict] remembers the order in which its keys were first inserted, and the
    log parser zips the [values()] of several dictionaries, so the model keeps
    that order: an association list where assigning to a present key keeps its
    place and a new key goes last. *)

From S2P Require Import Prelude.

Section Dict.
Context {K V : Type} `{EqDecision K}.
Implicit Types (d : list (K * V)) (k : K) (v : V).

(** [d.get(k)] *)
Fixpoint dget (k : K) (d : list (K * V)) : option V :=
  match d with
  | [] => None
  | (k', v) :: d' => if decide (k = k') then Some v else dget k d'
  end.

(** [d[k] = v] *)
Fixpoint dset (k : K) (v : V) (d : list (K * V)) : list (K * V) :=
  match d with
  | [] => [(k, v)]
  | (k', v') :: d' => if decide (k = k') then (k, v) :: d' else (k', v') :: dset k v d'
  end.

(** [del d[k]] (or [d.pop(k)]) of a present key; of an absent one, nothing. *)
Fixpoint dpop (k : K) (d : list (K * V)) : list (K * V) :=
  match d with
  | [] => []
  | (k', v') :: d' => if decide (k = k') then d' else (k', v') :: dpop k d'
  end.

(** [k in d] *)
Definition dmem (k : K) (d : list (K * V)) : bool :=
  match dget k d with Some _ => true | None => false end.

Definition dkeys (d : list (K * V)) : list K := d.*1.
Definition dvalues (d : list (K * V)) : list V := d.*2.

(** [d[k]], raising [KeyError]. *)
Definition dlookup (k : K) (d : list (K * V)) : result V := or_raise KeyError (dget k d).

Lemma dget_dset_eq k v d : dget k (dset k v d) = Some v.
Proof. induction d as [|[k' v'] d IH]; simpl; repeat (case_decide; simpl); done. Qed.

Lemma dget_dset_ne k k' v d : k' <> k -> dget k' (dset k v d) = dget k' d.
Proof. intros Hk. induction d as [|[j w] d IH]; simpl; repeat (case_decide; simpl); congruence. Qed.

Lemma dget_dset k k' v d : dget k' (dset k v d) = if decide (k' = k) then Some v else dget k' d.
Proof. case_decide; subst; [apply dget_dset_eq|by apply dget_dset_ne]. Qed.

Lemma elem_of_dkeys k d : k ∈ dkeys d <-> is_Some (dget k d).
Proof.
  unfold dkeys. induction d as [|[k' v'] d IH]; simpl.
  - rewrite elem_of_nil. split; [done|intros [? [=]]].
  - rewrite elem_of_cons, IH. case_decide; split; naive_solver.
Qed.

Lemma not_elem_of_dkeys k d : k ∉ dkeys d <-> dget k d = None.
Proof. rewrite elem_of_dkeys, <-eq_None_not_Some. done. Qed.

Lemma dmem_true k d : dmem k d = true <-> is_Some (dget k d).
Proof. unfold dmem. destruct (dget k d); naive_solver. Qed.

Lemma dkeys_dset k v d :
  dkeys (dset k v d) = if decide (k ∈ dkeys d) then dkeys d else dkeys d ++ [k].
Proof.
  unfold dkeys. induction d as [|[k' v'] d IH]; cbn [dset].
  - by destruct (decide (k ∈ [].*1)) as [H|_]; [apply not_elem_of_nil in H|].
  - destruct (decide (k = k')) as [->|Hk].
    + rewrite !fmap_cons. cbn [fst]. destruct (decide (k' ∈ k' :: d.*1)); set_solver.
    + rewrite !fmap_cons, IH. cbn [fst].
      destruct (decide (k ∈ d.*1)), (decide (k ∈ k' :: d.*1)); set_solver.
Qed.

Lemma NoDup_dset k v d : NoDup (dkeys d) -> NoDup (dkeys (dset k v d)).
Proof.
  intros Hd. rewrite dkeys_dset. case_decide; [done|].
  apply NoDup_app. split; [done|]. split; [set_solver|apply NoDup_singleton].
Qed.

Lemma dget_Some_elem k v d : dget k d = Some v -> (k, v) ∈ d.
Proof.
  induction d as [|[k' v'] d IH]; simpl; [done|]. case_decide; subst.
  - intros [= ->]. constructor.
  - intros ?%IH. by constructor.
Qed.

Lemma elem_dget_Some k v d : NoDup (dkeys d) -> (k, v) ∈ d -> dget k d = Some v.
Proof.
  unfold dkeys. induction d as [|[k' v'] d IH]; simpl; [by rewrite elem_of_nil|].
  rewrite NoDup_cons, elem_of_cons. intros [Hk Hd] [[= <- <-]|Hin].
  - by rewrite decide_True.
  - case_decide; subst; [|auto]. destruct Hk. by apply list_elem_of_fmap_2' with (x := (k', v)).
Qed.

Lemma dpop_none k d : dget k d = None -> dpop k d = d.
Proof. induction d as [|[k' v'] d IH]; simpl; [done|]. case_decide; [done|]. intros H'. by rewrite IH. Qed.

Lemma dkeys_dpop_sub k d x : x ∈ dkeys (dpop k d) -> x ∈ dkeys d.
Proof.
  unfold dkeys. induction d as [|[k' v'] d IH]; simpl; [done|]. case_decide; simpl; set_solver.
Qed.

Lemma NoDup_dpop k d : NoDup (dkeys d) -> NoDup (dkeys (dpop k d)).
Proof.
  induction d as [|[k' v'] d IH]; simpl; [done|]. unfold dkeys. simpl.
  rewrite NoDup_cons. intros [Hk Hd]. case_decide; [done|]. simpl. rewrite NoDup_cons. split; [|auto].
  intros ?%dkeys_dpop_sub. done.
Qed.

Lemma dget_dpop k k' d :
  NoDup (dkeys d) -> dget k' (dpop k d) = if decide (k' = k) then None else dget k' d.
Proof.
  unfold dkeys. induction d as [|[j w] d IH]; simpl; [by case_decide|].
  rewrite NoDup_cons. intros [Hj Hd]. destruct (decide (k = j)) as [->|Hk].
  - destruct (decide (k' = j)) as [->|]; [|done]. by apply not_elem_of_dkeys.
  - simpl. rewrite IH by done. repeat case_decide; congruence.
Qed.

Lemma dlookup_Ok k d v : dlookup k d = Ok v <-> dget k d = Some v.
Proof. apply or_raise_Ok. Qed.

Lemma dset_new k v d : k ∉ dkeys d -> dset k v d = d ++ [(k, v)].
Proof.
  unfold dkeys. induction d as [|[k' v'] d IH]; simpl; [done|]. intros Hk.
  rewrite decide_False by set_solver. rewrite IH; [done|set_solver].
Qed.

Lemma Forall_dvalues_dset (P : V -> Prop) k v d :
  P v -> Forall P (dvalues d) -> Forall P (dvalues (dset k v d)).
Proof.
  unfold dvalues. intros Hv. induction d as [|[k' v'] d IH]; simpl; [by repeat constructor|].
  rewrite Forall_cons. intros [Hv' Hd]. case_decide; simpl; constructor; auto.
Qed.

Lemma Forall_dset (P : K * V -> Prop) k v d : P (k, v) -> Forall P d -> Forall P (dset k v d).
Proof.
  intros Hv. induction d as [|[k' v'] d IH]; simpl; [by repeat constructor|].
  rewrite Forall_cons. intros [Hv' Hd]. case_decide; constructor; auto.
Qed.
End Dict.

#[export] Hint Resolve NoDup_dset NoDup_dpop : py.
