(* ===== verification/PySort.v ===== *)
(** * Python's [sorted]

    A stable sort, by insertion from the right, and the order of [str]. *)

From S2P Require Import Prelude PyStr.
From Stdlib Require Import OrdersEx.

(** [sorted(l)] for the order [le] of the keys. *)
Section Sorted.
Context {A : Type} (le : A -> A -> bool).

Fixpoint insert_sorted (x : A) (l : list A) : list A :=
  match l with
  | [] => [x]
  | y :: l' => if le x y then x :: l else y :: insert_sorted x l'
  end.

Definition sorted (l : list A) : list A := foldr insert_sorted [] l.

Lemma insert_sorted_perm x l : insert_sorted x l ≡ₚ x :: l.
Proof.
  induction l as [|y l IH]; simpl; [done|]. destruct (le x y); [done|]. rewrite IH. constructor.
Qed.

Lemma sorted_perm l : sorted l ≡ₚ l.
Proof. induction l as [|x l IH]; simpl; [done|]. by rewrite insert_sorted_perm, IH. Qed.

Hypothesis le_total : forall x y, le x y = false -> le y x = true.

Lemma insert_sorted_Sorted x l :
  Sorted (fun x y => le x y = true) l -> Sorted (fun x y => le x y = true) (insert_sorted x l).
Proof.
  induction 1 as [|y l Hl IH Hy]; simpl; [by repeat constructor|].
  destruct (le x y) eqn:E; [by repeat constructor|]. constructor; [done|].
  destruct l as [|z l]; simpl in *; [constructor; auto|]. destruct (le x z); constructor; auto.
  by inversion Hy.
Qed.

Lemma sorted_Sorted l : Sorted (fun x y => le x y = true) (sorted l).
Proof. induction l as [|x l IH]; simpl; [constructor|by apply insert_sorted_Sorted]. Qed.
End Sorted.

Lemma str_compare_refl (s : string) : String.compare s s = Eq.
Proof.
  pose proof (String.compare_antisym s s) as H. destruct (String.compare s s); [done|discriminate H..].
Qed.

(** [a <= b] on [str]. *)
Definition str_le (a b : string) : bool :=
  match String.compare a b with Gt => false | _ => true end.

Lemma str_le_total a b : str_le a b = false -> str_le b a = true.
Proof. unfold str_le. rewrite (String.compare_antisym b a). by destruct (String.compare a b). Qed.

#[global] Instance str_le_antisym : AntiSymm (=) (fun a b => str_le a b = true).
Proof.
  intros a b. unfold str_le. rewrite (String.compare_antisym b a).
  destruct (String.compare a b) eqn:E; [|done..]. intros _ _. by apply String.compare_eq_iff.
Qed.

Lemma str_lt_trans (a b c : string) :
  String.compare a b = Lt -> String.compare b c = Lt -> String.compare a c = Lt.
Proof. apply (StrictOrder_Transitive (R := String_as_OT.lt) a b c). Qed.

#[global] Instance str_le_trans : Transitive (fun a b => str_le a b = true).
Proof.
  intros a b c. unfold str_le.
  destruct (String.compare a b) eqn:Eab; [|..|done]; destruct (String.compare b c) eqn:Ebc; try done; intros _ _.
  - apply String.compare_eq_iff in Eab. subst. by rewrite Ebc.
  - apply String.compare_eq_iff in Eab. subst. by rewrite Ebc.
  - apply String.compare_eq_iff in Ebc. subst. by rewrite Eab.
  - assert (String.compare a c = Lt) as ->; [|done]. by apply (StrictOrder_Transitive (R := String_as_OT.lt) a b c).
Qed.

(** Sorting any order of an increasing list gives that list. *)
Lemma sorted_strings l k : l ≡ₚ k -> Sorted (fun a b => str_le a b = true) k -> sorted str_le l = k.
Proof.
  intros Hp Hk. apply (Sorted_unique (fun a b => str_le a b = true)); [|done|].
  - apply sorted_Sorted, str_le_total.
  - by rewrite sorted_perm.
Qed.
