(* ===== verification/FileSystem.v ===== *)
(** * Files and directories

    What the code uses of [os], [pathlib], [glob] and [shutil], on a map from paths to
    entries.  A path is the list of its names, from the current directory or from the
    root; there are no links, no permissions and no [..].  Every failure is an [OSError].
    The order in which a directory is listed is a parameter of what lists one. *)

From S2P Require Import Prelude PyIo PyStr PySort.

Abbreviation path := (list string).

Inductive entry : Type :=
  | Directory
  | File (content : string).

#[global] Instance entry_eq_dec : EqDecision entry.
Proof. solve_decision. Defined.

Abbreviation fs := (gmap path entry).

(** The current directory is always there. *)
Definition lookup_path (s : fs) (p : path) : option entry := match p with [] => Some Directory | _ => s !! p end.
Definition is_dir (s : fs) (p : path) : bool := match lookup_path s p with Some Directory => true | _ => false end.
Definition is_file (s : fs) (p : path) : bool := match lookup_path s p with Some (File _) => true | _ => false end.
Definition path_exists (s : fs) (p : path) : bool := match lookup_path s p with Some _ => true | None => false end.
Definition parent (p : path) : path := removelast p.

(** [p] relative to [q]. *)
Fixpoint strip_path (q p : path) : option path :=
  match q, p with
  | [], _ => Some p
  | x :: q, y :: p => if decide (x = y) then strip_path q p else None
  | _ :: _, [] => None
  end.
Definition inside (q p : path) : bool := match strip_path q p with Some _ => true | None => false end.

(** The text of a path. *)
Definition path_text (p : path) : string := join "/" p.

(** The names between the slashes; and the path of a text, from the working directory
    unless it is absolute. *)
Fixpoint text_names (cur s : string) : list string :=
  match s with
  | EmptyString => [str_rev_app cur EmptyString]
  | String c s' => if Ascii.eqb c "/" then str_rev_app cur EmptyString :: text_names EmptyString s'
                   else text_names (String c cur) s'
  end.
Definition names_of (s : string) : path :=
  List.filter (fun n => negb (bool_decide (n = EmptyString) || bool_decide (n = "."%string))) (text_names EmptyString s).
Definition path_of (cwd : path) (s : string) : path := if startswith "/" s then names_of s else cwd ++ names_of s.

(** ** Reading and writing *)

(** The bytes of a file, if it can be opened. *)
Definition content (s : fs) (p : path) : option string :=
  match lookup_path s p with Some (File c) => Some c | _ => None end.

(** [open(p, 'r')] and [read()] *)
Definition read_text (p : path) : io fs string := fun s =>
  (s, c ← or_raise OSError (content s p); Ok (universal_newlines c)).

(** [open(p, 'w')] and [open(p, 'a+')], with what is written at the end of the file. *)
Definition write_file (keep : bool) (p : path) (text : string) : io fs unit := fun s =>
  if is_dir s p || negb (is_dir s (parent p)) then (s, Raise OSError)
  else (<[p := File ((if keep then default EmptyString (content s p) else EmptyString) ++ text)%string]> s, Ok tt).
Definition write_text : path -> string -> io fs unit := write_file false.
Definition append_text : path -> string -> io fs unit := write_file true.

(** What looks at the file system and leaves it. *)
Definition inspect {A : Type} (f : fs -> result A) : io fs A := fun s => (s, f s).

(** ** Directories *)

(** [Path.mkdir()] *)
Definition mkdir (p : path) : io fs unit := fun s =>
  if path_exists s p || negb (is_dir s (parent p)) then (s, Raise OSError) else (<[p := Directory]> s, Ok tt).

(** [os.makedirs(p, exist_ok=True)] *)
Definition ensure_dir (p : path) : io fs unit := fun s => if is_dir s p then (s, Ok tt) else mkdir p s.
Fixpoint ancestors (p : path) : list path :=
  match p with [] => [] | n :: p => [n] :: (cons n <$> ancestors p) end.
Definition makedirs (p : path) : io fs unit := io_each ensure_dir (ancestors p).

(** [shutil.rmtree(p)] *)
Definition rmtree (p : path) : io fs unit := fun s =>
  if bool_decide (p = []) || negb (is_dir s p) then (s, Raise OSError)
  else (filter (fun kv => inside p kv.1 = false) s, Ok tt).

(** [Path.unlink(missing_ok)] *)
Definition unlink (missing_ok : bool) (p : path) : io fs unit := fun s =>
  match lookup_path s p with
  | Some (File _) => (delete p s, Ok tt)
  | Some Directory => (s, Raise OSError)
  | None => (s, if missing_ok then Ok tt else Raise OSError)
  end.

(** What is under [src], put under [dst]. *)
Definition relocate (src dst : path) (s : fs) : fs :=
  list_to_map (omap (fun kv : path * entry => q ← strip_path src kv.1; Some (dst ++ q, kv.2)) (map_to_list s)).

(** [os.rename(src, dst)] to a path that is free. *)
Definition rename (src dst : path) : io fs unit := fun s =>
  if bool_decide (src = []) || negb (path_exists s src) then (s, Raise OSError)
  else if bool_decide (src = dst) then (s, Ok tt)
  else if negb (is_dir s (parent dst)) || inside src dst then (s, Raise OSError)
  else if path_exists s dst then (s, Raise Unmodelled)
  else (relocate src dst s ∪ filter (fun kv => inside src kv.1 = false) s, Ok tt).

(** [shutil.copytree(src, dst, dirs_exist_ok=True)]; what happens when a file and a
    directory have the same path, or when a tree is copied into itself or to the current
    directory, is not modelled. *)
Definition same_kind (e f : entry) : bool :=
  match e, f with Directory, Directory | File _, File _ => true | _, _ => false end.
Definition no_conflict (new s : fs) : bool :=
  forallb (fun kv : path * entry => match s !! kv.1 with Some f => same_kind kv.2 f | None => true end) (map_to_list new).
Definition copy_under (src dst : path) : io fs unit := fun s =>
  let new := relocate src dst s in
  if no_conflict new s then (new ∪ s, Ok tt) else (s, Raise Unmodelled).
Definition copytree (src dst : path) : io fs unit := fun s =>
  if negb (is_dir s src) then (s, Raise OSError)
  else if bool_decide (dst = []) || inside src dst then (s, Raise Unmodelled)
  else io_bind (makedirs dst) (fun _ => copy_under src dst) s.

(** ** Listing *)

(** The names in a directory. *)
Definition children (s : fs) (p : path) : gset string :=
  list_to_set (omap (fun kv : path * entry => match strip_path p kv.1 with Some [n] => Some n | _ => None end) (map_to_list s)).

(** A character that [glob] interprets. *)
Definition has_magic (p : path) : bool :=
  existsb (fun n => has_char "*" n || has_char "?" n || has_char "[" n) p.

Section Listing.
(** The order of [os.scandir]. *)
Context (scandir : gset string -> list string).

(** [glob(join(dir, prefix + '*/' + name))], sorted. *)
Definition glob_in_dirs (s : fs) (dir : path) (prefix name : string) : result (list path) :=
  _ ← ensure (negb (has_magic dir)) Unmodelled;
  Ok ((fun n => dir ++ [n; name]) <$>
      List.filter (fun n => startswith prefix n && is_dir s (dir ++ [n]) && path_exists s (dir ++ [n; name]))
        (scandir (children s dir))).
Definition sorted_paths : list path -> list path := sorted (fun p q => str_le (path_text p) (path_text q)).

(** [Path.iterdir()] *)
Definition iterdir (p : path) : io fs (list path) := fun s =>
  (s, if is_dir s p then Ok ((fun n => p ++ [n]) <$> scandir (children s p)) else Raise OSError).
End Listing.

(** ** Lookups *)

Lemma strip_path_Some q p r : strip_path q p = Some r <-> p = q ++ r.
Proof.
  revert p. induction q as [|x q IH]; intros [|y p]; cbn.
  - split; congruence.
  - split; [by intros [= ->]|by intros ->].
  - done.
  - case_decide as E; [subst; rewrite IH; split; [by intros ->|by intros [= ->]]|split; [done|congruence]].
Qed.

Lemma strip_path_app q r : strip_path q (q ++ r) = Some r.
Proof. by apply strip_path_Some. Qed.

Lemma inside_true q p : inside q p = true <-> exists r, p = q ++ r.
Proof.
  unfold inside. destruct (strip_path q p) as [r|] eqn:E.
  - apply strip_path_Some in E. split; [by exists r|done].
  - split; [done|]. intros [r Hr%strip_path_Some]. congruence.
Qed.

Lemma inside_app q r : inside q (q ++ r) = true.
Proof. apply inside_true. by exists r. Qed.

Lemma lookup_relocate src dst s p :
  relocate src dst s !! p = match strip_path dst p with Some q => s !! (src ++ q) | None => None end.
Proof.
  apply option_eq. intros e. unfold relocate. rewrite <-elem_of_list_to_map.
  - rewrite list_elem_of_omap. destruct (strip_path dst p) as [q|] eqn:Ep.
    + apply strip_path_Some in Ep. split.
      * intros ([k f] & Hin%elem_of_map_to_list & Hk). cbn in Hk. destruct (strip_path src k) as [r|] eqn:Er; [|done].
        cbn in Hk. injection Hk as Hr <-. subst p. apply app_inv_head in Hr as ->. by apply strip_path_Some in Er as ->.
      * intros He. exists (src ++ q, e). rewrite elem_of_map_to_list. split; [done|]. cbn. rewrite strip_path_app. by subst p.
    + split; [|done]. intros ([k f] & _ & Hk). cbn in Hk. destruct (strip_path src k) as [r|]; [|done]. cbn in Hk.
      injection Hk as Hr _. symmetry in Hr. apply strip_path_Some in Hr. congruence.
  - pose proof (NoDup_fst_map_to_list s) as Hnd. induction (map_to_list s) as [|[k f] l IH]; [constructor|].
    cbn in Hnd. apply NoDup_cons in Hnd as [Hk Hnd]. cbn. destruct (strip_path src k) as [r|] eqn:Er; cbn; [|by apply IH].
    apply NoDup_cons. split; [|by apply IH]. intros Hin. apply list_elem_of_fmap in Hin as ([k' f'] & Hk' & Hin). cbn in Hk'.
    subst k'. apply list_elem_of_omap in Hin as ([k' f''] & Hin & Hs). cbn in Hs.
    destruct (strip_path src k') as [r'|] eqn:Er'; [|done]. cbn in Hs. injection Hs as Hr _. apply app_inv_head in Hr as ->.
    apply strip_path_Some in Er, Er'. subst. apply Hk. apply list_elem_of_fmap. by exists (src ++ r, f'').
Qed.

Lemma elem_of_children s p n : n ∈ children s p <-> is_Some (s !! (p ++ [n])).
Proof.
  unfold children. rewrite elem_of_list_to_set, list_elem_of_omap. split.
  - intros ([k e] & Hin%elem_of_map_to_list & Hk). cbn in Hk. destruct (strip_path p k) as [[|m [|]]|] eqn:E; try done.
    injection Hk as ->. apply strip_path_Some in E as ->. by exists e.
  - intros [e He]. exists (p ++ [n], e). rewrite elem_of_map_to_list. split; [done|]. cbn. by rewrite strip_path_app.
Qed.

Lemma lookup_path_not_nil s p : p <> [] -> lookup_path s p = s !! p.
Proof. by destruct p. Qed.

Lemma is_dir_true s p : is_dir s p = true <-> p = [] \/ s !! p = Some Directory.
Proof.
  unfold is_dir. destruct p as [|n p]; [split; [by left|done]|]. cbn.
  destruct (s !! (n :: p)) as [[|c]|]; naive_solver.
Qed.

Lemma is_dir_insert s p e q :
  is_dir (<[p := e]> s) q = if decide (q = p /\ q <> []) then match e with Directory => true | _ => false end else is_dir s q.
Proof.
  unfold is_dir. destruct q as [|n q].
  - by rewrite decide_False by (by intros [_ ?]).
  - cbn. destruct (decide (n :: q = p)) as [<-|Hne].
    + by rewrite lookup_insert_eq, decide_True.
    + rewrite lookup_insert_ne by done. by rewrite decide_False by (by intros [? _]).
Qed.

Lemma parent_snoc p n : parent (p ++ [n]) = p.
Proof. apply removelast_last. Qed.

Lemma path_cases (p : path) : p = [] \/ exists q n, p = q ++ [n].
Proof. destruct p as [|n q _] using rev_ind; [by left|right]. by exists q, n. Qed.

(** ** Well-formed file systems: what is there is in a directory *)

Definition fs_ok (s : fs) : Prop := forall p e, s !! p = Some e -> p <> [] /\ is_dir s (parent p) = true.

Lemma fs_ok_empty : fs_ok ∅.
Proof. intros p e. by rewrite lookup_empty. Qed.

(** A new entry in a directory; one that replaces a directory is a directory. *)
Lemma fs_ok_insert s p e :
  fs_ok s -> p <> [] -> is_dir s (parent p) = true -> (is_dir s p = true -> e = Directory) -> fs_ok (<[p := e]> s).
Proof.
  intros Hs Hp Hpar Hdir q f Hq.
  assert (q <> [] /\ is_dir s (parent q) = true) as [Hne Hd].
  { destruct (decide (p = q)) as [<-|Hpq]; [done|]. rewrite lookup_insert_ne in Hq by done. by eapply Hs. }
  split; [done|]. rewrite is_dir_insert. case_decide as E; [|done]. destruct E as [E _]. rewrite E in Hd. by rewrite (Hdir Hd).
Qed.

Definition fs_check (s : fs) : bool :=
  forallb (fun kv : path * entry => negb (bool_decide (kv.1 = [])) && is_dir s (parent kv.1)) (map_to_list s).

Lemma fs_ok_checked s : fs_check s = true -> fs_ok s.
Proof.
  unfold fs_check. rewrite forallb_forall. intros Hc p e Hp. specialize (Hc (p, e)). cbn in Hc. apply andb_true_iff in Hc as [Hn Hd].
  - split; [|done]. by apply negb_true_iff, bool_decide_eq_false in Hn.
  - by apply list_elem_of_In, elem_of_map_to_list.
Qed.

Lemma keeps_read_text p : keeps fs_ok (read_text p).
Proof. by intros s. Qed.

Lemma keeps_write_file keep p text : keeps fs_ok (write_file keep p text).
Proof.
  intros s Hs. unfold write_file. destruct (is_dir s p) eqn:E; [done|]. destruct (is_dir s (parent p)) eqn:Ep; [|done].
  cbn. apply fs_ok_insert; [done| |done|congruence]. by intros ->.
Qed.

Lemma keeps_mkdir p : keeps fs_ok (mkdir p).
Proof.
  intros s Hs. unfold mkdir. destruct (path_exists s p) eqn:E; [done|]. destruct (is_dir s (parent p)) eqn:Ep; [|done].
  cbn. apply fs_ok_insert; [done| |done|done]. by intros ->.
Qed.

Lemma keeps_ensure_dir p : keeps fs_ok (ensure_dir p).
Proof. intros s Hs. unfold ensure_dir. destruct (is_dir s p); [done|by apply keeps_mkdir]. Qed.

Lemma keeps_makedirs p : keeps fs_ok (makedirs p).
Proof. apply keeps_each. intros q _. apply keeps_ensure_dir. Qed.

Lemma inside_parent q p : p <> [] -> inside q (parent p) = true -> inside q p = true.
Proof.
  intros Hp [r Hr]%inside_true. destruct (path_cases p) as [->|(p' & n & ->)]; [done|]. rewrite parent_snoc in Hr. subst p'.
  apply inside_true. exists (r ++ [n]). by rewrite app_assoc.
Qed.

Lemma is_dir_filter_outside s q p :
  is_dir s p = true -> inside q p = false -> is_dir (filter (fun kv => inside q kv.1 = false) s) p = true.
Proof. rewrite !is_dir_true. intros [->|Hp] Hq; [by left|right]. by apply map_lookup_filter_Some. Qed.

Lemma fs_ok_filter_outside s q : fs_ok s -> fs_ok (filter (fun kv => inside q kv.1 = false) s).
Proof.
  intros Hs p e [Hp Hq]%map_lookup_filter_Some. cbn in Hq. destruct (Hs p e Hp) as [Hne Hd]. split; [done|].
  apply is_dir_filter_outside; [done|]. apply not_true_iff_false. intros H%inside_parent; [congruence|done].
Qed.

Lemma keeps_rmtree p : keeps fs_ok (rmtree p).
Proof. intros s Hs. unfold rmtree. case_match; [done|]. by apply fs_ok_filter_outside. Qed.

(** A directory is relocated to a directory. *)
Lemma is_dir_relocate s src dst q : s !! (src ++ q) = Some Directory -> relocate src dst s !! (dst ++ q) = Some Directory.
Proof. intros H. by rewrite lookup_relocate, strip_path_app. Qed.

Lemma no_conflict_dir new s p : no_conflict new s = true -> is_dir s p = true -> is_dir (new ∪ s) p = true.
Proof.
  unfold no_conflict. rewrite forallb_forall. intros Hn. rewrite !is_dir_true. intros [->|Hp]; [by left|right].
  rewrite lookup_union. destruct (new !! p) as [e|] eqn:E; [|by rewrite Hp].
  specialize (Hn (p, e)). cbn in Hn. rewrite Hp in Hn. destruct e; [by destruct (s !! p)|].
  discriminate Hn. by apply list_elem_of_In, elem_of_map_to_list.
Qed.

(** What is relocated under a directory is in directories. *)
Lemma fs_ok_relocate (s : fs) (src dst : path) (rest : fs) :
  fs_ok s -> is_dir rest (parent dst) = true -> (is_dir rest dst = true \/ s !! src <> None) -> dst <> [] ->
  (forall p e, rest !! p = Some e -> p <> [] /\ is_dir rest (parent p) = true) ->
  (forall p, is_dir rest p = true -> is_dir (relocate src dst s ∪ rest) p = true) ->
  fs_ok (relocate src dst s ∪ rest).
Proof.
  intros Hs Hpar Hdst Hne Hrest Hmono p e He. rewrite lookup_union_Some_raw in He.
  destruct He as [He|[_ He]]; [|destruct (Hrest p e He); auto].
  rewrite lookup_relocate in He. destruct (strip_path dst p) as [q|] eqn:Ep; [|done]. apply strip_path_Some in Ep as ->.
  destruct (path_cases q) as [->|(q' & n & ->)].
  - rewrite !app_nil_r in *. auto.
  - rewrite app_assoc in He |- *. rewrite parent_snoc. split; [by destruct dst|].
    destruct (Hs _ _ He) as [_ Hd]. rewrite parent_snoc in Hd. apply is_dir_true in Hd as [Hd|Hd].
    + apply app_eq_nil in Hd as [-> ->]. rewrite app_nil_r. destruct Hdst as [Hdst|Hdst]; [auto|].
      exfalso. apply Hdst. destruct (s !! []) as [f|] eqn:E; [|done]. by destruct (Hs _ _ E).
    + apply is_dir_true. right. apply lookup_union_Some_l. by apply is_dir_relocate.
Qed.

(** ** Writing *)

Lemma write_file_Ok keep file text s s' :
  write_file keep file text s = (s', Ok tt) ->
  s' = <[file := File ((if keep then default EmptyString (content s file) else EmptyString) ++ text)%string]> s /\ file <> [].
Proof.
  unfold write_file. destruct (is_dir s file) eqn:E; [done|]. destruct (is_dir s (parent file)); [|done].
  cbn [negb orb]. intros [= <-]. split; [done|]. by intros ->.
Qed.

Lemma content_insert s file c p :
  file <> [] -> content (<[file := File c]> s) p = if decide (p = file) then Some c else content s p.
Proof.
  intros Hf. unfold content, lookup_path. destruct p as [|n p].
  - by rewrite decide_False by congruence.
  - destruct (decide (n :: p = file)) as [<-|Hne]; [by rewrite lookup_insert_eq|by rewrite lookup_insert_ne].
Qed.

(** ** Making directories *)

Lemma is_dir_lookup s p : p <> [] -> is_dir s p = true -> s !! p = Some Directory.
Proof. rewrite is_dir_true. naive_solver. Qed.

(** A step of [makedirs]: nothing changes but the path, which is a directory. *)
Lemma ensure_dir_Ok s p s' :
  ensure_dir p s = (s', Ok tt) ->
  is_dir s' p = true /\ (forall q e, s !! q = Some e -> s' !! q = Some e) /\ (forall q, q <> p -> s' !! q = s !! q).
Proof.
  unfold ensure_dir. destruct (is_dir s p) eqn:E; [by intros [= <-]|]. unfold mkdir.
  destruct (path_exists s p) eqn:Ee; [done|]. destruct (is_dir s (parent p)) eqn:Ep; [|done]. cbn. intros [= <-].
  assert (p <> []) as Hp by (by intros ->). split; [|split].
  - apply is_dir_true. right. apply lookup_insert_eq.
  - intros q e Hq. destruct (decide (p = q)) as [<-|Hne]; [|by rewrite lookup_insert_ne].
    unfold path_exists in Ee. by rewrite lookup_path_not_nil, Hq in Ee.
  - intros q Hq. by rewrite lookup_insert_ne.
Qed.

Lemma ensure_dirs_Ok (s : fs) ps s' :
  io_each ensure_dir ps s = (s', Ok tt) ->
  Forall (fun p => is_dir s' p = true) ps /\ (forall q e, s !! q = Some e -> s' !! q = Some e)
  /\ (forall q, q ∉ ps -> s' !! q = s !! q).
Proof.
  revert s. induction ps as [|p ps IH]; intros s; cbn [io_each]; [by intros [= <-]|].
  intros (s1 & [] & H1%ensure_dir_Ok & H2%IH)%io_bind_Ok. destruct H1 as (Hd & Hk1 & Ho1), H2 as (Hall & Hk2 & Ho2).
  split; [|split].
  - constructor; [|done]. apply is_dir_true. apply is_dir_true in Hd as [Hd|Hd]; [by left|right; by apply Hk2].
  - intros q e Hq. by apply Hk2, Hk1.
  - intros q Hq. rewrite not_elem_of_cons in Hq. destruct Hq. by rewrite Ho2, Ho1.
Qed.

Lemma ancestors_snoc p n : ancestors (p ++ [n]) = ancestors p ++ [p ++ [n]].
Proof.
  induction p as [|m p IH]; [done|]. rewrite <-app_comm_cons. cbn [ancestors]. rewrite IH, fmap_app. done.
Qed.

Lemma elem_of_ancestors q p : q ∈ ancestors p -> inside q p = true.
Proof.
  revert q. induction p as [|n p IH]; intros q; [by intros ?%elem_of_nil|]. cbn [ancestors]. intros [->|Hq]%elem_of_cons.
  - apply inside_true. by exists p.
  - apply list_elem_of_fmap in Hq as (q' & -> & Hq'%IH). apply inside_true in Hq' as [r ->]. apply inside_true. by exists r.
Qed.

(** Above a directory there are directories. *)
Lemma ancestors_dirs s p : fs_ok s -> is_dir s p = true -> Forall (fun q => is_dir s q = true) (ancestors p).
Proof.
  intros Hs. induction p as [|n p IH] using rev_ind; [constructor|]. intros Hd. rewrite ancestors_snoc. apply Forall_app.
  split; [|by repeat constructor]. apply IH. apply is_dir_lookup in Hd; [|by destruct p]. apply Hs in Hd as [_ Hd].
  by rewrite parent_snoc in Hd.
Qed.

Lemma ensure_dirs_there s ps : Forall (fun q => is_dir s q = true) ps -> io_each ensure_dir ps s = (s, Ok tt).
Proof.
  induction 1 as [|p ps Hp _ IH]; [done|]. cbn [io_each]. unfold io_bind, ensure_dir at 1. by rewrite Hp.
Qed.

Lemma makedirs_there s p : fs_ok s -> is_dir s p = true -> makedirs p s = (s, Ok tt).
Proof. intros Hs Hd. by apply ensure_dirs_there, ancestors_dirs. Qed.

(** Inside a directory that is there. *)
Lemma makedirs_snoc s p n :
  fs_ok s -> is_dir s p = true -> path_exists s (p ++ [n]) = false ->
  makedirs (p ++ [n]) s = (<[p ++ [n] := Directory]> s, Ok tt).
Proof.
  intros Hs Hp Hn. unfold makedirs. rewrite ancestors_snoc. pose proof (ensure_dirs_there s _ (ancestors_dirs s p Hs Hp)) as H.
  assert (forall l1 l2 (s s1 : fs), io_each ensure_dir l1 s = (s1, Ok tt) -> io_each ensure_dir (l1 ++ l2) s = io_each ensure_dir l2 s1) as Happ.
  { clear. intros l1 l2. induction l1 as [|q l1 IH]; intros s s1; cbn [io_each app]; [by intros [= ->]|].
    intros (s2 & [] & Hq & Hrest)%io_bind_Ok. unfold io_bind. rewrite Hq. by apply IH. }
  rewrite (Happ _ _ _ _ H). cbn [io_each]. unfold io_bind, ensure_dir, mkdir. rewrite parent_snoc, Hp, Hn.
  destruct (is_dir s (p ++ [n])) eqn:E; [|done].
  unfold path_exists in Hn. unfold is_dir in E. by destruct (lookup_path s (p ++ [n])).
Qed.

(** ** Copying a tree *)

Lemma makedirs_dir p s s' : makedirs p s = (s', Ok tt) -> is_dir s' p = true.
Proof.
  intros [Hall _]%ensure_dirs_Ok. destruct (path_cases p) as [->|(q & n & ->)]; [done|].
  rewrite ancestors_snoc, Forall_app, Forall_singleton in Hall. by destruct Hall.
Qed.

Lemma keeps_copytree src dst : keeps fs_ok (copytree src dst).
Proof.
  intros s Hs. unfold copytree. destruct (is_dir s src) eqn:Esrc; [|done]. cbn.
  destruct (bool_decide (dst = []) || inside src dst) eqn:Ein; [done|]. apply orb_false_iff in Ein as [Hne _]. bool_hyps.
  unfold io_bind. pose proof (keeps_makedirs dst s Hs) as Hk. destruct (makedirs dst s) as [s1 [[]|e]] eqn:Em; [|done]. cbn in Hk.
  apply makedirs_dir in Em. unfold copy_under. case_match eqn:Ec; [|done]. cbn. apply fs_ok_relocate; auto.
  - destruct (Hk dst Directory) as [_ ?]; [by apply is_dir_lookup|done].
  - intros p. by apply no_conflict_dir.
Qed.

(** A copy into a directory that is there, or to a free name in one, gives every path of
    the source to the destination, and changes nothing else. *)
Lemma copytree_Ok s src dst s' :
  copytree src dst s = (s', Ok tt) ->
  (forall q e, s !! (src ++ q) = Some e -> s' !! (dst ++ q) = Some e)
  /\ (forall p e, s !! p = Some e -> inside dst p = false -> s' !! p = Some e)
  /\ (forall p, inside dst p = false -> inside p dst = false -> s' !! p = s !! p)
  /\ (forall q, q <> [] -> s !! (src ++ q) = None -> s' !! (dst ++ q) = s !! (dst ++ q)).
Proof.
  unfold copytree. destruct (is_dir s src); [|done]. cbn [negb].
  destruct (bool_decide (dst = []) || inside src dst) eqn:Ein; [done|]. apply orb_false_iff in Ein as [_ Hin].
  intros (s1 & [] & Hm%ensure_dirs_Ok & Hc)%io_bind_Ok. destruct Hm as (_ & Hkeep & Hother).
  unfold copy_under in Hc. destruct (no_conflict _ _); [|done]. injection Hc as <-.
  assert (forall q, s1 !! (src ++ q) = s !! (src ++ q)) as Hsrc.
  { intros q. apply Hother. intros Hq%elem_of_ancestors. apply not_true_iff_false in Hin. apply Hin.
    apply inside_true in Hq as [r ->]. apply inside_true. exists (q ++ r). by rewrite app_assoc. }
  assert (forall p, inside dst p = false -> (relocate src dst s1 ∪ s1) !! p = s1 !! p) as Hout.
  { intros p Hp. apply lookup_union_r. rewrite lookup_relocate. unfold inside in Hp. by destruct (strip_path dst p). }
  split; [|split; [|split]].
  - intros q e He. apply lookup_union_Some_l. by rewrite lookup_relocate, strip_path_app, Hsrc.
  - intros p e He Hp. rewrite Hout by done. by apply Hkeep.
  - intros p Hp Hp'. rewrite Hout by done. apply Hother. intros H%elem_of_ancestors. congruence.
  - intros q Hq He. rewrite lookup_union_r by (by rewrite lookup_relocate, strip_path_app, Hsrc).
    apply Hother. intros [r Hr]%elem_of_ancestors%inside_true. rewrite <-app_assoc in Hr.
    assert (q ++ r = []) as [? _]%app_eq_nil; [|done]. apply (app_inv_head dst). by rewrite app_nil_r.
Qed.

Lemma inside_refl p : inside p p = true.
Proof. apply inside_true. exists []. by rewrite app_nil_r. Qed.

(** There is nothing under what is not there. *)
Lemma nothing_under s p q : fs_ok s -> p <> [] -> path_exists s p = false -> s !! (p ++ q) = None.
Proof.
  intros Hs Hp Hf. destruct (s !! (p ++ q)) as [e|] eqn:E; [|done]. exfalso. revert e E.
  induction q as [|n q IH] using rev_ind; intros e E.
  - rewrite app_nil_r in E. unfold path_exists in Hf. by rewrite lookup_path_not_nil, E in Hf.
  - rewrite app_assoc in E. apply Hs in E as [_ E]. rewrite parent_snoc in E.
    apply is_dir_lookup in E; [by eapply IH|]. intros [? _]%app_eq_nil. done.
Qed.

(** A tree is copied to a free name in a directory. *)
Lemma copytree_fresh s src dst n :
  fs_ok s -> src <> [] -> is_dir s src = true -> is_dir s dst = true -> path_exists s (dst ++ [n]) = false ->
  inside src (dst ++ [n]) = false ->
  exists s', copytree src (dst ++ [n]) s = (s', Ok tt).
Proof.
  intros Hs Hne Hsrc Hdst Hfree Hin. unfold copytree. rewrite Hsrc, Hin, bool_decide_false by (by destruct dst). cbn [negb orb].
  unfold io_bind. rewrite makedirs_snoc by done. unfold copy_under.
  assert (no_conflict (relocate src (dst ++ [n]) (<[dst ++ [n] := Directory]> s)) (<[dst ++ [n] := Directory]> s) = true) as ->;
    [|by eexists].
  unfold no_conflict. apply forallb_forall. intros [p e] Hp%list_elem_of_In%elem_of_map_to_list. cbn.
  rewrite lookup_relocate in Hp. destruct (strip_path (dst ++ [n]) p) as [q|] eqn:E; [|done]. apply strip_path_Some in E as ->.
  destruct (decide (q = [])) as [->|Hq].
  - rewrite !app_nil_r in *. rewrite lookup_insert_eq. rewrite lookup_insert_ne in Hp by (by intros <-; rewrite inside_refl in Hin).
    apply is_dir_lookup in Hsrc; [|done]. rewrite Hp in Hsrc. by injection Hsrc as ->.
  - rewrite lookup_insert_ne by (intros E; apply Hq, (app_inv_head (dst ++ [n])); by rewrite app_nil_r).
    destruct (s !! ((dst ++ [n]) ++ q)) as [f|] eqn:Ef; [|done]. rewrite (nothing_under s (dst ++ [n])) in Ef; [done|done|by destruct dst|done].
Qed.

(** ** The texts of paths *)

Definition good_name (n : string) : bool :=
  negb (has_char "/" n) && negb (bool_decide (n = EmptyString) || bool_decide (n = "."%string)).

Lemma text_names_name cur n : has_char "/" n = false -> text_names cur n = [str_rev_app cur n].
Proof.
  revert cur. induction n as [|c n IH]; intros cur; [done|]. rewrite has_char_cons, orb_false_iff. intros [Hc Hn].
  cbn [text_names]. rewrite Ascii.eqb_sym, Hc. by rewrite IH.
Qed.

Lemma text_names_slash cur n rest :
  has_char "/" n = false -> text_names cur (n ++ String "/" rest) = str_rev_app cur n :: text_names EmptyString rest.
Proof.
  revert cur. induction n as [|c n IH]; intros cur; [done|]. rewrite has_char_cons, orb_false_iff. intros [Hc Hn].
  cbn [append text_names]. rewrite Ascii.eqb_sym, Hc. by rewrite IH.
Qed.

Lemma names_of_text p : forallb good_name p = true -> names_of (path_text p) = p.
Proof.
  induction p as [|n p IH]; [done|]. cbn [forallb]. intros [Hn Hp]%andb_true_iff.
  pose proof Hn as [Hc%negb_true_iff Hk]%andb_true_iff. unfold names_of, path_text in *. destruct p as [|m p].
  - cbn [join]. rewrite text_names_name by done. cbn [str_rev_app List.filter]. by rewrite Hk.
  - change (join "/" (n :: m :: p)) with (n ++ String "/" (join "/" (m :: p)))%string.
    rewrite text_names_slash by done. cbn [str_rev_app List.filter]. rewrite Hk. by rewrite IH.
Qed.

(** An absolute path, and one from the working directory. *)
Lemma path_of_absolute cwd p : forallb good_name p = true -> path_of cwd (String "/" (path_text p)) = p.
Proof. intros Hp. by rewrite <-(names_of_text p Hp) at 2. Qed.
