(* ===== verification/FileMoves.v ===== *)
(** * Renaming and removing in a tree

    [os.rename] of the entries of a directory, and [Path.rglob] with [shutil.rmtree], on
    the file systems of FileSystem.v: what is where afterwards, and that they succeed. *)

From S2P Require Import Prelude PyIo PyStr PySort FileSystem.

(** ** One renaming *)

Lemma parent_there s p e : fs_ok s -> s !! p = Some e -> is_dir s (parent p) = true.
Proof. intros Hs Hp. by apply Hs in Hp as [_ ?]. Qed.

(** Above what is there, there are directories. *)
Lemma above_dir s p q : fs_ok s -> p <> [] -> q <> [] -> s !! (p ++ q) <> None -> s !! p = Some Directory.
Proof.
  intros Hs Hp Hq Hin. induction q as [|n q IH] using rev_ind; [done|]. rewrite app_assoc in Hin.
  destruct (s !! ((p ++ q) ++ [n])) as [e|] eqn:E; [|done]. apply Hs in E as [_ E]. rewrite parent_snoc in E.
  apply is_dir_lookup in E; [|by intros [? _]%app_eq_nil]. destruct (decide (q = [])) as [->|Hne].
  - by rewrite app_nil_r in E.
  - apply IH; [done|]. by rewrite E.
Qed.

Lemma siblings (dir : path) n m q : n <> m -> strip_path (dir ++ [n]) ((dir ++ [m]) ++ q) = None.
Proof.
  intros Hn. destruct (strip_path _ _) as [r|] eqn:E; [|done]. apply strip_path_Some in E. rewrite <-!app_assoc in E.
  apply app_inv_head in E. by injection E as ->.
Qed.

Lemma lookup_outside (s : fs) q p : (filter (fun kv => inside q kv.1 = false) s : fs) !! p = if inside q p then None else s !! p.
Proof.
  apply option_eq. intros e. rewrite map_lookup_filter_Some. cbn. destruct (inside q p); naive_solver.
Qed.

(** An entry gets another name in its directory, one that is free. *)
Lemma rename_sibling s dir n m :
  fs_ok s -> s !! (dir ++ [n]) <> None -> n <> m -> path_exists s (dir ++ [m]) = false ->
  exists s', rename (dir ++ [n]) (dir ++ [m]) s = (s', Ok tt) /\ fs_ok s'
    /\ forall p, s' !! p = match strip_path (dir ++ [m]) p with
                          | Some q => s !! ((dir ++ [n]) ++ q)
                          | None => if inside (dir ++ [n]) p then None else s !! p
                          end.
Proof.
  intros Hs Hn Hnm Hm. unfold rename. destruct (s !! (dir ++ [n])) as [e|] eqn:En; [|done].
  rewrite (bool_decide_false (dir ++ [n] = [])) by (by destruct dir).
  rewrite (bool_decide_false (dir ++ [n] = dir ++ [m])) by (intros E%app_inv_head; congruence).
  unfold path_exists at 1. rewrite lookup_path_not_nil, En by (by destruct dir). cbn [negb orb].
  pose proof (parent_there s _ _ Hs En) as Hdir. rewrite parent_snoc in *. rewrite Hdir.
  assert (inside (dir ++ [n]) (dir ++ [m]) = false) as ->.
  { unfold inside. pose proof (siblings dir n m [] Hnm) as E. rewrite app_nil_r in E. by rewrite E. }
  rewrite Hm. cbn [negb orb]. eexists. split; [reflexivity|].
  assert (forall p, (relocate (dir ++ [n]) (dir ++ [m]) s ∪ filter (fun kv => inside (dir ++ [n]) kv.1 = false) s) !! p
    = match strip_path (dir ++ [m]) p with
      | Some q => s !! ((dir ++ [n]) ++ q)
      | None => if inside (dir ++ [n]) p then None else s !! p
      end) as Hl.
  { intros p. rewrite lookup_union, lookup_relocate, lookup_outside. destruct (strip_path (dir ++ [m]) p) as [q|] eqn:E.
    - apply strip_path_Some in E as ->. rewrite (nothing_under s (dir ++ [m])) by (done || by destruct dir). destruct (inside _ (_ ++ _)); by rewrite (right_id None _).
    - by rewrite (left_id None _). }
  split; [|exact Hl].
  apply fs_ok_relocate; [done|..].
  - rewrite parent_snoc. apply is_dir_filter_outside; [done|]. apply not_true_iff_false. intros [r Hr]%inside_true.
    apply (f_equal length) in Hr. rewrite !length_app in Hr. cbn in Hr. lia.
  - right. by rewrite En.
  - by destruct dir.
  - apply fs_ok_filter_outside, Hs.
  - intros p Hp. apply is_dir_true. apply is_dir_true in Hp as [->|Hp]; [by left|right].
    rewrite Hl. apply map_lookup_filter_Some in Hp as [Hp Ho]. cbn in Ho. rewrite Ho.
    destruct (strip_path (dir ++ [m]) p) as [q|] eqn:E; [|done]. apply strip_path_Some in E as ->.
    rewrite (nothing_under s (dir ++ [m])) in Hp; [done|done|by destruct dir|done].
Qed.

(** ** Renaming the entries of a directory *)

(** What is at a name of the directory, after one renaming. *)
Lemma renamed_at (s s' : fs) (dir : path) (n m x : string) (q : path) :
  n <> m ->
  (forall p, s' !! p = match strip_path (dir ++ [m]) p with
                       | Some q => s !! ((dir ++ [n]) ++ q)
                       | None => if inside (dir ++ [n]) p then None else s !! p
                       end) ->
  s' !! ((dir ++ [x]) ++ q)
  = if decide (x = m) then s !! ((dir ++ [n]) ++ q) else if decide (x = n) then None else s !! ((dir ++ [x]) ++ q).
Proof.
  intros Hnm Hs'. rewrite Hs'. destruct (decide (x = m)) as [->|Hm]; [by rewrite strip_path_app|].
  rewrite siblings by congruence. destruct (decide (x = n)) as [->|Hn]; [by rewrite inside_app|].
  unfold inside. by rewrite siblings by congruence.
Qed.

Lemma exists_at s (dir : path) n : path_exists s (dir ++ [n]) = true <-> s !! (dir ++ [n]) <> None.
Proof. unfold path_exists. rewrite lookup_path_not_nil by (by destruct dir). destruct (s !! _); naive_solver. Qed.

Section RenameAll.
Context (dir : path) (f : string -> string).
Definition rename_all (names : list string) : io fs unit := io_each (fun n => rename (dir ++ [n]) (dir ++ [f n])) names.

(** All the entries get new names, different ones that are free. *)
Lemma rename_all_Ok names s :
  fs_ok s -> NoDup names -> (forall n m, n ∈ names -> m ∈ names -> f n = f m -> n = m) ->
  (forall n, n ∈ names -> path_exists s (dir ++ [n]) = true /\ path_exists s (dir ++ [f n]) = false) ->
  exists s', rename_all names s = (s', Ok tt) /\ fs_ok s'
    /\ (forall n q, n ∈ names -> s' !! ((dir ++ [f n]) ++ q) = s !! ((dir ++ [n]) ++ q))
    /\ (forall n q, n ∈ names -> s' !! ((dir ++ [n]) ++ q) = None)
    /\ (forall x q, x ∉ names -> x ∉ f <$> names -> s' !! ((dir ++ [x]) ++ q) = s !! ((dir ++ [x]) ++ q))
    /\ (forall p, inside dir p = false -> s' !! p = s !! p).
Proof.
  revert s. induction names as [|n names IH]; intros s Hs Hnd Hinj Hfree.
  { exists s. split; [done|]. split; [done|]. split; [by intros n q ?%elem_of_nil|].
    split; [by intros n q ?%elem_of_nil|]. done. }
  apply NoDup_cons in Hnd as [Hn Hnd]. destruct (Hfree n ltac:(by left)) as [Hex Hno].
  assert (n <> f n) as Hne by congruence. apply exists_at in Hex.
  destruct (rename_sibling s dir n (f n) Hs Hex Hne Hno) as (s1 & Hr & Hs1 & Hl).
  pose proof (fun x q => renamed_at s s1 dir n (f n) x q Hne Hl) as Hat.
  assert (forall m, m ∈ names -> m <> n /\ m <> f n /\ f m <> n /\ f m <> f n) as Hdiff.
  { intros m Hm. destruct (Hfree m ltac:(by right)) as [Hm1 Hm2]. apply exists_at in Hex. split; [by intros ->|].
    split; [congruence|]. split; [congruence|]. intros E%Hinj; [by subst|by right|by left]. }
  destruct (IH s1 Hs1 Hnd) as (s' & Hrun & Hs' & Hmoved & Hgone & Hother & Hout).
  { intros a b Ha Hb. apply Hinj; by right. }
  { intros m Hm. destruct (Hdiff m Hm) as (D1 & D2 & D3 & D4), (Hfree m ltac:(by right)) as [Hm1 Hm2]. unfold path_exists.
    rewrite !lookup_path_not_nil by (by destruct dir). rewrite <-(app_nil_r (dir ++ [m])), <-(app_nil_r (dir ++ [f m])), !Hat.
    rewrite !decide_False by done. rewrite !app_nil_r. unfold path_exists in Hm1, Hm2.
    by rewrite !lookup_path_not_nil in Hm1, Hm2 by (by destruct dir). }
  exists s'. split; [unfold rename_all; cbn [io_each]; unfold io_bind; by rewrite Hr|]. split; [done|].
  assert (f n ∉ names) as Hfn by (intros Hin; by apply Hdiff in Hin as (_ & ? & _)).
  assert (f n ∉ f <$> names) as Hfn'.
  { intros (m & E & Hin)%list_elem_of_fmap. apply Hdiff in Hin as (_ & _ & _ & ?). congruence. }
  assert (n ∉ f <$> names) as Hn'.
  { intros (m & E & Hin)%list_elem_of_fmap. apply Hdiff in Hin as (_ & _ & ? & _). congruence. }
  split; [|split; [|split]].
  - intros m q [->|Hm]%elem_of_cons; [by rewrite Hother, Hat, decide_True by done|].
    rewrite Hmoved, Hat by done. destruct (Hdiff m Hm) as (D1 & D2 & _ & _). by rewrite !decide_False.
  - intros m q [->|Hm]%elem_of_cons; [|by apply Hgone]. rewrite Hother, Hat by done. by rewrite decide_False, decide_True.
  - intros x q Hx Hx'. rewrite not_elem_of_cons in Hx. rewrite fmap_cons, not_elem_of_cons in Hx'.
    destruct Hx, Hx'. rewrite Hother, Hat by done. by rewrite !decide_False.
  - intros p Hp. rewrite Hout, Hl by done.
    assert (forall x, strip_path (dir ++ [x]) p = None) as Hst.
    { intros x. destruct (strip_path (dir ++ [x]) p) as [r|] eqn:E; [|done]. apply strip_path_Some in E as ->.
      by rewrite <-app_assoc, inside_app in Hp. }
    rewrite Hst. unfold inside. by rewrite Hst.
Qed.
End RenameAll.

(** ** Removing the directories of a name *)

(** The paths [root.rglob(name)] gives when each of them is removed at once: there is none
    under another. *)
Definition found_at (root : path) (name : string) (p : path) : bool :=
  match strip_path root p with
  | Some q => bool_decide (last q = Some name) && bool_decide (name ∉ removelast q)
  | None => false
  end.
Definition rglob (root : path) (name : string) (s : fs) : list path :=
  List.filter (found_at root name) (map_to_list s).*1.

Section RemoveNamed.
(** The order of the walk. *)
Context (walk : list path -> list path).
Definition remove_named (root : path) (name : string) : io fs unit := fun s =>
  io_each rmtree (walk (rglob root name s)) s.
End RemoveNamed.

Lemma rmtree_Ok s p : s !! p = Some Directory -> p <> [] ->
  rmtree p s = (filter (fun kv => inside p kv.1 = false) s, Ok tt).
Proof. intros Hp Hne. unfold rmtree, is_dir. by rewrite bool_decide_false, lookup_path_not_nil, Hp by done. Qed.

(** Directories none of which is under another. *)
Lemma rmtrees_Ok ds s :
  fs_ok s -> NoDup ds -> (forall d, d ∈ ds -> d <> [] /\ s !! d = Some Directory) ->
  (forall d d', d ∈ ds -> d' ∈ ds -> inside d d' = true -> d = d') ->
  exists s', io_each rmtree ds s = (s', Ok tt) /\ fs_ok s'
    /\ forall p, s' !! p = if existsb (fun d => inside d p) ds then None else s !! p.
Proof.
  revert s. induction ds as [|d ds IH]; intros s Hs Hnd Hds Hap; [by exists s|].
  apply NoDup_cons in Hnd as [Hd Hnd]. destruct (Hds d ltac:(by left)) as [Hne Hdir].
  destruct (IH (filter (fun kv => inside d kv.1 = false) s)) as (s' & Hrun & Hs' & Hl).
  - by apply fs_ok_filter_outside.
  - done.
  - intros d' Hd'. destruct (Hds d' ltac:(by right)) as [Hne' Hdir']. split; [done|]. rewrite lookup_outside.
    destruct (inside d d') eqn:E; [|done]. apply Hap in E; [by subst|by left|by right].
  - intros a b Ha Hb. apply Hap; by right.
  - exists s'. split; [cbn [io_each]; unfold io_bind; by rewrite rmtree_Ok|]. split; [done|].
    intros p. rewrite Hl, lookup_outside. cbn [existsb]. destruct (inside d p); cbn [orb]; [by destruct (existsb _ _)|done].
Qed.

(** The first occurrence of a name. *)
Lemma first_occurrence (name : string) (q : path) : name ∈ q -> exists pre post, q = pre ++ name :: post /\ name ∉ pre.
Proof.
  induction q as [|x q IH]; [by intros ?%elem_of_nil|]. destruct (decide (x = name)) as [->|Hne].
  - intros _. exists [], q. split; [done|]. set_solver.
  - intros [?|Hin]%elem_of_cons; [congruence|]. destruct (IH Hin) as (pre & post & -> & Hpre). exists (x :: pre), post.
    split; [done|]. set_solver.
Qed.

Lemma found_at_true root name p : found_at root name p = true <-> exists pre, p = root ++ pre ++ [name] /\ name ∉ pre.
Proof.
  unfold found_at. destruct (strip_path root p) as [q|] eqn:E.
  - apply strip_path_Some in E as ->. rewrite andb_true_iff, !bool_decide_eq_true. split.
    + intros [Hl Hr]. destruct (path_cases q) as [->|(pre & n & ->)]; [done|]. rewrite last_snoc in Hl. injection Hl as ->.
      rewrite removelast_last in Hr. by exists pre.
    + intros (pre & Hp & Hn). apply app_inv_head in Hp as ->. by rewrite last_snoc, removelast_last.
  - split; [done|]. intros (pre & Hp & _). apply strip_path_Some in Hp. congruence.
Qed.

(** Whatever the order of the walk, what is left is what has no such name under the root. *)
Lemma remove_named_Ok walk root name s :
  (forall l, walk l ≡ₚ l) -> fs_ok s ->
  (forall q, s !! (root ++ q ++ [name]) <> None -> s !! (root ++ q ++ [name]) = Some Directory) ->
  exists s', remove_named walk root name s = (s', Ok tt) /\ fs_ok s'
    /\ (forall q, s' !! (root ++ q) = if bool_decide (name ∈ q) then None else s !! (root ++ q))
    /\ (forall p, inside root p = false -> s' !! p = s !! p).
Proof.
  intros Hwalk Hs Hdirs. unfold remove_named.
  assert (forall d, d ∈ walk (rglob root name s) <-> (exists pre, d = root ++ pre ++ [name] /\ (name ∉ pre) /\ s !! d <> None)) as Hd.
  { intros d. rewrite Hwalk. unfold rglob. rewrite list_elem_of_In, filter_In, <-list_elem_of_In, found_at_true, list_elem_of_fmap. split.
    - intros [([k e] & Hk & Hin%elem_of_map_to_list) (pre & Hp & Hn)]. cbn in Hk. subst d k. exists pre.
      split; [done|]. split; [done|]. by rewrite Hin.
    - intros (pre & Hp & Hn & Hin). split; [|by exists pre]. destruct (s !! d) as [e|] eqn:E; [|done].
      exists (d, e). split; [done|]. by apply elem_of_map_to_list. }
  destruct (rmtrees_Ok (walk (rglob root name s)) s Hs) as (s' & Hrun & Hs' & Hl).
  - rewrite Hwalk. unfold rglob. apply NoDup_ListNoDup, List.NoDup_filter, NoDup_ListNoDup, NoDup_fst_map_to_list.
  - intros d (pre & -> & _ & Hin)%Hd. split; [by intros [_ [_ ?]%app_eq_nil]%app_eq_nil|by apply Hdirs].
  - intros d d' (pre & -> & Hn & _)%Hd (pre' & -> & Hn' & _)%Hd [r Hr]%inside_true.
    rewrite <-app_assoc in Hr. apply app_inv_head in Hr. rewrite <-app_assoc in Hr.
    destruct (path_cases r) as [->|(r' & m & ->)]; [by rewrite app_nil_r in Hr; f_equal|]. exfalso.
    rewrite !app_assoc in Hr. apply app_inj_tail in Hr as [-> _]. set_solver.
  - exists s'. split; [exact Hrun|]. split; [done|]. split.
    + intros q. rewrite Hl. destruct (bool_decide_reflect (name ∈ q)) as [Hq|Hq].
      * destruct (first_occurrence _ _ Hq) as (pre & post & -> & Hpre).
        destruct (existsb _ _) eqn:E; [done|]. destruct (s !! (root ++ pre ++ name :: post)) as [e|] eqn:Ee; [|done].
        exfalso. apply not_true_iff_false in E. apply E. apply existsb_exists. exists (root ++ pre ++ [name]).
        replace (root ++ pre ++ name :: post) with ((root ++ pre ++ [name]) ++ post) in * by (by rewrite <-!app_assoc).
        split; [|apply inside_app]. apply list_elem_of_In, Hd. exists pre. split; [done|]. split; [done|].
        destruct (decide (post = [])) as [->|Hpost]; [by rewrite app_nil_r in Ee; rewrite Ee|].
        rewrite (above_dir s _ post); [done|done|by intros [_ [_ ?]%app_eq_nil]%app_eq_nil|done|by rewrite Ee].
      * destruct (existsb _ _) eqn:E; [|done]. exfalso. apply existsb_exists in E as (d & Hin & Hr).
        apply list_elem_of_In, Hd in Hin as (pre & -> & _). apply inside_true in Hr as [r Hr]. rewrite <-app_assoc in Hr.
        apply app_inv_head in Hr as ->. apply Hq. set_solver.
    + intros p Hp. rewrite Hl. destruct (existsb _ _) eqn:E; [|done]. exfalso. apply existsb_exists in E as (d & Hin & Hr).
      apply list_elem_of_In, Hd in Hin as (pre & -> & _). apply inside_true in Hr as [r ->]. by rewrite <-app_assoc, inside_app in Hp.
Qed.

(** ** Removing a file *)

Lemma unlink_Ok s p :
  fs_ok s -> p <> [] -> s !! p <> Some Directory ->
  exists s', unlink true p s = (s', Ok tt) /\ fs_ok s' /\ forall q, s' !! q = if decide (q = p) then None else s !! q.
Proof.
  intros Hs Hp Hd. unfold unlink. rewrite lookup_path_not_nil by done. destruct (s !! p) as [[|c]|] eqn:E; [done|..].
  - exists (delete p s). split; [done|]. split.
    + intros q e Hq. apply lookup_delete_Some in Hq as [Hne Hq]. destruct (Hs q e Hq) as [Hq' Hdir]. split; [done|].
      apply is_dir_true. apply is_dir_true in Hdir as [Hpq|Hdir]; [by left|right]. rewrite lookup_delete_ne; [done|].
      intros Eq. rewrite <-Eq in Hdir. congruence.
    + intros q. destruct (decide (q = p)) as [->|]; [apply lookup_delete_eq|by apply lookup_delete_ne].
  - exists s. split; [done|]. split; [done|]. intros q. by case_decide; subst.
Qed.
