(* ===== verification/PyRegex.v ===== *)
(** * Python regular expressions

    The patterns of the source are sequences of literals and of repetitions of a
    one-character class, greedy or lazy, captured or not.  [match_here] is the
    backtracking matcher of the [re] module on them, with its priorities: a
    greedy repetition tries the longest text first, a lazy one the shortest.
    [matches] says declaratively which texts a pattern accepts; the matcher is
    proved sound and complete against it. *)

From S2P Require Import Prelude PyStr PyInt.

Inductive item : Type :=
  | Lit (l : string)                                    (* a literal text *)
  | One (p : ascii -> bool)                             (* one character of a class *)
  | Rep (cap lazy nonempty : bool) (p : ascii -> bool). (* characters of a class, repeated *)

(** [.]: any character but a newline. *)
Definition dot (c : ascii) : bool := negb (Ascii.eqb c nl).
(** [[abcdef0-9]] *)
Definition is_hex_lower (c : ascii) : bool :=
  let n := nat_of_ascii c in is_digit c || ((97 <=? n)%nat && (n <=? 102)%nat).

(** Any text lazily in a group; any text greedily, not in a group or in one; one
    or more decimal, or hexadecimal, digits in a group. *)
Abbreviation any_lazy := (Rep true true false dot).
Abbreviation any_star := (Rep false false false dot).
Abbreviation any_group := (Rep true false false dot).
Abbreviation digits_group := (Rep true false true is_digit).
Abbreviation hex_group := (Rep true false true is_hex_lower).

Section Repeat.
Context (k : string -> option (list string * string)) (p : ascii -> bool).

Definition stop (s : string) : option (string * (list string * string)) :=
  (fun r => (EmptyString, r)) <$> k s.

Definition more (c : ascii) (o : option (string * (list string * string)))
  : option (string * (list string * string)) :=
  (fun r => (String c r.1, r.2)) <$> o.

Fixpoint greedy (s : string) : option (string * (list string * string)) :=
  match s with
  | EmptyString => stop s
  | String c s' =>
      if p c then match more c (greedy s') with Some r => Some r | None => stop s end
      else stop s
  end.

Fixpoint lazily (s : string) : option (string * (list string * string)) :=
  match stop s with
  | Some r => Some r
  | None => match s with
            | EmptyString => None
            | String c s' => if p c then more c (lazily s') else None
            end
  end.

Definition repeat_item (lazy nonempty : bool) (s : string)
  : option (string * (list string * string)) :=
  let go := if lazy then lazily else greedy in
  if nonempty
  then match s with
       | EmptyString => None
       | String c s' => if p c then more c (go s') else None
       end
  else go s.
End Repeat.

(** Match a pattern at the start of a text: the captures and the rest of the text. *)
Fixpoint match_here (r : list item) (s : string) : option (list string * string) :=
  match r with
  | [] => Some ([], s)
  | Lit l :: r' => strip_prefix l s ≫= match_here r'
  | One p :: r' =>
      match s with
      | String c s' => if p c then match_here r' s' else None
      | EmptyString => None
      end
  | Rep cap lazy nonempty p :: r' =>
      (fun m => (if cap then m.1 :: m.2.1 else m.2.1, m.2.2))
      <$> repeat_item (match_here r') p lazy nonempty s
  end.

(** [re.search]: the leftmost match. *)
Fixpoint search (r : list item) (s : string) : option (list string * string) :=
  match match_here r s with
  | Some x => Some x
  | None => match s with EmptyString => None | String _ s' => search r s' end
  end.

(** [re.findall] of a pattern with groups, for patterns that match no empty text. *)
Fixpoint findall_go (fuel : nat) (r : list item) (s : string) : list (list string) :=
  match fuel with
  | O => []
  | S f => match search r s with
           | Some (gs, rest) => gs :: findall_go f r rest
           | None => []
           end
  end.
Definition findall (r : list item) (s : string) : list (list string) :=
  findall_go (S (String.length s)) r s.

(** [re.search] of an alternation of literals: the text of the match. *)
Fixpoint search_alt (ls : list string) (s : string) : option string :=
  match list_find (fun l => startswith l s = true) ls with
  | Some (_, l) => Some l
  | None => match s with EmptyString => None | String _ s' => search_alt ls s' end
  end.

(** ** Specification: the texts a pattern accepts, with their captures *)

Inductive matches : list item -> string -> list string -> Prop :=
  | matches_nil : matches [] EmptyString []
  | matches_lit l r m gs :
      matches r m gs -> matches (Lit l :: r) (l ++ m) gs
  | matches_one (p : ascii -> bool) c r m gs :
      p c = true -> matches r m gs -> matches (One p :: r) (String c m) gs
  | matches_rep (cap lazy nonempty : bool) p r w m gs :
      str_all p w = true -> (nonempty = true -> w <> EmptyString) ->
      matches r m gs ->
      matches (Rep cap lazy nonempty p :: r) (w ++ m) (if cap then w :: gs else gs).

Section RepeatLemmas.
Context (k : string -> option (list string * string)) (p : ascii -> bool).

Lemma stop_Some s w gs t : stop k s = Some (w, (gs, t)) <-> w = EmptyString /\ k s = Some (gs, t).
Proof. unfold stop. destruct (k s) as [[? ?]|]; simpl; naive_solver. Qed.

Lemma more_Some c o w gs t :
  more c o = Some (w, (gs, t)) <-> exists w', w = String c w' /\ o = Some (w', (gs, t)).
Proof. unfold more. destruct o as [[? [? ?]]|]; simpl; naive_solver. Qed.

Lemma more_None c o : more c o = None <-> o = None.
Proof. unfold more. destruct o; simpl; naive_solver. Qed.

Definition splits (s w : string) (gs : list string) (t : string) : Prop :=
  exists u, s = (w ++ u)%string /\ str_all p w = true /\ k u = Some (gs, t).

Lemma splits_more c s w gs t : p c = true -> splits s w gs t -> splits (String c s) (String c w) gs t.
Proof. intros Hc (u & -> & Hw & Hk). exists u. simpl. by rewrite Hc. Qed.

Lemma splits_stop s gs t : k s = Some (gs, t) -> splits s EmptyString gs t.
Proof. by exists s. Qed.

Lemma greedy_sound s w gs t : greedy k p s = Some (w, (gs, t)) -> splits s w gs t.
Proof.
  revert w. induction s as [|c s IH]; intros w; simpl.
  - rewrite stop_Some. intros [-> ?]. by apply splits_stop.
  - destruct (p c) eqn:Hc; [|rewrite stop_Some; intros [-> ?]; by apply splits_stop].
    destruct (more c (greedy k p s)) as [r|] eqn:E.
    + intros [= ->]. apply more_Some in E as (w' & -> & E). apply splits_more; auto.
    + rewrite stop_Some. intros [-> ?]. by apply splits_stop.
Qed.

Lemma lazily_sound s w gs t : lazily k p s = Some (w, (gs, t)) -> splits s w gs t.
Proof.
  revert w. induction s as [|c s IH]; intros w; simpl.
  - destruct (stop k "") as [r|] eqn:E; [|done]. intros [= ->].
    apply stop_Some in E as [-> ?]. by apply splits_stop.
  - destruct (stop k (String c s)) as [r|] eqn:E.
    + intros [= ->]. apply stop_Some in E as [-> ?]. by apply splits_stop.
    + destruct (p c) eqn:Hc; [|done]. rewrite more_Some. intros (w' & -> & E').
      apply splits_more; auto.
Qed.

Lemma repeat_item_sound lz ne s w gs t :
  repeat_item k p lz ne s = Some (w, (gs, t)) ->
  splits s w gs t /\ (ne = true -> w <> EmptyString).
Proof.
  assert (forall s w, (if lz then lazily k p else greedy k p) s = Some (w, (gs, t)) -> splits s w gs t) as Hgo.
  { destruct lz; eauto using greedy_sound, lazily_sound. }
  unfold repeat_item. destruct ne; [|intros H; split; [auto|done]].
  destruct s as [|c s]; [done|]. destruct (p c) eqn:Hc; [|done].
  rewrite more_Some. intros (w' & -> & E). split; [|done]. apply splits_more; auto.
Qed.

Lemma greedy_complete w u : str_all p w = true -> is_Some (k u) -> is_Some (greedy k p (w ++ u)).
Proof.
  intros Hw [[gs t] Hu]. revert Hw. induction w as [|c w IH]; simpl.
  - intros _. destruct u as [|c u]; simpl.
    + exists (EmptyString, (gs, t)). by apply stop_Some.
    + assert (stop k (String c u) = Some (EmptyString, (gs, t))) as -> by (by apply stop_Some).
      destruct (p c); [|eauto]. destruct (more c _); eauto.
  - rewrite andb_true_iff. intros [-> Hw]. destruct (IH Hw) as [[w' [gs' t']] E]. rewrite E. simpl. eauto.
Qed.

Lemma lazily_complete w u : str_all p w = true -> is_Some (k u) -> is_Some (lazily k p (w ++ u)).
Proof.
  intros Hw [[gs t] Hu]. revert Hw. induction w as [|c w IH]; simpl.
  - intros _. assert (stop k u = Some (EmptyString, (gs, t))) as E by (by apply stop_Some).
    destruct u; simpl; rewrite E; eauto.
  - rewrite andb_true_iff. intros [-> Hw]. destruct (IH Hw) as [[w' [gs' t']] E]. rewrite E.
    destruct (stop k _); simpl; eauto.
Qed.

Lemma repeat_item_complete lz ne w u :
  str_all p w = true -> (ne = true -> w <> EmptyString) -> is_Some (k u) ->
  is_Some (repeat_item k p lz ne (w ++ u)).
Proof.
  intros Hw Hne Hu. unfold repeat_item. destruct ne.
  - destruct w as [|c w]; [by destruct Hne|]. simpl in *. apply andb_true_iff in Hw as [-> Hw].
    unfold more. apply fmap_is_Some. destruct lz; auto using greedy_complete, lazily_complete.
  - destruct lz; auto using greedy_complete, lazily_complete.
Qed.

(** Deterministic evaluation: where the repetition has to stop. *)
Lemma greedy_none s : (forall a b, s = (a ++ b)%string -> k b = None) -> greedy k p s = None.
Proof.
  induction s as [|c s IH]; intros H; simpl; unfold stop.
  - by rewrite (H EmptyString).
  - rewrite IH by (intros a b ->; by apply (H (String c a))).
    rewrite (H EmptyString) by done. simpl. by destruct (p c).
Qed.

Lemma greedy_exact w u gs t :
  str_all p w = true -> k u = Some (gs, t) ->
  (match u with EmptyString => True | String c u' => p c = false \/ greedy k p u' = None end) ->
  greedy k p (w ++ u) = Some (w, (gs, t)).
Proof.
  intros Hw Hu Hstop. revert Hw. induction w as [|c w IH]; simpl.
  - intros _. assert (stop k u = Some (EmptyString, (gs, t))) as E by (by apply stop_Some).
    destruct u as [|c u]; simpl; [done|]. rewrite E.
    destruct Hstop as [->| ->]; [done|]. simpl. by destruct (p c).
  - rewrite andb_true_iff. intros [-> Hw]. by rewrite IH.
Qed.

Lemma lazily_exact w u gs t :
  str_all p w = true -> k u = Some (gs, t) ->
  (forall a c b, w = (a ++ String c b)%string -> k (String c b ++ u) = None) ->
  lazily k p (w ++ u) = Some (w, (gs, t)).
Proof.
  intros Hw Hu. revert Hw. induction w as [|c w IH]; simpl; intros Hw Hearly.
  - assert (stop k u = Some (EmptyString, (gs, t))) as E by (by apply stop_Some).
    destruct u; simpl; by rewrite E.
  - apply andb_true_iff in Hw as [-> Hw].
    unfold stop. rewrite (Hearly EmptyString c w) by done. simpl.
    rewrite IH; [done|done|]. intros a d b ->. by apply (Hearly (String c a)).
Qed.
End RepeatLemmas.

(** The matcher only returns texts the pattern accepts, ... *)
Lemma match_here_sound r s gs t :
  match_here r s = Some (gs, t) -> exists m, s = (m ++ t)%string /\ matches r m gs.
Proof.
  revert s gs t. induction r as [|[l|p|cap lz ne p] r IH]; intros s gs t; simpl.
  - intros [= <- <-]. exists EmptyString. split; [done|constructor].
  - destruct (strip_prefix l s) as [s'|] eqn:E; simpl; [|done].
    apply strip_prefix_Some in E as ->. intros (m & -> & Hm)%IH.
    exists (l ++ m)%string. rewrite <-str_app_assoc. split; [done|by constructor].
  - destruct s as [|c s]; [done|]. destruct (p c) eqn:Hc; [|done].
    intros (m & -> & Hm)%IH. exists (String c m). split; [done|by constructor].
  - destruct (repeat_item _ p lz ne s) as [[w [gs' t']]|] eqn:E; simpl; [|done].
    intros [= <- <-]. apply repeat_item_sound in E as [(u & -> & Hw & Hu) Hne].
    apply IH in Hu as (m & -> & Hm). exists (w ++ m)%string. rewrite <-str_app_assoc.
    split; [done|by constructor].
Qed.

(** ... and it succeeds whenever the pattern accepts a prefix. *)
Lemma match_here_complete r m gs t : matches r m gs -> is_Some (match_here r (m ++ t)).
Proof.
  induction 1 as [|l r m gs _ IH|p c r m gs Hc _ IH|cap lz ne p r w m gs Hw Hne _ IH]; simpl.
  - eauto.
  - rewrite <-str_app_assoc, strip_prefix_app. done.
  - by rewrite Hc.
  - apply fmap_is_Some. rewrite <-str_app_assoc. by apply repeat_item_complete.
Qed.

Lemma search_skip r c s : match_here r (String c s) = None -> search r (String c s) = search r s.
Proof. simpl. by intros ->. Qed.

Lemma search_sound r s gs t :
  search r s = Some (gs, t) -> exists a m, s = (a ++ m ++ t)%string /\ matches r m gs.
Proof.
  induction s as [|c s IH]; simpl.
  - destruct (match_here r "") as [x|] eqn:E; [|done]. intros [= ->].
    apply match_here_sound in E as (m & E & Hm). by exists EmptyString, m.
  - destruct (match_here r (String c s)) as [x|] eqn:E.
    + intros [= ->]. apply match_here_sound in E as (m & E & Hm). by exists EmptyString, m.
    + intros (a & m & -> & Hm)%IH. by exists (String c a), m.
Qed.

Lemma search_complete r a m t gs : matches r m gs -> is_Some (search r (a ++ m ++ t)).
Proof.
  intros Hm. induction a as [|c a IH].
  - destruct (match_here_complete r m gs t Hm) as [x E]. simpl.
    destruct (m ++ t)%string; simpl; rewrite E; eauto.
  - simpl. destruct (match_here r _); eauto.
Qed.

(** A search that must start with a literal skips the texts without its first character. *)
Lemma search_skip_text c l r a s :
  has_char c a = false -> search (Lit (String c l) :: r) (a ++ s) = search (Lit (String c l) :: r) s.
Proof.
  induction a as [|d a IH]; simpl; [done|]. rewrite has_char_cons, orb_false_iff. intros [Hd Ha].
  rewrite Hd. by apply IH.
Qed.

(** The text begins with some character other than [d]. *)
Definition starts_not (d : ascii) (w : string) : bool :=
  match w with String e _ => negb (Ascii.eqb d e) | EmptyString => false end.

Lemma starts_not_all p d w :
  p d = false -> str_all p w = true -> w <> EmptyString -> starts_not d w = true.
Proof.
  destruct w as [|e w]; [done|]. simpl. intros Hd [He _]%andb_true_iff _.
  destruct (Ascii.eqb_spec d e) as [->|]; [congruence|done].
Qed.

(** A search for two characters skips the first one in front of another second one. *)
Lemma search_skip_pair c d l r w s :
  starts_not d w = true ->
  search (Lit (String c (String d l)) :: r) (String c (w ++ s))
  = search (Lit (String c (String d l)) :: r) (w ++ s).
Proof.
  intros Hw. apply search_skip. destruct w as [|e w]; [done|]. simpl in *.
  rewrite Ascii.eqb_refl. by destruct (Ascii.eqb d e).
Qed.

Lemma search_here r s gs t : match_here r s = Some (gs, t) -> search r s = Some (gs, t).
Proof. intros H. destruct s; simpl; by rewrite H. Qed.

(** ** Evaluating a pattern on a structured text

    Each lemma advances the match over one item; the text is an [++] of the
    parts the items match. *)

Lemma match_here_lit l r s x : match_here r s = Some x -> match_here (Lit l :: r) (l ++ s) = Some x.
Proof. intros H. simpl. by rewrite strip_prefix_app. Qed.

Lemma match_here_strip l r s' s x :
  strip_prefix l s' = Some s -> match_here r s = Some x -> match_here (Lit l :: r) s' = Some x.
Proof. intros Hs Hr. simpl. by rewrite Hs. Qed.

Lemma match_here_one (p : ascii -> bool) c r s x :
  p c = true -> match_here r s = Some x -> match_here (One p :: r) (String c s) = Some x.
Proof. intros Hc Hr. simpl. by rewrite Hc. Qed.

(** A greedy group of a class that the next character is not in. *)
Lemma match_here_group p r w c s gs t :
  str_all p w = true -> w <> EmptyString -> p c = false ->
  match_here r (String c s) = Some (gs, t) ->
  match_here (Rep true false true p :: r) (w ++ String c s) = Some (w :: gs, t).
Proof.
  intros Hw Hne Hc Hr. destruct w as [|d w]; [done|]. simpl in *. apply andb_true_iff in Hw as [-> Hw].
  by rewrite (greedy_exact _ _ w (String c s) gs t) by auto.
Qed.

(** A greedy group at the end of the text. *)
Lemma match_here_group_end p r w gs t :
  str_all p w = true -> w <> EmptyString ->
  match_here r EmptyString = Some (gs, t) ->
  match_here (Rep true false true p :: r) w = Some (w :: gs, t).
Proof.
  intros Hw Hne Hr. rewrite <-(str_app_nil_r w) at 1. destruct w as [|d w]; [done|].
  simpl in *. apply andb_true_iff in Hw as [-> Hw]. by rewrite (greedy_exact _ _ w EmptyString gs t) by auto.
Qed.

(** A lazy group stops at the first occurrence of the character that follows it. *)
Lemma match_here_any_lazy c l r w s gs t :
  str_all dot w = true -> has_char c w = false ->
  match_here (Lit (String c l) :: r) (String c s) = Some (gs, t) ->
  match_here (any_lazy :: Lit (String c l) :: r) (w ++ String c s) = Some (w :: gs, t).
Proof.
  intros Hw Hc Hr.
  enough (repeat_item (match_here (Lit (String c l) :: r)) dot true false (w ++ String c s) = Some (w, (gs, t))) as E.
  { cbn [match_here] in E |- *. by rewrite E. }
  apply lazily_exact; [done|done|]. intros a d b ->.
  rewrite has_char_app, has_char_cons, !orb_false_iff in Hc. destruct Hc as (_ & Hd & _).
  cbn [match_here strip_prefix String.append]. by rewrite Hd.
Qed.

Lemma search_None_inv r a b : search r (a ++ b) = None -> match_here r b = None.
Proof.
  induction a as [|c a IH]; cbn [String.append search].
  - destruct b; cbn [search]; by destruct (match_here r _).
  - destruct (match_here r (String c (a ++ b))); [done|exact IH].
Qed.

(** A greedy [.*], in a group or not, goes to the last place where the rest of
    the pattern matches. *)
Lemma match_here_any_star cap r w s gs t :
  str_all dot w = true -> match_here r s = Some (gs, t) ->
  match s with EmptyString => True | String _ s' => search r s' = None end ->
  match_here (Rep cap false false dot :: r) (w ++ s) = Some (if cap then w :: gs else gs, t).
Proof.
  intros Hw Hr Hlast. cbn [match_here repeat_item].
  assert (greedy (match_here r) dot (w ++ s) = Some (w, (gs, t))) as ->; [|by destruct cap].
  apply greedy_exact; [done|done|]. destruct s as [|c s]; [done|]. right. apply greedy_none.
  intros a b ->. by eapply search_None_inv.
Qed.

(** [search] over a structured text. *)
Lemma search_alt_skip ls c s :
  Forall (fun l => startswith l (String c s) = false) ls -> search_alt ls (String c s) = search_alt ls s.
Proof.
  intros H. cbn [search_alt]. destruct (list_find _ ls) as [[i l]|] eqn:E; [|done].
  apply list_find_Some in E as (Hl & Hs & _).
  rewrite Forall_forall in H. rewrite H in Hs; [done|]. by apply list_elem_of_lookup_2 in Hl.
Qed.

(** Skip a text that none of the literals can start in: no literal begins with
    one of its characters, ... *)
Lemma search_alt_skip_text ls a s :
  Forall (fun l => match l with String c _ => has_char c a = false | EmptyString => False end) ls ->
  search_alt ls (a ++ s) = search_alt ls s.
Proof.
  intros Hls. induction a as [|d a IH]; [done|]. cbn [String.append].
  assert (Forall (fun l => match l with String c _ => Ascii.eqb c d = false | EmptyString => False end) ls
          /\ Forall (fun l => match l with String c _ => has_char c a = false | EmptyString => False end) ls)
    as [Hd Ha].
  { rewrite <-Forall_and. eapply Forall_impl; [exact Hls|]. intros [|c l]; [done|].
    rewrite has_char_cons, orb_false_iff. done. }
  rewrite search_alt_skip; [auto|]. eapply Forall_impl; [exact Hd|]. intros [|c l]; [done|].
  unfold startswith. cbn [strip_prefix]. by intros ->.
Qed.

Lemma startswith_cut l u d rest c :
  has_char c l = true -> has_char c u = false -> has_char d l = false ->
  startswith l (u ++ String d rest) = false.
Proof.
  revert l. induction u as [|x u IH]; intros l Hc Hu Hd.
  - destruct l as [|y l]; [done|]. rewrite has_char_cons, orb_false_iff in Hd. destruct Hd as [Hd _].
    unfold startswith. cbn [String.append strip_prefix].
    destruct (Ascii.eqb_spec y d) as [->|]; [by rewrite Ascii.eqb_refl in Hd|done].
  - destruct l as [|y l]; [done|]. rewrite has_char_cons, orb_false_iff in Hu, Hd.
    destruct Hu as [Hcx Hu], Hd as [_ Hd].
    unfold startswith. cbn [String.append strip_prefix]. destruct (Ascii.eqb_spec y x) as [->|]; [|done].
    apply IH; [|done|done]. rewrite has_char_cons, Hcx in Hc. done.
Qed.

(** ... or every literal has a character that is neither in the text nor can be
    reached before the character after the text, which is in no literal. *)
Lemma search_alt_cut ls a d s :
  Forall (fun l => (has_char "<" l || has_char "B" l) && negb (has_char d l) = true) ls ->
  has_char "<" a = false -> has_char "B" a = false ->
  search_alt ls (a ++ String d s) = search_alt ls (String d s).
Proof.
  intros Hls. induction a as [|x a IH]; [done|]. rewrite !has_char_cons, !orb_false_iff.
  intros [Hx1 Ha1] [Hx2 Ha2]. cbn [String.append]. rewrite search_alt_skip; [auto|].
  eapply Forall_impl; [exact Hls|]. intros l [[H|H]%orb_true_iff Hd%negb_true_iff]%andb_true_iff.
  - apply (startswith_cut l (String x a) d s "<"); [done| |done]. by rewrite has_char_cons, Hx1.
  - apply (startswith_cut l (String x a) d s "B"); [done| |done]. by rewrite has_char_cons, Hx2.
Qed.

Lemma search_alt_end ls a :
  Forall (fun l => has_char "<" l || has_char "B" l = true) ls ->
  has_char "<" a = false -> has_char "B" a = false -> search_alt ls a = None.
Proof.
  intros Hls H1 H2.
  assert (forall x, x ∈ ls -> startswith x a = false) as Hs.
  { intros l Hl. rewrite Forall_forall in Hls. unfold startswith.
    destruct (orb_prop _ _ (Hls l Hl)) as [H|H];
      [rewrite (strip_prefix_no_char l a "<")|rewrite (strip_prefix_no_char l a "B")]; done. }
  assert (list_find (fun l => startswith l a = true) ls = None) as E.
  { apply list_find_None. apply Forall_forall. intros l Hl. rewrite Hs; done. }
  induction a as [|c a IH]; cbn [search_alt]; rewrite E; [done|].
  rewrite has_char_cons, orb_false_iff in H1, H2. destruct H1 as [_ H1], H2 as [_ H2].
  apply IH; [done|done| |].
  - intros l Hl. rewrite Forall_forall in Hls. unfold startswith.
    destruct (orb_prop _ _ (Hls l Hl)) as [H|H];
      [rewrite (strip_prefix_no_char l a "<")|rewrite (strip_prefix_no_char l a "B")]; done.
  - apply list_find_None. apply Forall_forall. intros l Hl. rewrite Forall_forall in Hls. unfold startswith.
    destruct (orb_prop _ _ (Hls l Hl)) as [H|H];
      [rewrite (strip_prefix_no_char l a "<")|rewrite (strip_prefix_no_char l a "B")]; done.
Qed.
