(* ===== verification/PyTime.v ===== *)
(** * Log timestamps: [datetime.strptime], [strftime] and POSIX times

    Models the part of Python's [datetime] that [LogParser.to_posix] uses: the
    two formats [%Y-%b-%d %H:%M:%S.%f] and [%Y-%b-%d %H:%M:%S] (C locale), the
    proleptic Gregorian ordinal, and [total_seconds]. *)

From S2P Require Import Prelude PyStr PyInt PyFloat.

Record datetime : Type := DateTime {
  year : Z; month : Z; day : Z; hour : Z; minute : Z; second : Z; microsecond : Z }.

#[global] Instance datetime_eq_dec : EqDecision datetime.
Proof. solve_decision. Defined.

(** ** The calendar *)

Definition is_leap (y : Z) : bool := (y mod 4 =? 0) && (negb (y mod 100 =? 0) || (y mod 400 =? 0)).

Definition days_in_month (y m : Z) : Z :=
  if m =? 2 then (if is_leap y then 29 else 28)
  else if (m =? 4) || (m =? 6) || (m =? 9) || (m =? 11) then 30 else 31.

Definition days_before_year (y : Z) : Z := (y - 1) * 365 + (y - 1) / 4 - (y - 1) / 100 + (y - 1) / 400.

Definition days_before_month (y m : Z) : Z :=
  foldr (fun i s => days_in_month y i + s) 0 (seqZ 1 (m - 1)).

(** [date.toordinal]: 1 for the first of January of year 1. *)
Definition ordinal (y m d : Z) : Z := days_before_year y + days_before_month y m + d.

Definition valid_datetime (t : datetime) : bool :=
  (1 <=? year t) && (year t <=? 9999) && (1 <=? month t) && (month t <=? 12)
  && (1 <=? day t) && (day t <=? days_in_month (year t) (month t))
  && (0 <=? hour t) && (hour t <=? 23) && (0 <=? minute t) && (minute t <=? 59)
  && (0 <=? second t) && (second t <=? 59)
  && (0 <=? microsecond t) && (microsecond t <=? 999999).

(** Microseconds from the epoch 1970-01-01, the [timedelta] of the source. *)
Definition micros (t : datetime) : Z :=
  ((ordinal (year t) (month t) (day t) - ordinal 1970 1 1) * 86400
   + hour t * 3600 + minute t * 60 + second t) * 1000000 + microsecond t.

(** [timedelta.total_seconds()] *)
Definition total_seconds (us : Z) : result float := truediv us 1000000.

(** ** [strptime]

    The directives of the format become a regular expression; its alternatives
    are listed in the order the matcher tries them, so the first element of the
    list is the match. *)

Definition two_digits (ok2 : Z -> Z -> bool) (ok1 : Z -> bool) (s : string) : list (Z * string) :=
  match s with
  | String a s1 =>
      if is_digit a then
        match s1 with
        | String b s2 =>
            if is_digit b && ok2 (digit_val a) (digit_val b)
            then [(10 * digit_val a + digit_val b, s2)] else []
        | EmptyString => []
        end
        ++ (if ok1 (digit_val a) then [(digit_val a, s1)] else [])
      else []
  | EmptyString => []
  end.

Definition directive_d (s : string) : list (Z * string) :=
  two_digits (fun a b => ((a =? 3) && (b <=? 1)) || (a =? 1) || (a =? 2) || ((a =? 0) && (1 <=? b)))
             (fun a => 1 <=? a) s
  ++ match s with
     | String " " (String b s2) => if is_digit b && (1 <=? digit_val b) then [(digit_val b, s2)] else []
     | _ => []
     end.
Definition directive_H : string -> list (Z * string) :=
  two_digits (fun a b => ((a =? 2) && (b <=? 3)) || (a <=? 1)) (fun _ => true).
Definition directive_M : string -> list (Z * string) :=
  two_digits (fun a _ => a <=? 5) (fun _ => true).
Definition directive_S : string -> list (Z * string) :=
  two_digits (fun a b => ((a =? 6) && (b <=? 1)) || (a <=? 5)) (fun _ => true).

Definition directive_Y (s : string) : list (Z * string) :=
  match s with
  | String a (String b (String c (String d s'))) =>
      if is_digit a && is_digit b && is_digit c && is_digit d
      then [(digits_val 0 (String a (String b (String c (String d EmptyString)))), s')] else []
  | _ => []
  end.

Definition month_abbr : list string :=
  ["Jan"; "Feb"; "Mar"; "Apr"; "May"; "Jun"; "Jul"; "Aug"; "Sep"; "Oct"; "Nov"; "Dec"]%string.

(** Prefix up to the case of ASCII letters. *)
Fixpoint strip_prefix_ci (l s : string) : option string :=
  match l, s with
  | EmptyString, _ => Some s
  | String c l', String d s' =>
      if Ascii.eqb (lower_char c) (lower_char d) then strip_prefix_ci l' s' else None
  | String _ _, EmptyString => None
  end.

Definition directive_b (s : string) : list (Z * string) :=
  omap (fun im => (fun r => (im.1, r)) <$> strip_prefix_ci im.2 s) (zip (seqZ 1 12) month_abbr).

(** [[0-9]{1,6}], the value padded on the right to six digits. *)
Fixpoint fraction_go (n : nat) (acc : Z) (s : string) : list (Z * string) :=
  match n, s with
  | S n', String c s' =>
      if is_digit c then
        let acc' := 10 * acc + digit_val c in
        fraction_go n' acc' s' ++ [(acc' * 10 ^ Z.of_nat n', s')]
      else []
  | _, _ => []
  end.
Definition directive_f : string -> list (Z * string) := fraction_go 6 0.

Definition literal (l : string) (s : string) : list string :=
  match strip_prefix l s with Some r => [r] | None => [] end.

(** [\s+], greedy. *)
Fixpoint spaces (s : string) : list string :=
  match s with
  | String c s' => if is_space c then spaces s' ++ [s'] else []
  | EmptyString => []
  end.

Definition date_and_time (s : string) : list (datetime * string) :=
  '(y, s) ← directive_Y s; s ← literal "-" s;
  '(b, s) ← directive_b s; s ← literal "-" s;
  '(d, s) ← directive_d s; s ← spaces s;
  '(h, s) ← directive_H s; s ← literal ":" s;
  '(mi, s) ← directive_M s; s ← literal ":" s;
  '(sec, s) ← directive_S s; [(DateTime y b d h mi sec 0, s)].

Definition date_and_time_f (s : string) : list (datetime * string) :=
  '(t, s) ← date_and_time s; s ← literal "." s;
  '(us, s) ← directive_f s;
  [(DateTime (year t) (month t) (day t) (hour t) (minute t) (second t) us, s)].

(** The first match, which has to cover the whole text and name an existing time. *)
Definition strptime (fmt : string -> list (datetime * string)) (s : string) : result datetime :=
  match fmt s with
  | (t, EmptyString) :: _ => if valid_datetime t then Ok t else Raise ValueError
  | _ => Raise ValueError
  end.

(** ** [strftime]: the texts the loggers write *)

Definition month_name (m : Z) : string := default EmptyString (month_abbr !! Z.to_nat (m - 1)).

(** [%Y-%b-%d %H:%M:%S] *)
Definition strftime (t : datetime) : string :=
  (fixed_width 4 (year t) ++ "-" ++ month_name (month t) ++ "-" ++ fixed_width 2 (day t) ++ " "
   ++ fixed_width 2 (hour t) ++ ":" ++ fixed_width 2 (minute t) ++ ":" ++ fixed_width 2 (second t))%string.

(** [%Y-%b-%d %H:%M:%S.%f] *)
Definition strftime_f (t : datetime) : string := (strftime t ++ "." ++ fixed_width 6 (microsecond t))%string.

(** ** [strptime] reads back what [strftime] writes *)

Lemma first_bind {A B} (l : list A) (f : A -> list B) x y :
  head l = Some x -> head (f x) = Some y -> head (l ≫= f) = Some y.
Proof. destruct l as [|z l]; simpl; [done|]. intros [= ->]. destruct (f x); simpl; [done|]. by intros [= ->]. Qed.

Lemma literal_first l s : head (literal l (l ++ s)) = Some s.
Proof. unfold literal. by rewrite strip_prefix_app. Qed.

Lemma two_digits_first ok2 ok1 n s :
  0 <= n < 100 -> ok2 (n / 10) (n mod 10) = true ->
  head (two_digits ok2 ok1 (fixed_width 2 n ++ s)) = Some (n, s).
Proof.
  intros Hn Hok. cbn [fixed_width String.append two_digits].
  pose proof (Z.div_mod n 10 ltac:(lia)). pose proof (Z.mod_pos_bound n 10 ltac:(lia)).
  change (10 ^ Z.of_nat 1) with 10. change (10 ^ Z.of_nat 0) with 1.
  rewrite Z.div_1_r, (Z.mod_small (n / 10)) by lia.
  rewrite !digit_char_is_digit, !digit_char_val by lia. rewrite Hok. simpl. do 2 f_equal. lia.
Qed.

Lemma directive_Y_first y s : 0 <= y <= 9999 -> head (directive_Y (fixed_width 4 y ++ s)) = Some (y, s).
Proof.
  intros Hy. rewrite <-(digits_val_fixed_width_small 4 y) at 2 by (simpl; lia).
  cbn [fixed_width String.append directive_Y].
  rewrite !digit_char_is_digit by (apply Z.mod_pos_bound; lia). done.
Qed.

Lemma month_cases (P : Z -> Prop) m :
  P 1 -> P 2 -> P 3 -> P 4 -> P 5 -> P 6 -> P 7 -> P 8 -> P 9 -> P 10 -> P 11 -> P 12 ->
  1 <= m <= 12 -> P m.
Proof.
  intros. assert (m = 1 \/ m = 2 \/ m = 3 \/ m = 4 \/ m = 5 \/ m = 6 \/ m = 7 \/ m = 8 \/ m = 9 \/ m = 10
                  \/ m = 11 \/ m = 12) as Hm by lia.
  repeat (destruct Hm as [->|Hm]; [done|]). by subst.
Qed.

Lemma directive_b_first m s : 1 <= m <= 12 -> head (directive_b (month_name m ++ s)) = Some (m, s).
Proof. intros Hm. pattern m. eapply month_cases; [..|exact Hm]; vm_compute; reflexivity. Qed.

Lemma head_app_l {A} (l k : list A) x : head l = Some x -> head (l ++ k) = Some x.
Proof. by destruct l. Qed.

Lemma directive_d_first n s : 1 <= n <= 31 -> head (directive_d (fixed_width 2 n ++ s)) = Some (n, s).
Proof.
  intros Hn. unfold directive_d. apply head_app_l. apply two_digits_first; [lia|].
  pose proof (Z.div_mod n 10 ltac:(lia)). pose proof (Z.mod_pos_bound n 10 ltac:(lia)).
  rewrite !orb_true_iff, !andb_true_iff, !Z.eqb_eq, !Z.leb_le. lia.
Qed.

Lemma directive_H_first n s : 0 <= n <= 23 -> head (directive_H (fixed_width 2 n ++ s)) = Some (n, s).
Proof.
  intros Hn. apply two_digits_first; [lia|].
  pose proof (Z.div_mod n 10 ltac:(lia)). pose proof (Z.mod_pos_bound n 10 ltac:(lia)).
  rewrite orb_true_iff, andb_true_iff, Z.eqb_eq, !Z.leb_le. lia.
Qed.

Lemma directive_M_first n s : 0 <= n <= 59 -> head (directive_M (fixed_width 2 n ++ s)) = Some (n, s).
Proof.
  intros Hn. apply two_digits_first; [lia|].
  pose proof (Z.div_mod n 10 ltac:(lia)). pose proof (Z.mod_pos_bound n 10 ltac:(lia)).
  rewrite Z.leb_le. lia.
Qed.

Lemma directive_S_first n s : 0 <= n <= 59 -> head (directive_S (fixed_width 2 n ++ s)) = Some (n, s).
Proof.
  intros Hn. apply two_digits_first; [lia|].
  pose proof (Z.div_mod n 10 ltac:(lia)). pose proof (Z.mod_pos_bound n 10 ltac:(lia)).
  rewrite orb_true_iff, andb_true_iff, Z.eqb_eq, !Z.leb_le. lia.
Qed.

Lemma spaces_first n s : 0 <= n < 100 -> head (spaces (" " ++ fixed_width 2 n ++ s)) = Some (fixed_width 2 n ++ s)%string.
Proof.
  intros Hn. cbn [fixed_width String.append spaces]. change (is_space " ") with true. cbv match.
  pose proof (is_digit_not_space (digit_char (n / 10 ^ Z.of_nat 1 mod 10))) as H.
  rewrite digit_char_is_digit in H by (apply Z.mod_pos_bound; lia).
  specialize (H eq_refl). apply negb_true_iff in H. by rewrite H.
Qed.

(** A fraction of [n + 1] digits, [k] fewer than the directive allows. *)
Lemma fraction_go_first n k acc us :
  head (fraction_go (S n + k) acc (fixed_width (S n) us))
  = Some ((acc * 10 ^ Z.of_nat (S n) + us mod 10 ^ Z.of_nat (S n)) * 10 ^ Z.of_nat k, EmptyString).
Proof.
  revert acc. induction n as [|n IH]; intros acc.
  - cbn [fraction_go fixed_width Nat.add].
    rewrite digit_char_is_digit, digit_char_val by (apply Z.mod_pos_bound; lia).
    change (10 ^ Z.of_nat 1) with 10. change (10 ^ Z.of_nat 0) with 1. rewrite Z.div_1_r.
    replace (acc * 10) with (10 * acc) by lia. by destruct k.
  - remember (S n) as n' eqn:En. cbn [fraction_go fixed_width Nat.add].
    rewrite digit_char_is_digit, digit_char_val by (apply Z.mod_pos_bound; lia). subst n'.
    erewrite head_app_l by apply IH. do 2 f_equal.
    rewrite (mod_pow10_succ us (S n)), (pow10_succ (S n)). ring.
Qed.

Lemma valid_datetime_spec t :
  valid_datetime t = true <->
  1 <= year t <= 9999 /\ 1 <= month t <= 12 /\ 1 <= day t <= days_in_month (year t) (month t)
  /\ 0 <= hour t <= 23 /\ 0 <= minute t <= 59 /\ 0 <= second t <= 59
  /\ 0 <= microsecond t <= 999999.
Proof. unfold valid_datetime. rewrite !andb_true_iff, !Z.leb_le. lia. Qed.

Lemma days_in_month_bounds y m : 28 <= days_in_month y m <= 31.
Proof. unfold days_in_month. repeat case_match; lia. Qed.

Lemma date_and_time_first t s :
  valid_datetime t = true ->
  head (date_and_time (strftime t ++ s)) =
  Some (DateTime (year t) (month t) (day t) (hour t) (minute t) (second t) 0, s).
Proof.
  rewrite valid_datetime_spec. intros (? & ? & ? & ? & ? & ? & ?).
  pose proof (days_in_month_bounds (year t) (month t)).
  unfold date_and_time, strftime. rewrite <-!str_app_assoc.
  eapply first_bind; [apply directive_Y_first; lia|]. eapply first_bind; [apply literal_first|].
  eapply first_bind; [apply directive_b_first; lia|]. eapply first_bind; [apply literal_first|].
  eapply first_bind; [apply directive_d_first; lia|]. eapply first_bind; [apply spaces_first; lia|].
  eapply first_bind; [apply directive_H_first; lia|]. eapply first_bind; [apply literal_first|].
  eapply first_bind; [apply directive_M_first; lia|]. eapply first_bind; [apply literal_first|].
  eapply first_bind; [apply directive_S_first; lia|]. done.
Qed.

Lemma head_strptime fmt s t :
  head (fmt s) = Some (t, EmptyString) ->
  strptime fmt s = if valid_datetime t then Ok t else Raise ValueError.
Proof. unfold strptime. destruct (fmt s) as [|[? ?] ?]; simpl; [done|]. by intros [= -> ->]. Qed.

Lemma strptime_strftime t :
  valid_datetime t = true -> microsecond t = 0 -> strptime date_and_time (strftime t) = Ok t.
Proof.
  intros Hv Hu. pose proof (date_and_time_first t "" Hv) as H. rewrite str_app_nil_r in H.
  rewrite (head_strptime _ _ _ H), <-Hu. clear H. destruct t. cbn [year month day hour minute second microsecond].
  by rewrite Hv.
Qed.

(** The fraction [%f] reads from [n + 1 <= 6] digits after the point: they are
    padded with zeros on the right. *)
Lemma date_and_time_f_first t n us :
  valid_datetime t = true -> (n < 6)%nat ->
  head (date_and_time_f (strftime t ++ "." ++ fixed_width (S n) us)) =
  Some (DateTime (year t) (month t) (day t) (hour t) (minute t) (second t)
          (us mod 10 ^ Z.of_nat (S n) * 10 ^ Z.of_nat (5 - n)), EmptyString).
Proof.
  intros Hv Hn. unfold date_and_time_f.
  eapply first_bind; [by apply date_and_time_first|]. eapply first_bind; [apply literal_first|].
  apply (first_bind _ _ (us mod 10 ^ Z.of_nat (S n) * 10 ^ Z.of_nat (5 - n), EmptyString)); [|reflexivity].
  unfold directive_f.
  replace 6%nat with (S n + (5 - n))%nat at 1 by lia. apply fraction_go_first.
Qed.

Lemma strptime_f_strftime_f t :
  valid_datetime t = true -> strptime date_and_time_f (strftime_f t) = Ok t.
Proof.
  intros Hv. unfold strftime_f.
  rewrite (head_strptime _ _ _ (date_and_time_f_first t 5 (microsecond t) Hv ltac:(lia))).
  change (10 ^ Z.of_nat (5 - 5)) with 1. change (10 ^ Z.of_nat 6) with 1000000.
  rewrite Z.mul_1_r, Z.mod_small by (apply valid_datetime_spec in Hv; lia).
  destruct t. cbn [year month day hour minute second microsecond]. by rewrite Hv.
Qed.

(** ** Without a point in the text, the format with a fraction does not match *)

(** The directive consumes a prefix of the text. *)
Definition consumes {A} (f : string -> list (A * string)) : Prop :=
  forall s x r, (x, r) ∈ f s -> exists a, s = (a ++ r)%string.

Lemma two_digits_consumes ok2 ok1 : consumes (two_digits ok2 ok1).
Proof.
  intros [|a [|b s]] x r; simpl; repeat case_match; simpl; rewrite ?elem_of_app, ?elem_of_cons, ?elem_of_nil;
    intros Hin; destruct_or? Hin; simplify_eq; try done;
    first [by exists (String a (String b EmptyString)) | by exists (String a EmptyString)].
Qed.

Lemma directive_Y_consumes : consumes directive_Y.
Proof.
  intros [|a [|b [|c [|d s]]]] x r; simpl; repeat case_match; rewrite ?elem_of_cons, ?elem_of_nil;
    intros Hin; destruct_or? Hin; simplify_eq; try done.
  by exists (String a (String b (String c (String d EmptyString)))).
Qed.

Lemma strip_prefix_ci_consumes l s r : strip_prefix_ci l s = Some r -> exists a, s = (a ++ r)%string.
Proof.
  revert s. induction l as [|c l IH]; intros s; simpl.
  - intros [= ->]. by exists EmptyString.
  - destruct s as [|d s]; [done|]. case_match; [|done]. intros (a & ->)%IH. by exists (String d a).
Qed.

Lemma directive_b_consumes : consumes directive_b.
Proof.
  intros s x r H. unfold directive_b in H. apply list_elem_of_omap in H as ([m l] & _ & H).
  simpl in H. destruct (strip_prefix_ci l s) eqn:E; simpl in H; [|done]. injection H as <- <-.
  by apply strip_prefix_ci_consumes in E.
Qed.

Lemma directive_d_consumes : consumes directive_d.
Proof.
  intros s x r H. unfold directive_d in H. apply elem_of_app in H as [H|H].
  - by eapply two_digits_consumes.
  - repeat (case_match; rewrite ?elem_of_cons, ?elem_of_nil in H; try done).
    destruct_or? H; simplify_eq; try done. eexists (String _ (String _ EmptyString)). done.
Qed.

Lemma spaces_consumes s r : r ∈ spaces s -> exists a, s = (a ++ r)%string.
Proof.
  induction s as [|c s IH]; simpl; [by rewrite elem_of_nil|]. case_match; [|by rewrite elem_of_nil].
  rewrite elem_of_app, list_elem_of_singleton. intros [(a & ->)%IH| ->]; [by exists (String c a)|].
  by exists (String c EmptyString).
Qed.

Lemma literal_consumes l s r : r ∈ literal l s -> exists a, s = (a ++ r)%string.
Proof.
  unfold literal. destruct (strip_prefix l s) eqn:E; [|by rewrite elem_of_nil].
  rewrite list_elem_of_singleton. intros ->. apply strip_prefix_Some in E. eauto.
Qed.

Lemma consumes_bind {A B} (f : string -> list (A * string)) (g : A -> string -> list (B * string)) :
  consumes f -> (forall x, consumes (g x)) -> consumes (fun s => '(x, s) ← f s; g x s).
Proof.
  intros Hf Hg s y r. rewrite list_elem_of_bind. intros ([x u] & Hy & Hx).
  apply Hf in Hx as (a & ->). apply Hg in Hy as (b & ->). exists (a ++ b)%string. by rewrite str_app_assoc.
Qed.

Lemma consumes_literal {A} l (g : string -> list (A * string)) :
  consumes g -> consumes (fun s => s ← literal l s; g s).
Proof.
  intros Hg s y r. rewrite list_elem_of_bind. intros (u & Hy & (a & ->)%literal_consumes).
  apply Hg in Hy as (b & ->). exists (a ++ b)%string. by rewrite str_app_assoc.
Qed.

Lemma consumes_spaces {A} (g : string -> list (A * string)) :
  consumes g -> consumes (fun s => s ← spaces s; g s).
Proof.
  intros Hg s y r. rewrite list_elem_of_bind. intros (u & Hy & (a & ->)%spaces_consumes).
  apply Hg in Hy as (b & ->). exists (a ++ b)%string. by rewrite str_app_assoc.
Qed.

Lemma consumes_done {A} (x : A) : consumes (fun s => [(x, s)]).
Proof. intros s y r. rewrite list_elem_of_singleton. intros [= -> ->]. by exists EmptyString. Qed.

Lemma date_and_time_consumes : consumes date_and_time.
Proof.
  unfold date_and_time, directive_H, directive_M, directive_S.
  repeat first
    [ apply (consumes_bind directive_Y _ directive_Y_consumes); intros ?
    | apply (consumes_bind directive_b _ directive_b_consumes); intros ?
    | apply (consumes_bind directive_d _ directive_d_consumes); intros ?
    | apply (consumes_bind (two_digits _ _) _ (two_digits_consumes _ _)); intros ?
    | apply consumes_literal | apply consumes_spaces | apply consumes_done ].
Qed.

Lemma date_and_time_f_no_point s : has_char "." s = false -> date_and_time_f s = [].
Proof.
  intros Hs. unfold date_and_time_f. apply elem_of_nil_inv. intros y.
  rewrite list_elem_of_bind. intros ([t u] & Hy & Ht).
  apply date_and_time_consumes in Ht as (a & ->). rewrite has_char_app, orb_false_iff in Hs.
  destruct Hs as [_ Hu]. unfold literal in Hy. rewrite (strip_prefix_no_char "." u ".") in Hy by done.
  simpl in Hy. by apply elem_of_nil in Hy.
Qed.

Lemma strftime_no_point t : 1 <= month t <= 12 -> has_char "." (strftime t) = false.
Proof.
  intros Hm. unfold strftime. rewrite !has_char_app.
  assert (forall w n, has_char "." (fixed_width w n) = false) as Hd
    by (intros; by eapply (str_all_no_char is_digit), fixed_width_digits).
  rewrite !Hd. assert (has_char "." (month_name (month t)) = false) as ->; [|done].
  pattern (month t). eapply month_cases; [..|exact Hm]; reflexivity.
Qed.

(** ** Order: distinct microseconds give distinct floats, in the same order *)

Lemma total_seconds_eq us : total_seconds us = Ok (round_frac (us * one) 1000000).
Proof. done. Qed.

(** [2^33] seconds: until the year 2242. *)
Lemma total_seconds_lt a b :
  0 <= a < b -> b < 2 ^ 33 * 1000000 ->
  round_frac (a * one) 1000000 < round_frac (b * one) 1000000.
Proof.
  intros Hab Hb. pose proof one_pos. apply round_frac_apart with (k := 1107); [lia|lia| |lia|].
  - change (1107 - 53) with 1054. rewrite (one_split 1054) by lia. change (2 ^ (1074 - 1054)) with 1048576.
    assert (0 < 2 ^ 1054) by (apply Z.pow_pos_nonneg; lia). lia.
  - apply Z.div_lt_upper_bound; [lia|]. rewrite (one_split 1074) by lia. change (2 ^ (1074 - 1074)) with 1.
    replace 1107 with (33 + 1074) by lia. rewrite Z.pow_add_r by lia.
    assert (0 < 2 ^ 1074) by (apply Z.pow_pos_nonneg; lia). nia.
Qed.
