(* ===== verification/LogEvents.v ===== *)
(** * The events of the replica logs (benchmark_framework/logs.py)

    The dataclasses of the log events, their [from_log_row] parsers and
    [LogParser.to_posix]; the rows the replicas write (src/src/utils/utils.cpp,
    src/src/fbft/actions/, src/src/blockchain/BitcoinBlockchain.cpp), and the proof that the
    parsers read those rows back. *)

From S2P Require Import Prelude PyStr PyInt PyFloat PyRegex PyTime.

(** An integer or a float, by its exact value in units of 2^-1074. *)
Definition number : Type := Z.
(** The conversion of a number in an arithmetic operation with a float. *)
Definition float_of_number (v : number) : float := round_frac v 1.

(** ** The event classes *)

Inductive event_class : Type :=
  | CReceiveRequestsLog
  | CReceiveBlockLog
  | CStartTestBlockValidity
  | CEndTestBlockValidity
  | CStartSubmitBlock
  | CEndSubmitBlock
  | CSendPrePrepareLog
  | CExecuteActionLog
  | CRoastInitLog.

#[global] Instance event_class_eq_dec : EqDecision event_class.
Proof. solve_decision. Defined.

(** The fields of [LogEvent], then those of the class, in the order of the dataclasses. *)
Inductive log_event : Type :=
  | ReceiveRequestsLog (log_timestamp : float) (replica_id block_timestamp block_height : Z)
  | ReceiveBlockLog (log_timestamp : float) (replica_id block_height : Z)
  | StartTestBlockValidity (log_timestamp : float) (replica_id block_height block_size : Z) (block_hash : string)
  | EndTestBlockValidity (log_timestamp : float) (replica_id block_height : Z) (block_hash result : string)
  | StartSubmitBlock (log_timestamp : float) (replica_id block_height block_size : Z) (block_hash : string)
  | EndSubmitBlock (log_timestamp : float) (replica_id block_height : Z) (block_hash result : string)
  | SendPrePrepareLog (log_timestamp : float) (replica_id block_timestamp block_height view seq_number : Z)
  | ExecuteActionLog (log_timestamp : float) (replica_id block_timestamp block_height view seq_number : Z)
  | RoastInitLog (log_timestamp : float) (replica_id block_timestamp block_height view seq_number : Z).

#[global] Instance log_event_eq_dec : EqDecision log_event.
Proof. solve_decision. Defined.

(** The protocol the aggregation code is generic over. *)
Class LogEventThatHasHeightAndTimestamp (E : Type) := {
  block_height : E -> Z;
  log_timestamp : E -> float }.

#[export] Instance log_event_height_timestamp : LogEventThatHasHeightAndTimestamp log_event := {
  block_height e :=
    match e with
    | ReceiveRequestsLog _ _ _ h | ReceiveBlockLog _ _ h | StartTestBlockValidity _ _ h _ _
    | EndTestBlockValidity _ _ h _ _ | StartSubmitBlock _ _ h _ _ | EndSubmitBlock _ _ h _ _
    | SendPrePrepareLog _ _ _ h _ _ | ExecuteActionLog _ _ _ h _ _ | RoastInitLog _ _ _ h _ _ => h
    end;
  log_timestamp e :=
    match e with
    | ReceiveRequestsLog t _ _ _ | ReceiveBlockLog t _ _ | StartTestBlockValidity t _ _ _ _
    | EndTestBlockValidity t _ _ _ _ | StartSubmitBlock t _ _ _ _ | EndSubmitBlock t _ _ _ _
    | SendPrePrepareLog t _ _ _ _ _ | ExecuteActionLog t _ _ _ _ _ | RoastInitLog t _ _ _ _ _ => t
    end }.

#[global] Arguments block_height : simpl never.
#[global] Arguments log_timestamp : simpl never.

(** [type(event)]: the class of the object. *)
Definition class_of (e : log_event) : event_class :=
  match e with
  | ReceiveRequestsLog _ _ _ _ => CReceiveRequestsLog
  | ReceiveBlockLog _ _ _ => CReceiveBlockLog
  | StartTestBlockValidity _ _ _ _ _ => CStartTestBlockValidity
  | EndTestBlockValidity _ _ _ _ _ => CEndTestBlockValidity
  | StartSubmitBlock _ _ _ _ _ => CStartSubmitBlock
  | EndSubmitBlock _ _ _ _ _ => CEndSubmitBlock
  | SendPrePrepareLog _ _ _ _ _ _ => CSendPrePrepareLog
  | ExecuteActionLog _ _ _ _ _ _ => CExecuteActionLog
  | RoastInitLog _ _ _ _ _ _ => CRoastInitLog
  end.

(** [ReceiveRequestsLog.true_request_time]: the maximum of an integer and a float. *)
Definition true_request_time (block_timestamp : Z) (log_timestamp : float) : number :=
  Z.max (block_timestamp * one) log_timestamp.

(** ** [LogParser.to_posix] *)
Definition to_posix (s : string) : result float :=
  py_except (t ← strptime date_and_time_f s; total_seconds (micros t))
    (fun e => match e with
              | ValueError => t ← strptime date_and_time s; total_seconds (micros t)
              | _ => Raise e
              end).

(** ** The [from_log_row] parsers

    A row the pattern does not match gives [None], whose [group] attribute does
    not exist. *)

Definition search_groups (r : list item) (row : string) : result (list string) :=
  or_raise AttributeError (fst <$> search r row).

Definition receive_requests_pattern : list item :=
  [Lit "["; any_lazy; Lit "] "; any_star; Lit " applying <RECEIVE_REQUEST, T="; digits_group;
   Lit ", H="; digits_group; Lit ", R="; digits_group].

Definition receive_requests_from_log_row (row : string) : result log_event :=
  gs ← search_groups receive_requests_pattern row;
  match gs with
  | [log_timestamp_str; request_posix_timestamp_str; height_str; replica_id_str] =>
      ts ← to_posix log_timestamp_str;
      r ← py_int replica_id_str;
      bt ← py_int request_posix_timestamp_str;
      h ← py_int height_str;
      mret (ReceiveRequestsLog ts r bt h)
  | _ => Raise IndexError
  end.

Definition receive_block_pattern : list item :=
  [Lit "["; any_lazy; Lit "] "; any_star; Lit " applying <RECEIVE_BLOCK, H="; digits_group;
   Lit ", R="; digits_group].

Definition receive_block_from_log_row (row : string) : result log_event :=
  gs ← search_groups receive_block_pattern row;
  match gs with
  | [log_timestamp_str; height_str; replica_id_str] =>
      ts ← to_posix log_timestamp_str;
      r ← py_int replica_id_str;
      h ← py_int height_str;
      mret (ReceiveBlockLog ts r h)
  | _ => Raise IndexError
  end.

Definition start_test_block_validity_pattern : list item :=
  [Lit "["; any_lazy; Lit "] "; any_star; Lit " R"; digits_group;
   Lit " BitcoinBlockchain::TestBlockValidity invoking for candidate block at height "; digits_group;
   Lit ", blocksize "; digits_group; Lit " bytes, block hash: "; hex_group].

Definition start_submit_block_pattern : list item :=
  [Lit "["; any_lazy; Lit "] "; any_star; Lit " R"; digits_group;
   Lit " BitcoinBlockchain::SubmitBlock submitting block at height "; digits_group;
   Lit " block size: "; digits_group; Lit " bytes, block hash: "; hex_group].

Definition start_event_from_log_row
    (pattern : list item) (make : float -> Z -> Z -> Z -> string -> log_event) (row : string) : result log_event :=
  gs ← search_groups pattern row;
  match gs with
  | [log_timestamp_str; replica_id_str; height_str; block_size_str; block_hash_str] =>
      ts ← to_posix log_timestamp_str;
      r ← py_int replica_id_str;
      h ← py_int height_str;
      size ← py_int block_size_str;
      mret (make ts r h size block_hash_str)
  | _ => Raise IndexError
  end.

Definition start_test_block_validity_from_log_row : string -> result log_event :=
  start_event_from_log_row start_test_block_validity_pattern StartTestBlockValidity.
Definition start_submit_block_from_log_row : string -> result log_event :=
  start_event_from_log_row start_submit_block_pattern StartSubmitBlock.

(** The point before "Result" is not escaped in the pattern: any character. *)
Definition end_test_block_validity_pattern : list item :=
  [Lit "["; any_lazy; Lit "] "; any_star; Lit " R"; digits_group;
   Lit " BitcoinBlockchain::TestBlockValidity for candidate block at height "; digits_group;
   Lit ", block hash: "; hex_group; One dot; Lit " Result = "; any_group; Lit " (null means ok)"].

Definition end_submit_block_pattern : list item :=
  [Lit "["; any_lazy; Lit "] "; any_star; Lit " R"; digits_group;
   Lit " BitcoinBlockchain::SubmitBlock for block at height "; digits_group;
   Lit ", block hash: "; hex_group; One dot; Lit " Result = "; any_group; Lit " (null means ok)"].

Definition end_event_from_log_row
    (pattern : list item) (make : float -> Z -> Z -> string -> string -> log_event) (row : string) : result log_event :=
  gs ← search_groups pattern row;
  match gs with
  | [log_timestamp_str; replica_id_str; height_str; block_hash_str; result] =>
      ts ← to_posix log_timestamp_str;
      r ← py_int replica_id_str;
      h ← py_int height_str;
      mret (make ts r h block_hash_str result)
  | _ => Raise IndexError
  end.

Definition end_test_block_validity_from_log_row : string -> result log_event :=
  end_event_from_log_row end_test_block_validity_pattern EndTestBlockValidity.
Definition end_submit_block_from_log_row : string -> result log_event :=
  end_event_from_log_row end_submit_block_pattern EndSubmitBlock.

(** [cls.ACTION_NAME()] *)
Definition ACTION_NAME (c : event_class) : string :=
  match c with
  | CSendPrePrepareLog => "SEND_PRE_PREPARE"
  | CExecuteActionLog => "EXECUTE"
  | CRoastInitLog => "ROAST_INIT"
  | _ => EmptyString
  end.

Definition pbft_pattern (action_name : string) : list item :=
  [Lit "["; any_lazy; Lit "] "; any_star; Lit (" applying <" ++ action_name ++ ", Request=(H="); digits_group;
   Lit ", T="; digits_group; Lit "), V="; digits_group; Lit ", N="; digits_group;
   Lit ", R="; digits_group; Lit ">"].

(** [PbftReplicaLogEvent.from_log_row], inherited by its three subclasses: the
    object it makes is an [ExecuteActionLog], whatever [cls] is. *)
Definition pbft_from_log_row (cls : event_class) (row : string) : result log_event :=
  gs ← search_groups (pbft_pattern (ACTION_NAME cls)) row;
  match gs with
  | [log_timestamp_str; height_str; request_posix_timestamp_str; view_str; seq_number_str; replica_id_str] =>
      ts ← to_posix log_timestamp_str;
      r ← py_int replica_id_str;
      bt ← py_int request_posix_timestamp_str;
      h ← py_int height_str;
      v ← py_int view_str;
      n ← py_int seq_number_str;
      mret (ExecuteActionLog ts r bt h v n)
  | _ => Raise IndexError
  end.

(** [cls.from_log_row(row)] *)
Definition from_log_row (cls : event_class) (row : string) : result log_event :=
  match cls with
  | CReceiveRequestsLog => receive_requests_from_log_row row
  | CReceiveBlockLog => receive_block_from_log_row row
  | CStartTestBlockValidity => start_test_block_validity_from_log_row row
  | CEndTestBlockValidity => end_test_block_validity_from_log_row row
  | CStartSubmitBlock => start_submit_block_from_log_row row
  | CEndSubmitBlock => end_submit_block_from_log_row row
  | CSendPrePrepareLog | CExecuteActionLog | CRoastInitLog => pbft_from_log_row cls row
  end.

Example from_log_row_execute :
  from_log_row CExecuteActionLog
    "12 [2023-May-23 08:09:10.500000] [debug] R0 applying <EXECUTE, Request=(H=7, T=60), V=1, N=7, R=0> effect."
  = Ok (ExecuteActionLog (Z.div (2 * 1684829350 * one + one) 2) 0 60 7 1 7).
Proof. vm_compute. reflexivity. Qed.

(** ** The rows the replicas write *)

(** What [ReplicaState::Apply] and [BitcoinBlockchain] log: an action about to be
    applied, and the calls of the Bitcoin node with their results. *)
Inductive message : Type :=
  | ReceiveRequest (t h r : Z)
  | ReceiveBlock (h r : Z)
  | SendPrePrepare (h t v n r : Z)
  | Execute (h t v n r : Z)
  | RoastInit (h t v n r : Z)
  | TestBlockValidityInvoking (h size : Z) (hash : string)
  | TestBlockValidityResult (h : Z) (hash result : string)
  | SubmitBlockSubmitting (h size : Z) (hash : string)
  | SubmitBlockResult (h : Z) (hash result : string).

(** [Request::digest()] *)
Definition digest (h t : Z) : string := ("(H=" ++ str_of_Z h ++ ", T=" ++ str_of_Z t ++ ")")%string.

(** [identify()] of the five logged actions. *)
Definition pbft_identify (name : string) (h t v n r : Z) : string :=
  ("<" ++ name ++ ", Request=" ++ digest h t ++ ", V=" ++ str_of_Z v ++ ", N=" ++ str_of_Z n
   ++ ", R=" ++ str_of_Z r ++ ">")%string.

Definition applying (id : Z) (identify : string) : string :=
  ("R" ++ str_of_Z id ++ " applying " ++ identify ++ " effect.")%string.

(** The message of replica [id]. *)
Definition message_text (id : Z) (m : message) : string :=
  match m with
  | ReceiveRequest t h r =>
      applying id ("<RECEIVE_REQUEST, T=" ++ str_of_Z t ++ ", H=" ++ str_of_Z h ++ ", R=" ++ str_of_Z r ++ ">")
  | ReceiveBlock h r => applying id ("<RECEIVE_BLOCK, H=" ++ str_of_Z h ++ ", R=" ++ str_of_Z r ++ ">")
  | SendPrePrepare h t v n r => applying id (pbft_identify "SEND_PRE_PREPARE" h t v n r)
  | Execute h t v n r => applying id (pbft_identify "EXECUTE" h t v n r)
  | RoastInit h t v n r => applying id (pbft_identify "ROAST_INIT" h t v n r)
  | TestBlockValidityInvoking h size hash =>
      ("R" ++ str_of_Z id ++ " BitcoinBlockchain::TestBlockValidity invoking for candidate block at height "
       ++ str_of_Z h ++ ", blocksize " ++ str_of_Z size ++ " bytes, block hash: " ++ hash)%string
  | TestBlockValidityResult h hash result =>
      ("R" ++ str_of_Z id ++ " BitcoinBlockchain::TestBlockValidity for candidate block at height "
       ++ str_of_Z h ++ " with hash " ++ hash ++ ". Result = " ++ result ++ " (null means ok).")%string
  | SubmitBlockSubmitting h size hash =>
      ("R" ++ str_of_Z id ++ " BitcoinBlockchain::SubmitBlock submitting block at height "
       ++ str_of_Z h ++ " block size: " ++ str_of_Z size ++ " bytes, block hash: " ++ hash)%string
  | SubmitBlockResult h hash result =>
      ("R" ++ str_of_Z id ++ " BitcoinBlockchain::SubmitBlock for block at height "
       ++ str_of_Z h ++ ", block hash: " ++ hash ++ ". Result = " ++ result ++ " (null means ok).")%string
  end.

(** A row: the line number, the time stamp [ts], the severity and the message. *)
Definition log_row (line : Z) (ts sev msg : string) : string :=
  (str_of_Z line ++ " [" ++ ts ++ "] [" ++ sev ++ "] " ++ msg)%string.

(** The event class whose pattern is meant for a message, and the event read. *)
Definition message_class (m : message) : event_class :=
  match m with
  | ReceiveRequest _ _ _ => CReceiveRequestsLog
  | ReceiveBlock _ _ => CReceiveBlockLog
  | SendPrePrepare _ _ _ _ _ => CSendPrePrepareLog
  | Execute _ _ _ _ _ => CExecuteActionLog
  | RoastInit _ _ _ _ _ => CRoastInitLog
  | TestBlockValidityInvoking _ _ _ => CStartTestBlockValidity
  | TestBlockValidityResult _ _ _ => CEndTestBlockValidity
  | SubmitBlockSubmitting _ _ _ => CStartSubmitBlock
  | SubmitBlockResult _ _ _ => CEndSubmitBlock
  end.

Definition message_event (ts : float) (id : Z) (m : message) : log_event :=
  match m with
  | ReceiveRequest t h r => ReceiveRequestsLog ts r t h
  | ReceiveBlock h r => ReceiveBlockLog ts r h
  | SendPrePrepare h t v n r | Execute h t v n r | RoastInit h t v n r => ExecuteActionLog ts r t h v n
  | TestBlockValidityInvoking h size hash => StartTestBlockValidity ts id h size hash
  | TestBlockValidityResult h hash result => EndTestBlockValidity ts id h hash result
  | SubmitBlockSubmitting h size hash => StartSubmitBlock ts id h size hash
  | SubmitBlockResult h hash result => EndSubmitBlock ts id h hash result
  end.

(** The characters of a time stamp: nothing the patterns key on. *)
Definition stamp_char (c : ascii) : bool :=
  negb (Ascii.eqb "]" c || Ascii.eqb "[" c || Ascii.eqb "<" c || Ascii.eqb "B" c || Ascii.eqb "R" c
        || Ascii.eqb "," c || is_line_break c).

(** Numbers are unsigned, hashes are lower-case hexadecimal, and a result is a
    JSON text of one word (a [null] or a quoted reject reason). *)
Definition hash_ok (s : string) : bool := str_all is_hex_lower s && negb (bool_decide (s = EmptyString)).
Definition result_ok (s : string) : bool :=
  str_all (fun c => stamp_char c && negb (Ascii.eqb " " c)) s && negb (bool_decide (s = EmptyString)).

Definition message_ok (m : message) : bool :=
  match m with
  | ReceiveRequest t h r => (0 <=? t) && (0 <=? h) && (0 <=? r)
  | ReceiveBlock h r => (0 <=? h) && (0 <=? r)
  | SendPrePrepare h t v n r | Execute h t v n r | RoastInit h t v n r =>
      (0 <=? h) && (0 <=? t) && (0 <=? v) && (0 <=? n) && (0 <=? r)
  | TestBlockValidityInvoking h size hash | SubmitBlockSubmitting h size hash =>
      (0 <=? h) && (0 <=? size) && hash_ok hash
  | TestBlockValidityResult h hash result | SubmitBlockResult h hash result =>
      (0 <=? h) && hash_ok hash && result_ok result
  end.

(** ** Reading the rows back *)

Lemma digits_no_char c n : is_digit c = false -> 0 <= n -> has_char c (str_of_Z n) = false.
Proof. intros Hc Hn. by eapply (str_all_no_char is_digit), str_of_Z_digits. Qed.

Lemma digits_starts_not c n : is_digit c = false -> 0 <= n -> starts_not c (str_of_Z n) = true.
Proof. intros Hc Hn. by eapply (starts_not_all is_digit); auto using str_of_Z_digits, str_of_Z_nonempty. Qed.

Lemma is_digit_dot c : is_digit c = true -> dot c = true.
Proof.
  unfold is_digit, dot. destruct (Ascii.eqb_spec c nl) as [->|]; done.
Qed.

Lemma stamp_char_dot c : stamp_char c = true -> dot c = true.
Proof.
  unfold stamp_char, dot. destruct (Ascii.eqb_spec c nl) as [->|]; done.
Qed.

Lemma stamp_no_char c s : stamp_char c = false -> str_all stamp_char s = true -> has_char c s = false.
Proof. apply str_all_no_char. Qed.

(** The pieces of a search that starts at the bracket of the time stamp. *)
Lemma search_row r line ts rest gs t :
  0 <= line -> str_all stamp_char ts = true ->
  match_here r rest = Some (gs, t) ->
  search (Lit "[" :: any_lazy :: Lit "] " :: r) (str_of_Z line ++ " [" ++ ts ++ "] " ++ rest)
  = Some (ts :: gs, t).
Proof.
  intros Hl Hts Hr.
  rewrite (search_skip_text "[" "") by (by apply digits_no_char).
  cbn [String.append]. rewrite search_skip by done.
  apply search_here. apply (match_here_lit "[").
  apply (match_here_any_lazy "]" " ").
  - eapply str_all_weaken, Hts. apply stamp_char_dot.
  - by apply stamp_no_char.
  - by apply (match_here_lit "] ").
Qed.

(** Numbers between literals. *)
Lemma match_here_number r n c s gs t :
  0 <= n -> is_digit c = false -> match_here r (String c s) = Some (gs, t) ->
  match_here (digits_group :: r) (str_of_Z n ++ String c s) = Some (str_of_Z n :: gs, t).
Proof.
  intros Hn Hc. apply match_here_group; auto using str_of_Z_digits, str_of_Z_nonempty.
Qed.

(** Advance a [search] that has to fail past the text in front. *)
Ltac search_fails :=
  repeat first
    [ reflexivity
    | rewrite search_skip by reflexivity
    | rewrite search_skip_text by (apply digits_no_char; [reflexivity|lia])
    | rewrite search_skip_pair by (apply digits_starts_not; [reflexivity|lia])
    | rewrite search_skip_pair by assumption
    | rewrite search_skip_text by assumption
    | progress cbn [String.append] ].

(** Match numbers and the literals after them, to the end of the pattern. *)
Ltac match_numbers :=
  repeat first
    [ reflexivity
    | apply match_here_number; [lia|reflexivity|]
    | eapply match_here_strip; [reflexivity|] ].

Lemma pbft_search name line ts id h t v n r :
  name = "SEND_PRE_PREPARE"%string \/ name = "EXECUTE"%string \/ name = "ROAST_INIT"%string ->
  0 <= line -> str_all stamp_char ts = true -> 0 <= id ->
  0 <= h -> 0 <= t -> 0 <= v -> 0 <= n -> 0 <= r ->
  search (pbft_pattern name) (log_row line ts "debug" (applying id (pbft_identify name h t v n r)))
  = Some ([ts; str_of_Z h; str_of_Z t; str_of_Z v; str_of_Z n; str_of_Z r], " effect.")%string.
Proof.
  intros Hname Hl Hts Hid Hh Ht Hv Hn Hr. unfold pbft_pattern.
  transitivity (search (Lit "[" :: any_lazy :: Lit "] " :: any_star ::
    Lit (" applying <" ++ name ++ ", Request=(H=") :: digits_group ::
    [Lit ", T="; digits_group; Lit "), V="; digits_group; Lit ", N="; digits_group; Lit ", R="; digits_group; Lit ">"])
    (str_of_Z line ++ " [" ++ ts ++ "] " ++ ("[debug] R" ++ str_of_Z id) ++ (" applying <" ++ name ++ ", Request=(H=")
    ++ str_of_Z h ++ ", T=" ++ str_of_Z t ++ "), V=" ++ str_of_Z v ++ ", N=" ++ str_of_Z n
    ++ ", R=" ++ str_of_Z r ++ ">" ++ " effect.")).
  { unfold log_row, applying, pbft_identify, digest. f_equal. rewrite <-!str_app_assoc. reflexivity. }
  apply search_row; [done|done|]. apply (match_here_any_star false).
  - rewrite str_all_app. apply andb_true_iff. split; [done|].
    eapply str_all_weaken; [apply is_digit_dot|by apply str_of_Z_digits].
  - apply match_here_lit. match_numbers.
  - destruct Hname as [->|[->| ->]]; search_fails.
Qed.

Lemma receive_request_search line ts id t h r :
  0 <= line -> str_all stamp_char ts = true -> 0 <= id -> 0 <= t -> 0 <= h -> 0 <= r ->
  search receive_requests_pattern (log_row line ts "debug" (message_text id (ReceiveRequest t h r)))
  = Some ([ts; str_of_Z t; str_of_Z h; str_of_Z r], "> effect.")%string.
Proof.
  intros Hl Hts Hid Ht Hh Hr. unfold receive_requests_pattern.
  transitivity (search receive_requests_pattern
    (str_of_Z line ++ " [" ++ ts ++ "] " ++ ("[debug] R" ++ str_of_Z id) ++ " applying <RECEIVE_REQUEST, T="
     ++ str_of_Z t ++ ", H=" ++ str_of_Z h ++ ", R=" ++ str_of_Z r ++ "> effect.")).
  { unfold log_row, message_text, applying. f_equal. rewrite <-!str_app_assoc. reflexivity. }
  apply search_row; [done|done|]. apply (match_here_any_star false).
  - rewrite str_all_app. apply andb_true_iff. split; [done|].
    eapply str_all_weaken; [apply is_digit_dot|by apply str_of_Z_digits].
  - apply match_here_lit. match_numbers.
  - search_fails.
Qed.

Lemma receive_block_search line ts id h r :
  0 <= line -> str_all stamp_char ts = true -> 0 <= id -> 0 <= h -> 0 <= r ->
  search receive_block_pattern (log_row line ts "debug" (message_text id (ReceiveBlock h r)))
  = Some ([ts; str_of_Z h; str_of_Z r], "> effect.")%string.
Proof.
  intros Hl Hts Hid Hh Hr. unfold receive_block_pattern.
  transitivity (search receive_block_pattern
    (str_of_Z line ++ " [" ++ ts ++ "] " ++ ("[debug] R" ++ str_of_Z id) ++ " applying <RECEIVE_BLOCK, H="
     ++ str_of_Z h ++ ", R=" ++ str_of_Z r ++ "> effect.")).
  { unfold log_row, message_text, applying. f_equal. rewrite <-!str_app_assoc. reflexivity. }
  apply search_row; [done|done|]. apply (match_here_any_star false).
  - rewrite str_all_app. apply andb_true_iff. split; [done|].
    eapply str_all_weaken; [apply is_digit_dot|by apply str_of_Z_digits].
  - apply match_here_lit. match_numbers.
  - search_fails.
Qed.

Lemma hash_ok_spec s :
  hash_ok s = true ->
  str_all is_hex_lower s = true /\ s <> EmptyString /\ has_char " " s = false /\ starts_not "R" s = true.
Proof.
  unfold hash_ok. rewrite andb_true_iff, negb_true_iff, bool_decide_eq_false. intros [H1 H2].
  split; [done|]. split; [done|].
  split; [by eapply (str_all_no_char is_hex_lower)|by eapply (starts_not_all is_hex_lower)].
Qed.

Lemma result_ok_spec s :
  result_ok s = true ->
  str_all dot s = true /\ has_char " " s = false /\ str_all stamp_char s = true /\ starts_not "R" s = true.
Proof.
  unfold result_ok. rewrite andb_true_iff, negb_true_iff, bool_decide_eq_false. intros [H1 H2].
  assert (str_all stamp_char s = true) as Hs.
  { eapply str_all_weaken, H1. intros c. rewrite andb_true_iff. tauto. }
  split; [eapply str_all_weaken, Hs; apply stamp_char_dot|].
  split; [by eapply str_all_no_char; [|exact H1]|]. split; [done|by eapply (starts_not_all stamp_char)].
Qed.

Lemma test_start_search line ts id h size hash :
  0 <= line -> str_all stamp_char ts = true -> 0 <= id -> 0 <= h -> 0 <= size -> hash_ok hash = true ->
  search start_test_block_validity_pattern
    (log_row line ts "debug" (message_text id (TestBlockValidityInvoking h size hash)))
  = Some ([ts; str_of_Z id; str_of_Z h; str_of_Z size; hash], EmptyString).
Proof.
  intros Hl Hts Hid Hh Hsz (Hhex & Hne & Hsp & HR)%hash_ok_spec. unfold start_test_block_validity_pattern.
  transitivity (search start_test_block_validity_pattern
    (str_of_Z line ++ " [" ++ ts ++ "] " ++ "[debug]" ++ " R" ++ str_of_Z id
     ++ " BitcoinBlockchain::TestBlockValidity invoking for candidate block at height "
     ++ str_of_Z h ++ ", blocksize " ++ str_of_Z size ++ " bytes, block hash: " ++ hash)).
  { unfold log_row, message_text. f_equal. }
  apply search_row; [done|done|]. apply (match_here_any_star false); [done| |].
  - apply match_here_lit. match_numbers. by apply match_here_group_end.
  - rewrite <-(str_app_nil_r hash). search_fails.
Qed.

Lemma submit_start_search line ts id h size hash :
  0 <= line -> str_all stamp_char ts = true -> 0 <= id -> 0 <= h -> 0 <= size -> hash_ok hash = true ->
  search start_submit_block_pattern
    (log_row line ts "debug" (message_text id (SubmitBlockSubmitting h size hash)))
  = Some ([ts; str_of_Z id; str_of_Z h; str_of_Z size; hash], EmptyString).
Proof.
  intros Hl Hts Hid Hh Hsz (Hhex & Hne & Hsp & HR)%hash_ok_spec. unfold start_submit_block_pattern.
  transitivity (search start_submit_block_pattern
    (str_of_Z line ++ " [" ++ ts ++ "] " ++ "[debug]" ++ " R" ++ str_of_Z id
     ++ " BitcoinBlockchain::SubmitBlock submitting block at height "
     ++ str_of_Z h ++ " block size: " ++ str_of_Z size ++ " bytes, block hash: " ++ hash)).
  { unfold log_row, message_text. f_equal. }
  apply search_row; [done|done|]. apply (match_here_any_star false); [done| |].
  - apply match_here_lit. match_numbers. by apply match_here_group_end.
  - rewrite <-(str_app_nil_r hash). search_fails.
Qed.

Lemma submit_end_search line ts id h hash result :
  0 <= line -> str_all stamp_char ts = true -> 0 <= id -> 0 <= h ->
  hash_ok hash = true -> result_ok result = true ->
  search end_submit_block_pattern
    (log_row line ts "debug" (message_text id (SubmitBlockResult h hash result)))
  = Some ([ts; str_of_Z id; str_of_Z h; hash; result], ".")%string.
Proof.
  intros Hl Hts Hid Hh (Hhex & Hne & Hsp & HR)%hash_ok_spec (Hdot & Hres & _ & HR')%result_ok_spec.
  unfold end_submit_block_pattern.
  transitivity (search end_submit_block_pattern
    (str_of_Z line ++ " [" ++ ts ++ "] " ++ "[debug]" ++ " R" ++ str_of_Z id
     ++ " BitcoinBlockchain::SubmitBlock for block at height "
     ++ str_of_Z h ++ ", block hash: " ++ hash ++ ". Result = " ++ result ++ " (null means ok).")).
  { unfold log_row, message_text. f_equal. }
  apply search_row; [done|done|]. apply (match_here_any_star false); [done| |].
  - apply match_here_lit. match_numbers. apply match_here_group; [done|done|done|].
    apply match_here_one; [done|]. eapply match_here_strip; [reflexivity|].
    apply (match_here_any_star true); [done|match_numbers|search_fails].
  - search_fails.
Qed.

(** A successful search means that every literal of the pattern is in the text. *)
Lemma matches_literal l r m gs : Lit l ∈ r -> matches r m gs -> contains l m = true.
Proof.
  intros Hin Hm. apply contains_true_iff. revert Hin.
  induction Hm as [|l' r m gs _ IH|p c r m gs _ _ IH|cap lz ne p r w m gs _ _ _ IH].
  - by rewrite elem_of_nil.
  - rewrite elem_of_cons. intros [[= ->]|(a & b & ->)%IH]; [by exists EmptyString, m|].
    exists (l' ++ a)%string, b. by rewrite str_app_assoc.
  - rewrite elem_of_cons. intros [[=]|(a & b & ->)%IH]. by exists (String c a), b.
  - rewrite elem_of_cons. intros [[=]|(a & b & ->)%IH]. exists (w ++ a)%string, b. by rewrite str_app_assoc.
Qed.

Lemma search_needs l r s c :
  Lit l ∈ r -> has_char c l = true -> has_char c s = false -> search r s = None.
Proof.
  intros Hin Hc Hs. destruct (search r s) as [[gs t]|] eqn:E; [|done].
  apply search_sound in E as (a & m & -> & Hm). apply (matches_literal l) in Hm; [|done].
  rewrite !has_char_app, !orb_false_iff in Hs. destruct Hs as (_ & Hs & _).
  by rewrite (contains_no_char l m c) in Hm.
Qed.

Lemma search_groups_Ok r row gs t : search r row = Some (gs, t) -> search_groups r row = Ok gs.
Proof. intros H. unfold search_groups. by rewrite H. Qed.

(** Run a parser on the captures [H] finds: the time stamp [Hx], then each number. *)
Ltac run_parser H Hx :=
  cbn [message_class from_log_row ACTION_NAME];
  unfold receive_requests_from_log_row, receive_block_from_log_row, start_test_block_validity_from_log_row,
    start_submit_block_from_log_row, start_event_from_log_row, end_submit_block_from_log_row,
    end_event_from_log_row, pbft_from_log_row;
  erewrite search_groups_Ok by (apply H; auto); cbn [mbind result_bind]; rewrite Hx; cbn [mbind result_bind];
  repeat (rewrite py_int_str_of_Z by lia; cbn [mbind result_bind]); reflexivity.

(** Each parser reads the rows of its message, for any time stamp [to_posix] reads. *)
Lemma from_log_row_message line ts x id m :
  0 <= line -> 0 <= id -> message_ok m = true -> str_all stamp_char ts = true -> to_posix ts = Ok x ->
  (forall h hash result, m <> TestBlockValidityResult h hash result) ->
  from_log_row (message_class m) (log_row line ts "debug" (message_text id m)) = Ok (message_event x id m).
Proof.
  intros Hl Hid Hm Hts Hx Hne.
  destruct m as [t h r|h r|h t v n r|h t v n r|h t v n r|h size hash|h hash res|h size hash|h hash res];
    cbn [message_ok] in Hm; bool_hyps.
  - run_parser receive_request_search Hx.
  - run_parser receive_block_search Hx.
  - run_parser pbft_search Hx.
  - run_parser pbft_search Hx.
  - run_parser pbft_search Hx.
  - run_parser test_start_search Hx.
  - by destruct (Hne h hash res).
  - run_parser submit_start_search Hx.
  - run_parser submit_end_search Hx.
Qed.

(** The pattern of [EndTestBlockValidity] does not read the row the replica
    writes: the row says "with hash", the pattern wants ", block hash: ". *)
Lemma end_test_block_validity_unread line ts id h hash res :
  0 <= line -> 0 <= id -> message_ok (TestBlockValidityResult h hash res) = true ->
  str_all stamp_char ts = true ->
  from_log_row CEndTestBlockValidity
    (log_row line ts "debug" (message_text id (TestBlockValidityResult h hash res))) = Raise AttributeError.
Proof.
  intros Hl Hid Hm Hts. cbn [message_ok] in Hm. bool_hyps.
  match goal with H : hash_ok hash = true |- _ => apply hash_ok_spec in H as (Hhex & _) end.
  match goal with H : result_ok res = true |- _ => apply result_ok_spec in H as (_ & _ & Hres & _) end.
  cbn [from_log_row]. unfold end_test_block_validity_from_log_row, end_event_from_log_row, search_groups.
  rewrite (search_needs ", block hash: " _ _ ","); [done| |done|].
  - unfold end_test_block_validity_pattern. set_solver.
  - unfold log_row, message_text. rewrite !has_char_app, !(digits_no_char ",") by done.
    rewrite (stamp_no_char "," ts), (stamp_no_char "," res), (str_all_no_char is_hex_lower "," hash) by done. done.
Qed.

(** ** [to_posix] on the texts of the loggers *)

Lemma to_posix_strftime_f t : valid_datetime t = true -> to_posix (strftime_f t) = total_seconds (micros t).
Proof. intros Hv. unfold to_posix. by rewrite strptime_f_strftime_f. Qed.

Lemma to_posix_strftime t :
  valid_datetime t = true -> microsecond t = 0 -> to_posix (strftime t) = total_seconds (micros t).
Proof.
  intros Hv H0. unfold to_posix. rewrite strptime_strftime by done. unfold strptime at 1.
  rewrite date_and_time_f_no_point by (apply strftime_no_point; apply valid_datetime_spec in Hv; lia). done.
Qed.

Lemma strftime_stamp t : 1 <= month t <= 12 -> str_all stamp_char (strftime t) = true.
Proof.
  intros Hm. unfold strftime. rewrite !str_all_app.
  assert (forall w n, str_all stamp_char (fixed_width w n) = true) as Hd.
  { intros. eapply str_all_weaken, fixed_width_digits. intros c. unfold is_digit, stamp_char.
    destruct c as [[] [] [] [] [] [] [] []]; done. }
  rewrite !Hd. assert (str_all stamp_char (month_name (month t)) = true) as ->; [|done].
  pattern (month t). eapply month_cases; [..|exact Hm]; reflexivity.
Qed.

Lemma strftime_f_stamp t : 1 <= month t <= 12 -> str_all stamp_char (strftime_f t) = true.
Proof.
  intros Hm. unfold strftime_f. rewrite !str_all_app, strftime_stamp by done.
  eapply str_all_weaken, fixed_width_digits. intros c. unfold is_digit, stamp_char.
  destruct c as [[] [] [] [] [] [] [] []]; done.
Qed.

(** C27: The parsers of the requests, the blocks, the executed actions, the pre-prepares, the
    ROAST initialisations, the start of a test of validity and the two ends of a submission
    read back the row a replica writes: the event has the time of the time stamp, to the
    nearest float, and every number and text of the message.  The rows of pre-prepares and
    of ROAST initialisations come back as an [ExecuteActionLog], and the row of the result of
    a test of validity (EndTestBlockValidity) is excluded, its parser does not read it. *)
Theorem from_log_row_reads_rows line t id m :
  0 <= line -> 0 <= id -> message_ok m = true -> valid_datetime t = true ->
  (forall h hash result, m <> TestBlockValidityResult h hash result) ->
  from_log_row (message_class m) (log_row line (strftime_f t) "debug" (message_text id m))
  = Ok (message_event (round_frac (micros t * one) 1000000) id m).
Proof.
  intros Hl Hid Hm Hv Hne. assert (1 <= month t <= 12) by (apply valid_datetime_spec in Hv; lia).
  apply from_log_row_message; auto using strftime_f_stamp. by rewrite to_posix_strftime_f, total_seconds_eq.
Qed.

(** [to_posix] reads both forms of time stamps, with a fraction of the second
    and without one, and it is strictly increasing on the times of the years
    1970 to 2241: rows in the order of time give floats in the same order. *)
Theorem to_posix_increasing t1 t2 :
  valid_datetime t1 = true -> valid_datetime t2 = true ->
  0 <= micros t1 < micros t2 -> micros t2 < 2 ^ 33 * 1000000 ->
  exists x1 x2, to_posix (strftime_f t1) = Ok x1 /\ to_posix (strftime_f t2) = Ok x2 /\ x1 < x2
                /\ (microsecond t1 = 0 -> to_posix (strftime t1) = Ok x1).
Proof.
  intros Hv1 Hv2 Hlt Hmax.
  exists (round_frac (micros t1 * one) 1000000), (round_frac (micros t2 * one) 1000000).
  rewrite !to_posix_strftime_f, !total_seconds_eq by done. split; [done|]. split; [done|].
  split; [auto using total_seconds_lt|]. intros H0. by rewrite to_posix_strftime, total_seconds_eq.
Qed.

Definition example_time : datetime := DateTime 2023 5 23 8 9 10 0.

Example from_log_row_reads_rows_witness :
  from_log_row CExecuteActionLog (log_row 3 (strftime_f example_time) "debug" (message_text 0 (Execute 7 60 1 7 0)))
  = Ok (ExecuteActionLog (round_frac (micros example_time * one) 1000000) 0 60 7 1 7).
Proof. apply (from_log_row_reads_rows 3 example_time 0 (Execute 7 60 1 7 0)); [lia|lia|reflexivity|reflexivity|discriminate]. Defined.

Example to_posix_increasing_witness :
  exists x1 x2, to_posix "2023-May-23 08:09:10.000000" = Ok x1 /\ to_posix "2023-May-23 08:09:10.000001" = Ok x2
                /\ x1 < x2 /\ (0 = 0 -> to_posix "2023-May-23 08:09:10" = Ok x1).
Proof.
  apply (to_posix_increasing example_time (DateTime 2023 5 23 8 9 10 1)); [reflexivity|reflexivity| |].
  - split; [vm_compute; discriminate|reflexivity].
  - reflexivity.
Defined.
