(* ===== verification/NodeLog.v ===== *)
(** * The log of one node (benchmark_framework/logs.py, class NodeLog)

    The one-pass parser of a replica log, the detection of replicas killed by
    mistake, and the height of an injected fault. *)

From S2P Require Import Prelude PyStr PyInt PyFloat PyDict PyRegex PyTime LogEvents.

(** [Dict[Type[LogEvent], Dict[Height, LogEvent]]], both in insertion order. *)
Abbreviation events := (list (event_class * list (Z * log_event))).

(** [patterns], from the text of a row to the class of its event. *)
Definition patterns : list (string * event_class) :=
  [("applying <RECEIVE_REQUEST", CReceiveRequestsLog);
   ("applying <EXECUTE", CExecuteActionLog);
   ("applying <RECEIVE_BLOCK", CReceiveBlockLog);
   ("applying <SEND_PRE_PREPARE", CSendPrePrepareLog);
   ("applying <ROAST_INIT", CRoastInitLog);
   ("BitcoinBlockchain::SubmitBlock submitting", CStartSubmitBlock);
   ("BitcoinBlockchain::SubmitBlock for block at height", CEndSubmitBlock)]%string.

(** [events_by_type_by_height.setdefault(cls, {})[event.block_height] = event] *)
Definition record_event (acc : events) (cls : event_class) (event : log_event) : events :=
  dset cls (dset (block_height event) event (default [] (dget cls acc))) acc.

(** The body of the scanning loop. *)
Definition parse_row (acc : events) (row : string) : result events :=
  match search_alt (patterns.*1) row with
  | None => Ok acc
  | Some key =>
      event_log_cls ← dlookup key patterns;
      event ← from_log_row event_log_cls row;
      Ok (record_event acc event_log_cls event)
  end.

(** [NodeLog._parse_logs] *)
Definition parse_logs (log : string) : result events := foldM parse_row [] (splitlines log).

Definition killed_error_pattern : list item :=
  [any_star; Lit " [ERROR] Killed replica R"; digits_group; Lit " at view V="; digits_group].
Definition killed_info_pattern : list item :=
  [Lit "[INFO] Killed replica R"; digits_group; Lit " at view V="; digits_group].

(** [NodeLog._check_killed] *)
Definition check_killed (log : string) : result unit :=
  match search killed_error_pattern log with
  | Some _ => Raise ParseError
  | None => Ok tt
  end.

(** [max(iterable)] of a non-empty list of heights. *)
Definition max_height (hs : list Z) : Z :=
  match hs with [] => 0 | h :: hs' => foldl Z.max h hs' end.

(** [NodeLog._parse_fault_height] *)
Definition parse_fault_height (log : string) (executes_by_height : list (Z * log_event)) : Z :=
  match search killed_info_pattern log with
  | Some _ => if (0 <? Z.of_nat (length (dkeys executes_by_height))) then max_height (dkeys executes_by_height) else 0
  | None => 0
  end.

Record NodeLog : Type := MkNodeLog {
  raw_log : string;
  events_by_type_by_height : events;
  fault_height : Z;
  config : list (string * string) }.

(** [executes_by_height], empty when the node never was the primary. *)
Definition executes_of (evs : events) : list (Z * log_event) := default [] (dget CExecuteActionLog evs).
Definition executes_by_height (n : NodeLog) : list (Z * log_event) := executes_of (events_by_type_by_height n).
Definition nb_executes (n : NodeLog) : Z := Z.of_nat (length (executes_by_height n)).

(** [requests_by_height], a [KeyError] when the node logged no request. *)
Definition requests_by_height (n : NodeLog) : result (list (Z * log_event)) :=
  dlookup CReceiveRequestsLog (events_by_type_by_height n).

(** [NodeLog.__init__] *)
Definition make_node_log (log : string) (cfg : list (string * string)) : result NodeLog :=
  _ ← check_killed log;
  evs ← parse_logs log;
  Ok (MkNodeLog log evs (parse_fault_height log (executes_of evs)) cfg).

(** [NodeLog.is_primary] *)
Definition is_primary (n : NodeLog) : bool := contains "<EXECUTE, Request" (raw_log n).

(** [NodeLog._log_events_by_height], for any events with a height and a time stamp. *)
Definition log_events_by_height {E} `{LogEventThatHasHeightAndTimestamp E} (log_events : list E)
  : result (list (Z * E)) :=
  foldM (fun merged log_event =>
           if dmem (block_height log_event) merged then Raise ValueError
           else Ok (dset (block_height log_event) log_event merged)) [] log_events.

(** ** The index of any log is well formed *)

(** The class of the objects kept under a class: the parser that the three actions of
    the protocol share makes [ExecuteActionLog] objects. *)
Definition event_fits (cls : event_class) (e : log_event) : bool :=
  bool_decide (class_of e = match cls with
                            | CSendPrePrepareLog | CRoastInitLog => CExecuteActionLog
                            | _ => cls
                            end).

Definition events_ok (evs : events) : Prop :=
  forall cls d, dget cls evs = Some d ->
    NoDup (dkeys d) /\ Forall (fun item => item.1 = block_height item.2 /\ event_fits cls item.2 = true) d.

Lemma from_log_row_fits cls row e : from_log_row cls row = Ok e -> event_fits cls e = true.
Proof.
  destruct cls; cbn [from_log_row];
    unfold receive_requests_from_log_row, receive_block_from_log_row, start_test_block_validity_from_log_row,
      end_test_block_validity_from_log_row, start_submit_block_from_log_row, end_submit_block_from_log_row,
      start_event_from_log_row, end_event_from_log_row, pbft_from_log_row;
    intros Hrow; apply bind_Ok in Hrow as (gs & _ & Hrow); repeat case_match; inv_ok; try discriminate; by subst.
Qed.

Lemma record_event_ok evs cls e :
  event_fits cls e = true -> events_ok evs -> events_ok (record_event evs cls e).
Proof.
  intros Hfit Hok cls' d. unfold record_event. rewrite dget_dset. case_decide as Hc; [|apply Hok].
  subst cls'. intros [= <-].
  assert (NoDup (dkeys (default [] (dget cls evs)))
          /\ Forall (fun item => item.1 = block_height item.2 /\ event_fits cls item.2 = true)
               (default [] (dget cls evs))) as [Hnd Hall].
  { destruct (dget cls evs) as [d|] eqn:E; [by apply Hok|]. split; constructor. }
  split; [by apply NoDup_dset|by apply Forall_dset].
Qed.

Lemma parse_logs_ok log evs : parse_logs log = Ok evs -> events_ok evs.
Proof.
  unfold parse_logs. assert (events_ok []) as Hnil by done. revert Hnil. generalize ([] : events) as acc.
  induction (splitlines log) as [|row rows IH]; intros acc Hacc; cbn [foldM]; [by intros [= <-]|].
  intros (acc' & Hrow & Hrun)%bind_Ok. apply (IH acc'); [|done]. unfold parse_row in Hrow.
  destruct (search_alt _ row) as [key|]; [|by injection Hrow as <-]. inv_ok. subst acc'.
  apply record_event_ok; [by eapply from_log_row_fits|done].
Qed.

(** The nodes that were made from a log. *)
Definition parsed (n : NodeLog) : Prop := exists log cfg, make_node_log log cfg = Ok n.

(** A node that was made from a log, whatever its text, has under each class
    the events of that class (those of the three protocol actions being all
    [ExecuteActionLog] objects), each at its height and one per height; and its
    fault height is zero or the highest block it executed. *)
Theorem make_node_log_well_formed log cfg n :
  make_node_log log cfg = Ok n ->
  events_ok (events_by_type_by_height n)
  /\ (fault_height n = 0
      \/ fault_height n ∈ dkeys (executes_by_height n)
         /\ Forall (fun h => h <= fault_height n) (dkeys (executes_by_height n))).
Proof.
  unfold make_node_log. intros Hn. inv_ok. subst n. cbn [events_by_type_by_height fault_height].
  split; [by eapply parse_logs_ok|]. unfold executes_by_height. cbn [events_by_type_by_height].
  unfold parse_fault_height. destruct (search _ log); [|by left]. case_match; [right|by left].
  destruct (dkeys (executes_of _)) as [|h hs]; [done|]. apply foldl_max_spec.
Qed.

(** ** The scan of a log of replica rows *)

(** A row of the log: the message [m] that replica [id] logs at time stamp [ts]. *)
Record entry : Type := Entry { line : Z; ts : string; time : float; id : Z; msg : message }.

Definition entry_row (e : entry) : string := log_row (line e) (ts e) "debug" (message_text (id e) (msg e)).

Definition entry_ok (e : entry) : Prop :=
  0 <= line e /\ 0 <= id e /\ message_ok (msg e) = true /\ str_all stamp_char (ts e) = true
  /\ to_posix (ts e) = Ok (time e).

(** The messages of TestBlockValidity are not looked for by the scan. *)
Definition scanned (m : message) : bool :=
  match m with TestBlockValidityInvoking _ _ _ | TestBlockValidityResult _ _ _ => false | _ => true end.

(** What the scan keeps of a list of rows. *)
Definition index_entries (es : list entry) : events :=
  foldl (fun acc e =>
           if scanned (msg e)
           then record_event acc (message_class (msg e)) (message_event (time e) (id e) (msg e))
           else acc) [] es.

Definition entries_log (es : list entry) : string :=
  foldr (fun r s => r ++ String nl s)%string EmptyString (entry_row <$> es).

(** *** Finding the class of a row *)

Lemma keys_first : Forall (fun l => match l with
                                    | String c _ => Ascii.eqb c "a" || Ascii.eqb c "B" = true
                                    | EmptyString => False end) (patterns.*1).
Proof. by repeat constructor. Qed.

Lemma digits_stamp n : 0 <= n -> str_all stamp_char (str_of_Z n) = true.
Proof.
  intros Hn. eapply str_all_weaken, str_of_Z_digits, Hn. intros c. unfold is_digit, stamp_char.
  destruct c as [[] [] [] [] [] [] [] []]; done.
Qed.

(** Advance the search for a key over the text in front. *)
Ltac find_key :=
  repeat first
    [ reflexivity
    | rewrite search_alt_skip by (repeat constructor)
    | rewrite search_alt_skip_text by (repeat constructor; by apply digits_no_char)
    | rewrite search_alt_cut by
        first [ apply stamp_no_char; [reflexivity|assumption]
              | apply (str_all_no_char is_hex_lower); [reflexivity|assumption]
              | repeat constructor ]
    | progress cbn [String.append] ].

(** The text of [patterns] that a message contains. *)
Definition message_key (m : message) : option string :=
  match m with
  | ReceiveRequest _ _ _ => Some "applying <RECEIVE_REQUEST"
  | ReceiveBlock _ _ => Some "applying <RECEIVE_BLOCK"
  | SendPrePrepare _ _ _ _ _ => Some "applying <SEND_PRE_PREPARE"
  | Execute _ _ _ _ _ => Some "applying <EXECUTE"
  | RoastInit _ _ _ _ _ => Some "applying <ROAST_INIT"
  | SubmitBlockSubmitting _ _ _ => Some "BitcoinBlockchain::SubmitBlock submitting"
  | SubmitBlockResult _ _ _ => Some "BitcoinBlockchain::SubmitBlock for block at height"
  | _ => None
  end%string.

Lemma message_key_class m key : message_key m = Some key -> dlookup key patterns = Ok (message_class m).
Proof. destruct m; intros [= <-]; reflexivity. Qed.

Lemma entry_row_key e : entry_ok e -> search_alt (patterns.*1) (entry_row e) = message_key (msg e).
Proof.
  intros (Hl & Hid & Hm & Hts & _). unfold entry_row, log_row.
  destruct e as [ln tstamp tm i m]. cbn [line ts id msg time] in *.
  destruct m as [t h r|h r|h t v n r|h t v n r|h t v n r|h size hash|h hash res|h size hash|h hash res];
    cbn [message_ok message_text message_key] in *; bool_hyps; unfold applying, pbft_identify; rewrite <-?str_app_assoc.
  all: repeat match goal with
    | H : hash_ok _ = true |- _ => apply hash_ok_spec in H as (Hhex & _)
    | H : result_ok _ = true |- _ => apply result_ok_spec in H as (_ & _ & Hres & _)
    end; find_key.
  - apply search_alt_end; [by repeat constructor|..]; by apply (str_all_no_char is_hex_lower).
  - change (res ++ " (null means ok).")%string with (res ++ (" " ++ "(null means ok)."))%string.
    rewrite str_app_assoc. cbn [String.append].
    rewrite search_alt_cut; [find_key|by repeat constructor|..];
      rewrite has_char_app, (stamp_no_char _ res) by done; done.
Qed.

Lemma is_line_break_stamp c : stamp_char c = true -> negb (is_line_break c) = true.
Proof. unfold stamp_char. rewrite !negb_orb, !andb_true_iff. tauto. Qed.

Lemma stamp_no_break s : str_all stamp_char s = true -> str_all (fun c => negb (is_line_break c)) s = true.
Proof. apply str_all_weaken, is_line_break_stamp. Qed.

Lemma hex_no_break s :
  str_all is_hex_lower s = true -> str_all (fun c => negb (is_line_break c)) s = true.
Proof.
  apply str_all_weaken. intros c. unfold is_hex_lower, is_digit. destruct c as [[] [] [] [] [] [] [] []]; done.
Qed.

Lemma digits_no_break n : 0 <= n -> str_all (fun c => negb (is_line_break c)) (str_of_Z n) = true.
Proof. intros Hn. by apply stamp_no_break, digits_stamp. Qed.

Lemma entry_row_no_break e :
  entry_ok e -> str_all (fun c => negb (is_line_break c)) (entry_row e) = true.
Proof.
  intros (Hl & Hid & Hm & Hts & _). unfold entry_row, log_row.
  destruct e as [ln tstamp tm i m]. cbn [line ts id msg time] in *.
  destruct m as [t h r|h r|h t v n r|h t v n r|h t v n r|h size hash|h hash res|h size hash|h hash res];
    cbn [message_ok message_text] in *; bool_hyps; unfold applying, pbft_identify, digest;
    repeat match goal with
    | H : hash_ok _ = true |- _ => apply hash_ok_spec in H as (Hhex & _)
    | H : result_ok _ = true |- _ => apply result_ok_spec in H as (_ & _ & Hres & _)
    end;
    rewrite !str_all_app, !digits_no_break by done;
    rewrite ?(stamp_no_break tstamp), ?(stamp_no_break res), ?(hex_no_break hash) by done; reflexivity.
Qed.

Lemma parse_row_entry acc e :
  entry_ok e ->
  parse_row acc (entry_row e) =
  Ok (if scanned (msg e)
      then record_event acc (message_class (msg e)) (message_event (time e) (id e) (msg e)) else acc).
Proof.
  intros He. unfold parse_row. rewrite entry_row_key by done.
  destruct (message_key (msg e)) as [key|] eqn:Ek.
  - rewrite (message_key_class _ _ Ek). cbn [mbind result_bind].
    destruct He as (Hl & Hid & Hm & Hts & Hx). unfold entry_row.
    rewrite (from_log_row_message (line e) (ts e) (time e)) by
      (try done; intros h hash res E; rewrite E in Ek; discriminate Ek).
    by destruct (msg e).
  - by destruct (msg e).
Qed.

(** *** The lines of a log *)

(** A row of the messages above, or another line, in which no key occurs. *)
Inductive log_line : Type := Row (e : entry) | Other (s : string).

Definition line_text (l : log_line) : string := match l with Row e => entry_row e | Other s => s end.
Definition line_ok (l : log_line) : Prop :=
  match l with
  | Row e => entry_ok e
  | Other s => str_all (fun c => negb (is_line_break c)) s = true /\ search_alt (patterns.*1) s = None
  end.
Definition lines_log (ls : list log_line) : string :=
  foldr (fun r s => r ++ String nl s)%string EmptyString (line_text <$> ls).
Definition line_entries (ls : list log_line) : list entry := omap (fun l => match l with Row e => Some e | Other _ => None end) ls.

Lemma parse_row_other acc s : search_alt (patterns.*1) s = None -> parse_row acc s = Ok acc.
Proof. unfold parse_row. by intros ->. Qed.

Lemma scan_lines ls : Forall line_ok ls -> parse_logs (lines_log ls) = Ok (index_entries (line_entries ls)).
Proof.
  intros Hls. unfold parse_logs, lines_log, index_entries.
  rewrite splitlines_rows.
  - generalize ([] : events). induction Hls as [|[e|s] ls Hl _ IH]; intros acc; cbn [fmap list_fmap foldM]; [done|..].
    + cbn [line_text]. rewrite parse_row_entry by done. cbn [mbind result_bind]. apply IH.
    + destruct Hl as [_ Hl]. cbn [line_text]. rewrite parse_row_other by done. cbn [mbind result_bind]. apply IH.
  - apply Forall_fmap. eapply Forall_impl; [exact Hls|]. intros [e|s]; [apply entry_row_no_break|by intros [? _]].
Qed.

Lemma lines_log_rows es : lines_log (Row <$> es) = entries_log es.
Proof. unfold lines_log, entries_log. by rewrite <-list_fmap_compose. Qed.

Lemma line_entries_rows es : line_entries (Row <$> es) = es.
Proof. unfold line_entries. induction es as [|e es IH]; cbn; [done|]. by rewrite IH. Qed.

Lemma scan_entries es :
  Forall entry_ok es -> parse_logs (entries_log es) = Ok (index_entries es).
Proof.
  intros Hes. rewrite <-lines_log_rows, scan_lines by (by apply Forall_fmap). by rewrite line_entries_rows.
Qed.

(** What the index holds: the last event of each class and height. *)
Definition event_at (evs : events) (cls : event_class) (h : Z) : option log_event :=
  dget cls evs ≫= dget h.

Lemma event_at_record acc cls cls' ev h :
  event_at (record_event acc cls ev) cls' h =
  if decide (cls' = cls /\ h = block_height ev) then Some ev else event_at acc cls' h.
Proof.
  unfold event_at, record_event. rewrite dget_dset. destruct (decide (cls' = cls)) as [->|Hc]; simpl.
  - rewrite dget_dset. destruct (decide (h = block_height ev)) as [->|Hh].
    + by destruct (decide _) as [_|[]].
    + destruct (decide (_ /\ _)) as [[_ ?]|_]; [done|]. by destruct (dget cls acc).
  - by destruct (decide (_ /\ _)) as [[? _]|_].
Qed.

Definition entry_event (e : entry) : log_event := message_event (time e) (id e) (msg e).

(** The rows of a class and a height, and the event of the last of them. *)
Definition entry_at (cls : event_class) (h : Z) (e : entry) : bool :=
  scanned (msg e) && bool_decide (message_class (msg e) = cls) && (block_height (entry_event e) =? h).
Definition last_event (cls : event_class) (h : Z) (es : list entry) : option log_event :=
  last (entry_event <$> List.filter (entry_at cls h) es).

Lemma index_entries_last es cls h : event_at (index_entries es) cls h = last_event cls h es.
Proof.
  induction es as [|e es IH] using rev_ind; [done|].
  unfold index_entries, last_event in *. rewrite foldl_app, List.filter_app, fmap_app. cbn [foldl List.filter].
  unfold entry_at at 2. unfold entry_event at 2. destruct (scanned (msg e)); cbn [andb]; [|by rewrite app_nil_r].
  rewrite event_at_record, IH. unfold entry_event.
  destruct (decide (cls = _ /\ h = _)) as [[-> ->]|Hne].
  - rewrite bool_decide_true, Z.eqb_refl by done. cbn. by rewrite last_snoc.
  - destruct (bool_decide_reflect (message_class (msg e) = cls)) as [Hc|]; cbn [andb]; [|by rewrite app_nil_r].
    destruct (Z.eqb_spec (block_height (message_event (time e) (id e) (msg e))) h); [by destruct Hne|by rewrite app_nil_r].
Qed.

(** C28: The one-pass scan of a replica log, made of the rows the replicas write among any
    other lines, succeeds, forgets nothing and invents nothing: the event it keeps for a
    class and a height is that of the last row of this class and height, and there is
    none exactly when the log has no such row. *)
Theorem parse_logs_complete ls :
  Forall line_ok ls ->
  exists evs, parse_logs (lines_log ls) = Ok evs
    /\ forall cls h, event_at evs cls h = last_event cls h (line_entries ls).
Proof.
  intros Hls. exists (index_entries (line_entries ls)). split; [by apply scan_lines|].
  intros cls h. apply index_entries_last.
Qed.

(** An entry at a given time stamp. *)
Definition stamped (line : Z) (ts : string) (id : Z) (msg : message) : entry :=
  Entry line ts (match to_posix ts with Ok t => t | Raise _ => 0 end) id msg.

Definition example_entries : list entry :=
  [stamped 1 "2023-May-23 08:09:10.500000" 0 (Execute 7 60 1 7 0);
   stamped 2 "2023-May-23 08:09:11" 0 (SubmitBlockSubmitting 7 321 "00ab");
   stamped 3 "2023-May-23 08:09:12.250000" 0 (Execute 7 61 2 8 0)].

(** The log of a replica that was killed after the execution of the block 7. *)
Definition killed_log : string :=
  (entries_log example_entries ++ "2023-May-23 08:09:13 [INFO] Killed replica R0 at view V=1")%string.
Definition killed_node : NodeLog :=
  match make_node_log killed_log [] with Ok n => n | Raise _ => MkNodeLog EmptyString [] 0 [] end.

Example make_node_log_well_formed_witness :
  fault_height killed_node = 7
  /\ events_ok (events_by_type_by_height killed_node)
  /\ (fault_height killed_node = 0
      \/ fault_height killed_node ∈ dkeys (executes_by_height killed_node)
         /\ Forall (fun h => h <= fault_height killed_node) (dkeys (executes_by_height killed_node))).
Proof.
  split; [vm_compute; reflexivity|].
  apply (make_node_log_well_formed killed_log [] killed_node). vm_compute. reflexivity.
Defined.

Definition example_lines : list log_line :=
  Other "2023-May-23 08:09:10.1 [info] R0 started" :: (Row <$> example_entries) ++ [Other EmptyString].

Lemma example_lines_ok : Forall line_ok example_lines.
Proof.
  repeat constructor; cbn [example_entries stamped line ts time id msg]; try lia; vm_compute; reflexivity.
Qed.

Example parse_logs_complete_witness :
  exists evs, parse_logs (lines_log example_lines) = Ok evs
    /\ forall cls h, event_at evs cls h = last_event cls h (line_entries example_lines).
Proof. exact (parse_logs_complete example_lines example_lines_ok). Defined.
