(* ===== verification/NodeLogs.v ===== *)
(** * The logs of all the nodes (benchmark_framework/logs.py, class NodeLogs)

    Aggregation of the events of all the nodes: the earliest event of a class per
    height, leaving out the heights where some node has an event before the end of
    the warm-up; the start and the end of the run; the primary; the fault height. *)

From S2P Require Import Prelude PyStr PyInt PyFloat PyDict PyRegex PyTime LogEvents NodeLog.

Abbreviation NodeLogs := (list NodeLog).

(** [NodeLogs.no_view_change] *)
Definition primaries (logs : NodeLogs) : list nat :=
  omap (fun ip : nat * NodeLog => if is_primary ip.2 then Some ip.1 else None) (imap pair logs).

Definition no_view_change (logs : NodeLogs) : result bool :=
  let primary := primaries logs in
  _ ← py_assert (0 <? Z.of_nat (length primary));
  Ok (Z.of_nat (length primary) =? 1).

(** [NodeLogs.primary_logs] *)
Definition primary_logs (logs : NodeLogs) : result (option NodeLog) :=
  ok ← no_view_change logs;
  if negb ok then Ok None
  else primary_index ← or_raise IndexError (primaries logs !! 0%nat);
       node ← or_raise IndexError (logs !! primary_index);
       Ok (Some node).

(** [min] and [max] of the values of a generator: a [ValueError] when it is empty. *)
Definition py_min (xs : list Z) : result Z :=
  match xs with [] => Raise ValueError | x :: xs' => Ok (foldl Z.min x xs') end.
Definition py_max (xs : list Z) : result Z :=
  match xs with [] => Raise ValueError | x :: xs' => Ok (foldl Z.max x xs') end.

(** [NodeLogs.start]: the earliest time stamp of a request. *)
Definition start (logs : NodeLogs) : result float :=
  requests ← mapM requests_by_height logs;
  py_min (log_timestamp <$> (requests ≫= dvalues)).

(** [NodeLogs.end]: the latest time stamp of an execution. *)
Definition end_ (logs : NodeLogs) : result float :=
  py_max (log_timestamp <$> ((executes_by_height <$> logs) ≫= dvalues)).

(** The time an event counts from: the true request time of a request. *)
Definition event_time (log_event : log_event) : number :=
  match log_event with
  | ReceiveRequestsLog ts _ block_timestamp _ => true_request_time block_timestamp ts
  | _ => log_timestamp log_event
  end.

(** The body of the two loops, on the dictionary and the set of banned heights. *)
Definition earliest_step (not_before : number) (st : list (Z * log_event) * gset Z)
    (item : Z * log_event) : list (Z * log_event) * gset Z :=
  let '(result, banned_heights) := st in
  let '(height, log_event) := item in
  let log_timestamp_ := event_time log_event in
  let banned_heights := if log_timestamp_ <? not_before then {[height]} ∪ banned_heights else banned_heights in
  let result := if log_timestamp_ <? not_before
                then (if dmem height result then dpop height result else result) else result in
  let result :=
    if (not_before <=? log_timestamp_) && bool_decide (height ∉ banned_heights)
       && match dget height result with
          | None => true
          | Some best => log_timestamp log_event <? log_timestamp best
          end
    then dset height log_event result else result in
  (result, banned_heights).

(** The events of a class, node after node, in the order of the loops. *)
Definition events_of_class (logs : NodeLogs) (log_event_type : event_class) : list (Z * log_event) :=
  logs ≫= fun node_log => default [] (dget log_event_type (events_by_type_by_height node_log)).

(** [NodeLogs.get_earliest_log_event_by_height] *)
Definition get_earliest_log_event_by_height (logs : NodeLogs) (log_event_type : event_class)
    (not_before : number) : list (Z * log_event) :=
  (foldl (earliest_step not_before) ([], ∅) (events_of_class logs log_event_type)).1.

Definition get_earliest_requests_by_height (logs : NodeLogs) (not_before : number) :=
  get_earliest_log_event_by_height logs CReceiveRequestsLog not_before.
Definition get_earliest_executes_by_height (logs : NodeLogs) (not_before : number) :=
  get_earliest_log_event_by_height logs CExecuteActionLog not_before.
Definition get_earliest_preprepare_by_height (logs : NodeLogs) (not_before : number) :=
  get_earliest_log_event_by_height logs CSendPrePrepareLog not_before.
Definition get_earliest_start_submit_block_by_height (logs : NodeLogs) (not_before : number) :=
  get_earliest_log_event_by_height logs CStartSubmitBlock not_before.

(** [NodeLogs.get_fault_height] *)
Definition get_fault_height (logs : NodeLogs) : result Z :=
  let result := fault_height <$> logs in
  match result with
  | [] => Raise IndexError
  | first :: _ =>
      _ ← py_assert (forallb (fun x => (x =? first) || (x =? 0)) result);
      Ok first
  end.

(** ** Specification of the aggregation *)

(** The events of one height, in order. *)
Definition at_height (h : Z) (evs : list (Z * log_event)) : list log_event :=
  omap (fun p : Z * log_event => if decide (p.1 = h) then Some p.2 else None) evs.

(** The first of the events with the lowest time stamp. *)
Fixpoint first_lowest (best : log_event) (es : list log_event) : log_event :=
  match es with
  | [] => best
  | e :: es' => first_lowest (if log_timestamp e <? log_timestamp best then e else best) es'
  end.

(** No event of the height is before [not_before]: the first of the lowest; some
    event is: none. *)
Definition earliest_spec (not_before : number) (es : list log_event) : option log_event :=
  match es with
  | [] => None
  | e :: es' => if forallb (fun e => not_before <=? event_time e) es then Some (first_lowest e es') else None
  end.

Lemma at_height_app h l k : at_height h (l ++ k) = at_height h l ++ at_height h k.
Proof. apply omap_app. Qed.

Lemma first_lowest_app b l e :
  first_lowest b (l ++ [e]) =
  if log_timestamp e <? log_timestamp (first_lowest b l) then e else first_lowest b l.
Proof. revert b. induction l as [|x l IH]; intros b; simpl; [by case_match|apply IH]. Qed.

Lemma earliest_spec_snoc nb es e :
  earliest_spec nb (es ++ [e]) =
  if event_time e <? nb then None
  else match earliest_spec nb es with
       | Some best => Some (if log_timestamp e <? log_timestamp best then e else best)
       | None => if bool_decide (es = []) then Some e else None
       end.
Proof.
  destruct es as [|x es].
  - simpl. rewrite andb_true_r. destruct (Z.leb_spec nb (event_time e)), (Z.ltb_spec (event_time e) nb); lia || done.
  - rewrite bool_decide_false by done. unfold earliest_spec.
    rewrite <-app_comm_cons, app_comm_cons, forallb_app, first_lowest_app.
    destruct (forallb (fun e => nb <=? event_time e) (x :: es)); cbn [andb forallb];
      destruct (Z.leb_spec nb (event_time e)), (Z.ltb_spec (event_time e) nb); done || lia.
Qed.

(** The state of the loops after a list of events. *)
Definition loop_ok (nb : number) (evs : list (Z * log_event)) (st : list (Z * log_event) * gset Z) : Prop :=
  NoDup (dkeys st.1)
  /\ (forall h, dget h st.1 = earliest_spec nb (at_height h evs))
  /\ (forall h, h ∈ st.2 <-> exists e, e ∈ at_height h evs /\ event_time e < nb).

Lemma earliest_spec_None nb es :
  earliest_spec nb es = None <-> es = [] \/ exists e, e ∈ es /\ event_time e < nb.
Proof.
  destruct es as [|x es]; [simpl; naive_solver|]. unfold earliest_spec.
  destruct (forallb (fun e => nb <=? event_time e) (x :: es)) eqn:E.
  - rewrite forallb_forall in E. split; [done|]. intros [?|(e & He & Hlt)]; [done|].
    apply list_elem_of_In, E, Z.leb_le in He. lia.
  - split; [intros _; right|done]. apply not_true_iff_false in E. rewrite forallb_forall in E.
    destruct (decide (Exists (fun e => event_time e < nb) (x :: es))) as [He|He].
    + apply Exists_exists in He as (e & Hin & Hlt). by exists e.
    + destruct E. intros e Hin. apply Z.leb_le. apply not_Exists_Forall in He; [|apply _].
      rewrite Forall_forall in He. apply list_elem_of_In, He in Hin. cbn in Hin. lia.
Qed.

Lemma at_height_snoc h evs h' e :
  at_height h (evs ++ [(h', e)]) = if decide (h' = h) then at_height h evs ++ [e] else at_height h evs.
Proof. rewrite at_height_app. unfold at_height at 2. simpl. case_decide; [done|]. by rewrite app_nil_r. Qed.

(** An event before [not_before]: the height is banned and its event dropped. *)
Lemma earliest_step_early nb evs res banned h' e :
  loop_ok nb evs (res, banned) -> event_time e < nb ->
  loop_ok nb (evs ++ [(h', e)]) (dpop h' res, {[h']} ∪ banned).
Proof.
  intros (Hnd & Hget & Hban) Hlt. cbn [fst snd] in *.
  split; [by apply NoDup_dpop|]. cbn [fst snd]. split; intros h; rewrite at_height_snoc.
  - rewrite dget_dpop, Hget by done.
    destruct (decide (h = h')), (decide (h' = h)); try congruence.
    rewrite earliest_spec_snoc. apply Z.ltb_lt in Hlt. by rewrite Hlt.
  - rewrite elem_of_union, elem_of_singleton, Hban.
    destruct (decide (h' = h)) as [->|Hh]; [|set_solver].
    split; [intros _; exists e; split; [set_solver|done]|by left].
Qed.

(** A later event: the state only changes at its height. *)
Lemma earliest_step_late nb evs res banned h' e res' :
  loop_ok nb evs (res, banned) -> nb <= event_time e ->
  NoDup (dkeys res') ->
  (forall h, h <> h' -> dget h res' = dget h res) ->
  dget h' res' = earliest_spec nb (at_height h' evs ++ [e]) ->
  loop_ok nb (evs ++ [(h', e)]) (res', banned).
Proof.
  intros (Hnd & Hget & Hban) Hge Hnd' Hother Hh'. cbn [fst snd] in *.
  split; [done|]. cbn [fst snd]. split; intros h; rewrite at_height_snoc.
  - destruct (decide (h' = h)) as [->|Hh]; [done|]. rewrite Hother by congruence. apply Hget.
  - rewrite Hban. destruct (decide (h' = h)) as [->|Hh]; [|done].
    split; intros (x & Hx & Hlt); exists x; [set_solver|].
    apply elem_of_app in Hx as [Hx|Hx]; [done|]. apply list_elem_of_singleton in Hx as ->. lia.
Qed.

Lemma earliest_step_ok nb evs st item :
  loop_ok nb evs st -> loop_ok nb (evs ++ [item]) (earliest_step nb st item).
Proof.
  destruct st as [res banned], item as [h' e]. intros Hok. pose proof Hok as (Hnd & Hget & Hban).
  cbn [fst snd] in *. unfold earliest_step, dmem.
  destruct (Z.ltb_spec (event_time e) nb) as [Hlt|Hge].
  - assert ((nb <=? event_time e) = false) as -> by (apply Z.leb_gt; lia). cbn [andb].
    assert ((if match dget h' res with Some _ => true | None => false end then dpop h' res else res) = dpop h' res) as ->.
    { destruct (dget h' res) eqn:E; [done|]. by rewrite dpop_none. }
    by apply earliest_step_early.
  - assert ((nb <=? event_time e) = true) as -> by (by apply Z.leb_le). cbn [andb].
    assert ((event_time e <? nb) = false) as Hnb by (apply Z.ltb_ge; lia).
    apply (earliest_step_late nb evs res banned h' e); [done|done| | |].
    + case_match; auto with py.
    + intros h Hh. case_match; [by apply dget_dset_ne|done].
    + rewrite earliest_spec_snoc, Hnb, <-Hget.
      destruct (bool_decide_reflect (h' ∉ banned)) as [Hb|Hb]; cbn [andb].
      * destruct (dget h' res) as [best|] eqn:E.
        -- case_match; [by rewrite dget_dset_eq|by rewrite E].
        -- rewrite dget_dset_eq, bool_decide_true; [done|].
           rewrite Hget in E. apply earliest_spec_None in E as [?|E]; [done|]. by rewrite <-Hban in E.
      * apply dec_stable in Hb. rewrite Hban in Hb.
        assert (dget h' res = None) as E by (rewrite Hget; apply earliest_spec_None; by right).
        rewrite E, bool_decide_false; [done|]. destruct Hb as (x & Hx & _). intros Hnil. rewrite Hnil in Hx. set_solver.
Qed.

Lemma earliest_loop_ok nb evs : loop_ok nb evs (foldl (earliest_step nb) ([], ∅) evs).
Proof.
  induction evs as [|item evs IH] using rev_ind.
  - split; [constructor|]. split; intros h; [done|]. simpl. set_solver.
  - rewrite foldl_app. by apply earliest_step_ok.
Qed.

(** The events of class [cls] at height [h], node after node. *)
Definition class_events (logs : NodeLogs) (cls : event_class) (h : Z) : list log_event :=
  at_height h (events_of_class logs cls).

Lemma dget_earliest logs cls nb h :
  dget h (get_earliest_log_event_by_height logs cls nb) = earliest_spec nb (class_events logs cls h).
Proof. apply earliest_loop_ok. Qed.

Lemma earliest_keys_NoDup logs cls nb : NoDup (dkeys (get_earliest_log_event_by_height logs cls nb)).
Proof. apply earliest_loop_ok. Qed.

Lemma at_height_dict h d : NoDup (dkeys d) -> at_height h d = match dget h d with Some e => [e] | None => [] end.
Proof.
  induction d as [|[k e] d IH]; [done|]. unfold dkeys. cbn [fmap list_fmap fst]. intros [Hk Hnd]%NoDup_cons.
  change (at_height h ((k, e) :: d))
    with (match (if decide (k = h) then Some e else None) with Some x => x :: at_height h d | None => at_height h d end).
  rewrite IH by done. cbn [dget]. destruct (decide (k = h)) as [Ek|Hne], (decide (h = k)) as [E|E]; try congruence. subst k.
  destruct (dget h d) as [e'|] eqn:E'; [|done]. exfalso. apply Hk. apply list_elem_of_fmap.
  exists (h, e'). split; [done|]. by apply dget_Some_elem.
Qed.

(** The nodes whose logs are made of lines: what the aggregation looks at is the last
    message of the class and the height in each log. *)
Definition scanned_from (ls : list log_line) (n : NodeLog) : Prop :=
  events_by_type_by_height n = index_entries (line_entries ls) /\ events_ok (events_by_type_by_height n).
Definition messages_at (cls : event_class) (h : Z) (lines : list (list log_line)) : list log_event :=
  omap (fun ls => last_event cls h (line_entries ls)) lines.

Lemma class_events_messages lines logs cls h :
  Forall2 scanned_from lines logs -> class_events logs cls h = messages_at cls h lines.
Proof.
  unfold class_events, events_of_class, messages_at. induction 1 as [|ls n lines logs [Hev Hok] _ IH]; [done|].
  cbn [mbind list_bind]. rewrite at_height_app, IH. cbn [omap list_omap].
  rewrite <-index_entries_last. unfold event_at. rewrite <-Hev.
  destruct (dget cls (events_by_type_by_height n)) as [d|] eqn:E; cbn [default from_option id mbind option_bind]; [|done].
  rewrite at_height_dict by (by apply (Hok _ _ E)).
  change (Datatypes.id d) with d. by destruct (dget h d).
Qed.

Lemma parse_nodes_scanned ls cfg n :
  Forall line_ok ls -> make_node_log (lines_log ls) cfg = Ok n -> scanned_from ls n.
Proof.
  intros Hls Hn. unfold make_node_log in Hn. inv_ok. subst n. unfold scanned_from. cbn [events_by_type_by_height].
  match goal with H : parse_logs _ = Ok _ |- _ => pose proof (parse_logs_ok _ _ H); rewrite (scan_lines ls Hls) in H; by injection H as <- end.
Qed.

Lemma first_lowest_spec b es :
  first_lowest b es ∈ b :: es
  /\ Forall (fun e => log_timestamp (first_lowest b es) <= log_timestamp e) (b :: es).
Proof.
  revert b. induction es as [|e es IH]; intros b; cbn [first_lowest].
  - split; [by left|]. by repeat constructor.
  - destruct (IH (if log_timestamp e <? log_timestamp b then e else b)) as [Hin Hall].
    rewrite !Forall_cons in *. destruct (Z.ltb_spec (log_timestamp e) (log_timestamp b)) as [H|H].
    + split; [set_solver|]. destruct Hall. split; [lia|]. by split.
    + split; [set_solver|]. destruct Hall. split; [done|]. split; [lia|done].
Qed.

(** The lowest time stamp is also the lowest true request time when the requests of
    the height agree on the time stamp of the block. *)
Definition same_block_timestamp (bt : Z) (e : log_event) : bool :=
  match e with ReceiveRequestsLog _ _ block_timestamp _ => block_timestamp =? bt | _ => false end.

Lemma event_time_mono bt e e' :
  same_block_timestamp bt e = true -> same_block_timestamp bt e' = true ->
  log_timestamp e <= log_timestamp e' -> event_time e <= event_time e'.
Proof.
  destruct e as [t r b h| | | | | | | |], e' as [t' r' b' h'| | | | | | | |]; try done.
  cbn [same_block_timestamp event_time]. intros ->%Z.eqb_eq ->%Z.eqb_eq.
  unfold true_request_time, log_timestamp. cbn [log_event_height_timestamp]. lia.
Qed.

(** The events are no requests, or requests of one block time stamp. *)
Definition is_request (e : log_event) : bool := match e with ReceiveRequestsLog _ _ _ _ => true | _ => false end.
Definition one_block (es : list log_event) : Prop :=
  Forall (fun e => is_request e = false) es \/ exists bt, Forall (fun e => same_block_timestamp bt e = true) es.

Lemma one_block_mono es e e' :
  one_block es -> e ∈ es -> e' ∈ es -> log_timestamp e <= log_timestamp e' -> event_time e <= event_time e'.
Proof.
  intros [H|[bt H]] He He' Hle; rewrite Forall_forall in H.
  - pose proof (H _ He). pose proof (H _ He'). by destruct e, e'.
  - apply (event_time_mono bt); auto.
Qed.

(** C29: The time of an event is its time stamp, and the true request time for a request.
    When the requests of a height name one block time stamp, the aggregation has an event
    for the height exactly when some node has an event of the class there and the time of
    every one of them is [not_before] or later; that event is one of them, and none has a
    lower time.  (Requests of one height with different block time stamps are the case of
    [earliest_request_not_lowest].) *)
Theorem get_earliest_spec logs cls not_before h :
  one_block (class_events logs cls h) ->
  match dget h (get_earliest_log_event_by_height logs cls not_before) with
  | Some e => e ∈ class_events logs cls h
              /\ (forall e', e' ∈ class_events logs cls h -> not_before <= event_time e' /\ event_time e <= event_time e')
  | None => class_events logs cls h = []
            \/ exists e, e ∈ class_events logs cls h /\ event_time e < not_before
  end.
Proof.
  intros Hone. rewrite dget_earliest. destruct (earliest_spec _ _) as [e|] eqn:E.
  - unfold earliest_spec in E. destruct (class_events logs cls h) as [|x es]; [done|].
    destruct (forallb (fun e => not_before <=? event_time e) (x :: es)) eqn:Ef; [|done].
    injection E as <-. destruct (first_lowest_spec x es) as [Hin Hall]. split; [done|].
    intros e' He'. rewrite forallb_forall in Ef. rewrite Forall_forall in Hall.
    split; [apply Z.leb_le, Ef, list_elem_of_In, He'|]. eapply one_block_mono; eauto.
  - by apply earliest_spec_None.
Qed.

(** The request kept for a height has the lowest true request time of the
    height, provided the nodes agree on the time stamp of the block requested. *)
Theorem earliest_request_true_time logs not_before h bt e :
  Forall (fun e' => same_block_timestamp bt e' = true) (class_events logs CReceiveRequestsLog h) ->
  dget h (get_earliest_requests_by_height logs not_before) = Some e ->
  Forall (fun e' => event_time e <= event_time e') (class_events logs CReceiveRequestsLog h).
Proof.
  intros Hbt He. unfold get_earliest_requests_by_height in He. rewrite dget_earliest in He.
  unfold earliest_spec in He. destruct (class_events logs CReceiveRequestsLog h) as [|x es]; [done|].
  destruct (forallb _ (x :: es)); [|done]. injection He as <-.
  destruct (first_lowest_spec x es) as [Hin Hall]. rewrite Forall_forall in *.
  intros e' He'. apply (event_time_mono bt); auto.
Qed.

(** *** The other aggregations *)

Lemma py_min_spec xs m : py_min xs = Ok m <-> m ∈ xs /\ Forall (fun x => m <= x) xs.
Proof.
  destruct xs as [|x xs]; simpl; [set_solver|]. pose proof (foldl_min_spec x xs) as H. split.
  - by intros [= <-].
  - intros [Hin Hall]. f_equal. destruct H as [Hin' Hall']. rewrite Forall_forall in *.
    specialize (Hall _ Hin'). specialize (Hall' _ Hin). lia.
Qed.

Lemma py_max_spec xs m : py_max xs = Ok m <-> m ∈ xs /\ Forall (fun x => x <= m) xs.
Proof.
  destruct xs as [|x xs]; simpl; [set_solver|]. pose proof (foldl_max_spec x xs) as H. split.
  - by intros [= <-].
  - intros [Hin Hall]. f_equal. destruct H as [Hin' Hall']. rewrite Forall_forall in *.
    specialize (Hall _ Hin'). specialize (Hall' _ Hin). lia.
Qed.

Lemma primaries_go logs k :
  omap (fun ip : nat * NodeLog => if is_primary ip.2 then Some ip.1 else None) (imap (fun i => pair (k + i)%nat) logs)
  = match logs with
    | [] => []
    | n :: logs' => (if is_primary n then [k] else []) ++
        omap (fun ip : nat * NodeLog => if is_primary ip.2 then Some ip.1 else None)
             (imap (fun i => pair (S k + i)%nat) logs')
    end.
Proof.
  destruct logs as [|n logs]; [done|]. simpl. rewrite Nat.add_0_r.
  assert (imap ((fun i : nat => pair (k + i)%nat) ∘ S) logs = imap (fun i => pair (S (k + i))) logs) as ->.
  { apply imap_ext. intros i x _. simpl. by rewrite Nat.add_succ_r. }
  by destruct (is_primary n).
Qed.

Lemma primaries_no_primary logs k :
  omap (fun ip : nat * NodeLog => if is_primary ip.2 then Some ip.1 else None) (imap (fun i => pair (k + i)%nat) logs) = []
  <-> Forall (fun n => is_primary n = false) logs.
Proof.
  revert k. induction logs as [|n logs IH]; intros k; [done|]. rewrite primaries_go, Forall_cons, <-(IH (S k)).
  destruct (is_primary n); naive_solver.
Qed.

(** One primary: the node of that index, and no other. *)
Lemma primaries_one logs k i :
  omap (fun ip : nat * NodeLog => if is_primary ip.2 then Some ip.1 else None) (imap (fun i => pair (k + i)%nat) logs) = [i] ->
  exists pre n post, logs = pre ++ n :: post /\ i = (k + length pre)%nat /\ is_primary n = true
    /\ Forall (fun n => is_primary n = false) (pre ++ post).
Proof.
  revert k. induction logs as [|n logs IH]; intros k; [done|]. rewrite primaries_go.
  destruct (is_primary n) eqn:En; cbn [app].
  - intros [= <- H]. apply (primaries_no_primary logs (S k)) in H.
    exists [], n, logs. rewrite Nat.add_0_r. auto.
  - intros (pre & n' & post & -> & -> & Hn' & Hall)%IH. exists (n :: pre), n', post. simpl.
    split; [done|]. split; [lia|]. split; [done|]. by constructor.
Qed.

(** The logs of the primary are those of the only node that executed a block;
    there are none when a second node did, and an error when no node did. *)
Theorem primary_logs_spec logs :
  match primary_logs logs with
  | Ok (Some n) => exists pre post, logs = pre ++ n :: post /\ is_primary n = true
                     /\ Forall (fun n' => is_primary n' = false) (pre ++ post)
  | Ok None => (2 <= length (primaries logs))%nat
  | Raise e => e = AssertionError /\ Forall (fun n => is_primary n = false) logs
  end.
Proof.
  unfold primary_logs, no_view_change. destruct (primaries logs) as [|i [|j js]] eqn:E; cbn.
  - split; [done|]. by apply (primaries_no_primary logs 0).
  - destruct (primaries_one logs 0 i E) as (pre & n & post & -> & -> & Hn & Hall). simpl.
    rewrite list_lookup_middle by done. simpl. exists pre, post. auto.
  - assert ((Z.of_nat (S (S (length js))) =? 1) = false) as -> by (apply Z.eqb_neq; lia). simpl. lia.
Qed.

(** The fault height is that of the first node, and an error when there is no
    node or some node has another height than the first one and zero. *)
Theorem get_fault_height_spec logs f :
  get_fault_height logs = Ok f <->
  (exists n logs', logs = n :: logs' /\ fault_height n = f)
  /\ Forall (fun n => fault_height n = f \/ fault_height n = 0) logs.
Proof.
  unfold get_fault_height. destruct logs as [|n logs]; cbn [fmap list_fmap]; [naive_solver|].
  assert (forall b, (_ ← py_assert b; Ok (fault_height n)) = Ok f <-> b = true /\ fault_height n = f) as ->
    by (intros []; naive_solver).
  rewrite forallb_forall, Forall_forall. split.
  - intros [H <-]. split; [by exists n, logs|]. intros x Hx. specialize (H (fault_height x)).
    rewrite orb_true_iff, !Z.eqb_eq in H. apply H, list_elem_of_In. set_solver.
  - intros [(n1 & logs1 & [= <- <-] & Hf) Hall]. split; [|done]. intros x Hx.
    rewrite orb_true_iff, !Z.eqb_eq. apply list_elem_of_In in Hx.
    change (fault_height n :: (fault_height <$> logs)) with (fault_height <$> n :: logs) in Hx.
    apply list_elem_of_fmap in Hx as (m & -> & Hm). rewrite Hf. auto.
Qed.

(** A node whose only events are requests of one block. *)
Definition request_node (height block_timestamp : Z) (time : float) (replica : Z) : NodeLog :=
  MkNodeLog EmptyString
    [(CReceiveRequestsLog, [(height, ReceiveRequestsLog time replica block_timestamp height)])] 0 [].

Example get_earliest_spec_witness :
  let logs := [request_node 5 20 (of_int 22) 0; request_node 5 20 (of_int 21) 1] in
  match dget 5 (get_earliest_log_event_by_height logs CReceiveRequestsLog 0) with
  | Some e => e ∈ class_events logs CReceiveRequestsLog 5
              /\ (forall e', e' ∈ class_events logs CReceiveRequestsLog 5 -> 0 <= event_time e' /\ event_time e <= event_time e')
  | None => class_events logs CReceiveRequestsLog 5 = []
            \/ exists e, e ∈ class_events logs CReceiveRequestsLog 5 /\ event_time e < 0
  end.
Proof.
  intros logs. apply (get_earliest_spec logs CReceiveRequestsLog 0 5). right. exists 20. repeat constructor.
Defined.

Example earliest_request_true_time_witness :
  Forall (fun e' => event_time (ReceiveRequestsLog (of_int 21) 1 20 5) <= event_time e')
    (class_events [request_node 5 20 (of_int 22) 0; request_node 5 20 (of_int 21) 1] CReceiveRequestsLog 5).
Proof.
  apply (earliest_request_true_time [request_node 5 20 (of_int 22) 0; request_node 5 20 (of_int 21) 1] 0 5 20);
    [repeat constructor|vm_compute; reflexivity].
Defined.

(** The comparison is on the time stamps of the rows: with another block time stamp
    at a second node, the request kept is not the one of the lowest true request time. *)
Lemma earliest_request_not_lowest :
  let logs := [request_node 5 20 (of_int 10) 0; request_node 5 11 (of_int 11) 1] in
  exists e e', dget 5 (get_earliest_requests_by_height logs 0) = Some e
    /\ e' ∈ class_events logs CReceiveRequestsLog 5 /\ event_time e' < event_time e.
Proof.
  exists (ReceiveRequestsLog (of_int 10) 0 20 5), (ReceiveRequestsLog (of_int 11) 1 11 5).
  split; [vm_compute; reflexivity|]. split; [right; left|vm_compute; reflexivity].
Qed.
