(* ===== verification/Naming.v ===== *)
(** * Names, paths and commands (benchmark_framework/utils.py, paths.py, commands.py)

    The names of the directories of the nodes, whose alphabetical order the parser
    of the logs relies on, the quorums, and the texts of the shell commands. *)

From S2P Require Import Prelude PyStr PyInt PyFloat PySort.

(** ** Quorums (utils.py) *)

Definition byzantine_quorum (N : Z) : result Z :=
  x ← truediv (N - 1) 3;
  let F := ffloor x in
  Ok (2 * F + 1).

Definition byzantine_replies_quorum (N : Z) : result Z :=
  x ← truediv (N - 1) 3;
  let F := ffloor x in
  Ok (F + 1).

(** ** Names (utils.py) *)

Inductive NodeType : Type := VALIDATOR | CLIENT.

Definition get_dirname (t : NodeType) : string :=
  match t with CLIENT => "client" | VALIDATOR => "node" end.

(** [add_zeros_prefix]: the width is that of the greatest number. *)
Definition add_zeros_prefix (n max_n : Z) : string :=
  let max_nb_digits := String.length (str_of_Z (Z.max (max_n - 1) 0)) in
  fmt0 max_nb_digits n.

Definition get_node_dirname (node_id : Z) (node_type : NodeType) (total_nb_nodes : Z) : string :=
  (get_dirname node_type ++ "-" ++ add_zeros_prefix node_id total_nb_nodes)%string.

(** ** Paths (paths.py) *)

Definition REMOTE_HOME : string := "/home/ubuntu".
Definition REMOTE_ITCOIN_FBFT_PATH : string := REMOTE_HOME ++ "/itcoin-fbft".
Definition REMOTE_ITCOIN_FBFT_BENCHMARK_PATH : string := REMOTE_ITCOIN_FBFT_PATH ++ "/benchmark".

Definition build_path : string := "../build".
Definition logs_path : string := "logs".
Definition output_path : string := "datadirs".
Definition benchmark_path : string := "benchmark".
Definition plots_path : string := "plots".
Definition remote_itcoin_fbft_path : string := REMOTE_ITCOIN_FBFT_PATH.
Definition remote_benchmark_path : string := REMOTE_ITCOIN_FBFT_BENCHMARK_PATH.
Definition bitcoin_path : string := REMOTE_ITCOIN_FBFT_PATH ++ "/build/usrlocal/bin".
Definition itcoin_core_test_framework_path : string :=
  REMOTE_ITCOIN_FBFT_PATH ++
  "/build/thirdparty/_itcoin-core-external-project-prefix/src/_itcoin-core-external-project/test/functional/test_framework/__init__.py".

Definition node_logs_path (node_name : string) : string := ("logs/" ++ node_name)%string.

Definition get_local_datadir (node_name : Z) (node_type : NodeType) (nb_nodes : Z) : string :=
  (output_path ++ "/" ++ get_node_dirname node_name node_type nb_nodes)%string.

Definition get_remote_datadir (node_name : Z) (node_type : NodeType) (nb_nodes : Z) : string :=
  (remote_benchmark_path ++ "/" ++ output_path ++ "/" ++ get_node_dirname node_name node_type nb_nodes)%string.

Definition miner_log_file (i nb_validators : Z) : result string :=
  _ ← py_assert (0 <=? i);
  Ok (node_logs_path (get_node_dirname i VALIDATOR nb_validators ++ "/miner_logs.txt")).

Definition client_log_file (i nb_clients : Z) : result string :=
  _ ← py_assert (0 <=? i);
  Ok (node_logs_path (get_node_dirname i CLIENT nb_clients ++ "/client_logs.txt")).

(** The names of the CSV files at a date. *)
Definition date_text (day month year : Z) : string :=
  (fixed_width 2 day ++ "-" ++ fixed_width 2 month ++ "-" ++ str_of_Z year)%string.
Definition csv_result_file (day month year : Z) : string := ("bench-" ++ date_text day month year ++ ".csv")%string.
Definition csv_by_height_result_file (day month year : Z) : string :=
  ("bench-" ++ date_text day month year ++ "-by-height.csv")%string.

(** ** Commands (commands.py) *)

Definition TMUX_SESSION_NAME : string := "itcoin-testing-session".
Definition REMOTE_PYTHON : string := "python3".

Section Commands.
(** [sys.executable] and [ITCOIN_CORE_PATH], the place of the other repository. *)
Variables (executable itcoin_core_path : string).

Definition cmake (options : string) : string := ("cmake " ++ options ++ " ..")%string.
Definition compile (options : string) : string := ("make " ++ options)%string.
Definition clean_logs : string := ("rm -fr " ++ logs_path)%string.
Definition clean_output : string := ("rm -fr " ++ output_path)%string.
Definition clean_plots : string := ("rm -fr " ++ plots_path)%string.
Definition mk_log_dir : string := ("mkdir -p " ++ logs_path)%string.
Definition mk_node_log_dir (node_name : string) : string := ("mkdir -p " ++ logs_path ++ "/" ++ node_name)%string.

Definition mk_node_log_dirs (nodes clients : Z) : string :=
  (join "; " ((fun index => mk_node_log_dir (get_node_dirname index VALIDATOR nodes)) <$> range nodes)
   ++ "; " ++ join "; " ((fun index => mk_node_log_dir (get_node_dirname index CLIENT clients)) <$> range clients))%string.

Definition setup_signet (options : string) : string := (executable ++ " ./setup-signet.py " ++ options)%string.

(** The four scripts of the nodes, from this machine or from a remote one. *)
Definition run_script (script options : string) (run_remotely : bool) : string :=
  ((if run_remotely then REMOTE_PYTHON ++ " " ++ remote_benchmark_path else executable ++ " .")
   ++ "/" ++ script ++ " " ++ options)%string.
Definition run_signet : string -> bool -> string := run_script "run-signet.py".
Definition run_donor : string -> bool -> string := run_script "run-donor.py".
Definition run_client : string -> bool -> string := run_script "run-client.py".
Definition run_replicas : string -> bool -> string := run_script "run-replicas.py".

Definition create_tmux_session : string := ("tmux new -d -s " ++ TMUX_SESSION_NAME)%string.
Definition kill_tmux_session : string := ("tmux kill-session -t " ++ TMUX_SESSION_NAME)%string.

Definition kill_bitcoind (id : Z) (node_type : NodeType) (nb_of_type : Z) (run_remotely : bool) : string :=
  let datadir := if run_remotely then get_remote_datadir id node_type nb_of_type
                 else get_local_datadir id node_type nb_of_type in
  let bitcoin_cli := if run_remotely then (bitcoin_path ++ "/bitcoin-cli")%string
                     else (itcoin_core_path ++ "/src/bitcoin-cli")%string in
  (bitcoin_cli ++ " -datadir=" ++ datadir ++ " stop")%string.
End Commands.

(** ** Quorums: the floor of the float is exact *)

Lemma ffloor_third n : 0 <= n < 2 ^ 50 -> ffloor (round_frac (n * one) 3) = n / 3.
Proof.
  intros Hn. pose proof one_pos as Hone. unfold ffloor.
  pose proof (Z.div_mod n 3 ltac:(lia)) as Hdm. pose proof (Z.mod_pos_bound n 3 ltac:(lia)) as Hr.
  set (q := n / 3) in *. set (r := n mod 3) in *.
  destruct (Z.eq_dec r 0) as [Hr0|Hr0].
  - replace (n * one) with (q * one * 3) by lia. rewrite <-(Z.mul_1_l 3) at 2.
    rewrite round_frac_scale by lia. change (round_frac (q * one) 1) with (of_int q).
    rewrite of_int_exact by lia. apply Z.div_mul. lia.
  - pose proof (round_frac_bound (n * one) 3 ltac:(lia)) as Hb.
    set (e := ulp_exp _) in *. assert (3 * 2 ^ e < one) as He.
    { assert (e <= 1124 - 53) as He.
      { apply ulp_exp_le; [|lia]. rewrite Z.abs_eq by nia. split; [apply Z.div_pos; nia|].
        apply Z.div_lt_upper_bound; [lia|]. replace (2 ^ 1124) with (2 ^ 50 * one).
        - nia.
        - rewrite (one_split 1074), Z.sub_diag, Z.pow_0_r, Z.mul_1_r, <-Z.pow_add_r by lia. f_equal. }
      assert (2 ^ e <= 2 ^ 1071) by (apply Z.pow_le_mono_r; lia).
      rewrite (one_split 1071) by lia. change (2 ^ (1074 - 1071)) with 8. lia. }
    symmetry. apply (Z.div_unique _ _ _ (round_frac (n * one) 3 - q * one)); [left|lia]. nia.
Qed.

(** C35: Up to 2^50 nodes the quorums are 2F+1 and F+1 for F = (N-1)/3, with no
    error from the floats.  A quorum can be reached when F nodes do not answer, and
    F+1 replies contain one of a correct node; two quorums have more than F nodes in
    common exactly when N = 3F+1. *)
Theorem byzantine_quorum_spec N :
  1 <= N <= 2 ^ 50 ->
  let F := (N - 1) / 3 in
  exists q r, byzantine_quorum N = Ok q /\ byzantine_replies_quorum N = Ok r
    /\ q = 2 * F + 1 /\ r = F + 1 /\ 0 <= F /\ 3 * F + 1 <= N /\ q <= N - F
    /\ (F < q + q - N <-> N mod 3 = 1).
Proof.
  intros HN F. unfold byzantine_quorum, byzantine_replies_quorum, truediv, div_units. cbn [Z.eqb Z.ltb Z.compare mbind result_bind].
  change (0 <? 3) with true. cbn [mbind result_bind]. rewrite ffloor_third by lia. fold F.
  exists (2 * F + 1), (F + 1). pose proof (Z.div_mod (N - 1) 3 ltac:(lia)). pose proof (Z.mod_pos_bound (N - 1) 3 ltac:(lia)).
  fold F in H. assert (0 <= F) by (apply Z.div_pos; lia).
  repeat split; try lia; intros; (Z.div_mod_to_equations; lia).
Qed.

(** ** Names: the alphabetical order is the order of the numbers *)

Lemma add_zeros_prefix_width n max_n :
  0 <= n < max_n -> add_zeros_prefix n max_n = fixed_width (ndigits (max_n - 1)) n.
Proof.
  intros Hn. unfold add_zeros_prefix, fmt0. rewrite (proj2 (Z.ltb_ge n 0)) by lia.
  rewrite str_of_Z_nonneg, fixed_width_length, Z.max_l by lia. f_equal.
  pose proof (ndigits_mono n (max_n - 1) ltac:(lia)). lia.
Qed.

Lemma str_compare_suffix (a b s : string) :
  String.length a = String.length b -> a <> b -> String.compare (a ++ s) (b ++ s) = String.compare a b.
Proof.
  revert b. induction a as [|c a IH]; intros [|d b] Hl Hne; try done. cbn [String.append String.compare].
  destruct (Ascii.compare c d) eqn:E; try done. apply Ascii.compare_eq_iff in E as ->.
  apply IH; [cbn in Hl; lia|congruence].
Qed.

Lemma pow10_ndigits n : 0 <= n -> n < 10 ^ Z.of_nat (ndigits n).
Proof. intros H. by apply ndigits_spec. Qed.

(** Two names of directories, inside the same path. *)
Lemma get_node_dirname_compare p s i j t max_n :
  0 <= i < max_n -> 0 <= j < max_n ->
  String.compare (p ++ get_node_dirname i t max_n ++ s) (p ++ get_node_dirname j t max_n ++ s) = (i ?= j).
Proof.
  intros Hi Hj. unfold get_node_dirname. rewrite !add_zeros_prefix_width by done.
  rewrite <-!str_app_assoc, !str_compare_app.
  assert (max_n - 1 < 10 ^ Z.of_nat (ndigits (max_n - 1))) by (apply pow10_ndigits; lia).
  destruct (Z.eq_dec i j) as [->|Hne].
  - rewrite Z.compare_refl. apply str_compare_refl.
  - rewrite str_compare_suffix; [apply fixed_width_compare; lia|by rewrite !fixed_width_length|].
    intros Heq. apply Hne. apply (fixed_width_inj (ndigits (max_n - 1))); [lia|lia|done].
Qed.

(** The paths of the logs of the nodes, as [glob] gives them in some order. *)
Definition log_paths (run_directory file : string) (t : NodeType) (nb : Z) : list string :=
  (fun i => (run_directory ++ "/" ++ get_node_dirname i t nb ++ "/" ++ file)%string) <$> range nb.

Lemma log_paths_Sorted dir file t nb : Sorted (fun a b => str_le a b = true) (log_paths dir file t nb).
Proof.
  unfold log_paths, range. assert (forall k n, 0 <= k -> k + Z.of_nat n <= nb ->
    Sorted (fun a b => str_le a b = true)
      ((fun i => (dir ++ "/" ++ get_node_dirname i t nb ++ "/" ++ file)%string) <$> seqZ k (Z.of_nat n))) as H.
  { intros k n. revert k. induction n as [|n IH]; intros k Hk Hn; [constructor|].
    rewrite seqZ_cons by lia. replace (Z.pred (Z.of_nat (S n))) with (Z.of_nat n) by lia. cbn [fmap list_fmap].
    constructor; [apply IH; lia|]. destruct n as [|n]; [constructor|]. rewrite seqZ_cons by lia. constructor.
    unfold str_le. rewrite !(str_app_assoc dir "/"), get_node_dirname_compare by lia.
    by rewrite (proj2 (Z.compare_lt_iff k (Z.succ k))) by lia. }
  destruct (Z.le_gt_cases nb 0).
  - unfold seqZ. rewrite Z2Nat.nonpos by lia. constructor.
  - rewrite <-(Z2Nat.id nb) by lia. rewrite <-(Z2Nat.id nb) in H by lia. apply H; lia.
Qed.

(** Sorting the paths of the logs of the nodes alphabetically, in whatever order
    the file system lists them, puts the node of number [i] at index [i]: "sorted
    works because of alphanumerical ordering".  Different nodes have different
    directories. *)
Theorem sorted_log_paths run_directory file t nb paths :
  paths ≡ₚ log_paths run_directory file t nb ->
  sorted str_le paths = log_paths run_directory file t nb
  /\ (forall i, 0 <= i < nb ->
        sorted str_le paths !! Z.to_nat i = Some (run_directory ++ "/" ++ get_node_dirname i t nb ++ "/" ++ file)%string)
  /\ NoDup paths.
Proof.
  intros Hp. assert (sorted str_le paths = log_paths run_directory file t nb) as E
    by (apply sorted_strings; [done|apply log_paths_Sorted]).
  split; [done|]. split.
  - intros i Hi. rewrite E. unfold log_paths, range. rewrite list_lookup_fmap.
    rewrite lookup_seqZ_lt by lia. by rewrite Z2Nat.id by lia.
  - rewrite Hp. unfold log_paths, range. apply NoDup_fmap_2_strong; [|apply NoDup_seqZ].
    intros i j Hi%elem_of_seqZ Hj%elem_of_seqZ Hij. apply Z.compare_eq_iff.
    rewrite <-(get_node_dirname_compare (run_directory ++ "/") ("/" ++ file) i j t nb) by lia.
    rewrite <-!str_app_assoc, Hij. apply str_compare_refl.
Qed.

(** ** Witnesses *)

Example byzantine_quorum_spec_witness :
  let F := (7 - 1) / 3 in
  exists q r, byzantine_quorum 7 = Ok q /\ byzantine_replies_quorum 7 = Ok r
    /\ q = 2 * F + 1 /\ r = F + 1 /\ 0 <= F /\ 3 * F + 1 <= 7 /\ q <= 7 - F
    /\ (F < q + q - 7 <-> 7 mod 3 = 1).
Proof. apply (byzantine_quorum_spec 7). lia. Defined.

(** Six nodes: two quorums of three nodes without a common node. *)
Lemma byzantine_quorum_disjoint : byzantine_quorum 6 = Ok 3.
Proof. vm_compute. reflexivity. Qed.

Example sorted_log_paths_witness :
  sorted str_le (reverse (log_paths "out/0" "miner_logs.txt" VALIDATOR 12)) = log_paths "out/0" "miner_logs.txt" VALIDATOR 12
  /\ (forall i, 0 <= i < 12 ->
        sorted str_le (reverse (log_paths "out/0" "miner_logs.txt" VALIDATOR 12)) !! Z.to_nat i
        = Some ("out/0" ++ "/" ++ get_node_dirname i VALIDATOR 12 ++ "/" ++ "miner_logs.txt")%string)
  /\ NoDup (reverse (log_paths "out/0" "miner_logs.txt" VALIDATOR 12)).
Proof.
  apply (sorted_log_paths "out/0" "miner_logs.txt" VALIDATOR 12). apply reverse_Permutation.
Defined.
