(* ===== verification/Fields.v ===== *)
(** * Typed fields of the configuration (benchmark_framework/utils.py)

    The descriptors [CustomField], [Int], [Float], [Bool] and [ConvertToSet], and
    [BaseParameters], the dataclass that is read from a dictionary.  An instance is
    its [__dict__]; a class is the list of its fields. *)

From S2P Require Import Prelude PyStr PyFloat PyDict.

(** ** Python values of a JSON document *)
Inductive pyval : Type :=
  | VNone
  | VBool (b : bool)
  | VInt (n : Z)
  | VFloat (x : float)
  | VStr (s : string)
  | VList (l : list pyval)
  | VDict (d : list (string * pyval)).

Definition is_none (v : pyval) : bool := match v with VNone => true | _ => false end.

(** The integer a value is, a [bool] being an [int]. *)
Definition as_int (v : pyval) : option Z :=
  match v with VInt n => Some n | VBool b => Some (if b then 1 else 0) | _ => None end.

(** [len] and [in range(0, n)] of the validators; a value that is no integer is not in it. *)
Definition in_range (v : pyval) (n : Z) : bool :=
  match as_int v with Some i => (0 <=? i) && (i <? n) | None => false end.

Inductive field_type : Type := TBool | TInt | TFloat.

Definition isinstance (v : pyval) (t : field_type) : bool :=
  match t, v with
  | TBool, VBool _ => true
  | TInt, (VInt _ | VBool _) => true
  | TFloat, VFloat _ => true
  | _, _ => false
  end.

(** ** [CustomField] *)

(** The [__dict__] of an object. *)
Abbreviation instance := (list (string * pyval)).

(** [FieldValidator]: called with the object and the value, for its exception. *)
Definition FieldValidator : Type := instance -> pyval -> result unit.

(** [f_default] is [None] for [MISSING]. *)
Record CustomField : Type := MkField {
  f_name : string;
  f_type : field_type;
  f_default : option pyval;
  f_validators : list FieldValidator;
  f_nullable : bool }.

Definition attr_name (f : CustomField) : string := ("_" ++ f_name f)%string.

(** [CustomField.__init__] (and [__set_name__]). *)
Definition make_field (name : string) (type : field_type) (default : option pyval)
    (validators : list FieldValidator) (is_nullable : bool) : result CustomField :=
  _ ← ensure (match default with Some VNone => is_nullable | _ => true end) ValueError;
  _ ← ensure (match default with
              | None | Some VNone => true
              | Some v => isinstance v type
              end) ValueError;
  Ok (MkField name type default validators is_nullable).

(** [__get__] on an object. *)
Definition get_field (f : CustomField) (obj : instance) : result pyval :=
  let result := match dget (attr_name f) obj with Some v => Some v | None => f_default f end in
  _ ← ensure (match result with Some VNone => f_nullable f | _ => true end) ValueError;
  or_raise ValueError result.

Definition check_isinstance (f : CustomField) (value : pyval) : result unit :=
  ensure (is_none value || isinstance value (f_type f)) ValueError.

Definition validate (f : CustomField) (obj : instance) (value : pyval) : result unit :=
  foldM (fun _ validator => validator obj value) tt (f_validators f).

(** [Float.__set__] converts the integers. *)
Definition convert (t : field_type) (value : pyval) : result pyval :=
  match t, as_int value with
  | TFloat, Some n => x ← float_of_int n; Ok (VFloat x)
  | _, _ => Ok value
  end.

(** [__set__] *)
Definition set_field (f : CustomField) (obj : instance) (value : pyval) : result instance :=
  value ← convert (f_type f) value;
  _ ← check_isinstance f value;
  _ ← validate f obj value;
  Ok (dset (attr_name f) value obj).

(** [Int._check_min] and [Int._check_max] *)
Definition check_min (min_value : Z) : FieldValidator := fun _ value =>
  ensure (match as_int value with Some n => min_value <=? n | None => true end) ValueError.
Definition check_max (max_value : Z) : FieldValidator := fun _ value =>
  ensure (match as_int value with Some n => n <=? max_value | None => true end) ValueError.

Definition Int (name : string) (default : option pyval) (min_value max_value : option Z)
    (validators : list FieldValidator) (is_nullable : bool) : result CustomField :=
  make_field name TInt default
    (match min_value with Some m => [check_min m] | None => [] end
     ++ match max_value with Some m => [check_max m] | None => [] end ++ validators) is_nullable.

Definition PositiveInt (name : string) (default : option pyval) : result CustomField :=
  Int name default (Some 1) None [] false.
Definition NonnegativeInt (name : string) (default : option pyval) : result CustomField :=
  Int name default (Some 0) None [] false.
Definition Float (name : string) (default : option pyval) (validators : list FieldValidator) (is_nullable : bool)
    : result CustomField :=
  make_field name TFloat default validators is_nullable.
Definition Bool (name : string) (default : option pyval) (validators : list FieldValidator) : result CustomField :=
  make_field name TBool default validators false.

(** [check_int_in_range(value, range(0, n))] *)
Definition check_int_in_range (value : pyval) (n : Z) : result unit := ensure (in_range value n) ValueError.

(** ** [ConvertToSet]

    The value is an attribute of the descriptor, so it is one for all the objects
    of the class. *)
Section ConvertToSet.
Context {T : Type} `{EqDecision T} (validator : T -> result unit).

(** [__set__] of a container, a list of its elements, or of anything else. *)
Definition convert_to_set (descriptor : option (list T)) (value : option (list T)) : result (option (list T)) :=
  l ← or_raise ValueError value;
  _ ← ensure (bool_decide (length l = length (remove_dups l))) ValueError;
  _ ← foldM (fun _ v => validator v) tt l;
  Ok (Some (remove_dups l)).

(** [__get__] *)
Definition get_set (descriptor : option (list T)) : result (list T) := or_raise AttributeError descriptor.
End ConvertToSet.

(** ** [BaseParameters] *)

(** The fields of [obj] that the class has, missing ones only if they have a default. *)
Definition filter_fields (cls : list CustomField) (obj : instance) : result instance :=
  foldM (fun filtered f =>
           match dget (f_name f) obj with
           | Some v => Ok (dset (f_name f) v filtered)
           | None => match f_default f with None => Raise ConfigError | Some _ => Ok filtered end
           end) [] cls.

(** The generated [__init__]: the arguments first, then the assignments in order. *)
Definition init_args (cls : list CustomField) (kwargs : instance) : result (list pyval) :=
  mapM (fun f => or_raise TypeError
                   (match dget (f_name f) kwargs with Some v => Some v | None => f_default f end)) cls.

Definition set_fields (obj : instance) (fvs : list (CustomField * pyval)) : result instance :=
  foldM (fun obj fv => set_field fv.1 obj fv.2) obj fvs.

Definition init (cls : list CustomField) (kwargs : instance) : result instance :=
  args ← init_args cls kwargs;
  set_fields [] (zip cls args).

(** [BaseParameters.from_dict] *)
Definition from_dict (cls : list CustomField) (obj : instance) : result instance :=
  filtered ← filter_fields cls obj;
  init cls filtered.

(** [BaseParameters.dict] *)
Definition to_dict (cls : list CustomField) (obj : instance) : result instance :=
  mapM (fun f => v ← get_field f obj; Ok (f_name f, v)) cls.

(** ** Lemmas *)

Definition names_ok (cls : list CustomField) : Prop := NoDup (f_name <$> cls).

Lemma attr_name_inj f g : attr_name f = attr_name g -> f_name f = f_name g.
Proof. by intros [= ?]. Qed.

(** The value that is stored, when the integer is not too large. *)
Definition converted (t : field_type) (value : pyval) : pyval :=
  match t, as_int value with
  | TFloat, Some n => VFloat (of_int n)
  | _, _ => value
  end.
Definition float_fits (t : field_type) (value : pyval) : bool :=
  match t, as_int value with TFloat, Some n => int_fits n | _, _ => true end.

Lemma convert_spec t v : convert t v = if float_fits t v then Ok (converted t v) else Raise OverflowError.
Proof. unfold convert, float_fits, converted, float_of_int. destruct t, (as_int v); try done. by destruct (int_fits _). Qed.

Lemma convert_idemp t v : converted t (converted t v) = converted t v.
Proof. by destruct t, v. Qed.

Lemma set_field_Ok f obj v obj' :
  set_field f obj v = Ok obj' <->
  float_fits (f_type f) v = true /\ check_isinstance f (converted (f_type f) v) = Ok tt /\ validate f obj (converted (f_type f) v) = Ok tt
  /\ obj' = dset (attr_name f) (converted (f_type f) v) obj.
Proof.
  unfold set_field. split.
  - rewrite convert_spec. intros Hset. apply bind_Ok in Hset as (x & Hx & ([] & Hc & ([] & Hv & [= <-])%bind_Ok)%bind_Ok).
    destruct (float_fits _ _); [|done]. by injection Hx as <-.
  - rewrite convert_spec. intros (-> & Hc & Hv & ->). cbn [mbind result_bind]. rewrite Hc. cbn. by rewrite Hv.
Qed.

(** What a run of the assignments leaves: the value of each field was checked
    against an object that has the earlier fields as they are at the end. *)
Lemma set_fields_Ok fvs obj obj' :
  set_fields obj fvs = Ok obj' -> NoDup (f_name <$> fvs.*1) ->
  (forall f, f_name f ∉ f_name <$> fvs.*1 -> dget (attr_name f) obj' = dget (attr_name f) obj)
  /\ forall pre f v post, fvs = pre ++ (f, v) :: post ->
       exists obj0, check_isinstance f (converted (f_type f) v) = Ok tt
         /\ validate f obj0 (converted (f_type f) v) = Ok tt
         /\ dget (attr_name f) obj' = Some (converted (f_type f) v)
         /\ forall g, dget (attr_name g) obj0 =
                     dget (attr_name g) (if bool_decide (f_name g ∈ f_name <$> pre.*1) then obj' else obj).
Proof.
  revert obj. induction fvs as [|[f1 v1] fvs IH]; intros obj.
  - intros [= ->] _. split; [done|]. by intros [].
  - cbn [set_fields foldM fmap list_fmap fst snd]. rewrite NoDup_cons.
    intros (obj1 & (_ & Hc & Hv & ->)%set_field_Ok & Hrun)%bind_Ok [Hnin Hnd].
    destruct (IH _ Hrun Hnd) as [Hother Hfields]. split.
    + intros f Hf. rewrite Hother by set_solver. apply dget_dset_ne. intros ?%attr_name_inj. set_solver.
    + intros pre f v post Heq. destruct pre as [|[g w] pre]; injection Heq as ? ? Heq; subst.
      * exists obj. split; [done|]. split; [done|]. split; [|done]. rewrite Hother by done. apply dget_dset_eq.
      * destruct (Hfields pre f v post eq_refl) as (obj0 & H1 & H2 & H3 & H4).
        exists obj0. split; [done|]. split; [done|]. split; [done|]. intros g'. rewrite H4.
        change (f_name <$> ((g, w) :: pre).*1) with (f_name g :: (f_name <$> pre.*1)).
        destruct (decide (f_name g' = f_name g)) as [E|E].
        -- rewrite bool_decide_false, bool_decide_true; [|rewrite E; by left|].
           ++ unfold attr_name. rewrite E. symmetry. by apply Hother.
           ++ rewrite E. intros Hin. apply Hnin. rewrite !fmap_app. set_solver.
        -- rewrite (bool_decide_ext (f_name g' ∈ f_name g :: _) (f_name g' ∈ f_name <$> pre.*1))
             by (rewrite elem_of_cons; tauto).
           case_bool_decide; [done|]. apply dget_dset_ne. intros ?%attr_name_inj. done.
Qed.

(** The dictionary of the values of the fields. *)
Definition dict_of (fvs : list (CustomField * pyval)) : instance := (fun fv => (f_name fv.1, fv.2)) <$> fvs.

Lemma dkeys_dict_of fvs : dkeys (dict_of fvs) = f_name <$> fvs.*1.
Proof. unfold dkeys, dict_of. by rewrite <-!list_fmap_compose. Qed.

Lemma dget_dict_of fvs f v :
  names_ok fvs.*1 -> (f, v) ∈ fvs -> dget (f_name f) (dict_of fvs) = Some v.
Proof.
  intros Hnd Hin. apply elem_dget_Some; [by rewrite dkeys_dict_of|].
  apply list_elem_of_fmap. by exists (f, v).
Qed.

Lemma filter_fields_dict_of fvs : names_ok fvs.*1 -> filter_fields fvs.*1 (dict_of fvs) = Ok (dict_of fvs).
Proof.
  intros Hnd. unfold filter_fields.
  rewrite (foldM_pure _ (fun filtered f => dset (f_name f) (default VNone (dget (f_name f) (dict_of fvs))) filtered)).
  2:{ intros s f Hf. apply list_elem_of_fmap in Hf as ([f' v] & -> & Hf). cbn [fst]. by rewrite (dget_dict_of fvs f' v). }
  f_equal. assert (Forall (fun fv : CustomField * pyval => dget (f_name fv.1) (dict_of fvs) = Some fv.2) fvs) as Hget.
  { apply Forall_forall. intros [f v] Hf. by apply dget_dict_of. }
  revert Hget. generalize (dict_of fvs) at 1 2 as d. intros d Hd.
  induction fvs as [|[f v] fvs IH] using rev_ind; [done|].
  rewrite Forall_app, Forall_singleton in Hd. destruct Hd as [Hd Hv]. cbn [fst snd] in Hv.
  unfold names_ok in *. rewrite !fmap_app, NoDup_app in Hnd. destruct Hnd as (Hnd & Hnin & _).
  rewrite fmap_app, foldl_app, (IH Hnd Hd). cbn [fmap list_fmap foldl fst]. rewrite Hv. cbn [default].
  unfold dict_of at 2. rewrite fmap_app. apply dset_new. rewrite dkeys_dict_of. intros Hin. apply (Hnin _ Hin). by left.
Qed.

Lemma init_args_dict_of fvs : names_ok fvs.*1 -> init_args fvs.*1 (dict_of fvs) = Ok fvs.*2.
Proof.
  intros Hnd. apply mapM_Ok. apply Forall2_fmap, Forall_Forall2_diag, Forall_forall. intros [f v] Hin.
  cbn [fst snd]. by rewrite (dget_dict_of fvs f v).
Qed.

Lemma zip_fst_snd_of {A B} (l : list (A * B)) : zip l.*1 l.*2 = l.
Proof. induction l as [|[] l IH]; [done|]. cbn. by f_equal. Qed.

Lemma from_dict_dict_of fvs : names_ok fvs.*1 -> from_dict fvs.*1 (dict_of fvs) = set_fields [] fvs.
Proof.
  intros Hnd. unfold from_dict, init. rewrite filter_fields_dict_of by done. cbn [mbind result_bind].
  rewrite init_args_dict_of by done. cbn [mbind result_bind]. by rewrite zip_fst_snd_of.
Qed.

(** Every object made from a dictionary is a run of the assignments. *)
Lemma from_dict_set_fields cls obj p :
  from_dict cls obj = Ok p -> exists fvs, fvs.*1 = cls /\ set_fields [] fvs = Ok p.
Proof.
  unfold from_dict, init. intros Hp. inv_ok.
  match goal with H : init_args _ _ = Ok ?args |- _ => exists (zip cls args); apply mapM_Ok, Forall2_length in H end.
  split; [|done]. apply fst_zip. lia.
Qed.

Lemma set_field_convert f obj v o : set_field f obj v = Ok o -> set_field f obj (converted (f_type f) v) = Ok o.
Proof.
  rewrite !set_field_Ok, convert_idemp. intros (_ & Hc & Hv & Ho). split_and!; [|done..]. by destruct (f_type f), v.
Qed.

Lemma set_fields_convert obj fvs p :
  set_fields obj fvs = Ok p -> set_fields obj ((fun fv => (fv.1, converted (f_type fv.1) fv.2)) <$> fvs) = Ok p.
Proof.
  unfold set_fields. revert obj. induction fvs as [|[f v] fvs IH]; intros obj; [done|].
  cbn [foldM fmap list_fmap fst snd]. intros (o & Ho & H)%bind_Ok. rewrite (set_field_convert _ _ _ _ Ho). by apply IH.
Qed.

Lemma get_field_stored f p v w : dget (attr_name f) p = Some v -> get_field f p = Ok w -> w = v.
Proof. intros Hv Hg. unfold get_field in Hg. rewrite Hv in Hg. inv_ok. congruence. Qed.

Lemma to_dict_stored fvs p d :
  names_ok fvs.*1 -> set_fields [] fvs = Ok p -> to_dict fvs.*1 p = Ok d ->
  d = dict_of ((fun fv => (fv.1, converted (f_type fv.1) fv.2)) <$> fvs).
Proof.
  intros Hnd Hset Hd. destruct (set_fields_Ok _ _ _ Hset Hnd) as [_ Hf].
  assert (forall fv, fv ∈ fvs -> dget (attr_name fv.1) p = Some (converted (f_type fv.1) fv.2)) as Hget.
  { intros [f v] (pre & post & ->)%list_elem_of_split. by destruct (Hf pre f v post eq_refl) as (? & _ & _ & ? & _). }
  clear Hf Hset Hnd. unfold to_dict in Hd. apply mapM_Ok in Hd. unfold dict_of. rewrite <-list_fmap_compose.
  revert d Hd. induction fvs as [|[f v] fvs IH]; intros d Hd; cbn [fmap list_fmap] in *.
  - by apply Forall2_nil_inv_l in Hd.
  - apply Forall2_cons_inv_l in Hd as (y & d' & Hy & Hd & ->). f_equal.
    + cbn [fst] in Hy. inv_ok. subst y. cbn. f_equal.
      eapply get_field_stored; [apply (Hget (f, v)); by left|done].
    + apply IH; [|done]. intros fv Hfv. apply Hget. by right.
Qed.

(** The argument of a field: the value in the dictionary or the default. *)
Definition has_value (obj : instance) (f : CustomField) : bool :=
  dmem (f_name f) obj || match f_default f with Some _ => true | None => false end.
Definition field_arg (obj : instance) (f : CustomField) : pyval :=
  default (default VNone (f_default f)) (dget (f_name f) obj).

Lemma filter_fields_spec cls obj :
  if forallb (has_value obj) cls
  then exists filtered, filter_fields cls obj = Ok filtered
         /\ forall f, f ∈ cls -> dget (f_name f) filtered = dget (f_name f) obj
  else filter_fields cls obj = Raise ConfigError.
Proof.
  unfold filter_fields, has_value, dmem. set (step := fun filtered f => _).
  assert (forall acc,
    if forallb (has_value obj) cls
    then exists filtered, foldM step acc cls = Ok filtered
           /\ forall k, dget k filtered = if bool_decide (k ∈ f_name <$> cls) then
                          match dget k obj with Some v => Some v | None => dget k acc end else dget k acc
    else foldM step acc cls = Raise ConfigError) as H.
  { induction cls as [|f cls IH]; intros acc; cbn [forallb foldM]; [by exists acc|].
    unfold has_value at 1, dmem, step at 2 4. destruct (dget (f_name f) obj) as [v|] eqn:E; cbn [orb andb mbind result_bind].
    - specialize (IH (dset (f_name f) v acc)). destruct (forallb (has_value obj) cls); [|done].
      destruct IH as (filtered & -> & Hf). exists filtered. split; [done|]. intros k. rewrite Hf, dget_dset.
      change (f_name <$> f :: cls) with (f_name f :: (f_name <$> cls)).
      destruct (decide (k = f_name f)) as [->|Hk].
      + rewrite E, (bool_decide_true (f_name f ∈ f_name f :: _)) by (by left). by case_bool_decide.
      + rewrite (bool_decide_ext (k ∈ f_name f :: _) (k ∈ f_name <$> cls)) by (rewrite elem_of_cons; tauto). done.
    - destruct (f_default f); cbn [andb mbind result_bind]; [|done]. specialize (IH acc).
      destruct (forallb (has_value obj) cls); [|done].
      destruct IH as (filtered & -> & Hf). exists filtered. split; [done|]. intros k. rewrite Hf.
      change (f_name <$> f :: cls) with (f_name f :: (f_name <$> cls)).
      destruct (decide (k = f_name f)) as [->|Hk].
      + rewrite E. by repeat case_bool_decide.
      + rewrite (bool_decide_ext (k ∈ f_name f :: _) (k ∈ f_name <$> cls)) by (rewrite elem_of_cons; tauto). done. }
  specialize (H []). unfold has_value, dmem in H. destruct (forallb _ cls); [|done].
  destruct H as (filtered & -> & Hf). exists filtered. split; [done|]. intros f Hin. rewrite Hf.
  rewrite bool_decide_true by (apply list_elem_of_fmap; by exists f). by destruct (dget (f_name f) obj).
Qed.

(** The result depends on the fields of the class only. *)
Lemma from_dict_spec cls obj :
  from_dict cls obj =
  if forallb (has_value obj) cls then set_fields [] ((fun f => (f, field_arg obj f)) <$> cls) else Raise ConfigError.
Proof.
  unfold from_dict. pose proof (filter_fields_spec cls obj) as Hf. destruct (forallb (has_value obj) cls) eqn:Hall.
  - destruct Hf as (filtered & -> & Hf). cbn [mbind result_bind]. unfold init.
    assert (init_args cls filtered = Ok (field_arg obj <$> cls)) as ->.
    { apply mapM_Ok, Forall2_fmap_r, Forall_Forall2_diag, Forall_forall. intros f Hin. rewrite (Hf f Hin).
      rewrite forallb_forall in Hall. apply list_elem_of_In in Hin. specialize (Hall f Hin).
      unfold compose, has_value, dmem, field_arg in *.
      destruct (dget (f_name f) obj); [done|]. by destruct (f_default f). }
    cbn [mbind result_bind]. f_equal. clear. induction cls as [|f cls IH]; [done|]. cbn. by f_equal.
  - by rewrite Hf.
Qed.

(** Parameters written as a dictionary are read back unchanged, for any class
    with distinct field names and any object of it whose fields can be read. *)
Lemma from_dict_to_dict cls obj p d :
  names_ok cls -> from_dict cls obj = Ok p -> to_dict cls p = Ok d -> from_dict cls d = Ok p.
Proof.
  intros Hnd (fvs & <- & Hset)%from_dict_set_fields Hd.
  rewrite (to_dict_stored fvs p d Hnd Hset Hd).
  set (fvs' := (fun fv => (fv.1, converted (f_type fv.1) fv.2)) <$> fvs).
  assert (fvs.*1 = fvs'.*1) as E by (unfold fvs'; by rewrite <-list_fmap_compose).
  rewrite E in *. rewrite from_dict_dict_of by done. by apply set_fields_convert.
Qed.

(** Only the values under the keys matter, not their order. *)
Lemma from_dict_perm cls d d' : NoDup (dkeys d) -> d ≡ₚ d' -> from_dict cls d = from_dict cls d'.
Proof.
  intros Hnd Hperm. assert (NoDup (dkeys d')) as Hnd' by (unfold dkeys in *; by rewrite <-Hperm).
  assert (forall k, dget k d = dget k d') as Hget.
  { intros k. destruct (dget k d) as [v|] eqn:E.
    - apply dget_Some_elem in E. symmetry. apply elem_dget_Some; [done|]. by rewrite <-Hperm.
    - symmetry. destruct (dget k d') as [v|] eqn:E'; [|done]. apply dget_Some_elem in E'. rewrite <-Hperm in E'.
      apply elem_dget_Some in E'; [congruence|done]. }
  rewrite !from_dict_spec.
  assert (forallb (has_value d) cls = forallb (has_value d') cls) as ->.
  { induction cls as [|f cls IH]; [done|]. cbn [forallb]. rewrite IH. unfold has_value, dmem. by rewrite Hget. }
  destruct (forallb _ cls); [|done]. f_equal. apply list_fmap_ext. intros i f _. unfold field_arg. by rewrite Hget.
Qed.

(** A value that was stored and read is [None] or of one of the types of the fields. *)
Definition is_scalar (v : pyval) : bool := match v with VNone | VBool _ | VInt _ | VFloat _ => true | _ => false end.

Lemma to_dict_values cls obj p d :
  names_ok cls -> from_dict cls obj = Ok p -> to_dict cls p = Ok d ->
  dkeys d = f_name <$> cls /\ forall k v, (k, v) ∈ d -> is_scalar v = true /\ exists a, (a, v) ∈ p.
Proof.
  intros Hnd (fvs & <- & Hset)%from_dict_set_fields Hd. pose proof (to_dict_stored fvs p d Hnd Hset Hd) as ->.
  split; [rewrite dkeys_dict_of, <-!list_fmap_compose; done|].
  intros k v (fv & [= -> ->] & ([f w] & -> & Hin)%list_elem_of_fmap)%list_elem_of_fmap. cbn [fst snd].
  apply list_elem_of_split in Hin as (pre & post & ->).
  destruct (set_fields_Ok _ _ _ Hset Hnd) as [_ Hf]. destruct (Hf pre f w post eq_refl) as (obj0 & Hc & _ & Hget & _). split.
  - unfold check_isinstance in Hc. apply ensure_Ok in Hc. by destruct (converted (f_type f) w), (f_type f).
  - exists (attr_name f). by apply dget_Some_elem.
Qed.
