(* ===== verification/PyJson.v ===== *)
(** * JSON texts

    [json.loads] and [json.dumps] of Python's standard library: the scanner of a text,
    with its errors, and the encoder with its separators, its indentation and its
    sorted keys.  What one writes the other reads back.  A text with an escaped
    character above code point 255 is [Unmodelled]; the depth of a document is not
    limited; the floats of [NaN] and of the infinities are a parameter, as is the
    [repr] of a float, which PyRepr.v gives. *)

From S2P Require Import Prelude PyStr PyInt PyFloat PyDict PySort Fields.

Definition quote_char : ascii := "034"%char.
Definition backslash_char : ascii := "092"%char.

(** ** The scanner *)

(** White space of JSON. *)
Definition json_white (c : ascii) : bool :=
  Ascii.eqb c " " || Ascii.eqb c "009"%char || Ascii.eqb c nl || Ascii.eqb c cr.
Fixpoint skip_white (s : string) : string :=
  match s with EmptyString => s | String c s' => if json_white c then skip_white s' else s end.

(** The longest beginning of the characters of a class, and the rest. *)
Fixpoint span (p : ascii -> bool) (s : string) : string * string :=
  match s with
  | EmptyString => (EmptyString, EmptyString)
  | String c s' => if p c then let '(a, b) := span p s' in (String c a, b) else (EmptyString, s)
  end.

Definition hex_val (c : ascii) : option Z :=
  let n := Z.of_nat (nat_of_ascii c) in
  if is_digit c then Some (n - 48)
  else if (97 <=? n) && (n <=? 102) then Some (n - 87)
  else if (65 <=? n) && (n <=? 70) then Some (n - 55)
  else None.

(** The character of [\uXXXX]. *)
Definition unicode_escape (a b c d : ascii) : result ascii :=
  match hex_val a, hex_val b, hex_val c, hex_val d with
  | Some a, Some b, Some c, Some d =>
      let n := ((a * 16 + b) * 16 + c) * 16 + d in
      if n <? 256 then Ok (ascii_of_nat (Z.to_nat n)) else Raise Unmodelled
  | _, _, _, _ => Raise JSONDecodeError
  end.

(** The character of the other escapes. *)
Definition simple_escape (c : ascii) : option ascii :=
  if Ascii.eqb c quote_char || Ascii.eqb c backslash_char || Ascii.eqb c "/" then Some c
  else if Ascii.eqb c "b" then Some "008"%char
  else if Ascii.eqb c "f" then Some "012"%char
  else if Ascii.eqb c "n" then Some nl
  else if Ascii.eqb c "r" then Some cr
  else if Ascii.eqb c "t" then Some "009"%char
  else None.

(** [scanstring(s, end)], after the quote: the string, and the text after its end.  A
    control character is an error. *)
Fixpoint scanstring (s : string) : result (string * string) :=
  match s with
  | EmptyString => Raise JSONDecodeError
  | String c s' =>
      if Ascii.eqb c quote_char then Ok (EmptyString, s')
      else if Ascii.eqb c backslash_char then
        match s' with
        | String "u" (String h1 (String h2 (String h3 (String h4 r)))) =>
            u ← unicode_escape h1 h2 h3 h4;
            '(t, r) ← scanstring r;
            Ok (String u t, r)
        | String e r =>
            e ← or_raise JSONDecodeError (simple_escape e);
            '(t, r) ← scanstring r;
            Ok (String e t, r)
        | EmptyString => Raise JSONDecodeError
        end
      else if (nat_of_ascii c <? 32)%nat then Raise JSONDecodeError
      else '(t, r) ← scanstring s'; Ok (String c t, r)
  end.

(** [float(text)] of the number [digits * 10^e]. *)
Definition decimal_float (negative : bool) (digits e : Z) : float :=
  let x := if 0 <=? e then round_frac (digits * 10 ^ e * one) 1 else round_frac (digits * one) (10 ^ (- e)) in
  if negative then - x else x.

(** [NUMBER_RE] and the number: an integer, a fraction and an exponent. *)
Definition scan_fraction (s : string) : option string * string :=
  match s with
  | String "." s' =>
      let '(fs, r) := span is_digit s' in
      match fs with EmptyString => (None, s) | _ => (Some fs, r) end
  | _ => (None, s)
  end.
Definition scan_sign (s : string) : bool * string :=
  match s with String "-" r => (true, r) | String "+" r => (false, r) | _ => (false, s) end.
Definition scan_exponent (s : string) : option Z * string :=
  match s with
  | String e s' =>
      if Ascii.eqb e "e" || Ascii.eqb e "E" then
        let '(negative, s1) := scan_sign s' in
        let '(es, r) := span is_digit s1 in
        match es with
        | EmptyString => (None, s)
        | _ => (Some (if negative then - digits_val 0 es else digits_val 0 es), r)
        end
      else (None, s)
  | EmptyString => (None, s)
  end.
Definition scan_integer (s : string) : option (string * string) :=
  match s with
  | String c s' =>
      if Ascii.eqb c "0" then Some ("0"%string, s')
      else if is_digit c then let '(ds, r) := span is_digit s' in Some (String c ds, r)
      else None
  | EmptyString => None
  end.
Definition scan_minus (s : string) : bool * string := match s with String "-" s' => (true, s') | _ => (false, s) end.
Definition scan_number (s : string) : option (pyval * string) :=
  let '(negative, s1) := scan_minus s in
  '(ds, r) ← scan_integer s1;
  let '(fs, r) := scan_fraction r in
  let '(e, r) := scan_exponent r in
  Some (match fs, e with
        | None, None => VInt (if negative then - digits_val 0 ds else digits_val 0 ds)
        | _, _ =>
            let fs := default EmptyString fs in
            VFloat (decimal_float negative (digits_val 0 (ds ++ fs)) (default 0 e - Z.of_nat (String.length fs)))
        end, r).

Section Loads.
(** The floats of the three constants that are no numbers. *)
Context (parse_constant : string -> float).

Definition scan_constant (s : string) : result (pyval * string) :=
  match strip_prefix "NaN" s, strip_prefix "Infinity" s, strip_prefix "-Infinity" s with
  | Some r, _, _ => Ok (VFloat (parse_constant "NaN"), r)
  | _, Some r, _ => Ok (VFloat (parse_constant "Infinity"), r)
  | _, _, Some r => Ok (VFloat (parse_constant "-Infinity"), r)
  | _, _, _ => Raise JSONDecodeError
  end.

(** A value that is no string, object or array. *)
Definition scan_atom (s : string) : result (pyval * string) :=
  match strip_prefix "null" s, strip_prefix "true" s, strip_prefix "false" s with
  | Some r, _, _ => Ok (VNone, r)
  | _, Some r, _ => Ok (VBool true, r)
  | _, _, Some r => Ok (VBool false, r)
  | _, _, _ => match scan_number s with Some vr => Ok vr | None => scan_constant s end
  end.

(** [dict(pairs)] *)
Definition dict_of_pairs (pairs : list (string * pyval)) : list (string * pyval) :=
  foldl (fun d kv => dset kv.1 kv.2 d) [] pairs.

(** [scan_once], the elements of an array and the members of an object, whose first is
    next; [fuel] bounds the nested calls. *)
Fixpoint scan_once (fuel : nat) (s : string) {struct fuel} : result (pyval * string) :=
  match fuel with
  | O => Raise OutOfFuel
  | S fuel =>
      match s with
      | EmptyString => Raise JSONDecodeError
      | String c s' =>
          if Ascii.eqb c quote_char then '(t, r) ← scanstring s'; Ok (VStr t, r)
          else if Ascii.eqb c "{" then
            match strip_prefix "}" (skip_white s') with
            | Some r => Ok (VDict [], r)
            | None => '(pairs, r) ← scan_members fuel (skip_white s'); Ok (VDict (dict_of_pairs pairs), r)
            end
          else if Ascii.eqb c "[" then
            match strip_prefix "]" (skip_white s') with
            | Some r => Ok (VList [], r)
            | None => '(vs, r) ← scan_elements fuel (skip_white s'); Ok (VList vs, r)
            end
          else scan_atom s
      end
  end
with scan_elements (fuel : nat) (s : string) {struct fuel} : result (list pyval * string) :=
  match fuel with
  | O => Raise OutOfFuel
  | S fuel =>
      '(v, r) ← scan_once fuel s;
      match strip_prefix "]" (skip_white r), strip_prefix "," (skip_white r) with
      | Some r, _ => Ok ([v], r)
      | None, Some r => '(vs, r) ← scan_elements fuel (skip_white r); Ok (v :: vs, r)
      | None, None => Raise JSONDecodeError
      end
  end
with scan_members (fuel : nat) (s : string) {struct fuel} : result (list (string * pyval) * string) :=
  match fuel with
  | O => Raise OutOfFuel
  | S fuel =>
      s ← or_raise JSONDecodeError (strip_prefix DQ s);
      '(k, r) ← scanstring s;
      r ← or_raise JSONDecodeError (strip_prefix ":" (skip_white r));
      '(v, r) ← scan_once fuel (skip_white r);
      match strip_prefix "}" (skip_white r), strip_prefix "," (skip_white r) with
      | Some r, _ => Ok ([(k, v)], r)
      | None, Some r => '(kvs, r) ← scan_members fuel (skip_white r); Ok ((k, v) :: kvs, r)
      | None, None => Raise JSONDecodeError
      end
  end.

(** Enough for the nested calls on a text. *)
Definition scan_fuel (s : string) : nat := S (S (2 * String.length s)).

(** [json.loads(s)] *)
Definition loads (s : string) : result pyval :=
  let s := skip_white s in
  '(v, r) ← scan_once (scan_fuel s) s;
  _ ← ensure (String.eqb (skip_white r) EmptyString) JSONDecodeError;
  Ok v.
End Loads.

(** ** The encoder *)

(** [ESCAPE_DCT] and ['\\u{0:04x}'], on the characters that are not printable. *)
Definition hex_char (n : nat) : ascii := ascii_of_nat (if (n <? 10)%nat then 48 + n else 87 + n)%nat.
Definition encode_char (c : ascii) : string :=
  let n := nat_of_ascii c in
  if Ascii.eqb c quote_char || Ascii.eqb c backslash_char then String backslash_char (String c EmptyString)
  else if Ascii.eqb c nl then "\n"
  else if Ascii.eqb c cr then "\r"
  else if Ascii.eqb c "009"%char then "\t"
  else if Ascii.eqb c "012"%char then "\f"
  else if Ascii.eqb c "008"%char then "\b"
  else if (32 <=? n)%nat && (n <=? 126)%nat then String c EmptyString
  else ("\u00" ++ String (hex_char (n / 16)) (String (hex_char (n mod 16)) EmptyString))%string.
Fixpoint encode_chars (s : string) : string :=
  match s with EmptyString => EmptyString | String c s' => (encode_char c ++ encode_chars s')%string end.
Definition encode_string (s : string) : string := String quote_char (encode_chars s ++ DQ).

(** The arguments of [json.dumps]: [indent], [separators] and [sort_keys]. *)
Record style : Type := MkStyle {
  indent : option nat; item_separator : string; key_separator : string; sort_keys : bool }.

(** The separators by default. *)
Definition make_style (indent : option nat) (sort_keys : bool) : style :=
  MkStyle indent (match indent with Some _ => "," | None => ", " end) ": " sort_keys.

(** ['\n' + indent * level] *)
Definition newline_indent (st : style) (level : nat) : string :=
  match indent st with Some n => String nl (blanks (n * level)) | None => EmptyString end.

(** The texts of the items between brackets. *)
Definition bracket (st : style) (level : nat) (opening closing : string) (items : list string) : string :=
  match items with
  | [] => (opening ++ closing)%string
  | _ =>
      (opening ++ newline_indent st (S level)
       ++ join (item_separator st ++ newline_indent st (S level)) items
       ++ newline_indent st level ++ closing)%string
  end.

(** The items of a dictionary, by key if [sort_keys]. *)
Definition key_le {A} (a b : string * A) : bool := str_le a.1 b.1.
Definition order_items {A} (st : style) (items : list (string * A)) : list (string * A) :=
  if sort_keys st then sorted key_le items else items.

Section Dumps.
(** [float.__repr__] *)
Context (repr : float -> string) (st : style).

Fixpoint iterencode (level : nat) (v : pyval) : string :=
  match v with
  | VNone => "null"
  | VBool b => if b then "true" else "false"
  | VInt n => str_of_Z n
  | VFloat x => repr x
  | VStr s => encode_string s
  | VList l => bracket st level "[" "]" (map (iterencode (S level)) l)
  | VDict d =>
      bracket st level "{" "}"
        (map (fun kt : string * string => (encode_string kt.1 ++ key_separator st ++ kt.2)%string)
           (order_items st (map (fun kv => (kv.1, iterencode (S level) kv.2)) d)))
  end.

(** [json.dumps(v)] *)
Definition dumps (v : pyval) : string := iterencode 0 v.
End Dumps.

(** ** Texts and their values *)

(** The characters that continue a number. *)
Definition number_char (c : ascii) : bool := is_digit c || Ascii.eqb c "." || Ascii.eqb c "e" || Ascii.eqb c "E".

(** The text of a float has the characters of a number and is read as this float. *)
Definition float_char (c : ascii) : bool := number_char c || Ascii.eqb c "+" || Ascii.eqb c "-".
Definition float_ok (repr : float -> string) (x : float) : bool :=
  str_all float_char (repr x)
  && match scan_number (repr x) with Some (VFloat y, EmptyString) => y =? x | _ => false end.

(** The values that are written and read back: the keys of their dictionaries are
    distinct, and their floats have a text that is read as them. *)
Fixpoint json_ok (repr : float -> string) (v : pyval) : bool :=
  match v with
  | VFloat x => float_ok repr x
  | VList l => forallb (json_ok repr) l
  | VDict d => bool_decide (NoDup (map fst d)) && forallb (fun kv => json_ok repr kv.2) d
  | _ => true
  end.

(** Separators that the scanner passes over. *)
Definition style_ok (st : style) : bool :=
  match item_separator st, key_separator st with
  | String c w, String d x => Ascii.eqb c "," && str_all json_white w && Ascii.eqb d ":" && str_all json_white x
  | _, _ => false
  end.

(** The value with the keys in the order they are written. *)
Fixpoint normal (st : style) (v : pyval) : pyval :=
  match v with
  | VList l => VList (map (normal st) l)
  | VDict d => VDict (order_items st (map (fun kv => (kv.1, normal st kv.2)) d))
  | _ => v
  end.

(** Induction on a value and what it contains. *)
Lemma pyval_nested_ind (P : pyval -> Prop) :
  P VNone -> (forall b, P (VBool b)) -> (forall n, P (VInt n)) -> (forall x, P (VFloat x)) -> (forall s, P (VStr s)) ->
  (forall l, Forall P l -> P (VList l)) -> (forall d, Forall (fun kv => P kv.2) d -> P (VDict d)) ->
  forall v, P v.
Proof.
  intros H1 H2 H3 H4 H5 H6 H7. fix IH 1.
  intros [|b|n|x|s|l|d]; [apply H1|apply H2|apply H3|apply H4|apply H5|apply H6|apply H7].
  - induction l as [|v l IHl]; constructor; [apply IH|apply IHl].
  - induction d as [|[k v] d IHd]; constructor; [apply IH|apply IHd].
Qed.

(** *** Strings *)

Lemma scanstring_char c t :
  scanstring (encode_char c ++ t) = ('(x, r) ← scanstring t; Ok (String c x, r)).
Proof. destruct c as [[] [] [] [] [] [] [] []]; reflexivity. Qed.

Lemma scanstring_encode s rest : scanstring (encode_chars s ++ String quote_char rest) = Ok (s, rest).
Proof.
  induction s as [|c s IH]; [reflexivity|]. cbn [encode_chars]. rewrite <-str_app_assoc, scanstring_char, IH. done.
Qed.

(** *** Numbers *)

(** Does not begin with a character of a class. *)
Definition starts_not (p : ascii -> bool) (s : string) : bool :=
  match s with String c _ => negb (p c) | EmptyString => true end.

(** What may follow a number. *)
Abbreviation number_stop := (starts_not number_char).

Lemma number_stop_digit s : number_stop s = true -> starts_not is_digit s = true.
Proof. destruct s as [|c s]; [done|]. unfold starts_not, number_char. by destruct (is_digit c). Qed.

Lemma span_app p a rest : str_all p a = true -> starts_not p rest = true -> span p (a ++ rest) = (a, rest).
Proof.
  intros Ha Hr. induction a as [|c a IH]; [|cbn in *; apply andb_true_iff in Ha as [-> Ha]; by rewrite IH].
  destruct rest as [|c rest]; [done|]. cbn in *. apply negb_true_iff in Hr. by rewrite Hr.
Qed.

Lemma span_extend p s a b rest :
  span p s = (a, b) -> starts_not p rest = true -> span p (s ++ rest) = (a, (b ++ rest)%string).
Proof.
  intros Hs Hr. revert a b Hs. induction s as [|c s IH]; intros a b Hs; cbn in Hs.
  - injection Hs as <- <-. by apply (span_app p "" rest).
  - cbn. destruct (p c); [|by injection Hs as <- <-]. destruct (span p s) as [a' b']. injection Hs as <- <-.
    by rewrite (IH a' b').
Qed.

Lemma scan_integer_extend s ds r rest :
  scan_integer s = Some (ds, r) -> number_stop rest = true -> scan_integer (s ++ rest) = Some (ds, (r ++ rest)%string).
Proof.
  intros Hs Hr%number_stop_digit. destruct s as [|c s]; [done|]. cbn [String.append scan_integer] in *.
  destruct (Ascii.eqb c "0"); [by injection Hs as <- <-|]. destruct (is_digit c); [|done].
  destruct (span is_digit s) as [a b] eqn:E. rewrite (span_extend _ _ _ _ _ E Hr). by injection Hs as <- <-.
Qed.

Lemma scan_fraction_extend s fs r rest :
  scan_fraction s = (fs, r) -> number_stop rest = true -> scan_fraction (s ++ rest) = (fs, (r ++ rest)%string).
Proof.
  intros Hs Hr. destruct s as [|c s].
  - injection Hs as <- <-. cbn [String.append]. destruct rest as [|d rest]; [done|]. unfold scan_fraction.
    destruct (Ascii.eqb_spec d ".") as [->|Hd]; [done|]. by destruct d as [[] [] [] [] [] [] [] []].
  - cbn [String.append]. destruct (Ascii.eqb_spec c ".") as [->|Hc].
    + unfold scan_fraction in *. destruct (span is_digit s) as [a b] eqn:E.
      rewrite (span_extend _ _ _ _ _ E (number_stop_digit _ Hr)). destruct a; by injection Hs as <- <-.
    + unfold scan_fraction in *. destruct c as [[] [] [] [] [] [] [] []]; try (by injection Hs as <- <-). done.
Qed.

Lemma scan_sign_extend s b r rest :
  s <> EmptyString -> scan_sign s = (b, r) -> scan_sign (s ++ rest) = (b, (r ++ rest)%string).
Proof. intros Hs. destruct s as [|[[] [] [] [] [] [] [] []] s]; [done|..]; by intros [= <- <-]. Qed.

Lemma scan_exponent_extend s e rest :
  scan_exponent s = (e, EmptyString) -> number_stop rest = true -> scan_exponent (s ++ rest) = (e, rest).
Proof.
  intros Hs Hr. destruct s as [|c s]; cbn [String.append scan_exponent] in *.
  - injection Hs as <-. destruct rest as [|d rest]; [done|]. cbn in Hr |- *. unfold number_char in Hr.
    destruct (Ascii.eqb d "e"), (Ascii.eqb d "E"); cbn in *; rewrite ?orb_true_r in Hr; done.
  - destruct (Ascii.eqb c "e" || Ascii.eqb c "E"); [|done].
    destruct s as [|d s]; [cbn in Hs; discriminate Hs|]. destruct (scan_sign (String d s)) as [neg s1] eqn:E1.
    change (String d (s ++ rest)) with (String d s ++ rest)%string.
    rewrite (scan_sign_extend (String d s) neg s1 rest) by done. destruct (span is_digit s1) as [es r] eqn:E2.
    rewrite (span_extend _ _ _ _ _ E2 (number_stop_digit _ Hr)). destruct es; [done|]. by injection Hs as <- ->.
Qed.

Lemma scan_number_extend s v rest :
  scan_number s = Some (v, EmptyString) -> number_stop rest = true -> scan_number (s ++ rest) = Some (v, rest).
Proof.
  intros Hs Hr. unfold scan_number in *.
  destruct (scan_minus s) as [neg s1] eqn:E0.
  assert (s1 <> EmptyString) as Hne by (intros ->; discriminate Hs).
  assert (scan_minus (s ++ rest) = (neg, (s1 ++ rest)%string)) as ->.
  { destruct s as [|[[] [] [] [] [] [] [] []] s]; [by injection E0 as <- <-|..]; by injection E0 as <- <-. }
  destruct (scan_integer s1) as [[ds r]|] eqn:E1; [|done]. rewrite (scan_integer_extend _ _ _ _ E1 Hr). cbn in *.
  destruct (scan_fraction r) as [fs r1] eqn:E2. rewrite (scan_fraction_extend _ _ _ _ E2 Hr).
  destruct (scan_exponent r1) as [e r2] eqn:E3. injection Hs as <- ->. by rewrite (scan_exponent_extend _ _ _ E3 Hr).
Qed.

(** The digits of a natural number have no zero in front. *)
Lemma scan_integer_digits n : 0 <= n -> scan_integer (fixed_width (ndigits n) n) = Some (fixed_width (ndigits n) n, EmptyString).
Proof.
  intros Hn. destruct (ndigits_spec n Hn) as [Hlt Hge]. pose proof (ndigits_pos n). destruct (ndigits n) as [|w] eqn:Ew; [lia|].
  rewrite pow10_succ in Hlt. pose proof (pow10_pos w) as Hp. set (p := 10 ^ Z.of_nat w) in *.
  cbn [fixed_width scan_integer]. fold p. set (d := n / p mod 10).
  assert (0 <= d < 10) as Hd by (apply Z.mod_pos_bound; lia). rewrite digit_char_is_digit by done.
  assert (span is_digit (fixed_width w n) = (fixed_width w n, EmptyString)) as ->
    by (rewrite <-(str_app_nil_r (fixed_width w n)) at 1; by rewrite span_app by (apply fixed_width_digits || done)).
  destruct (Ascii.eqb_spec (digit_char d) "0") as [E|]; [|done].
  apply (f_equal digit_val) in E. rewrite digit_char_val in E by done. change (d = 0) in E.
  destruct Hge as [Hw|Hge]; [injection Hw as ->; by rewrite E|].
  exfalso. replace (Z.of_nat (S w) - 1) with (Z.of_nat w) in Hge by lia. fold p in Hge.
  assert (0 < n / p) by (apply Z.div_str_pos; lia). assert (n / p < 10) by (apply Z.div_lt_upper_bound; lia).
  unfold d in E. rewrite Z.mod_small in E; lia.
Qed.

Lemma scan_number_int n : scan_number (str_of_Z n) = Some (VInt n, EmptyString).
Proof.
  assert (forall m, 0 <= m -> digits_val 0 (fixed_width (ndigits m) m) = m) as Hval.
  { intros m Hm. apply digits_val_fixed_width_small. split; [done|]. by apply ndigits_spec. }
  unfold str_of_Z. destruct (Z.ltb_spec n 0) as [Hn|Hn]; unfold scan_number.
  - cbn [String.append scan_minus]. rewrite scan_integer_digits by lia. cbn. rewrite Hval by lia. do 2 f_equal. f_equal. lia.
  - pose proof (scan_integer_digits n Hn) as E. destruct (fixed_width (ndigits n) n) as [|c t] eqn:Ef; [done|].
    assert (Ascii.eqb c "-" = false) as Hc.
    { pose proof (fixed_width_digits (ndigits n) n) as Hd. rewrite Ef in Hd. cbn in Hd. apply andb_true_iff in Hd as [Hd _].
      destruct (Ascii.eqb_spec c "-") as [->|]; done. }
    assert (scan_minus (String c t) = (false, String c t)) as ->
      by (unfold scan_minus; destruct c as [[] [] [] [] [] [] [] []]; done).
    pose proof (Hval n Hn) as Hv. rewrite Ef in Hv. rewrite E. cbn in *. by rewrite Hv.
Qed.

(** *** White space and separators *)

Lemma skip_white_app w s : str_all json_white w = true -> starts_not json_white s = true -> skip_white (w ++ s) = s.
Proof.
  intros Hw Hs. induction w as [|c w IH]; [|cbn in *; apply andb_true_iff in Hw as [-> Hw]; by apply IH].
  destruct s as [|c s]; [done|]. cbn in *. apply negb_true_iff in Hs. by rewrite Hs.
Qed.

Lemma white_stops w c s :
  str_all json_white w = true -> number_char c = false -> number_stop (w ++ String c s) = true.
Proof.
  intros Hw Hc. destruct w as [|d w]; [cbn; by rewrite Hc|]. cbn in *. apply andb_true_iff in Hw as [Hd _].
  clear -Hd. by destruct d as [[] [] [] [] [] [] [] []].
Qed.

(** The beginning of a value. *)
Definition starts_value (s : string) : bool :=
  match s with String c _ => negb (json_white c || Ascii.eqb c "]" || Ascii.eqb c "}") | EmptyString => false end.

Lemma starts_value_app s rest : starts_value s = true -> starts_value (s ++ rest) = true.
Proof. by destruct s. Qed.

Lemma starts_value_white s : starts_value s = true -> starts_not json_white s = true.
Proof. destruct s as [|c s]; [done|]. cbn. rewrite !negb_orb, !andb_true_iff. tauto. Qed.

Lemma starts_value_closing s :
  starts_value s = true -> strip_prefix "]" s = None /\ strip_prefix "}" s = None.
Proof.
  destruct s as [|c s]; [done|]. unfold starts_value. rewrite !negb_orb, !andb_true_iff, !negb_true_iff. intros [[_ H1] H2].
  cbn [strip_prefix]. rewrite !(Ascii.eqb_sym _ c). by rewrite H1, H2.
Qed.

Lemma strip_one c s : strip_prefix (String c "") (String c s) = Some s.
Proof. cbn [strip_prefix]. by rewrite Ascii.eqb_refl. Qed.

Lemma strip_other c d s : Ascii.eqb c d = false -> strip_prefix (String c "") (String d s) = None.
Proof. intros H. cbn [strip_prefix]. by rewrite H. Qed.

Section RoundTrip.
Context (parse_constant : string -> float) (repr : float -> string) (st : style).

(** The text is read as the value, whatever follows that cannot continue a number. *)
Definition reads (t : string) (v : pyval) : Prop :=
  starts_value t = true
  /\ forall fuel rest, number_stop rest = true -> (2 * String.length t + 1 <= fuel)%nat ->
       scan_once parse_constant fuel (t ++ rest) = Ok (v, rest).

Lemma scan_elements_items w1 w items fuel rest :
  str_all json_white w1 = true -> str_all json_white w = true -> items <> [] ->
  Forall (fun tv : string * pyval => reads tv.1 tv.2) items ->
  (2 * String.length (join (String "," w1) (map fst items)) + 2 <= fuel)%nat ->
  scan_elements parse_constant fuel (join (String "," w1) (map fst items) ++ w ++ String "]" rest) = Ok (map snd items, rest).
Proof.
  intros Hw1 Hw. revert fuel. induction items as [|[t v] items IH]; intros fuel Hne Hitems Hfuel; [done|].
  apply Forall_cons in Hitems as [[_ Ht] Hitems]. cbn [fst snd] in Ht.
  destruct fuel as [|fuel]; [lia|]. cbn [scan_elements]. destruct items as [|[t' v'] items].
  - cbn [map fst snd join] in *. rewrite Ht by (by apply white_stops || lia). cbn [mbind result_bind].
    rewrite skip_white_app by done. done.
  - pose proof Hitems as Hnext. apply Forall_cons in Hnext as [[Hstart _] _]. cbn [fst] in Hstart.
    change (join (String "," w1) (map fst ((t, v) :: (t', v') :: items)))
      with (t ++ String "," w1 ++ join (String "," w1) (map fst ((t', v') :: items)))%string in *.
    rewrite !str_length_app in Hfuel. cbn [String.length] in Hfuel.
    rewrite <-!str_app_assoc. rewrite Ht by (done || lia). cbn [mbind result_bind].
    cbn [String.append skip_white]. change (json_white ",") with false. cbv iota. rewrite strip_other, strip_one by done.
    rewrite skip_white_app; [|done|].
    + rewrite IH by (done || lia). done.
    + destruct items; cbn [map fst join]; rewrite <-?str_app_assoc; by apply starts_value_white, starts_value_app.
Qed.

Definition member_text (x : string) (kt : string * string) : string := (encode_string kt.1 ++ String ":" x ++ kt.2)%string.

Lemma scan_members_items x w1 w (items : list (string * string * pyval)) fuel rest :
  str_all json_white x = true -> str_all json_white w1 = true -> str_all json_white w = true -> items <> [] ->
  Forall (fun ktv : string * string * pyval => reads ktv.1.2 ktv.2) items ->
  (2 * String.length (join (String "," w1) (map (member_text x) (map fst items))) + 2 <= fuel)%nat ->
  scan_members parse_constant fuel (join (String "," w1) (map (member_text x) (map fst items)) ++ w ++ String "}" rest)
  = Ok (map (fun ktv => (ktv.1.1, ktv.2)) items, rest).
Proof.
  intros Hx Hw1 Hw. revert fuel. induction items as [|[[k t] v] items IH]; intros fuel Hne Hitems Hfuel; [done|].
  apply Forall_cons in Hitems as [[Hstart Ht] Hitems]. cbn [fst snd] in *.
  destruct fuel as [|fuel]; [lia|].
  assert (forall tail, number_stop tail = true -> (2 * String.length (member_text x (k, t)) + 1 <= S fuel)%nat ->
    scan_members parse_constant (S fuel) (member_text x (k, t) ++ tail) =
    match strip_prefix "}" (skip_white tail), strip_prefix "," (skip_white tail) with
    | Some r, _ => Ok ([(k, v)], r)
    | None, Some r => '(kvs, r) ← scan_members parse_constant fuel (skip_white r); Ok ((k, v) :: kvs, r)
    | None, None => Raise JSONDecodeError
    end) as Hmember.
  { intros tail Htail Hlen. unfold member_text, encode_string. cbn [fst snd]. rewrite <-!str_app_assoc.
    cbn [scan_members String.append]. unfold DQ. rewrite (strip_one quote_char). cbn [or_raise mbind result_bind].
    rewrite <-!str_app_assoc. cbn [String.append]. fold quote_char.
    rewrite scanstring_encode. cbn [mbind result_bind skip_white]. change (json_white ":") with false. cbv iota.
    rewrite strip_one. cbn [or_raise mbind result_bind].
    rewrite skip_white_app by (done || by apply starts_value_white, starts_value_app). unfold member_text, encode_string in Hlen. cbn [fst snd] in Hlen.
    rewrite !str_length_app in Hlen. cbn [String.length] in Hlen. rewrite !str_length_app in Hlen. cbn [String.length] in Hlen.
    rewrite Ht by (done || lia). done. }
  destruct items as [|[[k' t'] v'] items].
  - cbn [map fst snd join] in *. rewrite Hmember by (by apply white_stops || lia). rewrite skip_white_app by done. done.
  - change (join (String "," w1) (map (member_text x) (map fst ((k, t, v) :: (k', t', v') :: items))))
      with (member_text x (k, t) ++ String "," w1 ++ join (String "," w1) (map (member_text x) (map fst ((k', t', v') :: items))))%string in *.
    rewrite !str_length_app in Hfuel. cbn [String.length] in Hfuel.
    rewrite <-!str_app_assoc. rewrite Hmember by (done || lia).
    cbn [String.append skip_white]. change (json_white ",") with false. cbv iota. rewrite strip_other, strip_one by done.
    rewrite skip_white_app; [|done|].
    + rewrite IH by (done || lia). done.
    + destruct items; cbn [map fst join]; done.
Qed.

(** *** Values *)

Lemma scan_number_first t v r :
  scan_number t = Some (v, r) -> exists c t', t = String c t' /\ (c = "-"%char \/ is_digit c = true).
Proof.
  destruct t as [|c t]; [done|]. intros H. exists c, t. split; [done|]. destruct (Ascii.eqb_spec c "-") as [->|Hc]; [by left|right].
  unfold scan_number in H. assert (scan_minus (String c t) = (false, String c t)) as E
    by (unfold scan_minus; destruct c as [[] [] [] [] [] [] [] []]; done).
  rewrite E in H. cbn [scan_integer] in H. destruct (Ascii.eqb_spec c "0") as [->|_]; [done|]. by destruct (is_digit c).
Qed.

Lemma reads_number t v : scan_number t = Some (v, EmptyString) -> reads t v.
Proof.
  intros Ht. destruct (scan_number_first _ _ _ Ht) as (c & t' & -> & Hc). split.
  - destruct Hc as [->|Hc]; [done|]. by destruct c as [[] [] [] [] [] [] [] []].
  - intros [|fuel] rest Hrest Hfuel; [lia|]. apply (scan_number_extend _ _ rest) in Ht; [|done].
    cbn [String.append scan_once] in *.
    assert (scan_atom parse_constant (String c (t' ++ rest)) = Ok (v, rest)) as Hatom.
    { unfold scan_atom. rewrite Ht. destruct Hc as [->|Hc]; [done|]. by destruct c as [[] [] [] [] [] [] [] []]. }
    rewrite Hatom. destruct Hc as [->|Hc]; [done|]. by destruct c as [[] [] [] [] [] [] [] []].
Qed.

Lemma reads_string s : reads (encode_string s) (VStr s).
Proof.
  split; [done|]. intros [|fuel] rest _ Hfuel; [lia|]. unfold encode_string. cbn [String.append scan_once].
  change (Ascii.eqb quote_char quote_char) with true. cbv iota. unfold DQ. rewrite <-str_app_assoc.
  cbn [String.append]. fold quote_char. by rewrite scanstring_encode.
Qed.

Lemma newline_indent_white level : str_all json_white (newline_indent st level) = true.
Proof. unfold newline_indent. destruct (indent st) as [n|]; [|done]. cbn. by induction (n * level)%nat. Qed.

Lemma join_starts_value sep t ts : starts_value t = true -> starts_value (join sep (t :: ts)) = true.
Proof. intros Ht. destruct t as [|c t]; [done|]. by destruct ts. Qed.

Lemma dict_of_pairs_NoDup pairs : NoDup (map fst pairs) -> dict_of_pairs pairs = pairs.
Proof.
  intros Hnd. unfold dict_of_pairs. induction pairs as [|[k v] pairs IH] using rev_ind; [done|].
  rewrite map_app, NoDup_app in Hnd. destruct Hnd as (Hnd & Hnin & _). rewrite foldl_app, IH by done. cbn.
  apply dset_new. intros Hin. apply (Hnin k); [exact Hin|by left].
Qed.

Lemma order_items_map {A B} (f : A -> B) (l : list (string * A)) :
  order_items st (map (fun kv => (kv.1, f kv.2)) l) = map (fun kv => (kv.1, f kv.2)) (order_items st l).
Proof.
  unfold order_items. destruct (sort_keys st); [|done]. unfold sorted. induction l as [|[k a] l IH]; [done|].
  cbn [map foldr fst snd]. rewrite IH. generalize (foldr (insert_sorted key_le) [] l). clear.
  induction l as [|[k' a'] l IH]; [done|]. cbn. unfold key_le at 1 3. cbn [fst]. destruct (str_le k k'); [done|]. cbn. by rewrite IH.
Qed.

Lemma order_items_perm {A} (l : list (string * A)) : order_items st l ≡ₚ l.
Proof. unfold order_items. destruct (sort_keys st); [apply sorted_perm|done]. Qed.

Hypothesis Hst : style_ok st = true.

Lemma style_parts :
  exists w1 x, item_separator st = String "," w1 /\ key_separator st = String ":" x
               /\ str_all json_white w1 = true /\ str_all json_white x = true.
Proof.
  unfold style_ok in Hst. destruct (item_separator st) as [|c w], (key_separator st) as [|d x]; try done.
  rewrite !andb_true_iff, !Ascii.eqb_eq in Hst. destruct Hst as (((-> & Hw) & ->) & Hx). by exists w, x.
Qed.

(** What is behind an opening bracket, up to the spaces: a value or a member, the
    others, and the closing bracket. *)
Lemma bracket_text level o c t ts rest :
  starts_value t = true ->
  exists w1 body, item_separator st = String "," w1
    /\ body = join (String "," (w1 ++ newline_indent st (S level))) (t :: ts)
    /\ str_all json_white (w1 ++ newline_indent st (S level)) = true
    /\ (bracket st level (String o "") (String c "") (t :: ts) ++ rest)%string
       = String o (newline_indent st (S level) ++ body ++ newline_indent st level ++ String c rest)
    /\ skip_white (newline_indent st (S level) ++ body ++ newline_indent st level ++ String c rest)
       = (body ++ newline_indent st level ++ String c rest)%string
    /\ strip_prefix "]" (body ++ newline_indent st level ++ String c rest) = None
    /\ strip_prefix "}" (body ++ newline_indent st level ++ String c rest) = None
    /\ (String.length body + 2 <= String.length (bracket st level (String o "") (String c "") (t :: ts)))%nat.
Proof.
  intros Hstart. destruct style_parts as (w1 & x & Hsep & _ & Hw1 & _). exists w1. eexists. split; [done|]. split; [done|].
  rewrite str_all_app, Hw1, newline_indent_white. split; [done|].
  pose proof (join_starts_value (String "," (w1 ++ newline_indent st (S level))) t ts Hstart) as Hjoin.
  unfold bracket. rewrite Hsep. cbn [String.append].
  set (body := join (String "," (w1 ++ newline_indent st (S level))) (t :: ts)) in *.
  assert (starts_value (body ++ newline_indent st level ++ String c rest) = true) as Hbody by by apply starts_value_app.
  split; [by rewrite <-!str_app_assoc|]. split.
  { apply skip_white_app; [apply newline_indent_white|by apply starts_value_white]. }
  destruct (starts_value_closing _ Hbody) as [-> ->]. split; [done|]. split; [done|].
  cbn [String.length]. rewrite !str_length_app. cbn [String.length]. lia.
Qed.

Lemma reads_list level (items : list (string * pyval)) :
  Forall (fun tv : string * pyval => reads tv.1 tv.2) items ->
  reads (bracket st level "[" "]" (map fst items)) (VList (map snd items)).
Proof.
  intros Hitems. destruct items as [|[t v] items]; (split; [done|]); intros [|fuel] rest _ Hfuel; try lia; [done|].
  pose proof Hitems as Hfirst. apply Forall_cons in Hfirst as [[Hstart _] _]. cbn [map fst] in *.
  destruct (bracket_text level "[" "]" t (map fst items) rest Hstart) as (w1 & body & _ & Hbody & Hw & Ht & Hskip & Hclose & _ & Hlen).
  rewrite Ht. cbn [scan_once]. change (Ascii.eqb "[" quote_char) with false. change (Ascii.eqb "[" "{") with false.
  change (Ascii.eqb "[" "[") with true. cbv iota. rewrite Hskip, Hclose, Hbody.
  pose proof (scan_elements_items (w1 ++ newline_indent st (S level)) (newline_indent st level) ((t, v) :: items) fuel rest) as Hel.
  cbn [map fst] in Hel. rewrite Hel; [done|done|apply newline_indent_white|done|done|]. rewrite <-Hbody. lia.
Qed.

Lemma reads_dict level (items : list (string * string * pyval)) :
  Forall (fun ktv : string * string * pyval => reads ktv.1.2 ktv.2) items -> NoDup (map (fun ktv => ktv.1.1) items) ->
  reads (bracket st level "{" "}" (map (fun kt : string * string => (encode_string kt.1 ++ key_separator st ++ kt.2)%string) (map fst items)))
    (VDict (map (fun ktv => (ktv.1.1, ktv.2)) items)).
Proof.
  intros Hitems Hnd. destruct items as [|[[k t] v] items]; (split; [done|]); intros [|fuel] rest _ Hfuel; try lia; [done|].
  destruct style_parts as (w1' & x & Hsep & Hkey & _ & Hx). rewrite Hkey in *. fold (member_text x) in *. cbn [map fst] in *.
  destruct (bracket_text level "{" "}" (member_text x (k, t)) (map (member_text x) (map fst items)) rest)
    as (w1 & body & _ & Hbody & Hw & Ht & Hskip & _ & Hclose & Hlen); [done|].
  rewrite Ht. cbn [scan_once]. change (Ascii.eqb "{" quote_char) with false.
  change (Ascii.eqb "{" "{") with true. cbv iota. rewrite Hskip, Hclose, Hbody.
  pose proof (scan_members_items x (w1 ++ newline_indent st (S level)) (newline_indent st level) ((k, t, v) :: items) fuel rest) as Hel.
  cbn [map fst] in Hel. rewrite Hel; [|done|done|apply newline_indent_white|done|done|rewrite <-Hbody; lia].
  cbn [mbind result_bind]. rewrite dict_of_pairs_NoDup; [done|]. cbn [map fst snd]. rewrite map_map. exact Hnd.
Qed.

Lemma iterencode_reads v : json_ok repr v = true -> forall level, reads (iterencode repr st level v) (normal st v).
Proof.
  induction v as [|b|n|y|s|l IH|d IH] using pyval_nested_ind; intros Hv level.
  - split; [done|]. intros [|fuel] rest _ Hfuel; [lia|done].
  - destruct b; (split; [done|]); intros [|fuel] rest _ Hfuel; (lia || done).
  - apply reads_number, scan_number_int.
  - apply reads_number. cbn in Hv |- *. unfold float_ok in Hv. apply andb_true_iff in Hv as [_ Hv].
    destruct (scan_number (repr y)) as [[[] []]|]; try done. apply Z.eqb_eq in Hv. by subst.
  - apply reads_string.
  - cbn [iterencode normal]. cbn in Hv.
    pose proof (reads_list level (map (fun v => (iterencode repr st (S level) v, normal st v)) l)) as Hl.
    rewrite !map_map in Hl. apply Hl. clear Hl. apply Forall_map. rewrite forallb_forall in Hv. rewrite Forall_forall in IH |- *.
    intros v Hin. apply IH; [done|]. apply Hv. by apply list_elem_of_In.
  - cbn [iterencode normal]. cbn in Hv. apply andb_true_iff in Hv as [Hnd Hv]. apply bool_decide_eq_true in Hnd.
    set (items := order_items st d).
    pose proof (reads_dict level (map (fun kv => (kv.1, iterencode repr st (S level) kv.2, normal st kv.2)) items)) as Hd.
    rewrite !map_map in Hd. rewrite !order_items_map, !map_map. cbn [fst snd] in Hd |- *. apply Hd; clear Hd.
    + apply Forall_map. rewrite forallb_forall in Hv. rewrite Forall_forall in IH |- *. intros kv Hin. cbn [fst snd].
      unfold items in Hin. rewrite order_items_perm in Hin. apply IH; [done|]. apply Hv. by apply list_elem_of_In.
    + unfold items. rewrite (order_items_perm d). exact Hnd.
Qed.
End RoundTrip.

(** What [dumps] writes, [loads] reads back, whatever the indentation and the
    separators. *)
Lemma loads_dumps parse_constant repr st v :
  style_ok st = true -> json_ok repr v = true -> loads parse_constant (dumps repr st v) = Ok (normal st v).
Proof.
  intros Hst Hv. destruct (iterencode_reads parse_constant repr st Hst v Hv 0) as [Hstart Hscan].
  unfold loads, dumps. assert (skip_white (iterencode repr st 0 v) = iterencode repr st 0 v) as ->.
  { apply (skip_white_app ""); [done|by apply starts_value_white]. }
  rewrite <-(str_app_nil_r (iterencode repr st 0 v)) at 2. rewrite Hscan; [done|done|]. unfold scan_fuel. lia.
Qed.

(** *** Carriage returns *)

Lemma join_no_char c sep ts :
  has_char c sep = false -> Forall (fun t => has_char c t = false) ts -> has_char c (join sep ts) = false.
Proof.
  intros Hsep. induction 1 as [|t ts Ht Hts IH]; [done|]. destruct ts as [|t' ts]; [done|].
  change (join sep (t :: t' :: ts)) with (t ++ sep ++ join sep (t' :: ts))%string. by rewrite !has_char_app, Ht, Hsep, IH.
Qed.

Lemma encode_string_no_cr s : has_char cr (encode_string s) = false.
Proof.
  unfold encode_string. rewrite has_char_cons, has_char_app. change (has_char cr DQ) with false. rewrite orb_false_r.
  apply orb_false_iff. split; [done|]. induction s as [|c s IH]; [done|]. cbn [encode_chars]. rewrite has_char_app, IH, orb_false_r.
  destruct c as [[] [] [] [] [] [] [] []]; reflexivity.
Qed.

Lemma newline_indent_no_cr st level : has_char cr (newline_indent st level) = false.
Proof. unfold newline_indent. destruct (indent st) as [n|]; [|done]. rewrite has_char_cons. by induction (n * level)%nat. Qed.

Lemma str_of_Z_no_cr n : has_char cr (str_of_Z n) = false.
Proof.
  assert (forall w m, has_char cr (fixed_width w m) = false) as H.
  { intros w m. apply (str_all_no_char is_digit); [done|apply fixed_width_digits]. }
  unfold str_of_Z. destruct (n <? 0); [rewrite has_char_app|]; by rewrite H.
Qed.

Lemma iterencode_no_cr repr st v :
  has_char cr (item_separator st) = false -> has_char cr (key_separator st) = false -> json_ok repr v = true ->
  forall level, has_char cr (iterencode repr st level v) = false.
Proof.
  intros Hsep Hkey.
  assert (forall level o c ts, has_char cr o = false -> has_char cr c = false -> Forall (fun t => has_char cr t = false) ts ->
            has_char cr (bracket st level o c ts) = false) as Hbracket.
  { intros level o c ts Ho Hc Hts. unfold bracket. destruct ts as [|t ts]; [by rewrite has_char_app, Ho|].
    rewrite !has_char_app, Ho, Hc, !newline_indent_no_cr, join_no_char; [done| |done].
    by rewrite has_char_app, Hsep, newline_indent_no_cr. }
  induction v as [|b|n|y|s|l IH|d IH] using pyval_nested_ind; intros Hv level; cbn [iterencode]; cbn in Hv.
  - done.
  - by destruct b.
  - apply str_of_Z_no_cr.
  - unfold float_ok in Hv. apply andb_true_iff in Hv as [Hv _]. by apply (str_all_no_char float_char).
  - apply encode_string_no_cr.
  - apply Hbracket; [done..|]. apply Forall_map. rewrite forallb_forall in Hv. rewrite Forall_forall in IH |- *.
    intros v Hin. apply IH; [done|]. apply Hv. by apply list_elem_of_In.
  - apply andb_true_iff in Hv as [_ Hv]. apply Hbracket; [done..|]. rewrite order_items_map, map_map. apply Forall_map.
    rewrite forallb_forall in Hv. rewrite Forall_forall in IH |- *. intros kv Hin. cbn [fst snd].
    rewrite order_items_perm in Hin. rewrite !has_char_app, encode_string_no_cr, Hkey. apply IH; [done|]. apply Hv. by apply list_elem_of_In.
Qed.

(** ** The scanner ends *)

Lemma skip_white_length s : (String.length (skip_white s) <= String.length s)%nat.
Proof. induction s as [|c s IH]; cbn; [lia|]. destruct (json_white c); cbn; lia. Qed.

Lemma strip_prefix_length l s r : strip_prefix l s = Some r -> (String.length s = String.length l + String.length r)%nat.
Proof. intros ->%strip_prefix_Some. by rewrite str_length_app. Qed.

(** An error of the scanner, or a value and a rest that is shorter than the text. *)
Definition scan_error (e : exn) : Prop := e = JSONDecodeError \/ e = Unmodelled.
Definition shortens {A} (n : nat) (m : result (A * string)) : Prop :=
  match m with Ok (_, r) => (String.length r < n)%nat | Raise e => scan_error e end.

Lemma shortens_Ok {A} n (a : A) r : (String.length r < n)%nat -> shortens n (Ok (a, r)).
Proof. done. Qed.

Lemma decode_error : scan_error JSONDecodeError.
Proof. by left. Qed.
Lemma unmodelled_error : scan_error Unmodelled.
Proof. by right. Qed.

(** The computation fails with one of them. *)
Ltac scan_fails := first [exact decode_error | exact unmodelled_error].

(** The computation goes on with a value and a shorter text. *)
Lemma shortens_then {A B} n k (m : result (A * string)) (f : A -> string -> result (B * string)) :
  shortens n m -> (forall a r, (String.length r < n)%nat -> shortens k (f a r)) -> shortens k ('(a, r) ← m; f a r).
Proof. intros Hm Hf. destruct m as [[a r]|e]; [by apply Hf|done]. Qed.

Lemma shortens_bind {A B} n k (m : result (A * string)) (f : A -> B) :
  shortens n m -> (n <= k)%nat -> shortens k ('(a, r) ← m; Ok (f a, r)).
Proof. intros Hm Hk. apply (shortens_then n); [done|]. intros a r Hr. apply shortens_Ok. lia. Qed.

Lemma scanstring_shortens s : shortens (String.length s) (scanstring s).
Proof.
  enough (forall n s, (String.length s <= n)%nat -> shortens (String.length s) (scanstring s)) as H by by apply (H (String.length s)).
  clear s. induction n as [|n IH]; intros [|c s] Hn; cbn [String.length] in Hn; try lia; try scan_fails.
  cbn [scanstring String.length]. destruct (Ascii.eqb c quote_char); [apply shortens_Ok; lia|].
  assert (forall e r, (String.length r <= String.length s)%nat ->
            shortens (S (String.length s)) ('(t, r) ← scanstring r; Ok (String e t, r))) as Hnext.
  { intros e r Hr. apply (shortens_bind (String.length r)); [apply IH; lia|lia]. }
  destruct (Ascii.eqb c backslash_char).
  - assert (forall e r, (String.length r <= String.length s)%nat ->
        shortens (S (String.length s)) (e ← or_raise JSONDecodeError (simple_escape e); '(t, r) ← scanstring r; Ok (String e t, r))) as Hsimple.
    { intros e r Hr. destruct (simple_escape e); cbn; [by apply Hnext|scan_fails]. }
    assert (forall h1 h2 h3 h4 r, (String.length r <= String.length s)%nat ->
        shortens (S (String.length s)) (u ← unicode_escape h1 h2 h3 h4; '(t, r) ← scanstring r; Ok (String u t, r))) as Hunicode.
    { intros h1 h2 h3 h4 r Hr. unfold unicode_escape. repeat case_match; cbn; solve [by apply Hnext|scan_fails]. }
    destruct s as [|e s]; [scan_fails|].
    assert (String.length s <= String.length (String e s))%nat as Hs by (cbn; lia).
    destruct e as [[] [] [] [] [] [] [] []]; try (by apply Hsimple).
    destruct s as [|h1 [|h2 [|h3 [|h4 r]]]]; try (by apply Hsimple). apply Hunicode. cbn. lia.
  - destruct (nat_of_ascii c <? 32)%nat; [scan_fails|]. by apply Hnext.
Qed.

Lemma span_length p s : (String.length (span p s).2 <= String.length s)%nat.
Proof. induction s as [|c s IH]; cbn; [lia|]. destruct (p c); [|cbn; lia]. destruct (span p s); cbn in *; lia. Qed.

Lemma scan_number_length s v r : scan_number s = Some (v, r) -> (String.length r < String.length s)%nat.
Proof.
  unfold scan_number. intros H.
  assert (String.length (scan_minus s).2 <= String.length s)%nat as H0
    by (destruct s as [|[[] [] [] [] [] [] [] []] s]; cbn; lia).
  destruct (scan_minus s) as [neg s1]. cbn [snd] in H0.
  assert (forall ds r1, scan_integer s1 = Some (ds, r1) -> (String.length r1 < String.length s1)%nat) as H1.
  { intros ds r1. destruct s1 as [|c s1]; [done|]. cbn [scan_integer].
    destruct (Ascii.eqb c "0"); [intros [= _ <-]; cbn; lia|]. destruct (is_digit c); [|done].
    pose proof (span_length is_digit s1). destruct (span is_digit s1). intros [= _ <-]. cbn in *. lia. }
  destruct (scan_integer s1) as [[ds r1]|]; [|done]. specialize (H1 ds r1 eq_refl). cbn in H.
  assert (String.length (scan_fraction r1).2 <= String.length r1)%nat as H2.
  { destruct r1 as [|[[] [] [] [] [] [] [] []] r1]; try done. cbn [scan_fraction].
    pose proof (span_length is_digit r1). destruct (span is_digit r1) as [[|] ?]; cbn in *; lia. }
  destruct (scan_fraction r1) as [fs r2]. cbn [snd] in H2.
  assert (String.length (scan_exponent r2).2 <= String.length r2)%nat as H3.
  { destruct r2 as [|e r2]; [done|]. cbn [scan_exponent]. destruct (_ || _); [|done].
    assert (String.length (scan_sign r2).2 <= String.length r2)%nat as Hs
      by (destruct r2 as [|[[] [] [] [] [] [] [] []] r2]; cbn; lia).
    destruct (scan_sign r2) as [sg r3]. pose proof (span_length is_digit r3). destruct (span is_digit r3) as [[|] ?]; cbn in *; lia. }
  destruct (scan_exponent r2) as [e r3]. injection H as _ <-. cbn in H3. lia.
Qed.

Section Total.
Context (parse_constant : string -> float).

Lemma scan_atom_shortens s : shortens (String.length s) (scan_atom parse_constant s).
Proof.
  unfold scan_atom, scan_constant.
  repeat case_match; try match goal with p : pyval * string |- _ => destruct p end; try (scan_fails); apply shortens_Ok;
    match goal with
    | H : strip_prefix _ _ = Some _ |- _ => apply strip_prefix_length in H; cbn in H; lia
    | H : scan_number _ = Some _ |- _ => apply scan_number_length in H; lia
    end.
Qed.

Lemma scan_shortens fuel :
  (forall s, (2 * String.length s + 1 <= fuel)%nat -> shortens (String.length s) (scan_once parse_constant fuel s))
  /\ (forall s, (2 * String.length s + 2 <= fuel)%nat -> shortens (String.length s) (scan_elements parse_constant fuel s))
  /\ (forall s, (2 * String.length s + 2 <= fuel)%nat -> shortens (String.length s) (scan_members parse_constant fuel s)).
Proof.
  induction fuel as [|fuel (IHo & IHe & IHm)]; [split; [|split]; intros s H; lia|].
  split; [|split]; intros s Hf.
  - cbn [scan_once]. destruct s as [|c s]; [scan_fails|]. cbn [String.length] in *. pose proof (skip_white_length s) as Hw.
    destruct (Ascii.eqb c quote_char).
    { apply (shortens_bind (String.length s)); [apply scanstring_shortens|lia]. }
    destruct (Ascii.eqb c "{").
    { destruct (strip_prefix "}" (skip_white s)) eqn:E; [apply strip_prefix_length in E; cbn in E; apply shortens_Ok; lia|].
      apply (shortens_bind (String.length (skip_white s))); [apply IHm; lia|lia]. }
    destruct (Ascii.eqb c "["); [|apply (scan_atom_shortens (String c s))].
    destruct (strip_prefix "]" (skip_white s)) eqn:E; [apply strip_prefix_length in E; cbn in E; apply shortens_Ok; lia|].
    apply (shortens_bind (String.length (skip_white s))); [apply IHe; lia|lia].
  - cbn [scan_elements]. apply (shortens_then (String.length s)); [apply IHo; lia|]. intros v r Hr. pose proof (skip_white_length r).
    destruct (strip_prefix "]" (skip_white r)) eqn:E1; [apply strip_prefix_length in E1; cbn in E1; apply shortens_Ok; lia|].
    destruct (strip_prefix "," (skip_white r)) as [r'|] eqn:E2; [|scan_fails].
    apply strip_prefix_length in E2. cbn in E2. pose proof (skip_white_length r').
    apply (shortens_bind (String.length (skip_white r'))); [apply IHe; lia|lia].
  - cbn [scan_members]. destruct (strip_prefix DQ s) as [s0|] eqn:E0; [|scan_fails]. cbn [or_raise mbind result_bind].
    apply strip_prefix_length in E0. cbn in E0.
    apply (shortens_then (String.length s0)); [apply scanstring_shortens|]. intros k r Hr. pose proof (skip_white_length r).
    destruct (strip_prefix ":" (skip_white r)) as [r1|] eqn:E1; [|scan_fails]. cbn [or_raise mbind result_bind].
    apply strip_prefix_length in E1. cbn in E1. pose proof (skip_white_length r1).
    apply (shortens_then (String.length (skip_white r1))); [apply IHo; lia|]. intros v r2 Hr2. pose proof (skip_white_length r2).
    destruct (strip_prefix "}" (skip_white r2)) eqn:E3; [apply strip_prefix_length in E3; cbn in E3; apply shortens_Ok; lia|].
    destruct (strip_prefix "," (skip_white r2)) as [r'|] eqn:E2; [|scan_fails].
    apply strip_prefix_length in E2. cbn in E2. pose proof (skip_white_length r').
    apply (shortens_bind (String.length (skip_white r'))); [apply IHm; lia|lia].
Qed.

(** Reading a text always ends, with a value or an exception of the scanner. *)
Lemma loads_errors s e : loads parse_constant s = Raise e -> scan_error e.
Proof.
  unfold loads. destruct (scan_shortens (scan_fuel (skip_white s))) as [H _].
  specialize (H (skip_white s)). destruct (scan_once _ _ _) as [[v r]|e']; cbn in *.
  - destruct (String.eqb _ _); cbn; [done|]. intros [= <-]. scan_fails.
  - intros [= <-]. apply H. unfold scan_fuel. lia.
Qed.
End Total.
