(* ===== verification/PyRepr.v ===== *)
(** * The text of a float

    [float.__repr__]: the shortest decimal that is read as the float, the nearest to it
    among those of that length, in fixed notation from 1e-4 to 1e16 and with an exponent
    elsewhere.  Seventeen digits are always enough, so that what is written is read back. *)

From S2P Require Import Prelude PyStr PyInt PyFloat PySort Fields PyJson.

(** The floats among the integers: those that a rounding leaves. *)
Definition is_float (x : Z) : bool := round_frac x 1 =? x.

(** ** The digits *)

(** The exponent of the first decimal digit of [x > 0]. *)
Definition exponent10 (x : float) : Z :=
  if one <=? x then Z.of_nat (ndigits (x / one)) - 1 else - Z.of_nat (ndigits ((one - 1) / x)).

(** The two integers around [x / 10^s], the nearest first. *)
Definition nearest_decimals (x : float) (s : Z) : Z * Z :=
  let num := if 0 <=? s then x else x * 10 ^ (- s) in
  let den := if 0 <=? s then one * 10 ^ s else one in
  let digits := round_half_even num den in
  (digits, if digits * den <=? num then digits + 1 else digits - 1).

Definition reads_as (x : float) (digits s : Z) : bool := decimal_float false digits s =? x.

(** The digits and the exponent of the last one, with [n] digits or more. *)
Fixpoint shortest_from (fuel : nat) (n k : Z) (x : float) : Z * Z :=
  let s := k + 1 - n in
  let ds := nearest_decimals x s in
  match fuel with
  | O => (ds.1, s)
  | S fuel =>
      if reads_as x ds.1 s then (ds.1, s)
      else if reads_as x ds.2 s then (ds.2, s)
      else shortest_from fuel (n + 1) k x
  end.

(** No zero at the end. *)
Fixpoint strip_zeros (fuel : nat) (digits s : Z) : Z * Z :=
  match fuel with
  | O => (digits, s)
  | S fuel => if (0 <? digits) && (digits mod 10 =? 0) then strip_zeros fuel (digits / 10) (s + 1) else (digits, s)
  end.

Definition shortest (x : float) : Z * Z :=
  let ds := shortest_from 16 1 (exponent10 x) x in strip_zeros 17 ds.1 ds.2.

(** ** The layout *)

Fixpoint zeros (n : nat) : string := match n with O => EmptyString | S n => String "0" (zeros n) end.

(** [l[:n]] and [l[n:]] *)
Fixpoint str_take (n : nat) (s : string) : string :=
  match n, s with S n, String c s => String c (str_take n s) | _, _ => EmptyString end.
Fixpoint str_drop (n : nat) (s : string) : string :=
  match n, s with S n, String c s => str_drop n s | _, _ => s end.

(** [e-05]: a sign and two digits at least. *)
Definition exponent_text (e : Z) : string :=
  ((if (e <? 0)%Z then "e-" else "e+") ++ fmt0 2 (Z.abs e))%string.

(** The digits [ds], the first of them at 10^(point - 1). *)
Definition layout (ds : string) (point : Z) : string :=
  let n := Z.of_nat (String.length ds) in
  if (-4 <? point) && (point <=? 16) then
    if point <=? 0 then ("0." ++ zeros (Z.to_nat (- point)) ++ ds)%string
    else if n <=? point then (ds ++ zeros (Z.to_nat (point - n)) ++ ".0")%string
    else (str_take (Z.to_nat point) ds ++ "." ++ str_drop (Z.to_nat point) ds)%string
  else
    (str_take 1 ds ++ (if (n <=? 1)%Z then EmptyString else "." ++ str_drop 1 ds) ++ exponent_text (point - 1)%Z)%string.

Definition positive_repr (x : float) : string :=
  let '(digits, s) := shortest x in
  let ds := str_of_Z digits in
  layout ds (s + Z.of_nat (String.length ds)).

Definition float_repr (x : float) : string :=
  if x =? 0 then "0.0" else if x <? 0 then "-" ++ positive_repr (- x) else positive_repr x.

(** [str(v)], for a value in an f-string; that of a container is not modelled. *)
Definition py_str (v : pyval) : result string :=
  match v with
  | VNone => Ok "None"
  | VBool b => Ok (if b then "True" else "False")
  | VInt n => Ok (str_of_Z n)
  | VFloat x => Ok (float_repr x)
  | VStr s => Ok s
  | VList _ | VDict _ => Raise Unmodelled
  end%string.

(** ** Seventeen digits are enough *)

Lemma round_half_even_unique n d m : 0 < d -> 2 * Z.abs (n - m * d) < d -> round_half_even n d = m.
Proof. intros Hd Hm. pose proof (round_half_even_bound n d Hd). nia. Qed.

(** The significand and the exponent of a positive float. *)
Lemma is_float_split x :
  0 < x -> is_float x = true ->
  exists m, let e := ulp_exp x in x = m * 2 ^ e /\ 0 < m < 2 ^ 53 /\ (e = 0 \/ 2 ^ 52 <= m).
Proof.
  intros Hx Hf. apply Z.eqb_eq in Hf. unfold round_frac in Hf. rewrite Z.div_1_r, Z.mul_1_l, Z.abs_eq in Hf by lia.
  set (e := ulp_exp x) in *. exists (round_half_even x (2 ^ e)). split; [by rewrite Hf|].
  set (m := round_half_even x (2 ^ e)) in *. pose proof (pow2_pos e (ulp_exp_nonneg x)) as Hp.
  assert (0 < m) by nia. destruct (Z.log2_spec x Hx) as [Hlo Hhi]. pose proof (Z.log2_nonneg x).
  assert (e = 0 /\ Z.log2 x <= 52 \/ e = Z.log2 x - 52 /\ 0 < e) as [[E Hl]|[E Hl]] by (unfold e, ulp_exp; lia).
  - assert (x < 2 ^ 53) by (eapply Z.lt_le_trans; [exact Hhi|apply Z.pow_le_mono_r; lia]).
    rewrite E in Hf. split; [lia|by left].
  - replace (Z.succ (Z.log2 x)) with (53 + e) in Hhi by lia. replace (Z.log2 x) with (52 + e) in Hlo by lia.
    rewrite Z.pow_add_r in Hhi, Hlo by lia. split; [|right]; nia.
Qed.

Lemma ulp_exp_of q e : (e = 0 -> 0 <= q) -> (0 < e -> 2 ^ (52 + e) <= q) -> q < 2 ^ (53 + e) -> 0 <= e -> ulp_exp q = e.
Proof.
  intros H0 H1 H2 He. unfold ulp_exp. destruct (Z.eq_dec e 0) as [->|Hne].
  - destruct (Z.eq_dec q 0) as [->|]; [done|]. assert (Z.log2 q < 53) by (apply Z.log2_lt_pow2; lia). lia.
  - specialize (H1 ltac:(lia)). pose proof (pow2_pos (52 + e) ltac:(lia)).
    rewrite (Z.log2_unique q (52 + e)); [lia|lia|]. split; [done|]. by replace (Z.succ (52 + e)) with (53 + e) by lia.
Qed.

(** A number nearer to a float than 2^-54 of it is rounded to it. *)
Lemma round_frac_near x n d :
  0 < d -> 0 < x -> is_float x = true -> 2 ^ 54 * Z.abs (n - x * d) < x * d -> round_frac n d = x.
Proof.
  intros Hd Hx Hf Hn. destruct (is_float_split x Hx Hf) as (m & Em & Hm & He). pose proof (ulp_exp_nonneg x) as He0.
  set (e := ulp_exp x) in *. clearbody e. pose proof (pow2_pos e He0) as Hp. set (p := 2 ^ e) in *.
  assert (0 < x * d) by nia. assert (0 < n) by lia. unfold round_frac. rewrite (Z.abs_eq n) by lia.
  assert (2 ^ (53 + e) = 2 ^ 53 * p) as E53 by (apply Z.pow_add_r; lia).
  assert (2 ^ (52 + e) = 2 ^ 52 * p) as E52 by (apply Z.pow_add_r; lia).
  assert (n / d < 2 ^ (53 + e)) as Hhi.
  { rewrite E53. apply Z.div_lt_upper_bound; [done|]. subst x.
    assert (n < m * p * d + p * d) by nia. assert (m * p * d + p * d <= d * (2 ^ 53 * p)) by nia. lia. }
  destruct (Z.le_gt_cases (if decide (e = 0) then 0 else 2 ^ (52 + e)) (n / d)) as [Hlo|Hlo].
  - rewrite (ulp_exp_of (n / d) e); [|by intros ->; rewrite decide_True in Hlo|
      by intros; rewrite decide_False in Hlo by lia|done|done].
    fold p. rewrite (round_half_even_unique n (d * p) m); [done|nia|]. subst x.
    replace (m * (d * p)) with (m * p * d) by lia. nia.
  - pose proof (Z.div_pos n d ltac:(lia) ltac:(lia)). case_decide as He1; [lia|]. destruct He as [|He]; [lia|].
    assert (n < d * 2 ^ (52 + e)) as Hlt.
    { pose proof (Z.div_mod n d ltac:(lia)). pose proof (Z.mod_pos_bound n d Hd). nia. }
    rewrite E52 in Hlt. assert (m = 2 ^ 52) as Em2 by nia.
    assert (p = 2 * 2 ^ (e - 1)) as Ep by (unfold p; rewrite <-Z.pow_succ_r by lia; f_equal; lia).
    set (h := 2 ^ (e - 1)) in *. pose proof (pow2_pos (e - 1) ltac:(lia)) as Hh. fold h in Hh.
    rewrite (ulp_exp_of (n / d) (e - 1)); [|intros; apply Z.div_pos; lia| | |lia].
    + fold h. rewrite (round_half_even_unique n (d * h) (2 * m)); [nia|nia|]. subst x.
      replace (2 * m * (d * h)) with (m * p * d) by nia. nia.
    + intros _. rewrite Z.pow_add_r by lia. fold h. apply Z.div_le_lower_bound; [done|]. subst x. nia.
    + replace (53 + (e - 1)) with (52 + e) by lia. exact Hlo.
Qed.

(** [x / 10^s] as a fraction. *)
Lemma decimal_float_fraction digits s :
  decimal_float false digits s
  = round_frac (if 0 <=? s then digits * 10 ^ s * one else digits * one) (if 0 <=? s then 1 else 10 ^ (- s)).
Proof. unfold decimal_float. by destruct (0 <=? s). Qed.

Lemma decimal_float_shift negative digits s : decimal_float negative (digits * 10) s = decimal_float negative digits (s + 1).
Proof.
  unfold decimal_float. f_equal. destruct (Z.leb_spec 0 s) as [H|H].
  - rewrite (proj2 (Z.leb_le 0 (s + 1))) by lia. rewrite Z.pow_add_r by lia. change (10 ^ 1) with 10.
    by replace (digits * 10 * 10 ^ s * one) with (digits * (10 ^ s * 10) * one) by lia.
  - destruct (Z.leb_spec 0 (s + 1)) as [H1|H1].
    + replace s with (-1) by lia. change (10 ^ (- -1)) with (1 * 10). change (10 ^ (-1 + 1)) with 1.
      replace (digits * 10 * one) with (digits * 1 * one * 10) by lia. by rewrite round_frac_scale by lia.
    + replace (- s) with (Z.succ (- (s + 1))) by lia. rewrite Z.pow_succ_r by lia.
      rewrite (Z.mul_comm 10 (10 ^ _)). replace (digits * 10 * one) with (digits * one * 10) by lia.
      rewrite round_frac_scale by (lia || (apply Z.pow_pos_nonneg; lia)). done.
Qed.

Lemma decimal_float_shifts negative digits s (j : nat) :
  decimal_float negative (digits * 10 ^ Z.of_nat j) s = decimal_float negative digits (s + Z.of_nat j).
Proof.
  revert s. induction j as [|j IH]; intros s.
  - rewrite Z.pow_0_r. f_equal; lia.
  - rewrite pow10_succ, (Z.mul_comm 10), Z.mul_assoc, decimal_float_shift, IH. f_equal. lia.
Qed.

(** The first digit. *)
Lemma exponent10_lower x :
  0 < x -> let k := exponent10 x in if 0 <=? k then one * 10 ^ k <= x else one <= x * 10 ^ (- k).
Proof.
  intros Hx. pose proof one_pos. unfold exponent10. cbn zeta. destruct (Z.leb_spec one x) as [H1|H1].
  - pose proof (ndigits_pos (x / one)). assert (0 < x / one) by (apply Z.div_str_pos; lia).
    rewrite (proj2 (Z.leb_le _ _)) by lia. destruct (ndigits_spec (x / one)) as [_ Hd]; [lia|].
    pose proof (Z.div_mod x one ltac:(lia)). pose proof (Z.mod_pos_bound x one ltac:(lia)).
    assert (10 ^ (Z.of_nat (ndigits (x / one)) - 1) <= x / one) as Hq by (destruct Hd as [->|]; [change (10 ^ _) with 1; lia|done]).
    apply Z.le_trans with (one * (x / one)); [apply Z.mul_le_mono_nonneg_l; lia|lia].
  - pose proof (ndigits_pos ((one - 1) / x)). rewrite (proj2 (Z.leb_gt _ _)) by lia. rewrite Z.opp_involutive.
    pose proof (Z.div_mod (one - 1) x ltac:(lia)). pose proof (Z.mod_pos_bound (one - 1) x ltac:(lia)).
    destruct (ndigits_spec ((one - 1) / x)) as [Hd _]; [apply Z.div_pos; lia|]. nia.
Qed.

(** The nearest decimal of seventeen digits is read as the float. *)
Lemma seventeen_digits x :
  0 < x -> is_float x = true -> let s := exponent10 x - 16 in reads_as x (nearest_decimals x s).1 s = true.
Proof.
  intros Hx Hf. pose proof (exponent10_lower x Hx) as Hk. cbn zeta in *. set (k := exponent10 x) in *. clearbody k.
  pose proof one_pos. unfold reads_as. apply Z.eqb_eq. rewrite decimal_float_fraction.
  assert (2 ^ 53 < 10 ^ 16) as H2 by done. unfold nearest_decimals. cbn [fst].
  destruct (Z.leb_spec 0 (k - 16)) as [Hs|Hs].
  - rewrite (proj2 (Z.leb_le 0 k)) in Hk by lia. pose proof (Z.pow_pos_nonneg 10 (k - 16) ltac:(lia) ltac:(lia)).
    replace k with (16 + (k - 16)) in Hk by lia. rewrite Z.pow_add_r in Hk by lia.
    set (p := 10 ^ (k - 16)) in *. clearbody p. set (c := 10 ^ 16) in *. clearbody c. assert (0 < one * p) by nia.
    pose proof (round_half_even_bound x (one * p) ltac:(nia)) as Hb. set (D := round_half_even _ _) in *. clearbody D.
    replace (D * p * one) with (D * (one * p)) by lia. replace (one * (c * p)) with (c * (one * p)) in Hk by lia.
    set (q := one * p) in *. clearbody q. apply round_frac_near; [lia|done|done|]. rewrite Z.mul_1_r.
    assert (2 * Z.abs (D * q - x) <= q) by lia. assert (2 ^ 53 * q < x) by nia. lia.
  - assert (10 ^ 16 * one <= x * 10 ^ (- (k - 16))) as Hlo.
    { destruct (Z.leb_spec 0 k) as [H0|H0].
      - replace 16 with (k + - (k - 16)) at 1 by lia. rewrite Z.pow_add_r by lia.
        pose proof (Z.pow_pos_nonneg 10 (- (k - 16)) ltac:(lia) ltac:(lia)). nia.
      - replace (- (k - 16)) with (16 + - k) by lia. rewrite Z.pow_add_r by lia.
        pose proof (Z.pow_pos_nonneg 10 16 ltac:(lia) ltac:(lia)). nia. }
    pose proof (Z.pow_pos_nonneg 10 (- (k - 16)) ltac:(lia) ltac:(lia)) as Hp. set (p := 10 ^ (- (k - 16))) in *. clearbody p.
    set (c := 10 ^ 16) in *. clearbody c.
    pose proof (round_half_even_bound (x * p) one ltac:(lia)) as Hb. set (D := round_half_even _ _) in *. clearbody D.
    apply round_frac_near; [done|done|done|]. assert (2 * Z.abs (D * one - x * p) <= one) by lia.
    assert (2 ^ 53 * one < x * p) by nia. lia.
Qed.

Lemma shortest_from_reads fuel n k x :
  reads_as x (nearest_decimals x (k + 1 - (n + Z.of_nat fuel))).1 (k + 1 - (n + Z.of_nat fuel)) = true ->
  let ds := shortest_from fuel n k x in reads_as x ds.1 ds.2 = true.
Proof.
  revert n. induction fuel as [|fuel IH]; intros n H; cbn [shortest_from].
  - by rewrite Z.add_0_r in H.
  - destruct (reads_as x (nearest_decimals x (k + 1 - n)).1 (k + 1 - n)) eqn:E1; [done|].
    destruct (reads_as x (nearest_decimals x (k + 1 - n)).2 (k + 1 - n)) eqn:E2; [done|].
    apply IH. by replace (n + 1 + Z.of_nat fuel) with (n + Z.of_nat (S fuel)) by lia.
Qed.

Lemma strip_zeros_reads fuel x digits s :
  reads_as x digits s = true -> let ds := strip_zeros fuel digits s in reads_as x ds.1 ds.2 = true.
Proof.
  revert digits s. induction fuel as [|fuel IH]; intros digits s H; cbn [strip_zeros]; [done|].
  destruct (Z.ltb_spec 0 digits); cbn [andb]; [|done]. destruct (Z.eqb_spec (digits mod 10) 0) as [E|]; [|done].
  apply IH. unfold reads_as in *. rewrite <-decimal_float_shift.
  pose proof (Z.div_mod digits 10 ltac:(lia)). by replace (digits / 10 * 10) with digits by lia.
Qed.

Lemma shortest_reads x : 0 < x -> is_float x = true -> reads_as x (shortest x).1 (shortest x).2 = true.
Proof.
  intros Hx Hf. unfold shortest. apply strip_zeros_reads, shortest_from_reads. cbn [Z.of_nat].
  replace (exponent10 x + 1 - (1 + Z.of_nat 16)) with (exponent10 x - 16) by lia. by apply seventeen_digits.
Qed.

(** What is read as a positive float is positive. *)
Lemma reads_as_pos x digits s : 0 < x -> reads_as x digits s = true -> 0 < digits.
Proof.
  intros Hx H. apply Z.eqb_eq in H. rewrite decimal_float_fraction in H.
  destruct (Z.lt_ge_cases 0 digits) as [|Hd]; [done|]. exfalso. pose proof one_pos.
  set (n := if 0 <=? s then _ else _) in H. set (d := if 0 <=? s then 1 else _) in H.
  assert (n <= 0 /\ 0 < d) as [Hn Hdp].
  { unfold n, d. destruct (Z.leb_spec 0 s); [pose proof (Z.pow_pos_nonneg 10 s)|pose proof (Z.pow_pos_nonneg 10 (- s))]; nia. }
  unfold round_frac in H. pose proof (pow2_pos _ (ulp_exp_nonneg (Z.abs n / d))) as Hp.
  set (p := 2 ^ ulp_exp _) in *. clearbody n d p.
  assert (round_half_even n (d * p) <= round_half_even (0 * (d * p)) (d * p)) as Hm by (apply round_half_even_mono; nia).
  rewrite round_half_even_exact in Hm by nia. nia.
Qed.

(** ** The scanner reads the layout *)

Lemma str_take_drop n s : (str_take n s ++ str_drop n s)%string = s.
Proof. revert s. induction n as [|n IH]; intros [|c s]; cbn; try done. by rewrite IH. Qed.

Lemma str_take_length n s : (n <= String.length s)%nat -> String.length (str_take n s) = n.
Proof. revert s. induction n as [|n IH]; intros [|c s] H; cbn in *; try done; [lia|]. rewrite IH; lia. Qed.

Lemma str_drop_length n s : String.length (str_drop n s) = (String.length s - n)%nat.
Proof. revert s. induction n as [|n IH]; intros [|c s]; cbn; try done. Qed.

Lemma str_all_take_drop p n s : str_all p s = true -> str_all p (str_take n s) = true /\ str_all p (str_drop n s) = true.
Proof. intros H. rewrite <-(str_take_drop n s), str_all_app in H. by apply andb_true_iff in H. Qed.

Lemma zeros_length n : String.length (zeros n) = n.
Proof. induction n; cbn; congruence. Qed.

Lemma zeros_digits n : str_all is_digit (zeros n) = true.
Proof. by induction n. Qed.

Lemma digits_val_app acc a b : digits_val acc (a ++ b) = digits_val (digits_val acc a) b.
Proof. revert acc. induction a as [|c a IH]; intros acc; cbn; [done|apply IH]. Qed.

Lemma digits_val_zeros acc n : digits_val acc (zeros n) = acc * 10 ^ Z.of_nat n.
Proof.
  revert acc. induction n as [|n IH]; intros acc; cbn [zeros digits_val]; [cbn; lia|].
  rewrite IH, pow10_succ. change (digit_val "0") with 0. lia.
Qed.

(** Digits without a zero in front. *)
Definition plain_digits (s : string) : bool :=
  match s with String c s' => negb (Ascii.eqb c "0") && is_digit c && str_all is_digit s' | EmptyString => false end.

Lemma plain_digits_all s : plain_digits s = true -> str_all is_digit s = true.
Proof. destruct s as [|c s]; [done|]. cbn. rewrite !andb_true_iff. tauto. Qed.

Lemma plain_digits_app a b : plain_digits a = true -> str_all is_digit b = true -> plain_digits (a ++ b) = true.
Proof. destruct a as [|c a]; [done|]. cbn. rewrite str_all_app, !andb_true_iff. tauto. Qed.

Lemma str_of_Z_plain n : 0 < n -> plain_digits (str_of_Z n) = true.
Proof.
  intros Hn. rewrite str_of_Z_nonneg by lia. pose proof (scan_integer_digits n ltac:(lia)) as Hs.
  pose proof (fixed_width_digits (ndigits n) n) as Hd. pose proof (digits_val_fixed_width_small (ndigits n) n) as Hv.
  specialize (Hv (conj (Z.lt_le_incl _ _ Hn) (proj1 (ndigits_spec n ltac:(lia))))).
  destruct (fixed_width (ndigits n) n) as [|c t]; [done|]. cbn in Hs, Hd |- *.
  destruct (Ascii.eqb_spec c "0") as [->|Hc]; cbn [negb andb]; [|by destruct (is_digit c)].
  injection Hs as <-. change (0 = n) in Hv. lia.
Qed.

Lemma scan_integer_plain ds rest :
  plain_digits ds = true -> starts_not is_digit rest = true -> scan_integer (ds ++ rest) = Some (ds, rest).
Proof.
  destruct ds as [|c ds]; [done|]. cbn. rewrite !andb_true_iff. intros [[Hc Hd] Hall] Hr.
  apply negb_true_iff in Hc. by rewrite Hc, Hd, span_app.
Qed.

Lemma scan_fraction_dot fs rest :
  fs <> EmptyString -> str_all is_digit fs = true -> starts_not is_digit rest = true ->
  scan_fraction ("." ++ fs ++ rest) = (Some fs, rest).
Proof. intros Hne Hall Hr. cbn. rewrite span_app by done. by destruct fs. Qed.

Lemma exponent_text_digits e : exists sign ds, exponent_text e = String "e" (String sign ds)
  /\ (sign = "-"%char /\ e < 0 \/ sign = "+"%char /\ 0 <= e) /\ str_all is_digit ds = true /\ digits_val 0 ds = Z.abs e
  /\ ds <> EmptyString.
Proof.
  assert (forall n, 0 <= n -> fmt0 2 n <> EmptyString /\ str_all is_digit (fmt0 2 n) = true /\ digits_val 0 (fmt0 2 n) = n) as Hf.
  { intros n Hn. unfold fmt0. rewrite (proj2 (Z.ltb_ge n 0)) by lia. split; [|split; [apply fixed_width_digits|]].
    - destruct (Nat.max 2 (ndigits n)) eqn:E; [lia|done].
    - apply digits_val_fixed_width_small. split; [done|]. pose proof (ndigits_spec n Hn) as [H _].
      eapply Z.lt_le_trans; [exact H|]. apply Z.pow_le_mono_r; lia. }
  destruct (Hf (Z.abs e) ltac:(lia)) as (Hne & Hall & Hv). unfold exponent_text.
  destruct (Z.ltb_spec e 0); [exists "-"%char|exists "+"%char]; exists (fmt0 2 (Z.abs e)); (split; [reflexivity|]);
    (split; [|done]); [by left|by right].
Qed.

Lemma scan_exponent_text e : scan_exponent (exponent_text e) = (Some e, EmptyString).
Proof.
  destruct (exponent_text_digits e) as (sign & ds & -> & Hsign & Hall & Hv & Hne).
  unfold scan_exponent. cbn [orb Ascii.eqb].
  assert (span is_digit ds = (ds, EmptyString)) as Hspan
    by (rewrite <-(str_app_nil_r ds) at 1; by rewrite span_app).
  destruct Hsign as [[-> He]|[-> He]]; cbn [scan_sign]; rewrite Hspan; destruct ds as [|c ds]; try done; rewrite Hv;
    repeat f_equal; lia.
Qed.

Lemma exponent_text_chars e : str_all float_char (exponent_text e) = true.
Proof.
  destruct (exponent_text_digits e) as (sign & ds & -> & Hsign & Hall & _).
  cbn [str_all]. assert (str_all float_char ds = true) as ->.
  { eapply str_all_weaken; [|exact Hall]. intros c Hc. unfold float_char, number_char. by rewrite Hc. }
  by destruct Hsign as [[-> _]|[-> _]].
Qed.

(** A number in parts: an integer, a fraction or none, an exponent or none. *)
Lemma scan_number_parts (negative : bool) ip (fraction : option string) (exponent : option Z) :
  (ip = "0"%string \/ plain_digits ip = true) ->
  (forall fs, fraction = Some fs -> fs <> EmptyString /\ str_all is_digit fs = true) ->
  (fraction <> None \/ exponent <> None) ->
  scan_number ((if negative then "-" else "")
               ++ ip ++ (match fraction with Some fs => "." ++ fs | None => "" end)
               ++ match exponent with Some e => exponent_text e | None => "" end)%string
  = Some (VFloat (decimal_float negative (digits_val 0 (ip ++ default EmptyString fraction))
                    (default 0 exponent - Z.of_nat (String.length (default EmptyString fraction)))), EmptyString).
Proof.
  intros Hip Hfs Hsome. set (ex := match exponent with Some e => exponent_text e | None => "" end%string).
  assert (starts_not is_digit ex = true) as Hex.
  { unfold ex. destruct exponent as [e|]; [|done]. by destruct (exponent_text_digits e) as (? & ? & -> & _). }
  assert (scan_exponent ex = (exponent, EmptyString)) as Hse by (unfold ex; destruct exponent; [apply scan_exponent_text|done]).
  assert (scan_fraction ex = (None, ex)) as Hfe.
  { unfold ex. destruct exponent as [e|]; [|done]. by destruct (exponent_text_digits e) as (? & ? & -> & _). }
  set (fr := match fraction with Some fs => "." ++ fs | None => "" end%string).
  assert (scan_fraction (fr ++ ex) = (fraction, ex) /\ starts_not is_digit (fr ++ ex) = true) as [Hsf Hfr].
  { unfold fr. destruct fraction as [fs|]; [|done]. destruct (Hfs fs eq_refl). rewrite <-str_app_assoc.
    split; [by apply scan_fraction_dot|done]. }
  assert (scan_integer (ip ++ fr ++ ex) = Some (ip, (fr ++ ex)%string)) as Hsi.
  { destruct Hip as [->|Hip]; [done|by apply scan_integer_plain]. }
  unfold scan_number. assert (scan_minus ((if negative then "-" else "") ++ ip ++ fr ++ ex) = (negative, (ip ++ fr ++ ex)%string)) as ->.
  { destruct negative; [done|]. cbn [String.append]. destruct Hip as [->|Hip]; [done|].
    destruct ip as [|c ip]; [done|]. cbn in Hip |- *. destruct c as [[] [] [] [] [] [] [] []]; done. }
  rewrite Hsi. cbn [mbind option_bind]. rewrite Hsf, Hse. destruct fraction, exponent; try done. naive_solver.
Qed.

Lemma plain_digits_length s : plain_digits s = true -> (1 <= String.length s)%nat.
Proof. destruct s; [done|cbn; lia]. Qed.

Lemma plain_digits_take n s : (1 <= n)%nat -> plain_digits s = true -> plain_digits (str_take n s) = true.
Proof.
  destruct n as [|n]; [lia|]. destruct s as [|c s]; [done|]. cbn. rewrite !andb_true_iff. intros _ [? Hall].
  split; [done|]. by apply str_all_take_drop.
Qed.

Lemma str_drop_digits n s :
  str_all is_digit s = true -> (n < String.length s)%nat -> str_drop n s <> EmptyString /\ str_all is_digit (str_drop n s) = true.
Proof.
  intros Hs Hn. split; [|by apply str_all_take_drop]. intros Hnil. apply (f_equal String.length) in Hnil.
  rewrite str_drop_length in Hnil. cbn in Hnil. lia.
Qed.

(** The digits of a layout and the place of the point. *)
Lemma layout_reads (negative : bool) ds point :
  plain_digits ds = true ->
  scan_number ((if negative then "-" else "") ++ layout ds point)%string
  = Some (VFloat (decimal_float negative (digits_val 0 ds) (point - Z.of_nat (String.length ds))), EmptyString).
Proof.
  intros Hds. pose proof (plain_digits_all _ Hds) as Hall. pose proof (plain_digits_length _ Hds) as Hlen.
  unfold layout. set (n := Z.of_nat (String.length ds)).
  destruct ((-4 <? point) && (point <=? 16)) eqn:Efix.
  - destruct (Z.leb_spec point 0) as [H0|H0]; [|destruct (Z.leb_spec n point) as [H1|H1]].
    + pose proof (scan_number_parts negative "0" (Some (zeros (Z.to_nat (- point)) ++ ds)%string) None) as E.
      cbn [from_option id] in E. rewrite str_app_nil_r in E. change ("0." ++ ?s)%string with ("0" ++ "." ++ s)%string. rewrite E; clear E.
      * rewrite !digits_val_app, digits_val_zeros. change (digits_val 0 "0") with 0. rewrite Z.mul_0_l.
        do 4 f_equal. rewrite str_length_app, zeros_length. unfold n. lia.
      * by left.
      * intros ? [= <-]. rewrite str_all_app, zeros_digits. split; [|done]. destruct ds; [cbn in Hlen; lia|].
        by destruct (zeros _).
      * by left.
    + pose proof (scan_number_parts negative (ds ++ zeros (Z.to_nat (point - n)))%string (Some "0"%string) None) as E.
      cbn [from_option id] in E. rewrite str_app_nil_r in E. change ("." ++ "0")%string with ".0"%string in E.
      rewrite (str_app_assoc ds), E; clear E.
      * rewrite !digits_val_app, digits_val_zeros. change (digits_val ?a "0") with (10 * a + 0).
        replace (10 * (digits_val 0 ds * 10 ^ Z.of_nat (Z.to_nat (point - n))) + 0)
          with (digits_val 0 ds * 10 ^ Z.of_nat (S (Z.to_nat (point - n)))) by (rewrite pow10_succ; lia).
        rewrite decimal_float_shifts. do 4 f_equal. cbn [String.length]. lia.
      * right. apply plain_digits_app; [done|apply zeros_digits].
      * by intros ? [= <-].
      * by left.
    + pose proof (scan_number_parts negative (str_take (Z.to_nat point) ds) (Some (str_drop (Z.to_nat point) ds)) None) as E.
      cbn [from_option id] in E. rewrite str_app_nil_r in E. rewrite E; clear E.
      * rewrite str_take_drop. do 4 f_equal. rewrite str_drop_length. unfold n in *. lia.
      * right. apply plain_digits_take; [lia|done].
      * intros ? [= <-]. apply (str_drop_digits (Z.to_nat point)); [done|unfold n in H1; lia].
      * by left.
  - destruct (Z.leb_spec n 1) as [H1|H1].
    + pose proof (scan_number_parts negative (str_take 1 ds) None (Some (point - 1))) as E. cbn [from_option id String.append] in E.
      cbn [String.append]. rewrite E; clear E; [|right; by apply plain_digits_take|done|by right].
      rewrite str_app_nil_r. assert (str_take 1 ds = ds) as ->.
      { rewrite <-(str_take_drop 1 ds) at 2. pose proof (str_drop_length 1 ds). destruct (str_drop 1 ds); [by rewrite str_app_nil_r|].
        unfold n in H1. cbn in *. lia. }
      do 4 f_equal. unfold n in *. cbn. lia.
    + pose proof (scan_number_parts negative (str_take 1 ds) (Some (str_drop 1 ds)) (Some (point - 1))) as E. cbn [from_option id] in E.
      rewrite E; clear E.
      * rewrite str_take_drop. do 4 f_equal. rewrite str_drop_length. unfold n in *. lia.
      * right. by apply plain_digits_take.
      * intros ? [= <-]. apply (str_drop_digits 1); [done|unfold n in H1; lia].
      * by left.
Qed.

Lemma digits_float_chars s : str_all is_digit s = true -> str_all float_char s = true.
Proof. apply str_all_weaken. intros c Hc. unfold float_char, number_char. by rewrite Hc. Qed.

Lemma layout_chars ds point : str_all is_digit ds = true -> str_all float_char (layout ds point) = true.
Proof.
  intros H. assert (forall n, str_all float_char (str_take n ds) = true /\ str_all float_char (str_drop n ds) = true) as Htd.
  { intros n. destruct (str_all_take_drop is_digit n ds H). auto using digits_float_chars. }
  unfold layout. repeat case_match; rewrite ?str_all_app, ?(proj1 (Htd _)), ?(proj2 (Htd _)), ?exponent_text_chars;
    rewrite ?(digits_float_chars (zeros _)) by apply zeros_digits; rewrite ?(digits_float_chars ds) by done; try reflexivity.
Qed.

(** What [repr] writes is read back, for every float. *)
Lemma float_repr_ok x : is_float x = true -> float_ok float_repr x = true.
Proof.
  intros Hf. unfold float_ok, float_repr.
  assert (forall y (neg : bool), 0 < y -> is_float y = true ->
    str_all float_char ((if neg then "-" else "") ++ positive_repr y)%string = true
    /\ scan_number ((if neg then "-" else "") ++ positive_repr y)%string = Some (VFloat (if neg then - y else y), EmptyString)) as Hpos.
  { intros y neg Hy Hfy. pose proof (shortest_reads y Hy Hfy) as Hr. unfold positive_repr. destruct (shortest y) as [D s]. cbn in Hr.
    pose proof (reads_as_pos _ _ _ Hy Hr) as HD. pose proof (str_of_Z_plain D HD) as Hp. split.
    - rewrite str_all_app, layout_chars by (by apply plain_digits_all). by destruct neg.
    - rewrite layout_reads by done. rewrite str_of_Z_nonneg, digits_val_fixed_width_small by (try split; try apply ndigits_spec; lia).
      apply Z.eqb_eq in Hr. replace (s + _ - _) with s by lia. unfold decimal_float in *. by destruct neg; rewrite Hr. }
  destruct (Z.eqb_spec x 0) as [->|Hne]; [done|]. destruct (Z.ltb_spec x 0) as [Hn|Hn].
  - destruct (Hpos (- x) true) as [H1 H2]; [lia| |].
    { unfold is_float in *. rewrite round_frac_opp. apply Z.eqb_eq in Hf. rewrite Hf. apply Z.eqb_refl. }
    cbn [String.append] in *. change (String "-" (positive_repr (- x))) with ("-" ++ positive_repr (- x))%string in *.
    rewrite H1, H2. rewrite Z.opp_involutive. by rewrite Z.eqb_refl.
  - destruct (Hpos x false) as [H1 H2]; [lia|done|]. cbn [String.append] in *. by rewrite H1, H2, Z.eqb_refl.
Qed.

(** ** The results of the operations are floats *)

Lemma round_half_even_abs n d c : 0 < d -> 0 <= c -> Z.abs n <= c * d -> Z.abs (round_half_even n d) <= c.
Proof.
  intros Hd Hc Hn. pose proof (round_half_even_mono n (c * d) d Hd ltac:(lia)) as H1.
  pose proof (round_half_even_mono (- c * d) n d Hd ltac:(lia)) as H2. rewrite !round_half_even_exact in * by done. lia.
Qed.

Lemma is_float_round n d : 0 < d -> is_float (round_frac n d) = true.
Proof.
  intros Hd. unfold is_float. apply Z.eqb_eq. unfold round_frac at 2 3. set (q := Z.abs n / d).
  pose proof (ulp_exp_nonneg q) as He. pose proof (pow2_pos _ He) as Hp.
  assert (Z.abs (round_half_even n (d * 2 ^ ulp_exp q)) <= 2 ^ 53) as Hm.
  { apply round_half_even_abs; [nia|done|]. assert (q < 2 ^ (53 + ulp_exp q)) as Hq.
    { unfold ulp_exp. assert (0 <= q) by (apply Z.div_pos; lia). destruct (Z.eq_dec q 0) as [->|]; [done|].
      pose proof (Z.log2_spec q ltac:(lia)) as [_ Hl]. eapply Z.lt_le_trans; [exact Hl|]. apply Z.pow_le_mono_r; lia. }
    rewrite Z.pow_add_r in Hq by lia. unfold q in *. pose proof (Z.div_mod (Z.abs n) d ltac:(lia)).
    pose proof (Z.mod_pos_bound (Z.abs n) d Hd). set (P := 2 ^ ulp_exp _) in *. clearbody P. nia. }
  set (m := round_half_even _ _) in *. clearbody m. set (e := ulp_exp q) in *. clearbody e.
  destruct (Z.eq_dec (Z.abs m) (2 ^ 53)) as [E|]; [|apply round_frac_repr; lia].
  replace (m * 2 ^ e) with (Z.sgn m * 2 ^ (53 + e)); [apply round_frac_repr; lia|].
  rewrite Z.pow_add_r, <-E by lia. lia.
Qed.

(** A float inside a value. *)
Definition scalar_ok (v : pyval) : bool := match v with VFloat x => is_float x | _ => true end.

Lemma scalar_json_ok v : is_scalar v = true -> scalar_ok v = true -> json_ok float_repr v = true.
Proof. destruct v; try done. intros _. apply float_repr_ok. Qed.

Lemma scalar_ok_convert t v : scalar_ok v = true -> scalar_ok (converted t v) = true.
Proof. destruct t, v as [| [] |n| | | |]; try done; intros _; apply is_float_round; lia. Qed.
