(* ===== verification/Config.v ===== *)
(** * The parameters of a benchmark (benchmark_framework/config.py)

    The dataclass [BenchParameters] on the typed fields of Fields.v, the validators
    of the faults, and the time stamp of the genesis block. *)

From S2P Require Import Prelude PyStr PyInt PyFloat PySort PyDict Naming Fields PyJson PyRepr.

(** [instance.nodes] and [instance.faults], read through their descriptors. *)
Definition instance_nodes (inst : instance) : result pyval :=
  f ← PositiveInt "nodes" None; get_field f inst.

(** [_check_faults]: [value in range(0, instance.nodes + 1)]. *)
Definition check_faults : FieldValidator := fun inst value =>
  nodes ← instance_nodes inst;
  n ← or_raise TypeError (as_int nodes);
  check_int_in_range value (n + 1).

Definition faults_field : result CustomField :=
  Int "faults" (Some (VInt 0)) (Some 0) None [check_faults] false.

Definition instance_faults (inst : instance) : result pyval := f ← faults_field; get_field f inst.

(** [_check_fault_info] *)
Definition check_fault_info : FieldValidator := fun inst fault_time =>
  faults ← instance_faults inst;
  k ← or_raise TypeError (as_int faults);
  _ ← ensure (negb ((0 <? k) && is_none fault_time)) ConfigError;
  ensure (negb ((k =? 0) && negb (is_none fault_time))) ConfigError.

(** The class, its fields in order. *)
Definition BenchParameters : result (list CustomField) :=
  mapM id
    [PositiveInt "nodes" None;
     PositiveInt "clients" None;
     NonnegativeInt "warmup_duration" None;
     Float "rate" None [] false;
     PositiveInt "tx_size" None;
     Float "genesis_hours_in_the_past" None [] false;
     NonnegativeInt "target_block_time" None;
     NonnegativeInt "duration" None;
     Int "runs" (Some (VInt 1)) (Some 1) None [] false;
     faults_field;
     Float "fault_time" (Some VNone) [check_fault_info] true].

Definition bench_fields : list CustomField := match BenchParameters with Ok cls => cls | Raise _ => [] end.

(** [BenchParameters.from_dict] and [.dict] *)
Definition bench_from_dict (obj : instance) : result instance := cls ← BenchParameters; from_dict cls obj.
Definition bench_to_dict (p : instance) : result instance := cls ← BenchParameters; to_dict cls p.

(** [bench_parameters.name] *)
Definition bench_attr (name : string) (p : instance) : result pyval :=
  f ← or_raise AttributeError (List.find (fun f => String.eqb (f_name f) name) bench_fields);
  get_field f p.

Definition bench_int (name : string) (p : instance) : result Z :=
  v ← bench_attr name p; or_raise TypeError (as_int v).

Definition as_float (v : pyval) : option float := match v with VFloat x => Some x | _ => None end.

(** [BenchParameters.compute_genesis_block_timestamp], [now] being [time.time()]. *)
Definition compute_genesis_block_timestamp (now : float) (p : instance) : result Z :=
  let current_time := ftrunc now in
  v ← bench_attr "genesis_hours_in_the_past" p;
  genesis_hours_in_the_past ← or_raise TypeError (as_float v);
  let current_time_delta := fmul (of_int 3600) genesis_hours_in_the_past in
  Ok (ftrunc (fsub (of_int current_time) current_time_delta)).

(** [get_dirname_str] *)
Definition get_dirname_str (bench_param : instance) (max_nodes max_faults : Z) : result string :=
  nodes ← bench_int "nodes" bench_param;
  faults ← bench_int "faults" bench_param;
  rate ← bench_attr "rate" bench_param;
  rate_text ← py_str rate;
  tx_size ← bench_attr "tx_size" bench_param;
  tx_size_text ← py_str tx_size;
  Ok (add_zeros_prefix nodes max_nodes ++ "-" ++ add_zeros_prefix faults max_faults ++ "-" ++ rate_text
      ++ "-" ++ tx_size_text)%string.

(** ** The dictionaries that are accepted *)

Definition none_or_at_least (lo : Z) (v : pyval) : bool :=
  is_none v || match as_int v with Some n => lo <=? n | None => false end.
(** A number that a float can hold: [float(n)] raises on the larger integers. *)
Definition none_or_number (v : pyval) : bool :=
  match v with VNone | VBool _ | VFloat _ => true | VInt n => int_fits n | _ => false end.

(** [obj.get(name, dflt)] *)
Definition value_or (dflt : pyval) (name : string) (obj : instance) : pyval := default dflt (dget name obj).

Definition required : list string :=
  ["nodes"; "clients"; "warmup_duration"; "rate"; "tx_size"; "genesis_hours_in_the_past";
   "target_block_time"; "duration"]%string.

Definition faults_ok (nodes faults fault_time : pyval) : bool :=
  match as_int nodes, as_int faults with
  | Some n, Some k => (1 <=? n) && (0 <=? k) && (k <=? n) && Bool.eqb (k =? 0) (is_none fault_time)
  | _, _ => false
  end && none_or_number fault_time.

Definition acceptable (obj : instance) : bool :=
  let v := fun name => value_or VNone name obj in
  none_or_at_least 1 (v "clients") && none_or_at_least 1 (v "tx_size")
  && none_or_at_least 1 (value_or (VInt 1) "runs" obj)
  && none_or_at_least 0 (v "warmup_duration") && none_or_at_least 0 (v "target_block_time")
  && none_or_at_least 0 (v "duration")
  && none_or_number (v "rate") && none_or_number (v "genesis_hours_in_the_past")
  && faults_ok (v "nodes") (value_or (VInt 0) "faults" obj) (v "fault_time").

(** ** Lemmas *)

Lemma bench_names_ok : names_ok bench_fields.
Proof. apply (bool_decide_unpack _). vm_compute. exact I. Qed.

Lemma set_fields_cons f v fvs obj p :
  set_fields obj ((f, v) :: fvs) = Ok p <->
  (float_fits (f_type f) v = true /\ check_isinstance f (converted (f_type f) v) = Ok tt
   /\ validate f obj (converted (f_type f) v) = Ok tt)
  /\ set_fields (dset (attr_name f) (converted (f_type f) v) obj) fvs = Ok p.
Proof.
  cbn [set_fields foldM fst snd]. rewrite bind_Ok. setoid_rewrite set_field_Ok. split.
  - intros (o & (? & ? & ? & ->) & ?). done.
  - intros [(? & ? & ?) ?]. eauto 10.
Qed.

Lemma int_checks name dflt lo obj v :
  float_fits TInt v = true /\ check_isinstance (MkField name TInt dflt [check_min lo] false) (converted TInt v) = Ok tt
  /\ validate (MkField name TInt dflt [check_min lo] false) obj (converted TInt v) = Ok tt
  <-> none_or_at_least lo v = true.
Proof.
  unfold check_isinstance, validate, none_or_at_least, check_min. cbn.
  destruct v; cbn; try (destruct (lo <=? _)); naive_solver.
Qed.

Lemma bool_fits : int_fits 1 = true /\ int_fits 0 = true.
Proof. split; vm_compute; reflexivity. Qed.

Lemma float_checks name dflt nullable obj v :
  float_fits TFloat v = true /\ check_isinstance (MkField name TFloat dflt [] nullable) (converted TFloat v) = Ok tt
  /\ validate (MkField name TFloat dflt [] nullable) obj (converted TFloat v) = Ok tt
  <-> none_or_number v = true.
Proof.
  unfold check_isinstance, validate, float_fits, none_or_number. destruct bool_fits as [H1 H0].
  destruct v as [|[]|n| | | |]; cbn [as_int]; rewrite ?H1, ?H0; try generalize (int_fits n); clear; cbn; naive_solver.
Qed.

Lemma get_field_not_null f obj v :
  f_nullable f = false -> dget (attr_name f) obj = Some v ->
  get_field f obj = if is_none v then Raise ValueError else Ok v.
Proof. intros Hf Hv. unfold get_field. rewrite Hv, Hf. by destruct v. Qed.

Lemma instance_nodes_eq obj v :
  dget "_nodes"%string obj = Some v -> instance_nodes obj = if is_none v then Raise ValueError else Ok v.
Proof. intros Hv. by apply (get_field_not_null (MkField "nodes" TInt None [check_min 1] false)). Qed.

Lemma instance_faults_eq obj v :
  dget "_faults"%string obj = Some v -> instance_faults obj = if is_none v then Raise ValueError else Ok v.
Proof.
  intros Hv. by apply (get_field_not_null (MkField "faults" TInt (Some (VInt 0)) [check_min 0; check_faults] false)).
Qed.

Lemma faults_checks dflt obj nodes v :
  dget "_nodes"%string obj = Some nodes ->
  float_fits TInt v = true /\ check_isinstance (MkField "faults" TInt dflt [check_min 0; check_faults] false) (converted TInt v) = Ok tt
  /\ validate (MkField "faults" TInt dflt [check_min 0; check_faults] false) obj (converted TInt v) = Ok tt
  <-> exists n k, as_int nodes = Some n /\ as_int v = Some k /\ 0 <= k <= n.
Proof.
  intros Hn. unfold check_isinstance, validate, check_min. cbn [f_type f_validators foldM].
  change (converted TInt v) with v. unfold check_faults. rewrite (instance_nodes_eq obj nodes Hn).
  unfold check_int_in_range, in_range. destruct (is_none nodes) eqn:E.
  { destruct nodes; try done. split; [|by intros (? & ? & ? & _)]. intros (_ & _ & Hv). by destruct (ensure _ _). }
  cbn [mbind result_bind]. split.
  - intros (_ & _ & Hv). destruct (as_int v) as [k|]; cbn in Hv; [|by destruct (as_int nodes)].
    destruct (Z.leb_spec 0 k), (as_int nodes) as [n|]; cbn in Hv; try done.
    destruct (Z.ltb_spec k (n + 1)); cbn in Hv; [|done]. exists n, k. repeat split; lia.
  - intros (n & k & -> & Hk & ? & ?). assert (isinstance v TInt = true) as -> by (by destruct v).
    rewrite orb_true_r, Hk. cbn [ensure or_raise mbind result_bind].
    rewrite (proj2 (Z.leb_le 0 k)) by lia. cbn. by rewrite (proj2 (Z.ltb_lt k (n + 1))) by lia.
Qed.

Lemma fault_time_checks dflt obj faults v :
  dget "_faults"%string obj = Some faults ->
  float_fits TFloat v = true /\ check_isinstance (MkField "fault_time" TFloat dflt [check_fault_info] true) (converted TFloat v) = Ok tt
  /\ validate (MkField "fault_time" TFloat dflt [check_fault_info] true) obj (converted TFloat v) = Ok tt
  <-> none_or_number v = true
      /\ exists k, as_int faults = Some k /\ (0 < k -> is_none v = false) /\ (k = 0 -> is_none v = true).
Proof.
  intros Hf. unfold check_isinstance, validate. cbn [f_type f_validators foldM].
  unfold check_fault_info. rewrite (instance_faults_eq obj faults Hf).
  assert (is_none (converted TFloat v) = is_none v) as -> by (by destruct v).
  assert (none_or_number v = float_fits TFloat v && (is_none v || isinstance (converted TFloat v) TFloat)) as ->.
  { pose proof bool_fits as [H1 H0]. unfold none_or_number, float_fits.
    destruct v as [|[]|n| | | |]; cbn [as_int is_none orb]; rewrite ?H1, ?H0; [done..| |done|done|done|done].
    generalize (int_fits n). by intros []. }
  assert (is_none v = true -> float_fits TFloat v = true) as Hnn by (by destruct v).
  destruct (is_none faults) eqn:E; [destruct faults; try done; cbn; naive_solver|].
  cbn [mbind result_bind]. destruct (as_int faults) as [k|]; cbn [or_raise mbind result_bind]; [|naive_solver].
  destruct (Z.ltb_spec 0 k), (Z.eqb_spec k 0), (float_fits TFloat v), (isinstance _ _), (is_none v); cbn; naive_solver lia.
Qed.

Lemma bench_fields_eq :
  bench_fields =
  [MkField "nodes" TInt None [check_min 1] false; MkField "clients" TInt None [check_min 1] false;
   MkField "warmup_duration" TInt None [check_min 0] false; MkField "rate" TFloat None [] false;
   MkField "tx_size" TInt None [check_min 1] false; MkField "genesis_hours_in_the_past" TFloat None [] false;
   MkField "target_block_time" TInt None [check_min 0] false; MkField "duration" TInt None [check_min 0] false;
   MkField "runs" TInt (Some (VInt 1)) [check_min 1] false;
   MkField "faults" TInt (Some (VInt 0)) [check_min 0; check_faults] false;
   MkField "fault_time" TFloat (Some VNone) [check_fault_info] true].
Proof. reflexivity. Qed.

Lemma bench_from_dict_eq obj : bench_from_dict obj = from_dict bench_fields obj.
Proof. reflexivity. Qed.

Lemma faults_ok_spec nodes faults fault_time :
  faults_ok nodes faults fault_time = true <->
  none_or_at_least 1 nodes = true
  /\ (exists n k, as_int nodes = Some n /\ as_int faults = Some k /\ 0 <= k <= n)
  /\ none_or_number fault_time = true
  /\ exists k, as_int faults = Some k /\ (0 < k -> is_none fault_time = false) /\ (k = 0 -> is_none fault_time = true).
Proof.
  unfold faults_ok, none_or_at_least. rewrite andb_true_iff. destruct (as_int nodes) as [n|] eqn:En; [|naive_solver].
  assert (is_none nodes = false) as -> by (by destruct nodes). cbn [orb].
  destruct (as_int faults) as [k|]; [|naive_solver].
  rewrite !andb_true_iff, !Z.leb_le, eqb_true_iff.
  destruct (Z.eqb_spec k 0), (is_none fault_time); naive_solver lia.
Qed.

Lemma bench_set_fields obj p :
  set_fields [] ((fun f => (f, field_arg obj f)) <$> bench_fields) = Ok p -> acceptable obj = true.
Proof.
  rewrite bench_fields_eq. cbn [fmap list_fmap]. unfold field_arg. cbn [f_name f_default default].
  rewrite !set_fields_cons. cbn [f_type]. rewrite !int_checks, !float_checks.
  intros (Hn & Hc & Hw & Hr & Ht & Hg & Hb & Hd & Hru & Hfa & Hti & _).
  apply (faults_checks _ _ (value_or VNone "nodes" obj)) in Hfa; [|reflexivity].
  apply (fault_time_checks _ _ (value_or (VInt 0) "faults" obj)) in Hti; [|reflexivity].
  unfold acceptable. rewrite !andb_true_iff, faults_ok_spec. tauto.
Qed.

Lemma acceptable_set_fields obj :
  acceptable obj = true -> exists p, set_fields [] ((fun f => (f, field_arg obj f)) <$> bench_fields) = Ok p.
Proof.
  unfold acceptable. rewrite !andb_true_iff, faults_ok_spec. intros H.
  rewrite bench_fields_eq. cbn [fmap list_fmap]. unfold field_arg. cbn [f_name f_default default]. eexists.
  rewrite !set_fields_cons. cbn [f_type]. rewrite !int_checks, !float_checks.
  rewrite (faults_checks _ _ (value_or VNone "nodes" obj)) by reflexivity.
  rewrite (fault_time_checks _ _ (value_or (VInt 0) "faults" obj)) by reflexivity.
  unfold value_or in H. cbn [id]. destruct_and!. do 11 (split; [tauto|]). reflexivity.
Qed.

Lemma bench_has_values obj : forallb (has_value obj) bench_fields = forallb (fun k => dmem k obj) required.
Proof.
  rewrite bench_fields_eq. cbn [forallb required]. unfold has_value. cbn [f_name f_default].
  rewrite !orb_false_r, !orb_true_r, !andb_true_r. done.
Qed.

(** C34: A dictionary without a required key is a [ConfigError]; with all of them,
    the parameters are made exactly when the values are of the right types and in
    their ranges, the integers that are to be floats not too large for one, the faults
    are at most the nodes, and there is a fault time exactly when there are faults.
    Other keys are ignored, and the fields that are not nullable accept [None], the nodes
    and the faults excepted. *)
Theorem bench_from_dict_accepts obj :
  if forallb (fun k => dmem k obj) required then is_ok (bench_from_dict obj) = acceptable obj
  else bench_from_dict obj = Raise ConfigError.
Proof.
  rewrite bench_from_dict_eq, from_dict_spec, bench_has_values. destruct (forallb _ required); [|done].
  destruct (acceptable obj) eqn:E.
  - by destruct (acceptable_set_fields obj E) as [p ->].
  - destruct (set_fields _ _) as [p|] eqn:Ep; [|done]. apply bench_set_fields in Ep. congruence.
Qed.

Lemma bench_stored obj p f :
  bench_from_dict obj = Ok p -> f ∈ bench_fields ->
  dget (attr_name f) p = Some (converted (f_type f) (field_arg obj f)).
Proof.
  rewrite bench_from_dict_eq, from_dict_spec. destruct (forallb _ _); [|done]. intros Hp Hf.
  assert (((fun f => (f, field_arg obj f)) <$> bench_fields).*1 = bench_fields) as E
    by (rewrite <-list_fmap_compose; apply list_fmap_id).
  destruct (set_fields_Ok _ _ _ Hp) as [_ Hfields]; [rewrite E; apply bench_names_ok|].
  apply list_elem_of_split in Hf as (pre & post & Hf).
  destruct (Hfields ((fun f => (f, field_arg obj f)) <$> pre) f (field_arg obj f)
              ((fun f => (f, field_arg obj f)) <$> post)) as (? & _ & _ & ? & _); [|done].
  by rewrite Hf, fmap_app.
Qed.

Lemma bench_acceptable obj p : bench_from_dict obj = Ok p -> acceptable obj = true.
Proof.
  rewrite bench_from_dict_eq, from_dict_spec. destruct (forallb _ _); [|done]. apply bench_set_fields.
Qed.

(** Reading an attribute of parameters made from a dictionary. *)
Lemma bench_attr_stored obj p name f :
  bench_from_dict obj = Ok p ->
  List.find (fun f => String.eqb (f_name f) name) bench_fields = Some f ->
  bench_attr name p =
  if is_none (converted (f_type f) (field_arg obj f)) && negb (f_nullable f) then Raise ValueError
  else Ok (converted (f_type f) (field_arg obj f)).
Proof.
  intros Hp Hf. unfold bench_attr. rewrite Hf. cbn [or_raise mbind result_bind].
  apply List.find_some in Hf as [Hin%list_elem_of_In _]. unfold get_field.
  rewrite (bench_stored obj p f Hp Hin). by destruct (converted _ _), (f_nullable f).
Qed.

Lemma bench_int_at_least obj p name f lo :
  bench_from_dict obj = Ok p -> List.find (fun f => String.eqb (f_name f) name) bench_fields = Some f ->
  f_type f = TInt -> f_nullable f = false -> none_or_at_least lo (field_arg obj f) = true ->
  forall w, bench_int name p = Ok w -> lo <= w.
Proof.
  intros Hp Hf Ht Hn Hlo w. unfold bench_int. rewrite (bench_attr_stored obj p name f) by done. rewrite Ht, Hn.
  change (converted TInt (field_arg obj f)) with (field_arg obj f). unfold none_or_at_least in Hlo.
  destruct (is_none (field_arg obj f)) eqn:E; [done|]. cbn. intros H. inv_ok. rewrite H in Hlo. by apply Z.leb_le.
Qed.

(** The integers of the class with the lower bound of each. *)
Definition lower_bounds : list (string * Z) :=
  [("clients", 1); ("tx_size", 1); ("runs", 1); ("warmup_duration", 0); ("target_block_time", 0); ("duration", 0)]%string.

(** Parameters read from a dictionary satisfy the constraints the benchmark
    relies on: at least one node, faults between zero and the nodes, a fault time
    exactly when there are faults, and every other integer, when it can be read, at
    least its bound. *)
Theorem bench_parameters_sound obj p :
  bench_from_dict obj = Ok p ->
  (exists n k, bench_int "nodes" p = Ok n /\ bench_int "faults" p = Ok k /\ 1 <= n /\ 0 <= k <= n
               /\ (bench_attr "fault_time" p = Ok VNone <-> k = 0))
  /\ forall name lo w, (name, lo) ∈ lower_bounds -> bench_int name p = Ok w -> lo <= w.
Proof.
  intros Hp. pose proof (bench_acceptable obj p Hp) as Ha. unfold acceptable in Ha.
  rewrite !andb_true_iff, faults_ok_spec in Ha.
  destruct Ha as ((((((((Hc & Ht) & Hru) & Hw) & Hb) & Hd) & _) & _) & Hn & (n & k & En & Ek & Hk) & Hft & k' & Ek' & Hp1 & Hp2).
  split.
  - exists n, k. unfold bench_int. rewrite (bench_attr_stored obj p "nodes" _ Hp eq_refl),
      (bench_attr_stored obj p "faults" _ Hp eq_refl), (bench_attr_stored obj p "fault_time" _ Hp eq_refl).
    cbn [f_type f_nullable negb].
    unfold field_arg. cbn [f_name f_default default].
    change (converted TInt ?v) with v. unfold value_or in *. cbn [id].
    assert (forall v i, as_int v = Some i -> is_none v = false) as Hnn by (by intros []).
    rewrite (Hnn _ _ En), (Hnn _ _ Ek). cbn [andb]. rewrite andb_false_r. cbn [mbind result_bind].
    rewrite En, Ek. split; [done|]. split; [done|]. unfold none_or_at_least in Hn. rewrite (Hnn _ _ En), En in Hn.
    cbn [orb] in Hn. bool_hyps. split; [done|]. split; [done|]. rewrite Ek in Ek'. injection Ek' as <-.
    set (ft := default VNone (dget "fault_time" obj)) in *.
    assert (Ok (converted TFloat ft) = Ok VNone <-> is_none ft = true) as -> by (by destruct ft).
    destruct (is_none ft); naive_solver lia.
  - intros name lo w Hin. unfold lower_bounds in Hin.
    repeat (apply elem_of_cons in Hin as [[= -> ->]|Hin];
      [eapply bench_int_at_least; [exact Hp|reflexivity|reflexivity|reflexivity|assumption]|]).
    by apply elem_of_nil in Hin.
Qed.

(** For a whole number of hours the genesis time stamp is the current second
    less that many hours, with no rounding. *)
Theorem compute_genesis_block_timestamp_exact now hours p :
  bench_attr "genesis_hours_in_the_past" p = Ok (VFloat (of_int hours)) ->
  Z.abs hours < 2 ^ 40 -> Z.abs (ftrunc now) < 2 ^ 52 ->
  compute_genesis_block_timestamp now p = Ok (ftrunc now - 3600 * hours).
Proof.
  intros Hh Hb Hn. unfold compute_genesis_block_timestamp. rewrite Hh. cbn [mbind result_bind as_float or_raise].
  rewrite !of_int_exact by lia. rewrite fmul_ints by lia. rewrite fsub_ints by lia. by rewrite ftrunc_int.
Qed.

(** ** The names of the experiments *)

Lemma str_app_split (a b c d : string) :
  String.length a = String.length b -> (a ++ c)%string = (b ++ d)%string -> a = b /\ c = d.
Proof.
  revert b. induction a as [|x a IH]; intros [|y b] Hl H; try discriminate Hl; [by split|].
  injection H as -> H. injection Hl as Hl. by destruct (IH b Hl H) as [-> ->].
Qed.

(** The last occurrence of a character splits a text in one way. *)
Lemma str_last_split c (a b s t : string) :
  has_char c s = false -> has_char c t = false -> (a ++ String c s)%string = (b ++ String c t)%string -> a = b /\ s = t.
Proof.
  intros Hs Ht. revert b. induction a as [|x a IH]; intros [|y b] H.
  - by injection H as ->.
  - injection H as -> ->. rewrite has_char_app, has_char_cons, Ascii.eqb_refl, orb_true_r in Hs. done.
  - injection H as -> <-. rewrite has_char_app, has_char_cons, Ascii.eqb_refl, orb_true_r in Ht. done.
  - injection H as -> H. by destruct (IH b H) as [-> ->].
Qed.

Lemma float_repr_inj x y : is_float x = true -> is_float y = true -> float_repr x = float_repr y -> x = y.
Proof.
  intros [_ Hx]%float_repr_ok%andb_true_iff [_ Hy]%float_repr_ok%andb_true_iff E. rewrite <-E in Hy.
  destruct (scan_number (float_repr x)) as [[v r]|]; [|done]. destruct v, r; try done. bool_hyps. congruence.
Qed.

Lemma convert_int v : converted TInt v = v.
Proof. done. Qed.

(** What is read of an attribute, by the type of its field. *)
Lemma bench_attr_typed obj p name f v :
  bench_from_dict obj = Ok p -> List.find (fun f => String.eqb (f_name f) name) bench_fields = Some f ->
  bench_attr name p = Ok v -> v = converted (f_type f) (field_arg obj f) /\ (v = VNone -> f_nullable f = true).
Proof.
  intros Hp Hf. rewrite (bench_attr_stored obj p name f) by done.
  destruct (is_none _ && negb (f_nullable f)) eqn:E; [done|]. intros [= <-]. split; [done|]. intros Hn. rewrite Hn in E.
  cbn in E. by destruct (f_nullable f).
Qed.

(** A rate is a float of the dictionary, a size an integer of one or more. *)
Lemma bench_rate_float obj p v :
  forallb scalar_ok obj.*2 = true -> bench_from_dict obj = Ok p -> bench_attr "rate" p = Ok v ->
  exists x, v = VFloat x /\ is_float x = true.
Proof.
  intros Hobj Hp Hv. destruct (bench_attr_typed obj p "rate" _ v Hp eq_refl Hv) as [-> Hn]. cbn [f_type f_nullable] in *.
  pose proof (bench_acceptable obj p Hp) as Ha. unfold acceptable in Ha. rewrite !andb_true_iff in Ha.
  destruct Ha as (((_ & Hr) & _) & _). unfold value_or in Hr. unfold field_arg in *. cbn [f_name f_default default] in *.
  set (a := default VNone (dget "rate"%string obj)) in *.
  assert (scalar_ok a = true) as Hok.
  { unfold a. destruct (dget "rate"%string obj) as [w|] eqn:E; [|done]. rewrite forallb_forall in Hobj.
    apply Hobj, list_elem_of_In, list_elem_of_fmap. exists ("rate"%string, w). split; [done|]. by apply dget_Some_elem. }
  pose proof (scalar_ok_convert TFloat a Hok) as Hc. clearbody a.
  destruct a; try done; try (eexists; split; [reflexivity|done]). by specialize (Hn eq_refl).
Qed.

Lemma bench_size_type obj p v :
  bench_from_dict obj = Ok p -> bench_attr "tx_size" p = Ok v ->
  (exists b, v = VBool b) \/ exists n, v = VInt n /\ 1 <= n.
Proof.
  intros Hp Hv. destruct (bench_attr_typed obj p "tx_size" _ v Hp eq_refl Hv) as [-> Hn]. cbn [f_type f_nullable] in *.
  pose proof (bench_acceptable obj p Hp) as Ha. unfold acceptable in Ha. rewrite !andb_true_iff in Ha.
  destruct Ha as ((((((((_ & Hs) & _) & _) & _) & _) & _) & _) & _). unfold value_or in Hs. unfold field_arg in *.
  cbn [f_name f_default default] in *. rewrite convert_int in *.
  destruct (default VNone _) as [|b|n| | | |]; try done; [by specialize (Hn eq_refl)|left; by exists b|].
  cbn in Hs. bool_hyps. right. by exists n.
Qed.

(** The text of a size has no dash, and gives the size. *)
Lemma bench_size_text obj p v t :
  bench_from_dict obj = Ok p -> bench_attr "tx_size" p = Ok v -> py_str v = Ok t -> has_char "-" t = false.
Proof.
  intros Hp Hv Ht. destruct (bench_size_type _ _ _ Hp Hv) as [[b ->]|(n & -> & Hn)]; injection Ht as <-; [by destruct b|].
  apply (str_all_no_char is_digit); [done|]. apply str_of_Z_digits. lia.
Qed.

Lemma bench_size_inj obj p obj' p' v w t :
  bench_from_dict obj = Ok p -> bench_from_dict obj' = Ok p' -> bench_attr "tx_size" p = Ok v -> bench_attr "tx_size" p' = Ok w ->
  py_str v = Ok t -> py_str w = Ok t -> v = w.
Proof.
  intros Hp Hp' Hv Hw Ht Hu.
  assert (forall (b : bool) n, 1 <= n -> (if b then "True" else "False")%string <> str_of_Z n) as Hbn.
  { intros b n Hn E. pose proof (str_of_Z_digits n ltac:(lia)) as Hd. rewrite <-E in Hd. by destruct b. }
  destruct (bench_size_type _ _ _ Hp Hv) as [[b ->]|(n & -> & Hn)], (bench_size_type _ _ _ Hp' Hw) as [[b' ->]|(n' & -> & Hn')];
    cbn in Ht, Hu; inv_ok; subst.
  - by destruct b, b'.
  - by destruct (Hbn b n').
  - by destruct (Hbn b' n).
  - apply (f_equal py_int) in Hu. rewrite !py_int_str_of_Z in Hu by lia. congruence.
Qed.

(** The names of the directories of two experiments are the same only when the numbers
    of the nodes and of the faults, the rates and the sizes of the transactions are: no
    dash of the text of a rate can be taken for a separator. *)
Theorem get_dirname_str_inj obj p obj' p' max_nodes max_faults n n' k k' s :
  forallb scalar_ok obj.*2 = true -> forallb scalar_ok obj'.*2 = true ->
  bench_from_dict obj = Ok p -> bench_from_dict obj' = Ok p' ->
  bench_int "nodes" p = Ok n -> bench_int "nodes" p' = Ok n' -> 0 <= n < max_nodes -> 0 <= n' < max_nodes ->
  bench_int "faults" p = Ok k -> bench_int "faults" p' = Ok k' -> 0 <= k < max_faults -> 0 <= k' < max_faults ->
  get_dirname_str p max_nodes max_faults = Ok s -> get_dirname_str p' max_nodes max_faults = Ok s ->
  n = n' /\ k = k' /\ bench_attr "rate" p = bench_attr "rate" p' /\ bench_attr "tx_size" p = bench_attr "tx_size" p'.
Proof.
  intros Ho Ho' Hp Hp' Hn Hn' Bn Bn' Hk Hk' Bk Bk' Hs Hs'. unfold get_dirname_str in Hs, Hs'.
  rewrite Hn, Hk in Hs. rewrite Hn', Hk' in Hs'. cbn [mbind result_bind] in Hs, Hs'.
  apply bind_Ok in Hs as (r & Hr & Hs). apply bind_Ok in Hs as (rt & Hrt & Hs). apply bind_Ok in Hs as (x & Hx & Hs).
  apply bind_Ok in Hs as (xt & Hxt & [= <-]). apply bind_Ok in Hs' as (r' & Hr' & Hs').
  apply bind_Ok in Hs' as (rt' & Hrt' & Hs'). apply bind_Ok in Hs' as (x' & Hx' & Hs').
  apply bind_Ok in Hs' as (xt' & Hxt' & E). injection E as E. rewrite !add_zeros_prefix_width in E by done.
  apply str_app_split in E as [En E]; [|by rewrite !fixed_width_length]. injection E as E.
  apply str_app_split in E as [Ek E]; [|by rewrite !fixed_width_length]. injection E as E.
  assert (forall i m, 0 <= i < m -> 0 <= i < 10 ^ Z.of_nat (ndigits (m - 1))) as Hb
    by (intros i m Hi; pose proof (pow10_ndigits (m - 1)); lia).
  apply fixed_width_inj in En; [|by apply Hb..]. apply fixed_width_inj in Ek; [|by apply Hb..].
  apply (str_last_split "-") in E as [Er Ex];
    [|exact (bench_size_text obj' p' x' xt' Hp' Hx' Hxt')|exact (bench_size_text obj p x xt Hp Hx Hxt)].
  rewrite Hr, Hr', Hx, Hx'. split; [done|]. split; [done|]. split; f_equal.
  - destruct (bench_rate_float obj p r Ho Hp Hr) as (y & -> & Hy), (bench_rate_float obj' p' r' Ho' Hp' Hr') as (y' & -> & Hy').
    cbn in Hrt, Hrt'. inv_ok. subst. by rewrite (float_repr_inj y' y).
  - subst xt'. exact (bench_size_inj obj p obj' p' x x' xt Hp Hp' Hx Hx' Hxt Hxt').
Qed.

(** ** Witnesses *)

Definition example_parameters : instance :=
  [("nodes", VInt 4); ("clients", VInt 2); ("warmup_duration", VInt 60); ("rate", VInt 10); ("tx_size", VInt 250);
   ("genesis_hours_in_the_past", VInt 3); ("target_block_time", VInt 60); ("duration", VInt 600);
   ("faults", VInt 1); ("fault_time", VFloat (of_int 30)); ("comment", VStr "ignored")]%string.

Definition example_instance := match bench_from_dict example_parameters with Ok p => p | Raise _ => [] end.
Definition example_dict := match bench_to_dict example_instance with Ok d => d | Raise _ => [] end.

(** An integer that is too large for a float, and the largest power of ten that is not. *)
Example rate_overflow :
  bench_from_dict (dset "rate"%string (VInt (10 ^ 400)) example_parameters) = Raise OverflowError
  /\ is_ok (bench_from_dict (dset "rate"%string (VInt (10 ^ 308)) example_parameters)) = true.
Proof. split; vm_compute; reflexivity. Qed.

Example bench_parameters_sound_witness :
  (exists n k, bench_int "nodes" example_instance = Ok n /\ bench_int "faults" example_instance = Ok k
               /\ 1 <= n /\ 0 <= k <= n /\ (bench_attr "fault_time" example_instance = Ok VNone <-> k = 0))
  /\ forall name lo w, (name, lo) ∈ lower_bounds -> bench_int name example_instance = Ok w -> lo <= w.
Proof. apply (bench_parameters_sound example_parameters). vm_compute. reflexivity. Defined.

Example compute_genesis_block_timestamp_exact_witness :
  compute_genesis_block_timestamp (of_int 1684829350) example_instance = Ok (ftrunc (of_int 1684829350) - 3600 * 3).
Proof.
  apply (compute_genesis_block_timestamp_exact (of_int 1684829350) 3 example_instance);
    vm_compute; reflexivity.
Defined.

(** Another configuration with a directory of the same name: a rate of 10.0, and three clients. *)
Definition other_parameters : instance := dset "clients"%string (VInt 3) (dset "rate"%string (VFloat (of_int 10)) example_parameters).
Definition other_instance := match bench_from_dict other_parameters with Ok p => p | Raise _ => [] end.

Example get_dirname_str_inj_witness :
  get_dirname_str example_instance 10 10 = Ok "4-1-10.0-250"%string
  /\ 4 = 4 /\ 1 = 1 /\ bench_attr "rate" example_instance = bench_attr "rate" other_instance
  /\ bench_attr "tx_size" example_instance = bench_attr "tx_size" other_instance.
Proof.
  assert (get_dirname_str example_instance 10 10 = Ok "4-1-10.0-250"%string) as E by (vm_compute; reflexivity).
  split; [exact E|].
  apply (get_dirname_str_inj example_parameters example_instance other_parameters other_instance 10 10 4 4 1 1 "4-1-10.0-250");
    first [exact E | lia | vm_compute; reflexivity].
Defined.
