(* ===== verification/ParameterFiles.v ===== *)
(** * The file of the parameters of a benchmark (benchmark_framework/utils.py)

    [BaseParameters.from_file] and [print]: the parameters as a JSON text.  A file is
    the text of its bytes, or nothing when it cannot be opened. *)

From S2P Require Import Prelude PyStr PyInt PyFloat PyDict PySort Fields PyJson PyRepr Config.

Section Files.
Context (parse_constant : string -> float).

(** [from_dict] on what the file holds: subscripting by a name is a [TypeError] but on
    a dictionary. *)
Definition from_json (cls : list CustomField) (v : pyval) : result instance :=
  match v, cls with
  | VDict obj, _ => from_dict cls obj
  | _, [] => from_dict cls []
  | _, _ => Raise TypeError
  end.

Definition from_file (cls : list CustomField) (file : option string) : result instance :=
  content ← or_raise OSError file;
  obj ← loads parse_constant (universal_newlines content);
  from_json cls obj.

(** [dump(self.dict, f, indent=4, sort_keys=True, cls=SetEncoder)]: no field holds a set. *)
Definition print_style : style := make_style (Some 4%nat) true.
Definition print (cls : list CustomField) (p : instance) : result string :=
  d ← to_dict cls p;
  Ok (dumps float_repr print_style (VDict d)).

(** [BenchParameters.from_file] and [print]. *)
Definition bench_from_file (file : option string) : result instance := cls ← BenchParameters; from_file cls file.
Definition bench_print (p : instance) : result string := cls ← BenchParameters; print cls p.

Lemma normal_scalars st (d : list (string * pyval)) :
  (forall k v, (k, v) ∈ d -> is_scalar v = true) -> map (fun kv => (kv.1, normal st kv.2)) d = d.
Proof.
  intros Hd. induction d as [|[k v] d IH]; [done|]. cbn [map fst snd]. f_equal.
  - specialize (Hd k v ltac:(by left)). by destruct v.
  - apply IH. intros k' v' Hin. apply (Hd k' v'). by right.
Qed.

(** The values of an object whose arguments hold floats. *)
Lemma from_dict_scalars cls obj p :
  from_dict cls obj = Ok p -> Forall (fun f => forall v, f_default f = Some v -> scalar_ok v = true) cls ->
  forallb scalar_ok obj.*2 = true -> Forall (fun kv => scalar_ok kv.2 = true) p.
Proof.
  rewrite from_dict_spec. case_match; [|done]. intros Hset Hcls Hobj.
  assert (Forall (fun fv : CustomField * pyval => scalar_ok fv.2 = true) ((fun f => (f, field_arg obj f)) <$> cls)) as Hfvs.
  { apply Forall_fmap, (Forall_impl _ _ _ Hcls). intros f Hf. cbn. unfold field_arg.
    destruct (dget (f_name f) obj) as [v|] eqn:E.
    - rewrite forallb_forall in Hobj. apply Hobj, list_elem_of_In, list_elem_of_fmap. exists (f_name f, v).
      split; [done|]. by apply dget_Some_elem.
    - destruct (f_default f) as [v|] eqn:Ed; [|done]. by apply Hf. }
  assert (Forall (fun kv => scalar_ok kv.2 = true) ([] : instance)) as Hacc by constructor. revert Hset Hacc. clear -Hfvs.
  generalize ([] : instance) as o. induction Hfvs as [|[f v] fvs Hv _ IH]; intros o; [by intros [= <-]|].
  cbn [set_fields foldM fst snd]. intros (o' & Ho%set_field_Ok & Hrun)%bind_Ok Hacc. apply (IH o'); [done|].
  destruct Ho as (_ & _ & _ & ->). apply Forall_dset; [by apply scalar_ok_convert|done].
Qed.

(** Parameters made from values whose floats are floats, and printed to a file, are read
    back from it unchanged, for any class with distinct field names. *)
Lemma from_file_print_class cls obj p text :
  names_ok cls -> Forall (fun f => forall v, f_default f = Some v -> scalar_ok v = true) cls ->
  forallb scalar_ok obj.*2 = true -> from_dict cls obj = Ok p -> print cls p = Ok text ->
  from_file cls (Some text) = Ok p.
Proof.
  intros Hnd Hcls Hobj Hp Hprint. pose proof (from_dict_scalars cls obj p Hp Hcls Hobj) as Hscalars.
  apply bind_Ok in Hprint as (d & Hd & [= <-]).
  destruct (to_dict_values _ _ _ _ Hnd Hp Hd) as [Hkeys Hvalues].
  assert (NoDup (map fst d)) as Hnodup by (change (NoDup (dkeys d)); by rewrite Hkeys).
  assert (json_ok float_repr (VDict d) = true) as Hok.
  { cbn. apply andb_true_iff. split; [by apply bool_decide_eq_true|]. apply forallb_forall. intros [k v] Hin. cbn [snd].
    apply list_elem_of_In in Hin. destruct (Hvalues k v Hin) as [Hs [a Ha]]. apply scalar_json_ok; [done|].
    rewrite Forall_forall in Hscalars. exact (Hscalars _ Ha). }
  unfold from_file. cbn [or_raise mbind result_bind]. unfold dumps.
  rewrite universal_newlines_id by (by apply iterencode_no_cr). fold (dumps float_repr print_style (VDict d)).
  rewrite loads_dumps by done. cbn [mbind result_bind from_json normal].
  rewrite normal_scalars by (intros k v Hin; by apply (Hvalues k v)).
  rewrite <-(from_dict_perm cls d) by (done || symmetry; apply order_items_perm).
  by apply (from_dict_to_dict cls obj p d).
Qed.
End Files.

Lemma bench_from_file_eq parse_constant file : bench_from_file parse_constant file = from_file parse_constant bench_fields file.
Proof. reflexivity. Qed.

Lemma bench_print_eq p : bench_print p = print bench_fields p.
Proof. reflexivity. Qed.

Lemma bench_read_back parse_constant obj p text :
  forallb scalar_ok obj.*2 = true -> bench_from_dict obj = Ok p -> bench_print p = Ok text ->
  bench_from_file parse_constant (Some text) = Ok p.
Proof.
  rewrite bench_from_dict_eq, bench_print_eq, bench_from_file_eq. intros Hobj Hp Hprint.
  apply (from_file_print_class parse_constant bench_fields obj); [apply bench_names_ok| |done..].
  rewrite bench_fields_eq. repeat constructor; by intros ? [= <-].
Qed.

(** C30: The benchmark parameters printed to a file are read back from it unchanged, every
    float among them through its shortest decimal text. *)
Theorem bench_from_file_print parse_constant obj p text :
  forallb scalar_ok obj.*2 = true -> bench_from_dict obj = Ok p -> bench_print p = Ok text ->
  bench_from_file parse_constant (Some text) = Ok p.
Proof. apply bench_read_back. Qed.

(** A file that cannot be opened, that is no JSON text or whose document is no
    dictionary gives no parameters: an OSError, a JSONDecodeError or a TypeError. *)
Theorem bench_from_file_errors parse_constant file :
  match file with
  | None => bench_from_file parse_constant file = Raise OSError
  | Some content =>
      match loads parse_constant (universal_newlines content) with
      | Ok (VDict obj) => bench_from_file parse_constant file = bench_from_dict obj
      | Ok _ => bench_from_file parse_constant file = Raise TypeError
      | Raise e => bench_from_file parse_constant file = Raise e /\ (e = JSONDecodeError \/ e = Unmodelled)
      end
  end.
Proof.
  rewrite bench_from_file_eq. unfold from_file. destruct file as [content|]; [|done]. cbn [or_raise mbind result_bind].
  destruct (loads parse_constant (universal_newlines content)) as [v|e] eqn:E.
  - by destruct v; rewrite ?bench_from_dict_eq.
  - split; [done|]. by apply loads_errors in E.
Qed.

Definition printed : string := match bench_print example_instance with Ok t => t | Raise _ => EmptyString end.

Example bench_from_file_print_witness :
  bench_from_file (fun _ => 0) (Some printed) = Ok example_instance.
Proof.
  apply (bench_from_file_print (fun _ => 0) example_parameters); vm_compute; reflexivity.
Defined.
