(* ===== verification/TimeIntervals.v ===== *)
(** * Time intervals (benchmark_framework/logs.py, TimeInterval, TimeIntervals and
    NodeLog.parse_time_intervals)

    The three phases of a block at the primary: FBFT from the sending of the
    pre-prepare to the start of ROAST, ROAST until the block is submitted, and
    Bitcoin until the submission returns. *)

From S2P Require Import Prelude PyStr PyInt PyFloat PyDict PyRegex PyTime LogEvents NodeLog.

Inductive TimeIntervalType : Type := FBFT | ROAST | BITCOIN.

#[global] Instance TimeIntervalType_eq_dec : EqDecision TimeIntervalType.
Proof. solve_decision. Defined.

(** [set(TimeIntervalType)] *)
Definition time_interval_types : list TimeIntervalType := [FBFT; ROAST; BITCOIN].

Record TimeInterval : Type := MkTimeInterval {
  start_time : float;
  end_time : float;
  interval_type : TimeIntervalType }.

(** [TimeInterval(...)], with the assertion of [__post_init__]. *)
Definition make_time_interval (start_time end_time : float) (interval_type : TimeIntervalType)
    : result TimeInterval :=
  _ ← py_assert (start_time <? end_time);
  Ok (MkTimeInterval start_time end_time interval_type).

Definition diff (i : TimeInterval) : float := fsub (end_time i) (start_time i).

(** [intervals_by_height] *)
Abbreviation TimeIntervals := (list (Z * list (TimeIntervalType * TimeInterval))).

Definition validate_keys (keys : list TimeIntervalType) : result unit :=
  py_assert (forallb (fun t => bool_decide (t ∈ keys)) time_interval_types
             && forallb (fun t => bool_decide (t ∈ time_interval_types)) keys).

(** The body of the first loop of [get_cumulative_time_by_interval_type]. *)
Definition interval_diffs (not_before : number) (diffs_by_height : list (Z * list (TimeIntervalType * float)))
    (item : Z * list (TimeIntervalType * TimeInterval)) : result (list (Z * list (TimeIntervalType * float))) :=
  let '(height, intervals) := item in
  _ ← validate_keys (dkeys intervals);
  fbft_interval ← dlookup FBFT intervals;
  roast_interval ← dlookup ROAST intervals;
  submitblock_interval ← dlookup BITCOIN intervals;
  if start_time fbft_interval <? not_before then Ok diffs_by_height
  else Ok (dset height [(FBFT, diff fbft_interval); (ROAST, diff roast_interval);
                        (BITCOIN, diff submitblock_interval)] diffs_by_height).

(** [sums[interval_type] += diff] on a [defaultdict] of 0.0. *)
Definition add_diff (sums : list (TimeIntervalType * float)) (item : TimeIntervalType * float)
    : list (TimeIntervalType * float) :=
  let '(interval_type, d) := item in dset interval_type (fadd (default 0 (dget interval_type sums)) d) sums.

(** [TimeIntervals.get_cumulative_time_by_interval_type] *)
Definition get_cumulative_time_by_interval_type (intervals_by_height : TimeIntervals) (not_before : number)
    : result (list (TimeIntervalType * float)) :=
  diffs_by_height ← foldM (interval_diffs not_before) [] intervals_by_height;
  Ok (foldl add_diff [] (diffs_by_height ≫= snd)).

(** Reading the [defaultdict]. *)
Definition time_of (sums : list (TimeIntervalType * float)) (t : TimeIntervalType) : float := default 0 (dget t sums).

Definition nb_heights (intervals_by_height : TimeIntervals) : Z := Z.of_nat (length intervals_by_height).

(** The numbers of [get_time_spent_summary]: milliseconds and percentage of each type. *)
Definition get_time_spent_summary (intervals_by_height : TimeIntervals) (not_before : number)
    : result (list (Z * float)) :=
  time_by_type ← get_cumulative_time_by_interval_type intervals_by_height not_before;
  let time_spent_for_fbft := time_of time_by_type FBFT in
  let time_spent_for_roast := time_of time_by_type ROAST in
  let time_spent_for_bitcoin := time_of time_by_type BITCOIN in
  let total_time_spent := fadd (fadd time_spent_for_fbft time_spent_for_roast) time_spent_for_bitcoin in
  mapM (fun t => share ← fdiv t total_time_spent;
                 Ok (fround (fmul t (of_int 1000)), fround_digits 2 (fmul share (of_int 100))))
       [time_spent_for_fbft; time_spent_for_roast; time_spent_for_bitcoin].

(** ** [NodeLog.parse_time_intervals] *)

(** [zip] of five iterables, up to the shortest. *)
Fixpoint zip5 {A} (l1 l2 l3 l4 l5 : list A) : list (A * A * A * A * A) :=
  match l1, l2, l3, l4, l5 with
  | a1 :: l1, a2 :: l2, a3 :: l3, a4 :: l4, a5 :: l5 => (a1, a2, a3, a4, a5) :: zip5 l1 l2 l3 l4 l5
  | _, _, _, _, _ => []
  end.

(** The body of the loop. *)
Definition add_round (result : TimeIntervals) (events : log_event * log_event * log_event * log_event * log_event)
    : Prelude.result TimeIntervals :=
  let '(start_fbft_event, start_roast, execute, start_submitblock, end_submitblock) := events in
  _ ← py_assert ((block_height start_fbft_event =? block_height start_roast)
                 && (block_height start_roast =? block_height execute)
                 && (block_height execute =? block_height start_submitblock)
                 && (block_height start_submitblock =? block_height end_submitblock));
  _ ← py_assert ((log_timestamp start_fbft_event <=? log_timestamp start_roast)
                 && (log_timestamp start_roast <=? log_timestamp execute)
                 && (log_timestamp execute <=? log_timestamp start_submitblock)
                 && (log_timestamp start_submitblock <=? log_timestamp end_submitblock));
  fbft_time_interval ← make_time_interval (log_timestamp start_fbft_event) (log_timestamp start_roast) FBFT;
  roast_time_interval ← make_time_interval (log_timestamp start_roast) (log_timestamp start_submitblock) ROAST;
  submitblock_time_interval ←
    make_time_interval (log_timestamp start_submitblock) (log_timestamp end_submitblock) BITCOIN;
  Ok (dset (block_height start_fbft_event)
           (foldl (fun d interval => dset (interval_type interval) interval d) []
                  [fbft_time_interval; submitblock_time_interval; roast_time_interval])
           result).

Definition interval_classes : list event_class :=
  [CSendPrePrepareLog; CRoastInitLog; CExecuteActionLog; CStartSubmitBlock; CEndSubmitBlock].

Definition parse_time_intervals (n : NodeLog) : result (option TimeIntervals) :=
  let evs := events_by_type_by_height n in
  if negb (forallb (fun log_event_type => dmem log_event_type evs) interval_classes) then Ok None
  else
    l1 ← dlookup CSendPrePrepareLog evs;
    l2 ← dlookup CRoastInitLog evs;
    l3 ← dlookup CExecuteActionLog evs;
    l4 ← dlookup CStartSubmitBlock evs;
    l5 ← dlookup CEndSubmitBlock evs;
    tis ← foldM add_round [] (zip5 (dvalues l1) (dvalues l2) (dvalues l3) (dvalues l4) (dvalues l5));
    Ok (Some tis).

(** ** The intervals of a block *)

Definition phases (s1 s2 s4 s5 : float) : list (TimeIntervalType * TimeInterval) :=
  [(FBFT, MkTimeInterval s1 s2 FBFT); (BITCOIN, MkTimeInterval s4 s5 BITCOIN); (ROAST, MkTimeInterval s2 s4 ROAST)].

(** The three phases of a block follow each other and none is empty. *)
Definition contiguous (d : list (TimeIntervalType * TimeInterval)) : Prop :=
  exists s1 s2 s4 s5, s1 < s2 /\ s2 < s4 /\ s4 < s5 /\ d = phases s1 s2 s4 s5.

Lemma make_time_interval_Ok s e t i : make_time_interval s e t = Ok i <-> s < e /\ i = MkTimeInterval s e t.
Proof.
  unfold make_time_interval. destruct (Z.ltb_spec s e); cbn; split; [by intros [= <-]|by intros [_ ->]|done|by intros []; lia].
Qed.

Lemma add_round_Ok res events res' :
  add_round res events = Ok res' -> exists h d, contiguous d /\ res' = dset h d res.
Proof.
  destruct events as [[[[e1 e2] e3] e4] e5]. cbn [add_round]. intros H. inv_ok.
  repeat match goal with H : make_time_interval _ _ _ = Ok _ |- _ => apply make_time_interval_Ok in H as [? ->] end.
  eexists _, _. split; [|symmetry; exact H]. eexists _, _, _, _.
  split; [|split; [|split; [|reflexivity]]]; eassumption.
Qed.

(** What a successful parse returns: distinct heights, contiguous phases. *)
Definition well_formed (tis : TimeIntervals) : Prop :=
  NoDup (dkeys tis) /\ Forall contiguous (dvalues tis).

Lemma add_rounds_well_formed l res res' :
  foldM add_round res l = Ok res' -> well_formed res -> well_formed res'.
Proof.
  revert res. induction l as [|e l IH]; intros res; cbn [foldM]; [by intros [= ->]|].
  intros (r & (h & d & Hd & ->)%add_round_Ok & Hl)%bind_Ok [Hnd Hall]. apply (IH _ Hl).
  split; [by apply NoDup_dset|by apply Forall_dvalues_dset].
Qed.

Lemma parse_well_formed n tis : parse_time_intervals n = Ok (Some tis) -> well_formed tis.
Proof.
  unfold parse_time_intervals. case_match; [done|]. intros Hn. inv_ok. subst.
  eapply add_rounds_well_formed; [eassumption|]. by split; constructor.
Qed.

(** ** The cumulative times *)

(** The blocks counted from [not_before], and the time of a phase of a block. *)
Definition kept (not_before : number) (item : Z * list (TimeIntervalType * TimeInterval)) : bool :=
  match dget FBFT item.2 with Some i => negb (start_time i <? not_before) | None => false end.
Definition phase_time (t : TimeIntervalType) (item : Z * list (TimeIntervalType * TimeInterval)) : float :=
  match dget t item.2 with Some i => diff i | None => 0 end.
Definition phase_times (item : Z * list (TimeIntervalType * TimeInterval)) : list (TimeIntervalType * float) :=
  [(FBFT, phase_time FBFT item); (ROAST, phase_time ROAST item); (BITCOIN, phase_time BITCOIN item)].

Lemma interval_diffs_step nb acc item :
  contiguous item.2 ->
  interval_diffs nb acc item = Ok (if kept nb item then dset item.1 (phase_times item) acc else acc).
Proof.
  destruct item as [h d]. intros (s1 & s2 & s4 & s5 & _ & _ & _ & Hd). cbn in Hd. subst d.
  cbn [interval_diffs fst snd]. change (validate_keys _) with (Ok tt : result unit). cbn [mbind result_bind].
  change (dlookup FBFT (phases s1 s2 s4 s5)) with (Ok (MkTimeInterval s1 s2 FBFT)).
  change (dlookup ROAST (phases s1 s2 s4 s5)) with (Ok (MkTimeInterval s2 s4 ROAST)).
  change (dlookup BITCOIN (phases s1 s2 s4 s5)) with (Ok (MkTimeInterval s4 s5 BITCOIN)).
  cbn [mbind result_bind]. change (kept nb (h, phases s1 s2 s4 s5)) with (negb (s1 <? nb)). cbn [start_time].
  by destruct (s1 <? nb).
Qed.

Lemma interval_diffs_run nb tis :
  well_formed tis ->
  foldM (interval_diffs nb) [] tis
  = Ok ((fun item => (item.1, phase_times item)) <$> List.filter (kept nb) tis).
Proof.
  induction tis as [|item tis IH] using rev_ind; [done|].
  unfold well_formed, dkeys, dvalues. rewrite !fmap_app, Forall_app, NoDup_app. cbn [fmap list_fmap].
  rewrite Forall_singleton. intros [(Hnd & Hnin & _) [Hall Hc]].
  rewrite foldM_app, IH by (by split). cbn [mbind result_bind foldM]. rewrite interval_diffs_step by done.
  cbn [mbind result_bind]. rewrite List.filter_app, fmap_app. cbn [List.filter].
  destruct (kept nb item); [|by rewrite app_nil_r]. rewrite dset_new; [done|].
  unfold dkeys. rewrite <-list_fmap_compose. cbn. intros Hin. apply list_elem_of_fmap in Hin as (x & E & Hx).
  apply list_elem_of_In, filter_In in Hx as [Hx _]. apply (Hnin item.1); [|set_solver].
  rewrite E. apply list_elem_of_fmap. exists x. split; [done|]. by apply list_elem_of_In.
Qed.

Lemma time_of_add_diff sums t' d t :
  time_of (add_diff sums (t', d)) t = if decide (t = t') then fadd (time_of sums t) d else time_of sums t.
Proof. unfold time_of, add_diff. rewrite dget_dset. case_decide; [by subst|done]. Qed.

Lemma time_of_sums items t :
  time_of (foldl add_diff [] (items ≫= phase_times)) t = fsum (phase_time t <$> items).
Proof.
  induction items as [|item items IH] using rev_ind; [done|].
  rewrite bind_app, foldl_app, fmap_app. cbn [fmap list_fmap]. rewrite fsum_snoc, <-IH.
  cbn [mbind list_bind]. rewrite app_nil_r.
  change (phase_times item) with
    [(FBFT, phase_time FBFT item); (ROAST, phase_time ROAST item); (BITCOIN, phase_time BITCOIN item)].
  cbn [foldl].
  rewrite !time_of_add_diff. by destruct t.
Qed.

Lemma cumulative_spec tis nb :
  well_formed tis ->
  exists sums, get_cumulative_time_by_interval_type tis nb = Ok sums
    /\ forall t, time_of sums t = fsum (phase_time t <$> List.filter (kept nb) tis).
Proof.
  intros Hwf. unfold get_cumulative_time_by_interval_type. rewrite interval_diffs_run by done.
  cbn [mbind result_bind]. eexists. split; [reflexivity|]. intros t. rewrite <-time_of_sums.
  f_equal. f_equal. by induction (List.filter (kept nb) tis) as [|x l IH]; [|cbn; rewrite IH].
Qed.

Lemma phase_time_pos t item : contiguous item.2 -> 0 < phase_time t item.
Proof.
  destruct item as [h d]. intros (s1 & s2 & s4 & s5 & H1 & H2 & H3 & Hd). cbn in Hd. subst d.
  unfold phase_time. destruct t; by apply fsub_pos.
Qed.

Lemma kept_times_pos tis nb t :
  well_formed tis -> Forall (fun x => 0 < x) (phase_time t <$> List.filter (kept nb) tis).
Proof.
  intros [_ Hall]. apply Forall_fmap, Forall_forall. intros x Hx.
  apply list_elem_of_In, filter_In in Hx as [Hx _]. apply phase_time_pos.
  unfold dvalues in Hall. rewrite Forall_fmap, Forall_forall in Hall. apply Hall. by apply list_elem_of_In.
Qed.

(** Whatever the log of the node, intervals that were parsed are the three
    consecutive non-empty phases of each block; and then the times accumulated from
    any instant never fail and are, for each phase, the sum over the blocks that
    start from that instant. *)
Theorem parse_time_intervals_cumulative n tis not_before :
  parse_time_intervals n = Ok (Some tis) ->
  Forall contiguous (dvalues tis)
  /\ exists sums, get_cumulative_time_by_interval_type tis not_before = Ok sums
       /\ forall t, time_of sums t = fsum (phase_time t <$> List.filter (kept not_before) tis)
                    /\ 0 <= time_of sums t.
Proof.
  intros Hwf%parse_well_formed. split; [apply Hwf|].
  destruct (cumulative_spec tis not_before Hwf) as (sums & -> & Hsums). exists sums. split; [done|].
  intros t. split; [done|]. rewrite Hsums. apply fsum_nonneg.
  eapply Forall_impl; [by apply (kept_times_pos tis not_before t)|cbn; lia].
Qed.

(** The summary of the intervals parsed from a log divides by the total time:
    it is defined exactly when some block starts from [not_before]. *)
Theorem get_time_spent_summary_defined n tis not_before :
  parse_time_intervals n = Ok (Some tis) ->
  if bool_decide (List.filter (kept not_before) tis = [])
  then get_time_spent_summary tis not_before = Raise ZeroDivisionError
  else exists rows, get_time_spent_summary tis not_before = Ok rows /\ length rows = 3%nat.
Proof.
  intros Hwf%parse_well_formed. destruct (cumulative_spec tis not_before Hwf) as (sums & Hc & Hsums).
  unfold get_time_spent_summary. rewrite Hc. cbn [mbind result_bind]. rewrite !Hsums.
  pose proof (fun t => kept_times_pos tis not_before t Hwf) as Hpos.
  case_bool_decide as E; [rewrite E; reflexivity|].
  assert (forall t, 0 < fsum (phase_time t <$> List.filter (kept not_before) tis)) as Hf.
  { intros t. apply fsum_pos; [|apply Hpos]. by intros ?%fmap_nil_inv. }
  pose proof (Hf FBFT). pose proof (Hf ROAST). pose proof (Hf BITCOIN).
  set (total := fadd (fadd _ _) _). assert (0 < total) as Ht.
  { apply fadd_pos; [|lia|]; [apply fadd_nonneg; lia|]. assert (0 <= fadd (fsum (phase_time FBFT <$> List.filter (kept not_before) tis))
      (fsum (phase_time ROAST <$> List.filter (kept not_before) tis))) by (apply fadd_nonneg; lia). lia. }
  unfold fdiv, div_units. rewrite (proj2 (Z.eqb_neq total 0)) by lia. cbn. eexists. split; [reflexivity|done].
Qed.

(** ** The log of a primary *)

(** The rows of a block at the primary, each with its line, its time stamp and time. *)
Record row_stamp : Type := RowStamp { r_line : Z; r_ts : string; r_time : float }.

Record block_round : Type := BlockRound {
  b_height : Z; b_request : Z; b_view : Z; b_replica : Z; b_size : Z; b_hash : string; b_result : string;
  b_prepare : row_stamp; b_roast : row_stamp; b_execute : row_stamp; b_submit : row_stamp; b_return : row_stamp }.

Definition round_row (b : block_round) (s : row_stamp) (m : message) : entry :=
  Entry (r_line s) (r_ts s) (r_time s) (b_replica b) m.

Definition round_entries (b : block_round) : list entry :=
  [round_row b (b_prepare b) (SendPrePrepare (b_height b) (b_request b) (b_view b) (b_height b) (b_replica b));
   round_row b (b_roast b) (RoastInit (b_height b) (b_request b) (b_view b) (b_height b) (b_replica b));
   round_row b (b_execute b) (Execute (b_height b) (b_request b) (b_view b) (b_height b) (b_replica b));
   round_row b (b_submit b) (SubmitBlockSubmitting (b_height b) (b_size b) (b_hash b));
   round_row b (b_return b) (SubmitBlockResult (b_height b) (b_hash b) (b_result b))].

Definition round_ordered (b : block_round) : Prop :=
  r_time (b_prepare b) < r_time (b_roast b) /\ r_time (b_roast b) <= r_time (b_execute b)
  /\ r_time (b_execute b) <= r_time (b_submit b) /\ r_time (b_roast b) < r_time (b_submit b)
  /\ r_time (b_submit b) < r_time (b_return b).

Definition round_phases (b : block_round) : Z * list (TimeIntervalType * TimeInterval) :=
  (b_height b, phases (r_time (b_prepare b)) (r_time (b_roast b)) (r_time (b_submit b)) (r_time (b_return b))).

(** The rows of a log that the intervals are made of. *)
Definition interval_entries (es : list entry) : list entry :=
  List.filter (fun e => bool_decide (message_class (msg e) ∈ interval_classes)) es.

Definition event_of (e : entry) : log_event := message_event (time e) (id e) (msg e).

Definition class_entries (cls : event_class) (es : list entry) : list entry :=
  List.filter (fun e => scanned (msg e) && bool_decide (message_class (msg e) = cls)) es.

Definition by_height (evs : list log_event) : list (Z * log_event) :=
  foldl (fun d ev => dset (block_height ev) ev d) [] evs.

Lemma dget_index cls es :
  dget cls (index_entries es) =
  if bool_decide (class_entries cls es = []) then None else Some (by_height (event_of <$> class_entries cls es)).
Proof.
  induction es as [|e es IH] using rev_ind; [done|].
  unfold index_entries, class_entries in *. rewrite foldl_app, List.filter_app. cbn [foldl List.filter].
  destruct (scanned (msg e)); cbn [andb]; [|by rewrite app_nil_r].
  set (acc := foldl _ [] es) in *.
  unfold record_event. rewrite dget_dset. destruct (decide (cls = message_class (msg e))) as [<-|Hne].
  - rewrite (bool_decide_true (cls = cls)) by done. rewrite (bool_decide_false (_ ++ [e] = [])) by (by destruct (List.filter _ _)).
    rewrite IH. unfold by_height. rewrite fmap_app, foldl_app. cbn [fmap list_fmap foldl].
    case_bool_decide as E; [by rewrite E|done].
  - rewrite (bool_decide_false (message_class (msg e) = cls)) by done. by rewrite app_nil_r.
Qed.

Lemma class_entries_interval cls es :
  cls ∈ interval_classes -> class_entries cls es = class_entries cls (interval_entries es).
Proof.
  intros Hc. unfold class_entries, interval_entries. induction es as [|e es IH]; [done|]. cbn [List.filter].
  destruct (bool_decide_reflect (message_class (msg e) = cls)) as [E|E];
    case_bool_decide as Hi; cbn [List.filter].
  - rewrite (bool_decide_true (message_class (msg e) = cls)) by done. by rewrite IH.
  - by rewrite E in Hi.
  - rewrite (bool_decide_false (message_class (msg e) = cls)) by done. by rewrite andb_false_r.
  - by rewrite andb_false_r.
Qed.

(** Distinct heights: one entry of the dictionary per event. *)
Lemma by_height_distinct evs :
  NoDup (block_height <$> evs) -> by_height evs = (fun ev => (block_height ev, ev)) <$> evs.
Proof.
  induction evs as [|ev evs IH] using rev_ind; [done|]. unfold by_height.
  rewrite !fmap_app, NoDup_app, foldl_app. intros (Hnd & Hnin & _). cbn [foldl].
  change (foldl _ [] evs) with (by_height evs). rewrite IH by done. apply dset_new.
  unfold dkeys. rewrite <-list_fmap_compose. intros Hin. apply (Hnin (block_height ev)); [exact Hin|by left].
Qed.

Lemma class_of_rounds cls (row : block_round -> entry) rounds :
  (forall b, class_entries cls (round_entries b) = [row b]) ->
  class_entries cls (rounds ≫= round_entries) = row <$> rounds.
Proof.
  intros Hrow. unfold class_entries in *. induction rounds as [|b rounds IH]; [done|].
  rewrite bind_cons, List.filter_app, Hrow, IH. done.
Qed.

Lemma dget_rounds cls (row : block_round -> entry) rounds :
  rounds <> [] -> NoDup (b_height <$> rounds) ->
  (forall b, class_entries cls (round_entries b) = [row b]) ->
  (forall b, block_height (event_of (row b)) = b_height b) ->
  dget cls (index_entries (rounds ≫= round_entries)) = Some ((fun b => (b_height b, event_of (row b))) <$> rounds).
Proof.
  intros Hne Hnd Hrow Hh. rewrite dget_index, (class_of_rounds cls row) by done.
  rewrite bool_decide_false by (by intros ?%fmap_nil_inv). f_equal.
  rewrite by_height_distinct; rewrite <-!list_fmap_compose.
  - apply list_fmap_ext. intros i b _. cbn. by rewrite Hh.
  - erewrite list_fmap_ext; [exact Hnd|]. intros i b _. apply Hh.
Qed.

Lemma zip5_fmap {A B} (f1 f2 f3 f4 f5 : A -> B) l :
  zip5 (f1 <$> l) (f2 <$> l) (f3 <$> l) (f4 <$> l) (f5 <$> l) = (fun a => (f1 a, f2 a, f3 a, f4 a, f5 a)) <$> l.
Proof. induction l as [|a l IH]; [done|]. cbn. by f_equal. Qed.

(** The [i]-th row of a block and its event. *)
Definition nth_row (i : nat) (b : block_round) : entry :=
  default (Entry 0 EmptyString 0 0 (ReceiveBlock 0 0)) (round_entries b !! i).
Definition round_event (b : block_round) (i : nat) : log_event := event_of (nth_row i b).

Lemma add_round_ordered res b :
  round_ordered b ->
  add_round res (round_event b 0, round_event b 1, round_event b 2, round_event b 3, round_event b 4)
  = Ok (dset (b_height b) (round_phases b).2 res).
Proof.
  intros (H1 & H2 & H3 & H4 & H5). destruct b as [h t v r size hash res' [] [] [] [] []].
  cbn [round_event round_entries b_prepare b_roast b_execute b_submit b_return r_time] in *.
  unfold round_event, event_of, add_round, make_time_interval, block_height, log_timestamp.
  cbn. rewrite !Z.eqb_refl. cbn.
  repeat match goal with
  | H : ?x < ?y |- context [?x <? ?y] => rewrite (proj2 (Z.ltb_lt x y)) by exact H
  | H : ?x <= ?y |- context [?x <=? ?y] => rewrite (proj2 (Z.leb_le x y)) by exact H
  | H : ?x < ?y |- context [?x <=? ?y] => rewrite (proj2 (Z.leb_le x y)) by lia
  end.
  reflexivity.
Qed.

Lemma add_rounds_ordered rounds :
  Forall round_ordered rounds -> NoDup (b_height <$> rounds) ->
  foldM add_round [] ((fun b => (round_event b 0, round_event b 1, round_event b 2, round_event b 3, round_event b 4)) <$> rounds)
  = Ok (round_phases <$> rounds).
Proof.
  induction rounds as [|b rounds IH] using rev_ind; [done|].
  rewrite !fmap_app, Forall_app, Forall_singleton, NoDup_app. intros [Hall Hb] (Hnd & Hnin & _).
  rewrite foldM_app, IH by done. cbn [mbind result_bind fmap list_fmap foldM].
  rewrite add_round_ordered by done. cbn [mbind result_bind]. rewrite dset_new; [done|].
  unfold dkeys. rewrite <-list_fmap_compose. intros Hin. apply (Hnin (b_height b)); [exact Hin|by left].
Qed.

(** C33: From the text of the log of a primary to its intervals.  When the rows of
    the five events, among any others, are those of a sequence of blocks, each with
    its rows in the order of time, parsing the log and then its intervals succeeds
    and gives, block by block, the three phases between the times of these rows. *)
Theorem parse_time_intervals_of_log es rounds :
  Forall entry_ok es -> interval_entries es = rounds ≫= round_entries ->
  rounds <> [] -> NoDup (b_height <$> rounds) -> Forall round_ordered rounds ->
  exists evs, parse_logs (entries_log es) = Ok evs /\
    forall log fault cfg, parse_time_intervals (MkNodeLog log evs fault cfg) = Ok (Some (round_phases <$> rounds)).
Proof.
  intros Hes Hrounds Hne Hnd Hord. exists (index_entries es). split; [by apply scan_entries|]. intros log fault cfg.
  assert (forall i cls, interval_classes !! i = Some cls ->
            dget cls (index_entries es) = Some ((fun b => (b_height b, round_event b i)) <$> rounds)) as Hget.
  { intros i cls Hi. rewrite dget_index, class_entries_interval, Hrounds by (by eapply list_elem_of_lookup_2).
    rewrite <-dget_index.
    apply (dget_rounds _ (nth_row i)); [done|done|..]; intros [];
      repeat (destruct i as [|i]; [injection Hi as <-; reflexivity|]); done. }
  unfold parse_time_intervals. cbn [events_by_type_by_height].
  unfold dlookup, dmem, interval_classes. cbn [forallb].
  rewrite (Hget 0%nat), (Hget 1%nat), (Hget 2%nat), (Hget 3%nat), (Hget 4%nat) by done.
  cbn [negb andb or_raise mbind result_bind]. unfold dvalues. rewrite <-!list_fmap_compose.
  rewrite (zip5_fmap _ _ _ _ _ rounds).
  match goal with |- context [foldM add_round [] ?l] =>
    assert (foldM add_round [] l = Ok (round_phases <$> rounds)) as -> by (exact (add_rounds_ordered rounds Hord Hnd))
  end.
  reflexivity.
Qed.

(** A block at the primary of view 1, and its log with a request in front. *)
Definition stamp (line : Z) (ts : string) : row_stamp :=
  RowStamp line ts (match to_posix ts with Ok t => t | Raise _ => 0 end).

Definition example_round : block_round :=
  BlockRound 7 60 1 0 321 "00ab" "null" (stamp 2 "2023-May-23 08:09:10.500000") (stamp 3 "2023-May-23 08:09:11")
    (stamp 4 "2023-May-23 08:09:11") (stamp 5 "2023-May-23 08:09:11.250000") (stamp 6 "2023-May-23 08:09:12").

Definition example_log : list entry :=
  stamped 1 "2023-May-23 08:09:10" 0 (ReceiveRequest 60 7 0) :: round_entries example_round.

Definition example_node : NodeLog := MkNodeLog (entries_log example_log) (index_entries example_log) 0 [].

Example parse_time_intervals_cumulative_witness :
  Forall contiguous (dvalues [round_phases example_round])
  /\ exists sums, get_cumulative_time_by_interval_type [round_phases example_round] 0 = Ok sums
       /\ forall t, time_of sums t = fsum (phase_time t <$> List.filter (kept 0) [round_phases example_round])
                    /\ 0 <= time_of sums t.
Proof.
  apply (parse_time_intervals_cumulative example_node [round_phases example_round] 0). vm_compute. reflexivity.
Defined.

Example get_time_spent_summary_defined_witness :
  if bool_decide (List.filter (kept 0) [round_phases example_round] = [])
  then get_time_spent_summary [round_phases example_round] 0 = Raise ZeroDivisionError
  else exists rows, get_time_spent_summary [round_phases example_round] 0 = Ok rows /\ length rows = 3%nat.
Proof. apply (get_time_spent_summary_defined example_node [round_phases example_round] 0). vm_compute. reflexivity. Defined.

Example parse_time_intervals_of_log_witness :
  exists evs, parse_logs (entries_log example_log) = Ok evs /\
    forall log fault cfg, parse_time_intervals (MkNodeLog log evs fault cfg) = Ok (Some (round_phases <$> [example_round])).
Proof.
  apply (parse_time_intervals_of_log example_log [example_round]).
  - repeat constructor; cbn; try lia; vm_compute; reflexivity.
  - reflexivity.
  - discriminate.
  - apply NoDup_singleton.
  - repeat constructor; vm_compute; try reflexivity; discriminate.
Defined.
