(* ===== verification/RunResult.v ===== *)
(** * The results of a run and of an experiment (benchmark_framework/logs.py,
    RunResult and ExperimentResult)

    Throughput, latencies, sizes and durations out of the aggregated logs, the rows
    of the two CSV files, and the statistics over the runs.  The files are lists of
    rows of cells. *)

From S2P Require Import Prelude PyStr PyInt PyFloat PyDict Fields Config LogEvents NodeLog NodeLogs TimeIntervals.

(** [statistics.mean] of floats: the exact sum divided by their number, rounded once. *)
Definition exact_sum (xs : list Z) : Z := foldr Z.add 0 xs.
Definition mean (xs : list float) : result float :=
  if bool_decide (xs = []) then Raise StatisticsError
  else Ok (round_frac (exact_sum xs) (Z.of_nat (length xs))).

(** The float nearest to the square root of the squared units [p / q]. *)
Definition round_sqrt (p q : Z) : float :=
  let e := ulp_exp (Z.sqrt (p / q)) in
  let m := Z.sqrt (p / (q * 4 ^ e)) in
  let twice := (2 * m + 1) * (2 * m + 1) * (q * 4 ^ e) in
  (if (twice <? 4 * p) || ((twice =? 4 * p) && Z.odd m) then m + 1 else m) * 2 ^ e.

(** [statistics.stdev] of floats, as of Python 3.11: the exact sample variance, and
    one rounding of its square root. *)
Definition stdev (xs : list float) : result float :=
  let n := Z.of_nat (length xs) in
  if n <? 2 then Raise StatisticsError
  else Ok (round_sqrt (n * exact_sum ((fun x => x * x) <$> xs) - exact_sum xs * exact_sum xs) (n * (n - 1))).

Record RunResult : Type := MkRunResult {
  bench_parameters : instance;
  node_logs : NodeLogs }.

(** [RunResult.time_intervals] *)
Definition time_intervals (r : RunResult) : result (option TimeIntervals) :=
  primary ← primary_logs (node_logs r);
  match primary with
  | None => Ok None
  | Some n => parse_time_intervals n
  end.

(** [self.node_logs.start + self.bench_parameters.warmup_duration] *)
Definition warm_start (r : RunResult) : result float :=
  s ← start (node_logs r);
  warmup_duration ← bench_int "warmup_duration" (bench_parameters r);
  Ok (fadd s (of_int warmup_duration)).

(** [RunResult.consensus_block_throughput] *)
Definition consensus_block_throughput (r : RunResult) : result float :=
  not_before ← warm_start r;
  let earliest_executes_by_height := get_earliest_executes_by_height (node_logs r) not_before in
  if Z.of_nat (length earliest_executes_by_height) =? 0 then Ok 0
  else
    start ← warm_start r;
    e ← end_ (node_logs r);
    let duration := fsub e start in
    fdiv (of_int (Z.of_nat (length earliest_executes_by_height))) duration.

(** [request.true_request_time], an attribute of [ReceiveRequestsLog] only. *)
Definition true_request_time_of (e : log_event) : result number :=
  match e with
  | ReceiveRequestsLog ts _ block_timestamp _ => Ok (true_request_time block_timestamp ts)
  | _ => Raise AttributeError
  end.

(** [RunResult.latency_at_fault_height] *)
Definition latency_at_fault_height (r : RunResult) : result float :=
  fault_time ← bench_attr "fault_time" (bench_parameters r);
  if is_none fault_time then Ok 0
  else
    let earliest_executes_by_height := get_earliest_executes_by_height (node_logs r) 0 in
    let earliest_requests_by_height := get_earliest_requests_by_height (node_logs r) 0 in
    fault_height ← get_fault_height (node_logs r);
    execute ← dlookup (fault_height + 1) earliest_executes_by_height;
    request ← dlookup (fault_height + 1) earliest_requests_by_height;
    t ← true_request_time_of request;
    Ok (fsub (log_timestamp execute) (float_of_number t)).

(** The dictionary comprehension of the two latencies: the executions whose height
    the other dictionary has, less the time that [time_from] reads there. *)
Definition latencies_from (time_from : log_event -> result number)
    (executes from : list (Z * log_event)) : result (list (Z * float)) :=
  latencies_by_height ←
    mapM (fun '(height, execute_log) =>
            e ← dlookup height from;
            t ← time_from e;
            Ok (height, fsub (log_timestamp execute_log) (float_of_number t)))
         (List.filter (fun item => dmem item.1 from) executes);
  _ ← py_assert (forallb (fun latency => 0 <=? latency) (dvalues latencies_by_height));
  _ ← py_assert (negb (Z.of_nat (length latencies_by_height) =? 0));
  Ok latencies_by_height.

(** [RunResult.consensus_block_latencies_by_height] *)
Definition consensus_block_latencies_by_height (r : RunResult) : result (list (Z * float)) :=
  not_before ← warm_start r;
  latencies_from true_request_time_of (get_earliest_executes_by_height (node_logs r) not_before)
    (get_earliest_requests_by_height (node_logs r) not_before).

(** [RunResult.consensus_block_latencies_from_preprepare_by_height] *)
Definition consensus_block_latencies_from_preprepare_by_height (r : RunResult) : result (list (Z * float)) :=
  not_before ← warm_start r;
  latencies_from (fun e => Ok (log_timestamp e)) (get_earliest_executes_by_height (node_logs r) not_before)
    (get_earliest_preprepare_by_height (node_logs r) not_before).

(** [event.block_size] *)
Definition block_size_of (e : log_event) : result Z :=
  match e with
  | StartSubmitBlock _ _ _ block_size _ | StartTestBlockValidity _ _ _ block_size _ => Ok block_size
  | _ => Raise AttributeError
  end.

(** [RunResult.blocksize_by_height] *)
Definition blocksize_by_height (r : RunResult) : result (list (Z * Z)) :=
  not_before ← warm_start r;
  blocksizes_by_height ←
    mapM (fun '(height, e) => size ← block_size_of e; Ok (height, size))
         (get_earliest_start_submit_block_by_height (node_logs r) not_before);
  _ ← py_assert (forallb (fun size => 0 <=? size) (dvalues blocksizes_by_height));
  _ ← py_assert (negb (Z.of_nat (length blocksizes_by_height) =? 0));
  Ok blocksizes_by_height.

Definition consensus_block_latencies (r : RunResult) : result (list float) :=
  d ← consensus_block_latencies_by_height r; Ok (dvalues d).
Definition consensus_block_latencies_from_preprepare (r : RunResult) : result (list float) :=
  d ← consensus_block_latencies_from_preprepare_by_height r; Ok (dvalues d).

(** [RunResult.true_duration] *)
Definition true_duration (r : RunResult) : result float :=
  e ← end_ (node_logs r); s ← start (node_logs r); Ok (fsub e s).

Definition mean_latency (r : RunResult) : result float := xs ← consensus_block_latencies r; mean xs.
Definition std_latency (r : RunResult) : result float := xs ← consensus_block_latencies r; stdev xs.

(** ** The CSV files *)

(** A cell; [CFloat None] is a NaN. *)
Inductive cell : Type :=
  | CText (s : string)
  | CParam (v : pyval)
  | CInt (n : Z)
  | CFloat (x : option float).

(** A file that may not exist, and the rows written at its end. *)
Definition append_rows (file : option (list (list cell))) (headers : list string) (data : list (list cell))
    : list (list cell) :=
  match file with Some rows => rows | None => [CText <$> headers] end ++ data.

Definition RESULT_HEADERS : list string :=
  ["Nodes"; "Faults"; "Target Block Time"; "Rate"; "Genesis hours in the past"; "Tx size"; "Execution time";
   "Warm-up time"; "Consensus blocks/s"; "Consensus block latency"; "Consensus block latency std";
   "Latency at fault height"; "Time for FBFT"; "Time for ROAST"; "Time for Bitcoin"]%string.

Definition param_cells (r : RunResult) (names : list string) : result (list cell) :=
  mapM (fun name => v ← bench_attr name (bench_parameters r); Ok (CParam v)) names.

Definition in_ms (x : float) : cell := CInt (fround (fmul x (of_int 1000))).

(** [RunResult.csv_summary] *)
Definition csv_summary (r : RunResult) (file : option (list (list cell))) : result (list (list cell)) :=
  tis ← time_intervals r;
  time_spent_by_protocol ←
    match tis with
    | Some intervals => not_before ← warm_start r;
                        sums ← get_cumulative_time_by_interval_type intervals not_before;
                        Ok (fun t => Some (time_of sums t))
    | None => Ok (fun _ => None)
    end;
  params ← param_cells r
    ["nodes"; "faults"; "target_block_time"; "rate"; "genesis_hours_in_the_past"; "tx_size"]%string;
  duration ← true_duration r;
  warmup_duration ← bench_int "warmup_duration" (bench_parameters r);
  throughput ← consensus_block_throughput r;
  latencies ← consensus_block_latencies r;
  mean_latency ← mean latencies;
  std_latency ← stdev latencies;
  fault_latency ← latency_at_fault_height r;
  let data := params ++
    [CInt (fround duration); CInt warmup_duration; CFloat (Some (fround_digits 5 throughput));
     in_ms mean_latency; in_ms std_latency; in_ms fault_latency;
     CFloat (time_spent_by_protocol FBFT); CFloat (time_spent_by_protocol ROAST);
     CFloat (time_spent_by_protocol BITCOIN)] in
  Ok (append_rows file RESULT_HEADERS [data]).

Definition BY_HEIGHT_HEADERS : list string :=
  ["Nodes"; "Faults"; "Protocol"; "Target Block Time"; "Rate"; "Genesis hours in the past"; "Tx size"; "Height";
   "Blocksize"; "Latency (from request)"; "Latency (from preprepare)"; "Time spent in FBFT"; "Time spent in ROAST";
   "Time spent in Bitcoin"]%string.

(** The cell of a phase of a block. *)
Definition phase_cell (time_spent : option (list (TimeIntervalType * TimeInterval))) (t : TimeIntervalType)
    : result cell :=
  match time_spent with
  | None => Ok (CFloat None)
  | Some intervals => i ← dlookup t intervals; Ok (CFloat (Some (diff i)))
  end.

(** The row of a height. *)
Definition height_row (r : RunResult) (time_spent_by_height : TimeIntervals) (blocksizes : list (Z * Z))
    (from_requests from_preprepare : list (Z * float)) (height : Z) : result (list cell) :=
  request_latency ← dlookup height from_requests;
  preprepare_latency ← dlookup height from_preprepare;
  params ← param_cells r
    ["nodes"; "faults"; "target_block_time"; "rate"; "genesis_hours_in_the_past"; "tx_size"]%string;
  let blocksize := match dget height blocksizes with Some n => CInt n | None => CFloat None end in
  let time_spent := dget height time_spent_by_height in
  fbft ← phase_cell time_spent FBFT;
  roast ← phase_cell time_spent ROAST;
  bitcoin ← phase_cell time_spent BITCOIN;
  Ok (params ++ [CInt height; blocksize; CFloat (Some request_latency); CFloat (Some preprepare_latency);
                 fbft; roast; bitcoin]).

Section ByHeight.
(** The order in which a set of heights is iterated. *)
Variable iteration : gset Z -> list Z.

(** [RunResult.csv_summary_by_height] *)
Definition csv_summary_by_height (r : RunResult) (file : option (list (list cell))) : result (list (list cell)) :=
  tis ← time_intervals r;
  let time_spent_by_height := default [] tis in
  from_requests ← consensus_block_latencies_by_height r;
  from_preprepare ← consensus_block_latencies_from_preprepare_by_height r;
  blocksizes ← blocksize_by_height r;
  let heights : gset Z :=
    list_to_set (dkeys from_preprepare) ∩ list_to_set (dkeys from_requests) ∩ list_to_set (dkeys blocksizes) in
  data ← mapM (height_row r time_spent_by_height blocksizes from_requests from_preprepare) (iteration heights);
  Ok (append_rows file BY_HEIGHT_HEADERS data).
End ByHeight.

(** ** Experiments *)

(** The equality of the dataclass on the values of its fields: numbers by value. *)
Definition as_number (v : pyval) : option Z :=
  match v with
  | VBool b => Some (if b then one else 0)
  | VInt n => Some (n * one)
  | VFloat x => Some x
  | _ => None
  end.
Definition py_eq (v w : pyval) : bool :=
  match as_number v, as_number w with
  | Some x, Some y => x =? y
  | None, None => is_none v && is_none w
  | _, _ => false
  end.

(** [BenchParameters.__eq__] *)
Definition parameters_eq (p q : instance) : result bool :=
  vs ← mapM (fun f => get_field f p) bench_fields;
  ws ← mapM (fun f => get_field f q) bench_fields;
  Ok (forallb (fun b => b) (zip_with py_eq vs ws)).

(** [all(...)], that stops at the first false. *)
Fixpoint all_equal (first : instance) (runs : list RunResult) : result bool :=
  match runs with
  | [] => Ok true
  | r :: rs => b ← parameters_eq (bench_parameters r) first; if (b : bool) then all_equal first rs else Ok false
  end.

(** [ExperimentResult.from_directory], on the results of the run directories. *)
Definition experiment_result (run_results : list (result RunResult)) : result (list RunResult) :=
  runs ← mapM (fun r => r) run_results;
  match runs with
  | [] => Ok []
  | first :: _ => b ← all_equal (bench_parameters first) runs; _ ← py_assert b; Ok runs
  end.

Definition experiment_parameters (runs : list RunResult) : result instance :=
  first ← or_raise IndexError (runs !! 0%nat); Ok (bench_parameters first).
Definition mean_latencies (runs : list RunResult) : result (list float) := mapM mean_latency runs.
Definition throughputs (runs : list RunResult) : result (list float) := mapM consensus_block_throughput runs.
Definition mean_mean_latency (runs : list RunResult) : result float := xs ← mean_latencies runs; mean xs.
Definition mean_std_latency (runs : list RunResult) : result float := xs ← mean_latencies runs; stdev xs.
Definition mean_mean_throughputs (runs : list RunResult) : result float := xs ← throughputs runs; mean xs.
Definition mean_std_throughputs (runs : list RunResult) : result float := xs ← throughputs runs; stdev xs.

(** ** Lemmas *)

Lemma dget_filter {V} (p : Z -> bool) (d : list (Z * V)) h :
  dget h (List.filter (fun item => p item.1) d) = if p h then dget h d else None.
Proof.
  induction d as [|[k v] d IH]; cbn [List.filter fst]; [by destruct (p h)|].
  destruct (p k) eqn:E; cbn [dget]; rewrite ?IH; case_decide; subst; rewrite ?E; done.
Qed.

Lemma dkeys_filter_NoDup {V} (p : Z * V -> bool) (d : list (Z * V)) :
  NoDup (dkeys d) -> NoDup (dkeys (List.filter p d)).
Proof.
  unfold dkeys. induction d as [|item d IH]; cbn [List.filter fmap list_fmap]; [done|].
  rewrite NoDup_cons. intros [Hin Hnd]. destruct (p item); [|auto]. cbn [fmap list_fmap]. apply NoDup_cons.
  split; [|auto]. intros Hf. apply Hin. apply list_elem_of_fmap in Hf as (x & E & Hx).
  apply list_elem_of_In, filter_In in Hx as [Hx _]. rewrite E. apply list_elem_of_fmap. exists x.
  split; [done|]. by apply list_elem_of_In.
Qed.

(** A successful map over the items of a dictionary that keeps the keys. *)
Lemma mapM_items {V W} (f : Z -> V -> result W) (d : list (Z * V)) d' :
  mapM (fun '(h, v) => w ← f h v; Ok (h, w)) d = Ok d' ->
  dkeys d' = dkeys d
  /\ forall h, match dget h d with
               | Some v => exists w, dget h d' = Some w /\ f h v = Ok w
               | None => dget h d' = None
               end.
Proof.
  intros Hm%mapM_Ok. induction Hm as [|[h v] y d d' Hy Hm [IHk IH]]; [done|].
  inv_ok. subst y. unfold dkeys in *. cbn [fmap list_fmap fst]. split; [by f_equal|].
  intros k. cbn [dget]. case_decide; [subst; by eexists|apply IH].
Qed.

Lemma latencies_from_Ok time_from executes from d :
  latencies_from time_from executes from = Ok d -> NoDup (dkeys executes) ->
  NoDup (dkeys d) /\ d <> []
  /\ forall h, match dget h executes, dget h from with
               | Some e, Some q => exists t x, time_from q = Ok t /\ dget h d = Some x
                                     /\ x = fsub (log_timestamp e) (float_of_number t) /\ 0 <= x
               | _, _ => dget h d = None
               end.
Proof.
  intros Hl Hnd. unfold latencies_from in Hl.
  apply bind_Ok in Hl as (d' & Hm & Hl). inv_ok. subst d'. bool_hyps.
  pose proof (mapM_items (fun height execute_log =>
    e ← dlookup height from; t ← time_from e; Ok (fsub (log_timestamp execute_log) (float_of_number t)))
    (List.filter (fun item => dmem item.1 from) executes) d) as Hitems.
  destruct Hitems as [Hk Hd].
  { apply mapM_Ok in Hm. apply mapM_Ok. eapply Forall2_impl; [exact Hm|]. intros [h e] y.
    destruct (dlookup h from) as [q|]; cbn; [|done]. by destruct (time_from q). }
  split; [rewrite Hk; by apply dkeys_filter_NoDup|]. split; [by intros ->|].
  intros h. specialize (Hd h). rewrite (dget_filter (fun k => dmem k from)) in Hd. unfold dmem in Hd.
  destruct (dget h executes) as [e|] eqn:Ee; destruct (dget h from) as [q|] eqn:Eq; cbn in Hd; try done.
  destruct Hd as (x & Hx & Hf). unfold dlookup in Hf. rewrite Eq in Hf. inv_ok.
  injection Ha1 as <-. exists a0, x. split; [done|]. split; [done|]. split; [done|].
  rewrite forallb_forall in Ha. apply Z.leb_le, Ha, list_elem_of_In.
  apply dget_Some_elem in Hx. apply list_elem_of_fmap. by exists (h, x).
Qed.

Lemma exact_sum_nonneg xs : Forall (fun x => 0 <= x) xs -> 0 <= exact_sum xs.
Proof. induction 1; cbn; unfold exact_sum in *; lia. Qed.

Lemma mean_nonneg xs : xs <> [] -> Forall (fun x => 0 <= x) xs -> exists m, mean xs = Ok m /\ 0 <= m.
Proof.
  intros Hne Hall. unfold mean. rewrite bool_decide_false by done. eexists. split; [reflexivity|].
  apply round_frac_nonneg; [|by apply exact_sum_nonneg]. destruct xs; [done|]. cbn. lia.
Qed.

(** What the latencies say at a height: the execution and the request (or the
    pre-prepare) that were kept, and their distance, or none of them. *)
Definition latency_at (time_from : log_event -> result number) (executes from : list (Z * log_event))
    (d : list (Z * float)) (h : Z) : Prop :=
  match dget h executes, dget h from with
  | Some e, Some q => exists t x, time_from q = Ok t /\ dget h d = Some x
                        /\ x = fsub (log_timestamp e) (float_of_number t) /\ 0 <= x
  | _, _ => dget h d = None
  end.

Lemma Forall_dvalues_dget {V} (P : V -> Prop) (d : list (Z * V)) :
  NoDup (dkeys d) -> (forall h x, dget h d = Some x -> P x) -> Forall P (dvalues d).
Proof.
  intros Hnd Hd. apply Forall_fmap, Forall_forall. intros [h x] Hin. apply (Hd h). by apply elem_dget_Some.
Qed.

(** Whatever the logs, latencies that were computed are those of the blocks
    whose earliest request and earliest execution are both after the warm-up, each
    one the time from the true request time to the execution and not negative;
    there is one at least, and their mean is defined and not negative. *)
Theorem consensus_block_latencies_spec r d :
  consensus_block_latencies_by_height r = Ok d ->
  exists not_before, warm_start r = Ok not_before
    /\ (forall h, latency_at true_request_time_of (get_earliest_executes_by_height (node_logs r) not_before)
                  (get_earliest_requests_by_height (node_logs r) not_before) d h)
    /\ d <> [] /\ exists m, mean_latency r = Ok m /\ 0 <= m.
Proof.
  intros Hd. unfold mean_latency, consensus_block_latencies. rewrite Hd. cbn [mbind result_bind].
  unfold consensus_block_latencies_by_height in Hd. apply bind_Ok in Hd as (nb & Hnb & Hd).
  apply latencies_from_Ok in Hd as (Hnd & Hne & Hd); [|apply earliest_keys_NoDup].
  exists nb. split; [done|]. split; [exact Hd|]. split; [done|]. apply mean_nonneg.
  - unfold dvalues. by intros ?%fmap_nil_inv.
  - apply (Forall_dvalues_dget (V := float)); [done|]. intros h x Hx. specialize (Hd h).
    repeat case_match; try congruence. destruct Hd as (t & x' & _ & Hx' & _ & Hpos).
    pose proof (eq_trans (eq_sym Hx) Hx') as E. by injection E as ->.
Qed.

(** An execution that was kept is in the log of some node. *)
Lemma earliest_execute_in_logs logs nb h e :
  dget h (get_earliest_executes_by_height logs nb) = Some e ->
  nb <= event_time e /\ exists n, n ∈ logs /\ (h, e) ∈ executes_by_height n.
Proof.
  unfold get_earliest_executes_by_height. rewrite dget_earliest. intros He. unfold earliest_spec in He.
  destruct (class_events logs CExecuteActionLog h) as [|x es] eqn:E; [done|].
  destruct (forallb (fun e => nb <=? event_time e) (x :: es)) eqn:Ef; [|done]. injection He as He.
  destruct (first_lowest_spec x es) as [Hin _]. rewrite He in Hin. split.
  - rewrite forallb_forall in Ef. apply Z.leb_le, Ef. by apply list_elem_of_In.
  - rewrite <-E in Hin. unfold class_events, at_height, events_of_class in Hin.
    apply list_elem_of_omap in Hin as ([k e'] & Hin & Hk). cbn [fst snd] in Hk. case_decide; [|done].
    subst k. injection Hk as ->. apply list_elem_of_bind in Hin as (n & Hin & Hn). by exists n.
Qed.

(** At the nodes made from logs, it counts from its time stamp, which is at most
    the end of the run. *)
Lemma earliest_execute_before_end logs nb h e :
  Forall parsed logs -> dget h (get_earliest_executes_by_height logs nb) = Some e ->
  nb <= log_timestamp e /\ exists t, end_ logs = Ok t /\ log_timestamp e <= t.
Proof.
  intros Hp (Hnb & n & Hn & He)%earliest_execute_in_logs. split.
  - rewrite Forall_forall in Hp. destruct (Hp n Hn) as (log & cfg & Hmake).
    unfold make_node_log in Hmake. inv_ok. subst n. apply parse_logs_ok in Ha0.
    unfold executes_by_height, executes_of in He. cbn [events_by_type_by_height] in He.
    destruct (dget CExecuteActionLog a0) as [d|] eqn:Ed; [|by apply elem_of_nil in He].
    destruct (Ha0 _ _ Ed) as [_ Hall]. rewrite Forall_forall in Hall. destruct (Hall _ He) as [_ Hfit].
    unfold event_fits in Hfit. apply bool_decide_eq_true in Hfit. by destruct e.
  - unfold end_. set (ts := log_timestamp <$> _). assert (log_timestamp e ∈ ts) as Hin.
    { apply list_elem_of_fmap_2, list_elem_of_bind. exists (executes_by_height n).
      split; [|by apply list_elem_of_fmap_2]. apply list_elem_of_fmap. by exists (h, e). }
    destruct (py_max ts) as [t|] eqn:Et; [|by destruct ts as [|x ts']; [apply elem_of_nil in Hin|]].
    exists t. split; [done|]. apply py_max_spec in Et as [_ Hall]. rewrite Forall_forall in Hall. by apply Hall.
Qed.

(** At nodes made from logs, the throughput is zero when no block was executed
    after the warm-up, and otherwise the number of these blocks over the time from
    the end of the warm-up to the last execution, which is not before it; a
    [ZeroDivisionError] when both are the same instant. *)
Theorem consensus_block_throughput_spec r not_before :
  Forall parsed (node_logs r) -> warm_start r = Ok not_before ->
  let executes := get_earliest_executes_by_height (node_logs r) not_before in
  (executes = [] /\ consensus_block_throughput r = Ok 0)
  \/ exists e, end_ (node_logs r) = Ok e /\ not_before <= e
       /\ consensus_block_throughput r = fdiv (of_int (Z.of_nat (length executes))) (fsub e not_before)
       /\ match consensus_block_throughput r with
          | Ok x => not_before < e /\ 0 <= x
          | Raise err => err = ZeroDivisionError /\ e = not_before
          end.
Proof.
  intros Hp Hw executes. unfold consensus_block_throughput. rewrite Hw. cbn [mbind result_bind]. fold executes.
  destruct executes as [|[h e] l] eqn:E; [by left|right].
  assert (dget h (get_earliest_executes_by_height (node_logs r) not_before) = Some e) as He.
  { fold executes. rewrite E. cbn. by rewrite decide_True. }
  apply earliest_execute_before_end in He as (Hge & t & Ht & Hle); [|done]. exists t. rewrite Ht.
  split; [done|]. split; [lia|].
  assert ((Z.of_nat (length ((h, e) :: l)) =? 0) = false) as -> by (apply Z.eqb_neq; cbn [length]; lia).
  cbn [mbind result_bind]. split; [done|]. unfold fdiv, div_units.
  destruct (Z.eqb_spec (fsub t not_before) 0) as [E0|E0].
  - split; [done|]. pose proof (fsub_pos t not_before). lia.
  - assert (0 <= fsub t not_before) by (apply fsub_nonneg; lia). rewrite (proj2 (Z.ltb_lt 0 _)) by lia.
    split; [apply fsub_pos; lia|]. apply round_frac_nonneg; [lia|].
    pose proof one_pos. apply Z.mul_nonneg_nonneg; [|lia]. apply round_frac_nonneg; [lia|].
    apply Z.mul_nonneg_nonneg; lia.
Qed.

(** The latency at the fault height is zero without faults; with faults it is
    defined exactly when the height after the fault was requested and executed, the
    nodes agreeing on the fault height. *)
Theorem latency_at_fault_height_spec r x :
  latency_at_fault_height r = Ok x <->
  exists fault_time, bench_attr "fault_time" (bench_parameters r) = Ok fault_time /\
    if is_none fault_time then x = 0
    else exists fh e q t, get_fault_height (node_logs r) = Ok fh
           /\ dget (fh + 1) (get_earliest_executes_by_height (node_logs r) 0) = Some e
           /\ dget (fh + 1) (get_earliest_requests_by_height (node_logs r) 0) = Some q
           /\ true_request_time_of q = Ok t /\ x = fsub (log_timestamp e) (float_of_number t).
Proof.
  unfold latency_at_fault_height, dlookup. split.
  - intros (ft & Hft & Hx)%bind_Ok. exists ft. split; [done|]. destruct (is_none ft).
    + by injection Hx as <-.
    + inv_ok. eexists _, _, _, _. repeat (split; [eassumption|]). done.
  - intros (ft & -> & Hx). cbn [mbind result_bind]. destruct (is_none ft); [by rewrite Hx|].
    destruct Hx as (fh & e & q & t & -> & He & Hq & Ht & ->). cbn [mbind result_bind]. rewrite He. cbn [mbind result_bind or_raise].
    rewrite Hq. cbn [mbind result_bind or_raise]. by rewrite Ht.
Qed.

(** ** The shape of the CSV files *)

Lemma param_cells_length r names cells : param_cells r names = Ok cells -> length cells = length names.
Proof. intros H%mapM_Ok%Forall2_length. done. Qed.

Lemma height_row_length r tis sizes reqs pres h row : height_row r tis sizes reqs pres h = Ok row -> length row = 13%nat.
Proof.
  unfold height_row. intros Hrow. inv_ok. subst row. rewrite length_app.
  match goal with H : param_cells _ _ = Ok _ |- _ => rewrite (param_cells_length _ _ _ H) end. done.
Qed.

(** The file of the runs has its header once, and the row of a run has one
    cell under each column of the header. *)
Theorem csv_summary_shape r file rows :
  csv_summary r file = Ok rows ->
  exists row, rows = default [CText <$> RESULT_HEADERS] file ++ [row] /\ length row = length RESULT_HEADERS.
Proof.
  unfold csv_summary, append_rows. intros Hrows.
  apply bind_Ok in Hrows as (tis & _ & Hrows). apply bind_Ok in Hrows as (spent & _ & Hrows). inv_ok. subst rows.
  eexists. split; [by destruct file|]. rewrite length_app.
  match goal with H : param_cells _ _ = Ok _ |- _ => rewrite (param_cells_length _ _ _ H) end. done.
Qed.

(** The file by height has a row per height that has the two latencies and a
    block size, and every one of them is one cell shorter than the header: the
    column "Protocol" of the header has no cell in the rows, so the cells after the
    second are under the name of their left neighbour. *)
Theorem csv_summary_by_height_shape iteration r file rows :
  (forall s : gset Z, iteration s ≡ₚ elements s) ->
  csv_summary_by_height iteration r file = Ok rows ->
  exists data from_requests from_preprepare blocksizes,
    rows = default [CText <$> BY_HEIGHT_HEADERS] file ++ data
    /\ consensus_block_latencies_by_height r = Ok from_requests
    /\ consensus_block_latencies_from_preprepare_by_height r = Ok from_preprepare
    /\ blocksize_by_height r = Ok blocksizes
    /\ length data = size (list_to_set (dkeys from_preprepare) ∩ list_to_set (dkeys from_requests)
                           ∩ list_to_set (dkeys blocksizes) : gset Z)
    /\ Forall (fun row => S (length row) = length BY_HEIGHT_HEADERS) data.
Proof.
  intros Hit. unfold csv_summary_by_height, append_rows. intros Hrows. inv_ok. subst rows.
  match goal with H : mapM _ _ = Ok ?data |- _ => rename H into Hdata; exists data end.
  eexists _, _, _. split; [by destruct file|]. split; [done|]. split; [done|]. split; [done|].
  apply mapM_Ok in Hdata. split.
  - apply Forall2_length in Hdata. by rewrite <-Hdata, Hit.
  - clear -Hdata. induction Hdata as [|h row hs data Hrow _ IH]; constructor; [|done].
    by rewrite (height_row_length _ _ _ _ _ _ _ Hrow).
Qed.

(** ** Witnesses: a run of one node with two blocks *)

Definition second_round : block_round :=
  BlockRound 8 120 1 0 250 "00cd" "null" (stamp 8 "2023-May-23 08:10:10.250000") (stamp 9 "2023-May-23 08:10:11")
    (stamp 10 "2023-May-23 08:10:11") (stamp 11 "2023-May-23 08:10:11.500000") (stamp 12 "2023-May-23 08:10:12").

Definition run_entries : list entry :=
  example_log ++ stamped 7 "2023-May-23 08:10:10" 0 (ReceiveRequest 120 8 0) :: round_entries second_round.
Definition run_log : string := entries_log run_entries.

Definition run_node : NodeLog :=
  match make_node_log run_log [] with Ok n => n | Raise _ => MkNodeLog EmptyString [] 0 [] end.

Definition run_object : list (string * pyval) :=
  [("nodes", VInt 1); ("clients", VInt 1); ("warmup_duration", VInt 0); ("rate", VInt 10); ("tx_size", VInt 250);
   ("genesis_hours_in_the_past", VInt 0); ("target_block_time", VInt 60); ("duration", VInt 120)]%string.
Definition run_parameters := match bench_from_dict run_object with Ok p => p | Raise _ => [] end.

Definition example_run : RunResult := MkRunResult run_parameters [run_node].

Definition latencies_of (r : RunResult) : list (Z * float) :=
  match consensus_block_latencies_by_height r with Ok d => d | Raise _ => [] end.
Definition warm_start_of (r : RunResult) : float := match warm_start r with Ok t => t | Raise _ => 0 end.
Definition rows_of (m : result (list (list cell))) : list (list cell) := match m with Ok rows => rows | Raise _ => [] end.

Lemma run_node_parsed : parsed run_node.
Proof. exists run_log, []. vm_compute. reflexivity. Qed.

Example consensus_block_latencies_spec_witness :
  exists not_before, warm_start example_run = Ok not_before
    /\ (forall h, latency_at true_request_time_of (get_earliest_executes_by_height (node_logs example_run) not_before)
                  (get_earliest_requests_by_height (node_logs example_run) not_before) (latencies_of example_run) h)
    /\ latencies_of example_run <> [] /\ exists m, mean_latency example_run = Ok m /\ 0 <= m.
Proof. apply (consensus_block_latencies_spec example_run (latencies_of example_run)). vm_compute. reflexivity. Defined.

Example consensus_block_throughput_spec_witness :
  let executes := get_earliest_executes_by_height (node_logs example_run) (warm_start_of example_run) in
  (executes = [] /\ consensus_block_throughput example_run = Ok 0)
  \/ exists e, end_ (node_logs example_run) = Ok e /\ warm_start_of example_run <= e
       /\ consensus_block_throughput example_run
          = fdiv (of_int (Z.of_nat (length executes))) (fsub e (warm_start_of example_run))
       /\ match consensus_block_throughput example_run with
          | Ok x => warm_start_of example_run < e /\ 0 <= x
          | Raise err => err = ZeroDivisionError /\ e = warm_start_of example_run
          end.
Proof.
  apply (consensus_block_throughput_spec example_run (warm_start_of example_run)).
  - repeat constructor. exact run_node_parsed.
  - vm_compute. reflexivity.
Defined.

Example csv_summary_by_height_shape_witness :
  exists data from_requests from_preprepare blocksizes,
    rows_of (csv_summary_by_height elements example_run None) = default [CText <$> BY_HEIGHT_HEADERS] None ++ data
    /\ consensus_block_latencies_by_height example_run = Ok from_requests
    /\ consensus_block_latencies_from_preprepare_by_height example_run = Ok from_preprepare
    /\ blocksize_by_height example_run = Ok blocksizes
    /\ length data = size (list_to_set (dkeys from_preprepare) ∩ list_to_set (dkeys from_requests)
                           ∩ list_to_set (dkeys blocksizes) : gset Z)
    /\ Forall (fun row => S (length row) = length BY_HEIGHT_HEADERS) data.
Proof.
  apply (csv_summary_by_height_shape elements example_run None); [reflexivity|vm_compute; reflexivity].
Defined.
