(* ===== verification/ResultText.v ===== *)
(** * The texts of the results (benchmark_framework/logs.py, RunResult)

    The lines of the CSV files, as [csv.writer] writes them, and the text of [summary].
    The percentiles are those of numpy, a parameter. *)

From S2P Require Import Prelude PyStr PyInt PyFloat PyDict Fields PyJson PyRepr Config LogEvents NodeLog NodeLogs TimeIntervals RunResult.

(** ** CSV *)

(** The dialect [excel]: a field is quoted when it has a comma, a quote or an end of line. *)
Definition csv_special (c : ascii) : bool :=
  Ascii.eqb c "," || Ascii.eqb c quote_char || Ascii.eqb c nl || Ascii.eqb c cr.
Fixpoint double_quotes (s : string) : string :=
  match s with
  | EmptyString => EmptyString
  | String c s' => if Ascii.eqb c quote_char then (DQ ++ DQ ++ double_quotes s')%string else String c (double_quotes s')
  end.
Definition csv_field (s : string) : string :=
  if str_all (fun c => negb (csv_special c)) s then s else (DQ ++ double_quotes s ++ DQ)%string.

Definition cell_text (c : cell) : result string :=
  match c with
  | CText s => Ok (csv_field s)
  | CParam VNone => Ok EmptyString
  | CParam v => t ← py_str v; Ok (csv_field t)
  | CInt n => Ok (str_of_Z n)
  | CFloat (Some x) => Ok (float_repr x)
  | CFloat None => Ok "nan"%string
  end.

(** [writer.writerow] and [writer.writerows] *)
Definition csv_row (cells : list cell) : result string :=
  texts ← mapM cell_text cells; Ok (join "," texts ++ String cr NL)%string.
Definition csv_text (rows : list (list cell)) : result string :=
  lines ← mapM csv_row rows; Ok (foldr String.append EmptyString lines).

(** ** Numbers with thousands separators *)

(** [{n:,}] on the digits of a number. *)
Fixpoint group_digits (s : string) : string :=
  match s with
  | EmptyString => EmptyString
  | String c s' =>
      let n := String.length s' in
      String c ((if (0 <? n)%nat && (n mod 3 =? 0)%nat then "," else EmptyString) ++ group_digits s')%string
  end.

(** On an integer, and on a float: the digits before the point or the exponent. *)
Definition grouped_text (s : string) : string :=
  let '(sign, s) := match s with String "-" s' => ("-"%string, s') | _ => (EmptyString, s) end in
  let '(ds, rest) := span is_digit s in (sign ++ group_digits ds ++ rest)%string.
Definition grouped_int (n : Z) : string := grouped_text (str_of_Z n).
Definition grouped_float (x : float) : string := grouped_text (float_repr x).

(** ** The summary *)

(** [TimeIntervals.get_time_spent_summary] *)
Definition time_spent_line (label : string) (row : Z * float) : string :=
  (" Time spent for " ++ label ++ grouped_int row.1 ++ " ms (" ++ float_repr row.2 ++ " %)" ++ NL)%string.
Definition time_spent_text (intervals : TimeIntervals) (not_before : number) : result string :=
  rows ← get_time_spent_summary intervals not_before;
  match rows with
  | [fbft; roast; bitcoin] =>
      Ok (time_spent_line "FBFT:                " fbft ++ time_spent_line "ROAST:               " roast
          ++ time_spent_line "Bitcoin:             " bitcoin)%string
  | _ => Raise Unmodelled
  end.

Definition no_time_intervals : string :=
  "No time intervals summary available (view change happened, old logs not containing EndSubmitBlock event)." ++ NL.

Definition rule : string := "-----------------------------------------" ++ NL.
Definition plus_minus : string := String "177"%char EmptyString.

Section Summary.
(** [np.percentile] *)
Context (percentile : list float -> Z -> result float).

(** An attribute of the parameters inside the f-string. *)
Definition param_text (r : RunResult) (name : string) : result string :=
  v ← bench_attr name (bench_parameters r); py_str v.

(** [round(x * 1000)] *)
Definition to_ms (x : float) : Z := fround (fmul x (of_int 1000)).

(** [mean], [stdev] and the five percentiles of the latencies from the requests or from
    the pre-prepares. *)
Definition mean_line (label : string) (latencies : list float) : result string :=
  m ← mean latencies;
  s ← stdev latencies;
  Ok (label ++ grouped_int (to_ms m) ++ plus_minus ++ str_of_Z (to_ms s) ++ " ms" ++ NL)%string.
Definition percentile_line (latencies : list float) (line : string * Z) : result string :=
  x ← percentile latencies line.2; Ok (line.1 ++ str_of_Z (to_ms x) ++ " ms" ++ NL)%string.
Definition latency_lines (mean_label : string) (labels : list (string * Z)) (latencies : list float) : result string :=
  first ← mean_line mean_label latencies;
  lines ← mapM (percentile_line latencies) labels;
  Ok (foldr String.append EmptyString (first :: lines)).

Definition request_labels : list (string * Z) :=
  [(" latency from request (  0th):       ", 0); (" latency from request ( 25th):       ", 25);
   (" latency from request ( 50th):       ", 50); (" latency from request ( 75th):       ", 75);
   (" latency from request (100th):       ", 100)]%string.
Definition preprepare_labels : list (string * Z) :=
  [(" latency from preprepare (  0th):    ", 0); (" latency from preprepare ( 25th):    ", 25);
   (" latency from preprepare ( 50th):    ", 50); (" latency from preprepare ( 75th):    ", 75);
   (" latency from preprepare (100th):    ", 100)]%string.

(** The throughput, an integer zero when there is no block. *)
Definition throughput_text (r : RunResult) : result string :=
  not_before ← warm_start r;
  throughput ← consensus_block_throughput r;
  let nb_blocks := Z.of_nat (length (get_earliest_executes_by_height (node_logs r) not_before)) in
  Ok (if nb_blocks =? 0 then "0"%string else grouped_float (fround_digits 5 throughput)).

Definition config_text (r : RunResult) : result string :=
  faults ← param_text r "faults";
  nodes ← param_text r "nodes";
  target_block_time ← param_text r "target_block_time";
  rate ← param_text r "rate";
  genesis_hours_in_the_past ← param_text r "genesis_hours_in_the_past";
  tx_size ← param_text r "tx_size";
  duration ← true_duration r;
  warmup_duration ← bench_int "warmup_duration" (bench_parameters r);
  Ok (" + CONFIG:" ++ NL ++ " Faults: " ++ faults ++ " nodes" ++ NL ++ " Committee size: " ++ nodes ++ " nodes" ++ NL
      ++ " Target block time: " ++ target_block_time ++ " s" ++ NL ++ " Input rate: " ++ rate ++ " tx/s" ++ NL
      ++ " Genesis hours in the past: " ++ genesis_hours_in_the_past ++ " h" ++ NL
      ++ " Transaction size: " ++ tx_size ++ " B" ++ NL
      ++ " Execution time: " ++ grouped_int (fround duration) ++ " s" ++ NL
      ++ " Warm-up time:   " ++ grouped_int warmup_duration ++ " s" ++ NL)%string.

Definition results_text (r : RunResult) : result string :=
  throughput ← throughput_text r;
  latencies ← consensus_block_latencies r;
  from_requests ← latency_lines (" latency from request (mean" ++ plus_minus ++ "std):    ")%string request_labels latencies;
  from_preprepare_latencies ← consensus_block_latencies_from_preprepare r;
  from_preprepare ← latency_lines " latency from preprepare (mean/std): " preprepare_labels from_preprepare_latencies;
  fault_latency ← latency_at_fault_height r;
  Ok (" + RESULTS:" ++ NL ++ " Throughput (blocks/s):              " ++ throughput ++ " blocks/s" ++ NL
      ++ from_requests ++ from_preprepare
      ++ " #Blocks:                            " ++ str_of_Z (Z.of_nat (length latencies)) ++ NL
      ++ " Latency at fault height:            " ++ grouped_int (to_ms fault_latency) ++ " ms" ++ NL)%string.

(** [RunResult.summary] *)
Definition summary (r : RunResult) : result string :=
  tis ← time_intervals r;
  time_intervals_summary ←
    match tis with
    | Some intervals => not_before ← warm_start r; time_spent_text intervals not_before
    | None => Ok no_time_intervals
    end;
  config ← config_text r;
  results ← results_text r;
  Ok (NL ++ rule ++ " SUMMARY:" ++ NL ++ rule ++ config ++ rule ++ results ++ time_intervals_summary)%string.
End Summary.

(** ** Lemmas *)

(** Without its separators a grouped number is the number. *)
Fixpoint remove_commas (s : string) : string :=
  match s with
  | EmptyString => EmptyString
  | String c s' => if Ascii.eqb c "," then remove_commas s' else String c (remove_commas s')
  end.

Lemma remove_commas_app a b : remove_commas (a ++ b) = (remove_commas a ++ remove_commas b)%string.
Proof. induction a as [|c a IH]; cbn; [done|]. destruct (Ascii.eqb c ","); cbn; by rewrite IH. Qed.

Lemma group_digits_commas s : has_char "," s = false -> remove_commas (group_digits s) = s.
Proof.
  induction s as [|c s IH]; [done|]. rewrite has_char_cons. intros [Hc Hs]%orb_false_iff. cbn [group_digits remove_commas].
  rewrite Ascii.eqb_sym, Hc, remove_commas_app, IH by done. by case_match.
Qed.

(** A run that measures a single block has no statistics: the deviation of one latency is
    an error, and neither the row of the CSV file nor the summary is made. *)
Lemma mean_line_single label x : mean_line label [x] = Raise StatisticsError.
Proof. reflexivity. Qed.

Lemma single_block_no_summary r x file :
  consensus_block_latencies r = Ok [x] -> is_ok (csv_summary r file) = false /\ forall percentile, is_ok (summary percentile r) = false.
Proof.
  intros Hx. split.
  - destruct (csv_summary r file) as [rows|] eqn:E; [|done]. exfalso. unfold csv_summary in E.
    do 6 (apply bind_Ok in E as (? & ? & E)). apply bind_Ok in E as (lat & Hlat & E).
    rewrite Hx in Hlat. injection Hlat as <-. apply bind_Ok in E as (? & _ & E). by apply bind_Ok in E as (? & Hs & _).
  - intros percentile. destruct (summary percentile r) as [t|] eqn:E; [|done]. exfalso. unfold summary in E.
    do 3 (apply bind_Ok in E as (? & ? & E)). apply bind_Ok in E as (results & Hr & _). unfold results_text in Hr.
    apply bind_Ok in Hr as (? & _ & Hr). rewrite Hx in Hr. cbn [mbind result_bind] in Hr. unfold latency_lines in Hr.
    by rewrite mean_line_single in Hr.
Qed.
