(* ===== verification/ClientLog.v ===== *)
(** * The logs of the clients (benchmark_framework/logs.py, LogParser._parse_clients;
    benchmark_framework/utils.py, get_logger)

    The transactions a client sent, and the two notifications of each, its entry
    into the mempool and its inclusion in a block; and the time stamps of the
    logger of the clients. *)

From S2P Require Import Prelude PyStr PyInt PyFloat PyDict PySort PyRegex PyTime LogEvents NodeLog.

Definition UNDEFINED_TIMESTAMP : number := - one.

Record TxLog : Type := MkTxLog {
  submitted_timestamp : number;
  mempool_timestamp : number;
  finalized_timestamp : number;
  tx_number : Z;
  tx_hash : string;
  size : Z }.

Record ClientLog : Type := MkClientLog {
  tx_logs : list TxLog;
  client_start : float;
  client_size : Z;
  client_rate : float }.

(** [ClientLogs.tx_sizes] *)
Definition tx_sizes (logs : list ClientLog) : list Z := client_size <$> logs.

Definition size_pattern : list item := [Lit "Transactions size: "; digits_group].
Definition rate_pattern : list item := [Lit "Transactions rate: "; digits_group].
Definition start_pattern : list item := [Lit "["; any_lazy; Lit "]"; any_star; Lit "Start sending transactions"].
Definition sending_pattern : list item :=
  [Lit "["; any_lazy; Lit "] "; any_star; Lit "Sending transaction number "; digits_group; Lit " with hash ";
   any_group; Lit " of size "; any_group].
Definition notification_pattern : list item :=
  [Lit "["; any_lazy; Lit "] "; any_star; Lit "seqnumber: "; any_star; Lit ", tx hash="; any_group].

(** [search(pattern, log).group(1)] *)
Definition search_group1 (pattern : list item) (log : string) : result string :=
  gs ← search_groups pattern log;
  or_raise IndexError (gs !! 0%nat).

(** The dictionary of the sent transactions. *)
Definition add_sent (acc : list (Z * TxLog)) (gs : list string) : result (list (Z * TxLog)) :=
  match gs with
  | [raw_timestamp; number; hash; tx_size] =>
      n ← py_int number;
      t ← to_posix raw_timestamp;
      sz ← py_int tx_size;
      Ok (dset n (MkTxLog t UNDEFINED_TIMESTAMP UNDEFINED_TIMESTAMP n hash sz) acc)
  | _ => Raise ValueError
  end.

Definition hash_to_number (txs : list (Z * TxLog)) : list (string * Z) :=
  foldl (fun d tx => dset (tx_hash tx) (tx_number tx) d) [] (dvalues txs).

(** The body of the loop on the notifications. *)
Definition notify (numbers : list (string * Z)) (txs : list (Z * TxLog)) (row : string * string)
    : result (list (Z * TxLog)) :=
  let '(timestamp, hash) := row in
  match dget hash numbers with
  | None => Ok txs
  | Some n =>
      tx ← dlookup n txs;
      _ ← py_assert (bool_decide (tx_hash tx = hash));
      if mempool_timestamp tx =? UNDEFINED_TIMESTAMP
      then t ← to_posix timestamp;
           Ok (dset n (MkTxLog (submitted_timestamp tx) t (finalized_timestamp tx) (tx_number tx) (tx_hash tx) (size tx)) txs)
      else _ ← py_assert (finalized_timestamp tx =? UNDEFINED_TIMESTAMP);
           t ← to_posix timestamp;
           Ok (dset n (MkTxLog (submitted_timestamp tx) (mempool_timestamp tx) t (tx_number tx) (tx_hash tx) (size tx)) txs)
  end.

(** The pair of the groups of a notification. *)
Definition pair_of (gs : list string) : result (string * string) :=
  match gs with [a; b] => Ok (a, b) | _ => Raise ValueError end.

(** [LogParser._parse_clients] *)
Definition parse_clients (log : string) : result ClientLog :=
  if contains "Error" log then Raise ParseError
  else
    size_str ← search_group1 size_pattern log;
    sz ← py_int size_str;
    rate_str ← search_group1 rate_pattern log;
    rate ← py_int rate_str;
    tmp ← search_group1 start_pattern log;
    start ← to_posix tmp;
    txs ← foldM add_sent [] (findall sending_pattern log);
    let numbers := hash_to_number txs in
    rows ← mapM pair_of (findall notification_pattern log);
    txs ← foldM (notify numbers) txs (sorted (fun a b => str_le a.1 b.1) rows);
    Ok (MkClientLog (sorted (fun a b => tx_number a <=? tx_number b) (dvalues txs)) start sz (of_int rate)).

(** [LogParser._parse_nodes] *)
Definition parse_nodes (log : string) : result NodeLog :=
  if contains "panic" log then Raise ParseError else make_node_log log [].

(** The handler around the two pools of [LogParser.__init__]. *)
Definition parse_all {A} (parse : string -> result A) (logs : list string) : result (list A) :=
  py_except (mapM parse logs)
    (fun e => match e with ValueError | IndexError => Raise ParseError | _ => Raise e end).

(** ** The logger of the clients *)

(** [%(asctime)s.%(msecs)d]: the milliseconds are not padded. *)
Definition logger_stamp (t : datetime) (msecs : Z) : string := (strftime t ++ "." ++ str_of_Z msecs)%string.

(** A row of the logger. *)
Definition logger_row (t : datetime) (msecs : Z) (levelname message : string) : string :=
  ("[" ++ logger_stamp t msecs ++ "] [" ++ levelname ++ "] " ++ message ++ NL)%string.

(** ** Lemmas *)

Lemma micros_of_fraction t us :
  microsecond t = 0 ->
  micros (DateTime (year t) (month t) (day t) (hour t) (minute t) (second t) us) = micros t + us.
Proof. intros H0. unfold micros. cbn [year month day hour minute second microsecond]. rewrite H0. lia. Qed.

Lemma ndigits_cases ms :
  0 <= ms < 1000 ->
  (ndigits ms = 1%nat /\ ms < 10) \/ (ndigits ms = 2%nat /\ 10 <= ms < 100) \/ (ndigits ms = 3%nat /\ 100 <= ms).
Proof.
  intros Hms. pose proof (ndigits_spec ms ltac:(lia)) as [H1 H2]. pose proof (ndigits_pos ms).
  pose proof (ndigits_mono ms 999 ltac:(lia)) as H3. change (ndigits 999) with 3%nat in H3.
  assert (ndigits ms = 1%nat \/ ndigits ms = 2%nat \/ ndigits ms = 3%nat) as [E|[E|E]] by lia; rewrite E in *; cbn in *; lia.
Qed.

Lemma logger_stamp_fraction t n ms :
  valid_datetime t = true -> microsecond t = 0 -> (n < 3)%nat -> 0 <= ms < 10 ^ Z.of_nat (S n) ->
  to_posix (strftime t ++ "." ++ fixed_width (S n) ms) = total_seconds (micros t + ms * 10 ^ Z.of_nat (5 - n)).
Proof.
  intros Hv H0 Hn Hms. unfold to_posix.
  rewrite (head_strptime _ _ _ (date_and_time_f_first t n ms Hv ltac:(lia))), Z.mod_small by lia.
  rewrite <-(micros_of_fraction t _ H0). set (t' := DateTime _ _ _ _ _ _ _).
  assert (valid_datetime t' = true) as ->; [|done].
  apply valid_datetime_spec in Hv. apply valid_datetime_spec. unfold t'.
  cbn [year month day hour minute second microsecond].
  assert (0 <= ms * 10 ^ Z.of_nat (5 - n) <= 999999); [|lia].
  destruct n as [|[|[|n]]]; [..|lia]; cbn in *; lia.
Qed.

(** The milliseconds the logger of the clients writes are read back as a decimal
    fraction of the second: 5 ms as 500 ms.  The time stamp read is the one that was
    logged exactly when there are no milliseconds or at least 100. *)
Theorem logger_stamp_read t ms :
  valid_datetime t = true -> microsecond t = 0 -> 0 <= ms < 1000 ->
  to_posix (logger_stamp t ms) = total_seconds (micros t + ms * 10 ^ (6 - Z.of_nat (ndigits ms)))
  /\ (ms * 10 ^ (6 - Z.of_nat (ndigits ms)) = ms * 1000 <-> ms = 0 \/ 100 <= ms).
Proof.
  intros Hv H0 Hms. unfold logger_stamp. rewrite str_of_Z_nonneg by lia.
  destruct (ndigits_cases ms Hms) as [[-> H]|[[-> H]|[-> H]]].
  - rewrite (logger_stamp_fraction t 0) by (done || cbn; lia). cbn. split; [done|lia].
  - rewrite (logger_stamp_fraction t 1) by (done || cbn; lia). cbn. split; [done|lia].
  - rewrite (logger_stamp_fraction t 2) by (done || cbn; lia). cbn. split; [done|lia].
Qed.

(** ** The two notifications of a transaction *)

Definition with_times (tx : TxLog) (ts : list number) : TxLog :=
  MkTxLog (submitted_timestamp tx) (default UNDEFINED_TIMESTAMP (ts !! 0%nat))
    (default UNDEFINED_TIMESTAMP (ts !! 1%nat)) (tx_number tx) (tx_hash tx) (size tx).

(** The times of the notifications of a hash, in order. *)
Definition times_of (h : string) (rows : list (string * string)) : list number :=
  omap (fun row : string * string =>
          if decide (row.2 = h) then match to_posix row.1 with Ok t => Some t | Raise _ => None end else None) rows.

(** The times that count for the transaction of number [n]. *)
Definition tx_times (numbers : list (string * Z)) (n : Z) (tx : TxLog) (rows : list (string * string)) : list number :=
  if decide (dget (tx_hash tx) numbers = Some n) then times_of (tx_hash tx) rows else [].

(** The dictionary before the notifications. *)
Definition fresh (txs : list (Z * TxLog)) : Prop :=
  NoDup (dkeys txs) /\ Forall (fun item => item.1 = tx_number item.2 /\ with_times item.2 [] = item.2) txs.

Lemma add_sent_fresh txs gs txs' : add_sent txs gs = Ok txs' -> fresh txs -> fresh txs'.
Proof.
  unfold add_sent. destruct gs as [|raw [|num [|h [|sz [|? ?]]]]]; try done. intros Hadd [Hnd Hall]. inv_ok. subst txs'.
  split; [by apply NoDup_dset|]. by apply Forall_dset.
Qed.

Lemma sent_fresh rows txs txs' : foldM add_sent txs rows = Ok txs' -> fresh txs -> fresh txs'.
Proof.
  revert txs. induction rows as [|gs rows IH]; intros txs; cbn [foldM]; [by intros [= <-]|].
  intros (txs1 & Hadd & Hrun)%bind_Ok Hf. apply (IH txs1); [done|]. by eapply add_sent_fresh.
Qed.

(** A hash is mapped to the number of a transaction that has it. *)
Lemma hash_to_number_sound txs h n :
  fresh txs -> dget h (hash_to_number txs) = Some n -> exists tx, dget n txs = Some tx /\ tx_hash tx = h.
Proof.
  intros [Hnd Hall] Hh.
  assert (exists tx, (n, tx) ∈ txs /\ tx_hash tx = h) as (tx & Hin & Htx).
  { clear Hnd. revert Hh. unfold hash_to_number, dvalues.
    induction txs as [|[k tx] txs IH] using rev_ind; [done|].
    rewrite Forall_app, Forall_singleton in Hall. destruct Hall as [Hall [Hk _]]. cbn in Hk.
    rewrite fmap_app, foldl_app. cbn [fmap list_fmap foldl snd]. rewrite dget_dset. case_decide as E.
    - intros [= <-]. exists tx. split; [|done]. rewrite <-Hk. set_solver.
    - intros (tx' & Hin & ?)%IH; [|done]. exists tx'. split; [set_solver|done]. }
  exists tx. split; [by apply elem_dget_Some|done].
Qed.

Lemma times_of_snoc h rows s h' t :
  to_posix s = Ok t -> times_of h (rows ++ [(s, h')]) = times_of h rows ++ if decide (h' = h) then [t] else [].
Proof. intros Hs. unfold times_of. rewrite omap_app. cbn. rewrite Hs. by case_decide. Qed.

(** The state of the loop after some notifications. *)
Definition notified (numbers : list (string * Z)) (txs txs' : list (Z * TxLog)) (rows : list (string * string)) : Prop :=
  forall n tx, dget n txs = Some tx ->
    (length (tx_times numbers n tx rows) <= 2)%nat
    /\ dget n txs' = Some (with_times tx (tx_times numbers n tx rows)).

Lemma tx_times_snoc numbers n tx rows s h t :
  to_posix s = Ok t ->
  tx_times numbers n tx (rows ++ [(s, h)])
  = tx_times numbers n tx rows
    ++ if decide (h = tx_hash tx /\ dget h numbers = Some n) then [t] else [].
Proof.
  intros Hs. unfold tx_times. destruct (decide (dget (tx_hash tx) numbers = Some n)) as [E|E].
  - rewrite (times_of_snoc _ _ _ _ _ Hs). f_equal.
    repeat case_decide; try done; [subst; tauto|destruct_and!; done].
  - case_decide; [|done]. destruct_and!. subst. done.
Qed.

(** A notification of a transaction whose times so far are known. *)
Lemma notify_known numbers txs n tx ts s t :
  dget (tx_hash tx) numbers = Some n -> dget n txs = Some (with_times tx ts) ->
  Forall (fun x => 0 <= x) ts -> to_posix s = Ok t ->
  notify numbers txs (s, tx_hash tx) =
  match length ts with
  | 0%nat | 1%nat => Ok (dset n (with_times tx (ts ++ [t])) txs)
  | _ => Raise AssertionError
  end.
Proof.
  intros Hn Hget Hpos Hs. unfold notify, dlookup. rewrite Hn, Hget. cbn [or_raise mbind result_bind].
  change (tx_hash (with_times tx ts)) with (tx_hash tx). rewrite bool_decide_true by done.
  cbn [py_assert mbind result_bind].
  assert (forall x, 0 <= x -> (x =? UNDEFINED_TIMESTAMP) = false) as Hdef.
  { intros x Hx. apply Z.eqb_neq. pose proof one_pos. unfold UNDEFINED_TIMESTAMP. lia. }
  destruct ts as [|a [|b ts]]; cbn [with_times mempool_timestamp finalized_timestamp lookup list_lookup default length].
  - rewrite Hs. unfold with_times. cbn. by rewrite Z.eqb_refl.
  - apply Forall_cons in Hpos as [Ha _]. unfold with_times. cbn. rewrite Hdef, Z.eqb_refl by done. cbn. by rewrite Hs.
  - rewrite !Forall_cons in Hpos. destruct Hpos as (Ha & Hb & _). unfold with_times. cbn. rewrite !Hdef by done. done.
Qed.

Lemma notify_step txs txs' rows s h t :
  let numbers := hash_to_number txs in
  fresh txs -> notified numbers txs txs' rows -> Forall (fun row => exists t, to_posix row.1 = Ok t /\ 0 <= t) rows ->
  to_posix s = Ok t ->
  match notify numbers txs' (s, h) with
  | Ok txs'' => notified numbers txs txs'' (rows ++ [(s, h)])
  | Raise e => e = AssertionError /\ is_Some (dget h numbers) /\ (3 <= length (times_of h (rows ++ [(s, h)])))%nat
  end.
Proof.
  intros numbers Hf Hnot Hrows Hs. destruct (dget h numbers) as [n|] eqn:Hn.
  - destruct (hash_to_number_sound txs h n Hf Hn) as (tx & Htx & Eh). subst h.
    destruct (Hnot n tx Htx) as [Hlen Hget]. unfold tx_times in Hlen, Hget.
    rewrite decide_True in Hlen, Hget by done.
    assert (Forall (fun x => 0 <= x) (times_of (tx_hash tx) rows)) as Hpos.
    { apply Forall_forall. intros x Hx. apply list_elem_of_omap in Hx as (row & Hin & Hrow).
      rewrite Forall_forall in Hrows. destruct (Hrows row Hin) as (x' & Hx' & ?). rewrite Hx' in Hrow.
      case_decide; [|done]. by injection Hrow as <-. }
    rewrite (notify_known numbers txs' n tx _ s t Hn Hget Hpos Hs).
    assert (forall txs'', dget n txs'' = Some (with_times tx (times_of (tx_hash tx) rows ++ [t])) ->
              (forall k, k <> n -> dget k txs'' = dget k txs') -> (length (times_of (tx_hash tx) rows) < 2)%nat ->
              notified numbers txs txs'' (rows ++ [(s, tx_hash tx)])) as Hnew.
    { intros txs'' Hn'' Hother Hlt k tx' Htx'. rewrite (tx_times_snoc _ _ _ _ _ _ t Hs).
      destruct (decide (k = n)) as [->|Hk].
      - assert (tx' = tx) as -> by congruence. rewrite decide_True by done. unfold tx_times. rewrite decide_True by done.
        rewrite length_app. cbn [length]. split; [lia|done].
      - rewrite decide_False, app_nil_r by (intros [_ ?]; congruence). rewrite Hother by done. by apply Hnot. }
    destruct (length (times_of (tx_hash tx) rows)) as [|[|m]] eqn:El.
    + apply Hnew; [apply dget_dset_eq|intros; by apply dget_dset_ne|lia].
    + apply Hnew; [apply dget_dset_eq|intros; by apply dget_dset_ne|lia].
    + split; [done|]. split; [by eexists|]. rewrite (times_of_snoc _ _ _ _ _ Hs), decide_True, length_app, El by done.
      cbn. lia.
  - unfold notify. rewrite Hn. intros k tx Htx. rewrite (tx_times_snoc _ _ _ _ _ _ t Hs).
    rewrite decide_False, app_nil_r by (intros [_ ?]; congruence). by apply Hnot.
Qed.

(** The loop on the notifications, on rows in any order with readable time
    stamps: either every transaction that was sent has at the end its first
    notification as its entry in the mempool and its second one, if any, as its
    finalization, the others being left unknown; or the loop fails, and some
    transaction has three notifications. *)
Theorem notifications_spec sent txs rows :
  foldM add_sent [] sent = Ok txs ->
  Forall (fun row => exists t, to_posix row.1 = Ok t /\ 0 <= t) rows ->
  match foldM (notify (hash_to_number txs)) txs rows with
  | Ok txs' => forall n tx, dget n txs = Some tx ->
                 dget n txs' = Some (with_times tx (tx_times (hash_to_number txs) n tx rows))
  | Raise e => e = AssertionError
               /\ exists h, is_Some (dget h (hash_to_number txs)) /\ (3 <= length (times_of h rows))%nat
  end.
Proof.
  intros Hsent%sent_fresh Hrows; [|by split; constructor].
  assert (match foldM (notify (hash_to_number txs)) txs rows with
          | Ok txs' => notified (hash_to_number txs) txs txs' rows
          | Raise e => e = AssertionError
                       /\ exists h, is_Some (dget h (hash_to_number txs)) /\ (3 <= length (times_of h rows))%nat
          end) as H.
  { induction rows as [|[s h] rows IH] using rev_ind.
    - intros n tx Htx. destruct Hsent as [_ Hall]. rewrite Forall_forall in Hall.
      destruct (Hall (n, tx)) as [_ E]; [by apply dget_Some_elem|]. cbn in E.
      assert (tx_times (hash_to_number txs) n tx [] = []) as -> by (unfold tx_times; by case_decide).
      cbn [length]. rewrite E. split; [lia|done].
    - rewrite Forall_app, Forall_singleton in Hrows. destruct Hrows as [Hrows (t & Ht & _)]. specialize (IH Hrows).
      rewrite foldM_app. destruct (foldM (notify _) txs rows) as [txs'|e]; cbn [mbind result_bind foldM].
      + pose proof (notify_step txs txs' rows s h t Hsent IH Hrows Ht) as Hstep. cbn zeta in Hstep.
        destruct (notify _ txs' (s, h)); cbn [mbind result_bind]; [done|]. destruct Hstep as (-> & ? & ?). eauto.
      + destruct IH as (-> & h' & Hh' & Hlen). split; [done|]. exists h'. split; [done|].
        rewrite (times_of_snoc _ _ _ _ _ Ht), length_app. lia. }
  destruct (foldM (notify _) txs rows); [|done]. intros n tx Htx. by apply H.
Qed.

(** The search never finds a pattern with a literal that the text does not contain. *)
Lemma findall_needs l r s : Lit l ∈ r -> contains l s = false -> findall r s = [].
Proof.
  intros Hl Hs. unfold findall. cbn [findall_go]. destruct (search r s) as [[gs t]|] eqn:E; [|done].
  apply search_sound in E as (a & m & -> & Hm). apply (matches_literal l) in Hm; [|done].
  apply contains_true_iff in Hm as (u & v & ->). apply not_true_iff_false in Hs. destruct Hs.
  apply contains_true_iff. exists (a ++ u)%string, (v ++ t)%string. by rewrite <-!str_app_assoc.
Qed.

(** A client log without the text "Sending transaction number " gives no
    transaction, whatever it says about sent transactions: and the clients
    write "Sent transaction number". *)
Theorem parse_clients_sent log c :
  contains "Sending transaction number " log = false -> parse_clients log = Ok c -> tx_logs c = [].
Proof.
  intros Hno Hc. unfold parse_clients in Hc. case_match; [done|].
  rewrite (findall_needs "Sending transaction number " sending_pattern log) in Hc; [|set_solver|done].
  assert (forall rows, foldM (notify (hash_to_number [])) [] rows = Ok []) as Hnone.
  { intros rows. rewrite (foldM_pure _ (fun s _ => s)); [f_equal; by induction rows|by intros s [ts h] _]. }
  cbn [foldM] in Hc.
  repeat match goal with
  | H : _ ≫= _ = Ok _ |- _ => let a := fresh "a" in let Ha := fresh "Ha" in apply bind_Ok in H as (a & Ha & H)
  end.
  injection Hc as <-. cbn [tx_logs].
  repeat match goal with
  | H : Ok [] = Ok ?x |- _ => injection H as <-
  | H : foldM (notify (hash_to_number [])) [] _ = Ok _ |- _ => rewrite Hnone in H
  end.
  done.
Qed.

(** ** Witnesses *)

(** What a client writes, and the row the parser looks for. *)
Definition client_log (verb : string) : string :=
  let t := example_time in
  (logger_row t 0 "INFO" "Transactions size: 250 byte" ++ logger_row t 0 "INFO" "Transactions rate: 10 tx/sec"
   ++ logger_row t 5 "INFO" "Start sending transactions"
   ++ logger_row t 900 "INFO" (verb ++ " transaction number 0 with hash 00ab of size 250")
   ++ logger_row (DateTime 2023 5 23 8 9 11 0) 150 "INFO" "seqnumber: 3, tx hash=00ab"
   ++ logger_row (DateTime 2023 5 23 8 10 0 0) 200 "INFO" "seqnumber: 9, tx hash=00ab")%string.

Definition parsed_client (log : string) : ClientLog :=
  match parse_clients log with Ok c => c | Raise _ => MkClientLog [] 0 0 0 end.

Example parse_clients_sending :
  length (tx_logs (parsed_client (client_log "Sending"))) = 1%nat.
Proof. vm_compute. reflexivity. Qed.

Example parse_clients_sent_witness :
  contains "Sent transaction number 0" (client_log "Sent") = true
  /\ tx_logs (parsed_client (client_log "Sent")) = [].
Proof.
  split; [vm_compute; reflexivity|].
  apply (parse_clients_sent (client_log "Sent")); vm_compute; reflexivity.
Defined.

Example logger_stamp_read_witness :
  to_posix "2023-May-23 08:09:10.5" = total_seconds (micros example_time + 5 * 10 ^ (6 - Z.of_nat (ndigits 5)))
  /\ (5 * 10 ^ (6 - Z.of_nat (ndigits 5)) = 5 * 1000 <-> 5 = 0 \/ 100 <= 5).
Proof. apply (logger_stamp_read example_time 5); [reflexivity|reflexivity|lia]. Defined.

Definition example_sent : list (list string) := [["2023-May-23 08:09:10.900"; "0"; "00ab"; "250"]]%string.
Definition example_notifications : list (string * string) :=
  [("2023-May-23 08:09:11.150", "00ab"); ("2023-May-23 08:09:11.300", "00ff"); ("2023-May-23 08:10:00.200", "00ab")]%string.
Definition example_txs : list (Z * TxLog) := match foldM add_sent [] example_sent with Ok txs => txs | Raise _ => [] end.

Example notifications_spec_witness :
  match foldM (notify (hash_to_number example_txs)) example_txs example_notifications with
  | Ok txs' => forall n tx, dget n example_txs = Some tx ->
      dget n txs' = Some (with_times tx (tx_times (hash_to_number example_txs) n tx example_notifications))
  | Raise e => e = AssertionError
      /\ exists h, is_Some (dget h (hash_to_number example_txs)) /\ (3 <= length (times_of h example_notifications))%nat
  end.
Proof.
  apply (notifications_spec example_sent example_txs example_notifications).
  - vm_compute. reflexivity.
  - repeat constructor; eexists; (split; [vm_compute; reflexivity|vm_compute; discriminate]).
Defined.
