(* ===== verification/LogFiles.v ===== *)
(** * The files of a run (benchmark_framework/logs.py, LogParser and ExperimentResult)

    [LogParser] on a file system: the logs of the clients and of the nodes are globbed,
    sorted and parsed, the parameters are read, and [result] adds a row to the CSV file of
    the runs and the rows of the heights to the other one. *)

From S2P Require Import Prelude PyIo PyStr PyInt PyFloat PyDict PySort FileSystem LogEvents NodeLog NodeLogs Naming Fields PyJson PyRepr Config ParameterFiles TimeIntervals RunResult ResultText ClientLog.

Definition DEFAULT_BENCH_PARAMETERS_FILENAME : string := "bench_parameters.json".

(** ** [LogParser] *)

Record LogParser : Type := MkLogParser {
  parser_parameters : instance;
  parser_output_directory : path;
  client_logs : list ClientLog;
  rate : float;
  parser_node_logs : list NodeLog }.

(** [LogParser.__init__] *)
Definition make_log_parser (clients nodes : list string) (bench_parameters : instance) (output_directory : path)
    : result LogParser :=
  _ ← py_assert (negb (bool_decide (clients = [])) && negb (bool_decide (nodes = [])));
  nb_clients ← bench_int "clients" bench_parameters;
  _ ← py_assert (Z.of_nat (length clients) =? nb_clients);
  clogs ← parse_all parse_clients clients;
  let total_rate := fsum (client_rate <$> clogs) in
  nlogs ← parse_all parse_nodes nodes;
  Ok (MkLogParser bench_parameters output_directory clogs total_rate nlogs).

(** The texts of the files, in order. *)
Fixpoint read_all (filenames : list path) : io fs (list string) :=
  match filenames with
  | [] => io_ret []
  | filename :: rest => text <~ read_text filename; texts <~ read_all rest; io_ret (text :: texts)
  end.

Section Run.
Context (parse_constant : string -> float) (scandir : gset string -> list string) (iteration : gset Z -> list Z).
Context (percentile : list float -> Z -> result float).
(** The day, the month and the year of [datetime.today()]. *)
Context (day month year : Z).

(** [LogParser.process] *)
Definition process (run_directory output_directory : path) : io fs LogParser :=
  client_files <~ inspect (fun s => glob_in_dirs scandir s run_directory "client" "client_logs.txt");
  clients <~ read_all (sorted_paths client_files);
  node_files <~ inspect (fun s => glob_in_dirs scandir s run_directory "node" "miner_logs.txt");
  nodes <~ read_all (sorted_paths node_files);
  bench_parameters <~
    inspect (fun s => bench_from_file parse_constant (content s (run_directory ++ [DEFAULT_BENCH_PARAMETERS_FILENAME])));
  lift (make_log_parser clients nodes bench_parameters output_directory).

(** The rows that a CSV file gets, with the header when there is no file yet. *)
Definition add_rows (file : path) (rows : option (list (list cell)) -> result (list (list cell))) : io fs unit :=
  new <~ inspect (fun s => rows (if is_file s file then Some [] else None));
  text <~ lift (csv_text new);
  append_text file text.

Definition csv_path (output_directory : path) : path := output_directory ++ [csv_result_file day month year].
Definition csv_by_height_path (output_directory : path) : path :=
  output_directory ++ [csv_by_height_result_file day month year].

(** [LogParser.result] *)
Definition parser_result (parser : LogParser) : io fs RunResult :=
  let result := MkRunResult (parser_parameters parser) (parser_node_logs parser) in
  _ <~ add_rows (csv_path (parser_output_directory parser)) (csv_summary result);
  _ <~ add_rows (csv_by_height_path (parser_output_directory parser)) (csv_summary_by_height iteration result);
  io_ret result.

(** [RunResult.print] and [LogParser.print]: the file is opened first. *)
Definition run_print (r : RunResult) (filename : path) : io fs unit :=
  _ <~ append_text filename EmptyString;
  text <~ lift (summary percentile r);
  append_text filename text.
Definition parser_print (parser : LogParser) (filename : path) : io fs unit :=
  _ <~ append_text filename EmptyString;
  r <~ parser_result parser;
  text <~ lift (summary percentile r);
  append_text filename text.

(** [ExperimentResult.from_directory] *)
Fixpoint run_results (run_directories : list path) (experiment_directory : path) : io fs (list RunResult) :=
  match run_directories with
  | [] => io_ret []
  | run_directory :: rest =>
      parser <~ process run_directory experiment_directory;
      log_results <~ parser_result parser;
      results <~ run_results rest experiment_directory;
      io_ret (log_results :: results)
  end.
Definition from_directory (experiment_directory : path) : io fs (list RunResult) :=
  run_directories <~ iterdir scandir experiment_directory;
  results <~ run_results (sorted_paths run_directories) experiment_directory;
  lift (experiment_result (Ok <$> results)).
End Run.

(** ** The order of the files *)

Lemma path_text_app p q : p <> [] -> q <> [] -> path_text (p ++ q) = (path_text p ++ "/" ++ path_text q)%string.
Proof.
  intros Hp Hq. induction p as [|n p IH]; [done|]. destruct p as [|m p].
  - destruct q as [|m q]; [done|]. done.
  - cbn [app path_text join] in *. unfold path_text in *. cbn [join] in *. rewrite IH by done.
    by rewrite !str_app_assoc.
Qed.

Lemma fmap_sorted {A B} (f : A -> B) (le : B -> B -> bool) (l : list A) :
  f <$> sorted (fun a b => le (f a) (f b)) l = sorted le (f <$> l).
Proof.
  assert (forall a k, f <$> insert_sorted (fun a b => le (f a) (f b)) a k = insert_sorted le (f a) (f <$> k)) as Hins.
  { intros a k. induction k as [|b k IH]; [done|]. cbn. destruct (le (f a) (f b)); [done|]. cbn. f_equal. apply IH. }
  induction l as [|a l IH]; [done|].
  transitivity (insert_sorted le (f a) (f <$> sorted (fun a b => le (f a) (f b)) l)); [apply Hins|]. by rewrite IH.
Qed.

Lemma fmap_inj_on {A B} (f : A -> B) (P : A -> Prop) (l k : list A) :
  (forall a b, P a -> P b -> f a = f b -> a = b) -> Forall P l -> Forall P k -> f <$> l = f <$> k -> l = k.
Proof.
  intros Hf Hl. revert k. induction Hl as [|a l Ha Hl IH]; intros [|b k] Hk E; try done. injection E as E1 E2.
  apply Forall_cons in Hk as [Hb Hk]. f_equal; [by apply Hf|by apply IH].
Qed.

Section Layout.
Context (scandir : gset string -> list string) (Hscandir : forall names, scandir names ≡ₚ elements names).

(** The files of the nodes of a type in a run directory, by number. *)
Definition node_files (dir : path) (t : NodeType) (nb : Z) (name : string) : list path :=
  (fun i => dir ++ [get_node_dirname i t nb; name]) <$> range nb.

(** The directories that the pattern matches are those of the nodes. *)
Definition laid_out (s : fs) (dir : path) (t : NodeType) (nb : Z) (name : string) : Prop :=
  forall n, startswith (get_dirname t) n && is_dir s (dir ++ [n]) && path_exists s (dir ++ [n; name]) = true
            <-> exists i, 0 <= i < nb /\ n = get_node_dirname i t nb.

Lemma node_file_text dir n name :
  dir <> [] -> path_text (dir ++ [n; name]) = (path_text dir ++ "/" ++ n ++ "/" ++ name)%string.
Proof. intros Hd. by rewrite path_text_app. Qed.

Lemma node_files_text dir t nb name :
  dir <> [] -> path_text <$> node_files dir t nb name = log_paths (path_text dir) name t nb.
Proof.
  intros Hd. unfold node_files, log_paths. rewrite <-list_fmap_compose. apply list_fmap_ext. intros _ i _. cbn.
  by apply node_file_text.
Qed.

Lemma node_file_inj dir n m name :
  dir <> [] -> path_text (dir ++ [n; name]) = path_text (dir ++ [m; name]) -> n = m.
Proof.
  intros Hd. rewrite !node_file_text by done. intros E%str_app_inj_l%(str_app_inj_l "/").
  apply (str_app_split n m ("/" ++ name) ("/" ++ name))%string; [|exact E]. apply (f_equal String.length) in E. rewrite !str_length_app in E. lia.
Qed.

(** The sorted files are those of the nodes, in the order of their numbers. *)
Lemma sorted_glob s dir t nb name :
  dir <> [] -> has_magic dir = false -> laid_out s dir t nb name ->
  sorted_paths <$> glob_in_dirs scandir s dir (get_dirname t) name = Ok (node_files dir t nb name).
Proof.
  intros Hd Hm Hl. unfold glob_in_dirs. rewrite Hm. cbn [negb ensure mbind result_bind fmap result_fmap]. f_equal.
  set (names := List.filter _ _). assert (names ≡ₚ (fun i => get_node_dirname i t nb) <$> range nb) as Hp.
  { apply NoDup_Permutation.
    - apply NoDup_ListNoDup, List.NoDup_filter, NoDup_ListNoDup. rewrite Hscandir. apply NoDup_elements.
    - unfold range. apply NoDup_fmap_2_strong; [|apply NoDup_seqZ]. intros i j Hi%elem_of_seqZ Hj%elem_of_seqZ Hij.
      apply Z.compare_eq_iff. rewrite <-(get_node_dirname_compare "" "" i j t nb) by lia. rewrite Hij. apply str_compare_refl.
    - intros n. unfold names. rewrite list_elem_of_In, filter_In, <-list_elem_of_In, (Hl n), Hscandir, elem_of_elements, elem_of_children.
      rewrite list_elem_of_fmap. setoid_rewrite elem_of_range. split; [intros (_ & i & ? & ->); by exists i|].
      intros (i & -> & Hi). split; [|by exists i]. assert (exists i', 0 <= i' < nb /\ get_node_dirname i t nb = get_node_dirname i' t nb) as Hex by eauto.
      apply Hl in Hex. apply andb_true_iff in Hex as [[_ Hex]%andb_true_iff _]. apply is_dir_lookup in Hex; [by eexists|]. by destruct dir. }
  clearbody names.
  apply (fmap_inj_on path_text (fun p => exists n, p = dir ++ [n; name])).
  - intros p q [n ->] [m ->] E. by rewrite (node_file_inj dir n m name).
  - unfold sorted_paths. rewrite sorted_perm. apply Forall_fmap, Forall_forall. intros n _. by exists n.
  - apply Forall_fmap, Forall_forall. intros i _. by eexists.
  - unfold sorted_paths. rewrite fmap_sorted, node_files_text by done. apply sorted_strings; [|apply log_paths_Sorted].
    rewrite <-node_files_text by done. unfold node_files. rewrite Hp, <-!list_fmap_compose. done.
Qed.

(** It is enough to look at the names in the directory. *)
Definition node_dir (s : fs) (dir : path) (t : NodeType) (name n : string) : bool :=
  startswith (get_dirname t) n && is_dir s (dir ++ [n]) && path_exists s (dir ++ [n; name]).
Definition laid_out_check (s : fs) (dir : path) (t : NodeType) (nb : Z) (name : string) : bool :=
  let nodes := (fun i => get_node_dirname i t nb) <$> range nb in
  forallb (node_dir s dir t name) nodes
  && forallb (fun n => implb (node_dir s dir t name n) (bool_decide (n ∈ nodes))) (elements (children s dir)).

Lemma laid_out_checked s dir t nb name : dir <> [] -> laid_out_check s dir t nb name = true -> laid_out s dir t nb name.
Proof.
  intros Hd. unfold laid_out_check. rewrite andb_true_iff, !forallb_forall. intros [Hn Hc] n. fold (node_dir s dir t name n).
  assert (n ∈ ((fun i => get_node_dirname i t nb) <$> range nb) <-> exists i, 0 <= i < nb /\ n = get_node_dirname i t nb) as <-.
  { rewrite list_elem_of_fmap. setoid_rewrite elem_of_range. naive_solver. }
  split.
  - intros H. specialize (Hc n). rewrite H in Hc. cbn [implb] in Hc. eapply bool_decide_eq_true_1, Hc.
    apply list_elem_of_In, elem_of_elements, elem_of_children. unfold node_dir in H. bool_hyps.
    match goal with H : is_dir _ _ = true |- _ => apply is_dir_lookup in H; [by eexists|by destruct dir] end.
  - intros H. by apply Hn, list_elem_of_In.
Qed.

(** ** Reading a run directory *)

Lemma content_lookup s p c : content s p = Some c -> lookup_path s p = Some (File c).
Proof. unfold content. by destruct (lookup_path s p) as [[|]|]; [|intros [= <-]|]. Qed.

Lemma read_all_contents (s : fs) files texts :
  content s <$> files = Some <$> texts -> read_all files s = (s, Ok (universal_newlines <$> texts)).
Proof.
  revert texts. induction files as [|f files IH]; intros [|t texts] E; try done. injection E as E1 E2.
  cbn [read_all]. unfold io_bind, read_text. rewrite E1. cbn [or_raise mbind result_bind]. by rewrite (IH texts E2).
Qed.

(** The texts of the nodes of a type. *)
Definition node_texts (s : fs) (dir : path) (t : NodeType) (name : string) (texts : list string) : Prop :=
  laid_out s dir t (Z.of_nat (length texts)) name
  /\ content s <$> node_files dir t (Z.of_nat (length texts)) name = Some <$> texts.

Context (parse_constant : string -> float).

Lemma process_eq s dir out client_texts miner_texts :
  dir <> [] -> has_magic dir = false ->
  node_texts s dir CLIENT "client_logs.txt" client_texts -> node_texts s dir VALIDATOR "miner_logs.txt" miner_texts ->
  process parse_constant scandir dir out s
  = (s, p ← bench_from_file parse_constant (content s (dir ++ [DEFAULT_BENCH_PARAMETERS_FILENAME]));
        make_log_parser (universal_newlines <$> client_texts) (universal_newlines <$> miner_texts) p out).
Proof.
  intros Hd Hm [Hlc Hc] [Hln Hn]. unfold process, inspect.
  assert (forall t (texts : list string) name (k : list path -> io fs LogParser), laid_out s dir t (Z.of_nat (length texts)) name ->
    ((files <~ (fun s => (s, glob_in_dirs scandir s dir (get_dirname t) name)); k (sorted_paths files)) : io fs LogParser) s
    = k (node_files dir t (Z.of_nat (length texts)) name) s) as Hglob.
  { intros t texts name k Hl. pose proof (sorted_glob s dir t _ name Hd Hm Hl) as E. unfold io_bind.
    destruct (glob_in_dirs scandir s dir (get_dirname t) name); [|done]. cbn in E. by injection E as ->. }
  rewrite (Hglob CLIENT client_texts "client_logs.txt"%string
    (fun files => clients <~ read_all files; _)) by done.
  unfold io_bind at 1. rewrite (read_all_contents s _ _ Hc).
  rewrite (Hglob VALIDATOR miner_texts "miner_logs.txt"%string
    (fun files => nodes <~ read_all files; _)) by done.
  unfold io_bind at 1. rewrite (read_all_contents s _ _ Hn). unfold io_bind, lift. by destruct (bench_from_file _ _).
Qed.

(** *** A run directory: the parameters, the logs of the clients, and logs of the nodes
    that are made of lines and do not make the parser give up. *)
Definition readable (ls : list log_line) : bool :=
  negb (contains "panic" (lines_log ls)) && is_ok (check_killed (lines_log ls)).
Record logs_dir (s : fs) (dir : path) (p : instance) (client_texts : list string) (lines : list (list log_line)) : Prop := {
  logs_clients : node_texts s dir CLIENT "client_logs.txt" client_texts;
  logs_nodes : node_texts s dir VALIDATOR "miner_logs.txt" (lines_log <$> lines);
  logs_number : client_texts <> [] /\ lines <> [] /\ bench_int "clients" p = Ok (Z.of_nat (length client_texts));
  logs_lines : Forall (Forall line_ok) lines /\ forallb readable lines = true }.
Record run_dir (s : fs) (dir : path) (p : instance) (client_texts : list string) (lines : list (list log_line)) : Prop := {
  run_dir_name : dir <> [] /\ has_magic dir = false;
  run_dir_parameters : bench_from_file parse_constant (content s (dir ++ [DEFAULT_BENCH_PARAMETERS_FILENAME])) = Ok p;
  run_dir_logs : logs_dir s dir p client_texts lines }.

Lemma lines_log_newlines ls : Forall line_ok ls -> universal_newlines (lines_log ls) = lines_log ls.
Proof.
  intros Hls. apply universal_newlines_id. unfold lines_log. induction Hls as [|l ls Hl _ IH]; [done|].
  cbn [fmap list_fmap foldr]. rewrite has_char_app, has_char_cons, IH. cbn [Ascii.eqb orb]. rewrite orb_false_r.
  apply (str_all_no_char (fun c => negb (is_line_break c))); [done|].
  destruct l as [e|t]; [by apply entry_row_no_break|by destruct Hl].
Qed.

Lemma parse_nodes_lines ls :
  Forall line_ok ls -> readable ls = true -> exists n, parse_nodes (lines_log ls) = Ok n /\ scanned_from ls n.
Proof.
  intros Hls Hr. unfold readable in Hr. bool_hyps. unfold parse_nodes.
  destruct (contains "panic" (lines_log ls)); [done|].
  assert (exists n, make_node_log (lines_log ls) [] = Ok n) as [n Hn].
  { unfold make_node_log. destruct (check_killed (lines_log ls)); [|done]. rewrite scan_lines by done. by eexists. }
  exists n. split; [done|]. by eapply parse_nodes_scanned.
Qed.

Lemma parse_all_nodes lines :
  Forall (Forall line_ok) lines -> forallb readable lines = true ->
  exists nlogs, parse_all parse_nodes (lines_log <$> lines) = Ok nlogs /\ Forall2 scanned_from lines nlogs.
Proof.
  intros Hls Hr. assert (exists nlogs, mapM parse_nodes (lines_log <$> lines) = Ok nlogs /\ Forall2 scanned_from lines nlogs)
    as (nlogs & Hm & Hf).
  { induction Hls as [|ls lines Hl _ IH]; [by exists []|]. cbn [forallb] in Hr. apply andb_true_iff in Hr as [Hr Hrs].
    destruct (parse_nodes_lines ls Hl Hr) as (n & Hn & Hs), (IH Hrs) as (nlogs & Hm & Hf).
    exists (n :: nlogs). split; [|by constructor]. apply mapM_Ok. apply mapM_Ok in Hm. by constructor. }
  exists nlogs. split; [|done]. unfold parse_all. by rewrite Hm.
Qed.

(** Reading a run directory leaves it as it is, and gives the logs of the nodes in the
    order of their numbers. *)
Lemma process_run s dir out p client_texts lines clogs :
  run_dir s dir p client_texts lines -> parse_all parse_clients (universal_newlines <$> client_texts) = Ok clogs ->
  exists nlogs, process parse_constant scandir dir out s
                = (s, Ok (MkLogParser p out clogs (fsum (client_rate <$> clogs)) nlogs))
    /\ Forall2 scanned_from lines nlogs.
Proof.
  intros [[Hd Hm] Hp [Hc Hn (Hne & Hln & Hnb) [Hls Hr]]] Hcl.
  destruct (parse_all_nodes lines Hls Hr) as (nlogs & Hnl & Hf). exists nlogs. split; [|done].
  rewrite (process_eq s dir out client_texts (lines_log <$> lines)), Hp by done. f_equal. cbn [mbind result_bind].
  assert (universal_newlines <$> (lines_log <$> lines) = lines_log <$> lines) as ->.
  { rewrite <-list_fmap_compose. apply Forall_fmap_ext. eapply Forall_impl; [exact Hls|]. intros ls. apply lines_log_newlines. }
  unfold make_log_parser. rewrite !bool_decide_false by (by intros ?%fmap_nil_inv). rewrite Hnb. cbn.
  rewrite length_fmap, Z.eqb_refl. cbn. rewrite Hcl. cbn. by rewrite Hnl.
Qed.

(** The latency of the block of a height, out of the messages of the nodes. *)
Definition block_latency (not_before : number) (h : Z) (lines : list (list log_line)) : option float :=
  execute ← earliest_spec not_before (messages_at CExecuteActionLog h lines);
  request ← earliest_spec not_before (messages_at CReceiveRequestsLog h lines);
  Some (fsub (log_timestamp execute) (float_of_number (event_time request))).

Lemma latencies_of_lines lines nlogs p d :
  Forall2 scanned_from lines nlogs -> consensus_block_latencies_by_height (MkRunResult p nlogs) = Ok d ->
  exists not_before, warm_start (MkRunResult p nlogs) = Ok not_before /\ forall h, dget h d = block_latency not_before h lines.
Proof.
  intros Hf Hd. unfold consensus_block_latencies_by_height in Hd. apply bind_Ok in Hd as (nb & Hnb & Hd).
  exists nb. split; [done|]. intros h. apply latencies_from_Ok in Hd as (_ & _ & Hd); [|apply earliest_keys_NoDup].
  specialize (Hd h). cbn [node_logs] in Hd. unfold get_earliest_executes_by_height, get_earliest_requests_by_height in Hd.
  rewrite !dget_earliest, !(class_events_messages lines nlogs) in Hd by done. unfold block_latency.
  destruct (earliest_spec nb (messages_at CExecuteActionLog h lines)) as [e|]; [|done].
  destruct (earliest_spec nb (messages_at CReceiveRequestsLog h lines)) as [q|]; [|done].
  destruct Hd as (t & x & Ht & Hx & -> & _). rewrite Hx. cbn. destruct q; try discriminate Ht. by injection Ht as <-.
Qed.
End Layout.

(** ** The CSV files *)

Lemma add_rows_Ok file rows s s' :
  add_rows file rows s = (s', Ok tt) ->
  exists new text, rows (if is_file s file then Some [] else None) = Ok new /\ csv_text new = Ok text
    /\ (forall p, content s' p = if decide (p = file) then Some (default EmptyString (content s file) ++ text)%string else content s p).
Proof.
  unfold add_rows, inspect. intros (s1 & new & E1 & (s2 & text & E2 & H)%io_bind_Ok)%io_bind_Ok.
  injection E1 as -> Hnew. unfold lift in E2. injection E2 as -> Htext. apply write_file_Ok in H as [-> Hf].
  exists new, text. split; [done|]. split; [done|]. intros p. by apply content_insert.
Qed.

(** The lines that a file of rows gets: the header when it is not there. *)
Definition csv_lines (s : fs) (file : path) (headers : list string) (data : list (list cell)) : result string :=
  csv_text (append_rows (if is_file s file then Some [] else None) headers data).

Lemma csv_files_distinct out day month year : csv_path day month year out <> csv_by_height_path day month year out.
Proof.
  unfold csv_path, csv_by_height_path. intros E%app_inv_head. injection E as E.
  unfold csv_result_file, csv_by_height_result_file in E.
  apply (f_equal String.length) in E. rewrite !str_length_app in E. cbn in E. lia.
Qed.

Lemma parser_result_Ok iteration day month year parser s s' r :
  parser_result iteration day month year parser s = (s', Ok r) ->
  let csv := csv_path day month year (parser_output_directory parser) in
  let by_height := csv_by_height_path day month year (parser_output_directory parser) in
  r = MkRunResult (parser_parameters parser) (parser_node_logs parser)
  /\ exists rows heights text text',
       csv_summary r (if is_file s csv then Some [] else None) = Ok rows /\ csv_text rows = Ok text
       /\ csv_summary_by_height iteration r (if is_file s by_height then Some [] else None) = Ok heights
       /\ csv_text heights = Ok text'
       /\ forall p, content s' p = if decide (p = csv) then Some (default EmptyString (content s csv) ++ text)%string
                    else if decide (p = by_height) then Some (default EmptyString (content s by_height) ++ text')%string
                    else content s p.
Proof.
  intros H csv by_height. unfold parser_result in H.
  apply io_bind_Ok in H as (s1 & [] & (rows & text & Hrows & Htext & Hs1)%add_rows_Ok & H).
  apply io_bind_Ok in H as (s2 & [] & (heights & text' & Hheights & Htext' & Hs2)%add_rows_Ok & H).
  injection H as <- <-. split; [done|]. fold csv in Hrows, Hs1. fold by_height in Hheights, Hs2.
  pose proof (csv_files_distinct (parser_output_directory parser) day month year : csv <> by_height) as Hne.
  exists rows, heights, text, text'.
  assert (is_file s1 by_height = is_file s by_height) as Hfile.
  { pose proof (Hs1 by_height) as E. rewrite decide_False in E by done. clear -E.
    unfold is_file, content in *. repeat case_match; congruence. }
  rewrite Hfile in Hheights. split; [done|]. split; [done|]. split; [done|]. split; [done|].
  intros p. rewrite Hs2, !Hs1. rewrite (decide_False (P := by_height = csv)) by done.
  destruct (decide (p = by_height)) as [->|]; [by rewrite decide_False by done|done].
Qed.

(** The times of the phases that count: those of the intervals after the warm-up, and none
    when the run has no unique primary. *)
Definition phases_of (r : RunResult) (spent : TimeIntervalType -> option float) : Prop :=
  exists tis, time_intervals r = Ok tis
    /\ match tis with
       | Some intervals => exists not_before sums, warm_start r = Ok not_before
           /\ get_cumulative_time_by_interval_type intervals not_before = Ok sums
           /\ forall t, spent t = Some (time_of sums t)
       | None => forall t, spent t = None
       end.

(** The row of a run with the parameters [p] and the latencies [latencies], cell by cell. *)
Definition row_of (p : instance) (r : RunResult) (latencies : list float) (row : list cell) : Prop :=
  exists nodes faults target_block_time rate genesis_hours tx_size
         duration warmup throughput mean_latency std_latency fault_latency spent,
    bench_attr "nodes" p = Ok nodes /\ bench_attr "faults" p = Ok faults
    /\ bench_attr "target_block_time" p = Ok target_block_time /\ bench_attr "rate" p = Ok rate
    /\ bench_attr "genesis_hours_in_the_past" p = Ok genesis_hours /\ bench_attr "tx_size" p = Ok tx_size
    /\ true_duration r = Ok duration /\ bench_int "warmup_duration" p = Ok warmup
    /\ consensus_block_throughput r = Ok throughput
    /\ mean latencies = Ok mean_latency /\ stdev latencies = Ok std_latency
    /\ latency_at_fault_height r = Ok fault_latency /\ phases_of r spent
    /\ row = [CParam nodes; CParam faults; CParam target_block_time; CParam rate; CParam genesis_hours; CParam tx_size;
              CInt (fround duration); CInt warmup; CFloat (Some (fround_digits 5 throughput));
              in_ms mean_latency; in_ms std_latency; in_ms fault_latency;
              CFloat (spent FBFT); CFloat (spent ROAST); CFloat (spent BITCOIN)].

Lemma phases_of_Ok r tis spent :
  time_intervals r = Ok tis ->
  match tis with
  | Some intervals => not_before ← warm_start r; sums ← get_cumulative_time_by_interval_type intervals not_before;
                      Ok (fun t => Some (time_of sums t))
  | None => Ok (fun _ => None)
  end = Ok spent -> phases_of r spent.
Proof.
  intros Ht H. exists tis. split; [done|]. destruct tis as [intervals|]; [|by injection H as <-].
  apply bind_Ok in H as (nb & Hnb & H). apply bind_Ok in H as (sums & Hs & [= <-]). by exists nb, sums.
Qed.

(** The row of a run is that of its parameters and of its latencies. *)
Lemma csv_summary_row r file rows :
  csv_summary r file = Ok rows ->
  exists row d, rows = default [CText <$> RESULT_HEADERS] file ++ [row]
    /\ consensus_block_latencies_by_height r = Ok d /\ row_of (bench_parameters r) r (dvalues d) row.
Proof.
  unfold csv_summary, append_rows. intros H.
  apply bind_Ok in H as (tis & Htis & H). apply bind_Ok in H as (spent & Hspent & H).
  apply (phases_of_Ok r tis spent Htis) in Hspent.
  apply bind_Ok in H as (params & Hparams & H). apply bind_Ok in H as (duration & Hd & H).
  apply bind_Ok in H as (warmup & Hw & H). apply bind_Ok in H as (throughput & Htp & H).
  apply bind_Ok in H as (latencies & Hl & H). apply bind_Ok in H as (m & Hm & H).
  apply bind_Ok in H as (sd & Hsd & H). apply bind_Ok in H as (fl & Hfl & H). injection H as <-.
  unfold consensus_block_latencies in Hl. apply bind_Ok in Hl as (d & Hlat & [= <-]).
  unfold param_cells in Hparams. cbn [mapM] in Hparams.
  inv_ok. subst. eexists _, d. split; [by destruct file|]. split; [done|].
  unfold row_of. do 13 eexists. split_and!; [eassumption..|reflexivity].
Qed.

(** Whatever [result] returns, it changes no file but the two of the CSV rows. *)
Lemma keeps_other_files file rows q :
  q <> file -> forall s, content (add_rows file rows s).1 q = content s q.
Proof.
  intros Hq s. unfold add_rows, io_bind, inspect, lift. destruct (rows _) as [new|]; [|done].
  destruct (csv_text new) as [text|]; [|done]. destruct (append_text file text s) as [s' [[]|e]] eqn:E; cbn.
  - apply write_file_Ok in E as [-> Hf]. by rewrite content_insert, decide_False.
  - unfold append_text, write_file in E. destruct (_ || _); [by injection E as <-|done].
Qed.

Section Recorded.
Context (scandir : gset string -> list string) (Hscandir : forall names, scandir names ≡ₚ elements names).
Context (parse_constant : string -> float) (iteration : gset Z -> list Z) (day month year : Z).

(** The row of a run was added to the CSV file of an output directory: the parameters of
    the result are [p] and its events those of the logs; the latency of a block is there
    exactly when all the messages of the nodes about it are after the warm-up, and is the
    time from its earliest request to its earliest execution; each cell of the row is that
    of [row_of], six parameters, the duration and the warm-up, the throughput, the mean and
    the deviation of the latencies and the latency of the fault in milliseconds, and the
    times of the three phases; and the row is at the end of the file, after the header when
    the file is new. *)
Definition recorded (s s' : fs) (out : path) (p : instance) (lines : list (list log_line)) (r : RunResult) : Prop :=
  bench_parameters r = p /\ Forall2 scanned_from lines (node_logs r)
  /\ exists not_before d row text,
       warm_start r = Ok not_before
       /\ consensus_block_latencies_by_height r = Ok d
       /\ (forall h, dget h d = block_latency not_before h lines)
       /\ row_of p r (dvalues d) row
       /\ csv_text ((if is_file s (csv_path day month year out) then [] else [CText <$> RESULT_HEADERS]) ++ [row]) = Ok text
       /\ content s' (csv_path day month year out)
          = Some (default EmptyString (content s (csv_path day month year out)) ++ text)%string.

Definition process_result (run_directory output_directory : path) : io fs RunResult :=
  parser <~ process parse_constant scandir run_directory output_directory;
  parser_result iteration day month year parser.

Lemma process_records s dir out p client_texts lines clogs :
  run_dir parse_constant s dir p client_texts lines ->
  parse_all parse_clients (universal_newlines <$> client_texts) = Ok clogs ->
  let '(s', outcome) := process_result dir out s in
  (forall q, q <> csv_path day month year out -> q <> csv_by_height_path day month year out -> content s' q = content s q)
  /\ forall r, outcome = Ok r -> recorded s s' out p lines r.
Proof.
  intros Hd Hc. unfold process_result, recorded. set (csv := csv_path day month year out).
  destruct (process_run scandir Hscandir parse_constant s dir out p client_texts lines clogs Hd Hc)
    as (nlogs & Hp & Hf).
  unfold io_bind at 1. rewrite Hp. set (parser := MkLogParser _ _ _ _ _).
  destruct (parser_result iteration day month year parser s) as [s' outcome] eqn:E. split.
  - intros q H1 H2. apply (f_equal fst) in E. cbn in E. subst s'. unfold parser_result.
    pose proof (keeps_other_files csv (csv_summary (MkRunResult (parser_parameters parser) (parser_node_logs parser))) q H1 s) as K1.
    unfold io_bind. change (csv_path day month year (parser_output_directory parser)) with csv.
    destruct (add_rows csv _ s) as [s1 [[]|e]]; [|done]. cbn in K1. rewrite <-K1.
    match goal with |- context [add_rows ?f ?rows s1] => pose proof (keeps_other_files f rows q H2 s1) as K2;
      destruct (add_rows f rows s1) as [s2 [[]|e]] end; done.
  - intros r ->. apply parser_result_Ok in E as (-> & rows & heights & text & text' & Hrows & Htext & _ & _ & Hs').
    split; [done|]. split; [exact Hf|]. apply csv_summary_row in Hrows as (row & d & Erows & Hlat & Hrow).
    destruct (latencies_of_lines lines nlogs p d Hf Hlat) as (nb & Hnb & Hl).
    exists nb, d, row, text. split; [done|]. split; [done|]. split; [done|]. split; [done|].
    change (csv_path day month year (parser_output_directory parser)) with csv in *. split.
    + rewrite <-Htext, Erows. by destruct (is_file s csv).
    + rewrite Hs'. by rewrite decide_True.
Qed.

(** C21: Processing a run directory and recording its result, whatever the log lines of the
    nodes and however the directory is listed, changes no file but the two CSV files of
    the output directory.  When it succeeds, the row of the run was recorded: each of its
    cells is that of the parameters of the file in the directory and of the events of the
    logs, and its latencies are those of the messages in the logs. *)
Theorem run_recorded s dir out p client_texts lines clogs :
  run_dir parse_constant s dir p client_texts lines ->
  parse_all parse_clients (universal_newlines <$> client_texts) = Ok clogs ->
  let '(s', outcome) := process_result dir out s in
  (forall q, q <> csv_path day month year out -> q <> csv_by_height_path day month year out -> content s' q = content s q)
  /\ forall r, outcome = Ok r -> recorded s s' out p lines r.
Proof. apply process_records. Qed.
End Recorded.

(** ** Experiments *)

(** A file system that is well formed and has the file. *)
Definition holds (file : path) (s : fs) : Prop := fs_ok s /\ is_file s file = true.

Lemma is_file_content s p : is_file s p = true <-> exists c, content s p = Some c.
Proof. unfold is_file, content. destruct (lookup_path s p) as [[|c]|]; naive_solver. Qed.

Lemma keeps_inspect {A : Type} (I : fs -> Prop) (f : fs -> result A) : keeps I (inspect f).
Proof. by intros s. Qed.

Lemma keeps_write_holds file keep p text : keeps (holds file) (write_file keep p text).
Proof.
  intros s [Hs Hf]. split; [by apply keeps_write_file|]. unfold write_file.
  destruct (is_dir s p || negb (is_dir s (parent p))) eqn:E; [done|]. cbn. apply orb_false_iff in E as [E _].
  assert (p <> []) as Hp by (by intros ->). apply is_file_content. rewrite content_insert by done.
  case_decide; [by eexists|by apply is_file_content].
Qed.

#[local] Hint Resolve keeps_inspect keeps_write_holds keeps_write_file : py.

(** Reading changes nothing; recording keeps what writing keeps. *)
Section Effects.
Context (parse_constant : string -> float) (scandir : gset string -> list string) (iteration : gset Z -> list Z).
Context (day month year : Z) (I : fs -> Prop).

Lemma keeps_reading p : keeps I (read_text p).
Proof. by intros s. Qed.

#[local] Hint Resolve keeps_reading : py.

Lemma keeps_read_all files : keeps I (read_all files).
Proof. induction files; cbn [read_all]; auto 8 with py. Qed.

Lemma keeps_process dir out : keeps I (process parse_constant scandir dir out).
Proof. unfold process. pose proof keeps_read_all. auto 12 with py. Qed.

Context (Hwrite : forall keep p text, keeps I (write_file keep p text)).

Lemma keeps_add_rows csv rows : keeps I (add_rows csv rows).
Proof. unfold add_rows, append_text. auto 8 with py. Qed.

Lemma keeps_parser_result parser : keeps I (parser_result iteration day month year parser).
Proof. unfold parser_result. pose proof keeps_add_rows. auto 8 with py. Qed.

Lemma keeps_run_results dirs out : keeps I (run_results parse_constant scandir iteration day month year dirs out).
Proof. pose proof keeps_process. pose proof keeps_parser_result. induction dirs; cbn [run_results]; auto 8 with py. Qed.
End Effects.

Section Experiment.
Context (parse_constant : string -> float) (scandir : gset string -> list string) (iteration : gset Z -> list Z).
Context (Hscandir : forall names, scandir names ≡ₚ elements names) (day month year : Z).

(** A file is not a run directory. *)
Lemma children_file s file : fs_ok s -> is_file s file = true -> scandir (children s file) = [].
Proof.
  intros Hs Hf. apply Permutation_nil_r. rewrite Hscandir. apply Permutation_nil_r, elements_empty_iff. intros n.
  rewrite elem_of_children. split; [|set_solver]. intros [e [_ He]%Hs]. rewrite parent_snoc in He.
  unfold is_dir, is_file in *. by destruct (lookup_path s file) as [[|]|].
Qed.

Lemma process_file file out s : holds file s -> is_ok (process parse_constant scandir file out s).2 = false.
Proof.
  intros [Hs Hf].
  assert (content s (file ++ [DEFAULT_BENCH_PARAMETERS_FILENAME]) = None) as Hc.
  { unfold content. rewrite lookup_path_not_nil by (by intros [_ ?]%app_eq_nil).
    destruct (s !! (file ++ _)) as [e|] eqn:E; [|done]. exfalso. apply Hs in E as [_ E]. rewrite parent_snoc in E.
    unfold is_dir, is_file in *. by destruct (lookup_path s file) as [[|]|]. }
  assert (forall prefix name, glob_in_dirs scandir s file prefix name = if has_magic file then Raise Unmodelled else Ok []) as Hg.
  { intros prefix name. unfold glob_in_dirs. rewrite children_file by done. by destruct (has_magic file). }
  unfold process, inspect. destruct (has_magic file); [unfold io_bind; by rewrite Hg|].
  do 2 (unfold io_bind at 1; rewrite Hg; unfold io_bind at 1; cbn [sorted_paths sorted foldr read_all io_ret]).
  unfold io_bind. rewrite Hc. unfold bench_from_file. by destruct BenchParameters.
Qed.

Lemma run_results_file dirs out file s :
  file ∈ dirs -> holds file s -> is_ok (run_results parse_constant scandir iteration day month year dirs out s).2 = false.
Proof.
  intros Hin. revert s. induction Hin as [file dirs|file dir dirs _ IH]; intros s Hs; cbn [run_results]; unfold io_bind.
  - pose proof (process_file file out s Hs). by destruct (process _ _ _ _ s) as [? [?|?]].
  - pose proof (keeps_process parse_constant scandir (holds file) dir out s Hs) as Hp.
    destruct (process _ _ _ _ s) as [s1 [parser|?]]; [|done]. cbn in Hp.
    pose proof (keeps_parser_result iteration day month year (holds file) (keeps_write_holds file) parser s1 Hp) as Hr.
    destruct (parser_result _ _ _ _ parser s1) as [s2 [r|?]]; [|done]. cbn in Hr.
    specialize (IH s2 Hr). by destruct (run_results _ _ _ _ _ _ _ _ s2) as [? [?|?]].
Qed.

(** Results were recorded in the directory. *)
Lemma run_results_recorded dirs out s s' results :
  fs_ok s -> run_results parse_constant scandir iteration day month year dirs out s = (s', Ok results) -> results <> [] ->
  holds (csv_path day month year out) s'.
Proof.
  intros Hs H Hne. destruct dirs as [|dir dirs]; cbn [run_results] in H; [by injection H as _ <-|].
  apply io_bind_Ok in H as (s1 & parser & Hp & H). apply io_bind_Ok in H as (s2 & r & Hr & H).
  apply io_bind_Ok in H as (s3 & rest & Hrest & H). injection H as <- _.
  pose proof (keeps_process parse_constant scandir fs_ok dir out s Hs) as Hk. rewrite Hp in Hk. cbn in Hk.
  pose proof (keeps_parser_result iteration day month year fs_ok keeps_write_file parser s1 Hk) as Hk2.
  rewrite Hr in Hk2. cbn in Hk2.
  pose proof (keeps_run_results parse_constant scandir iteration day month year (holds (csv_path day month year out))
    (keeps_write_holds _) dirs out s2) as Hk3.
  rewrite Hrest in Hk3. apply Hk3. split; [done|]. apply is_file_content.
  assert (parser_output_directory parser = out) as Hout.
  { unfold process in Hp. do 5 (apply io_bind_Ok in Hp as (? & ? & _ & Hp)). injection Hp as _ Hp.
    unfold make_log_parser in Hp. inv_ok. by subst parser. }
  apply parser_result_Ok in Hr as (_ & ? & ? & ? & ? & _ & _ & _ & _ & Hc). rewrite Hout in Hc. rewrite Hc, decide_True by done.
  by eexists.
Qed.

(** An experiment directory is read at most once: when results were read from it, the
    file of the runs is there, the next call takes it for a run directory and fails. *)
Theorem from_directory_once dir s s' results :
  fs_ok s -> from_directory parse_constant scandir iteration day month year dir s = (s', Ok results) -> results <> [] ->
  is_ok (from_directory parse_constant scandir iteration day month year dir s').2 = false.
Proof.
  intros Hs H Hne. unfold from_directory in H. apply io_bind_Ok in H as (s1 & dirs & Hdirs & H).
  apply io_bind_Ok in H as (s2 & rs & Hrs & H). injection H as <- H. unfold iterdir in Hdirs. injection Hdirs as <- _.
  apply run_results_recorded in Hrs; [|done|by intros ->; injection H as <-].
  unfold from_directory, io_bind, iterdir. destruct (is_dir s2 dir); [|done].
  match goal with |- context [run_results ?a ?b ?c ?d ?e ?f ?g ?h s2] =>
    pose proof (run_results_file g h (csv_path day month year dir) s2) as Hf;
    destruct (run_results a b c d e f g h s2) as [s3 [x|x]] end; [|done].
  exfalso. discriminate Hf; [|done]. unfold sorted_paths. rewrite sorted_perm. apply list_elem_of_fmap.
  exists (csv_result_file day month year). split; [done|]. rewrite Hscandir, elem_of_elements, elem_of_children.
  destruct Hrs as [_ Hrs]. unfold is_file in Hrs. rewrite lookup_path_not_nil in Hrs by (unfold csv_path; by destruct dir).
  unfold csv_path in Hrs. by destruct (s2 !! _).
Qed.
End Experiment.

(** ** Witness: the directory of a run of one node and one client *)

Definition run_lines : list log_line := Other "started" :: (Row <$> run_entries).
Definition client_text : string := client_log "Sending".
Definition parameters_text : string := dumps float_repr print_style (VDict run_object).
Definition run_path : path := ["results"; "0"]%string.
Definition run_file (names : path) : path := run_path ++ names.
Definition run_fs : fs := list_to_map
  [(["results"], Directory); (run_path, Directory);
   (run_file [DEFAULT_BENCH_PARAMETERS_FILENAME], File parameters_text);
   (run_file ["client-0"], Directory); (run_file ["client-0"; "client_logs.txt"], File client_text);
   (run_file ["node-0"], Directory); (run_file ["node-0"; "miner_logs.txt"], File (lines_log run_lines))]%string.

Lemma run_fs_logs : logs_dir run_fs run_path run_parameters [client_text] [run_lines].
Proof.
  split.
  - split; [apply laid_out_checked; [discriminate|vm_compute; reflexivity]|vm_compute; reflexivity].
  - split; [apply laid_out_checked; [discriminate|vm_compute; reflexivity]|vm_compute; reflexivity].
  - split; [discriminate|]. split; [discriminate|]. vm_compute. reflexivity.
  - split; [|vm_compute; reflexivity]. constructor; [|constructor].
    constructor; [split; vm_compute; reflexivity|]. apply Forall_fmap.
    repeat constructor; cbn; try lia; vm_compute; reflexivity.
Qed.

Lemma run_fs_dir : run_dir (fun _ => 0) run_fs run_path run_parameters [client_text] [run_lines].
Proof.
  split; [split; [discriminate|reflexivity]|vm_compute; reflexivity|apply run_fs_logs].
Qed.

Definition run_output : path := ["results"%string].
Definition example_outcome : fs * result RunResult :=
  process_result elements (fun _ => 0) elements 1 2 2023 run_path run_output run_fs.

Example run_recorded_once : is_ok example_outcome.2 = true.
Proof. vm_compute. reflexivity. Qed.

Example run_recorded_witness :
  let '(s', outcome) := process_result elements (fun _ => 0) elements 1 2 2023 run_path run_output run_fs in
  (forall q, q <> csv_path 1 2 2023 run_output -> q <> csv_by_height_path 1 2 2023 run_output -> content s' q = content run_fs q)
  /\ forall r, outcome = Ok r -> recorded 1 2 2023 run_fs s' run_output run_parameters [run_lines] r.
Proof.
  assert (parse_all parse_clients (universal_newlines <$> [client_text]) = Ok [parsed_client client_text]) as Hc
    by (vm_compute; reflexivity).
  pose proof (run_recorded elements (fun _ => reflexivity _) (fun _ => 0) elements 1 2 2023 run_fs run_path run_output
                run_parameters [client_text] [run_lines] [parsed_client client_text] run_fs_dir Hc) as H.
  exact H.
Defined.

Lemma run_fs_ok : fs_ok run_fs.
Proof. apply fs_ok_checked. vm_compute. reflexivity. Qed.

Definition example_experiment : fs * result (list RunResult) :=
  from_directory (fun _ => 0) elements elements 1 2 2023 run_output run_fs.

Example from_directory_once_witness :
  is_ok (from_directory (fun _ => 0) elements elements 1 2 2023 run_output example_experiment.1).2 = false.
Proof.
  assert (match example_experiment.2 with Ok (_ :: _) => true | _ => false end = true) as H by (vm_compute; reflexivity).
  destruct example_experiment as [s' [[|r results]|e]] eqn:E; try discriminate H.
  apply (from_directory_once (fun _ => 0) elements elements (fun _ => reflexivity _) 1 2 2023 run_output run_fs s' (r :: results)).
  - exact run_fs_ok.
  - exact E.
  - discriminate.
Defined.
