(* ===== verification/Sha1.v ===== *)
(** * SHA-1 (hashlib.sha1, FIPS 180-4)

    The digest that scripts/check-repo-src-changed.py takes of a directory: 32-bit
    words as integers reduced modulo 2^32. *)

From S2P Require Import Prelude PyStr PyInt.

Definition word (x : Z) : Z := Z.land x (Z.ones 32).
Definition rotl (n x : Z) : Z := Z.lor (word (Z.shiftl x n)) (Z.shiftr x (32 - n)).

(** [n] as [k] bytes, the most significant first. *)
Fixpoint big_endian (k : nat) (n : Z) : list Z :=
  match k with O => [] | S k' => Z.land (Z.shiftr n (8 * Z.of_nat k')) 255 :: big_endian k' n end.

Definition bytes_of (s : string) : list Z := (fun c => Z.of_N (N_of_ascii c)) <$> list_ascii_of_string s.

(** The message, a one bit, zeros up to 56 modulo 64, and its length in bits. *)
Definition pad (m : list Z) : list Z :=
  let len := Z.of_nat (length m) in
  m ++ [128] ++ repeat 0 (Z.to_nat ((55 - len) mod 64)) ++ big_endian 8 (8 * len).

Fixpoint words (m : list Z) : list Z :=
  match m with
  | a :: b :: c :: d :: m' =>
      Z.lor (Z.shiftl a 24) (Z.lor (Z.shiftl b 16) (Z.lor (Z.shiftl c 8) d)) :: words m'
  | _ => []
  end.

(** The schedule, kept in reverse: the newest word first. *)
Fixpoint schedule (k : nat) (rev_w : list Z) : list Z :=
  match k with
  | O => rev_w
  | S k' =>
      let w i := default 0 (rev_w !! (i - 1)%nat) in
      schedule k' (rotl 1 (Z.lxor (w 3%nat) (Z.lxor (w 8%nat) (Z.lxor (w 14%nat) (w 16%nat)))) :: rev_w)
  end.

Record state : Type := MkState { h0 : Z; h1 : Z; h2 : Z; h3 : Z; h4 : Z }.

Definition initial : state := MkState 0x67452301 0xEFCDAB89 0x98BADCFE 0x10325476 0xC3D2E1F0.

Definition round_function (t b c d : Z) : Z * Z :=
  if t <? 20 then (Z.lor (Z.land b c) (Z.land (Z.lxor b (Z.ones 32)) d), 0x5A827999)
  else if t <? 40 then (Z.lxor b (Z.lxor c d), 0x6ED9EBA1)
  else if t <? 60 then (Z.lor (Z.land b c) (Z.lor (Z.land b d) (Z.land c d)), 0x8F1BBCDC)
  else (Z.lxor b (Z.lxor c d), 0xCA62C1D6).

Fixpoint rounds (t : Z) (ws : list Z) (s : state) : state :=
  match ws with
  | [] => s
  | w :: ws' =>
      let '(f, k) := round_function t (h1 s) (h2 s) (h3 s) in
      let temp := word (rotl 5 (h0 s) + f + h4 s + k + w) in
      rounds (t + 1) ws' (MkState temp (h0 s) (rotl 30 (h1 s)) (h2 s) (h3 s))
  end.

Definition block (s : state) (ws : list Z) : state :=
  let r := rounds 0 (rev (schedule 64 (rev ws))) s in
  MkState (word (h0 s + h0 r)) (word (h1 s + h1 r)) (word (h2 s + h2 r)) (word (h3 s + h3 r)) (word (h4 s + h4 r)).

(** Blocks of 16 words; [fuel] bounds their number. *)
Fixpoint blocks (fuel : nat) (s : state) (ws : list Z) : state :=
  match fuel with
  | O => s
  | S f => match ws with [] => s | _ => blocks f (block s (take 16 ws)) (drop 16 ws) end
  end.

Definition digest (m : list Z) : list Z :=
  let ws := words (pad m) in
  let s := blocks (length ws) initial ws in
  big_endian 4 (h0 s) ++ big_endian 4 (h1 s) ++ big_endian 4 (h2 s) ++ big_endian 4 (h3 s) ++ big_endian 4 (h4 s).

(** [bytes.hex()] *)
Definition hex_digit (n : Z) : ascii := ascii_of_N (Z.to_N (if n <? 10 then 48 + n else 87 + n)).
Definition hex (bytes : list Z) : string :=
  foldr (fun b s => String (hex_digit (Z.shiftr b 4)) (String (hex_digit (Z.land b 15)) s)) EmptyString bytes.

(** [hashlib.sha1(s).hexdigest()] *)
Definition hexdigest (s : string) : string := hex (digest (bytes_of s)).

Example hexdigest_abc : hexdigest "abc" = "a9993e364706816aba3e25717850c26c9cd0d89d"%string.
Proof. vm_compute. reflexivity. Qed.
Example hexdigest_two_blocks :
  hexdigest "abcdbcdecdefdefgefghfghighijhijkijkljklmklmnlmnomnopnopq" = "84983e441c3bd26ebaae4aa1f95129e5e54670f1"%string.
Proof. vm_compute. reflexivity. Qed.

(** [c in string.hexdigits] *)
Definition is_hexdigit (c : ascii) : bool :=
  let n := nat_of_ascii c in
  is_digit c || ((97 <=? n)%nat && (n <=? 102)%nat) || ((65 <=? n)%nat && (n <=? 70)%nat).

Lemma hex_digit_is_hexdigit n : 0 <= n < 16 -> is_hexdigit (hex_digit n) = true.
Proof.
  intros Hn. assert (n ∈ seqZ 0 16) as Hin by (apply elem_of_seqZ; lia).
  assert (Forall (fun n => is_hexdigit (hex_digit n) = true) (seqZ 0 16)) as Hall by (repeat constructor).
  rewrite Forall_forall in Hall. auto.
Qed.

Lemma big_endian_bytes k n : Forall (fun b => 0 <= b < 256) (big_endian k n) /\ length (big_endian k n) = k.
Proof.
  induction k as [|k [IH1 IH2]]; [by split|]. cbn [big_endian]. split; [constructor; [|done]|cbn [length]; by rewrite IH2].
  change 255 with (Z.ones 8). rewrite Z.land_ones by lia. apply Z.mod_pos_bound. lia.
Qed.

Lemma hex_spec bytes :
  Forall (fun b => 0 <= b < 256) bytes ->
  str_all is_hexdigit (hex bytes) = true /\ String.length (hex bytes) = (2 * length bytes)%nat.
Proof.
  induction 1 as [|b bytes Hb _ [IH1 IH2]]; [done|]. cbn [hex foldr str_all String.length length].
  change (foldr _ EmptyString bytes) with (hex bytes). rewrite IH1, IH2.
  rewrite !hex_digit_is_hexdigit; [split; [done|lia]|..].
  - change 15 with (Z.ones 4). rewrite Z.land_ones by lia. apply Z.mod_pos_bound. lia.
  - rewrite Z.shiftr_div_pow2 by lia. change (2 ^ 4) with 16. Z.div_mod_to_equations. lia.
Qed.

(** The digest is a text of 40 hexadecimal digits. *)
Lemma hexdigest_spec s : str_all is_hexdigit (hexdigest s) = true /\ String.length (hexdigest s) = 40%nat.
Proof.
  unfold hexdigest, digest. set (st := blocks _ _ _).
  assert (Forall (fun b => 0 <= b < 256)
            (big_endian 4 (h0 st) ++ big_endian 4 (h1 st) ++ big_endian 4 (h2 st) ++ big_endian 4 (h3 st) ++ big_endian 4 (h4 st)))
    as H by (rewrite !Forall_app; repeat split; apply big_endian_bytes).
  apply hex_spec in H as [H1 H2]. split; [done|]. rewrite H2, !length_app.
  by rewrite !(proj2 (big_endian_bytes 4 _)).
Qed.
