(* ===== verification/RepoStatus.v ===== *)
(** * Has a repository changed since the last reading? (scripts/check-repo-src-changed.py)

    The status directory is the map from the paths of its files, relative to it, to
    their bytes, or nothing when it does not exist; the commands of the system are
    the record [system].  Files are regular ones, without symbolic links. *)

From S2P Require Import Prelude PyStr PyInt PySort Sha1.

(** A path, by its parts. *)
Abbreviation path := (list string).

(** [subprocess.CompletedProcess], the outputs as bytes. *)
Record completed : Type := Completed { returncode : Z; stdout : string; stderr : string }.

(** What the script runs: [shutil.which], and the commands in the directory of the
    repository, which may time out. *)
Record system : Type := System {
  which : string -> bool;
  execute : list string -> result completed }.

Abbreviation status_dir := (option (gmap path string)).

(** ** Pieces of the script *)

(** [this.relative_to(other)] on absolute paths. *)
Fixpoint is_relative_to (this other : path) : bool :=
  match other, this with
  | [], _ => true
  | o :: os, t :: ts => String.eqb o t && is_relative_to ts os
  | _ :: _, [] => false
  end.

(** [RepoStatus.__post_init__] on resolved, so absolute, paths. *)
Definition make_repo_status (repo_dirpath status_dirpath : path) : result unit :=
  _ ← py_assert (negb (is_relative_to repo_dirpath status_dirpath));
  py_assert (negb (is_relative_to status_dirpath repo_dirpath)).

Definition check_git_installed (sys : system) : result unit := ensure (which sys "git") RuntimeError.

(** [run_subprocess]: with [text=True], the new lines of the outputs are normalized. *)
Definition run_subprocess (sys : system) (command : list string) : result completed :=
  c ← execute sys command;
  Ok (Completed (returncode c) (universal_newlines (stdout c)) (universal_newlines (stderr c))).

Definition run_git_or_mercurial_and_return_stdout (sys : system) (git_command hg_command : list string)
    : result string :=
  git_res ← run_subprocess sys git_command;
  if returncode git_res =? 0 then Ok (stdout git_res)
  else if negb (which sys "hg") || negb (returncode git_res =? 128) then Raise RuntimeError
  else if negb (contains "not a git repository" (stderr git_res)) then Raise RuntimeError
  else
    hg_res ← run_subprocess sys hg_command;
    if returncode hg_res =? 0 then Ok (stdout hg_res) else Raise RuntimeError.

Definition is_hash (s : string) : bool := (String.length s =? 40)%nat && str_all is_hexdigit s.

(** [HashString(s)] *)
Definition HashString (s : string) : result string :=
  let string_object := strip s in
  _ ← ensure (is_hash string_object) ValueError;
  Ok string_object.

(** The order of paths: part by part. *)
Fixpoint path_le (a b : path) : bool :=
  match a, b with
  | [], _ => true
  | _ :: _, [] => false
  | x :: a', y :: b' => match String.compare x y with Lt => true | Eq => path_le a' b' | Gt => false end
  end.

(** The files of the directory but the skipped one, in the order of their paths. *)
Definition sorted_files (skip : path) (files : gmap path string) : list (path * string) :=
  filter (fun f : path * string => f.1 <> skip) (sorted (fun a b => path_le a.1 b.1) (map_to_list files)).

(** [path_checksum] *)
Definition path_checksum (dir : status_dir) (skip : path) : result string :=
  files ← or_raise AssertionError dir;
  HashString (hexdigest (foldr (fun f s => (f.2 ++ s)%string) EmptyString (sorted_files skip files))).

Definition commit_filepath : path := ["commit-hash.txt"]%string.
Definition diff_filepath : path := ["diff.txt"]%string.
Definition hash_filepath : path := ["hash.txt"]%string.

(** [Path.read_text], with the normalization of new lines, and [write_text]. *)
Definition read_text (dir : status_dir) (p : path) : result string :=
  files ← or_raise OSError dir;
  content ← or_raise OSError (files !! p);
  Ok (universal_newlines content).
Definition write_text (dir : status_dir) (p : path) (text : string) : result status_dir :=
  files ← or_raise OSError dir;
  Ok (Some (<[p := text]> files)).

Definition stored_status_dir_hash (dir : status_dir) : result string := t ← read_text dir hash_filepath; HashString t.
Definition stored_commit (dir : status_dir) : result string := t ← read_text dir commit_filepath; HashString t.
Definition stored_git_diff (dir : status_dir) : result string := read_text dir diff_filepath.

Definition compute_hash (dir : status_dir) : result string := path_checksum dir hash_filepath.

Definition exists_file (dir : status_dir) (p : path) : bool :=
  match dir with Some files => bool_decide (is_Some (files !! p)) | None => false end.

(** [RepoStatus.is_initialized] *)
Definition is_initialized (dir : status_dir) : result bool :=
  if negb (exists_file dir hash_filepath) then Ok false
  else
    hash_file_content ← read_text dir hash_filepath;
    py_except (_ ← HashString hash_file_content; Ok true)
      (fun e => match e with ValueError => Ok false | _ => Raise e end).

(** [RepoStatus.is_corrupted] *)
Definition is_corrupted (dir : status_dir) : result bool :=
  initialized ← is_initialized dir;
  _ ← ensure initialized ValueError;
  actual_hash ← compute_hash dir;
  expected_hash ← stored_status_dir_hash dir;
  Ok (negb (String.eqb actual_hash expected_hash)).

Definition get_current_commit_hash (sys : system) : result string :=
  out ← run_git_or_mercurial_and_return_stdout sys ["git"; "rev-parse"; "HEAD"]
         ["hg"; "identify"; "--rev"; "."; "--template"; "{id}" ++ NL]%string;
  HashString out.

Definition get_current_git_diff (sys : system) : result string :=
  run_git_or_mercurial_and_return_stdout sys ["git"; "status"; "-vv"]%string ["hg"; "status"; "--verbose"]%string.

(** [update_status] *)
Definition update_status (sys : system) (dir : status_dir) : result status_dir :=
  let dir : status_dir := Some (default ∅ dir) in
  commit_hash ← get_current_commit_hash sys;
  git_diff ← get_current_git_diff sys;
  dir ← write_text dir commit_filepath (commit_hash ++ NL);
  dir ← write_text dir diff_filepath git_diff;
  new_hash ← compute_hash dir;
  write_text dir hash_filepath (new_hash ++ NL).

(** [is_status_the_same] *)
Definition is_status_the_same (sys : system) (dir : status_dir) : result bool :=
  expected_commit_hash ← stored_commit dir;
  actual_commit_hash ← get_current_commit_hash sys;
  if negb (String.eqb expected_commit_hash actual_commit_hash) then Ok false
  else
    expected_diff ← stored_git_diff dir;
    actual_diff ← get_current_git_diff sys;
    Ok (String.eqb expected_diff actual_diff).

(** The main part: the exit code and the status directory at the end. *)
Definition exit_code_of (sys : system) (dir : status_dir) : result Z :=
  initialized ← is_initialized dir;
  if negb initialized then Ok 47
  else
    corrupted ← is_corrupted dir;
    if (corrupted : bool) then Ok 47
    else
      same ← is_status_the_same sys dir;
      Ok (if (same : bool) then 0 else 47).

Definition main (sys : system) (repo_dirpath status_dirpath : path) (dir : status_dir) : result (Z * status_dir) :=
  _ ← check_git_installed sys;
  _ ← make_repo_status repo_dirpath status_dirpath;
  exit_code ← exit_code_of sys dir;
  if negb (exit_code =? 0) then dir' ← update_status sys dir; Ok (exit_code, dir') else Ok (exit_code, dir).

(** ** The command line *)

(** The paths of the system: [Path(s).resolve()], [is_dir] and [exists]. *)
Record paths : Type := Paths { resolve : path -> path; is_dir : path -> bool; exists_ : path -> bool }.

(** [compose(f1, ..., fn)]: the last one is called first. *)
Definition compose2 (f g : path -> result path) : path -> result path := fun p => g p ≫= f.
Definition compose (f : path -> result path) (fs : list (path -> result path)) : path -> result path := foldl compose2 f fs.

Definition check_path_is_dir (os : paths) (p : path) : result path :=
  let p := resolve os p in _ ← ensure (is_dir os p) ArgumentTypeError; Ok p.
Definition check_path_exists (os : paths) (p : path) : result path :=
  let p := resolve os p in _ ← ensure (exists_ os p) ArgumentTypeError; Ok p.

(** The [type] of each option, after [Path]. *)
Definition status_dirpath_type (os : paths) : path -> result path := compose (fun p => Ok (resolve os p)) [].
Definition repo_dirpath_type (os : paths) : path -> result path :=
  compose (fun p => Ok (resolve os p)) [check_path_exists os; check_path_is_dir os].

(** [parser.parse_args()] on the values found for the two options: argparse exits with
    code 2 when one is missing, or when its type raises an [ArgumentTypeError]. *)
Definition typed_option (type : path -> result path) (value : option path) : result path :=
  p ← or_raise (SystemExit 2) value;
  py_except (type p) (fun e => match e with ArgumentTypeError | ValueError | TypeError => Raise (SystemExit 2) | _ => Raise e end).
Definition parse_args (os : paths) (status_dirpath repo_dirpath : option path) : result (path * path) :=
  s ← typed_option (status_dirpath_type os) status_dirpath;
  r ← typed_option (repo_dirpath_type os) repo_dirpath;
  Ok (s, r).

(** The script, from its options. *)
Definition script (os : paths) (sys : system) (status_dirpath repo_dirpath : option path) (dir : status_dir)
    : result (Z * status_dir) :=
  '(s, r) ← parse_args os status_dirpath repo_dirpath;
  main sys r s dir.

(** ** Lemmas *)

Lemma is_hexdigit_plain c : is_hexdigit c = true -> negb (is_space c) = true /\ negb (Ascii.eqb cr c) = true.
Proof. destruct c as [[] [] [] [] [] [] [] []]; by intros [=]. Qed.

Lemma is_hash_plain h :
  is_hash h = true -> str_all (fun c => negb (is_space c)) h = true /\ has_char cr h = false.
Proof.
  unfold is_hash. rewrite andb_true_iff. intros [_ Hh]. unfold has_char. rewrite negb_false_iff. split;
    (eapply str_all_weaken; [|exact Hh]); intros c Hc; by apply is_hexdigit_plain.
Qed.

(** A hash that is written on a line is read back. *)
Lemma HashString_line h : is_hash h = true -> HashString (universal_newlines (h ++ NL)) = Ok h.
Proof.
  intros Hh. destruct (is_hash_plain h Hh) as [Hs Hc]. unfold HashString.
  rewrite universal_newlines_id by (by rewrite has_char_app, Hc).
  rewrite strip_word_nl by done. by rewrite Hh.
Qed.

Lemma HashString_Ok s h : HashString s = Ok h -> is_hash h = true.
Proof. unfold HashString. intros H. inv_ok. by subst. Qed.

Lemma hexdigest_hash s : HashString (hexdigest s) = Ok (hexdigest s).
Proof.
  destruct (hexdigest_spec s) as [H1 H2]. unfold HashString.
  assert (is_hash (hexdigest s) = true) as Hh by (unfold is_hash; by rewrite H1, H2).
  rewrite strip_no_space by (by apply is_hash_plain). by rewrite Hh.
Qed.

Lemma path_checksum_Ok files skip :
  exists h, path_checksum (Some files) skip = Ok h /\ is_hash h = true.
Proof.
  unfold path_checksum. cbn [or_raise mbind result_bind]. rewrite hexdigest_hash. eexists. split; [done|].
  by eapply HashString_Ok, hexdigest_hash.
Qed.

Lemma run_stdout_no_cr sys g h s : run_git_or_mercurial_and_return_stdout sys g h = Ok s -> has_char cr s = false.
Proof.
  unfold run_git_or_mercurial_and_return_stdout, run_subprocess. intros H. inv_ok. subst.
  cbn [returncode stdout stderr] in H. repeat case_match; inv_ok; subst; try discriminate;
    try apply universal_newlines_no_cr; cbn [returncode stdout stderr] in *;
    repeat case_match; inv_ok; subst; try discriminate; apply universal_newlines_no_cr.
Qed.

(** *** The order of the paths *)

Lemma path_le_total a b : path_le a b = false -> path_le b a = true.
Proof.
  revert b. induction a as [|x a IH]; intros [|y b]; try done. cbn [path_le].
  rewrite (String.compare_antisym y x). destruct (String.compare x y); try done. apply IH.
Qed.

Lemma path_le_antisym a b : path_le a b = true -> path_le b a = true -> a = b.
Proof.
  revert b. induction a as [|x a IH]; intros [|y b]; try done. cbn [path_le].
  rewrite (String.compare_antisym y x). destruct (String.compare x y) eqn:E; try done.
  apply String.compare_eq_iff in E as ->. cbn. intros. f_equal. auto.
Qed.

Lemma path_le_trans a b c : path_le a b = true -> path_le b c = true -> path_le a c = true.
Proof.
  revert b c. induction a as [|x a IH]; intros [|y b] [|z c]; try done. cbn [path_le].
  destruct (String.compare x y) eqn:Exy; try done; destruct (String.compare y z) eqn:Eyz; try done.
  - apply String.compare_eq_iff in Exy, Eyz. subst. rewrite str_compare_refl. apply IH.
  - apply String.compare_eq_iff in Exy. subst. by rewrite Eyz.
  - apply String.compare_eq_iff in Eyz. subst. by rewrite Exy.
  - assert (String.compare x z = Lt) as ->; [|done]. by apply (str_lt_trans x y z).
Qed.

Definition file_le (a b : path * string) : Prop := path_le a.1 b.1 = true.

#[local] Instance file_le_trans : Transitive file_le.
Proof. intros a b c. apply path_le_trans. Qed.

Lemma sorted_files_Sorted skip files : Sorted file_le (sorted_files skip files).
Proof.
  unfold sorted_files. apply StronglySorted_Sorted.
  assert (StronglySorted file_le (sorted (fun a b => path_le a.1 b.1) (map_to_list files))) as H.
  { apply Sorted_StronglySorted; [apply _|]. apply (sorted_Sorted (fun a b : path * string => path_le a.1 b.1)).
    intros a b. apply path_le_total. }
  induction H as [|f l _ IH Hf]; [constructor|]. rewrite filter_cons. case_decide; [|done].
  constructor; [done|]. rewrite Forall_forall in *. intros g Hg. apply Hf. by apply list_elem_of_filter in Hg as [_ ?].
Qed.

Lemma elem_of_sorted_files skip files f :
  f ∈ sorted_files skip files <-> f.1 <> skip /\ files !! f.1 = Some f.2.
Proof.
  unfold sorted_files. rewrite list_elem_of_filter, (sorted_perm (fun a b : path * string => path_le a.1 b.1)).
  destruct f as [p c]. by rewrite elem_of_map_to_list.
Qed.

(** The checksum does not depend on the skipped file. *)
Lemma sorted_files_insert skip files x : sorted_files skip (<[skip := x]> files) = sorted_files skip files.
Proof.
  assert (forall files, NoDup (sorted_files skip files)) as Hnd.
  { intros fs. unfold sorted_files. apply NoDup_filter.
    rewrite (sorted_perm (fun a b : path * string => path_le a.1 b.1)). apply NoDup_map_to_list. }
  apply (Sorted_unique_strong file_le); [|apply sorted_files_Sorted..|].
  - intros [p1 c1] [p2 c2] H1 H2 H12 H21. apply elem_of_sorted_files in H1 as [Hp1 H1], H2 as [Hp2 H2]. cbn in *.
    assert (p1 = p2) as -> by (by apply path_le_antisym). rewrite lookup_insert_ne in H1 by congruence. congruence.
  - apply NoDup_Permutation; [apply Hnd..|]. intros f. rewrite !elem_of_sorted_files.
    split; intros [Hp H]; (split; [done|]); rewrite lookup_insert_ne in * by congruence; done.
Qed.

Lemma compute_hash_insert files x :
  compute_hash (Some (<[hash_filepath := x]> files)) = compute_hash (Some files).
Proof. unfold compute_hash, path_checksum. cbn [or_raise mbind result_bind]. by rewrite sorted_files_insert. Qed.

(** *** A directory as [update_status] leaves it *)

Record up_to_date (sys : system) (dir : status_dir) : Prop := UpToDate {
  utd_commit : exists c, get_current_commit_hash sys = Ok c /\ stored_commit dir = Ok c;
  utd_diff : exists d, get_current_git_diff sys = Ok d /\ stored_git_diff dir = Ok d;
  utd_hash : exists h, compute_hash dir = Ok h /\ is_hash h = true
                       /\ read_text dir hash_filepath = Ok (universal_newlines (h ++ NL)) }.

Lemma read_insert p files (x : string) : read_text (Some (<[p := x]> files)) p = Ok (universal_newlines x).
Proof. unfold read_text. cbn. by rewrite lookup_insert_eq. Qed.

Lemma read_insert_ne p q files (x : string) : p <> q -> read_text (Some (<[p := x]> files)) q = read_text (Some files) q.
Proof. intros H. unfold read_text. cbn. by rewrite lookup_insert_ne. Qed.

Lemma update_up_to_date sys dir dir' : update_status sys dir = Ok dir' -> up_to_date sys dir'.
Proof.
  unfold update_status, write_text. cbn [or_raise mbind result_bind]. intros H.
  apply bind_Ok in H as (c & Hc & H). apply bind_Ok in H as (d & Hd & H).
  set (files := <[diff_filepath := d]> (<[commit_filepath := (c ++ NL)%string]> (default ∅ dir))) in *.
  destruct (path_checksum_Ok files hash_filepath) as (h & Hh & Hhash).
  unfold compute_hash in H. rewrite Hh in H. cbn [mbind result_bind] in H. injection H as <-.
  assert (is_hash c = true) as Hcc.
  { unfold get_current_commit_hash in Hc. apply bind_Ok in Hc as (out & _ & Hc). by eapply HashString_Ok. }
  split.
  - exists c. split; [done|]. unfold stored_commit, files.
    rewrite read_insert_ne, read_insert_ne, read_insert by done. by apply HashString_line.
  - exists d. split; [done|]. unfold stored_git_diff, files. rewrite read_insert_ne, read_insert by done.
    rewrite universal_newlines_id; [done|]. unfold get_current_git_diff in Hd. by eapply run_stdout_no_cr.
  - exists h. rewrite compute_hash_insert. split; [done|]. split; [done|]. apply read_insert.
Qed.

Lemma up_to_date_exit sys dir : up_to_date sys dir -> exit_code_of sys dir = Ok 0.
Proof.
  intros [(c & Hc & Hsc) (d & Hd & Hsd) (h & Hh & Hhash & Hread)].
  assert (is_initialized dir = Ok true) as Hi.
  { unfold is_initialized. rewrite Hread. cbn [mbind result_bind]. rewrite HashString_line by done.
    assert (exists_file dir hash_filepath = true) as ->; [|done]. unfold read_text in Hread. inv_ok.
    unfold exists_file. destruct dir as [files|]; [|done]. cbn in *. apply bool_decide_eq_true.
    injection Ha as <-. by eexists. }
  unfold exit_code_of, is_corrupted. rewrite Hi. cbn [mbind result_bind negb ensure]. rewrite Hh.
  unfold stored_status_dir_hash. rewrite Hread. cbn [mbind result_bind]. rewrite HashString_line by done.
  cbn [mbind result_bind]. rewrite String.eqb_refl. cbn [negb]. unfold is_status_the_same.
  rewrite Hsc. cbn [mbind result_bind]. rewrite Hc. cbn [mbind result_bind]. rewrite String.eqb_refl. cbn [negb].
  rewrite Hsd. cbn [mbind result_bind]. rewrite Hd. cbn [mbind result_bind]. by rewrite String.eqb_refl.
Qed.

(** After a run that succeeded, whatever the status directory was, a second run
    on an unchanged repository answers that nothing changed (exit code 0) and leaves
    the directory as it is. *)
Theorem main_twice sys repo_dirpath status_dirpath dir code dir' :
  main sys repo_dirpath status_dirpath dir = Ok (code, dir') ->
  main sys repo_dirpath status_dirpath dir' = Ok (0, dir').
Proof.
  unfold main. intros H. apply bind_Ok in H as ([] & Hgit & H). apply bind_Ok in H as ([] & Hpath & H).
  rewrite Hgit, Hpath. cbn [mbind result_bind]. apply bind_Ok in H as (ec & Hec & H).
  destruct (Z.eqb_spec ec 0) as [->|Hne]; cbn [negb] in H.
  - injection H as <- <-. by rewrite Hec.
  - apply bind_Ok in H as (dir1 & Hup & H). injection H as <- <-.
    apply update_up_to_date in Hup. by rewrite (up_to_date_exit sys dir1).
Qed.

(** C22: The exit code is 0 or 47.  It is 0 only if the hash file has the checksum of
    the other files and the stored commit and diff are those of the repository, and
    then the directory is not written; with 47 the directory describes the
    repository as it is now. *)
Theorem main_exit_code sys repo_dirpath status_dirpath dir code dir' :
  main sys repo_dirpath status_dirpath dir = Ok (code, dir') ->
  code = 0 /\ dir' = dir
    /\ (exists h, compute_hash dir = Ok h /\ stored_status_dir_hash dir = Ok h)
    /\ (exists c, stored_commit dir = Ok c /\ get_current_commit_hash sys = Ok c)
    /\ (exists d, stored_git_diff dir = Ok d /\ get_current_git_diff sys = Ok d)
  \/ code = 47 /\ up_to_date sys dir'.
Proof.
  unfold main. intros H. apply bind_Ok in H as ([] & _ & H). apply bind_Ok in H as ([] & _ & H).
  apply bind_Ok in H as (ec & Hec & H).
  assert (ec = 47 \/ ec = 0) as Hcode.
  { unfold exit_code_of in Hec.
    apply bind_Ok in Hec as ([] & _ & Hec); cbn [negb] in Hec; [|injection Hec as <-; by left].
    apply bind_Ok in Hec as ([] & _ & Hec); [injection Hec as <-; by left|].
    apply bind_Ok in Hec as ([] & _ & Hec); injection Hec as <-; auto. }
  destruct Hcode as [->| ->]; cbn [Z.eqb negb] in H.
  - right. apply bind_Ok in H as (dir1 & Hup & H). injection H as <- <-. split; [done|]. by eapply update_up_to_date.
  - left. injection H as <- <-. split; [done|]. split; [done|]. unfold exit_code_of in Hec.
    apply bind_Ok in Hec as ([] & Hi & Hec); [|done]. cbn [negb] in Hec.
    apply bind_Ok in Hec as ([] & Hcor & Hec); [done|]. apply bind_Ok in Hec as ([] & Hsame & Hec); [|done].
    split; [|split].
    + unfold is_corrupted in Hcor. inv_ok. exists a1. split; [done|]. apply negb_false_iff, String.eqb_eq in Hcor. by subst.
    + unfold is_status_the_same in Hsame. inv_ok. destruct (String.eqb_spec a a0); [|done]. subst. eauto.
    + unfold is_status_the_same in Hsame. inv_ok. destruct (String.eqb_spec a a0); [|done]. cbn [negb] in Hsame. inv_ok.
      apply String.eqb_eq in Hsame. subst. eauto.
Qed.

Lemma main_settled sys r s dir code dir' : main sys r s dir = Ok (code, dir') -> exit_code_of sys dir' = Ok 0.
Proof.
  unfold main. intros H. apply bind_Ok in H as ([] & _ & H). apply bind_Ok in H as ([] & _ & H).
  apply bind_Ok in H as (ec & Hec & H). destruct (Z.eqb_spec ec 0) as [->|Hne]; cbn [negb] in H.
  - by injection H as _ <-.
  - apply bind_Ok in H as (dir1 & Hup & H). injection H as _ <-. by apply up_to_date_exit, update_up_to_date in Hup || (apply update_up_to_date in Hup; by apply up_to_date_exit).
Qed.

Lemma exit_code_0 sys dir :
  exit_code_of sys dir = Ok 0 ->
  is_initialized dir = Ok true /\ is_corrupted dir = Ok false /\ is_status_the_same sys dir = Ok true.
Proof.
  unfold exit_code_of. intros Hec.
  apply bind_Ok in Hec as ([] & -> & Hec); cbn [negb] in Hec; [|done].
  apply bind_Ok in Hec as ([] & -> & Hec); [done|]. apply bind_Ok in Hec as ([] & -> & Hec); done.
Qed.

(** After a successful run, a run on the repository with another commit or
    another diff answers 47; and so does a run after the files of the status
    directory, but the hash file, were changed in a way that changes the checksum. *)
Theorem changes_detected sys sys' r s dir code dir' commit' diff' :
  main sys r s dir = Ok (code, dir') ->
  get_current_commit_hash sys' = Ok commit' -> get_current_git_diff sys' = Ok diff' ->
  (get_current_commit_hash sys <> Ok commit' \/ get_current_git_diff sys <> Ok diff' -> exit_code_of sys' dir' = Ok 47)
  /\ forall files files', dir' = Some files -> files' !! hash_filepath = files !! hash_filepath ->
       compute_hash (Some files') <> compute_hash (Some files) -> exit_code_of sys' (Some files') = Ok 47.
Proof.
  intros (Hi & Hc & Hs)%main_settled%exit_code_0 Hcommit Hdiff. split.
  - intros Hne. unfold exit_code_of. rewrite Hi, Hc. cbn [mbind result_bind negb].
    unfold is_status_the_same in *. apply bind_Ok in Hs as (c & -> & Hs). cbn [mbind result_bind].
    apply bind_Ok in Hs as (c0 & Hc0 & Hs). rewrite Hcommit. cbn [mbind result_bind].
    destruct (String.eqb_spec c c0) as [->|]; [|done]. cbn [negb] in Hs. apply bind_Ok in Hs as (d & -> & Hs).
    apply bind_Ok in Hs as (d0 & Hd0 & Hs). injection Hs as ->%String.eqb_eq. rewrite Hdiff.
    destruct (String.eqb_spec c0 commit') as [->|]; cbn [negb mbind result_bind]; [|done].
    destruct (String.eqb_spec d0 diff') as [->|]; [|done]. destruct Hne; congruence.
  - intros files files' -> Hsame Hne.
    assert (forall p, p = hash_filepath -> read_text (Some files') p = read_text (Some files) p) as Hread
      by (intros p ->; unfold read_text; cbn; by rewrite Hsame).
    assert (is_initialized (Some files') = Ok true) as Hi'.
    { rewrite <-Hi. unfold is_initialized, exists_file. by rewrite Hsame, Hread. }
    unfold exit_code_of. rewrite Hi'. cbn [mbind result_bind negb]. unfold is_corrupted in *. rewrite Hi'. rewrite Hi in Hc.
    cbn [mbind result_bind ensure] in *. destruct (path_checksum_Ok files' hash_filepath) as (h' & Hh' & _).
    unfold compute_hash, stored_status_dir_hash in *. rewrite Hh' in *. rewrite Hread by done. cbn [mbind result_bind].
    apply bind_Ok in Hc as (h & Hh & Hc). apply bind_Ok in Hc as (e & -> & Hc). cbn [mbind result_bind].
    injection Hc as Hc. apply negb_false_iff, String.eqb_eq in Hc. subst e.
    destruct (String.eqb_spec h' h) as [->|]; [congruence|done].
Qed.

(** ** Readings of a repository over time *)

(** What a run sees of the repository. *)
Definition reading (sys : system) : result (string * string) :=
  c ← get_current_commit_hash sys;
  d ← get_current_git_diff sys;
  Ok (c, d).

(** The script run once on each state of the repository, on the same status directory. *)
Fixpoint runs (repo_dirpath status_dirpath : path) (dir : status_dir) (history : list system) : result (list Z * status_dir) :=
  match history with
  | [] => Ok ([], dir)
  | sys :: history =>
      '(code, dir) ← main sys repo_dirpath status_dirpath dir;
      '(codes, dir) ← runs repo_dirpath status_dirpath dir history;
      Ok (code :: codes, dir)
  end.

(** What the script promises: 47 when the reading is not the one before, 0 when it is. *)
Fixpoint change_codes (before : string * string) (readings : list (string * string)) : list Z :=
  match readings with
  | [] => []
  | r :: readings => (if decide (r = before) then 0 else 47) :: change_codes r readings
  end.

Lemma settled_exit_code sys sys' dir before now :
  exit_code_of sys dir = Ok 0 -> reading sys = Ok before -> reading sys' = Ok now ->
  exit_code_of sys' dir = Ok (if decide (now = before) then 0 else 47).
Proof.
  intros (Hi & Hc & Hs)%exit_code_0 Hb Hn. unfold exit_code_of. rewrite Hi, Hc. cbn [mbind result_bind negb].
  unfold reading in Hb, Hn. apply bind_Ok in Hb as (c & Hbc & (d & Hbd & [= <-])%bind_Ok).
  apply bind_Ok in Hn as (c' & Hnc & (d' & Hnd & [= <-])%bind_Ok).
  unfold is_status_the_same in *. rewrite Hbc, Hbd in Hs. rewrite Hnc, Hnd.
  apply bind_Ok in Hs as (c0 & -> & Hs). cbn [mbind result_bind] in *.
  destruct (String.eqb c0 c) eqn:Hcc; [|done]. apply String.eqb_eq in Hcc as ->. cbn [negb] in Hs. apply bind_Ok in Hs as (d0 & -> & Hs).
  cbn [mbind result_bind] in *. injection Hs as ->%String.eqb_eq.
  destruct (String.eqb_spec c c') as [->|]; cbn [negb mbind result_bind]; [|by rewrite decide_False by congruence].
  destruct (String.eqb_spec d d') as [->|]; [by rewrite decide_True|by rewrite decide_False by congruence].
Qed.

Lemma update_status_total sys dir now : reading sys = Ok now -> exists dir', update_status sys dir = Ok dir'.
Proof.
  unfold reading, update_status, write_text. intros (c & -> & (d & -> & _)%bind_Ok)%bind_Ok.
  cbn [or_raise mbind result_bind]. unfold compute_hash.
  match goal with |- context [path_checksum (Some ?f) ?p] => destruct (path_checksum_Ok f p) as (h & -> & _) end.
  cbn [mbind result_bind]. by eexists.
Qed.

Lemma next_run sys0 r s dir0 code0 dir before sys now :
  main sys0 r s dir0 = Ok (code0, dir) -> reading sys0 = Ok before ->
  which sys "git" = true -> reading sys = Ok now ->
  exists dir', main sys r s dir = Ok (if decide (now = before) then 0 else 47, dir').
Proof.
  intros H0 Hb Hgit Hn. pose proof (settled_exit_code _ sys _ _ now (main_settled _ _ _ _ _ _ H0) Hb Hn) as Hcode.
  unfold main, check_git_installed in *. rewrite Hgit, Hcode. apply bind_Ok in H0 as ([] & _ & ([] & -> & _)%bind_Ok).
  cbn [ensure mbind result_bind]. destruct (update_status_total sys dir now Hn) as [dir' Hup].
  destruct (decide (now = before)); cbn [Z.eqb negb]; [by eexists|]. rewrite Hup. by eexists.
Qed.

(** C5: After a run that succeeded, run on each state of a history of the repository that
    git or mercurial can read, the script succeeds and answers 47 for the states that
    differ from the one before and 0 for the others, whatever the status directory was
    at first. *)
Theorem runs_change_codes sys0 r s dir0 code0 dir before history readings :
  main sys0 r s dir0 = Ok (code0, dir) -> reading sys0 = Ok before ->
  Forall2 (fun sys now => which sys "git" = true /\ reading sys = Ok now) history readings ->
  exists dir', runs r s dir history = Ok (change_codes before readings, dir').
Proof.
  intros H0 Hb H. revert sys0 dir0 code0 dir before H0 Hb.
  induction H as [|sys now history readings [Hgit Hn] _ IH]; intros sys0 dir0 code0 dir before H0 Hb; [by exists dir|].
  destruct (next_run _ _ _ _ _ _ _ sys now H0 Hb Hgit Hn) as [dir1 H1].
  destruct (IH _ _ _ _ _ H1 Hn) as [dir2 H2]. exists dir2. cbn [runs change_codes]. rewrite H1. cbn [mbind result_bind].
  by rewrite H2.
Qed.

(** ** The options *)

(** C23: The script exits with code 2, the status directory untouched, exactly when an option
    is missing or the repository is not a directory; else it is the main part on the
    resolved paths. *)
Theorem script_options os sys status_dirpath repo_dirpath dir :
  (forall p, is_dir os p = true -> exists_ os p = true) -> (forall p, resolve os (resolve os p) = resolve os p) ->
  script os sys status_dirpath repo_dirpath dir =
  match status_dirpath, repo_dirpath with
  | Some s, Some r =>
      if is_dir os (resolve os r) then main sys (resolve os r) (resolve os s) dir else Raise (SystemExit 2)
  | _, _ => Raise (SystemExit 2)
  end.
Proof.
  intros Hdir Hres. unfold script, parse_args, typed_option, status_dirpath_type, repo_dirpath_type.
  destruct status_dirpath as [s|]; [|done]. cbn. destruct repo_dirpath as [r|]; [|done].
  cbn. unfold compose2, check_path_is_dir, check_path_exists. cbn.
  destruct (is_dir os (resolve os r)) eqn:Hr; [|done]. cbn. rewrite Hres, (Hdir _ Hr). cbn. by rewrite Hres.
Qed.

(** The checksum is that of the contents one after the other: text that moves from
    the end of a file to the start of the next one is not seen. *)
Lemma moved_text_undetected :
  let before : gmap path string := {[ ["a"] := "xy"; ["b"] := "z" ]}%string in
  let after : gmap path string := {[ ["a"] := "x"; ["b"] := "yz" ]}%string in
  before <> after /\ compute_hash (Some before) = compute_hash (Some after).
Proof. split; [intros H; by apply (f_equal (lookup ["a"%string])) in H|vm_compute; reflexivity]. Qed.

(** ** Witnesses *)

Definition git_system (commit diff : string) : system :=
  System (fun _ => true)
    (fun command =>
       if decide (command = ["git"; "rev-parse"; "HEAD"]%string) then Ok (Completed 0 (commit ++ NL) EmptyString)
       else if decide (command = ["git"; "status"; "-vv"]%string) then Ok (Completed 0 diff EmptyString)
       else Ok (Completed 1 EmptyString EmptyString)).

Definition commit_a : string := "a9993e364706816aba3e25717850c26c9cd0d89d".
Definition commit_b : string := "84983e441c3bd26ebaae4aa1f95129e5e54670f1".
Definition system_a : system := git_system commit_a ("On branch main" ++ String cr NL ++ "clean" ++ NL).
Definition system_b : system := git_system commit_b "On branch main".
Definition repo_path : path := ["home"; "repo"]%string.
Definition status_path : path := ["home"; "status"]%string.
Definition dir_of (m : result (Z * status_dir)) : status_dir := match m with Ok (_, d) => d | Raise _ => None end.
Definition dir_a : status_dir := dir_of (main system_a repo_path status_path None).

Lemma main_a : main system_a repo_path status_path None = Ok (47, dir_a).
Proof. vm_compute. reflexivity. Qed.

Example main_twice_witness : main system_a repo_path status_path dir_a = Ok (0, dir_a).
Proof. apply (main_twice system_a repo_path status_path None 47 dir_a), main_a. Defined.

Example main_exit_code_witness :
  47 = 0 /\ dir_a = None
    /\ (exists h, compute_hash None = Ok h /\ stored_status_dir_hash None = Ok h)
    /\ (exists c, stored_commit None = Ok c /\ get_current_commit_hash system_a = Ok c)
    /\ (exists d, stored_git_diff None = Ok d /\ get_current_git_diff system_a = Ok d)
  \/ 47 = 47 /\ up_to_date system_a dir_a.
Proof. apply (main_exit_code system_a repo_path status_path None 47 dir_a), main_a. Defined.

Example changes_detected_witness :
  (get_current_commit_hash system_a <> Ok commit_b \/ get_current_git_diff system_a <> Ok "On branch main"%string ->
     exit_code_of system_b dir_a = Ok 47)
  /\ forall files files', dir_a = Some files -> files' !! hash_filepath = files !! hash_filepath ->
       compute_hash (Some files') <> compute_hash (Some files) -> exit_code_of system_b (Some files') = Ok 47.
Proof.
  apply (changes_detected system_a system_b repo_path status_path None 47 dir_a commit_b "On branch main");
    [exact main_a|reflexivity|reflexivity].
Defined.

Example runs_change_codes_witness :
  exists dir', runs repo_path status_path dir_a [system_a; system_b; system_b; system_a] = Ok ([0; 47; 0; 47], dir').
Proof.
  apply (runs_change_codes system_a repo_path status_path None 47 dir_a
           (commit_a, ("On branch main" ++ NL ++ "clean" ++ NL)%string) [system_a; system_b; system_b; system_a]
           [(commit_a, ("On branch main" ++ NL ++ "clean" ++ NL)%string); (commit_b, "On branch main"%string);
            (commit_b, "On branch main"%string); (commit_a, ("On branch main" ++ NL ++ "clean" ++ NL)%string)]);
    [exact main_a|reflexivity|]. repeat constructor.
Defined.

(** A system without links where [/home/repo] is a directory. *)
Definition plain_paths : paths :=
  Paths id (fun p => bool_decide (p = repo_path)) (fun p => bool_decide (p = repo_path \/ p = status_path)).

Example script_options_witness :
  script plain_paths system_a (Some status_path) (Some repo_path) None = Ok (47, dir_a).
Proof.
  rewrite script_options; [exact main_a| |done]. intros p. cbn. rewrite !bool_decide_eq_true. tauto.
Defined.
