(* ===== verification/Bench.v ===== *)
(** * The template of a benchmark (benchmark_framework/base.py)

    [Bench.run] over an interface of the abstract methods: a record of effects on a
    world, with the class of the laws a kind of bench promises.  An effect returns
    the world and a value or an exception: what a handler sees after an exception is
    the world as the failed call left it. *)

From S2P Require Import Prelude PyIo PyStr PyInt PyFloat PyDict Naming Fields Config.

(** ** The interface *)

Record Bench (W R : Type) : Type := MkBench {
  kill_nodes : io W unit;
  clean_up : io W unit;
  preamble : io W unit;
  setup : io W unit;
  run_validator_bitcoinds : io W unit;
  run_validators : io W unit;
  run_client_bitcoinds : io W unit;
  get_client_addresses : io W (list string);
  run_donors : list string -> io W unit;
  run_clients : io W unit;
  process_logs : string -> io W R;
  sleep : Z -> io W unit;
  tmp_cleanup : io W unit;
  remove_dir_or_fail : io W unit;
  mkdir_output : io W unit;
  print_result : string -> R -> io W unit }.
Arguments kill_nodes {W R} _.
Arguments clean_up {W R} _.
Arguments preamble {W R} _.
Arguments setup {W R} _.
Arguments run_validator_bitcoinds {W R} _.
Arguments run_validators {W R} _.
Arguments run_client_bitcoinds {W R} _.
Arguments get_client_addresses {W R} _.
Arguments run_donors {W R} _ _.
Arguments run_clients {W R} _.
Arguments process_logs {W R} _ _.
Arguments sleep {W R} _ _.
Arguments tmp_cleanup {W R} _.
Arguments remove_dir_or_fail {W R} _.
Arguments mkdir_output {W R} _.
Arguments print_result {W R} _ _ _.

Definition DEFAULT_SLEEP_TIME : Z := 10.

Section Run.
Context {W R : Type} (b : Bench W R) (p : instance).

(** The loop of [_wait_for_duration]; [fuel] bounds the number of sleeps. *)
Fixpoint wait_loop (fuel : nat) (duration total_sleep_time : Z) : io W unit :=
  match fuel with
  | O => lift (Raise OutOfFuel)
  | S f =>
      if total_sleep_time <? duration
      then let nb_seconds_to_sleep := Z.min DEFAULT_SLEEP_TIME (duration - total_sleep_time) in
           _ <~ sleep b nb_seconds_to_sleep;
           wait_loop f duration (total_sleep_time + nb_seconds_to_sleep)
      else io_ret tt
  end.

Definition wait_for_duration : io W unit :=
  duration <~ lift (bench_int "duration" p);
  wait_loop (S (Z.to_nat duration)) duration 0.

(** The body of the [try] of a run. *)
Definition run_body (i runs : Z) : io W R :=
  let run_directory := add_zeros_prefix i runs in
  _ <~ clean_up b;
  _ <~ setup b;
  _ <~ run_validator_bitcoinds b;
  _ <~ run_validators b;
  _ <~ run_client_bitcoinds b;
  client_addrs <~ get_client_addresses b;
  _ <~ run_donors b client_addrs;
  _ <~ run_clients b;
  _ <~ wait_for_duration;
  _ <~ kill_nodes b;
  _ <~ tmp_cleanup b;
  result <~ process_logs b run_directory;
  _ <~ print_result b (run_directory ++ "/results.txt") result;
  io_ret result.

(** The [except] of a run. *)
Definition run_handler (e : exn) : io W R :=
  match e with
  | SubprocessError | ParseError =>
      _ <~ kill_nodes b;
      _ <~ tmp_cleanup b;
      lift (Raise (BenchError e))
  | _ => lift (Raise e)
  end.

Definition run_once (i runs : Z) : io W R := io_except (run_body i runs) run_handler.

Fixpoint run_loop (indexes : list Z) (runs : Z) (results : list R) : io W (list R) :=
  match indexes with
  | [] => io_ret results
  | i :: rest => result <~ run_once i runs; run_loop rest runs (results ++ [result])
  end.

(** [Bench.run]: up to the number of runs, then the loop. *)
Definition start_up : io W Z :=
  _ <~ lift (bench_attr "nodes" p);
  _ <~ lift (bench_attr "rate" p);
  _ <~ remove_dir_or_fail b;
  _ <~ mkdir_output b;
  _ <~ kill_nodes b;
  _ <~ clean_up b;
  _ <~ preamble b;
  lift (bench_int "runs" p).

Definition run : io W (list R) :=
  runs <~ start_up;
  run_loop (range runs) runs [].
End Run.

(** ** The laws of a bench

    [idle]: none of the nodes that [kill_nodes] stops is running.  A kill may fail; one that
    returns leaves the testbed idle, and what follows it starts no node. *)
Class BenchLaws {W R} (b : Bench W R) (idle : W -> Prop) : Prop := {
  kill_idle : forall w w', kill_nodes b w = (w', Ok tt) -> idle w';
  tmp_cleanup_idle : forall w, idle w -> idle (tmp_cleanup b w).1;
  process_logs_idle : forall dir w, idle w -> idle (process_logs b dir w).1;
  print_result_idle : forall file r w, idle w -> idle (print_result b file r w).1;
  clean_up_idle : forall w, idle w -> idle (clean_up b w).1;
  preamble_idle : forall w, idle w -> idle (preamble b w).1 }.

(** The exceptions that the handler of a run turns into a [BenchError]. *)
Definition handled (e : exn) : bool := match e with SubprocessError | ParseError => true | _ => false end.

(** Decompose a successful sequence of effects. *)
Ltac io_inv :=
  repeat match goal with
  | H : io_bind _ _ _ = (_, Ok _) |- _ =>
      let w1 := fresh "w" in let a := fresh "a" in let Ha := fresh "Hrun" in
      apply io_bind_Ok in H as (w1 & a & Ha & H)
  | H : lift _ _ = (_, Ok _) |- _ => unfold lift in H; injection H as <- H
  | H : io_ret _ _ = (_, Ok _) |- _ => injection H as <- H
  end.

Section Idle.
Context {W R : Type} (b : Bench W R) (p : instance) (idle : W -> Prop) `{!BenchLaws b idle}.

(** The end of a run, from the kill on. *)
Lemma finish_idle dir w w' r :
  (_ <~ kill_nodes b; _ <~ tmp_cleanup b; result <~ process_logs b dir;
   _ <~ print_result b (dir ++ "/results.txt") result; io_ret result) w = (w', Ok r) -> idle w'.
Proof.
  intros H. apply io_bind_Ok in H as (wk & [] & Hk%kill_idle & H).
  apply io_bind_Ok in H as (wt & [] & Ht & H). pose proof (tmp_cleanup_idle wk Hk) as Hit. rewrite Ht in Hit. cbn in Hit.
  pose proof (process_logs_idle dir wt Hit) as Hip.
  io_inv. match goal with H : process_logs b dir wt = _ |- _ => rewrite H in Hip end. cbn in Hip.
  match goal with H : print_result b ?f ?x ?w1 = _ |- _ => pose proof (print_result_idle f x w1 Hip) as Hir; rewrite H in Hir end.
  exact Hir.
Qed.

Lemma run_body_idle i runs w w' r : run_body b p i runs w = (w', Ok r) -> idle w'.
Proof.
  unfold run_body. intros H. do 9 (apply io_bind_Ok in H as (? & ? & _ & H)). by eapply finish_idle.
Qed.

(** What a run that fails does, its body having raised [c]: an exception that the handler
    does not take escapes as it is; otherwise the nodes are killed and the temporary
    directory is cleaned up, and the exception is that of one of the two, or a [BenchError]
    on an idle testbed. *)
Definition run_failure (body : W * result R) (w' : W) (e : exn) : Prop :=
  exists w1 c, body = (w1, Raise c) /\
    if handled c
    then kill_nodes b w1 = (w', Raise e)
         \/ exists w2, kill_nodes b w1 = (w2, Ok tt) /\
              (tmp_cleanup b w2 = (w', Raise e) \/ tmp_cleanup b w2 = (w', Ok tt) /\ e = BenchError c /\ idle w')
    else e = c /\ w' = w1.

Lemma handler_failure w1 c w' r :
  run_handler b c w1 = (w', r) -> exists e, r = Raise e /\ run_failure (w1, Raise c) w' e.
Proof.
  intros H. assert (forall x, (_ <~ kill_nodes b; _ <~ tmp_cleanup b; lift (Raise x : result R)) w1 = (w', r) -> exists e, r = Raise e /\
    (kill_nodes b w1 = (w', Raise e)
     \/ exists w2, kill_nodes b w1 = (w2, Ok tt) /\
          (tmp_cleanup b w2 = (w', Raise e) \/ tmp_cleanup b w2 = (w', Ok tt) /\ e = x /\ idle w'))) as Hh.
  { intros x. unfold io_bind at 1. destruct (kill_nodes b w1) as [w2 [[]|e]] eqn:Hk; [|intros [= <- <-]; eauto].
    unfold io_bind. pose proof (tmp_cleanup_idle w2 (kill_idle _ _ Hk)) as Hi.
    destruct (tmp_cleanup b w2) as [w3 [[]|e]] eqn:Ht; intros [= <- <-]; cbn in Hi; eauto 10. }
  destruct c; cbn [run_handler] in H; try (apply Hh in H as (e & -> & He); exists e; split; [done|]; by eexists _, _);
    injection H as <- <-; eexists; (split; [done|]); by eexists _, _.
Qed.

(** The outcome of a run: idle when it succeeds. *)
Definition run_outcome (body : W * result R) (w' : W) (r : result R) : Prop :=
  match r with
  | Ok x => body = (w', Ok x) /\ idle w'
  | Raise e => run_failure body w' e
  end.

Lemma run_once_outcome i runs w w' r :
  run_once b p i runs w = (w', r) -> run_outcome (run_body b p i runs w) w' r.
Proof.
  unfold run_once, io_except. destruct (run_body b p i runs w) as [w1 [x|c]] eqn:E.
  - intros [= <- <-]. split; [done|]. by eapply run_body_idle.
  - intros (e & -> & He)%handler_failure. exact He.
Qed.

(** The loop of the runs: every run gives one result, or the loop stops at the
    first run that raises. *)
Lemma run_loop_outcome indexes runs results w w' r :
  idle w -> run_loop b p indexes runs results w = (w', r) ->
  match r with
  | Ok rs => length rs = (length results + length indexes)%nat /\ idle w'
  | Raise e => exists i w1, i ∈ indexes /\ idle w1 /\ run_failure (run_body b p i runs w1) w' e
  end.
Proof.
  revert results w. induction indexes as [|i rest IH]; intros results w Hw Hl; cbn [run_loop] in Hl.
  - injection Hl as <- <-. split; [cbn; lia|done].
  - unfold io_bind in Hl. destruct (run_once b p i runs w) as [w1 [x|e]] eqn:E.
    + apply run_once_outcome in E as [_ Hw1].
      specialize (IH _ _ Hw1 Hl). destruct r as [rs|e].
      * rewrite length_app in IH. cbn [length] in *. split; [lia|tauto].
      * destruct IH as (j & w2 & ? & ? & ?). exists j, w2. split; [by right|done].
    + injection Hl as <- <-. exists i, w. split; [by left|]. split; [done|]. by apply run_once_outcome in E.
Qed.

(** The runs start on an idle testbed. *)
Lemma start_up_idle w w1 runs : start_up b p w = (w1, Ok runs) -> bench_int "runs" p = Ok runs /\ idle w1.
Proof.
  unfold start_up. intros Hr.
  do 3 (apply io_bind_Ok in Hr as (? & ? & _ & Hr)). apply io_bind_Ok in Hr as (w4 & ? & _ & Hr).
  apply io_bind_Ok in Hr as (wk & [] & Hi%kill_idle & Hr).
  apply io_bind_Ok in Hr as (wc & [] & Hc & Hr). pose proof (clean_up_idle wk Hi) as Hi2. rewrite Hc in Hi2.
  apply io_bind_Ok in Hr as (wp & [] & Hp & Hr). pose proof (preamble_idle wc Hi2) as Hi3. rewrite Hp in Hi3.
  unfold lift in Hr. by injection Hr as <- ->.
Qed.

(** C26: When a kill that returns leaves the testbed idle, with none of the nodes that it stops
    running, and the steps after it start no node: a benchmark either fails while it starts
    up, or does its runs one after the other, each from an idle testbed.  It returns one
    result per run and leaves the testbed idle, or it stops at the first run that fails, of
    which nothing but a [SubprocessError] or a [ParseError] is handled: the nodes are killed,
    the temporary directory is removed, and the exception is a [BenchError] on an idle
    testbed, or that of the kill or of the removal; any other exception of the body of the
    run escapes as it is, without a kill. *)
Theorem bench_run_outcome w w' r :
  run b p w = (w', r) ->
  (exists e, r = Raise e /\ start_up b p w = (w', Raise e))
  \/ exists runs, bench_int "runs" p = Ok runs
       /\ match r with
          | Ok results => Z.of_nat (length results) = Z.max 0 runs /\ idle w'
          | Raise e => exists i w1, 0 <= i < runs /\ idle w1 /\ run_failure (run_body b p i runs w1) w' e
          end.
Proof.
  unfold run. unfold io_bind at 1. destruct (start_up b p w) as [w1 [runs|e]] eqn:E; intros Hr.
  - right. apply start_up_idle in E as [Hruns Hi]. exists runs. split; [done|].
    apply run_loop_outcome in Hr; [|done]. destruct r as [results|e].
    + unfold range in Hr. rewrite length_seqZ in Hr. cbn [length] in Hr. split; [lia|tauto].
    + destruct Hr as (i & w2 & Hin%elem_of_range & H). by exists i, w2.
  - left. injection Hr as <- <-. by exists e.
Qed.
End Idle.

(** ** Waiting *)

(** The sleeps of a wait: tens of seconds, then the rest. *)
Definition naps (duration : Z) : list Z :=
  replicate (Z.to_nat (duration / 10)) 10 ++ (if duration mod 10 =? 0 then [] else [duration mod 10]).

Lemma naps_step d : 0 < d -> naps d = Z.min 10 d :: naps (d - Z.min 10 d).
Proof.
  intros Hd. unfold naps. destruct (Z.le_gt_cases 10 d) as [H|H].
  - rewrite Z.min_l by lia. replace (d / 10) with (1 + (d - 10) / 10)
      by (replace d with (1 * 10 + (d - 10)) at 2 by lia; rewrite Z.div_add_l; lia).
    pose proof (Z.div_pos (d - 10) 10). rewrite Z2Nat.inj_add by lia.
    replace ((d - 10) mod 10) with (d mod 10) by (rewrite <-(Z_mod_plus_full (d - 10) 1 10); f_equal; lia).
    reflexivity.
  - rewrite Z.min_r, Z.sub_diag by lia. rewrite Z.div_small, Z.mod_small by lia. cbn.
    by rewrite (proj2 (Z.eqb_neq d 0)) by lia.
Qed.

Lemma naps_spec d : Forall (fun s => 1 <= s <= 10) (naps d) /\ (0 <= d -> foldr Z.add 0 (naps d) = d).
Proof.
  split.
  - unfold naps. apply Forall_app. split; [apply Forall_replicate; lia|].
    pose proof (Z.mod_pos_bound d 10). destruct (Z.eqb_spec (d mod 10) 0); [constructor|]. constructor; [lia|constructor].
  - revert d. apply (Zlt_0_ind (fun d => foldr Z.add 0 (naps d) = d)). intros d IH Hd.
    destruct (decide (d = 0)) as [->|]; [reflexivity|]. rewrite naps_step by lia. cbn [foldr]. rewrite IH; lia.
Qed.

Section Wait.
Context {W R : Type} (b : Bench W R) (p : instance).

Lemma wait_loop_naps fuel duration total w :
  (Z.to_nat (duration - total) < fuel)%nat ->
  wait_loop b fuel duration total w = io_each (sleep b) (naps (Z.max 0 (duration - total))) w.
Proof.
  revert total w. induction fuel as [|fuel IH]; intros total w Hf; [lia|]. cbn [wait_loop].
  destruct (Z.ltb_spec total duration) as [H|H].
  - rewrite Z.max_r, naps_step by lia. cbn [io_each]. unfold DEFAULT_SLEEP_TIME, io_bind.
    destruct (sleep b (Z.min 10 (duration - total)) w) as [w1 [[]|e]]; [|done].
    rewrite IH by lia. f_equal. f_equal. lia.
  - by rewrite Z.max_l by lia.
Qed.

(** Waiting for the duration of the benchmark always ends: it sleeps in naps of
    one to ten seconds that add up to the duration, and stops early only when a
    sleep raises. *)
Theorem wait_for_duration_naps duration w :
  bench_int "duration" p = Ok duration -> 0 <= duration ->
  wait_for_duration b p w = io_each (sleep b) (naps duration) w
  /\ Forall (fun s => 1 <= s <= 10) (naps duration)
  /\ foldr Z.add 0 (naps duration) = duration.
Proof.
  intros Hp Hd. pose proof (naps_spec duration) as [? Hsum]. split; [|split; [done|by apply Hsum]].
  unfold wait_for_duration. unfold io_bind at 1, lift. rewrite Hp.
  rewrite wait_loop_naps by lia. by rewrite Z.sub_0_r, Z.max_r.
Qed.
End Wait.
