(* ===== verification/LocalBench.v ===== *)
(** * The benchmark on one machine (benchmark_framework/local.py)

    [LocalBench]: the abstract methods of [Bench] as commands given to the machine.
    What the machine does with a command is a parameter; [MachineLaws] states the
    few facts about tmux, mktemp, bitcoin-cli and the file system that the code
    relies on, and the methods are shown to be a [Bench] with its laws. *)

From S2P Require Import Prelude PyIo PyStr PyInt PyFloat PyDict PySort Naming Fields PyJson PyRepr Config Bench.

(** ** The machine *)

(** The calls into the operating system and the libraries. [R] is the type of
    [RunResult]. *)
Record Machine (W R : Type) : Type := MkMachine {
  command : list string -> io W string;           (** [subprocess.run(argv)], for its output *)
  shell : string -> io W unit;                    (** [subprocess.run([cmd], shell=True)] *)
  unlink : string -> io W unit;                   (** [Path.unlink] *)
  exists_path : string -> io W bool;
  rmtree : string -> io W unit;
  confirm_removal : string -> io W bool;          (** [click.confirm] *)
  make_directory : string -> io W unit;
  time_now : io W float;                          (** [time.time()] *)
  sleep_for : Z -> io W unit;
  cleanup_tmpdir : io W unit;                     (** [TemporaryDirectory.cleanup] *)
  getnewaddress : string -> string -> io W string; (** [TestNodeCLI(cli, datadir).getnewaddress()] *)
  print_parameters : string -> io W unit;
  copytree : string -> string -> io W unit;
  parse_run : string -> string -> io W R;         (** [LogParser.process(..).result()] *)
  print_run : string -> R -> io W unit }.
Arguments command {W R} _ _.
Arguments shell {W R} _ _.
Arguments unlink {W R} _ _.
Arguments exists_path {W R} _ _.
Arguments rmtree {W R} _ _.
Arguments confirm_removal {W R} _ _.
Arguments make_directory {W R} _ _.
Arguments time_now {W R} _.
Arguments sleep_for {W R} _ _.
Arguments cleanup_tmpdir {W R} _.
Arguments getnewaddress {W R} _ _ _.
Arguments print_parameters {W R} _ _.
Arguments copytree {W R} _ _ _.
Arguments parse_run {W R} _ _ _.
Arguments print_run {W R} _ _ _.

(** ** The methods *)

(** Where things are: [sys.executable], the two repositories, the parameters of the
    constructor, the temporary directory, and [Path.resolve]. *)
Record Places : Type := MkPlaces {
  executable : string;
  itcoin_core_path : string;
  itcoin_fbft_path : string;
  itcoin_core_directory : string;
  output_directory : string;
  tmpdirname : string;
  resolve : string -> string }.

Definition bitcoind_path (pl : Places) : string := (itcoin_core_directory pl ++ "/src")%string.
Definition test_framework_path (pl : Places) : string :=
  (itcoin_core_directory pl ++ "/test/functional/test_framework/__init__.py")%string.

(** [Bench.__init__]: the test framework is imported, and a temporary directory made. *)
Section Init.
Context {W : Type} (resolve : string -> string) (import_test_framework : string -> io W unit) (new_tmpdir : io W string).
Definition bench_init (executable itcoin_core_path itcoin_fbft_path itcoin_core_directory output_directory : string) : io W Places :=
  let pl tmp := MkPlaces executable itcoin_core_path itcoin_fbft_path (resolve itcoin_core_directory) (resolve output_directory)
                  tmp resolve in
  _ <~ import_test_framework (test_framework_path (pl EmptyString));
  tmp <~ new_tmpdir;
  io_ret (pl tmp).
End Init.

Section Methods.
Context {W R : Type} (env : Machine W R) (pl : Places).
Context (p : instance) (force : bool).

(** A parameter inside an f-string. *)
Definition text (name : string) : result string := v ← bench_attr name p; py_str v.

Definition local_kill_nodes : io W unit :=
  io_except
    (_ <~ shell env kill_tmux_session;
     nodes <~ lift (bench_int "nodes" p);
     _ <~ io_each (fun i =>
            _ <~ command env (split_words (kill_bitcoind (itcoin_core_path pl) i VALIDATOR nodes false));
            io_ret tt) (range nodes);
     clients <~ lift (bench_int "clients" p);
     io_each (fun i =>
            _ <~ command env (split_words (kill_bitcoind (itcoin_core_path pl) i CLIENT nodes false));
            io_ret tt) (range clients))
    (fun e => lift (Raise (match e with SubprocessError => BenchError e | _ => e end))).

Definition background_run (name cmd : string) (wait : bool) : io W unit :=
  if wait
  then out <~ command env ["mktemp"; "-p"; tmpdirname pl];
       let tmp_file := strip out in
       let cmd := (cmd ++ "; tmux wait-for -S " ++ tmp_file)%string in
       _ <~ command env ["tmux"; "new-window"; "-t"; TMUX_SESSION_NAME; "-n"; name; cmd];
       _ <~ command env ["tmux"; "wait-for"; tmp_file];
       unlink env tmp_file
  else _ <~ command env ["tmux"; "new-window"; "-t"; TMUX_SESSION_NAME; "-n"; name; cmd];
       io_ret tt.

Definition local_clean_up : io W unit :=
  nodes <~ lift (bench_int "nodes" p);
  clients <~ lift (bench_int "clients" p);
  shell env (clean_logs ++ " ; " ++ clean_output ++ " ; " ++ mk_node_log_dirs nodes clients).

Definition local_setup : io W unit :=
  now <~ time_now env;
  genesis_block_timestamp <~ lift (compute_genesis_block_timestamp now p);
  target_block_time <~ lift (text "target_block_time");
  nb_clients <~ lift (text "clients");
  nodes <~ lift (text "nodes");
  let cmd := setup_signet (executable pl)
               ("--output-directory " ++ output_path ++ " --itcoin-core-dir " ++ itcoin_core_directory pl
                ++ " --nb-validators " ++ nodes ++ " --nb-clients " ++ nb_clients
                ++ " --genesis-block-timestamp " ++ str_of_Z genesis_block_timestamp
                ++ " --target-block-time " ++ target_block_time) in
  background_run "setup_signet" (cmd ++ " &> " ++ logs_path ++ "/setup_signet_logs.txt") true.

Definition local_preamble : io W unit :=
  _ <~ shell env kill_tmux_session;
  shell env create_tmux_session.

(** [_run_validator_bitcoinds] and [_run_client_bitcoinds] *)
Definition run_bitcoinds (parameter : string) (type_name : string) : io W unit :=
  nb <~ lift (bench_int parameter p);
  io_each (fun i =>
    nb_text <~ lift (text parameter);
    background_run ("run-signet-" ++ type_name ++ "-" ++ str_of_Z i)
      (run_signet (executable pl)
         ("--bitcoin-path " ++ bitcoind_path pl ++ " --itcoin-core-test-framework-path " ++ test_framework_path pl
          ++ " --id " ++ str_of_Z i ++ " --node-type " ++ type_name ++ " --nb-of-type " ++ nb_text) false) true)
    (range nb).
Definition local_run_validator_bitcoinds : io W unit := run_bitcoinds "nodes" "VALIDATOR".
Definition local_run_client_bitcoinds : io W unit := run_bitcoinds "clients" "CLIENT".

(** The option of a replica that will be killed. *)
Definition fault_info (i : Z) : result string :=
  faults ← bench_int "faults" p;
  if i <? faults
  then faults_text ← text "faults";
       fault_time ← text "fault_time";
       Ok ("--fault-info " ++ faults_text ++ " " ++ fault_time)%string
  else Ok EmptyString.

Definition local_run_validators : io W unit :=
  nodes <~ lift (bench_int "nodes" p);
  io_each (fun i =>
    info <~ lift (fault_info i);
    nb_text <~ lift (text "nodes");
    background_run ("run-replica-" ++ str_of_Z i)
      (run_replicas (executable pl)
         ("--itcoin-fbft-path " ++ itcoin_fbft_path pl ++ " --id " ++ str_of_Z i ++ " --nb-validators " ++ nb_text
          ++ " " ++ info) false) false)
    (range nodes).

Fixpoint addresses_of (is_ : list Z) (clients : Z) (client_addrs : list string) : io W (list string) :=
  match is_ with
  | [] => io_ret client_addrs
  | i :: rest =>
      let client_name := get_node_dirname i CLIENT clients in
      let client_dir := (resolve pl output_path ++ "/" ++ client_name)%string in
      address <~ getnewaddress env (itcoin_core_directory pl ++ "/src/bitcoin-cli") client_dir;
      addresses_of rest clients (client_addrs ++ [address])
  end.
Definition local_get_client_addresses : io W (list string) :=
  clients <~ lift (bench_int "clients" p);
  addresses_of (range clients) clients [].

Definition local_run_donors (client_addrs : list string) : io W unit :=
  let addresses := ("--client-address " ++ join " --client-address " client_addrs)%string in
  nodes <~ lift (bench_int "nodes" p);
  io_each (fun i =>
    nb_text <~ lift (text "nodes");
    background_run ("run-donor-" ++ str_of_Z i)
      (run_donor (executable pl)
         ("--bitcoin-path " ++ bitcoind_path pl ++ " --itcoin-core-test-framework-path " ++ test_framework_path pl
          ++ " --id " ++ str_of_Z i ++ " --nb-validators " ++ nb_text ++ " " ++ addresses) false) false)
    (range nodes).

Definition local_run_clients : io W unit :=
  warmup_duration <~ lift (text "warmup_duration");
  block_time <~ lift (text "target_block_time");
  client_rate <~ lift (text "rate");
  tx_size <~ lift (text "tx_size");
  clients <~ lift (bench_int "clients" p);
  io_each (fun i =>
    nb_text <~ lift (text "clients");
    background_run ("run-client-" ++ str_of_Z i)
      (run_client (executable pl)
         ("--bitcoin-path " ++ bitcoind_path pl ++ " --itcoin-core-test-framework-path " ++ test_framework_path pl
          ++ " --id " ++ str_of_Z i ++ " --nb-clients " ++ nb_text ++ " --warmup-duration " ++ warmup_duration
          ++ " --block-time " ++ block_time ++ " --target-tx-rate " ++ client_rate ++ " --tx-size " ++ tx_size)
         false) false)
    (range clients).

Definition local_process_logs (run_directory : string) : io W R :=
  let directory := (output_directory pl ++ "/" ++ run_directory)%string in
  _ <~ print_parameters env (logs_path ++ "/bench_parameters.json");
  _ <~ copytree env logs_path directory;
  parse_run env directory (output_directory pl).

(** [remove_dir_or_fail] of utils.py; [sys.exit(1)] when the answer is no. *)
Definition remove_directory_or_fail (output_dir : string) : io W unit :=
  if force then io_except (rmtree env output_dir) (fun _ => io_ret tt)
  else there <~ exists_path env output_dir;
       if (there : bool)
       then yes <~ confirm_removal env output_dir;
            if (yes : bool) then rmtree env output_dir else lift (Raise (SystemExit 1))
       else io_ret tt.

Definition local_bench : Bench W R := {|
  kill_nodes := local_kill_nodes;
  clean_up := local_clean_up;
  preamble := local_preamble;
  setup := local_setup;
  run_validator_bitcoinds := local_run_validator_bitcoinds;
  run_validators := local_run_validators;
  run_client_bitcoinds := local_run_client_bitcoinds;
  get_client_addresses := local_get_client_addresses;
  run_donors := local_run_donors;
  run_clients := local_run_clients;
  process_logs := local_process_logs;
  sleep := sleep_for env;
  tmp_cleanup := cleanup_tmpdir env;
  remove_dir_or_fail := remove_directory_or_fail (output_directory pl);
  mkdir_output := make_directory env (output_directory pl);
  print_result := fun file => print_run env (output_directory pl ++ "/" ++ file) |}.
End Methods.

(** ** The laws of the machine

    [running]: the data directories of the nodes that run; [tmp_gone]: the temporary
    directory of the bench does not exist. *)

(** The shell commands that neither start a node nor make the temporary directory. *)
Definition housekeeping (cmd : string) : bool :=
  String.eqb cmd kill_tmux_session || String.eqb cmd create_tmux_session || startswith "rm -fr " cmd.

Section Laws.
Context {W R : Type} (running : W -> list string) (tmp_gone : W -> Prop).

Definition quiet {A} (m : io W A) : Prop :=
  forall w, running (m w).1 ⊆ running w /\ (tmp_gone w -> tmp_gone (m w).1).

Class MachineLaws (env : Machine W R) (pl : Places) : Prop := {
  shell_quiet cmd : housekeeping cmd = true -> quiet (shell env cmd) /\ forall w, (shell env cmd w).2 = Ok tt;
  stop_datadir d w : exists w' out,
    command env [itcoin_core_path pl ++ "/src/bitcoin-cli"; "-datadir=" ++ d; "stop"]%string w = (w', Ok out)
    /\ running w' = filter (fun e => e <> d) (running w);
  cleanup_gone w : exists w', cleanup_tmpdir env w = (w', Ok tt) /\ running w' = running w /\ tmp_gone w';
  mktemp_gone w : tmp_gone w -> (command env ["mktemp"; "-p"; tmpdirname pl] w).2 = Ok EmptyString;
  unlink_nothing w : (unlink env EmptyString w).2 = Raise OSError;
  print_parameters_quiet file : quiet (print_parameters env file);
  copytree_quiet src dst : quiet (copytree env src dst);
  parse_run_quiet dir out : quiet (parse_run env dir out);
  print_run_quiet file r : quiet (print_run env file r);
  time_quiet : quiet (time_now env) }.

Lemma quiet_bind {A B} (m : io W A) (f : A -> io W B) : quiet m -> (forall a, quiet (f a)) -> quiet (io_bind m f).
Proof.
  intros Hm Hf w. unfold io_bind. destruct (Hm w) as [H1 H2]. destruct (m w) as [w1 [a|e]]; [|done].
  destruct (Hf a w1) as [H3 H4]. split; [by etransitivity|auto].
Qed.

Lemma quiet_lift {A} (r : result A) : quiet (lift r).
Proof. by intros w. Qed.
End Laws.
Arguments print_parameters_quiet {W R running tmp_gone env pl _} file.
Arguments copytree_quiet {W R running tmp_gone env pl _} src dst.
Arguments parse_run_quiet {W R running tmp_gone env pl _} dir out.
Arguments print_run_quiet {W R running tmp_gone env pl _} file r.
Arguments time_quiet {W R running tmp_gone env pl _}.
Arguments shell_quiet {W R running tmp_gone env pl _} cmd _.
Arguments stop_datadir {W R running tmp_gone env pl _} d w.
Arguments cleanup_gone {W R running tmp_gone env pl _} w.
Arguments mktemp_gone {W R running tmp_gone env pl _} w _.
Arguments unlink_nothing {W R running tmp_gone env pl _} w.

(** ** Killing the nodes *)

(** The data directories of the nodes, those that [setup-signet.py] makes and
    [run-signet.py] is given, and those that [_kill_nodes] stops. *)
Definition node_datadirs (nodes clients : Z) : list string :=
  ((fun i => get_local_datadir i VALIDATOR nodes) <$> range nodes)
  ++ ((fun i => get_local_datadir i CLIENT clients) <$> range clients).
Definition stopped_datadirs (nodes clients : Z) : list string :=
  ((fun i => get_local_datadir i VALIDATOR nodes) <$> range nodes)
  ++ ((fun i => get_local_datadir i CLIENT nodes) <$> range clients).

(** The numbers of the nodes and of the clients are written with as many digits. *)
Definition same_width (nodes clients : Z) : bool :=
  (String.length (str_of_Z (Z.max (nodes - 1) 0)) =? String.length (str_of_Z (Z.max (clients - 1) 0)))%nat.

Lemma same_width_datadirs nodes clients :
  same_width nodes clients = true -> stopped_datadirs nodes clients = node_datadirs nodes clients.
Proof.
  unfold same_width, stopped_datadirs, node_datadirs. intros E%Nat.eqb_eq.
  unfold get_local_datadir, get_node_dirname, add_zeros_prefix. by rewrite E.
Qed.

(** Eleven nodes and two clients: the clients are [client-0] and [client-1], and the
    commands are for [client-00] and [client-01]. *)
Lemma kill_nodes_misses_clients :
  "datadirs/client-0"%string ∈ node_datadirs 11 2 /\ "datadirs/client-0"%string ∉ stopped_datadirs 11 2.
Proof.
  split; [apply (bool_decide_unpack (_ ∈ _))|apply (bool_decide_unpack (_ ∉ _))]; vm_compute; exact I.
Qed.

Definition no_space (s : string) : bool := str_all (fun c => negb (is_space c)) s.

Lemma no_space_app a b : no_space (a ++ b) = no_space a && no_space b.
Proof. apply str_all_app. Qed.

Lemma fmt0_no_space w n : 0 <= n -> no_space (fmt0 w n) = true.
Proof.
  intros Hn. unfold fmt0. rewrite (proj2 (Z.ltb_ge n 0)) by lia.
  eapply str_all_weaken; [apply is_digit_not_space|apply fixed_width_digits].
Qed.

Lemma kill_bitcoind_words core i t nb :
  no_space core = true -> 0 <= i ->
  split_words (kill_bitcoind core i t nb false)
  = [core ++ "/src/bitcoin-cli"; "-datadir=" ++ get_local_datadir i t nb; "stop"]%string.
Proof.
  intros Hc Hi. unfold kill_bitcoind.
  replace ((core ++ "/src/bitcoin-cli") ++ " -datadir=" ++ get_local_datadir i t nb ++ " stop")%string
    with ((core ++ "/src/bitcoin-cli") ++ " " ++ (("-datadir=" ++ get_local_datadir i t nb) ++ " " ++ "stop"))%string
    by (rewrite <-!str_app_assoc; reflexivity).
  assert (no_space (get_local_datadir i t nb) = true) as Hd.
  { unfold get_local_datadir, get_node_dirname. rewrite !no_space_app. unfold add_zeros_prefix.
    rewrite fmt0_no_space by done. by destruct t. }
  rewrite split_words_cons; [|by destruct core|].
  2:{ fold (no_space (core ++ "/src/bitcoin-cli")). by rewrite no_space_app, Hc. }
  rewrite split_words_cons; [|done|].
  2:{ fold (no_space ("-datadir=" ++ get_local_datadir i t nb)). by rewrite no_space_app, Hd. }
  done.
Qed.

Section Local.
Context {W R : Type} (env : Machine W R) (pl : Places) (p : instance) (force : bool).
Context (running : W -> list string) (tmp_gone : W -> Prop) `{!MachineLaws running tmp_gone env pl}.
Context (nodes clients : Z) (Hnodes : bench_int "nodes" p = Ok nodes) (Hclients : bench_int "clients" p = Ok clients).
Context (Hcore : no_space (itcoin_core_path pl) = true).

(** No node of the testbed runs. *)
Definition local_idle (w : W) : Prop := forall d, d ∈ node_datadirs nodes clients -> d ∉ running w.

Lemma local_idle_mono w w' : running w' ⊆ running w -> local_idle w -> local_idle w'.
Proof. unfold local_idle. set_solver. Qed.

Lemma stop_each t nb is_ w :
  (forall i, i ∈ is_ -> 0 <= i) ->
  exists w',
    io_each (fun i =>
      _ <~ command env (split_words (kill_bitcoind (itcoin_core_path pl) i t nb false)); io_ret tt) is_ w
    = (w', Ok tt)
    /\ forall d, d ∈ running w' <-> d ∈ running w /\ d ∉ (fun i => get_local_datadir i t nb) <$> is_.
Proof.
  revert w. induction is_ as [|i is_ IH]; intros w His.
  - exists w. split; [done|]. set_solver.
  - cbn [io_each]. destruct (stop_datadir (get_local_datadir i t nb) w) as (w1 & out & Hc & Hr).
    destruct (IH w1) as (w2 & Hw2 & Hrun); [intros; apply His; by right|].
    exists w2. split.
    + unfold io_bind. rewrite kill_bitcoind_words by (try done; apply His; by left). rewrite Hc. exact Hw2.
    + intros d. rewrite Hrun, Hr, list_elem_of_filter. rewrite fmap_cons, not_elem_of_cons. tauto.
Qed.

Lemma local_kill_nodes_idle w :
  exists w', local_kill_nodes env pl p w = (w', Ok tt)
    /\ running w' ⊆ running w
    /\ (forall d, d ∈ stopped_datadirs nodes clients -> d ∉ running w')
    /\ (same_width nodes clients = true -> local_idle w').
Proof.
  unfold local_kill_nodes, io_except. unfold io_bind at 1.
  destruct (shell_quiet kill_tmux_session eq_refl) as [Hq Hok].
  destruct (Hq w) as [Hsub _]. specialize (Hok w). destruct (shell env kill_tmux_session w) as [w1 r1].
  cbn in Hsub, Hok. subst r1. unfold io_bind at 1, lift at 1. rewrite Hnodes.
  destruct (stop_each VALIDATOR nodes (range nodes) w1) as (w2 & Hw2 & H2); [intros i ?%elem_of_range; lia|].
  unfold io_bind at 1. rewrite Hw2. unfold io_bind at 1, lift at 1. rewrite Hclients.
  destruct (stop_each CLIENT nodes (range clients) w2) as (w3 & Hw3 & H3); [intros i ?%elem_of_range; lia|].
  rewrite Hw3. exists w3. split; [done|].
  assert (forall d, d ∈ stopped_datadirs nodes clients -> d ∉ running w3) as Hst.
  { intros d. unfold stopped_datadirs. rewrite elem_of_app, H3, H2. tauto. }
  split; [|split; [exact Hst|]].
  - intros d. rewrite H3, H2. intros [[? _] _]. auto.
  - intros E d Hd. apply Hst. by rewrite same_width_datadirs.
Qed.

(** [_kill_nodes] gives no exception and stops the nodes it addresses, so that
    none of the testbed runs when the numbers of the nodes and of the clients have
    as many digits (the directories of the clients are computed from the number of
    the nodes); it starts nothing. *)
Theorem local_kill_nodes_stops w :
  exists w', local_kill_nodes env pl p w = (w', Ok tt)
    /\ running w' ⊆ running w
    /\ (forall d, d ∈ stopped_datadirs nodes clients -> d ∉ running w')
    /\ (same_width nodes clients = true -> local_idle w').
Proof. exact (local_kill_nodes_idle w). Qed.

Lemma mk_dirs_housekeeping : housekeeping (clean_logs ++ " ; " ++ clean_output ++ " ; " ++ mk_node_log_dirs nodes clients) = true.
Proof. done. Qed.

Lemma local_clean_up_quiet : quiet running tmp_gone (local_clean_up env p).
Proof.
  intros w. unfold local_clean_up, io_bind, lift. rewrite Hnodes, Hclients.
  apply shell_quiet, mk_dirs_housekeeping.
Qed.

Lemma local_preamble_quiet : quiet running tmp_gone (local_preamble env).
Proof. apply quiet_bind; [|intros []]; by apply shell_quiet. Qed.

Lemma local_process_logs_quiet dir : quiet running tmp_gone (local_process_logs env pl dir).
Proof.
  apply quiet_bind; [apply (print_parameters_quiet (pl := pl))|intros []].
  apply quiet_bind; [apply (copytree_quiet (pl := pl))|intros []; apply (parse_run_quiet (pl := pl))].
Qed.

(** No node that [_kill_nodes] stops runs: none of the testbed, for as many digits in the
    two numbers. *)
Definition local_stopped (w : W) : Prop := forall d, d ∈ stopped_datadirs nodes clients -> d ∉ running w.

Lemma local_stopped_idle w : same_width nodes clients = true -> local_stopped w -> local_idle w.
Proof. intros E Hw d Hd. apply Hw. by rewrite same_width_datadirs. Qed.

(** The contract of a bench. *)
Lemma local_bench_laws : BenchLaws (local_bench env pl p force) local_stopped.
Proof.
  assert (forall w w', running w' ⊆ running w -> local_stopped w -> local_stopped w') as Hmono.
  { unfold local_stopped. set_solver. }
  split; cbn.
  - intros w w' Hk. destruct (local_kill_nodes_idle w) as (w1 & H & _ & Hst & _). by rewrite H in Hk; injection Hk as <-.
  - intros w. apply Hmono. destruct (cleanup_gone w) as (w' & H & Hr & _). by rewrite H, <-Hr.
  - intros dir w. apply Hmono. apply local_process_logs_quiet.
  - intros file r w. apply Hmono. apply (print_run_quiet (pl := pl)).
  - intros w. apply Hmono. apply local_clean_up_quiet.
  - intros w. apply Hmono. apply local_preamble_quiet.
Qed.

(** ** A second run *)

Lemma background_run_gone name cmd w : tmp_gone w -> (background_run env pl name cmd true w).2 <> Ok tt.
Proof.
  intros Hw. unfold background_run. unfold io_bind at 1.
  pose proof (mktemp_gone w Hw) as Hm. destruct (command env _ w) as [w1 r1]. cbn in Hm. subst r1.
  unfold io_bind at 1. destruct (command env _ w1) as [w2 [?|e]]; [|done].
  unfold io_bind at 1. destruct (command env _ w2) as [w3 [?|e]]; [|done].
  change (strip "") with EmptyString. by rewrite unlink_nothing.
Qed.

Lemma local_setup_gone w : tmp_gone w -> (local_setup env pl p w).2 <> Ok tt.
Proof.
  intros Hw. unfold local_setup. unfold io_bind at 1. pose proof (time_quiet (pl := pl) w) as [_ Ht].
  specialize (Ht Hw). destruct (time_now env w) as [w1 [now|e]]; [|done]. cbn in Ht.
  unfold lift.
  unfold io_bind at 1. destruct (compute_genesis_block_timestamp now p); [|done].
  unfold io_bind at 1. destruct (text p "target_block_time"); [|done].
  unfold io_bind at 1. destruct (text p "clients"); [|done].
  unfold io_bind at 1. destruct (text p "nodes"); [|done].
  by apply background_run_gone.
Qed.

Abbreviation bench := (local_bench env pl p force).

(** A run that succeeds removed the temporary directory. *)
Lemma run_once_gone i runs w w' r : run_once bench p i runs w = (w', Ok r) -> tmp_gone w'.
Proof.
  unfold run_once, io_except. destruct (run_body bench p i runs w) as [w1 [x|e]] eqn:E.
  - intros [= <- <-]. unfold run_body in E. do 10 (apply io_bind_Ok in E as (? & ? & _ & E)).
    apply io_bind_Ok in E as (w2 & [] & Hc & E). cbn in Hc.
    match type of Hc with _ ?w0 = _ => destruct (cleanup_gone w0) as (w3 & Hc' & _ & Hg) end.
    rewrite Hc in Hc'. injection Hc' as <-.
    apply io_bind_Ok in E as (w3 & res & Hp & E).
    pose proof (local_process_logs_quiet (add_zeros_prefix i runs) w2) as [_ Hq]. cbn in Hp. rewrite Hp in Hq.
    apply io_bind_Ok in E as (w4 & [] & Hpr & E). injection E as <- _.
    match type of Hpr with print_result _ ?f ?y _ = ?o =>
      change (print_run env (output_directory pl ++ "/" ++ f)%string y w3 = o) in Hpr;
      pose proof (print_run_quiet (env := env) (pl := pl) (output_directory pl ++ "/" ++ f)%string y w3) as [_ Hq2]
    end.
    rewrite Hpr in Hq2. auto.
  - unfold run_handler. destruct e; try done; intros H; do 2 (apply io_bind_Ok in H as (? & ? & _ & H)); discriminate H.
Qed.

Lemma run_once_fails_gone i runs w : tmp_gone w -> is_ok (run_once bench p i runs w).2 = false.
Proof.
  intros Hw. destruct (run_once bench p i runs w) as [w' [x|e]] eqn:E; [|done]. exfalso.
  unfold run_once, io_except in E. destruct (run_body bench p i runs w) as [w1 [y|e]] eqn:Eb.
  - unfold run_body in Eb. apply io_bind_Ok in Eb as (w2 & [] & Hc & Eb). apply io_bind_Ok in Eb as (w3 & [] & Hs & _).
    change (local_clean_up env p w = (w2, Ok tt)) in Hc. change (local_setup env pl p w2 = (w3, Ok tt)) in Hs.
    pose proof (local_clean_up_quiet w) as [_ Hq]. rewrite Hc in Hq.
    apply (local_setup_gone w2); [by apply Hq|]. by rewrite Hs.
  - unfold run_handler in E. destruct e; try done; do 2 (apply io_bind_Ok in E as (? & ? & _ & E)); discriminate E.
Qed.

(** A local benchmark of two runs or more never returns: the temporary directory
    of the bench is removed at the end of the first run and never made again, so
    [mktemp] prints nothing in the second one. *)
Theorem local_bench_second_run runs w :
  bench_int "runs" p = Ok runs -> 2 <= runs -> is_ok (run (local_bench env pl p force) p w).2 = false.
Proof.
  intros Hruns H2. destruct (run bench p w) as [w' [results|e]] eqn:E; [|done]. exfalso.
  unfold run in E. apply io_bind_Ok in E as (w1 & n & Hs & E).
  assert (n = runs) as ->.
  { unfold start_up in Hs. do 7 (apply io_bind_Ok in Hs as (? & ? & _ & Hs)). unfold lift in Hs. congruence. }
  unfold range in E. rewrite seqZ_cons in E by lia. rewrite seqZ_cons in E by lia. cbn [run_loop] in E.
  apply io_bind_Ok in E as (w2 & r1 & H1 & E). apply run_once_gone in H1.
  apply io_bind_Ok in E as (w3 & r3 & H3 & _).
  pose proof (run_once_fails_gone (Z.succ 0) runs w2 H1) as Hf. by rewrite H3 in Hf.
Qed.
End Local.

(** ** A machine

    The whole testbed comes up with the first window; the temporary directory exists
    until it is removed. *)
Record ToyState : Type := MkToy { toy_running : list string; toy_tmp : bool; toy_slept : Z }.

Definition toy_stop (datadir_option : string) (w : ToyState) : ToyState :=
  MkToy (filter (fun e => ("-datadir=" ++ e)%string <> datadir_option) (toy_running w)) (toy_tmp w) (toy_slept w).
Definition toy_command (argv : list string) : io ToyState string := fun w =>
  match argv with
  | "mktemp" :: _ => (w, Ok (if toy_tmp w then "./tmp/tmp.1" ++ NL else "")%string)
  | "tmux" :: "new-window" :: _ => (MkToy (node_datadirs 4 2) (toy_tmp w) (toy_slept w), Ok EmptyString)
  | [_; d; "stop"] => (toy_stop d w, Ok EmptyString)
  | _ => (w, Ok EmptyString)
  end%string.

Definition toy : Machine ToyState Z := {|
  command := toy_command;
  shell := fun _ => io_ret tt;
  unlink := fun path => lift (if String.eqb path EmptyString then Raise OSError else Ok tt);
  exists_path := fun _ => io_ret false;
  rmtree := fun _ => io_ret tt;
  confirm_removal := fun _ => io_ret true;
  make_directory := fun _ => io_ret tt;
  time_now := io_ret (of_int 1684829350);
  sleep_for := fun n w => (MkToy (toy_running w) (toy_tmp w) (toy_slept w + n), Ok tt);
  cleanup_tmpdir := fun w => (MkToy (toy_running w) false (toy_slept w), Ok tt);
  getnewaddress := fun _ datadir => io_ret datadir;
  print_parameters := fun _ => io_ret tt;
  copytree := fun _ _ => io_ret tt;
  parse_run := fun _ _ w => (w, Ok (toy_slept w));
  print_run := fun _ _ => io_ret tt |}.

Definition toy_places : Places :=
  MkPlaces "/usr/bin/python3" "/itcoin-core" "/itcoin-fbft" "/itcoin-core" "/out" "./tmp" (fun s => "/" ++ s)%string.
Definition toy_start : ToyState := MkToy [] true 0.

Lemma toy_laws : MachineLaws toy_running (fun w => toy_tmp w = false) toy toy_places.
Proof.
  assert (forall A (a : A), quiet toy_running (fun w => toy_tmp w = false) (io_ret a)) as Hret by (by intros A a w).
  split; try (intros; apply Hret).
  - intros cmd _. split; [apply Hret|done].
  - intros d w. exists (toy_stop ("-datadir=" ++ d) w), EmptyString. split; [done|].
    cbn. apply list_filter_iff. intros e. split; intros H E; apply H; [by rewrite E|by injection E].
  - intros w. eexists. split; [reflexivity|done].
  - intros w Hw. cbn. by rewrite Hw.
  - done.
  - by intros dir out w.
Qed.

Abbreviation toy_bench := (local_bench toy toy_places example_instance true).

Example toy_run : (run toy_bench example_instance toy_start).2 = Ok [600].
Proof. vm_compute. reflexivity. Qed.

Example local_kill_nodes_stops_witness :
  let w := MkToy (node_datadirs 4 2) true 0 in
  exists w', local_kill_nodes toy toy_places example_instance w = (w', Ok tt)
    /\ toy_running w' ⊆ toy_running w
    /\ (forall d, d ∈ stopped_datadirs 4 2 -> d ∉ toy_running w')
    /\ (same_width 4 2 = true -> local_idle toy_running 4 2 w').
Proof.
  apply (local_kill_nodes_stops toy toy_places example_instance toy_running (fun w => toy_tmp w = false) (MachineLaws0 := toy_laws));
    vm_compute; reflexivity.
Defined.

Example bench_run_outcome_witness :
  let o := run toy_bench example_instance toy_start in
  (exists e, o.2 = Raise e /\ start_up toy_bench example_instance toy_start = (o.1, Raise e))
  \/ exists runs, bench_int "runs" example_instance = Ok runs
       /\ match o.2 with
          | Ok results => Z.of_nat (length results) = Z.max 0 runs /\ local_stopped toy_running 4 2 o.1
          | Raise e => exists i w1, 0 <= i < runs /\ local_stopped toy_running 4 2 w1
                       /\ run_failure toy_bench (local_stopped toy_running 4 2) (run_body toy_bench example_instance i runs w1) o.1 e
          end.
Proof.
  intros o. apply (bench_run_outcome toy_bench example_instance (local_stopped toy_running 4 2)
    (BenchLaws0 := local_bench_laws toy toy_places example_instance true toy_running _ (MachineLaws0 := toy_laws) 4 2
                     eq_refl eq_refl eq_refl) toy_start o.1 o.2).
  apply surjective_pairing.
Defined.

Example wait_for_duration_naps_witness :
  wait_for_duration toy_bench example_instance toy_start = io_each (sleep toy_bench) (naps 600) toy_start
  /\ Forall (fun s => 1 <= s <= 10) (naps 600)
  /\ foldr Z.add 0 (naps 600) = 600.
Proof. apply (wait_for_duration_naps toy_bench example_instance 600); [vm_compute; reflexivity|lia]. Defined.

Definition two_runs :=
  match bench_from_dict (("runs"%string, VInt 2) :: example_parameters) with Ok p => p | Raise _ => [] end.

Example local_bench_second_run_witness :
  is_ok (run (local_bench toy toy_places two_runs true) two_runs toy_start).2 = false.
Proof.
  apply (local_bench_second_run toy toy_places two_runs true toy_running (fun w => toy_tmp w = false)
           (MachineLaws0 := toy_laws) 4 2 eq_refl eq_refl 2 toy_start); [vm_compute; reflexivity|lia].
Defined.
