(* ===== verification/LocalLogs.v ===== *)
(** * The logs of a run on one machine (benchmark_framework/local.py, _process_logs)

    The machine of [LocalBench] on a file system, for what the code does with files; the
    commands it runs are those of any machine.  [_process_logs] prints the parameters among
    the logs, copies the logs to the directory of the run and processes that directory. *)

From S2P Require Import Prelude PyIo PyStr PyInt PyFloat PyDict PySort FileSystem LogEvents NodeLog NodeLogs Naming Fields PyJson PyRepr Config ParameterFiles TimeIntervals RunResult ResultText ClientLog LogFiles Bench LocalBench.

Section FileMachine.
Context (parse_constant : string -> float) (scandir : gset string -> list string) (iteration : gset Z -> list Z).
Context (percentile : list float -> Z -> result float) (day month year : Z).
(** The working directory, and the machine that runs the commands. *)
Context (cwd : path) (commands : Machine fs RunResult) (p : instance).

(** [BenchParameters.print]: the file is opened first. *)
Definition print_file (filename : path) : io fs unit :=
  _ <~ FileSystem.write_text filename EmptyString;
  text <~ lift (bench_print p);
  FileSystem.write_text filename text.

Definition file_machine : Machine fs RunResult := {|
  command := command commands;
  shell := shell commands;
  LocalBench.unlink := fun f => FileSystem.unlink false (path_of cwd f);
  exists_path := fun f => inspect (fun s => Ok (FileSystem.path_exists s (path_of cwd f)));
  LocalBench.rmtree := fun d => FileSystem.rmtree (path_of cwd d);
  confirm_removal := confirm_removal commands;
  make_directory := fun d => mkdir (path_of cwd d);
  time_now := time_now commands;
  sleep_for := sleep_for commands;
  cleanup_tmpdir := cleanup_tmpdir commands;
  getnewaddress := getnewaddress commands;
  print_parameters := fun f => print_file (path_of cwd f);
  LocalBench.copytree := fun src dst => FileSystem.copytree (path_of cwd src) (path_of cwd dst);
  parse_run := fun run out => process_result scandir parse_constant iteration day month year (path_of cwd run) (path_of cwd out);
  print_run := fun f r => run_print percentile r (path_of cwd f) |}.
End FileMachine.

(** ** Writing a file, and copying the logs *)

Lemma write_text_fresh s file text :
  is_dir s file = false -> is_dir s (parent file) = true ->
  FileSystem.write_text file text s = (<[file := File text]> s, Ok tt).
Proof. intros Hf Hp. unfold FileSystem.write_text, write_file. by rewrite Hf, Hp. Qed.

Lemma print_file_eq p file text s :
  bench_print p = Ok text -> is_dir s file = false -> is_dir s (parent file) = true ->
  print_file p file s = (<[file := File text]> s, Ok tt).
Proof.
  intros Hp Hf Hd. assert (file <> []) as Hne by (by intros ->).
  assert (parent file <> file) as Hpar.
  { destruct (path_cases file) as [->|(q & n & ->)]; [done|]. rewrite parent_snoc. intros E.
    apply (f_equal length) in E. rewrite length_app in E. cbn in E. lia. }
  unfold print_file. unfold io_bind at 1. rewrite write_text_fresh by done. unfold io_bind, lift. rewrite Hp.
  rewrite write_text_fresh; [by rewrite insert_insert_eq|..]; rewrite is_dir_insert.
  - by rewrite decide_True.
  - by rewrite decide_False by (by intros [? _]).
Qed.

(** The same names under two directories, but that of the parameters. *)
Definition same_under (s : fs) (src : path) (s' : fs) (dst : path) : Prop :=
  forall q, q <> [] -> q <> [DEFAULT_BENCH_PARAMETERS_FILENAME] -> s' !! (dst ++ q) = s !! (src ++ q).

Lemma node_texts_same s src s' dst t name texts :
  src <> [] -> dst <> [] -> same_under s src s' dst -> node_texts s src t name texts -> node_texts s' dst t name texts.
Proof.
  intros Hsrc Hdst Hsame [Hl Hc].
  assert (forall q, q <> [] -> q <> [DEFAULT_BENCH_PARAMETERS_FILENAME] -> lookup_path s' (dst ++ q) = lookup_path s (src ++ q)) as Hlook.
  { intros q Hq1 Hq2. rewrite !lookup_path_not_nil by (by intros [? _]%app_eq_nil). by apply Hsame. }
  split.
  - intros n. rewrite <-(Hl n). destruct (startswith (get_dirname t) n) eqn:En; [|done]. cbn [andb].
    unfold is_dir, path_exists. rewrite !Hlook; [done|done|done|done|].
    intros [= ->]. by destruct t.
  - rewrite <-Hc. unfold node_files. rewrite <-!list_fmap_compose. apply list_fmap_ext. intros _ i _. cbn.
    unfold content. by rewrite Hlook.
Qed.

(** ** Processing the logs of a run *)

Lemma run_name_digits i runs : 0 <= i < runs -> str_all is_digit (add_zeros_prefix i runs) = true /\ add_zeros_prefix i runs <> EmptyString.
Proof.
  intros Hi. rewrite add_zeros_prefix_width by done. split; [apply fixed_width_digits|]. intros E%(f_equal String.length).
  rewrite fixed_width_length in E. pose proof (ndigits_pos (runs - 1)). cbn in E. lia.
Qed.

Lemma run_name_good i runs : 0 <= i < runs -> good_name (add_zeros_prefix i runs) = true /\ has_magic [add_zeros_prefix i runs] = false.
Proof.
  intros [Hd Hne]%run_name_digits. unfold good_name, has_magic. cbn [existsb].
  rewrite !(str_all_no_char is_digit _ _) by done. rewrite !bool_decide_false; [done| |done].
  intros E. by rewrite E in Hd.
Qed.

Section Copied.
Context (s : fs) (logs out : path) (name text : string) (csv : path).
Context (Hs : fs_ok s) (Hlogs : logs <> [] /\ is_dir s logs = true) (Hout : out <> [] /\ is_dir s out = true).
Context (Hin : inside logs (out ++ [name]) = false) (Hfree : path_exists s (out ++ [name]) = false).
Context (Hparams : is_dir s (logs ++ [DEFAULT_BENCH_PARAMETERS_FILENAME]) = false).

(** The file system once the parameters are printed. *)
Definition printed_fs : fs := <[logs ++ [DEFAULT_BENCH_PARAMETERS_FILENAME] := File text]> s.

Lemma printed_ok : fs_ok printed_fs.
Proof.
  destruct Hlogs as [Hl Hd]. apply fs_ok_insert; [done|by destruct logs|by rewrite parent_snoc|congruence].
Qed.

Lemma printed_dir q : is_dir s q = true -> is_dir printed_fs q = true.
Proof.
  intros Hq. unfold printed_fs. rewrite is_dir_insert. case_decide as E; [|done]. destruct E as [-> _]. congruence.
Qed.

Lemma logs_copied :
  exists s', FileSystem.copytree logs (out ++ [name]) printed_fs = (s', Ok tt)
    /\ same_under s logs s' (out ++ [name])
    /\ content s' ((out ++ [name]) ++ [DEFAULT_BENCH_PARAMETERS_FILENAME]) = Some text
    /\ forall p, inside (out ++ [name]) p = false -> inside p (out ++ [name]) = false -> inside logs p = false -> s' !! p = s !! p.
Proof.
  destruct Hlogs as [Hl Hld], Hout as [Ho Hod].
  assert (forall p, inside logs p = false -> printed_fs !! p = s !! p) as Hother.
  { intros p Hp. unfold printed_fs. rewrite lookup_insert_ne; [done|]. intros <-. by rewrite inside_app in Hp. }
  assert (path_exists printed_fs (out ++ [name]) = false) as Hfree'.
  { unfold path_exists in *. rewrite lookup_path_not_nil in * by (by destruct out). by rewrite Hother. }
  destruct (copytree_fresh printed_fs logs out name printed_ok Hl (printed_dir _ Hld) (printed_dir _ Hod) Hfree' Hin) as [s' Hc].
  exists s'. split; [exact Hc|]. apply copytree_Ok in Hc as (Hcopy & _ & Hout' & Hnone).
  assert (forall q, q <> [] -> s' !! ((out ++ [name]) ++ q) = printed_fs !! (logs ++ q)) as Hq.
  { intros q Hq. destruct (printed_fs !! (logs ++ q)) as [e|] eqn:E; [by apply Hcopy|].
    rewrite Hnone by done. apply nothing_under; [apply printed_ok|by destruct out|done]. }
  split; [|split].
  - intros q Hq1 Hq2. rewrite Hq by done. unfold printed_fs. apply lookup_insert_ne. intros E%app_inv_head. congruence.
  - unfold content. rewrite lookup_path_not_nil by (by destruct out). rewrite Hq by done. unfold printed_fs.
    by rewrite lookup_insert_eq.
  - intros p H1 H2 H3. rewrite Hout' by done. by apply Hother.
Qed.
End Copied.

(** An output directory away from the logs. *)
Record output_dir (s : fs) (logs out : path) : Prop := {
  out_name : out <> [] /\ forallb good_name out = true /\ has_magic out = false;
  out_dir : is_dir s out = true;
  out_away : inside logs out = false }.

Section Local.
Context (parse_constant : string -> float) (scandir : gset string -> list string) (iteration : gset Z -> list Z).
Context (Hscandir : forall names, scandir names ≡ₚ elements names).
Context (percentile : list float -> Z -> result float) (day month year : Z).
Context (cwd : path) (commands : Machine fs RunResult) (p : instance) (pl : Places).

Definition local_machine : Machine fs RunResult :=
  file_machine parse_constant scandir iteration percentile day month year cwd commands p.
Definition local_logs : path := cwd ++ [logs_path].

Lemma params_path : path_of cwd (logs_path ++ "/bench_parameters.json") = local_logs ++ [DEFAULT_BENCH_PARAMETERS_FILENAME].
Proof. unfold local_logs. by rewrite <-app_assoc. Qed.

Lemma run_path_text out name :
  out <> [] -> forallb good_name out = true -> good_name name = true ->
  path_of cwd (String "/" (path_text out) ++ "/" ++ name) = out ++ [name].
Proof.
  intros Ho Hg Hn. rewrite <-(path_of_absolute cwd (out ++ [name])) by (rewrite forallb_app, Hg; cbn; by rewrite Hn).
  by rewrite path_text_app.
Qed.

Lemma local_process_logs_eq s s2 out name text :
  output_directory pl = String "/" (path_text out) -> out <> [] -> forallb good_name out = true -> good_name name = true ->
  is_dir s local_logs = true -> is_dir s (local_logs ++ [DEFAULT_BENCH_PARAMETERS_FILENAME]) = false ->
  bench_print p = Ok text -> FileSystem.copytree local_logs (out ++ [name]) (printed_fs s local_logs text) = (s2, Ok tt) ->
  local_process_logs local_machine pl name s
  = process_result scandir parse_constant iteration day month year (out ++ [name]) out s2.
Proof.
  intros Hpl Ho Hg Hn Hl Hf Hp Hc. unfold local_process_logs. rewrite Hpl.
  cbn [print_parameters local_machine file_machine LocalBench.copytree parse_run].
  rewrite params_path, run_path_text, path_of_absolute by done.
  unfold io_bind at 1. rewrite (print_file_eq _ _ text) by (done || by rewrite parent_snoc).
  unfold io_bind at 1. change (path_of cwd logs_path) with local_logs. fold (printed_fs s local_logs text). by rewrite Hc.
Qed.

(** The names in the output directory. *)
Lemma out_not_inside s out name : output_dir s local_logs out -> name <> logs_path -> inside local_logs (out ++ [name]) = false.
Proof.
  intros [_ _ Ha] Hn. apply not_true_iff_false. intros [r Hr]%inside_true. destruct (path_cases r) as [->|(r' & m & ->)].
  - rewrite app_nil_r in Hr. apply app_inj_tail in Hr as [_ ->]. done.
  - rewrite app_assoc in Hr. apply app_inj_tail in Hr as [Hr _]. rewrite Hr, inside_app in Ha. done.
Qed.

Lemma siblings_apart (out : path) n m : n <> m -> inside (out ++ [n]) (out ++ [m]) = false.
Proof.
  intros Hn. apply not_true_iff_false. intros [r Hr]%inside_true. rewrite <-app_assoc in Hr. apply app_inv_head in Hr.
  by injection Hr as ->.
Qed.

Lemma csv_result_name : csv_result_file day month year <> logs_path.
Proof. intros E%(f_equal String.length). unfold csv_result_file in E. rewrite !str_length_app in E. cbn in E. lia. Qed.

(** C6: Whatever the machine does with the commands, [_process_logs] on a file system that
    has the logs of the run leaves in the directory of the run a copy of the logs and the
    parameters of the benchmark; when it returns, the row of the run was recorded, with the
    parameters of the benchmark itself, read back from the file, and the latencies of the
    messages in the logs. *)
Theorem local_run_recorded s out i runs obj text client_texts lines clogs :
  fs_ok s -> output_dir s local_logs out -> output_directory pl = String "/" (path_text out) ->
  0 <= i < runs -> path_exists s (out ++ [add_zeros_prefix i runs]) = false ->
  is_dir s local_logs = true -> is_dir s (local_logs ++ [DEFAULT_BENCH_PARAMETERS_FILENAME]) = false ->
  forallb scalar_ok obj.*2 = true -> bench_from_dict obj = Ok p -> bench_print p = Ok text ->
  logs_dir s local_logs p client_texts lines ->
  parse_all parse_clients (universal_newlines <$> client_texts) = Ok clogs ->
  let run_directory := add_zeros_prefix i runs in
  let '(s', outcome) := local_process_logs local_machine pl run_directory s in
  content s' ((out ++ [run_directory]) ++ [DEFAULT_BENCH_PARAMETERS_FILENAME]) = Some text
  /\ (forall q, q <> [] -> q <> [DEFAULT_BENCH_PARAMETERS_FILENAME] ->
        content s' ((out ++ [run_directory]) ++ q) = content s (local_logs ++ q))
  /\ forall r, outcome = Ok r -> recorded day month year s s' out p lines r.
Proof.
  intros Hs Ho Hpl Hi Hfree Hl Hf Hobj Hp Hprint Hlogs Hc run_directory.
  pose proof Ho as [(Hone & Hgood & Hmagic) Hod _].
  destruct (run_name_digits i runs Hi) as [Hdig Hne], (run_name_good i runs Hi) as [Hgn Hmn].
  fold run_directory in Hfree, Hdig, Hne, Hgn, Hmn |- *.
  assert (run_directory <> logs_path) as Hrl by (intros E; by rewrite E in Hdig).
  assert (run_directory <> csv_result_file day month year) as Hrc by (intros E; by rewrite E in Hdig).
  assert (run_directory <> csv_by_height_result_file day month year) as Hrh by (intros E; by rewrite E in Hdig).
  assert (local_logs <> []) as Hlne by (unfold local_logs; by destruct cwd).
  destruct (logs_copied s local_logs out run_directory text Hs (conj Hlne Hl) (conj Hone Hod)
              (out_not_inside s out run_directory Ho Hrl) Hfree Hf) as (s2 & Hcopy & Hsame & Hpar & Hother).
  rewrite (local_process_logs_eq s s2 out run_directory text) by done.
  assert (run_dir parse_constant s2 (out ++ [run_directory]) p client_texts lines) as Hrun.
  { destruct Hlogs as [Hlc Hln Hnum Hlines]. split; [split; [by destruct out|]| |split; [..|done|done]].
    - unfold has_magic in *. rewrite existsb_app, Hmagic. exact Hmn.
    - rewrite Hpar. by apply (bench_read_back parse_constant obj).
    - eapply node_texts_same; [exact Hlne|by destruct out|exact Hsame|done].
    - eapply node_texts_same; [exact Hlne|by destruct out|exact Hsame|done]. }
  pose proof (process_records scandir Hscandir parse_constant iteration day month year s2 _ out p client_texts lines clogs Hrun Hc) as Hr.
  destruct (process_result _ _ _ _ _ _ _ out s2) as [s' outcome]. destruct Hr as [Hframe Hrec].
  assert (forall q, content s' ((out ++ [run_directory]) ++ q) = content s2 ((out ++ [run_directory]) ++ q)) as Hkeep.
  { intros q. unfold csv_path, csv_by_height_path in Hframe. apply Hframe; rewrite <-app_assoc.
    - intros E%app_inv_head. by injection E as E _.
    - intros E%app_inv_head. by injection E as E _. }
  split; [by rewrite Hkeep|]. split.
  - intros q Hq1 Hq2. rewrite Hkeep. unfold content. rewrite !lookup_path_not_nil by (intros [? _]%app_eq_nil; by destruct out). by rewrite Hsame.
  - intros r Hok. specialize (Hrec r Hok). unfold recorded in *.
    assert (s2 !! csv_path day month year out = s !! csv_path day month year out) as Hcsv.
    { apply Hother; [by apply siblings_apart|by apply siblings_apart|]. apply (out_not_inside s); [done|apply csv_result_name]. }
    assert (lookup_path s2 (csv_path day month year out) = lookup_path s (csv_path day month year out)) as Hlook.
    { rewrite !lookup_path_not_nil by (unfold csv_path; by destruct out). exact Hcsv. }
    unfold is_file, content in *. by rewrite Hlook in Hrec.
Qed.
End Local.

(** ** Witness: a working directory with the logs of a run, and an output directory *)

Definition still_machine : Machine fs RunResult := {|
  command := fun _ => io_ret EmptyString;
  shell := fun _ => io_ret tt;
  LocalBench.unlink := fun _ => io_ret tt;
  exists_path := fun _ => io_ret false;
  LocalBench.rmtree := fun _ => io_ret tt;
  confirm_removal := fun _ => io_ret true;
  make_directory := fun _ => io_ret tt;
  time_now := io_ret 0;
  sleep_for := fun _ => io_ret tt;
  cleanup_tmpdir := io_ret tt;
  getnewaddress := fun _ _ => io_ret EmptyString;
  print_parameters := fun _ => io_ret tt;
  LocalBench.copytree := fun _ _ => io_ret tt;
  parse_run := fun _ _ => io_ret example_run;
  print_run := fun _ _ => io_ret tt |}.

Definition work_path : path := ["work"%string].
Definition work_out : path := ["work"; "output"]%string.
Definition work_log (names : path) : path := local_logs work_path ++ names.
Definition work_fs : fs := list_to_map
  [(work_path, Directory); (work_out, Directory); (local_logs work_path, Directory);
   (work_log ["client-0"], Directory); (work_log ["client-0"; "client_logs.txt"], File client_text);
   (work_log ["node-0"], Directory); (work_log ["node-0"; "miner_logs.txt"], File (lines_log run_lines))]%string.
Definition work_places : Places :=
  MkPlaces "python3" "/itcoin-core" "/itcoin-fbft" "/itcoin-core" "/work/output" "/work/tmp" (fun x => x).
Definition work_machine : Machine fs RunResult :=
  local_machine (fun _ => 0) elements elements (fun _ _ => Ok 0) 1 2 2023 work_path still_machine run_parameters.
Definition run_text : string := match bench_print run_parameters with Ok t => t | Raise _ => EmptyString end.

Lemma work_logs : logs_dir work_fs (local_logs work_path) run_parameters [client_text] [run_lines].
Proof.
  destruct run_fs_logs as [_ _ Hn Hl]. split; [..|exact Hn|exact Hl].
  - split; [apply laid_out_checked; [discriminate|vm_compute; reflexivity]|vm_compute; reflexivity].
  - split; [apply laid_out_checked; [discriminate|vm_compute; reflexivity]|vm_compute; reflexivity].
Qed.

Lemma work_output : output_dir work_fs (local_logs work_path) work_out.
Proof. split; [split; [discriminate|split; vm_compute; reflexivity]|vm_compute; reflexivity..]. Qed.

Example local_run_works : is_ok (local_process_logs work_machine work_places (add_zeros_prefix 0 1) work_fs).2 = true.
Proof. vm_compute. reflexivity. Qed.

Example local_run_recorded_witness :
  let run_directory := add_zeros_prefix 0 1 in
  let '(s', outcome) := local_process_logs work_machine work_places run_directory work_fs in
  content s' ((work_out ++ [run_directory]) ++ [DEFAULT_BENCH_PARAMETERS_FILENAME]) = Some run_text
  /\ (forall q, q <> [] -> q <> [DEFAULT_BENCH_PARAMETERS_FILENAME] ->
        content s' ((work_out ++ [run_directory]) ++ q) = content work_fs (local_logs work_path ++ q))
  /\ forall r, outcome = Ok r -> recorded 1 2 2023 work_fs s' work_out run_parameters [run_lines] r.
Proof.
  assert (fs_ok work_fs) as H1 by (apply fs_ok_checked; vm_compute; reflexivity).
  assert (output_directory work_places = String "/" (path_text work_out)) as H2 by reflexivity.
  assert (FileSystem.path_exists work_fs (work_out ++ [add_zeros_prefix 0 1]) = false) as H3 by (vm_compute; reflexivity).
  assert (is_dir work_fs (local_logs work_path) = true) as H4 by (vm_compute; reflexivity).
  assert (is_dir work_fs (local_logs work_path ++ [DEFAULT_BENCH_PARAMETERS_FILENAME]) = false) as H5 by (vm_compute; reflexivity).
  assert (forallb scalar_ok run_object.*2 = true) as H6 by (vm_compute; reflexivity).
  assert (bench_from_dict run_object = Ok run_parameters) as H7 by (vm_compute; reflexivity).
  assert (bench_print run_parameters = Ok run_text) as H8 by (vm_compute; reflexivity).
  assert (parse_all parse_clients (universal_newlines <$> [client_text]) = Ok [parsed_client client_text]) as H9
    by (vm_compute; reflexivity).
  pose proof (local_run_recorded (fun _ => 0) elements elements (fun _ => reflexivity _) (fun _ _ => Ok 0) 1 2 2023 work_path
    still_machine run_parameters work_places work_fs work_out 0 1 run_object run_text [client_text] [run_lines]
    [parsed_client client_text] H1 work_output H2 ltac:(lia) H3 H4 H5 H6 H7 H8 work_logs H9) as H.
  exact H.
Defined.
