(* ===== verification/Settings.v ===== *)
(** * The settings of the testbed (benchmark_framework/settings.py)

    [Settings.__init__] and [Settings.load], from the text of the file, or its
    absence. *)

From S2P Require Import Prelude PyStr PyFloat PyDict Fields PyJson.

Record Settings : Type := MkSettings {
  testbed : pyval;
  key_name : pyval;
  key_path : pyval;
  consensus_port : pyval;
  bitcoind_port : pyval;
  repo_name : pyval;
  repo_url : pyval;
  branch : pyval;
  cmake_options : pyval;
  instance_type : pyval;
  aws_regions : list pyval }.

Definition is_str (v : pyval) : bool := match v with VStr _ => true | _ => false end.
Definition is_int (v : pyval) : bool := isinstance v TInt.

(** [Settings.__init__].  When [aws_regions] is no list the local [regions] is never
    assigned. *)
Definition make_settings (testbed key_name key_path consensus_port bitcoind_port repo_name repo_url branch
    cmake_options instance_type aws_regions : pyval) : result Settings :=
  let regions := match aws_regions with VList l => Some l | _ => None end in
  let inputs_str := [testbed; key_name; key_path; repo_name; repo_url; branch; instance_type] in
  regions ← or_raise UnboundLocalError regions;
  let inputs_str := inputs_str ++ regions in
  let inputs_int := [consensus_port; bitcoind_port] in
  let ok := forallb is_str inputs_str in
  let ok := ok && forallb is_int inputs_int in
  let ok := ok && (0 <? Z.of_nat (length regions)) in
  _ ← ensure ok SettingsError;
  Ok (MkSettings testbed key_name key_path consensus_port bitcoind_port repo_name repo_url branch cmake_options
        instance_type regions).

(** [v[key]] for a string key. *)
Definition getitem (v : pyval) (key : string) : result pyval :=
  match v with
  | VDict d => or_raise KeyError (dget key d)
  | _ => Raise TypeError
  end.

(** The constructor call of [load]. *)
Definition settings_of (data : pyval) : result Settings :=
  testbed ← getitem data "testbed";
  key ← getitem data "key"; name ← getitem key "name";
  key ← getitem data "key"; path ← getitem key "path";
  ports ← getitem data "ports"; consensus ← getitem ports "consensus";
  ports ← getitem data "ports"; bitcoind ← getitem ports "bitcoind";
  repo ← getitem data "repo"; repo_name ← getitem repo "name";
  repo ← getitem data "repo"; url ← getitem repo "url";
  repo ← getitem data "repo"; branch ← getitem repo "branch";
  repo ← getitem data "repo"; cmake_options ← getitem repo "cmake_options";
  instances ← getitem data "instances"; type ← getitem instances "type";
  instances ← getitem data "instances"; regions ← getitem instances "regions";
  make_settings testbed name path consensus bitcoind repo_name url branch cmake_options type regions.

(** [Settings.load], [file] being the outcome of [open] and [json.load]. *)
Definition load (file : result pyval) : result Settings :=
  py_except (data ← file; settings_of data)
    (fun e => Raise (match e with OSError | JSONDecodeError | KeyError => SettingsError | _ => e end)).

(** [open] and [json.load], then [load]. *)
Section File.
Context (parse_constant : string -> float).

Definition read_settings (file : option string) : result pyval :=
  content ← or_raise OSError file;
  loads parse_constant (universal_newlines content).
Definition load_file (file : option string) : result Settings := load (read_settings file).
End File.

(** ** The documents that are accepted *)

(** [data[k1][k2]...] *)
Definition path_of (keys : list string) (data : pyval) : result pyval := foldM getitem data keys.

Definition str_paths : list (list string) :=
  [["testbed"]; ["key"; "name"]; ["key"; "path"]; ["repo"; "name"]; ["repo"; "url"]; ["repo"; "branch"];
   ["instances"; "type"]]%string.
Definition int_paths : list (list string) := [["ports"; "consensus"]; ["ports"; "bitcoind"]]%string.
Definition all_paths : list (list string) :=
  [["testbed"]; ["key"; "name"]; ["key"; "path"]; ["ports"; "consensus"]; ["ports"; "bitcoind"]; ["repo"; "name"];
   ["repo"; "url"]; ["repo"; "branch"]; ["repo"; "cmake_options"]; ["instances"; "type"]; ["instances"; "regions"]]%string.

Definition at_path (test : pyval -> bool) (data : pyval) (keys : list string) : bool :=
  match path_of keys data with Ok v => test v | Raise _ => false end.

(** A well-formed document: every value is there, of its type, and the regions are a
    list of at least one string.  The options of cmake can be of any type. *)
Definition well_formed (data : pyval) : bool :=
  forallb (at_path is_str data) str_paths && forallb (at_path is_int data) int_paths
  && at_path (fun _ => true) data ["repo"; "cmake_options"]%string
  && at_path (fun v => match v with VList (r :: rs) => forallb is_str (r :: rs) | _ => false end) data ["instances"; "regions"]%string.

Lemma settings_of_paths data :
  settings_of data =
  (vs ← mapM (fun keys => path_of keys data) all_paths;
   match vs with
   | [testbed; name; path; consensus; bitcoind; repo_name; url; branch; cmake_options; type; regions] =>
       make_settings testbed name path consensus bitcoind repo_name url branch cmake_options type regions
   | _ => Raise TypeError
   end).
Proof.
  unfold settings_of, path_of, all_paths. cbn [mapM foldM].
  generalize "testbed"%string "key"%string "name"%string "path"%string "ports"%string "consensus"%string "bitcoind"%string
    "repo"%string "url"%string "branch"%string "cmake_options"%string "instances"%string "type"%string "regions"%string.
  intros. generalize getitem. intros get.
  repeat (lazymatch goal with |- context [get ?v ?k] => destruct (get v k) end;
    cbn [mbind result_bind mret result_ret]; try exact eq_refl).
Qed.

Lemma is_ok_make_settings a b c d e f g h i j regions :
  is_ok (make_settings a b c d e f g h i j regions) =
  forallb is_str [a; b; c; f; g; h; j] && forallb is_int [d; e]
  && match regions with VList (r :: rs) => forallb is_str (r :: rs) | _ => false end.
Proof.
  unfold make_settings. destruct regions as [| | | | |l|]; cbn [or_raise mbind result_bind]; rewrite ?andb_false_r; try done.
  rewrite forallb_app. destruct l as [|r rs].
  - rewrite !andb_false_r. done.
  - change (0 <? Z.of_nat (length (r :: rs))) with true. rewrite andb_true_r. unfold ensure.
    destruct (forallb is_str [a; b; c; f; g; h; j]), (forallb is_int [d; e]), (forallb is_str (r :: rs)); done.
Qed.

Lemma make_settings_errors a b c d e f g h i j regions x :
  make_settings a b c d e f g h i j regions = Raise x ->
  x = if match regions with VList _ => true | _ => false end then SettingsError else UnboundLocalError.
Proof.
  unfold make_settings. destruct regions; cbn; try congruence. unfold ensure. destruct (_ && _ && _); cbn; congruence.
Qed.

Lemma at_path_Ok test data keys v : path_of keys data = Ok v -> at_path test data keys = test v.
Proof. unfold at_path. by intros ->. Qed.
Lemma at_path_Raise test data keys e : path_of keys data = Raise e -> at_path test data keys = false.
Proof. unfold at_path. by intros ->. Qed.

(** The paths of a well-formed document. *)
Lemma well_formed_paths data keys : well_formed data = true -> keys ∈ all_paths -> is_ok (path_of keys data) = true.
Proof.
  assert (forall test, at_path test data keys = true -> is_ok (path_of keys data) = true) as H
    by (unfold at_path; by destruct (path_of keys data)).
  unfold well_formed. rewrite !andb_true_iff, !forallb_forall. intros [[[Hs Hi] Hc] Hr] Hk.
  unfold all_paths in Hk. repeat (apply elem_of_cons in Hk as [->|Hk];
    [first [eapply H; exact Hc|eapply H; exact Hr|eapply H; apply Hs; cbn; tauto|eapply H; apply Hi; cbn; tauto]|]).
  by apply elem_of_nil in Hk.
Qed.

Lemma getitem_errors v k e : getitem v k = Raise e -> e = KeyError \/ e = TypeError.
Proof. destruct v as [| | | | | |d]; cbn; try (intros [= <-]; tauto). destruct (dget k d); cbn; [done|]. intros [= <-]. tauto. Qed.

Lemma path_of_errors keys v e : path_of keys v = Raise e -> e = KeyError \/ e = TypeError.
Proof.
  unfold path_of. revert v. induction keys as [|k keys IH]; intros v; cbn [foldM]; [done|].
  intros [H|(v' & _ & H)]%bind_Raise; [by eapply getitem_errors|by eapply IH].
Qed.

Lemma mapM_Raise {A B} (f : A -> result B) l e : mapM f l = Raise e -> exists a, a ∈ l /\ f a = Raise e.
Proof.
  induction l as [|a l IH]; cbn [mapM]; [done|]. intros [H|(y & _ & [H|(ys & _ & H)]%bind_Raise)]%bind_Raise; [..|done].
  - exists a. split; [by left|done].
  - destruct (IH H) as (b & ? & ?). exists b. split; [by right|done].
Qed.

(** Loading the settings accepts a document exactly when it is well formed.
    Otherwise the exception is a [SettingsError], except when a section of the
    document is no object ([TypeError]) or the regions are no list
    ([UnboundLocalError]). *)
Lemma settings_load_accepts data :
  is_ok (load (Ok data)) = well_formed data
  /\ forall e, load (Ok data) = Raise e ->
       e = SettingsError
       \/ (e = TypeError /\ exists keys, keys ∈ all_paths /\ path_of keys data = Raise TypeError)
       \/ (e = UnboundLocalError /\ exists v, path_of ["instances"; "regions"]%string data = Ok v
             /\ match v with VList _ => false | _ => true end = true).
Proof.
  unfold load. cbn [mbind result_bind]. rewrite settings_of_paths.
  destruct (mapM _ all_paths) as [vs|e] eqn:E.
  - apply mapM_Ok in E. unfold all_paths in E.
    repeat (apply Forall2_cons_inv_l in E as (? & ? & ? & E & ->)). apply Forall2_nil_inv_l in E as ->.
    cbn [mbind result_bind]. split.
    + unfold well_formed, str_paths, int_paths. cbn [forallb].
      repeat match goal with H : path_of ?k data = Ok _ |- context [at_path ?t data ?k] => rewrite (at_path_Ok t data k _ H) end.
      match goal with |- is_ok (py_except ?m _) = _ => transitivity (is_ok m); [by destruct m|] end.
      rewrite is_ok_make_settings. cbn [forallb]. by rewrite !andb_true_r.
    + intros e. destruct (make_settings _ _ _ _ _ _ _ _ _ _ _) as [|e'] eqn:Em; [done|].
      apply make_settings_errors in Em. cbn [py_except]. intros [= <-].
      match goal with H : path_of ["instances"; "regions"]%string data = Ok ?v |- _ =>
        destruct v; subst e'; cbn; try (right; right; split; [done|]; eexists; split; [eassumption|done]); by left end.
  - cbn [mbind result_bind py_except]. pose proof E as (keys & Hk & Hp)%mapM_Raise. split.
    + destruct (well_formed data) eqn:Hw; [|done].
      pose proof (well_formed_paths _ _ Hw Hk) as Ho. by rewrite Hp in Ho.
    + intros e' [= <-]. destruct (path_of_errors _ _ _ Hp) as [-> | ->]; [by left|].
      right; left. split; [done|]. by exists keys.
Qed.

Definition example_settings : pyval :=
  VDict [("testbed", VStr "itcoin"); ("key", VDict [("name", VStr "k"); ("path", VStr "~/.ssh/k")]);
         ("ports", VDict [("consensus", VInt 13000); ("bitcoind", VInt 38000)]);
         ("repo", VDict [("name", VStr "itcoin-fbft"); ("url", VStr "u"); ("branch", VStr "main"); ("cmake_options", VStr "")]);
         ("instances", VDict [("type", VStr "m5d.xlarge"); ("regions", VList [VStr "eu-south-1"])])]%string.

Example load_example : is_ok (load (Ok example_settings)) = true.
Proof. vm_compute. reflexivity. Qed.

(** A single region as a string: the "[[aws_regions]]" of the constructor is not
    assigned. *)
Lemma single_region_unbound testbed name path consensus bitcoind repo_name url branch cmake_options type region :
  make_settings testbed name path consensus bitcoind repo_name url branch cmake_options type (VStr region)
  = Raise UnboundLocalError.
Proof. reflexivity. Qed.

(** Loading a settings file accepts it exactly when it can be read, is a JSON text and
    its document is well formed.  Otherwise the exception is a [SettingsError], except
    when a section of the document is no object ([TypeError]) or the regions are no
    list ([UnboundLocalError]). *)
Theorem settings_load_file parse_constant file :
  is_ok (load_file parse_constant file)
  = match read_settings parse_constant file with Ok data => well_formed data | Raise _ => false end
  /\ forall e, load_file parse_constant file = Raise e ->
       e = SettingsError \/ e = Unmodelled
       \/ exists data, read_settings parse_constant file = Ok data
            /\ (e = TypeError /\ (exists keys, keys ∈ all_paths /\ path_of keys data = Raise TypeError)
                \/ e = UnboundLocalError /\ exists v, path_of ["instances"; "regions"]%string data = Ok v
                     /\ match v with VList _ => false | _ => true end = true).
Proof.
  unfold load_file. destruct (read_settings parse_constant file) as [data|err] eqn:E.
  - destruct (settings_load_accepts data) as [Hok Herr]. split; [exact Hok|]. intros e He.
    destruct (Herr e He) as [->|[H|H]]; [by left|right; right..]; exists data; split; [done|by left|done|by right].
  - split; [done|]. intros e He. cbn in He. injection He as <-. destruct file as [content|]; cbn in E.
    + apply loads_errors in E. destruct E as [-> | ->]; [by left|by right; left].
    + injection E as <-. by left.
Qed.

Example load_file_example :
  is_ok (load_file (fun _ => 0) (Some (dumps (fun _ => EmptyString) (make_style (Some 2%nat) false) example_settings))) = true
  /\ load_file (fun _ => 0) (Some "{ 'testbed': 1 }"%string) = Raise SettingsError
  /\ load_file (fun _ => 0) None = Raise SettingsError.
Proof. split; [|split]; vm_compute; reflexivity. Qed.

Example settings_load_file_witness :
  is_ok (load_file (fun _ => 0) None) = false
  /\ forall e, load_file (fun _ => 0) None = Raise e ->
       e = SettingsError \/ e = Unmodelled
       \/ exists data, read_settings (fun _ => 0) None = Ok data
            /\ (e = TypeError /\ (exists keys, keys ∈ all_paths /\ path_of keys data = Raise TypeError)
                \/ e = UnboundLocalError /\ exists v, path_of ["instances"; "regions"]%string data = Ok v
                     /\ match v with VList _ => false | _ => true end = true).
Proof. exact (settings_load_file (fun _ => 0) None). Defined.
