(* ===== verification/Instances.v ===== *)
(** * The instances of the testbed (benchmark_framework/instance.py)

    [InstanceManager] on the clients of EC2, one per region, which are parameters:
    their calls are effects that may raise a [ClientError] with the code of AWS. *)

From S2P Require Import Prelude PyIo PyStr PyInt PyDict Fields Settings Naming Bench.

(** What [describe_instances] says of an instance. *)
Record Ec2Instance : Type := MkEc2Instance { InstanceId : string; PublicIpAddress : option string }.

(** The calls to EC2.  [describe_instances] takes the values of its filters: the
    states and, when there is one, the type of node; the name is the testbed. *)
Record Ec2 (W : Type) : Type := MkEc2 {
  describe_instances : string -> list string -> option NodeType -> io W (list (list Ec2Instance));
  run_instances : string -> Z -> NodeType -> string -> io W unit;
  ec2_start_instances : string -> list string -> io W unit;
  ec2_stop_instances : string -> list string -> io W unit;
  ec2_terminate_instances : string -> list string -> io W unit;
  create_security_group : string -> io W unit;
  authorize_security_group_ingress : string -> list pyval -> io W unit;
  delete_security_group : string -> io W unit;
  describe_images : string -> io W (list string);
  wait_second : io W unit }.
Arguments describe_instances {W} _ _ _ _.
Arguments run_instances {W} _ _ _ _ _.
Arguments ec2_start_instances {W} _ _ _.
Arguments ec2_stop_instances {W} _ _ _.
Arguments ec2_terminate_instances {W} _ _ _.
Arguments create_security_group {W} _ _.
Arguments authorize_security_group_ingress {W} _ _ _.
Arguments delete_security_group {W} _ _.
Arguments describe_images {W} _ _.
Arguments wait_second {W} _.

(** A [defaultdict(list)] and [d[region] += [x]]. *)
Abbreviation region_lists := (list (string * list string)).
Definition dappend (region x : string) (d : region_lists) : region_lists :=
  dset region (default [] (dget region d) ++ [x]) d.

(** [sum(len(x) for x in d.values())] *)
Definition total_length (d : region_lists) : Z := foldr Z.add 0 ((fun l => Z.of_nat (length l)) <$> dvalues d).

(** [l[:n]] *)
Definition take_slice {A} (n : Z) (l : list A) : list A :=
  if 0 <=? n then take (Z.to_nat n) l else take (length l - Z.to_nat (- n)) l.

(** [try: ... except ClientError as e: raise BenchError(.., AWSError(e))]; with
    [stop], the call [BenchError(AWSError(e))], which lacks an argument. *)
Definition aws_except {W A} (m : io W A) : io W A :=
  io_except m (fun e => lift (Raise (match e with ClientError code => BenchError (AWSError code) | _ => e end))).
Definition aws_except_stop {W A} (m : io W A) : io W A :=
  io_except m (fun e => lift (Raise (match e with ClientError _ => TypeError | _ => e end))).

(** [IpPermissions] of [_create_security_group], the ports being those of the settings. *)
Definition permission (protocol : string) (port : pyval) (description : string) (v6 : bool) : pyval :=
  let ranges := [("IpProtocol", VStr protocol); ("FromPort", port); ("ToPort", port);
                 ("IpRanges", VList [VDict [("CidrIp", VStr "0.0.0.0/0"); ("Description", VStr description)]])]%string in
  let v6_ranges := [("Ipv6Ranges", VList [VDict [("CidrIpv6", VStr "::/0"); ("Description", VStr description)]])]%string in
  VDict (ranges ++ if v6 then v6_ranges else []).
Definition IpPermissions (consensus_port bitcoind_port : pyval) : list pyval :=
  ([permission "tcp" (VInt 22) "Debug SSH access" true;
   permission "tcp" consensus_port "Consensus port used by itcoin-FBFT miners" true;
   permission "tcp" bitcoind_port "bitcoind port used by itcoin-core peers" true;
   permission "icmp" (VInt (-1)) "icmp for ping statistics" false])%string.

(** [str.upper] below code point 128. *)
Definition upper_char (c : ascii) : ascii :=
  let n := nat_of_ascii c in if (97 <=? n)%nat && (n <=? 122)%nat then ascii_of_nat (n - 32) else c.
Fixpoint upper (s : string) : string :=
  match s with EmptyString => EmptyString | String c s' => String (upper_char c) (upper s') end.

(** The text of [print_info]. *)
Definition TAB : string := String "009"%char EmptyString.
Definition info_line (key : string) (i : nat) (ip : string) : string :=
  ((if ((i + 1) mod 6 =? 0)%nat then NL else EmptyString) ++ " " ++ str_of_Z (Z.of_nat i) ++ TAB ++ "ssh -i " ++ key
   ++ " ubuntu@" ++ ip ++ NL)%string.
Definition info_region (key region : string) (ips : list string) : string :=
  (NL ++ " Region: " ++ upper region ++ NL ++ foldr String.append EmptyString (imap (info_line key) ips))%string.
Definition info_rule : string := ("----------------------------------------------------------------" ++ NL)%string.
Definition type_name (t : NodeType) : string := match t with VALIDATOR => "VALIDATOR" | CLIENT => "CLIENT" end.
Definition info_text (key : string) (nodeType : NodeType) (hosts : region_lists) : string :=
  (NL ++ info_rule ++ " INFO:" ++ NL ++ info_rule
   ++ " " ++ type_name nodeType ++ " Available machines: " ++ str_of_Z (total_length hosts) ++ NL
   ++ foldr String.append EmptyString ((fun ri => info_region key ri.1 ri.2) <$> hosts) ++ info_rule)%string.

Section Manager.
Context {W : Type} (ec2 : Ec2 W).

(** The keys of [self.clients], an [OrderedDict] filled from the regions. *)
Definition clients_of (aws_regions : list string) : list string :=
  dkeys (foldl (fun d region => dset region tt d) [] aws_regions).
Context (regions : list string) (consensus_port bitcoind_port : pyval).

(** One instance of a region, in [_get]. *)
Definition add_instance (region : string) (s : region_lists * region_lists) (x : Ec2Instance)
    : region_lists * region_lists :=
  (dappend region (InstanceId x) s.1,
   match PublicIpAddress x with Some ip => dappend region ip s.2 | None => s.2 end).

Fixpoint get_loop (rs : list string) (state : list string) (nodeType : option NodeType)
    (s : region_lists * region_lists) : io W (region_lists * region_lists) :=
  match rs with
  | [] => io_ret s
  | region :: rest =>
      r <~ describe_instances ec2 region state nodeType;
      let instances := List.concat r in
      get_loop rest state nodeType (foldl (add_instance region) s instances)
  end.
(** [_get] *)
Definition get_instances (state : list string) (nodeType : option NodeType) : io W (region_lists * region_lists) :=
  get_loop regions state nodeType ([], []).

(** [_wait]; [fuel] bounds the number of polls. *)
Fixpoint wait_instances (fuel : nat) (state : list string) : io W unit :=
  match fuel with
  | O => lift (Raise OutOfFuel)
  | S f =>
      _ <~ wait_second ec2;
      idips <~ get_instances state None;
      if total_length idips.1 =? 0 then io_ret tt else wait_instances f state
  end.

(** [_create_security_group] in [create_instances], a duplicate group being accepted. *)
Definition ensure_security_group (region : string) : io W unit :=
  io_except
    (_ <~ create_security_group ec2 region; authorize_security_group_ingress ec2 region (IpPermissions consensus_port bitcoind_port))
    (fun e => match e with
              | ClientError code =>
                  if String.eqb code "InvalidGroup.Duplicate" then io_ret tt
                  else lift (Raise (BenchError (AWSError code)))
              | _ => lift (Raise e)
              end).

Definition get_ami (region : string) : io W string :=
  images <~ describe_images ec2 region;
  lift (or_raise IndexError (head images)).

(** [for client in progress_bar(...)]: the bar divides by the number of items. *)
Definition progress_each {A} (f : A -> io W unit) (l : list A) : io W unit :=
  _ <~ lift (ensure (negb (Nat.eqb (length l) 0)) ZeroDivisionError);
  io_each f l.

Definition create_instances (fuel : nat) (instances : Z) (type : NodeType) : io W unit :=
  _ <~ lift (py_assert (0 <? instances));
  _ <~ io_each ensure_security_group regions;
  aws_except
    (_ <~ progress_each (fun region =>
            ami <~ get_ami region; run_instances ec2 region instances type ami) regions;
     wait_instances fuel ["pending"%string]).

Definition terminate_instances (fuel : nat) : io W unit :=
  aws_except
    (idips <~ get_instances ["pending"; "running"; "stopping"; "stopped"]%string None;
     let ids := idips.1 in
     if total_length ids =? 0 then io_ret tt
     else
       _ <~ io_each (fun region =>
              match default [] (dget region ids) with
              | [] => io_ret tt
              | l => ec2_terminate_instances ec2 region l
              end) regions;
       _ <~ wait_instances fuel ["shutting-down"%string];
       io_each (delete_security_group ec2) regions).

(** [start_instances]: at most [max] of each region. *)
Definition start_target (max : Z) (target : list string) : list string :=
  if Z.of_nat (length target) <? max then target else take_slice max target.
Definition start_instances (max : Z) : io W unit :=
  aws_except
    (idips <~ get_instances ["stopping"; "stopped"]%string None;
     let ids := idips.1 in
     io_each (fun region =>
       match default [] (dget region ids) with
       | [] => io_ret tt
       | target => ec2_start_instances ec2 region (start_target max target)
       end) regions).

Definition stop_instances : io W unit :=
  aws_except_stop
    (idips <~ get_instances ["pending"; "running"]%string None;
     let ids := idips.1 in
     io_each (fun region =>
       match default [] (dget region ids) with
       | [] => io_ret tt
       | target => ec2_stop_instances ec2 region target
       end) regions).

(** [hosts(nodeType=..)] and [hosts(flat=True)] *)
Definition hosts (nodeType : option NodeType) : io W region_lists :=
  aws_except (idips <~ get_instances ["pending"; "running"]%string nodeType; io_ret idips.2).
Definition hosts_flat (nodeType : option NodeType) : io W (list string) :=
  ips <~ hosts nodeType; io_ret (List.concat (dvalues ips)).

(** [print_info]: the text that is printed. *)
Definition print_info (key_path : string) (nodeType : NodeType) : io W string :=
  ips <~ hosts (Some nodeType); io_ret (info_text key_path nodeType ips).
End Manager.

(** [InstanceManager.make]: the regions of the settings or a [BenchError]. *)
Definition make_manager (file : result pyval) : result Settings :=
  py_except (load file) (fun e => Raise (match e with SettingsError => BenchError e | _ => e end)).

(** ** What [_get] collects *)

Lemma dget_dappend region x d k :
  dget k (dappend region x d) = if decide (k = region) then Some (default [] (dget region d) ++ [x]) else dget k d.
Proof. unfold dappend. apply dget_dset. Qed.

(** The instances of a region that is not yet a key. *)
Definition with_key (region : string) (l : list string) : region_lists := match l with [] => [] | _ => [(region, l)] end.

Lemma dset_snoc_last {V} (k : string) (v w : V) d : k ∉ dkeys d -> dset k w (d ++ [(k, v)]) = d ++ [(k, w)].
Proof.
  intros Hk. induction d as [|[k' v'] d IH]; cbn; [by rewrite decide_True|].
  rewrite decide_False by (intros ->; apply Hk; by left). rewrite IH; [done|]. intros Hin. apply Hk. by right.
Qed.

Lemma dget_snoc_last {V} (k : string) (v : V) d : k ∉ dkeys d -> dget k (d ++ [(k, v)]) = Some v.
Proof.
  intros Hk. induction d as [|[k' v'] d IH]; cbn; [by rewrite decide_True|].
  rewrite decide_False by (intros ->; apply Hk; by left). apply IH. intros Hin. apply Hk. by right.
Qed.

Lemma dappend_with_key region l x d :
  region ∉ dkeys d -> dappend region x (d ++ with_key region l) = d ++ with_key region (l ++ [x]).
Proof.
  intros Hk. unfold dappend. destruct l as [|y l]; cbn [with_key app].
  - rewrite app_nil_r. assert (dget region d = None) as ->.
    { destruct (dget region d) eqn:E; [|done]. exfalso. apply Hk, elem_of_dkeys. eauto. }
    by apply dset_new.
  - rewrite dget_snoc_last by done. by rewrite dset_snoc_last.
Qed.

(** The identifiers and the addresses in an answer of EC2. *)
Definition ids_of (r : list (list Ec2Instance)) : list string := InstanceId <$> List.concat r.
Definition ips_of (r : list (list Ec2Instance)) : list string := omap PublicIpAddress (List.concat r).

Lemma add_instances region d1 d2 l1 l2 instances :
  region ∉ dkeys d1 -> region ∉ dkeys d2 ->
  foldl (add_instance region) (d1 ++ with_key region l1, d2 ++ with_key region l2) instances
  = (d1 ++ with_key region (l1 ++ (InstanceId <$> instances)), d2 ++ with_key region (l2 ++ omap PublicIpAddress instances)).
Proof.
  intros H1 H2. revert l1 l2. induction instances as [|x xs IH]; intros l1 l2; cbn [foldl].
  - cbn. by rewrite !app_nil_r.
  - unfold add_instance at 2. cbn [fst snd]. rewrite dappend_with_key by done.
    destruct (PublicIpAddress x) as [ip|] eqn:E.
    + rewrite dappend_with_key by done. rewrite IH. cbn. rewrite E, <-!app_assoc. done.
    + rewrite IH. cbn. rewrite E, <-!app_assoc. done.
Qed.

(** The dictionary of what [f] gives for each region, in the order of the regions. *)
Definition by_region (f : string -> list string) (regions : list string) : region_lists :=
  List.concat ((fun r => with_key r (f r)) <$> regions).

Lemma dkeys_by_region f regions k : k ∈ dkeys (by_region f regions) -> k ∈ regions.
Proof.
  unfold by_region. induction regions as [|r rs IH]; [done|]. cbn [fmap list_fmap List.concat].
  unfold dkeys in *. rewrite fmap_app, elem_of_app. intros [Hk|Hk].
  - destruct (f r); cbn in Hk; [by apply elem_of_nil in Hk|]. apply list_elem_of_singleton in Hk as ->. by left.
  - right. auto.
Qed.

Lemma dvalues_by_region f regions : List.concat (dvalues (by_region f regions)) = List.concat (f <$> regions).
Proof.
  unfold by_region, dvalues. induction regions as [|r rs IH]; [done|]. cbn [fmap list_fmap List.concat].
  rewrite fmap_app, concat_app, IH. f_equal. destruct (f r); cbn; [done|]. by rewrite app_nil_r.
Qed.

Lemma by_region_snoc f regions r : by_region f (regions ++ [r]) = by_region f regions ++ with_key r (f r).
Proof. unfold by_region. rewrite fmap_app, concat_app. cbn. by rewrite app_nil_r. Qed.

Lemma dget_by_region f regions r :
  NoDup regions -> r ∈ regions -> default [] (dget r (by_region f regions)) = f r.
Proof.
  intros Hnd. unfold by_region. induction regions as [|r' rs IH]; [by intros ?%elem_of_nil|].
  apply NoDup_cons in Hnd as [Hr Hnd]. cbn [fmap list_fmap List.concat]. intros [->|Hin]%elem_of_cons.
  - destruct (f r') eqn:E; cbn; [|by rewrite decide_True].
    destruct (dget r' _) eqn:Eg; [|done]. exfalso. apply Hr, (dkeys_by_region f), elem_of_dkeys. unfold by_region. by rewrite Eg.
  - assert (r <> r') by congruence. destruct (f r'); cbn; [by apply IH|]. rewrite decide_False by done. by apply IH.
Qed.

Section Answers.
Context {W : Type} (ec2 : Ec2 W) (regions : list string) (state : list string) (nodeType : option NodeType).
(** EC2 answers the same for the same question. *)
Context (answer : string -> list (list Ec2Instance)) (w : W).
Context (Hanswer : forall r, r ∈ regions -> describe_instances ec2 r state nodeType w = (w, Ok (answer r))).

Lemma get_loop_answers pre rest :
  regions = pre ++ rest -> NoDup regions ->
  get_loop ec2 rest state nodeType (by_region (ids_of ∘ answer) pre, by_region (ips_of ∘ answer) pre) w
  = (w, Ok (by_region (ids_of ∘ answer) regions, by_region (ips_of ∘ answer) regions)).
Proof.
  revert pre. induction rest as [|r rest IH]; intros pre Hreg Hnd; cbn [get_loop].
  - by rewrite Hreg, app_nil_r.
  - assert (r ∉ pre) as Hr.
    { rewrite Hreg in Hnd. apply NoDup_app in Hnd as (_ & Hd & _). intros Hin. apply (Hd r Hin). by left. }
    unfold io_bind. rewrite Hanswer by (rewrite Hreg, elem_of_app; right; by left).
    rewrite <-(app_nil_r (by_region (ids_of ∘ answer) pre)), <-(app_nil_r (by_region (ips_of ∘ answer) pre)).
    change (@nil (string * list string)) with (with_key r []).
    rewrite add_instances by (intros Hin; apply Hr; by eapply dkeys_by_region).
    cbn [app]. change (InstanceId <$> List.concat (answer r)) with ((ids_of ∘ answer) r).
    change (omap PublicIpAddress (List.concat (answer r))) with ((ips_of ∘ answer) r).
    rewrite <-!by_region_snoc. apply IH; [by rewrite <-app_assoc|done].
Qed.

Lemma get_instances_answers :
  NoDup regions ->
  get_instances ec2 regions state nodeType w
  = (w, Ok (by_region (ids_of ∘ answer) regions, by_region (ips_of ∘ answer) regions)).
Proof. intros Hnd. by apply (get_loop_answers []). Qed.
End Answers.

Lemma io_each_ext {W A} (f g : A -> io W unit) l w :
  (forall a w, a ∈ l -> f a w = g a w) -> io_each f l w = io_each g l w.
Proof.
  revert w. induction l as [|a l IH]; intros w H; [done|]. cbn [io_each]. unfold io_bind. rewrite H by (by left).
  destruct (g a w) as [w1 [[]|e]]; [|done]. apply IH. intros b w2 Hb. apply H. by right.
Qed.

(** The hosts of a kind of node, by region in the order of the settings, are the
    public addresses of its pending and running instances, an instance without one
    and a region without any being left out; [flat] gives them in that order. *)
Theorem hosts_by_region {W} (ec2 : Ec2 W) regions nodeType answer w :
  NoDup regions ->
  (forall r, r ∈ regions -> describe_instances ec2 r ["pending"; "running"]%string nodeType w = (w, Ok (answer r))) ->
  exists d, hosts ec2 regions nodeType w = (w, Ok d)
    /\ (forall r, r ∈ regions -> default [] (dget r d) = ips_of (answer r))
    /\ (forall r l, (r, l) ∈ d -> r ∈ regions /\ l <> [])
    /\ hosts_flat ec2 regions nodeType w = (w, Ok (List.concat (ips_of ∘ answer <$> regions))).
Proof.
  intros Hnd Ha. exists (by_region (ips_of ∘ answer) regions).
  assert (hosts ec2 regions nodeType w = (w, Ok (by_region (ips_of ∘ answer) regions))) as E.
  { unfold hosts, aws_except, io_except, io_bind. by rewrite (get_instances_answers _ _ _ _ answer). }
  split; [done|]. split; [by intros r Hr; rewrite dget_by_region|]. split.
  - intros r l Hin. unfold by_region in Hin. apply list_elem_of_In, in_concat in Hin as (k & Hk & Hin).
    apply list_elem_of_In, list_elem_of_fmap in Hk as (r' & -> & Hr'). destruct ((ips_of ∘ answer) r'); [done|].
    destruct Hin as [[= <- <-]|[]]. done.
  - unfold hosts_flat, io_bind. rewrite E. unfold io_ret. by rewrite dvalues_by_region.
Qed.

(** Starting the instances of the testbed asks, in every region with stopped
    instances and in no other, for the first [max] of them. *)
Theorem start_instances_at_most {W} (ec2 : Ec2 W) regions answer max w :
  NoDup regions -> 0 <= max ->
  (forall r, r ∈ regions -> describe_instances ec2 r ["stopping"; "stopped"]%string None w = (w, Ok (answer r))) ->
  start_instances ec2 regions max w
  = aws_except (io_each (fun r => match ids_of (answer r) with
                                  | [] => io_ret tt
                                  | l => ec2_start_instances ec2 r (take (Z.to_nat max) l)
                                  end) regions) w.
Proof.
  intros Hnd Hmax Ha. unfold start_instances, aws_except, io_except. unfold io_bind at 1.
  rewrite (get_instances_answers _ _ _ _ answer) by done. cbn [fst].
  assert (forall e1 e2 : W * result unit, e1 = e2 ->
    match e1 with (w', Ok a) => (w', Ok a) | (w', Raise e) => lift (Raise (match e with ClientError code => BenchError (AWSError code) | _ => e end)) w' end
    = match e2 with (w', Ok a) => (w', Ok a) | (w', Raise e) => lift (Raise (match e with ClientError code => BenchError (AWSError code) | _ => e end)) w' end)
    as Hc by (by intros ? ? ->).
  apply Hc, io_each_ext. intros r w' Hr. rewrite dget_by_region by done. unfold compose.
  assert (forall l, start_target max l = take (Z.to_nat max) l) as Hst.
  { intros l. unfold start_target, take_slice. rewrite (proj2 (Z.leb_le 0 max)) by lia.
    destruct (Z.ltb_spec (Z.of_nat (length l)) max); [|done]. rewrite take_ge by lia. done. }
  destruct (ids_of (answer r)); [done|]. by rewrite Hst.
Qed.

(** A [ClientError] while stopping: the constructor of [BenchError] takes a message too. *)
Lemma stop_instances_type_error {W} (ec2 : Ec2 W) region rest code w :
  describe_instances ec2 region ["pending"; "running"]%string None w = (w, Raise (ClientError code)) ->
  stop_instances ec2 (region :: rest) w = (w, Raise TypeError).
Proof.
  intros H. unfold stop_instances, aws_except_stop, io_except, get_instances. cbn [get_loop]. unfold io_bind. by rewrite H.
Qed.

(** ** Witnesses *)

Definition toy_ec2 : Ec2 (list (string * list string)) := {|
  describe_instances := fun r state _ => io_ret
    (if String.eqb r "eu-south-1"
     then [[MkEc2Instance "i-1" (Some "10.0.0.1"); MkEc2Instance "i-2" None]; [MkEc2Instance "i-3" (Some "10.0.0.3")]]
     else if String.eqb r "eu-west-1" then [[MkEc2Instance "i-4" (Some "10.0.1.4")]] else [])%string;
  run_instances := fun _ _ _ _ => io_ret tt;
  ec2_start_instances := fun r l w => (w ++ [(r, l)], Ok tt);
  ec2_stop_instances := fun _ _ => io_ret tt;
  ec2_terminate_instances := fun _ _ => io_ret tt;
  create_security_group := fun _ => lift (Raise (ClientError "InvalidGroup.Duplicate"));
  authorize_security_group_ingress := fun _ _ => io_ret tt;
  delete_security_group := fun _ => io_ret tt;
  describe_images := fun _ => io_ret ["ami-1"%string];
  wait_second := io_ret tt |}.
Definition toy_regions : list string := clients_of ["eu-south-1"; "us-east-1"; "eu-west-1"]%string.
Definition toy_answer (r : string) : list (list Ec2Instance) :=
  match (describe_instances toy_ec2 r [] None []).2 with Ok l => l | Raise _ => [] end.

Example hosts_by_region_witness :
  exists d, hosts toy_ec2 toy_regions (Some CLIENT) [] = ([], Ok d)
    /\ (forall r, r ∈ toy_regions -> default [] (dget r d) = ips_of (toy_answer r))
    /\ (forall r l, (r, l) ∈ d -> r ∈ toy_regions /\ l <> [])
    /\ hosts_flat toy_ec2 toy_regions (Some CLIENT) [] = ([], Ok (List.concat (ips_of ∘ toy_answer <$> toy_regions))).
Proof.
  apply (hosts_by_region toy_ec2 toy_regions (Some CLIENT) toy_answer []); [|done].
  apply (bool_decide_unpack (NoDup toy_regions)). vm_compute. exact I.
Defined.

Example hosts_example :
  hosts toy_ec2 toy_regions (Some CLIENT) [] = ([], Ok [("eu-south-1", ["10.0.0.1"; "10.0.0.3"]); ("eu-west-1", ["10.0.1.4"])])%string.
Proof. vm_compute. reflexivity. Qed.

Example start_instances_at_most_witness :
  start_instances toy_ec2 toy_regions 1 []
  = aws_except (io_each (fun r => match ids_of (toy_answer r) with
                                  | [] => io_ret tt
                                  | l => ec2_start_instances toy_ec2 r (take (Z.to_nat 1) l)
                                  end) toy_regions) [].
Proof.
  apply (start_instances_at_most toy_ec2 toy_regions toy_answer 1 []); [|lia|done].
  apply (bool_decide_unpack (NoDup toy_regions)). vm_compute. exact I.
Defined.

Example start_example : (start_instances toy_ec2 toy_regions 1 []).1 = [("eu-south-1", ["i-1"]); ("eu-west-1", ["i-4"])]%string.
Proof. vm_compute. reflexivity. Qed.
