(* ===== verification/HostSelection.v ===== *)
(** * The selection of the hosts (benchmark_framework/remote.py)

    [_select_hosts] takes the hosts of the testbed region by region, and the
    dictionaries from the addresses to the numbers of the nodes. *)

From S2P Require Import Prelude PyIo PyDict Naming Instances.

(** [zip] of a list and of others, as lists of rows: it stops with the shortest. *)
Fixpoint zip_rows {A} (first : list A) (rest : list (list A)) : list (list A) :=
  match first with
  | [] => []
  | x :: first' =>
      match mapM head rest with
      | Some xs => (x :: xs) :: zip_rows first' (tail <$> rest)
      | None => []
      end
  end.
(** [zip( *columns)] *)
Definition zip_star {A} (columns : list (list A)) : list (list A) :=
  match columns with [] => [] | first :: rest => zip_rows first rest end.

(** [_select_hosts] *)
Definition select_hosts (nodes clients : Z) (validators_hosts clients_hosts : region_lists)
    : list string * list string :=
  if (total_length validators_hosts <? nodes) || (total_length clients_hosts <? clients) then ([], [])
  else
    let ordered_validators := concat (zip_star (dvalues validators_hosts)) in
    let ordered_clients := concat (zip_star (dvalues clients_hosts)) in
    (take_slice nodes ordered_validators, take_slice clients ordered_clients).

(** [{host: node_id for node_id, host in enumerate(hosts)}] *)
Definition ip_to_node_id (hosts : list string) : list (string * Z) :=
  foldl (fun d ih => dset ih.2 (Z.of_nat ih.1) d) [] (imap pair hosts).

(** ** [zip] *)

Lemma mapM_head {A} (ls : list (list A)) : mapM head ls = mapM (fun l => l !! 0%nat) ls.
Proof. apply mapM_ext. by intros []. Qed.

Lemma mapM_tail {A} j (ls : list (list A)) :
  mapM (fun l : list A => l !! j) (tail <$> ls) = mapM (fun l : list A => l !! S j) ls.
Proof. induction ls as [|l ls IH]; [done|]. cbn. rewrite IH. by destruct l. Qed.

Lemma zip_rows_lookup {A} (first : list A) rest j :
  zip_rows first rest !! j = mapM (fun l => l !! j) (first :: rest).
Proof.
  revert rest j. induction first as [|x first IH]; intros rest j; [done|].
  cbn [zip_rows]. destruct (mapM head rest) as [xs|] eqn:E.
  - destruct j as [|j]; cbn [lookup list_lookup].
    + rewrite mapM_head in E. cbn. by rewrite E.
    + rewrite IH. cbn [mapM]. by rewrite mapM_tail.
  - transitivity (@None (list A)); [done|]. symmetry. apply mapM_None, Exists_cons. right.
    apply mapM_None in E. eapply Exists_impl; [exact E|]. by intros [].
Qed.

Lemma zip_star_lookup {A} (columns : list (list A)) j row :
  columns <> [] -> zip_star columns !! j = Some row <-> mapM (fun l => l !! j) columns = Some row.
Proof. destruct columns as [|first rest]; [done|]. intros _. cbn [zip_star]. by rewrite zip_rows_lookup. Qed.

(** The number of rows is the least length of a column. *)
Definition least_length {A} (columns : list (list A)) : nat :=
  match columns with [] => 0%nat | first :: rest => foldr Nat.min (length first) (length <$> rest) end.

Lemma least_length_lt {A} (columns : list (list A)) j :
  columns <> [] -> (j < least_length columns)%nat <-> Forall (fun l => j < length l)%nat columns.
Proof.
  destruct columns as [|first rest]; [done|]. intros _. cbn [least_length]. rewrite Forall_cons.
  induction rest as [|l rest IH]; cbn [fmap list_fmap foldr].
  - rewrite Forall_nil. tauto.
  - rewrite Forall_cons. rewrite Nat.min_glb_lt_iff. tauto.
Qed.

Lemma zip_star_length {A} (columns : list (list A)) : length (zip_star columns) = least_length columns.
Proof.
  destruct (decide (columns = [])) as [->|Hne]; [done|].
  assert (forall j, (j < length (zip_star columns) <-> j < least_length columns)%nat) as H.
  { intros j. rewrite least_length_lt by done. rewrite <-lookup_lt_is_Some.
    assert (is_Some (zip_star columns !! j) <-> is_Some (mapM (fun l => l !! j) columns)) as ->.
    { unfold is_Some. by setoid_rewrite zip_star_lookup. }
    rewrite mapM_is_Some. apply Forall_iff. intros l. apply lookup_lt_is_Some. }
  pose proof (H (length (zip_star columns))). pose proof (H (least_length columns)). lia.
Qed.

Lemma zip_star_rows {A} (columns : list (list A)) :
  Forall (fun row => length row = length columns) (zip_star columns).
Proof.
  destruct (decide (columns = [])) as [->|Hne]; [constructor|].
  apply Forall_lookup. intros j row Hr. apply zip_star_lookup in Hr; [|done].
  apply mapM_Some in Hr. symmetry. by eapply Forall2_length.
Qed.

(** Items of the rows one after the other, all rows having [r] items. *)
Lemma concat_lookup_rows {A} (rows : list (list A)) (r k : nat) :
  (0 < r)%nat -> Forall (fun row => length row = r) rows ->
  concat rows !! k = row ← rows !! (k / r)%nat; row !! (k mod r)%nat.
Proof.
  intros Hr. revert k. induction rows as [|row rows IH]; intros k Hall; [done|].
  apply Forall_cons in Hall as [Hrow Hall]. cbn [concat]. destruct (decide (k < r)%nat) as [Hk|Hk].
  - rewrite lookup_app_l by lia. rewrite Nat.div_small, Nat.mod_small by done. done.
  - rewrite lookup_app_r by lia. rewrite IH, Hrow by done.
    assert (k / r = S ((k - r) / r) /\ k mod r = (k - r) mod r)%nat as [-> ->]; [|done].
    split.
    + rewrite <-Nat.add_1_l, <-(Nat.div_add_l 1 r (k - r)) by lia. f_equal. lia.
    + rewrite <-(Nat.Div0.mod_add (k - r) 1 r). f_equal. lia.
Qed.

Lemma concat_rows_length {A} (rows : list (list A)) (r : nat) :
  Forall (fun row => length row = r) rows -> length (concat rows) = (r * length rows)%nat.
Proof. induction 1 as [|row rows Hrow _ IH]; [cbn; lia|]. cbn [concat length]. rewrite length_app. lia. Qed.

(** The host that comes at place [k]: the regions in turn. *)
Lemma zip_star_concat_lookup {A} (columns : list (list A)) k :
  (k < length columns * least_length columns)%nat ->
  exists l x, columns !! (k mod length columns)%nat = Some l /\ l !! (k / length columns)%nat = Some x
    /\ concat (zip_star columns) !! k = Some x.
Proof.
  intros Hk. assert (columns <> []) as Hne by (intros ->; cbn in Hk; lia).
  assert (0 < length columns)%nat as Hpos by (destruct columns; [done|cbn; lia]).
  assert (k mod length columns < length columns)%nat as Hm by (apply Nat.mod_upper_bound; lia).
  apply lookup_lt_is_Some in Hm as [l Hl].
  assert (k / length columns < least_length columns)%nat as Hd by (apply Nat.Div0.div_lt_upper_bound; lia).
  pose proof Hd as Hrow. rewrite <-zip_star_length in Hrow. apply lookup_lt_is_Some in Hrow as [row Hrow].
  rewrite (concat_lookup_rows _ (length columns)) by (try done; apply zip_star_rows). rewrite Hrow. cbn [mbind option_bind].
  apply zip_star_lookup, mapM_Some in Hrow; [|done].
  destruct (Forall2_lookup_l _ _ _ _ _ Hrow Hl) as (x & Hx & Hlx). by exists l, x.
Qed.

Lemma concat_positions {A} (columns : list (list A)) a b a' b' l l' x :
  NoDup (concat columns) -> columns !! a = Some l -> l !! b = Some x -> columns !! a' = Some l' -> l' !! b' = Some x ->
  a = a' /\ b = b'.
Proof.
  assert (forall cols c (k : list A) y i, cols !! c = Some k -> k !! i = Some y -> y ∈ concat cols) as Hin.
  { intros cols c k y i Hc Hi. apply list_elem_of_In, in_concat. exists k.
    split; apply list_elem_of_In; by eapply list_elem_of_lookup_2. }
  revert a a'. induction columns as [|c columns IH]; intros a a' Hnd; [done|]. cbn [concat] in Hnd.
  apply NoDup_app in Hnd as (Hc & Hdis & Hnd). intros Ha Hb Ha' Hb'.
  destruct a as [|a], a' as [|a']; cbn in Ha, Ha'.
  - injection Ha as ->. injection Ha' as ->. split; [done|]. exact (NoDup_lookup _ _ _ _ Hc Hb Hb').
  - injection Ha as ->. exfalso. apply (Hdis x); [exact (list_elem_of_lookup_2 _ _ _ Hb)|exact (Hin _ _ _ _ _ Ha' Hb')].
  - injection Ha' as ->. exfalso. apply (Hdis x); [exact (list_elem_of_lookup_2 _ _ _ Hb')|exact (Hin _ _ _ _ _ Ha Hb)].
  - destruct (IH a a' Hnd Ha Hb Ha' Hb'). auto.
Qed.

(** [l] is the selection of [n] hosts from the columns: the regions in turn, up to the
    least number of hosts of a region. *)
Definition in_turn (n : Z) (columns : list (list string)) (l : list string) : Prop :=
  Z.of_nat (length l) = Z.min n (Z.of_nat (length columns * least_length columns))
  /\ (forall k x, l !! k = Some x ->
        exists region, columns !! (k mod length columns)%nat = Some region /\ region !! (k / length columns)%nat = Some x)
  /\ (NoDup (concat columns) -> NoDup l).

Lemma take_slice_in_turn n columns : 0 <= n -> in_turn n columns (take_slice n (concat (zip_star columns))).
Proof.
  intros Hn. unfold take_slice. rewrite (proj2 (Z.leb_le 0 n)) by lia.
  assert (length (concat (zip_star columns)) = (length columns * least_length columns)%nat) as Hlen
    by (rewrite (concat_rows_length _ (length columns)) by apply zip_star_rows; by rewrite zip_star_length).
  assert (forall k x, take (Z.to_nat n) (concat (zip_star columns)) !! k = Some x ->
            exists region, columns !! (k mod length columns)%nat = Some region /\ region !! (k / length columns)%nat = Some x) as Hk.
  { intros k x [Hx _]%lookup_take_Some. pose proof (lookup_lt_Some _ _ _ Hx) as Hlt. rewrite Hlen in Hlt.
    destruct (zip_star_concat_lookup columns k Hlt) as (l & y & Hl & Hy & Hc). rewrite Hx in Hc. injection Hc as <-. by exists l. }
  split; [rewrite length_take, Hlen; lia|]. split; [done|].
  intros Hnd. apply NoDup_alt. intros i j x Hi Hj.
  destruct (Hk i x Hi) as (l & Hl & Hli), (Hk j x Hj) as (l' & Hl' & Hlj).
  destruct (concat_positions columns _ _ _ _ l l' x Hnd Hl Hli Hl' Hlj) as [Hm Hd].
  rewrite (Nat.div_mod_eq i (length columns)), (Nat.div_mod_eq j (length columns)). congruence.
Qed.

(** With fewer hosts than nodes or than clients nothing is selected.  Otherwise
    the hosts are taken from the regions in turn, each at most once, but only as many
    as the number of regions times the hosts of the smallest one: all the nodes get a
    host exactly when every region has its share. *)
Theorem select_hosts_in_turn nodes clients validators_hosts clients_hosts :
  0 <= nodes -> 0 <= clients ->
  let selected := select_hosts nodes clients validators_hosts clients_hosts in
  if (nodes <=? total_length validators_hosts) && (clients <=? total_length clients_hosts)
  then in_turn nodes (dvalues validators_hosts) selected.1 /\ in_turn clients (dvalues clients_hosts) selected.2
  else selected = ([], []).
Proof.
  intros Hn Hc selected. subst selected. unfold select_hosts. rewrite !Z.ltb_antisym, <-negb_andb.
  destruct (_ && _); cbn [negb]; [|done]. split; by apply take_slice_in_turn.
Qed.

(** *** From the answers of EC2 *)

(** [_select_hosts], with its calls. *)
Definition select_from {W} (ec2 : Ec2 W) (regions : list string) (nodes clients : Z) : io W (list string * list string) :=
  validators_hosts <~ hosts ec2 regions (Some VALIDATOR);
  clients_hosts <~ hosts ec2 regions (Some CLIENT);
  io_ret (select_hosts nodes clients validators_hosts clients_hosts).

(** The addresses of each region that has some. *)
Definition some_addresses (answer : string -> list (list Ec2Instance)) (regions : list string) : list (list string) :=
  List.filter (fun l => negb (Nat.eqb (length l) 0)) (ips_of ∘ answer <$> regions).

Lemma dvalues_by_region_filter answer regions : dvalues (by_region (ips_of ∘ answer) regions) = some_addresses answer regions.
Proof.
  unfold some_addresses, by_region, dvalues. induction regions as [|r regions IH]; [done|]. cbn [fmap list_fmap List.concat List.filter].
  rewrite fmap_app, IH. unfold compose at 1. change ((ips_of ∘ answer) r) with (ips_of (answer r)).
  destruct (ips_of (answer r)); done.
Qed.

Lemma total_length_concat d : total_length d = Z.of_nat (length (concat (dvalues d))).
Proof.
  unfold total_length. induction (dvalues d) as [|l ls IH]; [done|]. cbn [fmap list_fmap foldr concat]. rewrite IH, length_app. lia.
Qed.

(** Whatever EC2 answers for the regions of the settings, with fewer addresses than
    nodes or than clients no host is selected.  Otherwise the hosts are taken from the
    regions that have some in turn, each at most once, but only as many as the number of
    these regions times the hosts of the smallest one: all the nodes get a host exactly
    when every region has its share. *)
Theorem select_from_in_turn {W} (ec2 : Ec2 W) regions nodes clients answer w :
  NoDup regions -> 0 <= nodes -> 0 <= clients ->
  (forall r t, r ∈ regions -> describe_instances ec2 r ["pending"; "running"]%string (Some t) w = (w, Ok (answer t r))) ->
  let columns t := some_addresses (answer t) regions in
  let count t := Z.of_nat (length (concat (columns t))) in
  exists selected, select_from ec2 regions nodes clients w = (w, Ok selected)
    /\ if (nodes <=? count VALIDATOR) && (clients <=? count CLIENT)
       then in_turn nodes (columns VALIDATOR) selected.1 /\ in_turn clients (columns CLIENT) selected.2
       else selected = ([], []).
Proof.
  intros Hnd Hn Hc Ha columns count.
  assert (forall t, hosts ec2 regions (Some t) w = (w, Ok (by_region (ips_of ∘ answer t) regions))) as Hh.
  { intros t. unfold hosts, aws_except, io_except, io_bind.
    by rewrite (get_instances_answers ec2 regions _ _ (answer t) w (fun r Hr => Ha r t Hr) Hnd). }
  eexists. split; [unfold select_from, io_bind; rewrite !Hh; reflexivity|].
  pose proof (select_hosts_in_turn nodes clients (by_region (ips_of ∘ answer VALIDATOR) regions)
                (by_region (ips_of ∘ answer CLIENT) regions) Hn Hc) as H.
  cbv zeta in H. rewrite !total_length_concat, !dvalues_by_region_filter in H. exact H.
Qed.

(** Four hosts in two regions are enough for four nodes, and two are selected. *)
Lemma select_hosts_truncates :
  select_hosts 4 1 [("eu", ["10.0.0.1"]); ("us", ["10.0.1.1"; "10.0.1.2"; "10.0.1.3"])] [("eu", ["10.0.0.9"])]
  = (["10.0.0.1"; "10.0.1.1"], ["10.0.0.9"])%string.
Proof. vm_compute. reflexivity. Qed.

(** ** The numbers of the nodes *)

Lemma imap_pair_fst {A B} (f : nat -> B) (l : list A) : (imap (fun i x => (x, f i)) l).*1 = l.
Proof. revert f. induction l as [|a l IH]; intros f; [done|]. cbn. f_equal. exact (IH (f ∘ S)). Qed.

Lemma ip_to_node_id_imap hosts :
  NoDup hosts -> ip_to_node_id hosts = imap (fun i host => (host, Z.of_nat i)) hosts.
Proof.
  unfold ip_to_node_id. intros Hnd.
  assert (forall pre rest, hosts = pre ++ rest ->
    foldl (fun d ih => dset ih.2 (Z.of_nat ih.1) d) (imap (fun i host => (host, Z.of_nat i)) pre)
      (imap (fun i host => ((length pre + i)%nat, host)) rest) = imap (fun i host => (host, Z.of_nat i)) hosts) as H.
  2:{ exact (H [] hosts eq_refl). }
  intros pre rest. revert pre. induction rest as [|h rest IH]; intros pre Heq; cbn [imap foldl].
  - by rewrite Heq, app_nil_r.
  - cbn [fst snd]. rewrite dset_new.
    2:{ unfold dkeys. rewrite imap_pair_fst.
        rewrite Heq in Hnd. apply NoDup_app in Hnd as (_ & Hd & _). intros Hin. apply (Hd h Hin). by left. }
    rewrite <-(IH (pre ++ [h])) by (by rewrite <-app_assoc). f_equal.
    + rewrite imap_app. cbn. by rewrite Nat.add_0_r.
    + apply imap_ext. intros i x _. rewrite length_app. cbn. f_equal. lia.
Qed.

Definition two_answers (t : NodeType) (region : string) : list (list Ec2Instance) :=
  match t with
  | VALIDATOR => if String.eqb region "eu" then [[MkEc2Instance "i-1" (Some "10.0.0.1"); MkEc2Instance "i-2" (Some "10.0.0.2")]]
                 else if String.eqb region "us" then [[MkEc2Instance "i-3" (Some "10.0.1.1")]; [MkEc2Instance "i-4" (Some "10.0.1.2")]]
                 else []
  | CLIENT => if String.eqb region "us" then [[MkEc2Instance "i-5" (Some "10.0.1.9")]] else []
  end%string.
Definition two_ec2 : Ec2 unit := {|
  describe_instances := fun r _ t => io_ret (match t with Some t => two_answers t r | None => [] end);
  run_instances := fun _ _ _ _ => io_ret tt;
  ec2_start_instances := fun _ _ => io_ret tt;
  ec2_stop_instances := fun _ _ => io_ret tt;
  ec2_terminate_instances := fun _ _ => io_ret tt;
  create_security_group := fun _ => io_ret tt;
  authorize_security_group_ingress := fun _ _ => io_ret tt;
  delete_security_group := fun _ => io_ret tt;
  describe_images := fun _ => io_ret [];
  wait_second := io_ret tt |}.
Definition two_regions : list string := ["eu"; "ap"; "us"]%string.

Example select_from_example :
  select_from two_ec2 two_regions 4 1 tt = (tt, Ok (["10.0.0.1"; "10.0.1.1"; "10.0.0.2"; "10.0.1.2"], ["10.0.1.9"]))%string.
Proof. vm_compute. reflexivity. Qed.

Example select_from_in_turn_witness :
  exists selected, select_from two_ec2 two_regions 4 1 tt = (tt, Ok selected)
    /\ if (4 <=? Z.of_nat (length (concat (some_addresses (two_answers VALIDATOR) two_regions))))
          && (1 <=? Z.of_nat (length (concat (some_addresses (two_answers CLIENT) two_regions))))
       then in_turn 4 (some_addresses (two_answers VALIDATOR) two_regions) selected.1
            /\ in_turn 1 (some_addresses (two_answers CLIENT) two_regions) selected.2
       else selected = ([], []).
Proof.
  apply (select_from_in_turn two_ec2 two_regions 4 1 two_answers tt); [|lia|lia|reflexivity].
  apply (bool_decide_unpack (NoDup two_regions)). vm_compute. exact I.
Defined.
