(* ===== verification/RemoteBench.v ===== *)
(** * The benchmark on the instances of AWS (benchmark_framework/remote.py)

    [RemoteBench]: the abstract methods of [Bench] as commands given to the hosts.
    The connections and the commands of this machine are parameters. *)

From S2P Require Import Prelude PyIo PyStr PyInt PyFloat PyDict PySort Naming Fields PyJson PyRepr Config Settings Bench LocalBench Instances HostSelection.

(** ** The hosts *)

(** fabric, patchwork and joblib.  [in_parallel] runs tasks on a pool of threads. *)
Record Hosts (W : Type) : Type := MkHosts {
  connection_run : string -> string -> io W string;
  connection_get : string -> string -> string -> io W unit;
  group_run : list string -> string -> io W unit;
  group_run_warn : list string -> string -> io W unit;
  rsync : string -> string -> string -> io W unit;
  in_parallel : list (io W unit) -> io W unit;
  check_run : list string -> string -> io W unit }.
Arguments connection_run {W} _ _ _.
Arguments connection_get {W} _ _ _ _.
Arguments group_run {W} _ _ _.
Arguments group_run_warn {W} _ _ _.
Arguments rsync {W} _ _ _ _.
Arguments in_parallel {W} _ _.
Arguments check_run {W} _ _ _.

(** The texts of the settings that the commands use. *)
Record RemoteSettings : Type := MkRemoteSettings {
  repo_name_text : string;
  branch_text : string;
  cmake_options_text : string }.

(** [Bench._build_local] *)
Definition build_local {W} (remote : Hosts W) (skip_build : bool) : io W unit :=
  if skip_build then io_ret tt
  else _ <~ check_run remote (split_words (cmake "-DITCOIN_CORE_SRC_DIR=../../itcoin-core")) build_path;
       check_run remote (split_words (compile "-j4")) build_path.

(** ** The testbed: the keys, the hosts of a bench and [install] *)

Definition as_text (v : pyval) : result string := match v with VStr s => Ok s | _ => Raise TypeError end.

(** [try: ... except (IOError, PasswordRequiredException, SSHException)], the second being
    one of the third. *)
Definition load_key {W} (from_private_key_file : string -> io W unit) (key_path : string) : io W unit :=
  io_except (from_private_key_file key_path)
    (fun e => lift (Raise (match e with OSError | SSHException => BenchError e | _ => e end))).

(** The shell commands of [install]; a continued line keeps its indentation. *)
Definition APT_GAP : string := "             ".
Definition apt_install (packages : list string) : string :=
  ("sudo apt install --no-install-recommends -y" ++ APT_GAP ++ join APT_GAP packages)%string.
Definition install_commands (repo_url repo_name branch cmake_options : string) : list string :=
  ["sudo apt update"; "sudo apt -y upgrade"; "sudo apt -y autoremove";
   "git clone " ++ repo_url ++ " || (cd " ++ repo_name ++ " ; git fetch --all ; cd ..)";
   apt_install ["autoconf"; "automake"; "bsdextrautils"; "ca-certificates"; "cmake"; "g++"; "gcc"; "git"; "jq"; "libtool";
                "make"; "openssh-client"; "pkg-config"; "python3"; "python3-pip"; "tmux"; "xxd"; "zlib1g-dev"];
   apt_install ["libargtable2-dev"; "libboost-filesystem1.74-dev"; "libboost-log1.74-dev"; "libboost-program-options1.74-dev";
                "libboost-test1.74-dev"; "libboost-thread1.74-dev"; "libcurl4-openssl-dev"; "libdb5.3++-dev"; "libevent-dev";
                "libsqlite3-dev"; "libssl-dev"; "libzmq3-dev"; "swi-prolog"];
   "pip install zmq";
   "cd " ++ repo_name; "git checkout -f " ++ branch; "git reset --hard origin/" ++ branch;
   "mkdir -p build"; "cd build"; "cmake " ++ cmake_options ++ " .."; "make"]%string.

Section Testbed.
Context {W : Type} (remote : Hosts W) (ec2 : Ec2 W) (from_private_key_file : string -> io W unit).

(** [InstanceManager.make()], the SSH key, then what follows with the settings and regions. *)
Definition with_testbed {A} (settings_file : result pyval) (m : Settings -> list string -> io W A) : io W A :=
  st <~ lift (make_manager settings_file);
  key <~ lift (as_text (key_path st));
  _ <~ load_key from_private_key_file key;
  regions <~ lift (mapM as_text (aws_regions st));
  m st (clients_of regions).

(** [RemoteBench.__init__]: the places, and the hosts that were selected. *)
Definition remote_init (init : io W Places) (settings_file : result pyval) (p : instance)
    : io W (Places * (list string * list string)) :=
  pl <~ init;
  selected <~ with_testbed settings_file (fun _ regions =>
    nodes <~ lift (bench_int "nodes" p);
    clients <~ lift (bench_int "clients" p);
    select_from ec2 regions nodes clients);
  io_ret (pl, selected).

Definition install (settings_file : result pyval) : io W unit :=
  with_testbed settings_file (fun st regions =>
    repo_url <~ lift (as_text (repo_url st));
    repo_name <~ lift (as_text (repo_name st));
    branch <~ lift (as_text (branch st));
    cmake_options <~ lift (py_str (cmake_options st));
    hosts <~ hosts_flat ec2 regions None;
    io_except (group_run remote hosts (join " && " (install_commands repo_url repo_name branch cmake_options)))
      (fun e => lift (Raise (match e with GroupException => BenchError FabricError | _ => e end)))).
End Testbed.

(** ** The text of the addresses of the nodes *)

(** [json.dumps(list(node_id_to_ip.items()), separators=(',', ':'))]; there are no
    floats in it. *)
Definition compact : style := MkStyle None "," ":" false.
Definition remote_config_value (node_id_to_ip : list (Z * string)) : pyval :=
  VList (map (fun ix => VList [VInt ix.1; VStr ix.2]) node_id_to_ip).
Definition remote_config_text (node_id_to_ip : list (Z * string)) : string :=
  dumps float_repr compact (remote_config_value node_id_to_ip).
(** [json.dumps] of this text, which stands for a quoted word of the command. *)
Definition remote_config_word (node_id_to_ip : list (Z * string)) : string :=
  dumps float_repr (make_style None false) (VStr (remote_config_text node_id_to_ip)).

Section Methods.
Context {W R : Type} (remote : Hosts W) (env : Machine W R) (pl : Places) (st : RemoteSettings).
Context (p : instance) (force skip_local_build : bool).
(** [self.manager.hosts(flat=True)]. *)
Context (all_hosts : io W (list string)).
(** What [_select_hosts] returned. *)
Context (selected_validators selected_clients : list string).

(** The attributes that [__init__] does not set when there are not enough hosts. *)
Definition enough_hosts : bool :=
  negb (Nat.eqb (length selected_validators) 0) && negb (Nat.eqb (length selected_clients) 0).
Definition validators_ip_to_node_id : result (list (string * Z)) :=
  if enough_hosts then Ok (ip_to_node_id selected_validators) else Raise AttributeError.
Definition clients_ip_to_node_id : result (list (string * Z)) :=
  if enough_hosts then Ok (ip_to_node_id selected_clients) else Raise AttributeError.
Definition bench_hosts : list string := selected_validators ++ selected_clients.

(** [cnx.run(cmd, asynchronous=True)], whose result is dropped. *)
Definition start_on (ip_addr cmd : string) : io W unit := _ <~ connection_run remote ip_addr cmd; io_ret tt.

Definition remote_background_run_cmd (name cmd : string) : string :=
  ("tmux new-window -t " ++ TMUX_SESSION_NAME ++ " -n " ++ name ++ " " ++ cmd)%string.
Definition in_benchmark (cmd : string) : string := ("cd " ++ remote_benchmark_path ++ " ; " ++ cmd)%string.

Definition type_value (t : NodeType) : string := match t with VALIDATOR => "validator" | CLIENT => "client" end.
Definition type_upper (t : NodeType) : string := match t with VALIDATOR => "VALIDATOR" | CLIENT => "CLIENT" end.

(** ** The nodes *)
Definition stop_bitcoind (ip_addr : string) (node_id nb_nodes : Z) (node_type : NodeType) : io W unit :=
  start_on ip_addr (kill_bitcoind (itcoin_core_path pl) node_id node_type nb_nodes true).

Definition run_bitcoind (ip_addr : string) (node_id nb_nodes : Z) (node_type : NodeType) : io W unit :=
  start_on ip_addr
    (in_benchmark (remote_background_run_cmd ("run-signet-" ++ type_value node_type ++ "-" ++ str_of_Z node_id)
      (run_signet (executable pl)
         ("--bitcoin-path " ++ bitcoin_path ++ " --itcoin-core-test-framework-path " ++ itcoin_core_test_framework_path
          ++ " --id " ++ str_of_Z node_id ++ " --node-type " ++ type_upper node_type
          ++ " --nb-of-type " ++ str_of_Z nb_nodes) true))).

Definition run_on_all (m : result (list (string * Z))) (f : Z -> string -> Z -> io W unit) : io W unit :=
  ip_to_node <~ lift m;
  let nb_nodes := Z.of_nat (length ip_to_node) in
  in_parallel remote ((fun ix => f nb_nodes ix.1 ix.2) <$> ip_to_node).

(** [_run_bitcoinds] *)
Definition remote_run_bitcoinds (m : result (list (string * Z))) (node_type : NodeType) : io W unit :=
  run_on_all m (fun nb_nodes ip_addr node_id => run_bitcoind ip_addr node_id nb_nodes node_type).
Definition remote_run_validator_bitcoinds : io W unit :=
  _ <~ remote_run_bitcoinds validators_ip_to_node_id VALIDATOR; sleep_for env 6.
Definition remote_run_client_bitcoinds : io W unit :=
  _ <~ remote_run_bitcoinds clients_ip_to_node_id CLIENT; sleep_for env 6.

(** [self.selected_validators[node_id]] *)
Definition host_at (hosts : list string) (node_id : Z) : result string :=
  or_raise IndexError (hosts !! Z.to_nat node_id).

(** [_run_miner] *)
Definition miner_command (node_id : Z) : result string :=
  nb_nodes ← text p "nodes";
  info ← fault_info p node_id;
  Ok (in_benchmark (remote_background_run_cmd ("run-replica-" ++ str_of_Z node_id)
        (run_replicas (executable pl)
           ("--itcoin-fbft-path " ++ remote_itcoin_fbft_path ++ " --id " ++ str_of_Z node_id
            ++ " --nb-validators " ++ nb_nodes ++ " " ++ info) true))).
Definition run_miner (node_id : Z) : io W unit :=
  ip_addr <~ lift (host_at selected_validators node_id);
  cmd <~ lift (miner_command node_id);
  start_on ip_addr cmd.
Definition remote_run_validators : io W unit :=
  run_on_all validators_ip_to_node_id (fun _ _ node_id => run_miner node_id).

(** [_run_donor] *)
Definition donor_command (client_addrs : list string) (node_id : Z) : result string :=
  nb_validators ← text p "nodes";
  let addresses := ("--client-address " ++ join " --client-address " client_addrs)%string in
  Ok (in_benchmark (remote_background_run_cmd ("run-donor-" ++ str_of_Z node_id)
        (run_donor (executable pl)
           ("--bitcoin-path " ++ bitcoin_path ++ " --itcoin-core-test-framework-path " ++ itcoin_core_test_framework_path
            ++ " --id " ++ str_of_Z node_id ++ " --nb-validators " ++ nb_validators ++ " " ++ addresses) true))).
Definition remote_run_donor (client_addrs : list string) (node_id : Z) : io W unit :=
  ip_addr <~ lift (host_at selected_validators node_id);
  cmd <~ lift (donor_command client_addrs node_id);
  start_on ip_addr cmd.
Definition remote_run_donors (client_addrs : list string) : io W unit :=
  run_on_all validators_ip_to_node_id (fun _ _ node_id => remote_run_donor client_addrs node_id).

(** [_run_client] *)
Definition client_command (node_id : Z) : result string :=
  nb_clients ← text p "clients";
  warmup_duration ← text p "warmup_duration";
  block_time ← text p "target_block_time";
  client_rate ← text p "rate";
  tx_size ← text p "tx_size";
  Ok (in_benchmark (remote_background_run_cmd ("run-client-" ++ str_of_Z node_id)
        (run_client (executable pl)
           ("--bitcoin-path " ++ bitcoin_path ++ " --itcoin-core-test-framework-path " ++ itcoin_core_test_framework_path
            ++ " --id " ++ str_of_Z node_id ++ " --nb-clients " ++ nb_clients ++ " --warmup-duration " ++ warmup_duration
            ++ " --block-time " ++ block_time ++ " --target-tx-rate " ++ client_rate ++ " --tx-size " ++ tx_size) true))).
Definition remote_run_client (node_id : Z) : io W unit :=
  ip_addr <~ lift (host_at selected_clients node_id);
  cmd <~ lift (client_command node_id);
  start_on ip_addr cmd.
Definition remote_run_clients : io W unit :=
  run_on_all clients_ip_to_node_id (fun _ _ node_id => remote_run_client node_id).

Fixpoint remote_addresses (ip_to_node : list (string * Z)) (clients : Z) (client_addrs : list string) : io W (list string) :=
  match ip_to_node with
  | [] => io_ret client_addrs
  | (host, node_id) :: rest =>
      let datadir := get_remote_datadir node_id CLIENT clients in
      stdout <~ connection_run remote host (bitcoin_path ++ "/bitcoin-cli -datadir=" ++ datadir ++ " getnewaddress");
      remote_addresses rest clients (client_addrs ++ [rstrip stdout])
  end.
Definition remote_get_client_addresses : io W (list string) :=
  ip_to_node <~ lift clients_ip_to_node_id;
  clients <~ lift (bench_int "clients" p);
  remote_addresses ip_to_node clients [].

(** ** Killing and cleaning *)
Definition kill (hosts : list string) (delete_logs : bool) : io W unit :=
  hosts <~ (if Nat.eqb (length hosts) 0 then all_hosts else io_ret hosts);
  let delete := if delete_logs then clean_logs else "true"%string in
  _ <~ io_except (group_run remote hosts (delete ++ " && (" ++ kill_tmux_session ++ " || true)"))
         (fun e => lift (Raise (match e with GroupException => BenchError FabricError | _ => e end)));
  _ <~ run_on_all validators_ip_to_node_id (fun nb ip_addr node_id => stop_bitcoind ip_addr node_id nb VALIDATOR);
  _ <~ run_on_all clients_ip_to_node_id (fun nb ip_addr node_id => stop_bitcoind ip_addr node_id nb CLIENT);
  shell env kill_tmux_session.
Definition remote_kill_nodes : io W unit := kill bench_hosts false.

Definition remote_clean_up : io W unit :=
  _ <~ shell env (clean_logs ++ " ; " ++ clean_output ++ " ; " ++ mk_log_dir);
  group_run remote bench_hosts
    ("cd " ++ remote_benchmark_path ++ "; " ++ clean_logs ++ " ; " ++ clean_output ++ " ; " ++ mk_log_dir).

Definition update_command : string :=
  join " && "
    ["cd " ++ repo_name_text st; "git fetch -f"; "git checkout -f " ++ branch_text st;
     "git reset --hard origin/" ++ branch_text st; "git pull -f"; "cd build"; cmake (cmake_options_text st);
     "make -j4 generated_specs/fast"; "make -j4 generated_engine/fast"; "make -j4 itcoin-fbft/fast"; "make -j4 main/fast"]%string.

Definition remote_preamble : io W unit :=
  _ <~ shell env kill_tmux_session;
  _ <~ group_run_warn remote bench_hosts kill_tmux_session;
  _ <~ shell env create_tmux_session;
  _ <~ group_run remote bench_hosts create_tmux_session;
  io_except
    (_ <~ (if skip_local_build then io_ret tt
           else _ <~ check_run remote (split_words (cmake "-DITCOIN_CORE_SRC_DIR=../../itcoin-core ..")) build_path;
                check_run remote (split_words (compile "-j4")) build_path);
     group_run remote bench_hosts update_command)
    (fun e => lift (Raise (match e with GroupException => BenchError FabricError | _ => e end))).

(** ** Setting up *)
Definition upload_datadir (host_ip_addr : string) (node_id : Z) (node_type : NodeType) (nb_hosts : Z) : io W unit :=
  let src := (output_path ++ "/" ++ get_node_dirname node_id node_type nb_hosts)%string in
  let target := (remote_benchmark_path ++ "/" ++ output_path)%string in
  rsync remote host_ip_addr src target.
Definition upload_datadirs (hosts : list string) (node_type : NodeType) : io W unit :=
  in_parallel remote (imap (fun i host => upload_datadir host (Z.of_nat i) node_type (Z.of_nat (length hosts))) hosts).

(** [{node_id: self.hosts[node_id] for node_id in range(nodes + clients)}] *)
Definition node_id_to_ip (nodes clients : Z) : result (list (Z * string)) :=
  mapM (fun node_id => host ← host_at bench_hosts node_id; Ok (node_id, host)) (range (nodes + clients)).

Definition remote_setup : io W unit :=
  io_except
    (now <~ time_now env;
     genesis_block_timestamp <~ lift (compute_genesis_block_timestamp now p);
     target_block_time <~ lift (text p "target_block_time");
     nodes <~ lift (bench_int "nodes" p);
     clients <~ lift (bench_int "clients" p);
     ids <~ lift (node_id_to_ip nodes clients);
     let json_node_id_to_ip := remote_config_word ids in
     nodes_text <~ lift (text p "nodes");
     clients_text <~ lift (text p "clients");
     let cmd := setup_signet (executable pl)
       ("--output-directory " ++ output_path ++ " --itcoin-core-dir " ++ itcoin_core_directory pl
        ++ " --nb-validators " ++ nodes_text ++ " --nb-clients " ++ clients_text
        ++ " --genesis-block-timestamp " ++ str_of_Z genesis_block_timestamp
        ++ " --target-block-time " ++ target_block_time ++ " --remote-config " ++ json_node_id_to_ip) in
     _ <~ background_run env pl "setup_signet" (cmd ++ " &> " ++ logs_path ++ "/setup_signet_logs.txt") true;
     _ <~ upload_datadirs selected_validators VALIDATOR;
     upload_datadirs selected_clients CLIENT)
    (fun e => lift (Raise (match e with GroupException => FabricError | _ => e end))).

(** ** Processing the logs *)
Definition download (hosts : list string) (log_file : Z -> result string) : io W unit :=
  progress_each (fun ih =>
    file <~ lift (log_file (Z.of_nat ih.1));
    connection_get remote ih.2 (remote_benchmark_path ++ "/" ++ file) file) (imap pair hosts).

Definition remote_process_logs (run_directory : string) : io W R :=
  let directory := (output_directory pl ++ "/" ++ run_directory)%string in
  nodes <~ lift (bench_int "nodes" p);
  clients <~ lift (bench_int "clients" p);
  _ <~ shell env (clean_logs ++ " ; " ++ mk_log_dir ++ " ; " ++ mk_node_log_dirs nodes clients);
  _ <~ print_parameters env (logs_path ++ "/bench_parameters.json");
  _ <~ download selected_validators (fun i => miner_log_file i nodes);
  _ <~ download selected_clients (fun i => client_log_file i clients);
  _ <~ copytree env logs_path directory;
  parse_run env directory (output_directory pl).

(** ** Methods that nothing calls *)

(** [_run_miners]: [_run_miner] takes one argument and is given five. *)
Definition run_miners (ip_to_node_id : list (string * Z)) (nb_faults : Z) (fault_time : float) : io W unit :=
  in_parallel remote ((fun _ => lift (Raise TypeError)) <$> ip_to_node_id).

(** [_get_clients_addresses]: [_get_client_addresses] after a sleep. *)
Definition get_clients_addresses : io W (list string) := _ <~ sleep_for env 3; remote_get_client_addresses.

(** [_get_network_stats], over the results of the group by host and the file system. *)
Definition ping_command : string :=
  ("for IP in {" ++ join "," bench_hosts ++ "}; do ping -w 10 -c 5 -q -n $IP ; done")%string.
Definition get_network_stats (group_results : list string -> string -> io W (list (string * string)))
    (make_directories : string -> io W unit) (write_file : string -> string -> io W unit) (run_directory : string) : io W unit :=
  results <~ group_results bench_hosts ping_command;
  _ <~ make_directories run_directory;
  write_file (run_directory ++ "/network_stats.txt")%string
    (join "" ((fun r => "Ping results for host: " ++ r.1 ++ r.2)%string <$> results)).

Definition remote_bench : Bench W R := {|
  kill_nodes := remote_kill_nodes;
  clean_up := remote_clean_up;
  preamble := remote_preamble;
  setup := remote_setup;
  run_validator_bitcoinds := remote_run_validator_bitcoinds;
  run_validators := remote_run_validators;
  run_client_bitcoinds := remote_run_client_bitcoinds;
  get_client_addresses := remote_get_client_addresses;
  run_donors := remote_run_donors;
  run_clients := remote_run_clients;
  process_logs := remote_process_logs;
  sleep := sleep_for env;
  tmp_cleanup := cleanup_tmpdir env;
  remove_dir_or_fail := remove_directory_or_fail env force (output_directory pl);
  mkdir_output := make_directory env (output_directory pl);
  print_result := fun file => print_run env (output_directory pl ++ "/" ++ file) |}.
End Methods.

(** ** Every node on its host *)

Section Assignment.
Context {W R : Type} (remote : Hosts W) (pl : Places) (p : instance).
Context (selected_validators selected_clients : list string).

Lemma run_on_all_imap hosts (f : Z -> string -> Z -> io W unit) w :
  NoDup hosts ->
  run_on_all remote (Ok (ip_to_node_id hosts)) f w
  = in_parallel remote (imap (fun i ip => f (Z.of_nat (length hosts)) ip (Z.of_nat i)) hosts) w.
Proof.
  intros Hnd. unfold run_on_all, io_bind, lift. rewrite ip_to_node_id_imap by done.
  rewrite length_imap, fmap_imap. done.
Qed.

(** When the selected hosts are distinct, one replica is started on each of
    them, with the number of its place in the selection, and the same for the
    [bitcoind]s of the validators, which are told how many they are. *)
Theorem remote_validators_on_their_hosts w :
  NoDup selected_validators -> enough_hosts selected_validators selected_clients = true ->
  remote_run_validators remote pl p selected_validators selected_clients w
  = in_parallel remote
      (imap (fun i ip w => match miner_command pl p (Z.of_nat i) with
                           | Ok cmd => start_on remote ip cmd w
                           | Raise e => (w, Raise e)
                           end) selected_validators) w
  /\ remote_run_bitcoinds remote pl (validators_ip_to_node_id selected_validators selected_clients) VALIDATOR w
     = in_parallel remote
         (imap (fun i ip => run_bitcoind remote pl ip (Z.of_nat i) (Z.of_nat (length selected_validators)) VALIDATOR)
            selected_validators) w.
Proof.
  intros Hnd He. unfold remote_run_validators, remote_run_bitcoinds, validators_ip_to_node_id. rewrite He.
  rewrite !run_on_all_imap by done. split; [|done]. f_equal. apply imap_ext. intros i ip Hi.
  unfold run_miner, host_at. rewrite Nat2Z.id, Hi. unfold io_bind at 1, lift at 1. cbn [or_raise].
  unfold io_bind, lift. by destruct (miner_command _ _ _).
Qed.
End Assignment.

Lemma mapM_total {A B} (f : A -> result B) (g : A -> B) l :
  (forall a, a ∈ l -> f a = Ok (g a)) -> mapM f l = Ok (g <$> l).
Proof. intros H. apply mapM_Ok, Forall2_fmap_r, Forall_Forall2_diag, Forall_forall. exact H. Qed.

Lemma dget_fmap_range {B} (g : Z -> B) n i : 0 <= i < n -> dget i ((fun k => (k, g k)) <$> range n) = Some (g i).
Proof.
  intros Hi. apply elem_dget_Some.
  - unfold dkeys. rewrite <-list_fmap_compose. unfold compose. cbn. rewrite list_fmap_id. apply NoDup_seqZ.
  - apply list_elem_of_fmap. exists i. split; [done|]. by apply elem_of_range.
Qed.

(** When there is a host for every node, the addresses given to [setup-signet.py]
    are those of the validators under the first numbers and those of the clients
    under the next ones. *)
Lemma node_id_to_ip_assigns selected_validators selected_clients :
  let nodes := Z.of_nat (length selected_validators) in
  let clients := Z.of_nat (length selected_clients) in
  exists ids, node_id_to_ip selected_validators selected_clients nodes clients = Ok ids
    /\ ids.*1 = range (nodes + clients)
    /\ (forall i, 0 <= i < nodes -> dget i ids = selected_validators !! Z.to_nat i)
    /\ (forall j, 0 <= j < clients -> dget (nodes + j) ids = selected_clients !! Z.to_nat j).
Proof.
  intros nodes clients. set (hosts := bench_hosts selected_validators selected_clients).
  assert (forall i, 0 <= i < nodes + clients -> hosts !! Z.to_nat i = Some (hosts !!! Z.to_nat i)) as Hh.
  { intros i Hi. apply list_lookup_lookup_total_lt. unfold hosts, bench_hosts. rewrite length_app. lia. }
  exists ((fun i => (i, hosts !!! Z.to_nat i)) <$> range (nodes + clients)). split.
  - apply mapM_total. intros i Hi%elem_of_range. fold hosts. unfold host_at. by rewrite Hh.
  - split; [by rewrite <-list_fmap_compose; unfold compose; cbn; rewrite list_fmap_id|]. split.
    + intros i Hi. rewrite dget_fmap_range, <-Hh by lia. unfold hosts, bench_hosts. apply lookup_app_l. lia.
    + intros j Hj. rewrite dget_fmap_range, <-Hh by lia. unfold hosts, bench_hosts.
      rewrite lookup_app_r by lia. f_equal. lia.
Qed.

(** A group that fails while the nodes are set up: [FabricError] is none of the
    exceptions that [Bench.run] takes, so the nodes are not killed. *)
Lemma remote_setup_escapes {W R} (b : Bench W R) (p : instance) i runs w w1 w2 :
  clean_up b w = (w1, Ok tt) -> setup b w1 = (w2, Raise FabricError) -> run_once b p i runs w = (w2, Raise FabricError).
Proof. intros Hc Hs. unfold run_once, io_except, run_body. unfold io_bind at 1. rewrite Hc. unfold io_bind at 1. by rewrite Hs. Qed.

(** ** Witnesses *)

Definition toy_hosts : Hosts (list (string * string)) := {|
  connection_run := fun ip cmd w => (w ++ [(ip, cmd)], Ok EmptyString);
  connection_get := fun _ _ _ => io_ret tt;
  group_run := fun _ _ => io_ret tt;
  group_run_warn := fun _ _ => io_ret tt;
  rsync := fun _ _ _ => io_ret tt;
  in_parallel := fun tasks => io_each (fun m => m) tasks;
  check_run := fun _ _ => io_ret tt |}.
Definition toy_validators : list string := ["10.0.0.1"; "10.0.1.1"; "10.0.0.2"; "10.0.1.2"]%string.

Example remote_validators_on_their_hosts_witness :
  remote_run_validators toy_hosts toy_places example_instance toy_validators ["10.0.2.1"%string] []
  = in_parallel toy_hosts
      (imap (fun i ip w => match miner_command toy_places example_instance (Z.of_nat i) with
                           | Ok cmd => start_on toy_hosts ip cmd w
                           | Raise e => (w, Raise e)
                           end) toy_validators) []
  /\ remote_run_bitcoinds toy_hosts toy_places (validators_ip_to_node_id toy_validators ["10.0.2.1"%string]) VALIDATOR []
     = in_parallel toy_hosts
         (imap (fun i ip => run_bitcoind toy_hosts toy_places ip (Z.of_nat i) (Z.of_nat (length toy_validators)) VALIDATOR)
            toy_validators) [].
Proof.
  apply (remote_validators_on_their_hosts toy_hosts toy_places example_instance toy_validators
           ["10.0.2.1"%string] []); [|done].
  apply (bool_decide_unpack (NoDup toy_validators)). vm_compute. exact I.
Defined.

