(* ===== verification/Tasks.v ===== *)
(** * The tasks of the command line (benchmark/fabfile.py)

    The fabric tasks over the operations they call: what they catch, what they print and
    in which order they run experiments.  The constructors of the benches, the reading of
    a file and what is printed are effects of the world. *)

From S2P Require Import Prelude PyIo PyStr PyInt PyFloat PyDict PySort FileSystem Naming Fields PyJson PyRepr Config ParameterFiles RunResult ResultText ClientLog LogFiles Bench LocalBench Settings Instances RemoteBench.

(** [distutils.util.strtobool] *)
Definition strtobool (val : string) : result bool :=
  let val := lower val in
  if bool_decide (val ∈ ["y"; "yes"; "t"; "true"; "on"; "1"]%string) then Ok true
  else if bool_decide (val ∈ ["n"; "no"; "f"; "false"; "off"; "0"]%string) then Ok false
  else Raise ValueError.

(** [PurePath.stem] of a name: without its last suffix, unless the name starts with it. *)
Fixpoint last_dot (s : string) (n : nat) : option nat :=
  match s with
  | EmptyString => None
  | String c s' => match last_dot s' (S n) with
                   | Some i => Some i
                   | None => if Ascii.eqb c "." then Some n else None
                   end
  end.
Definition stem (name : string) : string :=
  match last_dot name 0 with
  | Some i => if (0 <? i)%nat && (i <? String.length name - 1)%nat then str_take i name else name
  | None => name
  end.

(** The names that [glob("*.json")] matches. *)
Definition endswith (suffix s : string) : bool :=
  let n := (String.length s - String.length suffix)%nat in
  (String.length suffix <=? String.length s)%nat && String.eqb (str_drop n s) suffix.

(** The causes that [Print.error] numbers: that of the error, once for each level. *)
Fixpoint error_causes_from (cause current_cause : exn) : list exn :=
  match current_cause with
  | BenchError next => cause :: error_causes_from cause next
  | _ => [current_cause; current_cause]
  end.
Definition error_causes (e : exn) : list exn :=
  match e with BenchError cause => error_causes_from cause cause | _ => [] end.

Section Tasks.
Context {W : Type} (percentile : list float -> Z -> result float).
(** [print] and [Print.error]. *)
Context (echo : string -> io W unit) (echo_error : exn -> io W unit).

(** [except BenchError as e: Print.error(e)] *)
Definition task_except (m : io W unit) : io W unit :=
  io_except m (fun e => match e with BenchError _ => echo_error e | _ => lift (Raise e) end).

(** ** [local] and [remote] *)

(** [BenchParameters.from_file], and a bench for the parameters and an output directory,
    from its constructor to the end of its [run]. *)
Context (from_file : string -> io W instance).
Definition summaries (results : list RunResult) : io W unit :=
  io_each (fun ir : nat * RunResult =>
    _ <~ echo ("Summary for run " ++ str_of_Z (Z.of_nat ir.1));
    text <~ lift (summary percentile ir.2);
    echo text) (imap pair results).

Definition bench_task (bench_run : instance -> string -> io W (list RunResult)) (config_file output_directory : string) : io W unit :=
  task_except
    (benchmark_parameters <~ from_file config_file;
     ret <~ bench_run benchmark_parameters output_directory;
     summaries ret).

(** ** [create], [destroy], [start], [stop] and [info] *)
Context (ec2 : Ec2 W) (settings_file : result pyval) (fuel : nat).

(** [InstanceManager.make()], then an operation with the regions of the settings. *)
Definition with_manager (m : Settings -> list string -> io W unit) : io W unit :=
  s <~ lift (make_manager settings_file);
  regions <~ lift (mapM as_text (aws_regions s));
  m s (clients_of regions).

Definition create (nodes clients : Z) : io W unit :=
  task_except
    (_ <~ with_manager (fun s regions => create_instances ec2 regions (consensus_port s) (bitcoind_port s) fuel nodes VALIDATOR);
     with_manager (fun s regions => create_instances ec2 regions (consensus_port s) (bitcoind_port s) fuel clients CLIENT)).
Definition destroy : io W unit := task_except (with_manager (fun _ regions => terminate_instances ec2 regions fuel)).
Definition start_task (max : Z) : io W unit := task_except (with_manager (fun _ regions => start_instances ec2 regions max)).
Definition stop_task : io W unit := task_except (with_manager (fun _ regions => stop_instances ec2 regions)).
Definition info : io W unit :=
  task_except (io_each (fun t =>
    with_manager (fun s regions =>
      key <~ lift (as_text (key_path s)); text <~ print_info ec2 regions key t; echo text)) [VALIDATOR; CLIENT]).

Definition install_task (remote : Hosts W) (from_private_key_file : string -> io W unit) (settings_filepath : result pyval)
    : io W unit :=
  task_except (install remote ec2 from_private_key_file settings_filepath).

(** ** [logs] *)

(** [LogParser.process(..).result()], and the calls of [remove_dir_or_fail]. *)
Context {R : Type} (env : Machine W R) (process_directory : string -> string -> io W RunResult).

Definition logs (log_dir output_dir : string) : io W unit :=
  io_except
    (_ <~ remove_directory_or_fail env false output_dir;
     _ <~ make_directory env output_dir;
     result <~ process_directory log_dir output_dir;
     text <~ lift (summary percentile result);
     echo text)
    (fun e => match e with ParseError => echo_error (BenchError e) | _ => lift (Raise e) end).

(** ** [run_all] *)

(** The names in a directory. *)
Context (listdir : string -> W -> list string).
Context (local_run remote_run : instance -> string -> io W (list RunResult)).

Definition config_files (directory : string) (w : W) : list string :=
  rev (sorted str_le (List.filter (endswith ".json") (listdir directory w))).

Definition experiment (is_local : bool) (config_directory output_directory config_file : string) : io W unit :=
  let experiment_output_dir := (output_directory ++ "/" ++ stem config_file)%string in
  parameters <~ from_file (config_directory ++ "/" ++ config_file)%string;
  _ <~ (if is_local then local_run else remote_run) parameters experiment_output_dir;
  io_ret tt.

Definition run_all (config_directory is_local output_directory : string) : io W unit :=
  is_local <~ lift (strtobool is_local);
  _ <~ remove_directory_or_fail env false output_directory;
  _ <~ make_directory env output_directory;
  files <~ (fun w => (w, Ok (config_files config_directory w)));
  io_each (experiment is_local config_directory output_directory) files.
End Tasks.

(** ** The errors that are printed *)

Definition is_bench_error (e : exn) : bool := match e with BenchError _ => true | _ => false end.

(** Every level of an error prints the first cause again, not its own. *)
Lemma error_causes_repeat n e :
  is_bench_error e = false ->
  let cause := Nat.iter n BenchError e in
  error_causes (BenchError cause) = replicate n cause ++ [e; e].
Proof.
  intros He cause. unfold error_causes. assert (forall m c, error_causes_from c (Nat.iter m BenchError e) = replicate m c ++ [e; e]) as H.
  { intros m c. induction m as [|m IH]; [by destruct e|]. change (c :: error_causes_from c (Nat.iter m BenchError e) = c :: (replicate m c ++ [e; e])). by f_equal. }
  apply H.
Qed.

(** ** The experiments *)

Lemma last_dot_app a b n i : last_dot b (n + String.length a) = Some i -> last_dot (a ++ b) n = Some i.
Proof.
  revert n. induction a as [|c a IH]; intros n; cbn [String.length append last_dot]; [by rewrite Nat.add_0_r|].
  intros H. rewrite (IH (S n)); [done|]. rewrite <-H. f_equal. lia.
Qed.

Lemma str_take_app a b : str_take (String.length a) (a ++ b) = a.
Proof. induction a as [|c a IH]; [by destruct b|]. cbn. by rewrite IH. Qed.

Lemma stem_json a : a <> EmptyString -> stem (a ++ ".json") = a.
Proof.
  intros Ha. unfold stem. rewrite (last_dot_app a ".json" 0 (String.length a)) by done. rewrite str_length_app. cbn [String.length].
  rewrite (proj2 (Nat.ltb_lt _ _)) by (destruct a; [done|cbn; lia]). rewrite (proj2 (Nat.ltb_lt _ _)) by lia. cbn [andb].
  apply str_take_app.
Qed.

Lemma endswith_app suffix s : endswith suffix s = true -> exists a, s = (a ++ suffix)%string.
Proof.
  unfold endswith. intros [_ E%String.eqb_eq]%andb_true_iff. exists (str_take (String.length s - String.length suffix) s).
  rewrite <-E at 2. by rewrite str_take_drop.
Qed.

(** Different files have different stems, but for one that is only a suffix. *)
Lemma stems_NoDup files :
  Forall (fun f => endswith ".json" f = true /\ f <> ".json"%string) files -> NoDup files -> NoDup (stem <$> files).
Proof.
  intros Hall Hnd. apply NoDup_fmap_2_strong; [|done]. rewrite Forall_forall in Hall. intros f g Hf Hg E.
  destruct (Hall f Hf) as [[a ->]%endswith_app Ha], (Hall g Hg) as [[b ->]%endswith_app Hb].
  rewrite !stem_json in E by (by intros ->). by subst.
Qed.

(** The configurations of a directory, in descending order. *)
Definition descending (files : list string) : Prop := Sorted (fun a b => str_le b a = true) files.

Lemma Sorted_rev_flip {A} (R : A -> A -> Prop) l : Transitive R -> Sorted R l -> Sorted (flip R) (rev l).
Proof.
  intros HT Hl. apply Sorted_StronglySorted in Hl; [|exact HT]. induction Hl as [|a l Hl IH Ha]; [constructor|]. cbn [rev].
  assert (forall k, Sorted (flip R) k -> Forall (R a) k -> Sorted (flip R) (k ++ [a])) as Hsnoc.
  { intros k Hk. induction Hk as [|x k Hk IHk Hx]; intros Hall; [by repeat constructor|]. apply Forall_cons in Hall as [Hax Hall].
    cbn [app]. constructor; [by apply IHk|]. destruct k; [by constructor|]. inversion_clear Hx. by constructor. }
  apply Hsnoc; [done|]. rewrite Forall_forall in Ha. apply Forall_forall. intros x Hx. apply Ha.
  apply list_elem_of_In, in_rev, list_elem_of_In in Hx. exact Hx.
Qed.

#[local] Instance str_le_trans : Transitive (fun a b => str_le a b = true).
Proof.
  intros a b c. unfold str_le. destruct (String.compare a b) eqn:E1; [|intros _|done].
  - apply String.compare_eq_iff in E1 as ->. done.
  - destruct (String.compare b c) eqn:E2; [|intros _|done].
    + apply String.compare_eq_iff in E2 as <-. by rewrite E1.
    + by rewrite (str_lt_trans _ _ _ E1 E2).
Qed.

Section RunAll.
Context {W R : Type} (from_file : string -> io W instance) (env : Machine W R) (listdir : string -> W -> list string).
Context (local_run remote_run : instance -> string -> io W (list RunResult)).

(** C32: [run_all] fails before the experiments, or runs those of the directory one after the
    other in descending order of the names, each with the parameters of its own file; the
    first that raises ends the task with its exception, whatever it is, and no two have the
    same output directory unless a file is named by the suffix alone. *)
Theorem run_all_outcome config_directory is_local output_directory w w' r :
  run_all from_file env listdir local_run remote_run config_directory is_local output_directory w = (w', r) ->
  (exists e, r = Raise e /\ (strtobool is_local = Raise e \/
     (_ <~ remove_directory_or_fail env false output_directory; make_directory env output_directory) w = (w', Raise e)))
  \/ exists b w1, strtobool is_local = Ok b
       /\ (_ <~ remove_directory_or_fail env false output_directory; make_directory env output_directory) w = (w1, Ok tt)
       /\ let files := config_files listdir config_directory w1 in
          let run := experiment from_file local_run remote_run b config_directory output_directory in
          descending files
          /\ (NoDup (listdir config_directory w1) -> ".json"%string ∉ files ->
              NoDup ((fun f => output_directory ++ "/" ++ stem f)%string <$> files))
          /\ match r with
             | Ok _ => done run files w1 w'
             | Raise e => exists before f after w2, files = before ++ f :: after /\ done run before w1 w2 /\ run f w2 = (w', Raise e)
             end.
Proof.
  unfold run_all. unfold io_bind at 1, lift. destruct (strtobool is_local) as [b|e].
  2:{ intros [= <- <-]. left. exists e. by auto. }
  unfold io_bind. destruct (remove_directory_or_fail env false output_directory w) as [w0 [[]|e]].
  2:{ intros [= <- <-]. left. exists e. auto. }
  destruct (make_directory env output_directory w0) as [w1 [[]|e]].
  2:{ intros [= <- <-]. left. exists e. auto. }
  intros H. right. exists b, w1. split; [done|]. split; [done|]. split; [|split].
  - unfold descending, config_files. apply (Sorted_rev_flip (fun a b => str_le a b = true)); [apply str_le_trans|].
    apply sorted_Sorted, str_le_total.
  - intros Hnd Hsuffix.
    assert (forall f, f ∈ config_files listdir config_directory w1 <->
              In f (List.filter (endswith ".json") (listdir config_directory w1))) as Hin.
    { intros f. unfold config_files. by rewrite list_elem_of_In, <-in_rev, <-list_elem_of_In, sorted_perm, list_elem_of_In. }
    pose proof (list_fmap_compose stem (fun x => output_directory ++ "/" ++ x)%string) as Hcomp.
    rewrite (Hcomp (config_files listdir config_directory w1) : (fun f => output_directory ++ "/" ++ stem f)%string <$> _ = _).
    apply NoDup_fmap_2_strong; [intros x y _ _; by intros E%str_app_inj_l%(str_app_inj_l "/")|].
    apply stems_NoDup.
    + apply Forall_forall. intros f Hf. split; [|by intros ->]. apply Hin, filter_In in Hf. by destruct Hf.
    + unfold config_files. apply NoDup_ListNoDup, List.NoDup_rev, NoDup_ListNoDup. rewrite sorted_perm.
      by apply NoDup_ListNoDup, List.NoDup_filter, NoDup_ListNoDup.
  - apply io_each_outcome in H. exact H.
Qed.
End RunAll.

(** ** Witness *)

Definition toy_listdir (dir : string) (w : ToyState) : list string := ["b.json"; "notes.txt"; "a.json"]%string.
Definition toy_experiments (p : instance) (out : string) : io ToyState (list RunResult) := fun w =>
  (MkToy (out :: toy_running w) (toy_tmp w) (toy_slept w), Ok []).
Definition toy_run_all : ToyState * result unit :=
  run_all (fun _ => io_ret two_runs) toy toy_listdir toy_experiments toy_experiments "configs" "Yes" "out" toy_start.

Example toy_run_all_order : toy_run_all = (MkToy ["out/a"; "out/b"]%string true 0, Ok tt).
Proof. vm_compute. reflexivity. Qed.

Example run_all_outcome_witness :
  (exists e, toy_run_all.2 = Raise e /\ (strtobool "Yes" = Raise e \/
     (_ <~ remove_directory_or_fail toy false "out"; make_directory toy "out") toy_start = (toy_run_all.1, Raise e)))
  \/ exists b w1, strtobool "Yes" = Ok b
       /\ (_ <~ remove_directory_or_fail toy false "out"; make_directory toy "out") toy_start = (w1, Ok tt)
       /\ let files := config_files toy_listdir "configs" w1 in
          let run := experiment (fun _ => io_ret two_runs) toy_experiments toy_experiments b "configs" "out" in
          descending files
          /\ (NoDup (toy_listdir "configs" w1) -> ".json"%string ∉ files ->
              NoDup ((fun f => "out" ++ "/" ++ stem f)%string <$> files))
          /\ match toy_run_all.2 with
             | Ok _ => done run files w1 toy_run_all.1
             | Raise e => exists before f after w2, files = before ++ f :: after /\ done run before w1 w2 /\ run f w2 = (toy_run_all.1, Raise e)
             end.
Proof.
  pose proof (run_all_outcome (fun _ => io_ret two_runs) toy toy_listdir toy_experiments toy_experiments "configs" "Yes" "out"
    toy_start toy_run_all.1 toy_run_all.2) as H.
  apply H. vm_compute. reflexivity.
Defined.
