(* ===== verification/SignetConfig.v ===== *)
(** * The configuration of the signet (benchmark/setup-signet.py)

    [byte_to_base58] and [SignetDirectoryBuilder]: the names of the directories, the
    configuration of each [bitcoind] and that of each replica.  Random numbers are a
    stream of draws that [randrange] takes in order; the bitcoin test framework,
    [rpcauth.py] and the hash are parameters. *)

From S2P Require Import Prelude PyStr PyInt PyFloat PyDict PySort Naming Fields.

(** ** Base 58 *)
Definition chars : string := "123456789ABCDEFGHJKLMNPQRSTUVWXYZabcdefghijkmnopqrstuvwxyz".

(** [chars[i]] *)
Definition char_at (i : Z) : ascii := default nl (String.get (Z.to_nat i) chars).

(** [int.from_bytes(b, "big")], a byte being an integer. *)
Definition from_bytes (b : list Z) : Z := foldl (fun value byte => 256 * value + byte) 0 b.

(** [while value > 0]; [fuel] bounds the digits. *)
Fixpoint base58_digits (fuel : nat) (value : Z) (result : string) : string :=
  match fuel with
  | O => result
  | S f => if 0 <? value then base58_digits f (value / 58) (String (char_at (value mod 58)) result) else result
  end.

(** [while b[0] == 0], an [IndexError] when no byte is left. *)
Fixpoint leading_ones (b : list Z) (s : string) : result string :=
  match b with
  | [] => Raise IndexError
  | byte :: b' => if byte =? 0 then leading_ones b' (String (char_at 0) s) else Ok s
  end.

Section Base58.
(** [sha256], and the digest as the integers of its bytes. *)
Variable sha256 : list Z -> list Z.
Definition hash256 (s : list Z) : list Z := sha256 (sha256 s).

Definition with_checksum (b : list Z) (version : Z) : list Z :=
  let b := version :: b in b ++ take 4 (hash256 b).

Definition byte_to_base58 (b : list Z) (version : Z) : result string :=
  let b := with_checksum b version in
  let value := from_bytes b in
  leading_ones b (base58_digits (S (Z.to_nat (Z.log2 value))) value EmptyString).
End Base58.

(** ** The constants *)
Definition LOCALHOST : string := "127.0.0.1".
Definition PORT_START : Z := 38000.
Definition RPC_PORT_START : Z := 37000.
Definition FBFT_REPLICA_SET_PORT_START : Z := 13000.
Definition ZMQ_PORT_START_PUBHASHTX : Z := 29000.
Definition ZMQ_PORT_START_PUBITCOINBLOCK : Z := 30000.
Definition MAX_BITCOIND_OUTBOUND_CONNECTIONS : Z := 10.
Definition RPC_BIND : string := "127.0.0.1".
Definition RPC_ALLOW_IP : string := "127.0.0.1/0".

(** ** The builder *)

(** The attributes of [SignetDirectoryBuilder] that the configurations read. *)
Record Builder : Type := MkBuilder {
  nb_validators : Z;
  nb_clients : Z;
  genesis_block_timestamp : Z;
  target_block_time : Z;
  remote_config : option (list (Z * string));
  build_called : bool }.

Definition get_validator_dirname (b : Builder) (validator_id : Z) : string :=
  get_node_dirname validator_id VALIDATOR (nb_validators b).
Definition get_client_dirname (b : Builder) (client_id : Z) : string :=
  get_node_dirname client_id CLIENT (nb_clients b).

(** The directory of a node, in [_get_bitcoind_config_file_path] and in [build]. *)
Definition node_dirname (b : Builder) (node_id : Z) : string :=
  if node_id <? nb_validators b then get_validator_dirname b node_id
  else get_client_dirname b (node_id - nb_validators b).
Definition get_bitcoind_config_file_path (output_directory : string) (b : Builder) (node_id : Z) : string :=
  (output_directory ++ "/" ++ node_dirname b node_id ++ "/bitcoin.conf")%string.
Definition get_miner_config_file_path (output_directory : string) (b : Builder) (node_id : Z) : result string :=
  _ ← py_assert ((0 <=? node_id) && (node_id <? nb_validators b));
  Ok (output_directory ++ "/" ++ get_validator_dirname b node_id ++ "/miner.conf.json")%string.

(** [_check_build_called] and the assignment after it. *)
Definition start_build (b : Builder) : result Builder :=
  _ ← ensure (negb (build_called b)) ValueError;
  Ok (MkBuilder (nb_validators b) (nb_clients b) (genesis_block_timestamp b) (target_block_time b) (remote_config b) true).

(** [stdout.splitlines()[1]] of [rpcauth.py], then [.split("=")[1].split(":")]. *)
Fixpoint split_at (c : ascii) (cur s : string) : list string :=
  match s with
  | EmptyString => [str_rev_app cur EmptyString]
  | String d s' => if Ascii.eqb d c then str_rev_app cur EmptyString :: split_at c EmptyString s'
                   else split_at c (String d cur) s'
  end.
Definition get_new_rpc_credentials (stdout : string) : result (string * string) :=
  rpcauth_line ← or_raise IndexError (splitlines stdout !! 1%nat);
  right ← or_raise IndexError (split_at "=" EmptyString rpcauth_line !! 1%nat);
  match split_at ":" EmptyString right with
  | [user; password] => Ok (user, password)
  | _ => Raise ValueError
  end.

(** *** The peers *)
Definition use_remote_config (b : Builder) : bool := match remote_config b with Some _ => true | None => false end.

(** The [addnode] line of a node. *)
Definition addnode_line (b : Builder) (node : Z) : result string :=
  match remote_config b with
  | Some ips => ip ← dlookup node ips; Ok ("addnode=" ++ ip ++ ":" ++ str_of_Z PORT_START)%string
  | None => Ok ("addnode=" ++ LOCALHOST ++ ":" ++ str_of_Z (PORT_START + node))%string
  end.

Definition nb_validator_connections (b : Builder) : Z := Z.min (nb_validators b) MAX_BITCOIND_OUTBOUND_CONNECTIONS.

Definition validator_lines (b : Builder) (node_id : Z) : result (list string) :=
  mapM (fun i => addnode_line b (i mod nb_validators b)) (seqZ node_id (nb_validator_connections b)).

(** Draw until the node is not selected yet. *)
Fixpoint pick (b : Builder) (selected draws : list Z) : result (Z * list Z) :=
  match draws with
  | [] => Raise OutOfFuel
  | d :: rest =>
      let node_i := nb_validators b + d in
      if bool_decide (node_i ∈ selected) then pick b selected rest else Ok (node_i, rest)
  end.

Fixpoint client_lines (n : nat) (b : Builder) (selected : list Z) (lines : list string) (draws : list Z)
    : result (list string * list Z) :=
  match n with
  | O => Ok (lines, draws)
  | S n =>
      nd ← pick b selected draws;
      line ← addnode_line b nd.1;
      client_lines n b (selected ++ [nd.1]) (lines ++ [line]) nd.2
  end.

Definition nb_client_connections (b : Builder) : Z :=
  Z.min (nb_clients b) (MAX_BITCOIND_OUTBOUND_CONNECTIONS - nb_validator_connections b).

Definition addnode_lines (b : Builder) (node_id : Z) (draws : list Z) : result (list string * list Z) :=
  lines ← validator_lines b node_id;
  client_lines (Z.to_nat (nb_client_connections b)) b [] lines draws.

(** *** The files *)

(** A port of a node: each machine has its own, or all share one machine. *)
Definition port_of (b : Builder) (start node_id : Z) : Z := if use_remote_config b then start else start + node_id.

(** [_create_bitcoind_config]: the text that is written. *)
Definition create_bitcoind_config (b : Builder) (node_id : Z) (signet_challenge rpcauth_stdout : string) (draws : list Z)
    : result (string * list Z) :=
  credentials ← get_new_rpc_credentials rpcauth_stdout;
  ld ← addnode_lines b node_id draws;
  let config_file_contents := join NL
    ["signet=1"; ""; "[signet]";
     "signetchallenge=" ++ signet_challenge;
     "port=" ++ str_of_Z (port_of b PORT_START node_id);
     "rpcport=" ++ str_of_Z (port_of b RPC_PORT_START node_id);
     "rpcuser=" ++ credentials.1;
     "rpcpassword=" ++ credentials.2;
     "rpcbind=" ++ RPC_BIND;
     "rpcallowip=" ++ RPC_ALLOW_IP;
     "zmqpubhashtx=tcp://127.0.0.1:" ++ str_of_Z (port_of b ZMQ_PORT_START_PUBHASHTX node_id);
     "zmqpubitcoinblock=tcp://127.0.0.1:" ++ str_of_Z (port_of b ZMQ_PORT_START_PUBITCOINBLOCK node_id);
     "debug=leveldb"; "debug=reindex"; "debug=coindb"; "debug=prune"; "debug=net"; "debug=http"; "debug=zmq"; "";
     "# connect to peers"; ""]%string in
  Ok ((config_file_contents ++ join NL ld.1)%string, ld.2).

(** [_create_miner_config]: the document that is written, the keys of the replicas
    being pairs of an address and a private key. *)
Definition replica_entry (b : Builder) (frost_pubkeys : list pyval) (replica_id : nat) (keys : string * string) : result pyval :=
  host ← match remote_config b with Some ips => dlookup (Z.of_nat replica_id) ips | None => Ok LOCALHOST end;
  pubkey ← or_raise IndexError (frost_pubkeys !! replica_id);
  Ok (VDict [("host", VStr host); ("port", VInt (port_of b FBFT_REPLICA_SET_PORT_START (Z.of_nat replica_id)));
             ("p2pkh", VStr keys.1); ("pubkey", pubkey)])%string.

Definition create_miner_config (output_directory : string) (b : Builder) (node_id : Z)
    (signet_key_pairs : list (string * string)) (frost_pubkeys : list pyval) : result (string * pyval) :=
  path ← get_miner_config_file_path output_directory b node_id;
  replicas ← mapM (fun ik => replica_entry b frost_pubkeys ik.1 ik.2) (imap pair signet_key_pairs);
  Ok (path,
      VDict [("id", VInt node_id);
             ("genesis_block_hash", VStr "49dc109285f9a914c1d16a6b03bb139ef298e97c1d561bc805dad5e8463ec26f");
             ("genesis_block_timestamp", VInt (genesis_block_timestamp b));
             ("target_block_time", VInt (target_block_time b));
             ("fbft_replica_set", VList replicas)])%string.

(** ** Base 58 is positional *)

Fixpoint index_of (c : ascii) (s : string) : Z :=
  match s with EmptyString => -1 | String d s' => if Ascii.eqb c d then 0 else 1 + index_of c s' end.
(** The number that a string of base 58 stands for. *)
Fixpoint base58_value_from (acc : Z) (s : string) : Z :=
  match s with EmptyString => acc | String c s' => base58_value_from (58 * acc + index_of c chars) s' end.
Definition base58_value (s : string) : Z := base58_value_from 0 s.
(** How many items are zero, or the character of zero, at the beginning. *)
Fixpoint zero_bytes (b : list Z) : nat := match b with byte :: b' => if byte =? 0 then S (zero_bytes b') else 0 | [] => 0 end.
Fixpoint zero_chars (s : string) : nat :=
  match s with String c s' => if Ascii.eqb c (char_at 0) then S (zero_chars s') else 0 | EmptyString => 0 end.

Lemma index_of_char_at i : 0 <= i < 58 -> index_of (char_at i) chars = i.
Proof.
  intros Hi. assert (forallb (fun i => index_of (char_at i) chars =? i) (range 58) = true) as H by (vm_compute; reflexivity).
  rewrite forallb_forall in H. apply Z.eqb_eq, H, list_elem_of_In, elem_of_range. lia.
Qed.

Lemma base58_digits_value fuel v r :
  0 <= v < 58 ^ Z.of_nat fuel -> base58_value_from 0 (base58_digits fuel v r) = base58_value_from v r.
Proof.
  revert v r. induction fuel as [|fuel IH]; intros v r Hv; cbn [base58_digits].
  - replace v with 0 by lia. done.
  - destruct (Z.ltb_spec 0 v); [|by replace v with 0 by lia].
    rewrite Nat2Z.inj_succ, Z.pow_succ_r in Hv by lia. rewrite IH.
    2:{ split; [apply Z.div_pos; lia|apply Z.div_lt_upper_bound; lia]. }
    cbn [base58_value_from]. rewrite index_of_char_at by (apply Z.mod_pos_bound; lia). f_equal.
    pose proof (Z.div_mod v 58). lia.
Qed.

Lemma base58_digits_first fuel v r : 0 < v < 58 ^ Z.of_nat fuel -> zero_chars (base58_digits fuel v r) = 0%nat.
Proof.
  revert v r. induction fuel as [|fuel IH]; intros v r Hv; cbn [base58_digits]; [lia|].
  rewrite (proj2 (Z.ltb_lt 0 v)) by lia. rewrite Nat2Z.inj_succ, Z.pow_succ_r in Hv by lia.
  assert (v / 58 < 58 ^ Z.of_nat fuel) by (apply Z.div_lt_upper_bound; lia).
  destruct (Z.eq_dec (v / 58) 0) as [E|E].
  - rewrite E. assert (forall s, base58_digits fuel 0 s = s) as -> by (by destruct fuel).
    cbn [zero_chars]. destruct (Ascii.eqb_spec (char_at (v mod 58)) (char_at 0)) as [Ec|]; [|done]. exfalso.
    apply (f_equal (fun c => index_of c chars)) in Ec. rewrite !index_of_char_at in Ec by (try lia; apply Z.mod_pos_bound; lia).
    pose proof (Z.div_mod v 58). lia.
  - apply IH. pose proof (Z.div_pos v 58). lia.
Qed.

Lemma from_bytes_snoc b byte : from_bytes (b ++ [byte]) = 256 * from_bytes b + byte.
Proof. unfold from_bytes. by rewrite foldl_app. Qed.

Lemma from_bytes_bounds b : Forall (fun x => 0 <= x) b -> 0 <= from_bytes b /\ (from_bytes b = 0 <-> Forall (fun x => x = 0) b).
Proof.
  induction b as [|x b IH] using rev_ind; intros Hb; [split; [done|by split]|].
  rewrite Forall_app, Forall_singleton in Hb. destruct Hb as [Hb Hx]. destruct (IH Hb) as [? Hz].
  rewrite from_bytes_snoc, Forall_app, Forall_singleton, <-Hz. lia.
Qed.

Lemma leading_ones_spec b s :
  if forallb (fun x => x =? 0) b then leading_ones b s = Raise IndexError
  else exists t, leading_ones b s = Ok t /\ zero_chars t = (zero_bytes b + zero_chars s)%nat
         /\ base58_value t = base58_value s.
Proof.
  revert s. induction b as [|x b IH]; intros s; cbn [forallb leading_ones zero_bytes]; [done|].
  destruct (x =? 0); cbn [andb].
  - specialize (IH (String (char_at 0) s)). destruct (forallb _ b); [done|].
    destruct IH as (t & Ht & Hz & Hv). exists t. split; [done|]. split.
    + rewrite Hz. cbn [zero_chars]. rewrite Ascii.eqb_refl. lia.
    + rewrite Hv. unfold base58_value. cbn [base58_value_from]. by rewrite index_of_char_at by lia.
  - exists s. done.
Qed.

(** The base-58 text of a payload is the number of its bytes with its checksum,
    written in base 58, after one [1] for each leading zero byte; an [IndexError] when
    all the bytes are zero. *)
Theorem byte_to_base58_value sha256 b version :
  let payload := with_checksum sha256 b version in
  Forall (fun x => 0 <= x) payload ->
  if forallb (fun x => x =? 0) payload then byte_to_base58 sha256 b version = Raise IndexError
  else exists s, byte_to_base58 sha256 b version = Ok s
         /\ base58_value s = from_bytes payload /\ zero_chars s = zero_bytes payload.
Proof.
  intros payload Hp. unfold byte_to_base58. fold payload. cbv zeta.
  pose proof (from_bytes_bounds payload Hp) as [H0 Hz].
  pose proof (leading_ones_spec payload (base58_digits (S (Z.to_nat (Z.log2 (from_bytes payload)))) (from_bytes payload) "")) as Hl.
  destruct (forallb _ payload) eqn:E; [done|].
  assert (0 < from_bytes payload) as Hpos.
  { destruct (Z.eq_dec (from_bytes payload) 0) as [Ez|]; [|lia]. exfalso. apply Hz in Ez.
    assert (forallb (fun x => x =? 0) payload = true); [|congruence].
    apply forallb_forall. intros x Hx%list_elem_of_In. rewrite Forall_forall in Ez. by rewrite (Ez x Hx). }
  assert (from_bytes payload < 58 ^ Z.of_nat (S (Z.to_nat (Z.log2 (from_bytes payload))))) as Hlt.
  { pose proof (Z.log2_nonneg (from_bytes payload)). pose proof (Z.log2_spec _ Hpos).
    rewrite Nat2Z.inj_succ, Z2Nat.id by done.
    assert (2 ^ Z.succ (Z.log2 (from_bytes payload)) <= 58 ^ Z.succ (Z.log2 (from_bytes payload)))
      by (apply Z.pow_le_mono_l; lia). lia. }
  destruct Hl as (s & Hs & Hzc & Hv). exists s. split; [done|]. split.
  - rewrite Hv. unfold base58_value. by rewrite base58_digits_value.
  - rewrite Hzc, base58_digits_first by lia. lia.
Qed.

(** ** The peers of a node *)

Lemma mapM_total_ok {A B} (f : A -> result B) l :
  (forall a, a ∈ l -> is_ok (f a) = true) -> exists k, mapM f l = Ok k.
Proof.
  induction l as [|a l IH]; intros H; [by exists []|]. cbn [mapM].
  pose proof (H a ltac:(by left)) as Ha. destruct (f a) as [y|]; [|done].
  destruct IH as [k ->]; [intros; apply H; by right|]. by exists (y :: k).
Qed.

Section Peers.
Context (b : Builder) (Hv : 1 <= nb_validators b) (Hc : 0 <= nb_clients b).

(** The clients have the numbers after those of the validators. *)
Definition is_client (t : Z) : Prop := nb_validators b <= t < nb_validators b + nb_clients b.
Definition in_draw_range (d : Z) : Prop := 0 <= d < nb_clients b.

Lemma pick_Ok selected draws t rest :
  pick b selected draws = Ok (t, rest) -> Forall in_draw_range draws ->
  (t ∉ selected) /\ is_client t /\ Forall in_draw_range rest.
Proof.
  induction draws as [|d draws IH]; [done|]. cbn [pick]. intros Hp [Hd Hds]%Forall_cons.
  case_bool_decide; [by apply IH|]. injection Hp as <- <-. unfold is_client. split; [done|]. split; [|done]. unfold in_draw_range in Hd. lia.
Qed.

Lemma client_lines_Ok n selected lines draws lines' rest :
  client_lines n b selected lines draws = Ok (lines', rest) -> Forall in_draw_range draws -> NoDup selected ->
  exists picks new, lines' = lines ++ new /\ Forall2 (fun t line => addnode_line b t = Ok line) picks new
    /\ length picks = n /\ NoDup (selected ++ picks) /\ Forall is_client picks.
Proof.
  revert selected lines draws. induction n as [|n IH]; intros selected lines draws Hl Hd Hnd; cbn [client_lines] in Hl.
  - injection Hl as <- <-. exists [], []. rewrite !app_nil_r. done.
  - apply bind_Ok in Hl as ([t ds] & Hp & Hl). apply bind_Ok in Hl as (line & Hline & Hl). cbn [fst snd] in *.
    destruct (pick_Ok _ _ _ _ Hp Hd) as (Ht & Hcl & Hds).
    destruct (IH (selected ++ [t]) (lines ++ [line]) ds Hl Hds) as (picks & new & -> & H2 & Hlen & Hnd' & Hall).
    { apply NoDup_app. split; [done|]. split; [set_solver|apply NoDup_singleton]. }
    exists (t :: picks), (line :: new). rewrite <-app_assoc in Hnd' |- *. cbn [app] in *.
    split; [done|]. split; [by constructor|]. split; [cbn; lia|]. split; [done|by constructor].
Qed.

Lemma validator_targets_NoDup node_id n :
  0 <= n <= nb_validators b -> NoDup ((fun i => i mod nb_validators b) <$> seqZ node_id n).
Proof.
  intros Hn. apply NoDup_fmap_2_strong; [|apply NoDup_seqZ]. intros i j Hi%elem_of_seqZ Hj%elem_of_seqZ Hij.
  pose proof (Z.div_mod i (nb_validators b) ltac:(lia)) as Ei. pose proof (Z.div_mod j (nb_validators b) ltac:(lia)) as Ej.
  cbn beta in Hij. rewrite Hij in Ei. remember (j mod nb_validators b) as r. remember (i / nb_validators b) as q1.
  remember (j / nb_validators b) as q2. assert (q1 = q2) as -> by nia. lia.
Qed.

(** C36: The peers of a node are distinct nodes, ten of them, or all when there are
    fewer: validators first, from the node's own number on and around, then clients
    chosen at random as long as there is room.  The numbers of the draws are those
    of [randrange(nb_clients)]. *)
Theorem addnode_lines_peers node_id draws lines rest :
  addnode_lines b node_id draws = Ok (lines, rest) -> Forall in_draw_range draws ->
  exists validators clients,
    Forall2 (fun t line => addnode_line b t = Ok line) (validators ++ clients) lines
    /\ NoDup (validators ++ clients)
    /\ Z.of_nat (length lines) = Z.min 10 (nb_validators b + nb_clients b)
    /\ Z.of_nat (length validators) = Z.min 10 (nb_validators b)
    /\ (forall k t, validators !! k = Some t -> t = (node_id + Z.of_nat k) mod nb_validators b)
    /\ Forall is_client clients.
Proof.
  intros Hl Hd. unfold addnode_lines in Hl. apply bind_Ok in Hl as (vlines & Hvl & Hl).
  destruct (client_lines_Ok _ _ _ _ _ _ Hl Hd (NoDup_nil_2)) as (picks & new & -> & H2 & Hlen & Hnd & Hall).
  unfold validator_lines in Hvl. apply mapM_Ok in Hvl. cbn [app] in Hnd.
  set (targets := (fun i => i mod nb_validators b) <$> seqZ node_id (nb_validator_connections b)).
  assert (Forall2 (fun t line => addnode_line b t = Ok line) targets vlines) as Hvl' by (by apply Forall2_fmap_l).
  assert (Z.of_nat (length targets) = Z.min 10 (nb_validators b)) as Hlt.
  { unfold targets. rewrite length_fmap, length_seqZ. unfold nb_validator_connections, MAX_BITCOIND_OUTBOUND_CONNECTIONS. lia. }
  exists targets, picks. split; [by apply Forall2_app|]. split; [|split; [|split; [done|split; [|done]]]].
  - apply NoDup_app. split; [apply validator_targets_NoDup; unfold nb_validator_connections, MAX_BITCOIND_OUTBOUND_CONNECTIONS; lia|].
    split; [|done]. intros t Ht Hp. apply list_elem_of_fmap in Ht as (i & -> & _).
    rewrite Forall_forall in Hall. specialize (Hall _ Hp). unfold is_client in Hall.
    pose proof (Z.mod_pos_bound i (nb_validators b)). lia.
  - rewrite length_app, <-(Forall2_length _ _ _ Hvl'), <-(Forall2_length _ _ _ H2), Hlen. rewrite Nat2Z.inj_add, Hlt.
    unfold nb_client_connections, nb_validator_connections, MAX_BITCOIND_OUTBOUND_CONNECTIONS. lia.
  - intros k t Hk. unfold targets in Hk. rewrite list_lookup_fmap in Hk. apply fmap_Some in Hk as (i & Hi & ->).
    apply lookup_seqZ in Hi as [-> _]. done.
Qed.

(** *** The draws are enough *)

(** Every client is drawn. *)
Definition full_round (draws : list Z) : Prop := forall d, in_draw_range d -> d ∈ draws.

Lemma pick_finds selected draws rest d :
  d ∈ draws -> nb_validators b + d ∉ selected ->
  exists t draws', pick b selected (draws ++ rest) = Ok (t, draws' ++ rest).
Proof.
  induction draws as [|e draws IH]; [by intros ?%elem_of_nil|]. intros Hd Hn. cbn [app pick].
  case_bool_decide as Hs; [|by eexists _, draws]. apply IH; [|done]. set_solver.
Qed.

Lemma some_client_left selected :
  NoDup selected -> Forall is_client selected -> Z.of_nat (length selected) < nb_clients b ->
  exists d, in_draw_range d /\ nb_validators b + d ∉ selected.
Proof.
  intros Hnd Hall Hlt.
  destruct (decide (Exists (fun d => nb_validators b + d ∉ selected) (range (nb_clients b)))) as [H|H].
  - apply Exists_exists in H as (d & Hd%elem_of_range & Hs). by exists d.
  - exfalso. rewrite <-Forall_Exists_neg in H.
    set (all := (fun d => nb_validators b + d) <$> range (nb_clients b)).
    assert (length all <= length selected)%nat as Hle.
    { apply submseteq_length, NoDup_submseteq.
      - apply NoDup_fmap_2; [intros ? ? ?; lia|apply NoDup_seqZ].
      - intros t (d & -> & Hd)%list_elem_of_fmap. rewrite Forall_forall in H. specialize (H d Hd).
        destruct (decide (nb_validators b + d ∈ selected)); [done|contradiction]. }
    unfold all, range in Hle. rewrite length_fmap, length_seqZ in Hle. lia.
Qed.

Lemma client_lines_total n selected lines junk rounds :
  Forall in_draw_range (junk ++ List.concat rounds) ->
  NoDup selected -> Forall is_client selected -> Z.of_nat (length selected + n) <= nb_clients b ->
  (forall t, is_client t -> is_ok (addnode_line b t) = true) ->
  Forall full_round rounds -> length rounds = n ->
  is_ok (client_lines n b selected lines (junk ++ List.concat rounds)) = true.
Proof.
  revert selected lines junk rounds. induction n as [|n IH]; intros selected lines junk rounds Hd Hnd Hall Hlen Hline Hr Hn; [done|].
  destruct rounds as [|round rounds]; [done|]. apply Forall_cons in Hr as [Hr Hrs]. injection Hn as Hn.
  destruct (some_client_left selected Hnd Hall) as (d & Hdr & Hs); [lia|].
  destruct (pick_finds selected (junk ++ round) (List.concat rounds) d) as (t & draws' & Hp);
    [apply elem_of_app; right; by apply Hr|done|].
  cbn [List.concat] in *. rewrite (app_assoc junk) in Hd |- *. cbn [client_lines]. rewrite Hp. cbn [mbind result_bind fst snd].
  destruct (pick_Ok _ _ _ _ Hp Hd) as (Ht & Hcl & Hds).
  pose proof (Hline t Hcl) as Hl. destruct (addnode_line b t) as [line|]; [|done]. cbn [mbind result_bind].
  apply IH; try done.
  - apply NoDup_app. split; [done|]. split; [set_solver|apply NoDup_singleton].
  - apply Forall_app. by split; [|constructor].
  - rewrite length_app. cbn. lia.
Qed.

(** The choice of the peers ends: draws in which every client appears as many
    times over as there are clients to choose are enough, when the address of every
    node is known. *)
Theorem addnode_lines_total node_id rounds :
  (forall t, 0 <= t < nb_validators b + nb_clients b -> is_ok (addnode_line b t) = true) ->
  Forall (Forall in_draw_range) rounds -> Forall full_round rounds ->
  Z.of_nat (length rounds) = nb_client_connections b ->
  is_ok (addnode_lines b node_id (List.concat rounds)) = true.
Proof.
  intros Hline Hd Hr Hlen. unfold addnode_lines.
  assert (exists lines, validator_lines b node_id = Ok lines) as [lines ->].
  { unfold validator_lines. apply mapM_total_ok. intros i _. apply Hline.
    pose proof (Z.mod_pos_bound i (nb_validators b)). lia. }
  cbn [mbind result_bind]. apply (client_lines_total _ [] lines []); try done.
  - cbn [app]. by apply Forall_concat.
  - constructor.
  - cbn [length]. unfold nb_client_connections in *. lia.
  - intros t Ht. apply Hline. unfold is_client in Ht. lia.
  - lia.
Qed.
End Peers.

(** ** The directories and the ports *)

(** Every port that the nodes of one machine listen on: four for each [bitcoind], one
    for each replica. *)
Definition bitcoind_ports (b : Builder) (node_id : Z) : list Z :=
  (fun start => port_of b start node_id)
    <$> [PORT_START; RPC_PORT_START; ZMQ_PORT_START_PUBHASHTX; ZMQ_PORT_START_PUBITCOINBLOCK].
Definition all_ports (b : Builder) : list Z :=
  List.concat (bitcoind_ports b <$> range (nb_validators b + nb_clients b))
  ++ (port_of b FBFT_REPLICA_SET_PORT_START <$> range (nb_validators b)).

Lemma node_dirname_inj b i j :
  0 <= i < nb_validators b + nb_clients b -> 0 <= j < nb_validators b + nb_clients b ->
  node_dirname b i = node_dirname b j -> i = j.
Proof.
  intros Hi Hj. unfold node_dirname, get_validator_dirname, get_client_dirname.
  assert (forall t n i j, 0 <= i < n -> 0 <= j < n -> get_node_dirname i t n = get_node_dirname j t n -> i = j) as Hinj.
  { intros t n i' j' Hi' Hj' Heq. apply Z.compare_eq_iff. rewrite <-(get_node_dirname_compare "" "" i' j' t n) by done.
    rewrite Heq. apply str_compare_refl. }
  destruct (Z.ltb_spec i (nb_validators b)), (Z.ltb_spec j (nb_validators b)); intros Heq.
  - apply Hinj in Heq; lia.
  - discriminate Heq.
  - discriminate Heq.
  - apply Hinj in Heq; lia.
Qed.

Lemma bitcoind_port_inj b s1 s2 i j :
  use_remote_config b = false -> 0 <= i < 1000 -> 0 <= j < 1000 ->
  s1 ∈ [PORT_START; RPC_PORT_START; ZMQ_PORT_START_PUBHASHTX; ZMQ_PORT_START_PUBITCOINBLOCK; FBFT_REPLICA_SET_PORT_START] ->
  s2 ∈ [PORT_START; RPC_PORT_START; ZMQ_PORT_START_PUBHASHTX; ZMQ_PORT_START_PUBITCOINBLOCK; FBFT_REPLICA_SET_PORT_START] ->
  port_of b s1 i = port_of b s2 j -> s1 = s2 /\ i = j.
Proof.
  intros Hr Hi Hj H1 H2. unfold port_of. rewrite Hr.
  unfold PORT_START, RPC_PORT_START, ZMQ_PORT_START_PUBHASHTX, ZMQ_PORT_START_PUBITCOINBLOCK, FBFT_REPLICA_SET_PORT_START in *.
  rewrite !elem_of_cons, elem_of_nil in H1, H2. lia.
Qed.

(** The nodes of a local signet have distinct directories, and up to a thousand
    nodes all the ports of the machine are distinct, that of the validators' RPC and
    those of the notifications included. *)
Theorem local_nodes_disjoint b :
  use_remote_config b = false -> 0 <= nb_validators b -> 0 <= nb_clients b ->
  nb_validators b + nb_clients b <= 1000 ->
  NoDup (node_dirname b <$> range (nb_validators b + nb_clients b)) /\ NoDup (all_ports b).
Proof.
  intros Hr Hv Hc Hn. split.
  - apply NoDup_fmap_2_strong; [|apply NoDup_seqZ]. intros i j Hi%elem_of_range Hj%elem_of_range. by apply node_dirname_inj.
  - unfold all_ports. apply NoDup_app. split; [|split].
    + assert (forall l, NoDup l -> Forall (fun i => 0 <= i < 1000) l -> NoDup (List.concat (bitcoind_ports b <$> l))) as H.
      2:{ apply H; [apply NoDup_seqZ|]. apply Forall_forall. intros i Hi%elem_of_range. lia. }
      induction l as [|i l IH]; intros Hnd Hall; [constructor|]. apply NoDup_cons in Hnd as [Hi Hnd].
      apply Forall_cons in Hall as [Hb Hall]. cbn [fmap list_fmap List.concat]. apply NoDup_app. split; [|split; [|by apply IH]].
      * unfold bitcoind_ports, port_of. rewrite Hr. apply NoDup_fmap_2; [intros ? ? ?; lia|].
        apply (bool_decide_unpack (NoDup _)). vm_compute. exact I.
      * intros q (s & -> & Hs)%list_elem_of_fmap Hq. apply list_elem_of_In, in_concat in Hq as (ports & Hp & Hq).
        apply list_elem_of_In in Hp, Hq. apply list_elem_of_fmap in Hp as (j & -> & Hj).
        apply list_elem_of_fmap in Hq as (s' & Heq & Hs'). rewrite Forall_forall in Hall.
        destruct (bitcoind_port_inj b s s' i j Hr Hb (Hall j Hj)) as [_ ->]; [set_solver|set_solver|done|done].
    + intros q Hq (j & -> & Hj%elem_of_range)%list_elem_of_fmap. apply list_elem_of_In, in_concat in Hq as (ports & Hp & Hq).
      apply list_elem_of_In in Hp, Hq. apply list_elem_of_fmap in Hp as (i & -> & Hi%elem_of_range).
      apply list_elem_of_fmap in Hq as (s & Heq & Hs).
      destruct (bitcoind_port_inj b FBFT_REPLICA_SET_PORT_START s j i Hr) as [<- _]; try lia; try done; [set_solver|set_solver|].
      revert Hs. apply (bool_decide_unpack (_ ∉ _)). vm_compute. exact I.
    + apply NoDup_fmap_2; [|apply NoDup_seqZ]. intros i j. unfold port_of. rewrite Hr. lia.
Qed.

(** With one node more, the RPC port of the last node is the port of the first one. *)
Lemma ports_collide b : use_remote_config b = false -> port_of b RPC_PORT_START 1000 = port_of b PORT_START 0.
Proof. intros Hr. unfold port_of. by rewrite Hr. Qed.

(** The first peer of a validator is the validator itself. *)
Lemma first_peer_is_itself b node_id lines :
  1 <= nb_validators b -> 0 <= node_id < nb_validators b ->
  validator_lines b node_id = Ok lines -> exists line, head lines = Some line /\ addnode_line b node_id = Ok line.
Proof.
  intros Hv Hn. unfold validator_lines. rewrite seqZ_cons.
  2:{ unfold nb_validator_connections, MAX_BITCOIND_OUTBOUND_CONNECTIONS. lia. }
  intros (line & Hl & (rest & _ & [= <-])%bind_Ok)%bind_Ok. exists line. split; [done|]. by rewrite Z.mod_small in Hl.
Qed.

(** ** Witnesses *)

Definition toy_builder : Builder := MkBuilder 4 3 1684829350 60 None false.

Example byte_to_base58_value_witness :
  let payload := with_checksum (fun _ => [1; 2; 3; 4]) [0; 255; 10] 0 in
  if forallb (fun x => x =? 0) payload then byte_to_base58 (fun _ => [1; 2; 3; 4]) [0; 255; 10] 0 = Raise IndexError
  else exists s, byte_to_base58 (fun _ => [1; 2; 3; 4]) [0; 255; 10] 0 = Ok s
         /\ base58_value s = from_bytes payload /\ zero_chars s = zero_bytes payload.
Proof.
  apply (byte_to_base58_value (fun _ => [1; 2; 3; 4]) [0; 255; 10] 0).
  repeat (constructor; [lia|]). constructor.
Defined.

Definition toy_draws : list Z := [0; 0; 1; 1; 0; 2].
Definition toy_lines : list string := match addnode_lines toy_builder 5 toy_draws with Ok l => l.1 | Raise _ => [] end.
Definition toy_rest : list Z := match addnode_lines toy_builder 5 toy_draws with Ok l => l.2 | Raise _ => [] end.

Example toy_lines_example :
  toy_lines = ["addnode=127.0.0.1:38001"; "addnode=127.0.0.1:38002"; "addnode=127.0.0.1:38003"; "addnode=127.0.0.1:38000";
               "addnode=127.0.0.1:38004"; "addnode=127.0.0.1:38005"; "addnode=127.0.0.1:38006"]%string.
Proof. vm_compute. reflexivity. Qed.

Example addnode_lines_peers_witness :
  exists validators clients,
    Forall2 (fun t line => addnode_line toy_builder t = Ok line) (validators ++ clients) toy_lines
    /\ NoDup (validators ++ clients)
    /\ Z.of_nat (length toy_lines) = Z.min 10 (nb_validators toy_builder + nb_clients toy_builder)
    /\ Z.of_nat (length validators) = Z.min 10 (nb_validators toy_builder)
    /\ (forall k t, validators !! k = Some t -> t = (5 + Z.of_nat k) mod nb_validators toy_builder)
    /\ Forall (is_client toy_builder) clients.
Proof.
  apply (addnode_lines_peers toy_builder ltac:(cbn; lia) ltac:(cbn; lia) 5 toy_draws toy_lines toy_rest).
  - vm_compute. reflexivity.
  - unfold toy_draws, in_draw_range. cbn. repeat (constructor; [lia|]). constructor.
Defined.

Example addnode_lines_total_witness :
  is_ok (addnode_lines toy_builder 5 (List.concat [[0; 1; 2]; [2; 1; 0]; [0; 1; 2]])) = true.
Proof.
  apply (addnode_lines_total toy_builder ltac:(cbn; lia) ltac:(cbn; lia) 5 [[0; 1; 2]; [2; 1; 0]; [0; 1; 2]]).
  - done.
  - unfold in_draw_range. cbn. repeat (constructor; [repeat (constructor; [lia|]); constructor|]). constructor.
  - repeat (constructor; [intros d Hd; unfold in_draw_range in Hd; cbn in Hd;
      assert (d = 0 \/ d = 1 \/ d = 2) as [-> | [-> | ->]] by lia; set_solver|]). constructor.
  - reflexivity.
Defined.

Example local_nodes_disjoint_witness :
  NoDup (node_dirname toy_builder <$> range (4 + 3)) /\ NoDup (all_ports toy_builder).
Proof. apply (local_nodes_disjoint toy_builder); [reflexivity|cbn; lia|cbn; lia|cbn; lia]. Defined.
