(* ===== verification/SignetBuild.v ===== *)
(** * The directory of the signet (benchmark/setup-signet.py, SignetDirectoryBuilder.build)

    [build] on a file system: the directory of the test network is copied to the output
    directory, the directories of its nodes are renamed after the validators and the
    clients, the outputs of the test are removed, and the configurations are written.  The
    network of the test framework and [rpcauth.py] are parameters. *)

From S2P Require Import Prelude PyIo PyStr PyInt PyFloat PyDict PySort FileSystem FileMoves PyRegex LogEvents Naming Fields PyJson PyRepr SignetConfig.

Definition BITCOIND_CONFIG_FILENAME : string := "bitcoin.conf".
Definition MINER_CONFIG_FILENAME : string := "miner.conf.json".

(** ** The parameters and the keys of the test network *)

(** [set_test_params]: the nodes, the signers and the signatures of a block. *)
Definition test_params (b : Builder) : result (Z * Z * Z) :=
  signet_num_signatures ← byzantine_replies_quorum (nb_validators b);
  Ok (nb_validators b + nb_clients b, nb_validators b, signet_num_signatures).

(** [_new_key_pair] and [_generate_key_pairs], on the RPC of a temporary node; a pair is an
    address and its key. *)
Section Keys.
Context {W : Type} (createwallet : string -> io W unit) (getnewaddress : string -> string -> io W string)
        (dumpprivkey : string -> io W string).
Definition new_key_pair : io W (string * string) :=
  addr <~ getnewaddress "just_a_random_label_as_1st_arg" "legacy";
  privkey <~ dumpprivkey addr;
  io_ret (addr, privkey).
Fixpoint new_key_pairs (n : nat) (pairs : list (string * string)) : io W (list (string * string)) :=
  match n with
  | O => io_ret pairs
  | S n => key_pair <~ new_key_pair; new_key_pairs n (pairs ++ [key_pair])
  end.
Definition generate_key_pairs (n : Z) : io W (list (string * string)) :=
  _ <~ createwallet "default_wallet"; new_key_pairs (Z.to_nat n) [].

(** As many pairs as nodes. *)
Lemma generate_key_pairs_length n w w' pairs :
  0 <= n -> generate_key_pairs n w = (w', Ok pairs) -> Z.of_nat (length pairs) = n.
Proof.
  intros Hn H. unfold generate_key_pairs in H. apply io_bind_Ok in H as (w1 & _ & _ & H).
  assert (forall k acc w, new_key_pairs k acc w = (w', Ok pairs) -> length pairs = (length acc + k)%nat) as Hk.
  { intros k. induction k as [|k IH]; intros acc w0; cbn [new_key_pairs]; [intros [= _ <-]; lia|].
    intros (w2 & kp & _ & Hrest%IH)%io_bind_Ok. rewrite length_app in Hrest. cbn in Hrest. lia. }
  apply Hk in H. cbn in H. lia.
Qed.
End Keys.

(** ** The build *)

(** What the test case object says of the network: [nodes[0].cwd] and its keys. *)
Record Network : Type := MkNetwork {
  test_dir : path;
  signet_key_pairs : list (string * string);
  frost_pubkeys : list pyval;
  signet_challenge : string }.

(** [shutil.copytree(src, dst)]: the destination must not exist. *)
Definition copytree_new (src dst : path) : io fs unit := fun s =>
  if path_exists s dst then (s, Raise OSError) else copytree src dst s.

(** [int(re.search("node([0-9]+)", name).group(1))] *)
Definition node_pattern : list item := [Lit "node"; digits_group].
Definition node_number (name : string) : result Z :=
  groups ← search_groups node_pattern name;
  number ← or_raise IndexError (groups !! 0%nat);
  py_int number.

Section Build.
Context (output_directory : path).
(** The order in which a directory is listed, and a tree walked. *)
Context (scandir : gset string -> list string) (walk : list path -> list path).
(** The start and the end of the test network, and the output of [rpcauth.py] for a node. *)
Context (network : io fs Network) (shutdown : io fs unit) (rpcauth : Z -> string).

(** The loop of the renamings. *)
Definition rename_node (b : Builder) (name : string) : io fs unit :=
  number <~ lift (node_number name);
  rename (output_directory ++ [name]) (output_directory ++ [node_dirname b number]).
Definition rename_nodes (b : Builder) : io fs unit :=
  names <~ inspect (fun s => Ok (List.filter (startswith "node") (scandir (children s output_directory))));
  io_each (rename_node b) names.

Definition remove_outputs : io fs unit :=
  _ <~ unlink true (output_directory ++ ["test_framework.log"%string]);
  _ <~ remove_named walk output_directory "stdout";
  remove_named walk output_directory "stderr".

(** The last loop. *)
Definition config_style : style := make_style (Some 2%nat) false.
Definition configure_node (b : Builder) (net : Network) (node_id : Z) (draws : list Z) : io fs (list Z) :=
  td <~ lift (create_bitcoind_config b node_id (signet_challenge net) (rpcauth node_id) draws);
  _ <~ write_text (output_directory ++ [node_dirname b node_id; BITCOIND_CONFIG_FILENAME]) td.1;
  _ <~ (if node_id <? nb_validators b
        then md <~ lift (create_miner_config (path_text output_directory) b node_id (signet_key_pairs net) (frost_pubkeys net));
             write_text (output_directory ++ [node_dirname b node_id; MINER_CONFIG_FILENAME]) (dumps float_repr config_style md.2)
        else io_ret tt);
  io_ret td.2.
Fixpoint configure (b : Builder) (net : Network) (node_ids : list Z) (draws : list Z) : io fs (list Z) :=
  match node_ids with
  | [] => io_ret draws
  | node_id :: rest => draws <~ configure_node b net node_id draws; configure b net rest draws
  end.

(** [build]; the network is left as it is when the copy fails. *)
Definition build (b : Builder) (draws : list Z) : io fs (Builder * list Z) :=
  b <~ lift (start_build b);
  net <~ network;
  _ <~ copytree_new (test_dir net) output_directory;
  _ <~ shutdown;
  _ <~ rename_nodes b;
  _ <~ remove_outputs;
  draws <~ configure b net (range (nb_validators b + nb_clients b)) draws;
  io_ret (b, draws).
End Build.

(** ** The numbers of the nodes *)

Definition node_name (i : Z) : string := ("node" ++ str_of_Z i)%string.

Lemma node_number_name i : 0 <= i -> node_number (node_name i) = Ok i.
Proof.
  intros Hi. unfold node_number, search_groups, node_pattern, node_name.
  rewrite (search_here _ _ [str_of_Z i] EmptyString).
  - cbn. by apply py_int_str_of_Z.
  - apply match_here_lit, match_here_group_end; [by apply str_of_Z_digits| |done].
    intros E%(f_equal py_int). by rewrite py_int_str_of_Z in E.
Qed.

(** The name that a directory gets. *)
Definition new_name (b : Builder) (name : string) : string :=
  match node_number name with Ok i => node_dirname b i | Raise _ => name end.

Lemma rename_nodes_all out b names s :
  (forall n, n ∈ names -> exists i, node_number n = Ok i) -> io_each (rename_node out b) names s = rename_all out (new_name b) names s.
Proof.
  revert s. induction names as [|n names IH]; intros s Hn; [done|]. unfold rename_all. cbn [io_each]. unfold io_bind.
  destruct (Hn n ltac:(by left)) as [i Hi]. unfold rename_node at 1, new_name at 1. unfold io_bind, lift. rewrite Hi.
  destruct (rename _ _ s) as [s' [[]|e]]; [|done]. apply IH. intros m Hm. apply Hn. by right.
Qed.

(** ** The directories of the nodes *)

Section Arrange.
Context (b : Builder) (scandir : gset string -> list string) (walk : list path -> list path).
Context (Hscandir : forall names, scandir names ≡ₚ elements names) (Hwalk : forall l, walk l ≡ₚ l).

Definition is_node (i : Z) : Prop := 0 <= i < nb_validators b + nb_clients b.

(** What the test framework leaves in a directory: the nodes by number, with directories
    for their outputs. *)
Record test_tree (s : fs) (dir : path) : Prop := {
  tree_nodes : forall n, startswith "node" n = true -> (s !! (dir ++ [n]) <> None <-> exists i, is_node i /\ n = node_name i);
  tree_free : forall i, is_node i -> s !! (dir ++ [node_dirname b i]) = None;
  tree_log : s !! (dir ++ ["test_framework.log"%string]) <> Some Directory;
  tree_outputs : forall q n, n = "stdout"%string \/ n = "stderr"%string ->
    s !! (dir ++ q ++ [n]) <> None -> s !! (dir ++ q ++ [n]) = Some Directory }.

Lemma test_tree_same s dir s' dir' :
  (forall q, q <> [] -> s' !! (dir' ++ q) = s !! (dir ++ q)) -> test_tree s dir -> test_tree s' dir'.
Proof.
  intros Hsame [Hn Hf Hl Ho]. split.
  - intros n Hs. rewrite Hsame by done. by apply Hn.
  - intros i Hi. rewrite Hsame by done. by apply Hf.
  - by rewrite Hsame.
  - intros q n Hout. rewrite Hsame by (by intros [_ ?]%app_eq_nil). by apply Ho.
Qed.

Lemma new_name_node i : is_node i -> new_name b (node_name i) = node_dirname b i.
Proof. intros Hi. unfold new_name. unfold is_node in Hi. destruct Hi. by rewrite node_number_name. Qed.

Lemma node_name_inj i j : is_node i -> is_node j -> node_name i = node_name j -> i = j.
Proof.
  intros [Hi _] [Hj _] E%(f_equal node_number). rewrite !node_number_name in E by done. by injection E.
Qed.

Lemma node_dirname_eq i j : is_node i -> is_node j -> node_dirname b i = node_dirname b j -> i = j.
Proof. apply node_dirname_inj. Qed.

(** Where the entries of the nodes are, and what else is there. *)
Lemma rename_nodes_Ok s out :
  fs_ok s -> test_tree s out ->
  exists s', rename_nodes out scandir b s = (s', Ok tt) /\ fs_ok s'
    /\ (forall i q, is_node i -> s' !! ((out ++ [node_dirname b i]) ++ q) = s !! ((out ++ [node_name i]) ++ q))
    /\ (forall x q, s' !! ((out ++ [x]) ++ q) <> None ->
          s' !! ((out ++ [x]) ++ q) = s !! ((out ++ [x]) ++ q) \/ exists i, is_node i /\ x = node_dirname b i)
    /\ (forall p, inside out p = false -> s' !! p = s !! p).
Proof.
  intros Hs [Hnodes Hfree _ _]. unfold rename_nodes, inspect. unfold io_bind at 1.
  set (names := List.filter _ _).
  assert (forall n, n ∈ names <-> exists i, is_node i /\ n = node_name i) as Hin.
  { intros n. unfold names. rewrite list_elem_of_In, filter_In, <-list_elem_of_In, Hscandir, elem_of_elements, elem_of_children. split.
    - intros [[e He] Hn]. apply (Hnodes n Hn). by rewrite He.
    - intros Hn. assert (startswith "node" n = true) as Hp by (by destruct Hn as (i & _ & ->)).
      split; [|done]. apply (Hnodes n Hp) in Hn. destruct (s !! (out ++ [n])); [by eexists|done]. }
  rewrite rename_nodes_all.
  2:{ intros n (i & [Hi _] & ->)%Hin. exists i. by apply node_number_name. }
  destruct (rename_all_Ok out (new_name b) names s Hs) as (s' & Hr & Hs' & Hmoved & Hgone & Hother & Hout).
  - unfold names. apply NoDup_ListNoDup, List.NoDup_filter, NoDup_ListNoDup. rewrite Hscandir. apply NoDup_elements.
  - intros n m (i & Hi & ->)%Hin (j & Hj & ->)%Hin. rewrite !new_name_node by done. intros E%node_dirname_eq; congruence.
  - intros n Hn. pose proof Hn as (i & Hi & Ei)%Hin. split.
    + apply exists_at. apply Hnodes; [by rewrite Ei|by exists i].
    + subst n. rewrite new_name_node by done. unfold path_exists. rewrite lookup_path_not_nil by (by destruct out).
      by rewrite Hfree.
  - exists s'. split; [exact Hr|]. split; [done|]. split; [|split].
    + intros i q Hi. rewrite <-(new_name_node i Hi). apply Hmoved, Hin. by exists i.
    + intros x q Hx. destruct (decide (x ∈ names)) as [Hn|Hn]; [by rewrite Hgone in Hx|].
      destruct (decide (x ∈ new_name b <$> names)) as [Hn'|Hn']; [right|left; by apply Hother].
      apply list_elem_of_fmap in Hn' as (n & -> & (i & Hi & ->)%Hin). exists i. split; [done|]. by apply new_name_node.
    + exact Hout.
Qed.

Lemma node_dirname_kind i : exists w, node_dirname b i = ("node-" ++ w)%string \/ node_dirname b i = ("client-" ++ w)%string.
Proof. unfold node_dirname, get_validator_dirname, get_client_dirname, get_node_dirname. case_match; eexists; [left|right]; reflexivity. Qed.

Lemma node_dirname_not i n : n ∈ ["stdout"; "stderr"; "test_framework.log"]%string -> n <> node_dirname b i.
Proof.
  destruct (node_dirname_kind i) as [w [->| ->]]; intros Hn E; subst n; repeat (apply elem_of_cons in Hn as [Hn|Hn]; [done|]);
    by apply elem_of_nil in Hn.
Qed.

(** The names of the outputs, wherever they are. *)
Definition output_path (q : path) : bool := bool_decide ("stdout"%string ∈ q) || bool_decide ("stderr"%string ∈ q).

Lemma outputs_dirs (s s' : fs) (out : path) :
  test_tree s out ->
  (forall i q, is_node i -> s' !! ((out ++ [node_dirname b i]) ++ q) = s !! ((out ++ [node_name i]) ++ q)) ->
  (forall x q, s' !! ((out ++ [x]) ++ q) <> None ->
     s' !! ((out ++ [x]) ++ q) = s !! ((out ++ [x]) ++ q) \/ exists i, is_node i /\ x = node_dirname b i) ->
  forall q n, n = "stdout"%string \/ n = "stderr"%string ->
    s' !! (out ++ q ++ [n]) <> None -> s' !! (out ++ q ++ [n]) = Some Directory.
Proof.
  intros [_ _ _ Ho] Hmoved Hother q n Hn Hin. destruct q as [|x q].
  - specialize (Hother n []). rewrite app_nil_r in Hother. destruct (Hother Hin) as [E|(i & _ & E)].
    + cbn [app] in *. rewrite E in *. by apply (Ho [] n).
    + exfalso. apply (node_dirname_not i n); [|done]. destruct Hn as [->| ->]; set_solver.
  - assert (out ++ (x :: q) ++ [n] = (out ++ [x]) ++ q ++ [n]) as E by (by rewrite <-!app_assoc).
    rewrite E in *. destruct (Hother _ _ Hin) as [E'|(i & Hi & ->)].
    + rewrite E' in *. rewrite <-E in *. by apply (Ho (x :: q) n).
    + rewrite Hmoved in * by done. rewrite <-app_assoc in *. by apply (Ho (node_name i :: q) n).
Qed.

(** Renaming and removing succeed, and leave every node with what is not an output. *)
Lemma arrange_Ok (s : fs) (out : path) :
  fs_ok s -> test_tree s out ->
  exists s', (_ <~ rename_nodes out scandir b; remove_outputs out walk) s = (s', Ok tt) /\ fs_ok s'
    /\ (forall i q, is_node i -> s' !! ((out ++ [node_dirname b i]) ++ q)
          = if output_path q then None else s !! ((out ++ [node_name i]) ++ q))
    /\ (forall p, inside out p = false -> s' !! p = s !! p).
Proof.
  intros Hs Ht. destruct (rename_nodes_Ok s out Hs Ht) as (s1 & Hr & Hs1 & Hmoved & Hother & Hout).
  pose proof (outputs_dirs s s1 out Ht Hmoved Hother) as Hdirs. unfold remove_outputs. unfold io_bind at 1. rewrite Hr.
  set (log := out ++ ["test_framework.log"%string]).
  destruct (unlink_Ok s1 log Hs1) as (s2 & Hu & Hs2 & Hl2); [by destruct out|..].
  { destruct (decide (s1 !! log = None)) as [->|Hin]; [done|]. specialize (Hother "test_framework.log"%string []).
    rewrite app_nil_r in Hother. destruct (Hother Hin) as [E|(i & _ & E)]; [fold log in E; rewrite E; apply (tree_log _ _ Ht)|].
    exfalso. apply (node_dirname_not i "test_framework.log"); [set_solver|done]. }
  unfold io_bind at 1. rewrite Hu.
  destruct (remove_named_Ok walk out "stdout" s2 Hwalk Hs2) as (s3 & Hr3 & Hs3 & Hl3 & Ho3).
  { intros q. rewrite Hl2. case_decide; [done|]. apply Hdirs. by left. }
  unfold io_bind at 1. rewrite Hr3.
  destruct (remove_named_Ok walk out "stderr" s3 Hwalk Hs3) as (s4 & Hr4 & Hs4 & Hl4 & Ho4).
  { intros q. rewrite Hl3. case_bool_decide; [done|]. rewrite Hl2. case_decide; [done|]. apply Hdirs. by right. }
  exists s4. split; [exact Hr4|]. split; [done|]. split.
  - intros i q Hi. rewrite <-app_assoc, Hl4, Hl3, Hl2. rewrite decide_False.
    2:{ intros [= E _]%app_inv_head. by apply (node_dirname_not i "test_framework.log"); [set_solver|]. }
    rewrite app_assoc, Hmoved by done. unfold output_path.
    assert (forall n, n ∈ ["stdout"; "stderr"; "test_framework.log"]%string ->
              bool_decide (n ∈ [node_dirname b i] ++ q) = bool_decide (n ∈ q)) as Hiff.
    { intros n Hn. apply bool_decide_ext. rewrite elem_of_app, list_elem_of_singleton. split; [|by right]. intros [E|]; [|done].
      by apply node_dirname_not in E. }
    rewrite !Hiff by set_solver.
    by case_bool_decide; case_bool_decide.
  - intros p Hp. rewrite Ho4, Ho3, Hl2 by done. case_decide as E; [|by apply Hout]. rewrite E in Hp. unfold log in Hp. by rewrite inside_app in Hp.
Qed.
End Arrange.

(** ** The configurations *)

Section Configure.
Context (out : path) (rpcauth : Z -> string) (b : Builder) (net : Network).
Definition bitcoind_file (i : Z) : path := out ++ [node_dirname b i; BITCOIND_CONFIG_FILENAME].
Definition miner_file (i : Z) : path := out ++ [node_dirname b i; MINER_CONFIG_FILENAME].

(** The files of a node: [bitcoin.conf], and [miner.conf.json] of a validator. *)
Definition configured (s : fs) (i : Z) : Prop :=
  (exists draws td, create_bitcoind_config b i (signet_challenge net) (rpcauth i) draws = Ok td
     /\ s !! bitcoind_file i = Some (File td.1))
  /\ (i < nb_validators b -> exists md,
        create_miner_config (path_text out) b i (signet_key_pairs net) (frost_pubkeys net) = Ok md
        /\ s !! miner_file i = Some (File (dumps float_repr config_style md.2))).

Lemma config_files_distinct i j :
  is_node b i -> is_node b j ->
  bitcoind_file i <> miner_file j /\ (i <> j -> bitcoind_file i <> bitcoind_file j /\ miner_file i <> miner_file j).
Proof.
  intros Hi Hj. unfold bitcoind_file, miner_file. split; [by intros [= _ E]%app_inv_head|]. intros Hij.
  split; intros [= E]%app_inv_head; by apply node_dirname_eq in E.
Qed.

Lemma configure_node_Ok i draws s s' rest :
  is_node b i -> configure_node out rpcauth b net i draws s = (s', Ok rest) ->
  configured s' i /\ forall p, p <> bitcoind_file i -> p <> miner_file i -> s' !! p = s !! p.
Proof.
  intros Hi H. unfold configure_node in H. apply io_bind_Ok in H as (s1 & td & Htd & H). unfold lift in Htd. injection Htd as <- Htd.
  apply io_bind_Ok in H as (s2 & [] & [-> _]%write_file_Ok & H). apply io_bind_Ok in H as (s3 & [] & Hm & H). injection H as <- _.
  destruct (config_files_distinct i i Hi Hi) as [Hne _]. destruct (Z.ltb_spec i (nb_validators b)) as [Hlt|Hge].
  - apply io_bind_Ok in Hm as (s2 & md & Hmd & Hw). unfold lift in Hmd. injection Hmd as <- Hmd. apply write_file_Ok in Hw as [-> _].
    fold (bitcoind_file i) (miner_file i). split; [split|].
    + exists draws, td. split; [done|]. rewrite lookup_insert_ne by done. by rewrite lookup_insert_eq.
    + intros _. exists md. split; [done|]. by rewrite lookup_insert_eq.
    + intros p H1 H2. by rewrite !lookup_insert_ne.
  - injection Hm as <-. fold (bitcoind_file i). split; [split; [|lia]|].
    + exists draws, td. split; [done|]. by rewrite lookup_insert_eq.
    + intros p H1 H2. by rewrite lookup_insert_ne.
Qed.

Lemma configure_Ok ids draws s s' rest :
  NoDup ids -> Forall (is_node b) ids -> configure out rpcauth b net ids draws s = (s', Ok rest) ->
  Forall (configured s') ids
  /\ forall p, Forall (fun i => p <> bitcoind_file i /\ p <> miner_file i) ids -> s' !! p = s !! p.
Proof.
  intros Hnd Hids. revert draws s. induction Hids as [|i ids Hi Hids IH]; intros draws s H; cbn [configure] in H.
  { injection H as <- _. split; [constructor|done]. }
  apply NoDup_cons in Hnd as [Hnot Hnd]. apply io_bind_Ok in H as (s1 & draws' & Hn & H).
  destruct (configure_node_Ok i draws s s1 draws' Hi Hn) as [Hc Hs1], (IH Hnd _ _ H) as [Hall Hs']. split.
  - constructor; [|done]. destruct Hc as [(d & td & Htd & Hb) Hm].
    assert (forall p, p = bitcoind_file i \/ p = miner_file i -> s' !! p = s1 !! p) as Hkeep.
    { intros p Hp. apply Hs'. rewrite Forall_forall in Hids. apply Forall_forall. intros j Hj.
      assert (i <> j) as Hij by congruence. destruct (config_files_distinct i j Hi (Hids j Hj)) as [H1 H2].
      destruct (H2 Hij) as [H3 H4], (config_files_distinct j i (Hids j Hj) Hi) as [H5 _].
      destruct Hp as [->| ->]; split; congruence. }
    split; [exists d, td; split; [done|]; rewrite Hkeep; auto|]. intros Hlt. destruct (Hm Hlt) as (md & Hmd & Hf).
    exists md. split; [done|]. rewrite Hkeep; auto.
  - intros p Hp. apply Forall_cons in Hp as [[H1 H2] Hp]. by rewrite Hs', Hs1.
Qed.
End Configure.

(** ** The whole build *)

Section Whole.
Context (base : path) (name : string).
Context (scandir : gset string -> list string) (walk : list path -> list path).
Context (Hscandir : forall names, scandir names ≡ₚ elements names) (Hwalk : forall l, walk l ≡ₚ l).
Context (network : io fs Network) (shutdown : io fs unit) (rpcauth : Z -> string).
Definition signet_output : path := base ++ [name].

(** The end of the network succeeds and leaves the output directory. *)
Context (Hshutdown : forall s, fs_ok s -> exists s', shutdown s = (s', Ok tt) /\ fs_ok s'
                                  /\ forall q, s' !! (signet_output ++ q) = s !! (signet_output ++ q)).

(** A builder that was not used, and the directory of a network that can be copied. *)
Record ready (b : Builder) (net : Network) (s : fs) : Prop := {
  ready_new : build_called b = false;
  ready_fs : fs_ok s;
  ready_base : is_dir s base = true;
  ready_free : path_exists s signet_output = false;
  ready_dir : test_dir net <> [] /\ is_dir s (test_dir net) = true;
  ready_away : inside (test_dir net) signet_output = false;
  ready_tree : test_tree b s (test_dir net) }.

Definition used (b : Builder) : Builder :=
  MkBuilder (nb_validators b) (nb_clients b) (genesis_block_timestamp b) (target_block_time b) (remote_config b) true.

(** Up to the configurations, the build succeeds. *)
Lemma build_arranged b draws s0 s net :
  network s0 = (s, Ok net) -> ready b net s ->
  exists s1,
    build signet_output scandir walk network shutdown rpcauth b draws s0
    = (rest <~ configure signet_output rpcauth (used b) net (range (nb_validators b + nb_clients b)) draws;
       io_ret (used b, rest)) s1
    /\ forall i q, is_node b i -> s1 !! ((signet_output ++ [node_dirname b i]) ++ q)
          = if output_path q then None else s !! ((test_dir net ++ [node_name i]) ++ q).
Proof.
  intros Hnet [Hnew Hs Hbase Hfree [Hne Hdir] Haway Htree].
  destruct (copytree_fresh s (test_dir net) base name Hs Hne Hdir Hbase Hfree Haway) as [s1 Hc].
  pose proof (keeps_copytree (test_dir net) signet_output s Hs) as Hs1. unfold signet_output in Hs1 at 1. rewrite Hc in Hs1.
  pose proof (copytree_Ok _ _ _ _ Hc) as (Hcopy & _ & _ & Hnone).
  assert (forall q, q <> [] -> s1 !! (signet_output ++ q) = s !! (test_dir net ++ q)) as Hsame.
  { intros q Hq. destruct (s !! (test_dir net ++ q)) as [e|] eqn:E; [by apply Hcopy|]. unfold signet_output.
    rewrite Hnone by done. apply nothing_under; [done|by destruct base|done]. }
  destruct (Hshutdown s1 Hs1) as (s2 & Hsh & Hs2 & Hkeep).
  assert (forall q, q <> [] -> s2 !! (signet_output ++ q) = s !! (test_dir net ++ q)) as Hsame2.
  { intros q Hq. by rewrite Hkeep, Hsame. }
  pose proof (test_tree_same b s (test_dir net) s2 signet_output Hsame2 Htree) as Ht2.
  destruct (arrange_Ok b scandir walk Hscandir Hwalk s2 signet_output Hs2 Ht2) as (s3 & Hr & _ & Hl & _).
  exists s3. split.
  - unfold build, start_build. rewrite Hnew. unfold io_bind at 1, lift. cbn [negb ensure mbind result_bind].
    unfold io_bind at 1. rewrite Hnet. unfold io_bind at 1, copytree_new. rewrite Hfree. unfold signet_output at 1. rewrite Hc.
    unfold io_bind at 1. rewrite Hsh. change (MkBuilder _ _ _ _ _ true) with (used b).
    change (rename_nodes signet_output scandir (used b)) with (rename_nodes signet_output scandir b).
    unfold io_bind at 1 in Hr. unfold io_bind at 1. destruct (rename_nodes _ _ _ s2) as [s' [[]|e]]; [|done].
    unfold io_bind at 1. by rewrite Hr.
  - intros i q Hi. specialize (Hl i q Hi). rewrite Hl.
    destruct (output_path q); [done|]. rewrite <-!app_assoc. by apply Hsame2.
Qed.

(** C8: A build out of the directory of a test network, in whatever order directories are
    listed, gives each node its directory, under the name that the other scripts give it:
    in it is what the test framework had for the node of this number, without its outputs,
    and the configurations of the node, the one of the replica for the validators only;
    the builder cannot be used again. *)
Theorem build_layout b draws s0 s net s' b' rest :
  network s0 = (s, Ok net) -> ready b net s ->
  build signet_output scandir walk network shutdown rpcauth b draws s0 = (s', Ok (b', rest)) ->
  (forall i, is_node b i ->
     configured signet_output rpcauth b' net s' i
     /\ forall q, signet_output ++ node_dirname b i :: q <> bitcoind_file signet_output b i ->
          signet_output ++ node_dirname b i :: q <> miner_file signet_output b i ->
          s' !! (signet_output ++ node_dirname b i :: q)
          = if output_path q then None else s !! (test_dir net ++ node_name i :: q))
  /\ start_build b' = Raise ValueError.
Proof.
  intros Hnet Hready Hbuild. destruct (build_arranged b draws s0 s net Hnet Hready) as (s1 & E & Hl).
  rewrite E in Hbuild. apply io_bind_Ok in Hbuild as (s2 & r & Hc & H). injection H as <- <- <-.
  apply (configure_Ok signet_output rpcauth (used b)) in Hc as [Hall Hother].
  - split; [|done]. intros i Hi. rewrite Forall_forall in Hall. split.
    + apply (Hall i). by apply elem_of_range.
    + intros q H1 H2. rewrite Hother.
      * specialize (Hl i q Hi). by rewrite <-!app_assoc in Hl.
      * apply Forall_forall. intros j Hj%elem_of_range.
        assert (i <> j -> node_dirname b i <> node_dirname b j) as Hd by (intros Hij E'%node_dirname_eq; done).
        unfold bitcoind_file, miner_file in *. split; intros E'; destruct (decide (i = j)) as [->|Hij]; try done;
          apply app_inv_head in E'; injection E' as E' _; by apply Hd.
  - unfold range. apply NoDup_seqZ.
  - apply Forall_forall. intros i Hi%elem_of_range. exact Hi.
Qed.
(** The directory of an earlier build: nothing is copied, and the network is not shut down. *)
Lemma build_output_exists b draws s0 s net :
  build_called b = false -> network s0 = (s, Ok net) -> path_exists s signet_output = true ->
  build signet_output scandir walk network shutdown rpcauth b draws s0 = (s, Raise OSError).
Proof.
  intros Hnew Hnet Hex. unfold build, start_build. rewrite Hnew. unfold io_bind at 1, lift. cbn [negb ensure mbind result_bind].
  unfold io_bind at 1. rewrite Hnet. unfold io_bind at 1, copytree_new. by rewrite Hex.
Qed.
End Whole.

(** ** Witness: a network of one validator and one client *)

Definition test_tree_check (b : Builder) (s : fs) (dir : path) : bool :=
  let ids := range (nb_validators b + nb_clients b) in
  forallb (fun i => path_exists s (dir ++ [node_name i]) && negb (path_exists s (dir ++ [node_dirname b i]))) ids
  && forallb (fun n => implb (startswith "node" n) (existsb (fun i => String.eqb n (node_name i)) ids)) (elements (children s dir))
  && negb (is_dir s (dir ++ ["test_framework.log"%string]))
  && forallb (fun kv : path * entry =>
       implb (inside dir kv.1 && (bool_decide (last kv.1 = Some "stdout"%string) || bool_decide (last kv.1 = Some "stderr"%string)))
         (bool_decide (kv.2 = Directory))) (map_to_list s).

Lemma test_tree_checked b s dir : dir <> [] -> test_tree_check b s dir = true -> test_tree b s dir.
Proof.
  intros Hd. unfold test_tree_check. rewrite !andb_true_iff. intros [[[Hids Hnames] Hlog] Hout].
  rewrite forallb_forall in Hids. rewrite forallb_forall in Hnames. rewrite forallb_forall in Hout.
  assert (forall n, path_exists s (dir ++ [n]) = true <-> s !! (dir ++ [n]) <> None) as Hex by (intros n; apply exists_at).
  assert (forall i, is_node b i -> i ∈ range (nb_validators b + nb_clients b)) as Hr by (intros i Hi; by apply elem_of_range).
  split.
  - intros n Hn. split.
    + intros Hin. specialize (Hnames n). rewrite Hn in Hnames. cbn [implb] in Hnames.
      assert (In n (elements (children s dir))) as Hc.
      { apply list_elem_of_In, elem_of_elements, elem_of_children. destruct (s !! _); [by eexists|done]. }
      apply Hnames, existsb_exists in Hc as (i & Hi & E%String.eqb_eq). exists i. split; [|done].
      apply list_elem_of_In, elem_of_range in Hi. exact Hi.
    + intros (i & Hi & ->). apply Hex. specialize (Hids i). rewrite andb_true_iff in Hids. apply Hids, list_elem_of_In, Hr, Hi.
  - intros i Hi. specialize (Hids i). rewrite andb_true_iff, negb_true_iff in Hids.
    destruct Hids as [_ Hf]; [by apply list_elem_of_In, Hr|]. apply dec_stable. intros E%Hex. congruence.
  - intros E. apply negb_true_iff in Hlog. unfold is_dir in Hlog. rewrite lookup_path_not_nil in Hlog by (by destruct dir).
    by rewrite E in Hlog.
  - intros q n Hn Hin. destruct (s !! (dir ++ q ++ [n])) as [e|] eqn:E; [|done].
    specialize (Hout (dir ++ q ++ [n], e)). cbn in Hout. rewrite inside_app, app_assoc, last_snoc in Hout.
    assert (bool_decide (Some n = Some "stdout"%string) || bool_decide (Some n = Some "stderr"%string) = true) as Hb.
    { apply orb_true_iff. rewrite !bool_decide_eq_true. destruct Hn as [->| ->]; auto. }
    rewrite Hb in Hout. cbn in Hout. f_equal. eapply bool_decide_eq_true_1, Hout. rewrite <-app_assoc.
    apply list_elem_of_In, elem_of_map_to_list, E.
Qed.

Definition small_builder : Builder := MkBuilder 1 1 1684829350 60 None false.
Definition small_net : Network :=
  MkNetwork ["tmp"; "test"]%string [("address", "key")]%string [VStr "pubkey"] "5121"%string.
Definition small_rpcauth (i : Z) : string :=
  ("String to be appended to bitcoin.conf:" ++ NL ++ "rpcauth=user:salt$" ++ str_of_Z i ++ NL)%string.
Definition small_file (names : path) : path := test_dir small_net ++ names.
Definition small_fs : fs := list_to_map
  [(["work"], Directory); (["tmp"], Directory); (small_file [], Directory);
   (small_file ["test_framework.log"], File "log"); (small_file ["node0"], Directory);
   (small_file ["node0"; "stdout"], Directory); (small_file ["node0"; "stdout"; "1"], File "output");
   (small_file ["node0"; "wallet.dat"], File "wallet"); (small_file ["node1"], Directory);
   (small_file ["node1"; "stderr"], Directory)]%string.

Lemma small_ready : ready ["work"%string] "datadirs" small_builder small_net small_fs.
Proof.
  split; [reflexivity|apply fs_ok_checked; vm_compute; reflexivity|vm_compute; reflexivity..|
          split; [discriminate|vm_compute; reflexivity]|vm_compute; reflexivity|].
  apply test_tree_checked; [discriminate|]. vm_compute. reflexivity.
Qed.

Definition small_build : fs * result (Builder * list Z) :=
  build (signet_output ["work"%string] "datadirs") elements (fun l => l) (fun s => (s, Ok small_net)) (io_ret tt) small_rpcauth
    small_builder [0; 0] small_fs.
Definition small_path (names : path) : path := signet_output ["work"%string] "datadirs" ++ names.

Example small_build_works :
  is_ok small_build.2 = true /\ content small_build.1 (small_path ["node-0"; "wallet.dat"]%string) = Some "wallet"%string
  /\ path_exists small_build.1 (small_path ["node-0"; "stdout"]%string) = false
  /\ path_exists small_build.1 (small_path ["client-0"; "bitcoin.conf"]%string) = true
  /\ path_exists small_build.1 (small_path ["client-0"; "miner.conf.json"]%string) = false.
Proof. vm_compute. repeat split. Qed.

Example build_layout_witness :
  let out := signet_output ["work"%string] "datadirs" in
  (forall i, is_node small_builder i ->
     configured out small_rpcauth (used small_builder) small_net small_build.1 i
     /\ forall q, out ++ node_dirname small_builder i :: q <> bitcoind_file out small_builder i ->
          out ++ node_dirname small_builder i :: q <> miner_file out small_builder i ->
          small_build.1 !! (out ++ node_dirname small_builder i :: q)
          = if output_path q then None else small_fs !! (test_dir small_net ++ node_name i :: q))
  /\ start_build (used small_builder) = Raise ValueError.
Proof.
  assert (match small_build.2 with Ok x => x.2 = [] /\ x.1 = used small_builder | Raise _ => False end) as H by (vm_compute; split; reflexivity).
  destruct small_build as [s' [[b' rest]|e]] eqn:E; [|destruct H]. destruct H as [H1 H2]. cbn [fst snd] in H1, H2. subst b' rest.
  apply (build_layout ["work"%string] "datadirs" elements (fun l => l) (fun _ => reflexivity _) (fun _ => reflexivity _)
    (fun s => (s, Ok small_net)) (io_ret tt) small_rpcauth) with (draws := [0; 0]) (s0 := small_fs) (rest := []).
  - intros s Hs. exists s. split; [reflexivity|]. split; [exact Hs|reflexivity].
  - reflexivity.
  - exact small_ready.
  - exact E.
Defined.
