(* ===== verification/RemoteConfig.v ===== *)
(** * From the selected hosts to the configuration of the nodes

    [RemoteBench._setup] gives the addresses of the nodes to [setup-signet.py] as a
    JSON text, written as a JSON string to be a quoted word of a shell command;
    [SignetDirectoryBuilder.__init__] reads it back.  The shell is a parameter. *)

From S2P Require Import Prelude PyStr PyInt PyFloat PyDict PySort Naming Fields PyJson PyRepr RemoteBench SignetConfig.

Section Builder.
Context (parse_constant : string -> float).

(** The items of a list as pairs of an integer and a text: what the addresses are; any
    other document is not modelled. *)
Definition config_pair (v : pyval) : result (Z * string) :=
  match v with VList [VInt node_id; VStr ip] => Ok (node_id, ip) | _ => Raise Unmodelled end.
Definition config_pairs (v : pyval) : result (list (Z * string)) :=
  match v with VList l => mapM config_pair l | _ => Raise Unmodelled end.

(** [dict(json.loads(remote_config)) if remote_config else None] *)
Definition read_remote_config (remote_config : option string) : result (option (list (Z * string))) :=
  match remote_config with
  | None | Some EmptyString => Ok None
  | Some text =>
      v ← loads parse_constant text;
      pairs ← config_pairs v;
      Ok (Some (foldl (fun d kv => dset kv.1 kv.2 d) [] pairs))
  end.

(** [SignetDirectoryBuilder.__init__], on the values that [click] accepts. *)
Definition make_builder (nb_validators nb_clients genesis_block_timestamp target_block_time : Z) (remote_config : option string)
    : result Builder :=
  config ← read_remote_config remote_config;
  Ok (MkBuilder nb_validators nb_clients genesis_block_timestamp target_block_time config false).

(** The ranges of the options of [main]; [click] exits with code 2 outside of them. *)
Definition signet_main (nb_validators nb_clients genesis_block_timestamp target_block_time : Z) (remote_config : option string)
    : result Builder :=
  _ ← ensure ((1 <=? nb_validators) && (1 <=? nb_clients) && (1598918400 <=? genesis_block_timestamp)
              && (1 <=? target_block_time)) (SystemExit 2);
  make_builder nb_validators nb_clients genesis_block_timestamp target_block_time remote_config.
End Builder.

(** ** The word of the command *)

(** The characters that a shell takes as they are between double quotes. *)
Definition shell_plain (c : ascii) : bool :=
  let n := nat_of_ascii c in
  (32 <=? n)%nat && (n <=? 126)%nat
  && negb (Ascii.eqb c "$" || Ascii.eqb c "`" || Ascii.eqb c "!" || Ascii.eqb c backslash_char).
(** An address: such characters, but the quote. *)
Definition address_char (c : ascii) : bool := shell_plain c && negb (Ascii.eqb c quote_char).
Definition is_address (ip : string) : bool := str_all address_char ip.

Lemma digit_shell_plain c : is_digit c = true -> shell_plain c = true.
Proof. intros H. by destruct c as [[] [] [] [] [] [] [] []]. Qed.

Lemma encode_address ip : is_address ip = true -> encode_chars ip = ip.
Proof.
  unfold is_address. induction ip as [|c ip IH]; [done|]. cbn [str_all encode_chars]. intros [Hc Hip]%andb_true_iff.
  rewrite IH by done. enough (encode_char c = String c "") as -> by done. clear -Hc. by destruct c as [[] [] [] [] [] [] [] []].
Qed.

Lemma str_all_join p sep ts : str_all p sep = true -> Forall (fun t => str_all p t = true) ts -> str_all p (join sep ts) = true.
Proof.
  intros Hsep. induction 1 as [|t ts Ht Hts IH]; [done|]. destruct ts as [|t' ts]; [done|].
  change (join sep (t :: t' :: ts)) with (t ++ sep ++ join sep (t' :: ts))%string. by rewrite !str_all_app, Ht, Hsep, IH.
Qed.

(** The text of the addresses needs no other escape than that of its quotes. *)
Lemma remote_config_text_plain ids :
  Forall (fun ix : Z * string => 0 <= ix.1 /\ is_address ix.2 = true) ids -> str_all shell_plain (remote_config_text ids) = true.
Proof.
  intros Hids. unfold remote_config_text, dumps, remote_config_value. cbn [iterencode]. rewrite map_map.
  assert (Forall (fun t => str_all shell_plain t = true)
            (map (fun ix : Z * string => iterencode float_repr compact 1 (VList [VInt ix.1; VStr ix.2])) ids)) as Hts.
  { apply Forall_map. eapply Forall_impl; [exact Hids|]. intros [i ip] [Hi Hip]. cbn [fst snd] in *. cbn [iterencode map bracket join].
    unfold newline_indent, compact, encode_string. cbn [indent item_separator]. rewrite !str_all_app. cbn [str_all]. rewrite !str_all_app.
    rewrite encode_address by done.
    rewrite (str_all_weaken is_digit shell_plain) by (apply digit_shell_plain || by apply str_of_Z_digits).
    rewrite (str_all_weaken address_char shell_plain); [done| |done]. intros c Hc. unfold address_char in Hc. by apply andb_true_iff in Hc as [-> _]. }
  unfold bracket. destruct (map _ ids) as [|t ts]; [done|]. rewrite !str_all_app. rewrite str_all_join; [done|done|done].
Qed.

(** ** What the builder reads *)

Lemma config_pairs_value ids : config_pairs (remote_config_value ids) = Ok ids.
Proof.
  unfold remote_config_value, config_pairs. apply mapM_Ok. apply Forall2_fmap_l, Forall_Forall2_diag, Forall_forall. by intros [i ip] _.
Qed.

Lemma remote_config_json_ok ids : json_ok float_repr (remote_config_value ids) = true.
Proof. cbn. apply forallb_forall. intros v (ix & <- & _)%in_map_iff. done. Qed.

Lemma remote_config_normal ids : normal compact (remote_config_value ids) = remote_config_value ids.
Proof. unfold remote_config_value. cbn [normal]. f_equal. rewrite map_map. by apply map_ext. Qed.

Lemma dict_of_distinct (ids : list (Z * string)) : NoDup ids.*1 -> foldl (fun d kv => dset kv.1 kv.2 d) [] ids = ids.
Proof.
  intros Hnd. induction ids as [|[k v] ids IH] using rev_ind; [done|].
  rewrite fmap_app, NoDup_app in Hnd. destruct Hnd as (Hnd & Hnin & _). rewrite foldl_app, IH by done. cbn.
  apply dset_new. intros Hin. apply (Hnin k); [exact Hin|by left].
Qed.

Lemma read_remote_config_text parse_constant ids :
  NoDup ids.*1 -> read_remote_config parse_constant (Some (remote_config_text ids)) = Ok (Some ids).
Proof.
  intros Hnd. unfold read_remote_config. pose proof (remote_config_json_ok ids) as Hok.
  pose proof (loads_dumps parse_constant float_repr compact _ eq_refl Hok) as Hloads.
  fold (remote_config_text ids) in Hloads. rewrite remote_config_normal in Hloads.
  assert (exists c t, remote_config_text ids = String c t) as (c & t & Ht) by (unfold remote_config_text, dumps; destruct ids; by do 2 eexists).
  rewrite Ht in *. rewrite Hloads. cbn [mbind result_bind]. rewrite config_pairs_value. cbn [mbind result_bind].
  by rewrite dict_of_distinct.
Qed.

Section Shell.
(** What a shell makes of a word, and the words it takes between double quotes: the
    quotes inside are escaped. *)
Context (parse_constant : string -> float) (unquote : string -> string).
Hypothesis unquote_quoted : forall s, str_all shell_plain s = true -> unquote (encode_string s) = s.

(** C31: The addresses of the hosts that [RemoteBench] selected are those that the builder
    of the configurations uses: through the JSON texts and the shell, the peer and the
    replica of every number have the address of the host of this number, validators
    first. *)
Theorem remote_config_received selected_validators selected_clients genesis_block_timestamp target_block_time :
  let hosts := selected_validators ++ selected_clients in
  let nodes := Z.of_nat (length selected_validators) in
  let clients := Z.of_nat (length selected_clients) in
  Forall (fun ip => is_address ip = true) hosts ->
  exists ids b,
    node_id_to_ip selected_validators selected_clients nodes clients = Ok ids
    /\ make_builder parse_constant nodes clients genesis_block_timestamp target_block_time (Some (unquote (remote_config_word ids))) = Ok b
    /\ forall i ip, hosts !! i = Some ip -> addnode_line b (Z.of_nat i) = Ok ("addnode=" ++ ip ++ ":38000")%string.
Proof.
  intros hosts nodes clients Hhosts.
  pose proof (node_id_to_ip_assigns selected_validators selected_clients) as Hassigns. cbv zeta in Hassigns. fold nodes clients in Hassigns.
  destruct Hassigns as (ids & Hids & Hkeys & Hv & Hc).
  assert (forall i ip, hosts !! i = Some ip -> dget (Z.of_nat i) ids = Some ip) as Hget.
  { intros i ip Hi. apply lookup_app_Some in Hi as [Hi|[Hle Hi]].
    - rewrite Hv, Nat2Z.id; [done|]. apply lookup_lt_Some in Hi. lia.
    - replace (Z.of_nat i) with (nodes + Z.of_nat (i - length selected_validators)) by lia.
      rewrite Hc, Nat2Z.id; [done|]. apply lookup_lt_Some in Hi. lia. }
  assert (NoDup ids.*1) as Hnd by (rewrite Hkeys; apply NoDup_seqZ).
  exists ids. eexists. split; [done|]. unfold make_builder.
  change (remote_config_word ids) with (encode_string (remote_config_text ids)). rewrite unquote_quoted.
  - rewrite read_remote_config_text by done. split; [done|]. intros i ip Hi. unfold addnode_line. cbn [remote_config].
    unfold dlookup. by rewrite (Hget i ip Hi).
  - apply remote_config_text_plain. apply Forall_forall. intros [k ip] Hin. cbn [fst snd].
    assert (k ∈ ids.*1) as Hk by (apply list_elem_of_fmap; by exists (k, ip)). rewrite Hkeys in Hk. apply elem_of_range in Hk.
    split; [lia|]. apply elem_dget_Some in Hin; [|done]. rewrite Forall_forall in Hhosts. apply Hhosts.
    destruct (lookup_lt_is_Some_2 hosts (Z.to_nat k)) as [ip' Hip']; [unfold hosts; rewrite length_app; lia|].
    pose proof (Hget _ _ Hip') as Hk'. rewrite Z2Nat.id, Hin in Hk' by lia. injection Hk' as ->. by eapply list_elem_of_lookup_2.
Qed.
End Shell.

(** A shell that takes away the quotes around a word and the backslashes before the
    quotes and the backslashes in it. *)
Fixpoint unescape (s : string) : string :=
  match s with
  | EmptyString => EmptyString
  | String c s' =>
      if Ascii.eqb c quote_char then EmptyString
      else if Ascii.eqb c backslash_char then match s' with String d r => String d (unescape r) | EmptyString => EmptyString end
      else String c (unescape s')
  end.
Definition sample_unquote (word : string) : string := match word with String _ s => unescape s | EmptyString => EmptyString end.

Lemma sample_unquote_quoted s : str_all shell_plain s = true -> sample_unquote (encode_string s) = s.
Proof.
  unfold sample_unquote, encode_string. induction s as [|c s IH]; [done|]. cbn [str_all encode_chars]. intros [Hc Hs]%andb_true_iff.
  rewrite <-str_app_assoc. specialize (IH Hs). revert IH. generalize (encode_chars s ++ DQ)%string. intros t IH.
  assert (unescape (encode_char c ++ t) = String c (unescape t)) as ->; [|by rewrite IH].
  clear -Hc. destruct c as [[] [] [] [] [] [] [] []]; try discriminate Hc; reflexivity.
Qed.

Example remote_config_received_witness :
  sample_unquote (remote_config_word [(0, "10.0.0.1"); (1, "10.0.0.2")]%string) = ("[[0," ++ DQ ++ "10.0.0.1" ++ DQ ++ "],[1," ++ DQ ++ "10.0.0.2" ++ DQ ++ "]]")%string
  /\ exists ids b,
    node_id_to_ip ["10.0.0.1"%string] ["10.0.0.2"%string] 1 1 = Ok ids
    /\ make_builder (fun _ => 0) 1 1 1684829350 60 (Some (sample_unquote (remote_config_word ids))) = Ok b
    /\ forall i ip, ["10.0.0.1"; "10.0.0.2"]%string !! i = Some ip -> addnode_line b (Z.of_nat i) = Ok ("addnode=" ++ ip ++ ":38000")%string.
Proof.
  split; [vm_compute; reflexivity|].
  apply (remote_config_received (fun _ => 0) sample_unquote sample_unquote_quoted ["10.0.0.1"%string] ["10.0.0.2"%string] 1684829350 60).
  by repeat constructor.
Defined.

(** ** Parameters that the builder does not take

    The parameters of a benchmark may have a target block time of zero; the option of
    [setup-signet.py] asks for one second at least. *)
Lemma zero_block_time_rejected parse_constant nb_validators nb_clients genesis_block_timestamp config :
  signet_main parse_constant nb_validators nb_clients genesis_block_timestamp 0 config = Raise (SystemExit 2).
Proof. unfold signet_main. by rewrite andb_false_r. Qed.
