(* ===== verification/TxClient.v ===== *)
(** * The client that sends transactions (benchmark/run-client.py)

    One round of [Client.send_transactions]: the coins it spends, the outputs, the
    pace and the timings.  The local variables of the method are a record; an
    exception leaves what was assigned before it.  An amount of the wallet is a
    [Decimal] with eight decimals, here its number of satoshis; [listunspent], the
    signature and the clocks are parameters of a round, the numbers of [randrange] a
    stream of draws. *)

From S2P Require Import Prelude PyIo PyFloat Bench.

(** ** Amounts *)
Definition COIN : Z := 100000000.

(** [Decimal(x).quantize(Decimal("1.00000000"))], in satoshis. *)
Definition quantize (x : float) : Z := round_half_even (x * COIN) one.
(** [float(d)] of an amount. *)
Definition decimal_to_float (satoshis : Z) : float := round_frac (satoshis * one) COIN.
(** [d < x]: decimals and floats are compared exactly. *)
Definition decimal_lt (satoshis : Z) (x : float) : bool := satoshis * one <? x * COIN.

(** 0.001, 0.1 and 0.5. *)
Definition amount_sent_per_output : float := round_frac one 1000.
Definition tenth : float := round_frac one 10.
Definition half : float := round_frac one 2.

(** ** The variables *)
Record Coin : Type := MkCoin { txid : string; vout : Z; amount : Z }.

(** [t1] to [t7], and the five cumulative times. *)
Record Times : Type := MkTimes { t1 : Z; t2 : Z; t3 : Z; t4 : Z; t5 : Z; t6 : Z; t7 : Z }.
Record Cumulative : Type := MkCumulative {
  cum_ms_listunspent : Z; cum_ms_coinselect : Z; cum_ms_create : Z; cum_ms_sign : Z; cum_ms_send : Z }.

Record Vars : Type := MkVars {
  counter : Z;
  sleep_time : float;
  total_bytes_sent : float;
  query_unspent : bool;
  unspent_coins : list Coin;
  coin_selected_idxs : list Z;
  warmup_rounds : Z;
  times : Times;
  cumulative : Cumulative }.

Definition set_sleep (x : float) (s : Vars) : Vars :=
  MkVars (counter s) x (total_bytes_sent s) (query_unspent s) (unspent_coins s) (coin_selected_idxs s) (warmup_rounds s) (times s) (cumulative s).
Definition set_query (q : bool) (s : Vars) : Vars :=
  MkVars (counter s) (sleep_time s) (total_bytes_sent s) q (unspent_coins s) (coin_selected_idxs s) (warmup_rounds s) (times s) (cumulative s).
Definition set_unspent (coins : list Coin) (s : Vars) : Vars :=
  MkVars (counter s) (sleep_time s) (total_bytes_sent s) (query_unspent s) coins (coin_selected_idxs s) (warmup_rounds s) (times s) (cumulative s).
Definition set_selected (idxs : list Z) (s : Vars) : Vars :=
  MkVars (counter s) (sleep_time s) (total_bytes_sent s) (query_unspent s) (unspent_coins s) idxs (warmup_rounds s) (times s) (cumulative s).
Definition set_warmup (n : Z) (s : Vars) : Vars :=
  MkVars (counter s) (sleep_time s) (total_bytes_sent s) (query_unspent s) (unspent_coins s) (coin_selected_idxs s) n (times s) (cumulative s).
Definition set_times (t : Times) (s : Vars) : Vars :=
  MkVars (counter s) (sleep_time s) (total_bytes_sent s) (query_unspent s) (unspent_coins s) (coin_selected_idxs s) (warmup_rounds s) t (cumulative s).
Definition set_cumulative (c : Cumulative) (s : Vars) : Vars :=
  MkVars (counter s) (sleep_time s) (total_bytes_sent s) (query_unspent s) (unspent_coins s) (coin_selected_idxs s) (warmup_rounds s) (times s) c.
Definition set_sent (bytes : float) (n : Z) (s : Vars) : Vars :=
  MkVars n (sleep_time s) bytes (query_unspent s) (unspent_coins s) (coin_selected_idxs s) (warmup_rounds s) (times s) (cumulative s).

Definition modify (f : Vars -> Vars) : io Vars unit := fun s => (f s, Ok tt).
Definition gets {A} (f : Vars -> A) : io Vars A := fun s => (s, Ok (f s)).

(** The variables before the loop. *)
Definition initial : Vars :=
  MkVars 0 tenth 0 true [] [] 0 (MkTimes 0 0 0 0 0 0 0) (MkCumulative 0 0 0 0 0).

(** What one round gets from outside: the wallet, the readings of the clocks, the
    draws, the length of the signed transaction in hexadecimal, the hash it was
    sent with. *)
Record Round : Type := MkRound {
  listunspent : result (list Coin);
  perf_counter_ns : nat -> Z;
  time_before : float;
  time_after : float;
  draws : list Z;
  signrawtransaction : list (string * Z) -> list (string * Z) -> result Z;
  sendrawtransaction : result string }.

(** ** The coins *)

(** The coins whose indexes are not selected, [enumerate(unspent_coins)]. *)
Definition new_unspent_coins (selected : list Z) (coins : list Coin) : list Coin :=
  snd <$> filter (fun ic => Z.of_nat ic.1 ∉ selected) (imap pair coins).

(** [i = randrange(len(unspent_coins))] and again while [i] is selected. *)
Fixpoint draw_coin (selected draws : list Z) : result (Z * list Z) :=
  match draws with
  | [] => Raise OutOfFuel
  | i :: rest => if bool_decide (i ∈ selected) then draw_coin selected rest else Ok (i, rest)
  end.

(** [while total_covered_with_inputs < total_to_cover_with_inputs]; an iteration
    selects a new coin, so [fuel] is the number of the coins. *)
Fixpoint select_coins (fuel : nat) (coins : list Coin) (total_to_cover : float) (draws selected : list Z) (covered : Z)
    : result (list Z * Z) :=
  if decimal_lt covered total_to_cover then
    match fuel with
    | O => Raise OutOfFuel
    | S fuel =>
        _ ← ensure (negb (Nat.eqb (length coins) 0)) ValueError;
        id ← draw_coin selected draws;
        coin_selected ← or_raise IndexError (coins !! Z.to_nat id.1);
        select_coins fuel coins total_to_cover id.2 (selected ++ [id.1]) (covered + amount coin_selected)
    end
  else Ok (selected, covered).

(** ** The outputs *)

(** [int(tx_size/180) + 1] *)
Definition nb_outputs (tx_size : Z) : result Z := x ← truediv tx_size 180; Ok (ftrunc x + 1).

(** The heuristic size of a transaction and its fee. *)
Definition approx_fee_sat (n_inputs n_outputs : Z) : Z := 5 * (10 + 148 * n_inputs + 34 * n_outputs).

(** [tx_outputs]: the addresses in turn, the first output taking the change. *)
Definition tx_outputs (target_addresses : list string) (n : Z) (covered n_inputs : Z) : result (list (string * float)) :=
  outputs ← mapM (fun i => a ← or_raise IndexError (target_addresses !! Z.to_nat (i mod Z.of_nat (length target_addresses)));
                           Ok (a, amount_sent_per_output)) (range n);
  let total_in_output := fmul (of_int n) amount_sent_per_output in
  fee ← fdiv (of_int (approx_fee_sat n_inputs n)) (of_int COIN);
  let tx_change := covered - quantize total_in_output - quantize fee in
  match outputs with
  | [] => Raise IndexError
  | (address, value) :: rest => Ok ((address, decimal_to_float (quantize value + tx_change)) :: rest)
  end.

(** [int(value * COIN)] of each output. *)
Definition vouts (outputs : list (string * float)) : list (string * Z) :=
  (fun av => (av.1, ftrunc (fmul av.2 (of_int COIN)))) <$> outputs.

(** ** A round *)
Section Client.
Context (nb_warmup_rounds : Z) (tx_size : Z) (target_byte_rate start_time : float) (target_addresses : list string).

(** The number of outputs of the round. *)
Definition round_outputs (warmup_rounds : Z) : result Z :=
  if warmup_rounds <? nb_warmup_rounds then Ok 200 else nb_outputs tx_size.

(** The branch that sends a transaction. *)
Definition send_one (r : Round) (nb_tx_outputs : Z) : io Vars unit :=
  _ <~ modify (fun s => if warmup_rounds s <? nb_warmup_rounds then set_warmup (warmup_rounds s + 1) s else s);
  _ <~ modify (set_query false);
  coins <~ gets unspent_coins;
  let total_to_cover_with_inputs := fmul (of_int (nb_tx_outputs + 1)) amount_sent_per_output in
  sc <~ lift (select_coins (length coins) coins total_to_cover_with_inputs (draws r) [] 0);
  _ <~ modify (set_selected sc.1);
  tx_inputs <~ lift (mapM (fun i => c ← or_raise IndexError (coins !! Z.to_nat i); Ok (txid c, vout c)) sc.1);
  outputs <~ lift (tx_outputs target_addresses nb_tx_outputs sc.2 (Z.of_nat (length tx_inputs)));
  _ <~ modify (fun s => let t := times s in set_times (MkTimes (t1 t) (t2 t) (perf_counter_ns r 3) (t4 t) (t5 t) (t6 t) (t7 t)) s);
  let vout := vouts outputs in
  _ <~ modify (fun s => let t := times s in
         set_times (MkTimes (t1 t) (t2 t) (t3 t) (perf_counter_ns r 4) (perf_counter_ns r 5) (t6 t) (t7 t)) s);
  hex_length <~ lift (signrawtransaction r tx_inputs vout);
  _ <~ modify (fun s => let t := times s in set_times (MkTimes (t1 t) (t2 t) (t3 t) (t4 t) (t5 t) (perf_counter_ns r 6) (t7 t)) s);
  txhash <~ lift (sendrawtransaction r);
  _ <~ modify (fun s => let t := times s in set_times (MkTimes (t1 t) (t2 t) (t3 t) (t4 t) (t5 t) (t6 t) (perf_counter_ns r 7)) s);
  tx_byte_len <~ lift (truediv hex_length 2);
  _ <~ modify (fun s => set_sent (fadd (total_bytes_sent s) tx_byte_len) (counter s + 1) s);
  bytes <~ gets total_bytes_sent;
  _ <~ lift (fdiv bytes (fsub (time_after r) start_time));
  modify (fun s => set_sleep (fsub (sleep_time s) tenth) s).

(** [int(ns / 1_000_000)] *)
Definition in_millis (ns : Z) : result Z := x ← truediv ns 1000000; Ok (ftrunc x).

(** The timings, whose percentages divide by the total time. *)
Definition compute_timings : io Vars unit :=
  t <~ gets times;
  cur_ms_listunspent <~ lift (in_millis (t2 t - t1 t));
  cur_ms_coinselect <~ lift (in_millis (t4 t - t3 t));
  cur_ms_create <~ lift (in_millis (t5 t - t4 t));
  cur_ms_sign <~ lift (in_millis (t6 t - t5 t));
  cur_ms_send <~ lift (in_millis (t7 t - t6 t));
  let cur_ms_tot := cur_ms_listunspent + cur_ms_coinselect + cur_ms_create + cur_ms_sign + cur_ms_send in
  _ <~ lift (ensure (negb (cur_ms_tot =? 0)) ZeroDivisionError);
  _ <~ modify (fun s => let c := cumulative s in
         set_cumulative (MkCumulative (cum_ms_listunspent c + cur_ms_listunspent) (cum_ms_coinselect c + cur_ms_coinselect)
           (cum_ms_create c + cur_ms_create) (cum_ms_sign c + cur_ms_sign) (cum_ms_send c + cur_ms_send)) s);
  c <~ gets cumulative;
  let cum_ms_tot := cum_ms_listunspent c + cum_ms_coinselect c + cum_ms_create c + cum_ms_sign c + cum_ms_send c in
  lift (ensure (negb (cum_ms_tot =? 0)) ZeroDivisionError).

(** The wallet of the round. *)
Definition read_unspent (r : Round) : io Vars unit :=
  query <~ gets query_unspent;
  if (query : bool)
  then coins <~ lift (listunspent r); modify (set_unspent coins)
  else modify (fun s => set_unspent (new_unspent_coins (coin_selected_idxs s) (unspent_coins s)) s).

(** The body of the [try]. *)
Definition round_body (r : Round) : io Vars unit :=
  _ <~ modify (fun s => let t := times s in set_times (MkTimes (perf_counter_ns r 1) (t2 t) (t3 t) (t4 t) (t5 t) (t6 t) (t7 t)) s);
  _ <~ read_unspent r;
  _ <~ modify (set_selected []);
  warmup <~ gets warmup_rounds;
  nb_tx_outputs <~ lift (round_outputs warmup);
  coins <~ gets unspent_coins;
  let current_balance := foldr Z.add 0 (amount <$> coins) in
  _ <~ modify (fun s => let t := times s in set_times (MkTimes (t1 t) (perf_counter_ns r 2) (t3 t) (t4 t) (t5 t) (t6 t) (t7 t)) s);
  bytes <~ gets total_bytes_sent;
  current_byte_rate <~ lift (fdiv bytes (fsub (time_before r) start_time));
  let required_balance := fmul (of_int (nb_tx_outputs + 1)) amount_sent_per_output in
  _ <~ (if decimal_lt current_balance required_balance
        then _ <~ modify (set_query true); modify (set_sleep half)
        else if current_byte_rate <? target_byte_rate then send_one r nb_tx_outputs
        else modify (fun s => set_sleep (fadd (sleep_time s) tenth) s));
  compute_timings.

(** One iteration of the loop, the sleep apart: every exception is logged. *)
Definition round (r : Round) : Vars -> Vars := fun s => (round_body r s).1.

(** The rounds until the client is stopped. *)
Definition send_transactions (rounds : list Round) : Vars := foldl (fun s r => round r s) initial rounds.
End Client.

(** [nb_warmup_rounds] of [main]: [int(warmup_duration/block_time)]. *)
Definition warmup_rounds_of (warmup_duration block_time : Z) : result Z :=
  x ← truediv warmup_duration block_time; Ok (ftrunc x).

(** ** The choice of the coins *)

Definition coins_at (coins : list Coin) (idxs : list Z) : list Coin := omap (fun i => coins !! Z.to_nat i) idxs.
Definition total_amount (coins : list Coin) : Z := foldr Z.add 0 (amount <$> coins).

Lemma total_amount_app a b : total_amount (a ++ b) = total_amount a + total_amount b.
Proof. unfold total_amount. induction a as [|c a IH]; [done|]. cbn in *. lia. Qed.

Lemma total_amount_perm a b : a ≡ₚ b -> total_amount a = total_amount b.
Proof. unfold total_amount. induction 1; cbn in *; lia. Qed.

Section Selection.
Context (coins : list Coin) (target : float).

Definition valid_index (i : Z) : Prop := 0 <= i < Z.of_nat (length coins).
(** Every coin is drawn. *)
Definition full_draws (ds : list Z) : Prop := forall i, valid_index i -> i ∈ ds.

Lemma draw_coin_finds selected junk rest i :
  i ∈ junk -> (i ∉ selected) -> Forall valid_index junk ->
  exists j junk', draw_coin selected (junk ++ rest) = Ok (j, junk' ++ rest) /\ (j ∉ selected) /\ valid_index j
    /\ Forall valid_index junk'.
Proof.
  induction junk as [|j junk IH]; [by intros ?%elem_of_nil|]. intros Hi Hn [Hj Hjs]%Forall_cons. cbn [app draw_coin].
  case_bool_decide as Hs; [|by exists j, junk]. apply IH; [|done|done]. set_solver.
Qed.

Lemma some_coin_left selected :
  NoDup selected -> Forall valid_index selected -> (length selected < length coins)%nat ->
  exists i, valid_index i /\ i ∉ selected.
Proof.
  intros Hnd Hall Hlt. set (n := Z.of_nat (length coins)).
  destruct (decide (Exists (fun i => i ∉ selected) (range n))) as [H|H].
  - apply Exists_exists in H as (i & Hi%elem_of_range & Hs). by exists i.
  - exfalso. rewrite <-Forall_Exists_neg in H.
    assert (length (range n) <= length selected)%nat as Hle.
    { apply submseteq_length, NoDup_submseteq; [apply NoDup_seqZ|].
      intros i Hi. rewrite Forall_forall in H. destruct (decide (i ∈ selected)); [done|]. by destruct (H i Hi). }
    unfold range in Hle. rewrite length_seqZ in Hle. lia.
Qed.

Lemma coins_at_snoc idxs i c : coins !! Z.to_nat i = Some c -> coins_at coins (idxs ++ [i]) = coins_at coins idxs ++ [c].
Proof. intros Hc. unfold coins_at. rewrite omap_app. cbn. by rewrite Hc. Qed.

(** All the coins are selected when as many indexes are. *)
Lemma coins_at_all idxs :
  NoDup idxs -> Forall valid_index idxs -> length idxs = length coins -> total_amount (coins_at coins idxs) = total_amount coins.
Proof.
  intros Hnd Hall Hlen. apply total_amount_perm. unfold coins_at.
  assert (idxs ≡ₚ range (Z.of_nat (length coins))) as ->.
  { apply submseteq_length_Permutation.
    - apply NoDup_submseteq; [done|]. intros i Hi. rewrite Forall_forall in Hall. by apply elem_of_range, Hall.
    - unfold range. rewrite length_seqZ. lia. }
  unfold range.
  assert (forall pre l, coins = pre ++ l ->
            omap (fun i => coins !! Z.to_nat i) (seqZ (Z.of_nat (length pre)) (Z.of_nat (length l))) = l) as H.
  { intros pre l. revert pre. induction l as [|c l IH]; intros pre Hc; [done|]. cbn [length].
    rewrite seqZ_cons by lia. cbn [omap list_omap]. rewrite Nat2Z.id. rewrite Hc at 1.
    rewrite lookup_app_r, Nat.sub_diag by lia. cbn. f_equal.
    specialize (IH (pre ++ [c])). rewrite length_app in IH. cbn [length] in IH.
    replace (Z.pred (Z.of_nat (S (length l)))) with (Z.of_nat (length l)) by lia.
    replace (Z.succ (Z.of_nat (length pre))) with (Z.of_nat (length pre + 1)) by lia. apply IH. by rewrite <-app_assoc. }
  specialize (H [] coins eq_refl). change (Z.of_nat (length (@nil Coin))) with 0 in H. by rewrite H.
Qed.

(** What was selected, the last coin being needed. *)
Definition selection (idxs : list Z) (covered : Z) : Prop :=
  NoDup idxs /\ Forall valid_index idxs /\ covered = total_amount (coins_at coins idxs)
  /\ (forall init i, idxs = init ++ [i] -> decimal_lt (total_amount (coins_at coins init)) target = true).

Lemma select_coins_go fuel selected covered junk rounds :
  selection selected covered -> decimal_lt (total_amount coins) target = false ->
  (fuel + length selected = length coins)%nat -> length rounds = fuel ->
  Forall valid_index (junk ++ concat rounds) -> Forall full_draws rounds ->
  exists idxs c, select_coins fuel coins target (junk ++ concat rounds) selected covered = Ok (idxs, c)
    /\ selection idxs c /\ decimal_lt c target = false.
Proof.
  revert selected covered junk rounds.
  induction fuel as [|fuel IH]; intros selected covered junk rounds Hsel Hbal Hf Hr Hv Hfull.
  - cbn [select_coins]. destruct (decimal_lt covered target) eqn:E; [|by eauto 10].
    destruct Hsel as (Hnd & Hall & -> & _). rewrite coins_at_all in E by (done || lia). congruence.
  - cbn [select_coins]. destruct (decimal_lt covered target) eqn:E; [|by eauto 10].
    rewrite (proj2 (Nat.eqb_neq (length coins) 0)) by lia. cbn [negb ensure mbind result_bind].
    destruct rounds as [|round rounds]; [done|]. injection Hr as Hr. apply Forall_cons in Hfull as [Hfr Hfull].
    pose proof Hsel as (Hnd & Hall & Hc & Hlast).
    destruct (some_coin_left selected Hnd Hall) as (i & Hi & Hin); [lia|].
    cbn [concat] in *. rewrite (app_assoc junk) in Hv |- *. apply Forall_app in Hv as [Hv Hvr].
    destruct (draw_coin_finds selected (junk ++ round) (concat rounds) i) as (j & junk' & Hd & Hj & Hjv & Hjunk);
      [apply elem_of_app; right; by apply Hfr|done|done|].
    rewrite Hd. cbn [mbind result_bind fst snd].
    assert (exists c, coins !! Z.to_nat j = Some c) as [c Hcj].
    { apply lookup_lt_is_Some. unfold valid_index in Hjv. lia. }
    rewrite Hcj. cbn [or_raise mbind result_bind]. apply IH; try done.
    + split; [apply NoDup_app; split; [done|split; [set_solver|apply NoDup_singleton]]|].
      split; [apply Forall_app; split; [done|by constructor]|]. split.
      * rewrite (coins_at_snoc _ _ c) by done. rewrite total_amount_app, Hc. unfold total_amount at 3. cbn. lia.
      * intros init i' [-> _]%app_inj_tail. by rewrite <-Hc.
    + rewrite length_app. cbn. lia.
    + by apply Forall_app.
Qed.

(** C37: With a sufficient balance the choice of the coins ends, for draws in which
    every coin appears as many times over as there are coins: it takes distinct
    coins of the wallet that cover the target, and stops at the first one that
    does. *)
Theorem select_coins_covers rounds :
  decimal_lt (total_amount coins) target = false ->
  length rounds = length coins -> Forall valid_index (concat rounds) -> Forall full_draws rounds ->
  exists idxs covered, select_coins (length coins) coins target (concat rounds) [] 0 = Ok (idxs, covered)
    /\ selection idxs covered /\ decimal_lt covered target = false.
Proof.
  intros Hb Hr Hv Hf. apply (select_coins_go _ [] 0 [] rounds); try done.
  split; [constructor|]. split; [constructor|]. split; [done|]. intros [] ? E; discriminate E.
Qed.
End Selection.

(** ** Spent coins *)

Lemma in_new_unspent c selected coins :
  c ∈ new_unspent_coins selected coins <-> exists i, coins !! i = Some c /\ Z.of_nat i ∉ selected.
Proof.
  unfold new_unspent_coins. rewrite list_elem_of_fmap. split.
  - intros ([i c'] & -> & [Hs Hin]%list_elem_of_filter). apply elem_of_lookup_imap in Hin as (j & y & [= -> ->] & Hj).
    exists j. done.
  - intros (i & Hi & Hs). exists (i, c). split; [done|]. apply list_elem_of_filter. split; [done|].
    apply elem_of_lookup_imap. by exists i, c.
Qed.

(** The rest of a round leaves the wallet as it was read. *)
Definition keeps_coins {A} (m : io Vars A) : Prop := forall s, unspent_coins (m s).1 = unspent_coins s.

Lemma keeps_coins_bind {A B} (m : io Vars A) (f : A -> io Vars B) :
  keeps_coins m -> (forall a, keeps_coins (f a)) -> keeps_coins (io_bind m f).
Proof. intros Hm Hf s. unfold io_bind. specialize (Hm s). destruct (m s) as [s1 [a|e]]; [|done]. by rewrite Hf. Qed.

Lemma keeps_coins_modify f : (forall s, unspent_coins (f s) = unspent_coins s) -> keeps_coins (modify f).
Proof. intros Hf s. apply Hf. Qed.

Ltac keeps := repeat first
  [ apply keeps_coins_bind; [|intros]
  | apply keeps_coins_modify; intros; first [reflexivity|by case_match]
  | (intros ?; reflexivity)
  | case_match ].

Section Reuse.
Context (nb_warmup_rounds tx_size : Z) (target_byte_rate start_time : float) (target_addresses : list string).

(** C38: A coin chosen in a round is not in the wallet of the next one, unless the
    wallet was asked to [bitcoind] again: no coin is spent twice in between. *)
Theorem spent_coins_not_reused r s i c :
  query_unspent s = false -> NoDup (unspent_coins s) ->
  i ∈ coin_selected_idxs s -> 0 <= i -> unspent_coins s !! Z.to_nat i = Some c ->
  c ∉ unspent_coins (round nb_warmup_rounds tx_size target_byte_rate start_time target_addresses r s).
Proof.
  intros Hq Hnd Hi Hpos Hc.
  assert (unspent_coins (round nb_warmup_rounds tx_size target_byte_rate start_time target_addresses r s)
          = new_unspent_coins (coin_selected_idxs s) (unspent_coins s)) as ->.
  { unfold round, round_body. unfold io_bind at 1, modify at 1. unfold io_bind at 1, read_unspent.
    unfold io_bind at 1, gets at 1. cbn [query_unspent set_times]. rewrite Hq. unfold modify at 1.
    match goal with |- unspent_coins (io_bind ?m ?f ?s0).1 = _ => assert (keeps_coins (io_bind m f)) as Hk end.
    { keeps. }
    by rewrite Hk. }
  rewrite in_new_unspent. intros (j & Hj & Hs). apply Hs.
  rewrite (NoDup_lookup _ _ _ _ Hnd Hj Hc). by rewrite Z2Nat.id.
Qed.
End Reuse.

(** ** The value of a transaction *)

Lemma coin_bounds : 0 < COIN < 2 ^ 27.
Proof. unfold COIN. split; vm_compute; reflexivity. Qed.

(** [float] of an amount, in units of 10^-8 of a unit: at most an eighth of a satoshi away. *)
Lemma decimal_to_float_near k : 0 <= k < 2 ^ 50 -> 8 * Z.abs (decimal_to_float k * COIN - k * one) <= one.
Proof.
  intros Hk. pose proof one_pos. pose proof coin_bounds. unfold decimal_to_float.
  pose proof (round_frac_bound (k * one) COIN ltac:(lia)) as Hb. set (e := ulp_exp _) in *.
  assert (e <= 1098 - 53) as He.
  { apply ulp_exp_le; [|lia]. rewrite Z.abs_eq by nia. split; [apply Z.div_pos; lia|].
    apply Z.div_lt_upper_bound; [lia|]. apply Z.lt_le_trans with (2 ^ 50 * one); [nia|].
    rewrite (one_split 1074), Z.sub_diag, Z.pow_0_r, Z.mul_1_r, <-Z.pow_add_r by lia.
    change (50 + 1074) with (26 + 1098). rewrite (Z.pow_add_r 2 26) by lia.
    assert (2 ^ 26 <= COIN) by (unfold COIN; vm_compute; discriminate). pose proof (pow2_pos 1098). nia. }
  assert (2 ^ e <= 2 ^ 1045) as Hpe by (apply Z.pow_le_mono_r; lia). pose proof (pow2_pos 1045 ltac:(lia)).
  assert (4 * (COIN * 2 ^ 1045) <= one) as Hq.
  { rewrite (one_split 1045) by lia. change (2 ^ (1074 - 1045)) with 536870912. unfold COIN. nia. }
  assert (COIN * 2 ^ e <= COIN * 2 ^ 1045) by (apply Z.mul_le_mono_nonneg_l; lia). lia.
Qed.

Lemma quantize_near x k : 2 * Z.abs (x * COIN - k * one) < one -> quantize x = k.
Proof.
  intros Hx. unfold quantize. pose proof one_pos. pose proof (round_half_even_bound (x * COIN) one one_pos) as Hb.
  set (q := round_half_even _ _) in *. nia.
Qed.

Lemma quantize_decimal_to_float k : 0 <= k < 2 ^ 50 -> quantize (decimal_to_float k) = k.
Proof. intros Hk. apply quantize_near. pose proof (decimal_to_float_near k Hk). pose proof one_pos. lia. Qed.

(** A product by a whole float is rounded once. *)
Lemma fmul_exact_int x n : fmul x (n * one) = round_frac (x * n) 1.
Proof.
  unfold fmul. rewrite Z.mul_assoc. rewrite <-(Z.mul_1_l one) at 2. apply round_frac_scale; [apply one_pos|lia].
Qed.
Lemma fmul_comm x y : fmul x y = fmul y x.
Proof. unfold fmul. by rewrite Z.mul_comm. Qed.

(** The satoshis of an output are those of its amount, or one less. *)
Lemma satoshis_of_float k : 0 <= k < 2 ^ 50 -> k - 1 <= ftrunc (fmul (decimal_to_float k) (of_int COIN)) <= k.
Proof.
  intros Hk. pose proof one_pos as Hone. pose proof coin_bounds as Hcoin. pose proof (decimal_to_float_near k Hk) as Hn.
  set (R := decimal_to_float k) in *. rewrite of_int_exact by (unfold COIN; vm_compute; reflexivity).
  rewrite fmul_exact_int.
  assert (0 <= R) as HR by (apply round_frac_nonneg; lia).
  pose proof (round_frac_bound (R * COIN) 1 ltac:(lia)) as Hb. set (e := ulp_exp _) in *.
  assert (e <= 1125 - 53) as He.
  { apply ulp_exp_le; [|lia]. rewrite Z.div_1_r, Z.abs_eq by nia. split; [nia|].
    apply Z.le_lt_trans with (2 ^ 50 * one); [nia|].
    rewrite (one_split 1074), Z.sub_diag, Z.pow_0_r, Z.mul_1_r, <-Z.pow_add_r by lia. apply Z.pow_lt_mono_r; lia. }
  assert (4 * 2 ^ e <= one).
  { rewrite (one_split 1072) by lia. change (2 ^ (1074 - 1072)) with 4. assert (2 ^ e <= 2 ^ 1072) by (apply Z.pow_le_mono_r; lia). lia. }
  set (P := round_frac (R * COIN) 1) in *. assert (0 <= P) by (apply round_frac_nonneg; nia).
  unfold ftrunc. rewrite Z.quot_div_nonneg by lia. split.
  - apply Z.div_le_lower_bound; [lia|]. lia.
  - apply Z.lt_succ_r, Z.div_lt_upper_bound; [lia|]. lia.
Qed.

Lemma amount_sent_near : 2 ^ 55 * Z.abs (amount_sent_per_output * 1000 - one) <= one.
Proof. vm_compute. discriminate. Qed.

(** [n] times a float that is nearly [1 / 1000]. *)
Lemma fmul_thousandths n a :
  0 <= n < 2 ^ 20 -> 0 <= a -> 2 ^ 55 * Z.abs (a * 1000 - one) <= one ->
  2 * Z.abs (round_frac (n * a) 1 - n * a) <= 2 ^ 1041.
Proof.
  intros Hn Ha0 Ha. pose proof one_pos as Hone. assert (a < one) as Ha1 by lia. clear Ha.
  pose proof (round_frac_bound (n * a) 1 ltac:(lia)) as Hb. set (e := ulp_exp _) in *.
  assert (e <= 1094 - 53) as He.
  { apply ulp_exp_le; [|lia]. rewrite Z.div_1_r, Z.abs_eq by nia. split; [nia|].
    apply Z.lt_le_trans with (2 ^ 20 * one); [nia|].
    rewrite (one_split 1074), Z.sub_diag, Z.pow_0_r, Z.mul_1_r, <-Z.pow_add_r by lia. apply Z.pow_le_mono_r; lia. }
  assert (2 ^ e <= 2 ^ 1041) as Hpe by (apply Z.pow_le_mono_r; lia).
  revert Hb Hpe. generalize (2 ^ 1041) (2 ^ e) (round_frac (n * a) 1). clear. intros. lia.
Qed.

Lemma thousandths_close n a T u one' :
  0 <= n < 2 ^ 20 -> one' = u * 8589934592 -> 0 < one' ->
  2 ^ 55 * Z.abs (a * 1000 - one') <= one' -> 2 * Z.abs (T - n * a) <= u ->
  2 * Z.abs (T * 100000000 - n * 100000 * one') < one'.
Proof.
  intros Hn Hu Hone Ha HX.
  replace (T * 100000000 - n * 100000 * one') with (100000000 * (T - n * a) + 100000 * (n * (a * 1000 - one'))) by lia.
  assert (Z.abs (n * (a * 1000 - one')) <= 2 ^ 20 * Z.abs (a * 1000 - one')) as HnY by (rewrite Z.abs_mul; nia).
  revert Ha HX HnY. generalize (T - n * a) (n * (a * 1000 - one')) (Z.abs (a * 1000 - one')). intros X V Y Ha HX HnY. lia.
Qed.

Lemma quantize_total n : 0 <= n < 2 ^ 20 -> quantize (fmul (of_int n) amount_sent_per_output) = n * 100000.
Proof.
  intros Hn. apply quantize_near. pose proof amount_sent_near as Ha.
  assert (0 <= amount_sent_per_output) as Ha0 by (apply round_frac_nonneg; lia).
  rewrite of_int_exact by lia. revert Ha Ha0. generalize amount_sent_per_output. intros a Ha Ha0.
  rewrite fmul_comm, fmul_exact_int, (Z.mul_comm a).
  apply (thousandths_close n a _ (2 ^ 1041)); [done|rewrite (one_split 1041) by lia; reflexivity|apply one_pos|done|].
  by apply fmul_thousandths.
Qed.

(** What the outputs of a transaction are worth. *)
Definition total_value (l : list (string * Z)) : Z := foldr Z.add 0 l.*2.

Lemma vouts_rest (l : list (string * float)) :
  Forall (fun av => av.2 = amount_sent_per_output) l -> total_value (vouts l) = Z.of_nat (length l) * 100000.
Proof.
  assert (ftrunc (fmul amount_sent_per_output (of_int COIN)) = 100000) as H by (vm_compute; reflexivity).
  unfold total_value, vouts. induction 1 as [|[ad v] l Hv Hl IH]; [done|].
  cbn [fmap list_fmap foldr length fst snd] in *. subst v. rewrite H, IH. lia.
Qed.

(** C40: A transaction conserves the value of the coins it spends: its outputs are worth
    what the coins cover less the fee, or one satoshi less, as long as the first
    output, which takes the change, is worth something.  The rounding of the floats
    costs nothing more. *)
Theorem tx_outputs_conserve addresses n covered n_inputs outputs :
  1 <= n < 2 ^ 20 -> 0 <= n_inputs < 2 ^ 20 ->
  let fee := approx_fee_sat n_inputs n in
  let change := covered - n * 100000 - fee in
  0 <= 100000 + change < 2 ^ 50 ->
  tx_outputs addresses n covered n_inputs = Ok outputs ->
  Z.of_nat (length outputs) = n
  /\ covered - fee - 1 <= total_value (vouts outputs) <= covered - fee.
Proof.
  intros Hn Hi fee change Hc. unfold tx_outputs. intros Ho. apply bind_Ok in Ho as (outs & Houts & Ho).
  apply bind_Ok in Ho as (feef & Hfee & Ho).
  assert (quantize feef = fee) as Hqf.
  { assert (0 <= fee < 2 ^ 50) as Hf by (unfold fee, approx_fee_sat; lia).
    unfold fdiv, div_units in Hfee. rewrite (of_int_exact COIN) in Hfee by (unfold COIN; vm_compute; reflexivity).
    rewrite of_int_exact in Hfee by (fold fee; lia). fold fee in Hfee.
    pose proof one_pos. pose proof coin_bounds.
    rewrite (proj2 (Z.eqb_neq (COIN * one) 0)), (proj2 (Z.ltb_lt 0 (COIN * one))) in Hfee by nia.
    injection Hfee as <-. rewrite round_frac_scale by lia. by apply quantize_decimal_to_float. }
  rewrite quantize_total, Hqf in Ho by lia.
  assert (Forall (fun av => av.2 = amount_sent_per_output) outs /\ Z.of_nat (length outs) = n) as [Hall Hlen].
  { apply mapM_Ok in Houts. split.
    - eapply Forall2_Forall_r; [exact Houts|]. apply Forall_forall. intros i _ av Hav. inv_ok. by subst av.
    - rewrite <-(Forall2_length _ _ _ Houts). unfold range. rewrite length_seqZ. lia. }
  destruct outs as [|[address value] rest]; [done|]. injection Ho as <-. apply Forall_cons in Hall as [Hv Hall].
  cbn [snd] in Hv. subst value. cbn [length] in *. split; [done|].
  assert (quantize amount_sent_per_output = 100000) as -> by (vm_compute; reflexivity).
  fold change. pose proof (satoshis_of_float (100000 + change) Hc) as Hs.
  change (total_value (vouts ((address, ?v) :: rest))) with (ftrunc (fmul v (of_int COIN)) + total_value (vouts rest)).
  rewrite vouts_rest by done. subst change. lia.
Qed.

(** The fee is left out of the choice of the coins: 300 coins of 0.000024 cover six
    outputs, and the first one has a negative amount. *)
Lemma fee_not_covered :
  decimal_lt (300 * 2400) (fmul (of_int 7) amount_sent_per_output) = false
  /\ match tx_outputs ["a"%string] 6 (300 * 2400) 300 with
     | Ok outputs => head (vouts outputs) = Some ("a"%string, -3070)
     | Raise _ => False
     end.
Proof. split; vm_compute; reflexivity. Qed.

(** ** The numbers of the client *)

(** [int(n / d)] of integers. *)
Lemma ftrunc_quotient n d : 0 <= n < 2 ^ 40 -> 0 < d < 2 ^ 12 -> ftrunc (round_frac (n * one) d) = n / d.
Proof.
  intros Hn Hd. pose proof one_pos as Hone. assert (0 <= round_frac (n * one) d) by (apply round_frac_nonneg; nia).
  unfold ftrunc. rewrite Z.quot_div_nonneg by lia.
  pose proof (Z.div_mod n d ltac:(lia)) as Hdm. pose proof (Z.mod_pos_bound n d ltac:(lia)) as Hr.
  set (q := n / d) in *. set (r := n mod d) in *.
  assert (0 <= q) as Hq by (apply Z.div_pos; lia).
  destruct (Z.eq_dec r 0) as [Hr0|Hr0].
  - replace (n * one) with (q * one * d) by lia. rewrite <-(Z.mul_1_l d) at 2.
    rewrite round_frac_scale by lia. change (round_frac (q * one) 1) with (of_int q).
    rewrite of_int_exact by nia. apply Z.div_mul. lia.
  - pose proof (round_frac_bound (n * one) d ltac:(lia)) as Hb. set (e := ulp_exp _) in *.
    assert (d * 2 ^ e < one) as He.
    { assert (e <= 1114 - 53) as He.
      { apply ulp_exp_le; [|lia]. rewrite Z.abs_eq by nia. split; [apply Z.div_pos; nia|].
        apply Z.div_lt_upper_bound; [lia|]. replace (2 ^ 1114) with (2 ^ 40 * one); [nia|].
        rewrite (one_split 1074), Z.sub_diag, Z.pow_0_r, Z.mul_1_r, <-Z.pow_add_r by lia. f_equal. }
      assert (2 ^ e <= 2 ^ 1061) by (apply Z.pow_le_mono_r; lia).
      rewrite (one_split 1061) by lia. change (2 ^ (1074 - 1061)) with 8192. pose proof (pow2_pos 1061). nia. }
    set (x := round_frac (n * one) d) in *. set (p := 2 ^ e) in *.
    symmetry. apply (Z.div_unique _ _ _ (x - q * one)); [left|lia].
    replace (n * one) with (d * (q * one) + r * one) in Hb by lia.
    set (y := x - q * one) in *. replace (2 * (x * d - (d * (q * one) + r * one))) with (2 * (y * d) - 2 * (r * one)) in Hb by lia.
    assert (one <= r * one <= (d - 1) * one) by nia. clearbody y p. nia.
Qed.

(** A transaction after the warm-up has one output for each 180 bytes of its size
    and one more, and the warm-up has the whole number of block times it lasts, with
    no error from the floats; a block time of zero, which the parameters allow, is a
    [ZeroDivisionError]. *)
Theorem client_numbers tx_size warmup_duration block_time :
  0 <= tx_size < 2 ^ 40 -> 0 <= warmup_duration < 2 ^ 40 -> 0 <= block_time < 2 ^ 12 ->
  nb_outputs tx_size = Ok (tx_size / 180 + 1)
  /\ warmup_rounds_of warmup_duration block_time
     = if block_time =? 0 then Raise ZeroDivisionError else Ok (warmup_duration / block_time).
Proof.
  intros Ht Hw Hb. unfold nb_outputs, warmup_rounds_of, truediv, div_units. split.
  - cbn [Z.eqb]. change (0 <? 180) with true. cbn [mbind result_bind]. by rewrite ftrunc_quotient by lia.
  - destruct (Z.eqb_spec block_time 0); [done|]. rewrite (proj2 (Z.ltb_lt 0 block_time)) by lia.
    cbn [mbind result_bind]. by rewrite ftrunc_quotient by lia.
Qed.

(** ** Witnesses *)

Definition toy_coins : list Coin := [MkCoin "aa" 0 120000; MkCoin "bb" 1 50000; MkCoin "cc" 0 90000].
Definition toy_rounds : list (list Z) := [[0; 1; 2]; [2; 0; 1]; [1; 2; 0]].

Example select_coins_covers_witness :
  exists idxs covered,
    select_coins (length toy_coins) toy_coins (fmul (of_int 2) amount_sent_per_output) (concat toy_rounds) [] 0 = Ok (idxs, covered)
    /\ selection toy_coins (fmul (of_int 2) amount_sent_per_output) idxs covered
    /\ decimal_lt covered (fmul (of_int 2) amount_sent_per_output) = false.
Proof.
  apply (select_coins_covers toy_coins (fmul (of_int 2) amount_sent_per_output) toy_rounds).
  - vm_compute. reflexivity.
  - reflexivity.
  - unfold valid_index. cbn. repeat (constructor; [lia|]). constructor.
  - repeat (constructor; [intros d Hd; unfold valid_index in Hd; cbn in Hd;
      assert (d = 0 \/ d = 1 \/ d = 2) as [-> | [-> | ->]] by lia; set_solver|]). constructor.
Defined.

Definition toy_round (draws : list Z) : Round :=
  MkRound (Ok toy_coins) (fun k => 3000000 * Z.of_nat k) (of_int 1684829351) (of_int 1684829352) draws
    (fun _ _ => Ok 500) (Ok "beef"%string).
Definition toy_step (draws : list Z) (s : Vars) : Vars :=
  round 0 100 (of_int 1000) (of_int 1684829350) ["addr"%string] (toy_round draws) s.
Definition toy_state : Vars := toy_step [0; 0; 1; 2] initial.

Example toy_state_sent : coin_selected_idxs toy_state = [0; 1; 2] /\ counter toy_state = 1.
Proof. split; vm_compute; reflexivity. Qed.

Example toy_state_coins : unspent_coins toy_state = toy_coins.
Proof. vm_compute. reflexivity. Qed.

Example spent_coins_not_reused_witness : MkCoin "bb" 1 50000 ∉ unspent_coins (toy_step [] toy_state).
Proof.
  apply (spent_coins_not_reused 0 100 (of_int 1000) (of_int 1684829350) ["addr"%string] (toy_round []) toy_state 1
           (MkCoin "bb" 1 50000)); [vm_compute; reflexivity| | |lia|vm_compute; reflexivity].
  - rewrite toy_state_coins. repeat (constructor; [rewrite ?elem_of_cons, ?elem_of_nil; intuition discriminate|]). constructor.
  - rewrite (proj1 toy_state_sent). right. left.
Defined.

Definition toy_outputs : list (string * float) :=
  match tx_outputs ["a"; "b"]%string 2 260000 3 with Ok l => l | Raise _ => [] end.

Example tx_outputs_conserve_witness :
  Z.of_nat (length toy_outputs) = 2
  /\ 260000 - approx_fee_sat 3 2 - 1 <= total_value (vouts toy_outputs) <= 260000 - approx_fee_sat 3 2.
Proof.
  apply (tx_outputs_conserve ["a"; "b"]%string 2 260000 3 toy_outputs);
    [lia|lia|unfold approx_fee_sat; lia|vm_compute; reflexivity].
Defined.

Example client_numbers_witness :
  nb_outputs 512 = Ok (512 / 180 + 1)
  /\ warmup_rounds_of 90 60 = if 60 =? 0 then Raise ZeroDivisionError else Ok (90 / 60).
Proof. apply (client_numbers 512 90 60); lia. Defined.
