(* ===== verification/ClientThreads.v ===== *)
(** * The threads of the client (benchmark/run-client.py, Client.run and main)

    The main thread sends the transactions, a second one, [wait_for_tx], waits for the
    notifications of the node; both read [_stopped], which the handler of the signals
    sets.  A run is a sequence of labelled steps, in any interleaving: the tests of the two
    loops, the rounds of TxClient.v, the messages of the ZMQ socket and the signals. *)

From S2P Require Import Prelude PyIo PyStr PyFloat Sha1 Bench TxClient.

(** ** The notifications *)

(** [int.from_bytes(seqnumber_bytes, byteorder="little")] *)
Fixpoint from_bytes_little (s : string) : Z :=
  match s with EmptyString => 0 | String c s' => Z.of_nat (nat_of_ascii c) + 256 * from_bytes_little s' end.

(** [tx_hash_bytes.hex()] *)
Definition bytes_hex (s : string) : string := hex (bytes_of s).

(** [[topic, tx_hash_bytes, seqnumber_bytes] = result] and what is read of it. *)
Definition read_notification (parts : list string) : result (Z * string) :=
  match parts with
  | [_; tx_hash_bytes; seqnumber_bytes] => Ok (from_bytes_little seqnumber_bytes, bytes_hex tx_hash_bytes)
  | _ => Raise ValueError
  end.

(** ** The state of the client *)

(** The main thread in [run]: before the loop of [send_transactions], at its test, in a
    round, at [thread_2.join()], after it, or out of [run] with an exception. *)
Inductive main_place : Type := Preparing | AtTest | InRound | Joining | Returned | Raised.
(** The thread of [wait_for_tx]: at its test, in [recv_multipart()], ended, or ended by an
    exception, which leaves the other thread alone. *)
Inductive monitor_place : Type := Testing | Receiving | Ended | Failed.

#[global] Instance main_place_eq_dec : EqDecision main_place.
Proof. solve_decision. Defined.
#[global] Instance monitor_place_eq_dec : EqDecision monitor_place.
Proof. solve_decision. Defined.

Record Client : Type := MkClient {
  stopped : bool;
  main_at : main_place;
  monitor_at : monitor_place;
  vars : Vars;
  notifications : list (Z * string) }.

(** [run] up to the start of the second thread. *)
Definition started : Client := MkClient false Preparing Testing initial [].

Definition move_main (p : main_place) (c : Client) : Client := MkClient (stopped c) p (monitor_at c) (vars c) (notifications c).
Definition move_monitor (p : monitor_place) (c : Client) : Client := MkClient (stopped c) (main_at c) p (vars c) (notifications c).

(** [sighandler], for one of its two signals. *)
Definition sighandler (c : Client) : Client := MkClient true (main_at c) (monitor_at c) (vars c) (notifications c).

(** The thread of [wait_for_tx] has ended. *)
Definition monitor_over (c : Client) : bool := match monitor_at c with Ended | Failed => true | _ => false end.

(** What can happen: a signal; the preparation ends, or raises; the test of the loop of
    the transactions; a round; the join; the test of the loop of the notifications; a
    message. *)
Inductive event : Type :=
  | Signal
  | Prepared (ok : bool)
  | MainTest
  | RoundDone (r : Round)
  | Joined
  | MonitorTest
  | Message (parts : list string).

(** [main] and the constructor: the number of warm-up rounds and the target rate in bytes,
    [target_tx_rate / nb_clients] being the rate of one client. *)
Definition client_rates (warmup_duration block_time nb_clients tx_size : Z) (target_tx_rate : float) : result (Z * float) :=
  nb_warmup_rounds ← warmup_rounds_of warmup_duration block_time;
  rate ← fdiv target_tx_rate (of_int nb_clients);
  Ok (nb_warmup_rounds, fmul rate (of_int tx_size)).

Section Threads.
Context (nb_warmup_rounds tx_size : Z) (target_byte_rate start_time : float) (target_addresses : list string).

Definition after_message (parts : list string) (c : Client) : Client :=
  match read_notification parts with
  | Ok n => MkClient (stopped c) (main_at c) Testing (vars c) (notifications c ++ [n])
  | Raise _ => move_monitor Failed c
  end.
Definition after_round (r : Round) (c : Client) : Client :=
  MkClient (stopped c) AtTest (monitor_at c) (round nb_warmup_rounds tx_size target_byte_rate start_time target_addresses r (vars c))
    (notifications c).

(** One step, [None] where the thread is not there. *)
Definition step (e : event) (c : Client) : option Client :=
  match e, main_at c, monitor_at c with
  | Signal, (Preparing | AtTest | InRound | Joining | Raised), _ => Some (sighandler c)
  | Prepared ok, Preparing, _ => Some (move_main (if ok : bool then AtTest else Raised) c)
  | MainTest, AtTest, _ => Some (move_main (if stopped c then Joining else InRound) c)
  | RoundDone r, InRound, _ => Some (after_round r c)
  | Joined, Joining, (Ended | Failed) => Some (move_main Returned c)
  | MonitorTest, _, Testing => Some (move_monitor (if stopped c then Ended else Receiving) c)
  | Message parts, _, Receiving => Some (after_message parts c)
  | _, _, _ => None
  end.

Fixpoint steps (es : list event) (c : Client) : option Client :=
  match es with
  | [] => Some c
  | e :: rest => c' ← step e c; steps rest c'
  end.

(** ** Steps *)

Lemma steps_app es1 es2 c : steps (es1 ++ es2) c = c' ← steps es1 c; steps es2 c'.
Proof.
  revert c. induction es1 as [|e es1 IH]; intros c; [done|]. cbn [app steps].
  destruct (step e c) as [c1|]; [apply IH|done].
Qed.

(** What every step does, by cases on the event and the places of the threads. *)
Ltac step_cases e c H :=
  destruct c as [[] ma mo vs ns]; destruct e as [|[]| | | | |parts], ma, mo; try discriminate H; injection H; clear H; intros <-;
  unfold after_message in *; try (destruct (read_notification parts)); cbn in *.

Lemma step_stopped e c c' : step e c = Some c' -> stopped c' = match e with Signal => true | _ => stopped c end.
Proof. intros H. by step_cases e c H. Qed.

Lemma steps_stopped es c c' : steps es c = Some c' -> stopped c = true -> stopped c' = true.
Proof.
  revert c. induction es as [|e es IH]; intros c; cbn [steps]; [by intros [= <-]|].
  destruct (step e c) as [c1|] eqn:E; [|done]. intros H Hs. apply (IH c1 H). rewrite (step_stopped _ _ _ E). by destruct e.
Qed.

Lemma steps_not_stopped es c c' : steps es c = Some c' -> Signal ∉ es -> stopped c' = stopped c.
Proof.
  revert c. induction es as [|e es IH]; intros c; cbn [steps]; [by intros [= <-]|].
  destruct (step e c) as [c1|] eqn:E; [|done]. intros H [He Hn]%not_elem_of_cons. rewrite (IH c1 H Hn).
  rewrite (step_stopped _ _ _ E). by destruct e.
Qed.

(** A loop only ends when the client was stopped, and [run] returns after both. *)
Definition sound (c : Client) : Prop :=
  (main_at c = Joining \/ main_at c = Returned -> stopped c = true)
  /\ (monitor_at c = Ended -> stopped c = true)
  /\ (main_at c = Returned -> monitor_over c = true).

Lemma step_sound e c c' : step e c = Some c' -> sound c -> sound c'.
Proof.
  intros H (H1 & H2 & H3). unfold sound, monitor_over in *.
  step_cases e c H; intuition congruence.
Qed.

Lemma steps_sound es c c' : steps es c = Some c' -> sound c -> sound c'.
Proof.
  revert c. induction es as [|e es IH]; intros c; cbn [steps]; [by intros [= <-]|].
  destruct (step e c) as [c1|] eqn:E; [|done]. intros H Hs. apply (IH c1 H). by eapply step_sound.
Qed.

Lemma started_sound es c : steps es started = Some c -> sound c.
Proof. intros H. eapply steps_sound; [done|]. repeat split; by cbn; intuition. Qed.

(** ** After the signal *)

Definition is_round (e : event) : bool := match e with RoundDone _ => true | _ => false end.
Definition is_message (e : event) : bool := match e with Message _ => true | _ => false end.
Definition own_step (e : event) : bool := match e with Signal => false | _ => true end.

Definition in_round (c : Client) : bool := match main_at c with InRound => true | _ => false end.

(** At most this many steps are left to a stopped client. *)
Definition steps_left (c : Client) : nat :=
  (match main_at c with Preparing => 3 | InRound => 3 | AtTest => 2 | Joining => 1 | Returned | Raised => 0 end
   + match monitor_at c with Receiving => 2 | Testing => 1 | Ended | Failed => 0 end)%nat.

Lemma step_left e c c' :
  step e c = Some c' -> stopped c = true -> (steps_left c' + (if own_step e then 1 else 0) <= steps_left c)%nat.
Proof.
  intros H Hs. unfold steps_left.
  step_cases e c H; (discriminate Hs || lia).
Qed.

Lemma steps_left_spec es c c' :
  steps es c = Some c' -> stopped c = true -> (steps_left c' + length (List.filter own_step es) <= steps_left c)%nat.
Proof.
  revert c. induction es as [|e es IH]; intros c; cbn [steps]; [intros [= <-]; cbn; lia|].
  destruct (step e c) as [c1|] eqn:E; [|done]. intros H Hs. pose proof (step_left _ _ _ E Hs) as Hl.
  assert (stopped c1 = true) as Hs1 by (rewrite (step_stopped _ _ _ E); by destruct e).
  specialize (IH c1 H Hs1). cbn [List.filter]. destruct (own_step e); cbn [length]; lia.
Qed.

(** A stopped client ends the round it is in, and begins none. *)
Lemma rounds_left es c c' :
  steps es c = Some c' -> stopped c = true ->
  (length (List.filter is_round es) <= if in_round c then 1 else 0)%nat.
Proof.
  revert c. induction es as [|e es IH]; intros c; cbn [steps]; [intros _ _; cbn; destruct (in_round c); lia|].
  destruct (step e c) as [c1|] eqn:E; [|done]. intros H Hs.
  assert (stopped c1 = true) as Hs1 by (rewrite (step_stopped _ _ _ E); by destruct e).
  specialize (IH c1 H Hs1). clear H. cbn [List.filter].
  step_cases e c E; (discriminate Hs || lia).
Qed.

(** The second thread stays in [recv_multipart] until a message. *)
Lemma receiving_waits es c c' :
  steps es c = Some c' -> monitor_at c = Receiving -> forallb (fun e => negb (is_message e)) es = true -> monitor_at c' = Receiving.
Proof.
  revert c. induction es as [|e es IH]; intros c; cbn [steps forallb]; [by intros [= <-]|].
  destruct (step e c) as [c1|] eqn:E; [|done]. intros H Hm [He Hes]%andb_true_iff. apply (IH c1 H); [|done].
  by step_cases e c E.
Qed.

Lemma first_signal es : (Signal ∉ es) \/ exists before after, es = before ++ Signal :: after /\ Signal ∉ before.
Proof.
  induction es as [|e es IH]; [left; apply not_elem_of_nil|]. destruct (own_step e) eqn:E.
  - assert (Signal <> e) as He by (by intros <-). destruct IH as [H|(before & after & -> & Hn)].
    + left. by apply not_elem_of_cons.
    + right. exists (e :: before), after. split; [done|]. by apply not_elem_of_cons.
  - right. destruct e; try discriminate E. exists [], es. split; [done|]. apply not_elem_of_nil.
Qed.

(** C39: A client returns from [run] only after a signal.  Until then it goes on, after it at
    most the round that the signal found is completed, and if the other thread was waiting
    for a notification then one had to come. *)
Theorem client_returns es c :
  steps es started = Some c -> main_at c = Returned ->
  exists before after c1, es = before ++ Signal :: after /\ steps before started = Some c1 /\ stopped c1 = false
    /\ (length (List.filter is_round after) <= if in_round c1 then 1 else 0)%nat
    /\ (monitor_at c1 = Receiving -> existsb is_message after = true).
Proof.
  intros H Hr. destruct (started_sound _ _ H) as (H1 & _ & H3).
  destruct (first_signal es) as [Hn|(before & after & -> & Hb)].
  { pose proof (steps_not_stopped _ _ _ H Hn) as Hs. rewrite H1 in Hs by auto. discriminate Hs. }
  rewrite steps_app in H.
  destruct (steps before started) as [c1|] eqn:E1; [|done]. cbn [mbind option_bind steps] in H.
  destruct (step Signal c1) as [c2|] eqn:E2; [|done]. cbn [mbind option_bind] in H.
  assert (c2 = sighandler c1) as -> by (unfold step in E2; destruct (main_at c1); congruence).
  exists before, after, c1. split; [done|]. split; [done|]. split; [by apply (steps_not_stopped _ _ _ E1)|]. split.
  - by apply (rounds_left _ _ _ H).
  - intros Hm. destruct (existsb is_message after) eqn:Ea; [done|]. exfalso.
    assert (monitor_at c = Receiving) as Hc.
    { apply (receiving_waits _ _ _ H Hm). apply forallb_forall. intros e He. apply negb_true_iff.
      destruct (is_message e) eqn:Em; [|done]. rewrite <-Ea. symmetry. apply existsb_exists. by exists e. }
    specialize (H3 Hr). unfold monitor_over in H3. by rewrite Hc in H3.
Qed.

(** No thread can move before a signal or a message. *)
Definition stuck (c : Client) : Prop := forall e, e <> Signal -> is_message e = false -> step e c = None.

Definition over (c : Client) : Prop := (main_at c = Returned \/ main_at c = Raised) /\ monitor_over c = true.

(** Any notification ends a client that waits for one. *)
Lemma message_ends c parts :
  stopped c = true -> monitor_at c = Receiving -> main_at c = Joining \/ main_at c = Raised ->
  exists r c', steps (Message parts :: r) c = Some c' /\ over c'.
Proof.
  destruct c as [st ma mo vs ns]. cbn [stopped monitor_at main_at]. intros -> -> Hm. unfold over.
  destruct (read_notification parts) as [n|e] eqn:E, Hm as [-> | ->].
  - exists [MonitorTest; Joined]. eexists. cbn. unfold after_message. rewrite E. cbn. auto.
  - exists [MonitorTest]. eexists. cbn. unfold after_message. rewrite E. cbn. auto.
  - exists [Joined]. eexists. cbn. unfold after_message. rewrite E. cbn. auto.
  - exists []. eexists. cbn. unfold after_message. rewrite E. cbn. auto.
Qed.

Lemma stuck_places c :
  stopped c = true -> sound c -> stuck c -> over c \/ monitor_at c = Receiving /\ (main_at c = Joining \/ main_at c = Raised).
Proof.
  intros Hs (_ & _ & Hr) Hstuck.
  pose proof (Hstuck (Prepared true) ltac:(done) eq_refl) as H1. pose proof (Hstuck MainTest ltac:(done) eq_refl) as H2.
  pose proof (Hstuck (RoundDone (MkRound (Ok []) (fun _ => 0) 0 0 [] (fun _ _ => Ok 0) (Ok EmptyString))) ltac:(done) eq_refl) as H3.
  pose proof (Hstuck Joined ltac:(done) eq_refl) as H4. pose proof (Hstuck MonitorTest ltac:(done) eq_refl) as H5.
  clear Hstuck. destruct c as [st ma mo vs ns]. unfold over. cbn in *. subst st.
  destruct ma, mo; try discriminate; auto.
Qed.

(** What a stopped client still does, whatever the interleaving: its threads have at most
    five steps left.  When they have none without a message, both are over, or the second
    one is waiting for a notification, and any notification is enough to end them.  The
    comment after the loop of the notifications (run-client.py:327) says that its end is
    never reached. *)
Theorem client_stops es c r c' :
  steps es started = Some c -> stopped c = true -> steps r c = Some c' ->
  (length (List.filter own_step r) <= 5)%nat
  /\ (stuck c' -> over c' \/ monitor_at c' = Receiving /\ forall parts, exists r' c'', steps (Message parts :: r') c' = Some c'' /\ over c'').
Proof.
  intros H Hs Hr. split.
  - pose proof (steps_left_spec _ _ _ Hr Hs) as Hl. enough (steps_left c <= 5)%nat by lia.
    unfold steps_left. destruct (main_at c), (monitor_at c); lia.
  - assert (stopped c' = true) as Hs' by (by eapply steps_stopped).
    assert (sound c') as Hok by (eapply steps_sound; [exact Hr|]; by eapply started_sound).
    intros Hstuck. destruct (stuck_places c' Hs' Hok Hstuck) as [Ho|[Hm Hp]]; [by left|]. right. split; [done|].
    intros parts. by apply message_ends.
Qed.

(** A client whose preparation fails is left with the other thread, which no notification
    ends: without a signal the process goes on. *)
Lemma failed_client_goes_on es c c' :
  main_at c = Raised -> stopped c = false -> monitor_over c = false -> steps es c = Some c' ->
  (forall e, e ∈ es -> e <> Signal /\ forall parts, e = Message parts -> is_ok (read_notification parts) = true) ->
  main_at c' = Raised /\ monitor_over c' = false.
Proof.
  revert c. induction es as [|e es IH]; intros c Hm Hs Ho; cbn [steps]; [by intros [= <-]|].
  destruct (step e c) as [c1|] eqn:E; [|done]. intros H Hes.
  destruct (Hes e) as [Hne Hok]; [by left|].
  assert (main_at c1 = Raised /\ stopped c1 = false /\ monitor_over c1 = false) as (Hm1 & Hs1 & Ho1).
  { destruct e; [done|..]; destruct c as [st ma mo vs ns]; cbn in Hm, Hs; subst ma st; destruct mo; try discriminate;
      cbn in E; injection E as <-; try done.
    unfold after_message. specialize (Hok _ eq_refl). by destruct (read_notification parts). }
  apply (IH c1); [done..|]. intros e' He'. apply Hes. by right.
Qed.
End Threads.

(** ** Witnesses *)

Definition no_round : Round := MkRound (Raise JSONRPCException) (fun _ => 0) 0 0 [] (fun _ _ => Ok 0) (Ok EmptyString).
Definition toy_message : list string :=
  ["hashtx"%string; String "171"%char (String "001"%char EmptyString); String "002"%char (String "001"%char EmptyString)].
(** A client with no warm-up, stopped in a round while the other thread waits. *)
Definition toy_steps : list event -> Client -> option Client := steps 0 180 one 0 [].
Definition toy_before : list event := [MonitorTest; Prepared true; MainTest].
Definition toy_after : list event := [RoundDone no_round; Message toy_message; MainTest; MonitorTest; Joined].

Example toy_notification : read_notification toy_message = Ok (258, "ab01"%string).
Proof. vm_compute. reflexivity. Qed.

Definition toy_end (es : list event) : Client := default started (toy_steps es started).

Example client_returns_witness :
  exists before after c1, toy_before ++ Signal :: toy_after = before ++ Signal :: after
    /\ toy_steps before started = Some c1 /\ stopped c1 = false
    /\ (length (List.filter is_round after) <= if in_round c1 then 1 else 0)%nat
    /\ (monitor_at c1 = Receiving -> existsb is_message after = true).
Proof.
  apply (client_returns 0 180 one 0 [] (toy_before ++ Signal :: toy_after) (toy_end (toy_before ++ Signal :: toy_after)));
    vm_compute; reflexivity.
Defined.

Definition toy_stopped : Client := toy_end (toy_before ++ [Signal]).
Definition toy_waiting : Client := toy_end (toy_before ++ [Signal; RoundDone no_round; MainTest]).

Example client_stops_witness :
  (length (List.filter own_step [RoundDone no_round; MainTest]) <= 5)%nat
  /\ (stuck 0 180 one 0 [] toy_waiting -> over toy_waiting
        \/ monitor_at toy_waiting = Receiving
           /\ forall parts, exists r' c'', toy_steps (Message parts :: r') toy_waiting = Some c'' /\ over c'').
Proof.
  apply (client_stops 0 180 one 0 [] (toy_before ++ [Signal]) toy_stopped [RoundDone no_round; MainTest] toy_waiting);
    vm_compute; reflexivity.
Defined.

(** The client that waits for its second thread, and nothing else can happen. *)
Example toy_stuck : stuck 0 180 one 0 [] toy_waiting.
Proof. intros e He Hm. destruct e; vm_compute in *; congruence. Qed.
