(* ===== verification/Nodes.v ===== *)
(** * The scripts of the nodes (benchmark/run-replicas.py, run-signet.py, run-donor.py)

    The log that a replica leaves when it is killed, the wait for a [bitcoind], and
    the loops of a donor.  Commands, RPC calls and signals are inputs. *)

From S2P Require Import Prelude PyStr PyInt PyFloat PyDict PyRegex PyTime LogEvents NodeLog Naming ClientLog.

(** ** run-replicas.py *)

Definition view_pattern : list item := [any_star; Lit "V="; digits_group; any_star].

(** The greatest view of the rows of the log. *)
Definition view_step (view_nb : Z) (line : string) : result Z :=
  match search view_pattern line with
  | Some (g :: _, _) => v ← py_int g; Ok (Z.max view_nb v)
  | _ => Ok view_nb
  end.

(** The lines of a text file, without their newlines (no [.] of the pattern takes
    one). *)
Fixpoint file_lines (cur s : string) : list string :=
  match s with
  | EmptyString => match cur with EmptyString => [] | _ => [str_rev_app cur EmptyString] end
  | String c s' => if Ascii.eqb c nl then str_rev_app cur EmptyString :: file_lines EmptyString s'
                   else file_lines (String c cur) s'
  end.
Definition view_of_log (log : string) : result Z := foldM view_step 0 (file_lines EmptyString log).

Definition killed_message (id view_nb nb_faults : Z) : string :=
  ("Killed replica R" ++ str_of_Z id ++ " at view V=" ++ str_of_Z view_nb ++ " when " ++ str_of_Z nb_faults
   ++ " fault(s) needed.")%string.

(** The log at the end of the script: with [fault_info], the row of the kill goes
    after what the replica wrote, which is read as text, at the time [t] and [msecs]. *)
Definition replica_log (id nb_validators : Z) (fault_info : option (Z * float)) (t : datetime) (msecs : Z) (log : string)
    : result string :=
  match fault_info with
  | None => Ok log
  | Some (nb_faults, _) =>
      view_nb ← view_of_log (universal_newlines log);
      let msg := killed_message id view_nb nb_faults in
      let levelname := if view_nb mod nb_validators <=? id then "INFO"%string else "ERROR"%string in
      Ok (log ++ logger_row t msecs levelname msg)%string
  end.

(** ** run-signet.py *)

(** The outcome of one [getblockchaininfo]: it succeeds, an RPC error with its code,
    or the client cannot be run. *)
Inductive poll : Type := Started | RpcError (code : Z) | ProcessError.

(** The wait for the node; a value is the number of polls it took. *)
Fixpoint wait_started (polls : list poll) (n : Z) : result Z :=
  match polls with
  | [] => Raise OutOfFuel
  | Started :: _ => Ok (n + 1)
  | RpcError code :: rest => if negb (code =? -28) then Raise JSONRPCException else wait_started rest (n + 1)
  | ProcessError :: rest => wait_started rest (n + 1)
  end.

(** ** run-donor.py *)

(** [main]'s [stop_sig_received], and the global of the same name that the handler of
    the signals assigns. *)
Record DonorFlags : Type := MkDonorFlags { local_stop : bool; global_stop : bool }.
Definition signal_handler (f : DonorFlags) : DonorFlags := MkDonorFlags (local_stop f) true.

(** The outcome of [sendtoaddress]. *)
Inductive sending : Type := Sent (txid : string) | SendRpcError | SendProcessError.

(** One round of sendings: [txid] is unbound until a sending succeeds, and the
    handler of an RPC error formats it. *)
Fixpoint donor_round (txid : option string) (sendings : list sending) : result (option string) :=
  match sendings with
  | [] => Ok txid
  | Sent t :: rest => donor_round (Some t) rest
  | SendRpcError :: _ => _ ← or_raise UnboundLocalError txid; Ok txid
  | SendProcessError :: _ => Ok txid
  end.

(** What happens in an iteration: signals, then the sendings. *)
Record DonorStep : Type := MkDonorStep { signals : nat; step_sendings : list sending }.

(** [while not stop_sig_received] over the given iterations: [inl] when the loop ends. *)
Fixpoint donor_loop (steps : list DonorStep) (f : DonorFlags) (txid : option string)
    : result (option string + DonorFlags * option string) :=
  if local_stop f then Ok (inl txid)
  else match steps with
       | [] => Ok (inr (f, txid))
       | st :: rest =>
           txid ← donor_round txid (step_sendings st);
           donor_loop rest (Nat.iter (signals st) signal_handler f) txid
       end.

(** The wait for the funds: the balances, or [None] when the call fails. *)
Fixpoint wait_funds (balances : list (option Z)) (f : DonorFlags) (n : Z) : result Z :=
  match balances with
  | [] => Raise OutOfFuel
  | b :: rest =>
      if local_stop f then Ok n
      else match b with
           | Some balance => if 50 <? balance then Ok (n + 1) else wait_funds rest f (n + 1)
           | None => wait_funds rest f (n + 1)
           end
  end.

(** ** Rows and searches *)

Lemma search_None_iff r s : search r s = None <-> forall x m y gs, s = (x ++ m ++ y)%string -> ~ matches r m gs.
Proof.
  split.
  - intros Hs x m y gs -> Hm. destruct (search_complete r x m y gs Hm) as [? E]. congruence.
  - intros H. destruct (search r s) as [[gs t]|] eqn:E; [|done].
    apply search_sound in E as (x & m & -> & Hm). exfalso. by apply (H x m t gs).
Qed.

(** ** The characters of a row *)

Ltac chars := rewrite ?has_char_app, ?has_char_cons, ?orb_false_iff in *; cbn [has_char str_all negb] in *; tauto.

Lemma strftime_no_char c t :
  is_digit c = false -> forallb (fun m => negb (has_char c m)) month_abbr = true -> has_char c "- :" = false ->
  has_char c (strftime t) = false.
Proof.
  intros Hc Hm Hs. unfold strftime. rewrite !has_char_app.
  assert (forall w n, has_char c (fixed_width w n) = false) as Hd
    by (intros; eapply (str_all_no_char is_digit); [done|apply fixed_width_digits]).
  rewrite !Hd.
  assert (has_char c (month_name (month t)) = false) as ->.
  { unfold month_name. destruct (month_abbr !! _) as [m|] eqn:E; [|done]. cbn [default].
    rewrite forallb_forall in Hm. apply negb_true_iff, Hm, list_elem_of_In. by eapply list_elem_of_lookup_2. }
  chars.
Qed.

Lemma str_of_Z_no_char c n : 0 <= n -> is_digit c = false -> has_char c (str_of_Z n) = false.
Proof. intros Hn Hc. eapply (str_all_no_char is_digit); [done|]. by apply str_of_Z_digits. Qed.

(** A row of the logger has none of the characters that neither its stamp nor its
    texts have. *)
Lemma logger_row_no_char c t msecs level msg :
  0 <= msecs -> is_digit c = false -> forallb (fun m => negb (has_char c m)) month_abbr = true ->
  has_char c ("- :[.] " ++ NL) = false -> has_char c level = false -> has_char c msg = false ->
  has_char c (logger_row t msecs level msg) = false.
Proof.
  intros Hms Hd Hm Hs Hl Hmsg. unfold logger_row, logger_stamp. rewrite !has_char_app.
  rewrite Hl, Hmsg, str_of_Z_no_char, strftime_no_char; try done.
  all: chars.
Qed.

Lemma killed_message_no_char c id v n :
  0 <= id -> 0 <= v -> 0 <= n -> is_digit c = false ->
  has_char c "Killed replica R at view V= when  fault(s) needed." = false ->
  has_char c (killed_message id v n) = false.
Proof.
  intros Hid Hv Hn Hd Hs. unfold killed_message. rewrite !has_char_app, !str_of_Z_no_char by done.
  chars.
Qed.

(** ** The row of a kill, as the parser of the logs reads it *)

(** The common end of the two patterns. *)
Lemma killed_matches head id v :
  0 <= id -> 0 <= v ->
  matches [Lit head; digits_group; Lit " at view V="; digits_group]
    (head ++ str_of_Z id ++ " at view V=" ++ str_of_Z v) [str_of_Z id; str_of_Z v].
Proof.
  intros Hid Hv. apply matches_lit.
  apply (matches_rep true false true is_digit); [by apply str_of_Z_digits|intros _; by apply str_of_Z_nonempty|].
  apply matches_lit. rewrite <-(str_app_nil_r (str_of_Z v)).
  replace [str_of_Z v] with [(str_of_Z v ++ "")%string] by (by rewrite str_app_nil_r).
  rewrite (str_app_nil_r (str_of_Z v)) at 2.
  apply (matches_rep true false true is_digit); [by apply str_of_Z_digits|intros _; by apply str_of_Z_nonempty|constructor].
Qed.

Lemma killed_row_split t msecs level id v n :
  logger_row t msecs level (killed_message id v n)
  = (("[" ++ logger_stamp t msecs ++ "]") ++ (" [" ++ level ++ "] Killed replica R" ++ str_of_Z id ++ " at view V=" ++ str_of_Z v)
     ++ (" when " ++ str_of_Z n ++ " fault(s) needed." ++ NL))%string.
Proof. unfold logger_row, killed_message. by rewrite <-!str_app_assoc. Qed.

Lemma killed_error_found log t msecs id v n :
  0 <= id -> 0 <= v ->
  is_Some (search killed_error_pattern (log ++ logger_row t msecs "ERROR" (killed_message id v n))).
Proof.
  intros Hid Hv. rewrite killed_row_split, str_app_assoc. apply (search_complete _ _ _ _ [str_of_Z id; str_of_Z v]).
  apply (matches_rep false false false dot _ EmptyString); [done|done|].
  exact (killed_matches " [ERROR] Killed replica R" id v Hid Hv).
Qed.

Lemma killed_info_found log t msecs id v n :
  0 <= id -> 0 <= v ->
  is_Some (search killed_info_pattern (log ++ logger_row t msecs "INFO" (killed_message id v n))).
Proof.
  intros Hid Hv. rewrite killed_row_split, str_app_assoc.
  replace ((log ++ ("[" ++ logger_stamp t msecs ++ "]")) ++ (" [" ++ "INFO" ++ "] Killed replica R" ++ str_of_Z id
             ++ " at view V=" ++ str_of_Z v) ++ (" when " ++ str_of_Z n ++ " fault(s) needed." ++ NL))%string
    with ((log ++ ("[" ++ logger_stamp t msecs ++ "] ")) ++ ("[INFO] Killed replica R" ++ str_of_Z id
             ++ " at view V=" ++ str_of_Z v) ++ (" when " ++ str_of_Z n ++ " fault(s) needed." ++ NL))%string
    by (rewrite <-!str_app_assoc; reflexivity).
  apply (search_complete _ _ _ _ [str_of_Z id; str_of_Z v]).
  exact (killed_matches "[INFO] Killed replica R" id v Hid Hv).
Qed.

Lemma view_step_nonneg v line v' : 0 <= v -> view_step v line = Ok v' -> 0 <= v'.
Proof.
  unfold view_step. intros Hv. destruct (search _ line) as [[[|g gs] rest]|]; try (intros [= <-]; done).
  intros (g' & _ & [= <-])%bind_Ok. lia.
Qed.

Lemma foldM_view_nonneg v0 lines v : 0 <= v0 -> foldM view_step v0 lines = Ok v -> 0 <= v.
Proof.
  revert v0. induction lines as [|line lines IH]; intros v0 H0; cbn [foldM].
  - intros [= <-]. done.
  - intros (v1 & H1 & H)%bind_Ok. eapply IH; [|exact H]. by eapply view_step_nonneg.
Qed.

Lemma view_of_log_nonneg log v : view_of_log log = Ok v -> 0 <= v.
Proof. apply foldM_view_nonneg. lia. Qed.

(** No match of the pattern of an error begins before a row of the logger and ends in it:
    it would have the bracket of the row after its own. *)
Lemma error_row_apart log row :
  search killed_error_pattern log = None -> has_char "E" (String "[" row) = false ->
  search killed_error_pattern (log ++ String "[" row) = None.
Proof.
  intros Hlog Hrow. apply search_None_iff. intros x m y gs Heq Hm. rewrite search_None_iff in Hlog.
  pose proof Hm as Hm'. unfold killed_error_pattern in Hm. inversion Hm as [| | |? ? ? ? ? w m1 gs' Hw _ Hm1 E1 E2 E3]; subst.
  inversion Hm1 as [|l r m2 gs'' Hm2 E4 E5 E6| |]; subst.
  assert (has_char "[" m2 = false) as Hm2b.
  { inversion Hm2 as [| | |? ? ? ? ? d m3 gs3 Hd _ Hm3 E7 E8 E9]; subst.
    inversion Hm3 as [|l r m4 gs4 Hm4 E10 E11 E12| |]; subst.
    inversion Hm4 as [| | |? ? ? ? ? d' m5 gs5 Hd' _ Hm5 E13 E14 E15]; subst. inversion Hm5; subst.
    rewrite !has_char_app, (str_all_no_char is_digit "[" d), (str_all_no_char is_digit "[" d') by done. reflexivity. }
  set (p := (x ++ w ++ " [")%string). set (l := ("ERROR] Killed replica R" ++ m2)%string).
  assert ((log ++ String "[" row)%string = (p ++ (l ++ y))%string) as Hcut.
  { rewrite Heq. unfold p, l. rewrite <-!str_app_assoc. reflexivity. }
  apply str_app_cut in Hcut as [(t & Hp & Hr)|(t & Hl & Hr)].
  - rewrite Hr in Hrow. unfold l in Hrow. rewrite !has_char_app in Hrow. cbn in Hrow. rewrite ?orb_true_r in Hrow. discriminate.
  - apply str_app_cut in Hr as [(t' & -> & Hy)|(t' & Ht & Hy)].
    + apply (Hlog x (w ++ " [ERROR] Killed replica R" ++ m2)%string t' gs); [|done].
      rewrite Hl. unfold p, l. rewrite <-!str_app_assoc. reflexivity.
    + assert (has_char "[" l = false) as Hlb by (unfold l; rewrite has_char_app, Hm2b; reflexivity).
      rewrite Ht, has_char_app in Hlb. destruct t' as [|c t'].
      * cbn in Hy. apply (Hlog x (w ++ " [ERROR] Killed replica R" ++ m2)%string EmptyString gs); [|done].
        rewrite str_app_nil_r in Ht |- *. rewrite Hl, <-Ht. unfold p, l. rewrite <-!str_app_assoc. by rewrite ?str_app_nil_r.
      * cbn in Hy. injection Hy as <- _. rewrite has_char_cons in Hlb. cbn in Hlb. rewrite orb_true_r in Hlb. discriminate.
Qed.

(** The log that the parser reads of a replica that was killed on purpose. *)
Lemma replica_log_read id nb_validators nb_faults fault_time t msecs log log' :
  0 <= id -> 0 <= nb_faults -> 0 <= msecs ->
  replica_log id nb_validators (Some (nb_faults, fault_time)) t msecs log = Ok log' ->
  exists view_nb, view_of_log (universal_newlines log) = Ok view_nb
    /\ if view_nb mod nb_validators <=? id
       then is_Some (search killed_info_pattern (universal_newlines log'))
            /\ (check_killed (universal_newlines log) = Ok tt -> check_killed (universal_newlines log') = Ok tt)
       else check_killed (universal_newlines log') = Raise ParseError.
Proof.
  intros Hid Hn Hms Hr. unfold replica_log in Hr. apply bind_Ok in Hr as (view_nb & Hv & Hr).
  pose proof (view_of_log_nonneg _ _ Hv) as Hv0. exists view_nb. split; [done|].
  set (level := if _ <=? id then "INFO"%string else _) in Hr.
  assert (has_char cr (logger_row t msecs level (killed_message id view_nb nb_faults)) = false) as Hcr.
  { apply logger_row_no_char; try done; [unfold level; by case_match|by apply killed_message_no_char]. }
  injection Hr as <-.
  assert (universal_newlines (log ++ logger_row t msecs level (killed_message id view_nb nb_faults))
          = (universal_newlines log ++ logger_row t msecs level (killed_message id view_nb nb_faults))%string) as ->.
  { rewrite <-(universal_newlines_id _ Hcr) at 2. unfold logger_row. cbn [String.append]. by apply universal_newlines_app. }
  unfold level, check_killed. destruct (view_nb mod nb_validators <=? id).
  - split; [by apply killed_info_found|]. intros Hc.
    assert (search killed_error_pattern (universal_newlines log) = None) as Hl
      by (by destruct (search killed_error_pattern (universal_newlines log))).
    unfold logger_row. cbn [String.append]. rewrite (error_row_apart _ _ Hl); [done|].
    apply (logger_row_no_char "E" t msecs "INFO"); try done. by apply killed_message_no_char.
  - by destruct (killed_error_found (universal_newlines log) t msecs id view_nb nb_faults Hid Hv0) as [? ->].
Qed.

(** ** Waiting and donating *)

Definition not_ready (p : poll) : Prop := match p with Started => False | RpcError code => code = -28 | ProcessError => True end.

Lemma wait_started_from polls k n :
  wait_started polls k = Ok n <->
  exists pre rest, polls = pre ++ Started :: rest /\ Forall not_ready pre /\ n = k + Z.of_nat (length pre) + 1.
Proof.
  revert k. induction polls as [|p polls IH]; intros k; cbn [wait_started].
  - split; [done|]. intros ([|] & rest & [=] & _).
  - assert (forall q, not_ready q -> q <> Started ->
      (exists pre rest, polls = pre ++ Started :: rest /\ Forall not_ready pre /\ n = k + 1 + Z.of_nat (length pre) + 1)
      <-> exists pre rest, q :: polls = pre ++ Started :: rest /\ Forall not_ready pre /\ n = k + Z.of_nat (length pre) + 1) as Hstep.
    { intros q Hq Hne. split.
      - intros (pre & rest & -> & Hall & ->). exists (q :: pre), rest. split; [done|]. split; [by constructor|]. cbn [length]. lia.
      - intros ([|q' pre] & rest & Heq & Hall & ->); injection Heq as -> Heq; [done|].
        apply Forall_cons in Hall as [_ Hall]. exists pre, rest. split; [done|]. split; [done|]. cbn [length]. lia. }
    destruct p as [|code|].
    + split.
      * intros [= <-]. exists [], polls. split; [done|]. split; [constructor|]. cbn. lia.
      * intros ([|q pre] & rest & Heq & Hall & ->).
        -- f_equal. cbn. lia.
        -- injection Heq as <- Heq. by apply Forall_cons in Hall as [[] _].
    + destruct (Z.eqb_spec code (-28)) as [->|Hc]; cbn [negb]; [rewrite IH; by apply Hstep|].
      split; [done|]. intros ([|q pre] & rest & Heq & Hall & ->); [done|]. injection Heq as <- Heq.
      by apply Forall_cons in Hall as [Hq _].
    + rewrite IH. by apply Hstep.
Qed.

(** [run-signet.py] returns at the first call that the node answers, and only if
    all the calls before failed because the node was warming up (-28) or could not be
    reached. *)
Theorem wait_started_spec polls n :
  wait_started polls 0 = Ok n <->
  exists pre rest, polls = pre ++ Started :: rest /\ Forall not_ready pre /\ n = Z.of_nat (length pre) + 1.
Proof. apply (wait_started_from polls 0). Qed.

Lemma signals_local n f : local_stop (Nat.iter n signal_handler f) = local_stop f.
Proof. by induction n as [|n IH]; cbn. Qed.

(** The handler of the signals assigns another variable than the one the loop of a
    donor reads, so no signal ever ends the loop. *)
Theorem donor_never_stops steps f txid outcome :
  local_stop f = false -> donor_loop steps f txid = Ok outcome ->
  exists f' txid', outcome = inr (f', txid') /\ local_stop f' = false
    /\ (Exists (fun st => signals st <> O) steps -> global_stop f' = true).
Proof.
  revert f txid. induction steps as [|st steps IH]; intros f txid Hf; cbn [donor_loop]; rewrite Hf.
  - intros [= <-]. exists f, txid. split; [done|]. split; [done|]. by intros ?%Exists_nil.
  - intros (txid1 & _ & H)%bind_Ok. destruct (IH (Nat.iter (signals st) signal_handler f) txid1) as (f' & t' & -> & Hl & Hg);
      [by rewrite signals_local|done|].
    exists f', t'. split; [done|]. split; [done|]. rewrite Exists_cons. intros [Hs|Hs]; [|auto].
    assert (global_stop (Nat.iter (signals st) signal_handler f) = true) as Hgl by (by destruct (signals st)).
    clear -H Hgl Hl. revert H Hgl. generalize (Nat.iter (signals st) signal_handler f) as f1. intros f1. revert f1 txid1.
    induction steps as [|st' steps IH]; intros f1 txid1; cbn [donor_loop]; destruct (local_stop f1); try done.
    + by intros [= <- <-].
    + intros (t2 & _ & H)%bind_Ok Hg. eapply IH; [exact H|]. clear -Hg. by induction (signals st') as [|n IHn]; cbn.
Qed.

(** An RPC error before any sending succeeded: the message of the handler needs [txid]. *)
Lemma donor_first_error rest : donor_round None (SendRpcError :: rest) = Raise UnboundLocalError.
Proof. reflexivity. Qed.

(** ** Witnesses *)

Definition toy_replica_log : string :=
  ("[2023-May-23 08:09:10] [info] R1 V=3, applying <ROAST_INIT" ++ NL ++ "[2023-May-23 08:09:11] [info] R1 V=5 V=4" ++ NL)%string.
Definition toy_time : datetime := DateTime 2023 5 23 8 10 0 0.
Example view_example : view_of_log toy_replica_log = Ok 4.
Proof. vm_compute. reflexivity. Qed.

Example donor_never_stops_witness :
  exists f' txid', inr (MkDonorFlags false true, Some "ab"%string) = inr (A := option string) (f', txid') /\ local_stop f' = false
    /\ (Exists (fun st => signals st <> O) [MkDonorStep 1 [Sent "ab"%string]; MkDonorStep 0 []] -> global_stop f' = true).
Proof.
  apply (donor_never_stops [MkDonorStep 1 [Sent "ab"%string]; MkDonorStep 0 []] (MkDonorFlags false false) None
           (inr (MkDonorFlags false true, Some "ab"%string))); reflexivity.
Defined.
