(* ===== verification/NodeScripts.v ===== *)
(** * The scripts of the nodes on the file system (benchmark/run-replicas.py,
    run-signet.py, run-donor.py)

    [main] of the three scripts: the directory of the logs, the window of tmux in which the
    node runs, and what Nodes.v models of the waits, the loops and the row of a kill.  The
    commands run on a machine with a file system, on which a node may write at any time; the
    answers of [bitcoind] are inputs. *)

From S2P Require Import Prelude PyIo PyStr PyInt PyFloat PyRegex PyTime FileSystem LogEvents NodeLog Naming ClientLog Nodes.

(** [str(Path(s))]: no empty name and no dot, one slash at the beginning, or two. *)
Definition pathlib (s : string) : string :=
  let root := if startswith "//" s && negb (startswith "///" s) then "//"%string
              else if startswith "/" s then "/"%string else EmptyString in
  match (root ++ path_text (names_of s))%string with EmptyString => "."%string | t => t end.

Section Scripts.
(** The working directory, [Path.resolve] as a text, the commands, [time.sleep], the clock
    of the logger and the import of the test framework. *)
Context (cwd : path) (resolve : string -> string) (command : list string -> io fs string) (sleep : float -> io fs unit).
Context (clock : fs -> datetime * Z) (import_module : string -> io fs unit).

(** [subprocess.run([...])] of a new window that runs [cmd]. *)
Definition new_window (name : string) (options : list string) (cmd : string) : io fs unit :=
  _ <~ command (["tmux"; "new-window"; "-t"; TMUX_SESSION_NAME; "-n"; name]%string ++ options ++ [cmd]);
  io_ret tt.

(** The logs of a node, in a directory that is made. *)
Definition log_filename (node_name name : string) : string := (node_logs_path node_name ++ "/" ++ name)%string.
Definition make_log_dir (node_name : string) : io fs unit := makedirs (path_of cwd (node_logs_path node_name)).

(** ** run-replicas.py *)

Definition run_replica_window (itcoin_fbft_path : string) (id nb_validators : Z) : io fs unit :=
  let node_name := get_node_dirname id VALIDATOR nb_validators in
  let fbftd := resolve (pathlib (itcoin_fbft_path ++ "/build/src/main")) in
  let lib_dir := resolve (pathlib (itcoin_fbft_path ++ "/build/usrlocal/lib")) in
  let datadir := pathlib (itcoin_fbft_path ++ "/" ++ benchmark_path ++ "/" ++ output_path ++ "/" ++ node_name) in
  new_window ("miner-" ++ str_of_Z id) ["-e"; "LD_LIBRARY_PATH=" ++ lib_dir]%string
    (fbftd ++ " -datadir=" ++ datadir ++ " &> " ++ log_filename node_name "miner_logs.txt").

(** The kill of the window, when it is wanted. *)
Definition kill_replica (id : Z) (fault_info : option (Z * float)) : io fs unit :=
  match fault_info with
  | None => io_ret tt
  | Some (_, fault_time) =>
      _ <~ sleep fault_time;
      _ <~ command ["tmux"; "kill-window"; "-t"; "miner-" ++ str_of_Z id]%string;
      io_ret tt
  end.

(** The row that goes at the end of the log, opened with ["r+"]. *)
Definition append_kill (id nb_validators : Z) (fault_info : option (Z * float)) : io fs unit :=
  let file := path_of cwd (log_filename (get_node_dirname id VALIDATOR nb_validators) "miner_logs.txt") in
  match fault_info with
  | None => io_ret tt
  | Some _ =>
      log <~ inspect (fun s => or_raise OSError (content s file));
      text <~ inspect (fun s => replica_log id nb_validators fault_info (clock s).1 (clock s).2 log);
      write_text file text
  end.

Definition replicas_main (itcoin_fbft_path : string) (id nb_validators : Z) (fault_info : option (Z * float)) : io fs unit :=
  let node_name := get_node_dirname id VALIDATOR nb_validators in
  _ <~ make_log_dir node_name;
  _ <~ write_text (path_of cwd (log_filename node_name "miner_logs.txt")) EmptyString;
  _ <~ run_replica_window itcoin_fbft_path id nb_validators;
  _ <~ kill_replica id fault_info;
  append_kill id nb_validators fault_info.

(** ** run-signet.py *)

Definition node_type_value (t : NodeType) : string := match t with VALIDATOR => "validator" | CLIENT => "client" end.

(** [--node-type] may be absent; [polls] are the answers of [getblockchaininfo]. *)
Definition signet_node_main (bitcoin_path itcoin_core_test_framework_path : string) (id : Z) (node_type : option NodeType) (nb_of_type : Z)
    (polls : list poll) : io fs Z :=
  _ <~ import_module itcoin_core_test_framework_path;
  t <~ lift (or_raise AttributeError node_type);
  let node_name := get_node_dirname id t nb_of_type in
  _ <~ make_log_dir node_name;
  let datadir := (resolve output_path ++ "/" ++ node_name)%string in
  _ <~ new_window ("bitcoind-" ++ node_type_value t ++ "-" ++ str_of_Z id) []
         (pathlib (bitcoin_path ++ "/bitcoind") ++ " -datadir=" ++ datadir ++ " &> " ++ log_filename node_name "bitcoind_logs.txt");
  lift (wait_started polls 0).

(** ** run-donor.py *)

(** The answers of [getwalletinfo], then the iterations of the second loop; [inl] when it
    ends. *)
Definition donor_main (itcoin_core_test_framework_path : string) (id nb_validators : Z) (balances : list (option Z)) (steps : list DonorStep)
    : io fs (option string + DonorFlags * option string) :=
  _ <~ import_module itcoin_core_test_framework_path;
  let node_name := get_node_dirname id VALIDATOR nb_validators in
  _ <~ make_log_dir node_name;
  _ <~ write_text (path_of cwd (log_filename node_name "donor_logs.txt")) EmptyString;
  _ <~ lift (wait_funds balances (MkDonorFlags false false) 0);
  lift (donor_loop steps (MkDonorFlags false false) None).
End Scripts.

(** ** The log of a replica that is killed *)

Section Killed.
Context (cwd : path) (resolve : string -> string) (command : list string -> io fs string) (sleep : float -> io fs unit).
Context (clock : fs -> datetime * Z).

Lemma write_text_content file text s s' : write_text file text s = (s', Ok tt) -> content s' file = Some text.
Proof. intros [-> Hne]%write_file_Ok. rewrite content_insert by done. by rewrite decide_True. Qed.

(** The file in which run-replicas.py writes is the one that the logs are read from. *)
Lemma miner_log_filename id nb_validators file :
  miner_log_file id nb_validators = Ok file ->
  log_filename (get_node_dirname id VALIDATOR nb_validators) "miner_logs.txt" = file.
Proof.
  unfold miner_log_file. intros (_ & _ & [= <-])%bind_Ok. unfold log_filename, node_logs_path. by rewrite <-!str_app_assoc.
Qed.

(** When run-replicas.py has killed its replica, the log that the parser reads for the
    node is what the replica left in its file, with the row of the kill.  When the primary
    of the greatest view it saw is not after the replicas to kill, this log still passes the
    check and the kill is found; when it is, it is refused with a [ParseError], whatever the
    replica wrote. *)
Theorem killed_row_read itcoin_fbft_path id nb_validators nb_faults fault_time s s' file :
  0 <= id -> 0 <= nb_faults -> (forall s, 0 <= (clock s).2) -> miner_log_file id nb_validators = Ok file ->
  replicas_main cwd resolve command sleep clock itcoin_fbft_path id nb_validators (Some (nb_faults, fault_time)) s = (s', Ok tt) ->
  exists s0 s1 out log log' view_nb,
    command ["tmux"; "kill-window"; "-t"; "miner-" ++ str_of_Z id]%string s0 = (s1, Ok out)
    /\ content s1 (path_of cwd file) = Some log /\ read_text (path_of cwd file) s' = (s', Ok log')
    /\ view_of_log (universal_newlines log) = Ok view_nb
    /\ if view_nb mod nb_validators <=? id
       then is_Some (search killed_info_pattern log') /\ (check_killed (universal_newlines log) = Ok tt -> check_killed log' = Ok tt)
       else forall cfg, make_node_log log' cfg = Raise ParseError.
Proof.
  intros Hid Hn Hclock Hfile H. apply miner_log_filename in Hfile. unfold replicas_main in H.
  apply io_bind_Ok in H as (sa & ? & _ & H). apply io_bind_Ok in H as (sb & ? & _ & H).
  apply io_bind_Ok in H as (sc & ? & _ & H). apply io_bind_Ok in H as (s1 & ? & Hkill & H).
  unfold kill_replica in Hkill. apply io_bind_Ok in Hkill as (s0 & ? & _ & Hkill).
  apply io_bind_Ok in Hkill as (s1' & out & Hkill & [= -> _]).
  unfold append_kill in H. rewrite Hfile in H.
  apply io_bind_Ok in H as (s1' & log & [= <- Hlog] & H). apply io_bind_Ok in H as (s1'' & text & [= <- Htext] & Hw).
  apply or_raise_Ok in Hlog.
  destruct (replica_log_read id nb_validators nb_faults fault_time _ _ log text Hid Hn (Hclock s1) Htext) as (view_nb & Hv & Hread).
  exists s0, s1, out, log, (universal_newlines text), view_nb. split; [done|]. split; [done|]. split.
  { unfold read_text. by rewrite (write_text_content _ _ _ _ Hw). }
  split; [done|]. destruct (view_nb mod nb_validators <=? id); [done|].
  intros cfg. unfold make_node_log. by rewrite Hread.
Qed.
End Killed.

(** No iteration and no signal makes run-donor.py end by itself. *)
Lemma donor_main_goes_on cwd import_module framework id nb_validators balances steps s s' outcome :
  donor_main cwd import_module framework id nb_validators balances steps s = (s', Ok outcome) ->
  exists f txid, outcome = inr (f, txid).
Proof.
  unfold donor_main. intros (s1 & ? & _ & H)%io_bind_Ok. apply io_bind_Ok in H as (s2 & ? & _ & H).
  apply io_bind_Ok in H as (s3 & ? & _ & H). apply io_bind_Ok in H as (s4 & ? & _ & H). injection H as _ H.
  destruct (donor_never_stops steps (MkDonorFlags false false) None outcome eq_refl H) as (f & txid & -> & _). by exists f, txid.
Qed.

(** ** Witness *)

(** A machine whose replica writes its rows when its window is opened. *)
Definition toy_file : path := ["logs"; "node-1"; "miner_logs.txt"]%string.
Definition toy_command (argv : list string) : io fs string :=
  _ <~ (if bool_decide (argv !! 1%nat = Some "new-window"%string) then append_text toy_file toy_replica_log else io_ret tt);
  io_ret EmptyString.
Definition toy_clock (s : fs) : datetime * Z := (toy_time, 17).
Definition toy_run : io fs unit :=
  replicas_main [] (fun p => p) toy_command (fun _ => io_ret tt) toy_clock "/home/itcoin-fbft" 1 4 (Some (2, 0)).

Example toy_run_works : (toy_run ∅).2 = Ok tt.
Proof. vm_compute. reflexivity. Qed.

Example killed_row_read_witness :
  exists s0 s1 out log log' view_nb,
    toy_command ["tmux"; "kill-window"; "-t"; "miner-" ++ str_of_Z 1]%string s0 = (s1, Ok out)
    /\ content s1 (path_of [] "logs/node-1/miner_logs.txt") = Some log
    /\ read_text (path_of [] "logs/node-1/miner_logs.txt") (toy_run ∅).1 = ((toy_run ∅).1, Ok log')
    /\ view_of_log (universal_newlines log) = Ok view_nb
    /\ if view_nb mod 4 <=? 1
       then is_Some (search killed_info_pattern log') /\ (check_killed (universal_newlines log) = Ok tt -> check_killed log' = Ok tt)
       else forall cfg, make_node_log log' cfg = Raise ParseError.
Proof.
  assert (forall s, 0 <= (toy_clock s).2) as Hclock by (intros; cbn; lia).
  assert (miner_log_file 1 4 = Ok "logs/node-1/miner_logs.txt"%string) as Hfile by (vm_compute; reflexivity).
  assert ((toy_run ∅).2 = Ok tt) as Hok by (vm_compute; reflexivity).
  destruct (toy_run ∅) as [s' r] eqn:Hrun. cbn [fst snd] in *. subst r. unfold toy_run in Hrun.
  exact (killed_row_read [] (fun p => p) toy_command (fun _ => io_ret tt) toy_clock "/home/itcoin-fbft" 1 4 2 0 ∅ s' _
           ltac:(lia) ltac:(lia) Hclock Hfile Hrun).
Defined.
