(* ===== verification/JsonMinify.v ===== *)
(** * Minification of JSON (infra/json_minify.py)

    [json_minify] removes the comments of a document, and its white space unless told
    not to.  The loop over the matches of the tokenizer is modelled as it is written;
    it is then shown to be a one-pass scan, from which the text it gives for every
    document with comments follows. *)

From S2P Require Import Prelude PyStr.

Definition quote : ascii := "034"%char.
Definition backslash : ascii := "\"%char.

(** ** The tokens *)

(** The one-character tokens and the two-character ones of the tokenizer. *)
Definition is_newline (c : ascii) : bool := Ascii.eqb c nl || Ascii.eqb c cr.
Definition single_token (c : ascii) : bool := Ascii.eqb c quote || is_newline c.
Definition pair_token (c d : ascii) : bool :=
  (Ascii.eqb c "/" && Ascii.eqb d "*") || (Ascii.eqb c "*" && Ascii.eqb d "/") || (Ascii.eqb c "/" && Ascii.eqb d "/").

(** The next match of the tokenizer: the text before it, the match, the rest. *)
Fixpoint next_token (s : string) : option (string * string * string) :=
  match s with
  | EmptyString => None
  | String c s' =>
      if single_token c then Some (EmptyString, String c EmptyString, s')
      else match s' with
           | String d s'' =>
               if pair_token c d then Some (EmptyString, String c (String d EmptyString), s'')
               else (fun t => (String c t.1.1, t.1.2, t.2)) <$> next_token s'
           | EmptyString => None
           end
  end.

(** ** The loop *)

Record MinifyState : Type := MkMinifyState { in_string : bool; in_multi : bool; in_single : bool }.

Definition is_white (c : ascii) : bool :=
  Ascii.eqb c " " || Ascii.eqb c "009"%char || Ascii.eqb c nl || Ascii.eqb c cr.
(** [re.sub('[ \t\n\r]+', '', tmp)] *)
Fixpoint remove_white (s : string) : string :=
  match s with
  | EmptyString => EmptyString
  | String c s' => if is_white c then remove_white s' else String c (remove_white s')
  end.

(** [len(escaped.group())]: the backslashes at the end of [string[last_index:match.start()]]. *)
Fixpoint trailing_backslashes (n : nat) (s : string) : nat :=
  match s with
  | EmptyString => n
  | String c s' => trailing_backslashes (if Ascii.eqb c backslash then S n else 0%nat) s'
  end.

(** [val in '\r\n'] and [val in ' \r\n\t'], for the tokens. *)
Definition newline_token (val : string) : bool :=
  match val with String c EmptyString => is_newline c | _ => false end.

Section Minify.
Context (strip_space : bool).

(** The body of the loop for a match: [tmp] is [string[index:match.start()]]; the
    state, what is appended to [new_str], and what [index] leaves before the end of
    the match. *)
Definition minify_step (st : MinifyState) (tmp val : string) : MinifyState * string * string :=
  let in_comment := in_multi st || in_single st in
  let out1 :=
    if negb in_comment
    then (if negb (in_string st) && strip_space then remove_white tmp else tmp)
    else if negb strip_space then blanks (String.length tmp) else EmptyString in
  let '(st', out2, pending) :=
    if String.eqb val DQ && negb in_comment then
      let escaped := trailing_backslashes 0 tmp in
      let st' := if negb (in_string st) || Nat.even escaped
                 then MkMinifyState (negb (in_string st)) (in_multi st) (in_single st) else st in
      (st', EmptyString, DQ)
    else if negb (in_string st || in_multi st || in_single st) then
      let st' := if String.eqb val "/*" then MkMinifyState (in_string st) true (in_single st)
                 else if String.eqb val "//" then MkMinifyState (in_string st) (in_multi st) true
                 else st in
      (st', EmptyString, EmptyString)
    else if String.eqb val "*/" && in_multi st && negb (in_string st || in_single st) then
      (MkMinifyState (in_string st) false (in_single st), if negb strip_space then blanks (String.length val) else EmptyString,
       EmptyString)
    else if newline_token val && negb (in_multi st || in_string st) && in_single st then
      (MkMinifyState (in_string st) (in_multi st) false, EmptyString, EmptyString)
    else if negb ((in_multi st || in_single st) || (newline_token val && strip_space)) then
      (st, val, EmptyString)
    else (st, EmptyString, EmptyString) in
  let out3 :=
    if negb strip_space then
      if newline_token val then val
      else if in_multi st' || in_single st' then blanks (String.length val) else EmptyString
    else EmptyString in
  (st', (out1 ++ out2 ++ out3)%string, pending).

(** [for match in re.finditer(tokenizer, string)] and the end; [pending] is
    [string[index:]] up to the end of the last match.  [fuel] bounds the matches. *)
Fixpoint minify_loop (fuel : nat) (st : MinifyState) (pending s : string) : string :=
  match next_token s with
  | None => (pending ++ s)%string
  | Some (before, val, rest) =>
      match fuel with
      | O => EmptyString
      | S fuel =>
          let '(st', out, pending') := minify_step st (pending ++ before) val in
          (out ++ minify_loop fuel st' pending' rest)%string
      end
  end.

Definition json_minify (s : string) : string :=
  minify_loop (String.length s) (MkMinifyState false false false) EmptyString s.

(** ** One pass

    [seg] is the text since [index]. *)
Fixpoint scan (st : MinifyState) (seg s : string) : string :=
  match s with
  | EmptyString => seg
  | String c s' =>
      if single_token c
      then let '(st', out, pending) := minify_step st seg (String c EmptyString) in (out ++ scan st' pending s')%string
      else match s' with
           | String d s'' =>
               if pair_token c d
               then let '(st', out, pending) := minify_step st seg (String c (String d EmptyString)) in
                    (out ++ scan st' pending s'')%string
               else scan st (seg ++ String c EmptyString) s'
           | EmptyString => (seg ++ String c EmptyString)%string
           end
  end.

Lemma scan_single st seg c s :
  single_token c = true ->
  scan st seg (String c s) =
  let '(st', out, pending) := minify_step st seg (String c EmptyString) in (out ++ scan st' pending s)%string.
Proof. intros Hc. cbn [scan]. by rewrite Hc. Qed.

Lemma scan_pair st seg c d s :
  single_token c = false -> pair_token c d = true ->
  scan st seg (String c (String d s)) =
  let '(st', out, pending) := minify_step st seg (String c (String d EmptyString)) in (out ++ scan st' pending s)%string.
Proof. intros Hc Hd. cbn [scan]. by rewrite Hc, Hd. Qed.

Lemma scan_other st seg c d s :
  single_token c = false -> pair_token c d = false ->
  scan st seg (String c (String d s)) = scan st (seg ++ String c EmptyString) (String d s).
Proof. intros Hc Hd. cbn [scan]. by rewrite Hc, Hd. Qed.

Lemma scan_next_token st seg s :
  scan st seg s =
  match next_token s with
  | None => (seg ++ s)%string
  | Some (before, val, rest) =>
      let '(st', out, pending) := minify_step st (seg ++ before) val in (out ++ scan st' pending rest)%string
  end.
Proof.
  revert seg. induction s as [|c s IH]; intros seg; cbn [scan next_token]; [by rewrite str_app_nil_r|].
  destruct (single_token c); [by rewrite str_app_nil_r|].
  destruct s as [|d s]; [done|]. destruct (pair_token c d); [by rewrite str_app_nil_r|].
  rewrite IH. destruct (next_token (String d s)) as [[[before val] rest]|]; cbn [fmap option_fmap option_map fst snd];
    rewrite <-str_app_assoc; done.
Qed.

Lemma next_token_shorter s before val rest :
  next_token s = Some (before, val, rest) -> (String.length rest < String.length s)%nat.
Proof.
  revert before. induction s as [|c s IH]; intros before; cbn [next_token]; [done|].
  destruct (single_token c); [intros [= <- <- <-]; cbn; lia|].
  destruct s as [|d s]; [done|]. destruct (pair_token c d); [intros [= <- <- <-]; cbn; lia|].
  destruct (next_token (String d s)) as [[[b v] r]|]; [|done]. intros [= <- <- <-].
  specialize (IH b eq_refl). cbn [String.length] in *. lia.
Qed.

Lemma minify_loop_scan fuel st pending s :
  (String.length s <= fuel)%nat -> minify_loop fuel st pending s = scan st pending s.
Proof.
  revert st pending s. induction fuel as [|fuel IH]; intros st pending s Hf; cbn [minify_loop]; rewrite scan_next_token;
    destruct (next_token s) as [[[before val] rest]|] eqn:E; try done; apply next_token_shorter in E; [lia|].
  destruct (minify_step st (pending ++ before) val) as [[st' out] pending']. by rewrite IH by lia.
Qed.

Lemma json_minify_scan s : json_minify s = scan (MkMinifyState false false false) EmptyString s.
Proof. by apply minify_loop_scan. Qed.
End Minify.

(** ** Documents *)

(** A document is a sequence of pieces: a character outside the strings and the
    comments, a newline, a string, and the two kinds of comments with their bodies. *)
Inductive piece : Type :=
  | Plain (c : ascii)
  | Newline (c : ascii)
  | StrLit (body : string)
  | MultiComment (body : string)
  | SingleComment (body : string) (c : ascii).

Definition render_piece (p : piece) : string :=
  match p with
  | Plain c | Newline c => String c EmptyString
  | StrLit body => String quote (body ++ DQ)
  | MultiComment body => "/*" ++ body ++ "*/"
  | SingleComment body c => "//" ++ body ++ String c EmptyString
  end%string.
Definition flat (f : piece -> string) (doc : list piece) : string := foldr (fun p s => (f p ++ s)%string) EmptyString doc.
Definition render : list piece -> string := flat render_piece.

(** The body of a string: a quote in it is escaped, and so is not the one that ends it. *)
Fixpoint string_body (escaped : bool) (s : string) : bool :=
  match s with
  | EmptyString => negb escaped
  | String c s' =>
      negb (is_newline c) && (escaped || negb (Ascii.eqb c quote))
      && string_body (negb escaped && Ascii.eqb c backslash) s'
  end.

(** The body of a comment, in which the tokenizer reads no end of comment, even with
    what follows. *)
Fixpoint multi_body (s : string) : bool :=
  match s with
  | EmptyString => true
  | String c s' =>
      if single_token c then multi_body s'
      else match s' with
           | String d s'' =>
               if pair_token c d then negb (Ascii.eqb c "*") && multi_body s'' else multi_body s'
           | EmptyString => negb (Ascii.eqb c "/")
           end
  end.

Definition piece_ok (p : piece) : bool :=
  match p with
  | Plain c => negb (single_token c) && negb (Ascii.eqb c "/") && negb (Ascii.eqb c "*")
  | Newline c => is_newline c
  | StrLit body => string_body false body
  | MultiComment body => multi_body body
  | SingleComment body c => str_all (fun d => negb (is_newline d)) body && is_newline c
  end.

(** A comment as white space. *)
Fixpoint blank (s : string) : string :=
  match s with
  | EmptyString => EmptyString
  | String c s' => String (if is_newline c then c else " "%char) (blank s')
  end.

(** What is left of a piece. *)
Definition minified_piece (strip_space : bool) (p : piece) : string :=
  match p with
  | Plain c => if strip_space && is_white c then EmptyString else String c EmptyString
  | Newline c => if strip_space then EmptyString else String c EmptyString
  | StrLit body => String quote (body ++ DQ)
  | MultiComment body => if strip_space then EmptyString else blank ("/*" ++ body ++ "*/")
  | SingleComment body c => if strip_space then EmptyString else (blank ("//" ++ body) ++ String c EmptyString)%string
  end.
Definition minified (strip_space : bool) : list piece -> string := flat (minified_piece strip_space).

Definition doc_ok (doc : list piece) : bool := forallb piece_ok doc.
Definition is_plain (p : piece) : bool := match p with Plain _ => true | _ => false end.
(** The document does not end with a character outside the strings and the comments. *)
Definition ends_in_token (doc : list piece) : bool :=
  match last doc with Some p => negb (is_plain p) | None => true end.

(** The pieces that are not white space: what a minified document is made of. *)
Definition essential (p : piece) : Prop :=
  match p with Plain c => is_white c = false | StrLit _ => True | _ => False end.
#[global] Instance essential_dec p : Decision (essential p).
Proof. destruct p; apply _. Defined.

(** The same characters at the same places, but for spaces in place of some that are
    not newlines. *)
Fixpoint same_layout (s t : string) : bool :=
  match s, t with
  | EmptyString, EmptyString => true
  | String c s, String d t => (Ascii.eqb c d || Ascii.eqb d " " && negb (is_newline c)) && same_layout s t
  | _, _ => false
  end.

(** ** Characters and tokens *)

Lemma single_token_cases c : single_token c = true -> c = quote \/ c = nl \/ c = cr.
Proof. unfold single_token, is_newline. rewrite !orb_true_iff, !Ascii.eqb_eq. tauto. Qed.

Lemma newline_cases c : is_newline c = true -> c = nl \/ c = cr.
Proof. unfold is_newline. rewrite orb_true_iff, !Ascii.eqb_eq. tauto. Qed.

Lemma pair_token_cases c d :
  pair_token c d = true -> (c = "/" /\ d = "*")%char \/ (c = "*" /\ d = "/")%char \/ (c = "/" /\ d = "/")%char.
Proof. unfold pair_token. rewrite !orb_true_iff, !andb_true_iff, !Ascii.eqb_eq. tauto. Qed.

Lemma pair_token_first c d : c <> "/"%char -> c <> "*"%char -> pair_token c d = false.
Proof. unfold pair_token. rewrite <-!Ascii.eqb_neq. by intros -> ->. Qed.

Lemma trailing_snoc n s c :
  trailing_backslashes n (s ++ String c EmptyString) = if Ascii.eqb c backslash then S (trailing_backslashes n s) else 0%nat.
Proof. revert n. induction s as [|d s IH]; intros n; cbn; [by destruct (Ascii.eqb c backslash)|apply IH]. Qed.

Lemma remove_white_app a b : remove_white (a ++ b) = (remove_white a ++ remove_white b)%string.
Proof. induction a as [|c a IH]; [done|]. cbn. destruct (is_white c); [done|]. cbn. by rewrite IH. Qed.

Lemma blank_app a b : blank (a ++ b) = (blank a ++ blank b)%string.
Proof. induction a as [|c a IH]; [done|]. cbn. by rewrite IH. Qed.

(** A token further on is still there behind any text. *)
Lemma next_token_app a s : next_token s <> None -> next_token (a ++ s) <> None.
Proof.
  intros Hs. induction a as [|c a IH]; [done|]. cbn [String.append next_token].
  destruct (single_token c); [done|]. destruct (a ++ s)%string as [|d t]; [done|].
  destruct (pair_token c d); [done|]. destruct (next_token (String d t)); [done|]. by destruct IH.
Qed.

Lemma flat_app f a b : flat f (a ++ b) = (flat f a ++ flat f b)%string.
Proof. induction a as [|p a IH]; [done|]. cbn. rewrite <-str_app_assoc. unfold flat in IH. by rewrite IH. Qed.

Lemma flat_snoc f a p : flat f (a ++ [p]) = (flat f a ++ f p)%string.
Proof. rewrite flat_app. cbn. by rewrite str_app_nil_r. Qed.

Lemma minified_essential doc : minified true doc = render (filter essential doc).
Proof.
  induction doc as [|p doc IH]; [done|]. rewrite filter_cons. unfold minified, render, flat in *. cbn [foldr].
  rewrite IH. destruct p as [c|c|body|body|body c]; cbn [minified_piece andb];
    destruct (decide (essential _)) as [H|H]; cbn [essential] in H; try done.
  - by rewrite H.
  - apply not_false_iff_true in H. by rewrite H.
Qed.

Lemma essential_filter doc : Forall essential doc -> filter essential doc = doc.
Proof. induction 1 as [|p doc Hp _ IH]; [done|]. rewrite filter_cons. by rewrite decide_True, IH. Qed.

Lemma doc_ok_filter doc : doc_ok doc = true -> doc_ok (filter essential doc) = true.
Proof.
  intros Hok. induction doc as [|p doc IH]; [done|]. cbn in Hok. apply andb_true_iff in Hok as [Hp Hok]. rewrite filter_cons.
  destruct (decide (essential p)); [apply andb_true_iff; split; [done|]|]; by apply IH.
Qed.

(** A piece that is not a character begins with a token. *)
Lemma piece_token p rest :
  piece_ok p = true -> is_plain p = false -> next_token (render_piece p ++ rest) <> None.
Proof.
  intros Hok Hp. destruct p as [c|c|body|body|body c]; try done.
  cbn [render_piece String.append next_token]. cbn in Hok. unfold single_token. by rewrite Hok, orb_true_r.
Qed.

(** *** Layouts *)

Lemma same_layout_refl s : same_layout s s = true.
Proof. induction s as [|c s IH]; [done|]. cbn. by rewrite Ascii.eqb_refl, IH. Qed.

Lemma same_layout_app a b a' b' :
  same_layout a a' = true -> same_layout b b' = true -> same_layout (a ++ b) (a' ++ b') = true.
Proof.
  revert a'. induction a as [|c a IH]; intros [|d a'] Ha Hb; try done. cbn in *.
  apply andb_true_iff in Ha as [-> Ha]. by apply IH.
Qed.

Lemma blank_layout s : same_layout s (blank s) = true.
Proof.
  induction s as [|c s IH]; [done|]. cbn. rewrite IH. destruct (is_newline c) eqn:E; [by rewrite Ascii.eqb_refl|].
  by rewrite orb_true_r.
Qed.

Lemma piece_layout p : same_layout (render_piece p) (minified_piece false p) = true.
Proof.
  destruct p as [c|c|body|body|body c]; cbn [render_piece minified_piece andb];
    [apply same_layout_refl..|apply blank_layout|].
  rewrite str_app_assoc. apply same_layout_app; [apply blank_layout|apply same_layout_refl].
Qed.

(** ** The scan of each piece *)

Section Pieces.
Context (strip_space : bool).
Abbreviation code := (MkMinifyState false false false).
Abbreviation in_str := (MkMinifyState true false false).
Abbreviation multi := (MkMinifyState false true false).
Abbreviation single := (MkMinifyState false false true).
Abbreviation go := (scan strip_space).

Definition flush (seg : string) : string := if strip_space then remove_white seg else seg.

Lemma go_flush seg s : next_token s <> None -> go code seg s = (flush seg ++ go code EmptyString s)%string.
Proof.
  intros Hs. rewrite !scan_next_token. destruct (next_token s) as [[[before val] rest]|]; [|done].
  assert (minify_step strip_space code (seg ++ before) val
          = let '(st', out, pending) := minify_step strip_space code before val in (st', (flush seg ++ out)%string, pending)) as ->.
  { unfold minify_step, flush. cbn [in_multi in_single in_string negb orb andb].
    destruct (String.eqb val DQ); cbn [andb]; destruct strip_space; cbn [negb andb];
      rewrite ?remove_white_app, <-?str_app_assoc; reflexivity. }
  cbn [String.append]. destruct (minify_step strip_space code before val) as [[st' out] pending].
  by rewrite <-str_app_assoc.
Qed.

(** Inside a string: [esc] tells whether the next character is escaped. *)
Lemma go_string n body esc seg rest :
  (String.length body <= n)%nat -> string_body esc body = true ->
  Nat.even (trailing_backslashes 0 seg) = negb esc ->
  go in_str seg (body ++ String quote rest) = (seg ++ body ++ go code DQ rest)%string.
Proof.
  revert body esc seg. induction n as [|n IH]; intros [|c body] esc seg Hn Hb Hp; cbn [String.length] in Hn; try lia.
  1,2: cbn [string_body] in Hb; apply negb_true_iff in Hb; subst esc; cbn [String.append];
    rewrite scan_single by done; unfold minify_step; cbn [in_string in_multi in_single negb orb andb];
    change (String.eqb (String quote "") DQ) with true; rewrite Hp; cbn [negb orb andb];
    destruct strip_space; cbn [negb newline_token]; by rewrite ?str_app_nil_r.
  cbn [string_body] in Hb. rewrite !andb_true_iff in Hb. destruct Hb as [[Hnl Hq] Hb].
  assert (Nat.even (trailing_backslashes 0 (seg ++ String c "")) = negb (negb esc && Ascii.eqb c backslash)) as Hp'.
  { rewrite trailing_snoc. destruct (Ascii.eqb c backslash); [|by rewrite andb_false_r].
    rewrite Nat.even_succ, <-Nat.negb_even, Hp. by destruct esc. }
  destruct (single_token c) eqn:Hc.
  - assert (c = quote) as ->.
    { apply single_token_cases in Hc as [->|[-> | ->]]; [done|discriminate Hnl|discriminate Hnl]. }
    rewrite Ascii.eqb_refl in Hq. cbn in Hq. rewrite orb_false_r in Hq. subst esc.
    cbn [String.append]. rewrite scan_single by done.
    unfold minify_step. cbn [in_string in_multi in_single negb orb andb].
    change (String.eqb (String quote "") DQ) with true. rewrite Hp. cbn [negb orb andb in_multi in_single].
    rewrite (IH body false DQ) by (done || lia).
    destruct strip_space; cbn [negb newline_token is_newline]; rewrite ?str_app_nil_r; reflexivity.
  - assert (exists d t, (body ++ String quote rest)%string = String d t) as (d & t & Ht)
      by (destruct body as [|d body]; cbn; eauto).
    cbn [String.append]. rewrite Ht. destruct (pair_token c d) eqn:Hpair.
    + rewrite scan_pair by done. destruct body as [|d' body]; cbn [String.append] in Ht; injection Ht as Hd Ht; (subst d || subst d').
      { apply pair_token_cases in Hpair as [[_ H]|[[_ H]|[_ H]]]; discriminate H. }
      assert (Ascii.eqb c backslash = false /\ Ascii.eqb d' backslash = false /\ newline_token (String c (String d' "")) = false
              /\ String.eqb (String c (String d' "")) DQ = false) as (Hcb & Hdb & Hnt & Hdq)
        by (apply pair_token_cases in Hpair as [[-> ->]|[[-> ->]|[-> ->]]]; done).
      rewrite Hcb, andb_false_r in Hb. cbn [string_body] in Hb. rewrite !andb_true_iff, Hdb in Hb. destruct Hb as [_ Hb].
      unfold minify_step. cbn [in_string in_multi in_single negb orb andb]. rewrite Hdq, Hnt. cbn [negb orb andb in_multi in_single].
      rewrite !andb_false_r. cbn [negb]. rewrite <-Ht, (IH body false EmptyString) by (done || (cbn in Hn; lia)).
      destruct strip_space; cbn [negb]; rewrite <-!str_app_assoc; reflexivity.
    + rewrite scan_other by done. rewrite <-Ht.
      rewrite (IH body (negb esc && Ascii.eqb c backslash) (seg ++ String c "")%string) by (done || lia).
      by rewrite <-str_app_assoc.
Qed.

(** Inside the comments: a comment is dropped, or blanked when the space is kept. *)
Definition dropped (n : nat) (body : string) : string :=
  if strip_space then EmptyString else (blanks n ++ blank body)%string.

Lemma dropped_cons n c body :
  single_token c = false ->
  dropped (n + 1) body = dropped n (String c body).
Proof.
  intros Hc. unfold dropped. destruct strip_space; [done|].
  assert (blank (String c body) = (" " ++ blank body)%string) as ->.
  { unfold single_token in Hc. apply orb_false_iff in Hc as [_ Hc]. cbn. by rewrite Hc. }
  rewrite <-blanks_app, <-str_app_assoc. done.
Qed.

Lemma str_length_snoc seg c : String.length (seg ++ String c "")%string = (String.length seg + 1)%nat.
Proof. by rewrite str_length_app. Qed.

(** A token inside a comment that does not end it. *)
Lemma comment_token st seg val rest :
  st = multi \/ st = single -> String.eqb val "*/" && in_multi st = false ->
  newline_token val && in_single st = false ->
  (let '(st', out, pending) := minify_step strip_space st seg val in (out ++ go st' pending rest)%string)
  = ((if strip_space then "" else blanks (String.length seg) ++ (if newline_token val then val else blanks (String.length val)))
     ++ go st EmptyString rest)%string.
Proof.
  intros Hst H1 H2. unfold minify_step.
  destruct Hst as [-> | ->]; cbn [in_string in_multi in_single negb orb andb] in *; rewrite ?andb_false_r, ?andb_true_r in *;
    cbn [negb]; rewrite ?H1, ?H2; cbn [andb negb orb in_multi in_single];
    destruct strip_space; cbn [negb]; destruct (newline_token val); rewrite ?str_app_nil_r; reflexivity.
Qed.

Lemma go_multi n body seg rest :
  (String.length body <= n)%nat -> multi_body body = true ->
  go multi seg (body ++ "*/" ++ rest) = (dropped (String.length seg) (body ++ "*/") ++ go code EmptyString rest)%string.
Proof.
  revert body seg. induction n as [|n IH]; intros [|c body] seg Hn Hb; cbn [String.length] in Hn; try lia.
  1,2: cbn [String.append]; rewrite scan_pair by done; unfold minify_step, dropped;
    destruct strip_space; [reflexivity|]; cbn; by rewrite <-str_app_assoc.
  cbn [String.append]. cbn [multi_body] in Hb. destruct (single_token c) eqn:Hc.
  - rewrite scan_single by done. rewrite comment_token; [|by left| |by rewrite andb_false_r].
    2:{ by apply single_token_cases in Hc as [->|[-> | ->]]. }
    rewrite IH by (done || lia). cbn [String.length]. unfold dropped. destruct strip_space; [done|].
    rewrite <-!str_app_assoc. f_equal. cbn [newline_token String.append blank blanks String.length].
    destruct (is_newline c); reflexivity.
  - destruct body as [|d body].
    + cbn [String.append]. rewrite scan_other; [|done|].
      2:{ unfold pair_token. apply negb_true_iff in Hb. rewrite Hb. cbn. by rewrite !andb_false_r. }
      change (String "*" (String "/" rest)) with ("" ++ "*/" ++ rest)%string.
      rewrite (IH EmptyString) by (done || (cbn; lia)). by rewrite str_length_snoc, (dropped_cons _ _ _ Hc).
    + cbn [String.append]. destruct (pair_token c d) eqn:Hpair.
      * apply andb_true_iff in Hb as [Hstar Hb]. apply negb_true_iff in Hstar. rewrite scan_pair by done.
        assert (newline_token (String c (String d "")) = false) as Hnt by done.
        rewrite comment_token; [|by left|cbn; by rewrite Hstar|by rewrite andb_false_r].
        rewrite Hnt. rewrite (IH body) by (done || (cbn in Hn; lia)).
        assert (is_newline d = false) as Hd by (apply pair_token_cases in Hpair as [[-> ->]|[[-> ->]|[-> ->]]]; done).
        assert (is_newline c = false) as Hcn by (unfold single_token in Hc; apply orb_false_iff in Hc; tauto).
        unfold dropped. destruct strip_space; [done|]. cbn [blank String.append String.length blanks].
        rewrite Hd, Hcn. by rewrite <-!str_app_assoc.
      * rewrite scan_other by done. change (String d (body ++ String "*" (String "/" rest))) with ((String d body) ++ "*/" ++ rest)%string.
        rewrite (IH (String d body)) by (done || lia). by rewrite str_length_snoc, (dropped_cons _ _ _ Hc).
Qed.

Lemma go_single n body seg c rest :
  (String.length body <= n)%nat -> str_all (fun d => negb (is_newline d)) body = true -> is_newline c = true ->
  go single seg (body ++ String c rest)
  = (dropped (String.length seg) body ++ (if strip_space then "" else String c "") ++ go code EmptyString rest)%string.
Proof.
  intros Hn Hb Hc. assert (single_token c = true) as Hst by (unfold single_token; rewrite Hc; by rewrite orb_true_r).
  revert body seg Hn Hb. induction n as [|n IH]; intros [|d body] seg Hn Hb; cbn [String.length] in Hn; try lia.
  1,2: cbn [String.append]; rewrite scan_single by done; apply newline_cases in Hc; unfold minify_step, dropped;
    destruct Hc as [-> | ->]; destruct strip_space; cbn; by rewrite ?str_app_nil_r, <-?str_app_assoc.
  cbn [str_all] in Hb. apply andb_true_iff in Hb as [Hd Hb]. apply negb_true_iff in Hd. cbn [String.append].
  destruct (single_token d) eqn:Hds.
  - assert (d = quote) as ->.
    { apply single_token_cases in Hds as [->|[-> | ->]]; [done|discriminate Hd|discriminate Hd]. }
    rewrite scan_single by done. rewrite comment_token; [|by right|done|done].
    rewrite (IH body) by (done || lia). unfold dropped. destruct strip_space; [done|].
    cbn [newline_token String.append blank blanks String.length]. rewrite Hd. by rewrite <-!str_app_assoc.
  - assert (exists e t, (body ++ String c rest)%string = String e t) as (e & t & Ht) by (destruct body as [|e body]; cbn; eauto).
    rewrite Ht. destruct (pair_token d e) eqn:Hpair.
    + rewrite scan_pair by done. destruct body as [|e' body]; cbn [String.append] in Ht; injection Ht as He Ht.
      { exfalso. subst e. apply pair_token_cases in Hpair as [[_ ->]|[[_ ->]|[_ ->]]]; discriminate Hc. }
      subst e' t. cbn [str_all] in Hb. apply andb_true_iff in Hb as [He Hb]. apply negb_true_iff in He.
      rewrite comment_token; [|by right|by rewrite andb_false_r|done].
      rewrite (IH body) by (done || (cbn in Hn; lia)). unfold dropped. destruct strip_space; [done|].
      cbn [newline_token String.append blank blanks String.length]. rewrite Hd, He. by rewrite <-!str_app_assoc.
    + rewrite scan_other by done. rewrite <-Ht, (IH body) by (done || lia). by rewrite str_length_snoc, (dropped_cons _ _ _ Hds).
Qed.

(** The quote that ends a string stays, whatever follows. *)
Lemma go_quote rest : go code DQ rest = (DQ ++ go code EmptyString rest)%string.
Proof.
  destruct (next_token rest) eqn:Hr.
  - rewrite (go_flush DQ) by (by rewrite Hr). unfold flush. by destruct strip_space.
  - by rewrite !scan_next_token, Hr.
Qed.

(** One piece; a token must follow a character for the scan to look at it. *)
Lemma go_piece p rest :
  piece_ok p = true -> is_plain p = false \/ next_token rest <> None ->
  go code EmptyString (render_piece p ++ rest) = (minified_piece strip_space p ++ go code EmptyString rest)%string.
Proof.
  intros Hp Hr. destruct p as [c|c|body|body|body c]; cbn [render_piece piece_ok minified_piece] in *.
  - destruct Hr as [Hr|Hr]; [done|].
    rewrite !andb_true_iff, !negb_true_iff in Hp. destruct Hp as [[Hc Hs] Ht]. cbn [String.append].
    destruct rest as [|d rest]; [done|]. rewrite scan_other; [|done|by apply pair_token_first; apply Ascii.eqb_neq].
    rewrite go_flush by done. f_equal. unfold flush. destruct strip_space; [|done]. cbn. by destruct (is_white c).
  - cbn [String.append]. rewrite scan_single by (unfold single_token; rewrite Hp; apply orb_true_r).
    apply newline_cases in Hp as [-> | ->]; unfold minify_step; destruct strip_space; reflexivity.
  - cbn [String.append]. rewrite scan_single by done.
    assert (minify_step strip_space code EmptyString (String quote "") = (in_str, EmptyString, DQ)) as ->
      by (unfold minify_step; destruct strip_space; reflexivity).
    rewrite <-str_app_assoc. change (DQ ++ rest)%string with (String quote rest).
    rewrite (go_string (String.length body) body false DQ) by done. rewrite go_quote.
    cbn [String.append]. rewrite <-!str_app_assoc. done.
  - cbn [String.append]. rewrite scan_pair by done.
    assert (minify_step strip_space code EmptyString "/*" = (multi, if strip_space then "" else "  ", EmptyString)%string) as ->
      by (unfold minify_step; destruct strip_space; reflexivity).
    rewrite <-str_app_assoc. rewrite (go_multi (String.length body)) by done. unfold dropped.
    destruct strip_space; [done|]. cbn. done.
  - cbn [String.append]. apply andb_true_iff in Hp as [Hb Hc]. rewrite scan_pair by done.
    assert (minify_step strip_space code EmptyString "//" = (single, if strip_space then "" else "  ", EmptyString)%string) as ->
      by (unfold minify_step; destruct strip_space; reflexivity).
    rewrite <-str_app_assoc. cbn [String.append]. rewrite (go_single (String.length body)) by done. unfold dropped.
    destruct strip_space; [done|]. cbn. by rewrite <-str_app_assoc.
Qed.

Lemma go_document doc rest :
  doc_ok doc = true -> next_token rest <> None ->
  go code EmptyString (render doc ++ rest) = (minified strip_space doc ++ go code EmptyString rest)%string.
Proof.
  intros Hdoc Hr. induction doc as [|p doc IH]; [done|]. cbn in Hdoc. apply andb_true_iff in Hdoc as [Hp Hdoc].
  unfold render, minified, flat in *. cbn [foldr].
  rewrite <-str_app_assoc. rewrite go_piece; [|done|right; by apply next_token_app].
  rewrite IH by done. by rewrite <-str_app_assoc.
Qed.

(** The text behind the last token is left as it is. *)
Lemma minify_document doc tail :
  doc_ok doc = true -> ends_in_token doc = true -> next_token tail = None ->
  json_minify strip_space (render doc ++ tail) = (minified strip_space doc ++ tail)%string.
Proof.
  intros Hdoc Hend Htail. rewrite json_minify_scan.
  assert (go code EmptyString tail = tail) as Hgo by (by rewrite scan_next_token, Htail).
  destruct doc as [|p doc _] using rev_ind; [exact Hgo|].
  unfold doc_ok in Hdoc. rewrite forallb_app in Hdoc. cbn in Hdoc. rewrite andb_true_r in Hdoc. apply andb_true_iff in Hdoc as [Hdoc Hp].
  unfold ends_in_token in Hend. rewrite last_snoc in Hend. apply negb_true_iff in Hend.
  unfold render, minified. rewrite !flat_snoc, <-!str_app_assoc.
  rewrite (go_document doc) by (done || by apply piece_token). unfold minified. rewrite go_piece by (done || by left).
  by rewrite Hgo.
Qed.
End Pieces.

(** A document as it is read: up to the last token, and the characters behind it. *)
Lemma document_parts doc :
  exists doc' tail, doc = doc' ++ map Plain tail /\ ends_in_token doc' = true.
Proof.
  induction doc as [|p doc (doc' & tail & -> & Hend)] using rev_ind; [by exists [], []|].
  destruct (is_plain p) eqn:Hp.
  - destruct p; try done. exists doc', (tail ++ [c]). by rewrite map_app, <-app_assoc.
  - exists (doc' ++ map Plain tail ++ [p]), []. rewrite app_nil_r, <-!app_assoc. split; [done|].
    unfold ends_in_token. by rewrite app_assoc, last_snoc, Hp.
Qed.

Lemma plain_tail chars tail :
  doc_ok (map Plain chars) = true -> next_token tail = None -> next_token (render (map Plain chars) ++ tail) = None.
Proof.
  intros Hok Ht. induction chars as [|c chars IH]; [done|]. cbn [map] in Hok. cbn in Hok. apply andb_true_iff in Hok as [Hc Hok].
  rewrite !andb_true_iff, !negb_true_iff in Hc. destruct Hc as [[Hs H1] H2].
  specialize (IH Hok). unfold render, flat in *. cbn [map foldr render_piece String.append next_token]. rewrite Hs.
  destruct (foldr _ _ _ ++ tail)%string as [|d s]; [done|].
  by rewrite pair_token_first, IH by (by apply Ascii.eqb_neq).
Qed.

(** ** What [json_minify] gives *)

(** C7: For every document, json_minify gives the text of its pieces: the strings as they
    are, quotes, slashes and stars in them included; the comments dropped, or blanked
    when the space is kept; the white space outside the strings dropped up to the last
    token, or kept. *)
Theorem json_minify_document strip_space doc tail :
  doc_ok doc = true -> ends_in_token doc = true -> next_token tail = None ->
  json_minify strip_space (render doc ++ tail) = (minified strip_space doc ++ tail)%string.
Proof. apply minify_document. Qed.

(** C24: With the space kept, a document keeps its layout: the result is as long, has the
    newlines at the same places, and every other character is the same or a space, so
    that lines and columns read on the result are those of the document. *)
Theorem json_minify_layout doc tail :
  doc_ok doc = true -> ends_in_token doc = true -> next_token tail = None ->
  same_layout (render doc ++ tail) (json_minify false (render doc ++ tail)) = true.
Proof.
  intros Hdoc Hend Ht. rewrite minify_document by done. apply same_layout_app; [|apply same_layout_refl].
  clear. induction doc as [|p doc IH]; [done|]. unfold render, minified, flat in *. cbn [foldr].
  apply same_layout_app; [apply piece_layout|apply IH].
Qed.

(** C25: Minifying a minified document changes nothing. *)
Theorem json_minify_idempotent doc tail :
  doc_ok doc = true -> ends_in_token doc = true -> next_token tail = None ->
  json_minify true (json_minify true (render doc ++ tail)) = json_minify true (render doc ++ tail).
Proof.
  intros Hdoc Hend Ht. rewrite (minify_document true doc) by done. rewrite minified_essential.
  assert (Forall essential (filter essential doc)) as Hess 
    by (apply Forall_forall; intros p Hp; by apply list_elem_of_filter, proj1 in Hp).
  apply doc_ok_filter in Hdoc. destruct (document_parts (filter essential doc)) as (doc' & chars & Hparts & Hend').
  rewrite Hparts in Hdoc, Hess |- *. apply Forall_app in Hess as [Hess _].
  unfold doc_ok in Hdoc. rewrite forallb_app in Hdoc. apply andb_true_iff in Hdoc as [Hdoc Hchars].
  assert (render (doc' ++ map Plain chars) = render doc' ++ render (map Plain chars))%string as -> by apply flat_app.
  rewrite <-str_app_assoc.
  rewrite (minify_document true doc') by (done || by apply plain_tail). rewrite minified_essential.
  by rewrite essential_filter.
Qed.

(** The document of the witnesses, [{] and a comment, a string with tokens in it, a
    value and a comment, and the text behind them. *)
Definition sample_doc : list piece :=
  [Plain "{"; Newline nl; MultiComment " the /* cost "; Plain " "; StrLit "a//b\\"; Plain ":"; Plain " "; Plain "1";
   SingleComment " one" nl]%char%string.

Lemma json_minify_document_witness :
  doc_ok sample_doc = true /\ json_minify true (render sample_doc ++ "}") = String "{" (String quote ("a//b\\" ++ DQ ++ ":1}")).
Proof. split; [reflexivity|]. by rewrite (json_minify_document true sample_doc "}"). Defined.

Lemma json_minify_layout_witness :
  ends_in_token sample_doc = true /\ same_layout (render sample_doc ++ "}") (json_minify false (render sample_doc ++ "}")) = true.
Proof. split; [reflexivity|]. by apply (json_minify_layout sample_doc "}"). Defined.

Lemma json_minify_idempotent_witness :
  ends_in_token sample_doc = true
  /\ json_minify true (json_minify true (render sample_doc ++ "}")) = json_minify true (render sample_doc ++ "}").
Proof. split; [reflexivity|]. by apply (json_minify_idempotent sample_doc "}"). Defined.

(** ** Documents it does not read so

    The text of a comment that the document ends in is left, the end of a comment is
    dropped outside the comments, [/*/] inside a comment does not end it, and the
    newline in a string is doubled when the space is kept. *)
Lemma json_minify_last_comment : json_minify true "{} // x" = "{} x"%string.
Proof. reflexivity. Qed.

Lemma json_minify_stray_end : json_minify true "{ */ }" = "{ }"%string.
Proof. reflexivity. Qed.

Lemma json_minify_slashed_end : json_minify true "/* x /*/ 1" = "/ 1"%string.
Proof. reflexivity. Qed.

Lemma json_minify_newline_in_string :
  json_minify false (String quote (String "a" (String nl (String "b" DQ))))
  = String quote (String "a" (String nl (String nl (String "b" DQ)))).
Proof. reflexivity. Qed.
