(* ===== verification/PySub.v ===== *)
(** * Substitutions of patterns of a fixed length

    [re.sub] of the [re] module on a pattern whose items each match one character, and
    [str.replace], its case of a literal; the replaced text as a relation; and when a
    pattern is absent from it.  Characters are code points below 256. *)

From S2P Require Import Prelude PyStr.

(** ** Substitution by a pattern of fixed length *)

(** An item of a pattern: a character, or [.], any character but a newline. *)
Inductive atom : Type := Chr (c : ascii) | Dot.

Definition accepts (a : atom) (c : ascii) : bool :=
  match a with Chr d => Ascii.eqb d c | Dot => negb (Ascii.eqb c nl) end.

Fixpoint chars (s : string) : list atom :=
  match s with EmptyString => [] | String c s' => Chr c :: chars s' end.

(** The pattern matches at the beginning of the text. *)
Fixpoint match_here (pat : list atom) (s : string) : bool :=
  match pat, s with
  | [], _ => true
  | a :: pat, String c s => accepts a c && match_here pat s
  | _ :: _, EmptyString => false
  end.

(** [re.sub(pat, repl, s)] for a non-empty pattern and a replacement without escapes;
    [skip] characters of the last match are still to be passed over. *)
Fixpoint re_sub_from (pat : list atom) (repl : string) (skip : nat) (s : string) : string :=
  match s with
  | EmptyString => EmptyString
  | String c s' =>
      match skip with
      | S skip => re_sub_from pat repl skip s'
      | O =>
          if match_here pat s
          then (repl ++ re_sub_from pat repl (pred (length pat)) s')%string
          else String c (re_sub_from pat repl O s')
      end
  end.
Definition re_sub (pat : list atom) (repl s : string) : string := re_sub_from pat repl O s.

(** ** The substitution, declaratively *)

(** [Sub pat repl s t]: [t] is [s] with its leftmost, non-overlapping matches replaced. *)
Inductive Sub (pat : list atom) (repl : string) : string -> string -> Prop :=
  | Sub_end : Sub pat repl EmptyString EmptyString
  | Sub_keep c s t : match_here pat (String c s) = false -> Sub pat repl s t -> Sub pat repl (String c s) (String c t)
  | Sub_match m s t :
      match_here pat m = true -> String.length m = length pat -> Sub pat repl s t -> Sub pat repl (m ++ s) (repl ++ t).

(** The pattern matches somewhere in the text. *)
Fixpoint occurs (pat : list atom) (s : string) : bool :=
  match_here pat s || match s with EmptyString => false | String _ s' => occurs pat s' end.

(** *** The substitution is the relation *)

Lemma match_here_split pat s :
  match_here pat s = true -> exists m r, s = (m ++ r)%string /\ String.length m = length pat /\ match_here pat m = true.
Proof.
  revert s. induction pat as [|a pat IH]; intros [|c s] H; try done; [by exists EmptyString, EmptyString|by exists EmptyString, (String c s)|].
  cbn in H. apply andb_true_iff in H as [Ha H]. destruct (IH _ H) as (m & r & -> & Hm & Hmm).
  exists (String c m), r. cbn. by rewrite Ha, Hm, Hmm.
Qed.

Lemma match_here_app pat m r : match_here pat m = true -> match_here pat (m ++ r) = true.
Proof.
  revert m. induction pat as [|a pat IH]; intros [|c m] H; try done. cbn in *.
  apply andb_true_iff in H as [-> H]. by apply IH.
Qed.

Lemma re_sub_from_skip pat repl m s : re_sub_from pat repl (String.length m) (m ++ s) = re_sub_from pat repl 0 s.
Proof. induction m as [|c m IH]; [by destruct s|]. apply IH. Qed.

Lemma re_sub_keep pat repl c s :
  match_here pat (String c s) = false -> re_sub pat repl (String c s) = String c (re_sub pat repl s).
Proof. unfold re_sub. intros H. cbn [re_sub_from]. by rewrite H. Qed.

Lemma re_sub_match pat repl m s :
  pat <> [] -> match_here pat m = true -> String.length m = length pat ->
  re_sub pat repl (m ++ s) = (repl ++ re_sub pat repl s)%string.
Proof.
  intros Hp Hm Hlen. apply (match_here_app _ _ s) in Hm. unfold re_sub.
  destruct m as [|c m]; [by destruct pat|]. cbn [String.append] in Hm |- *. cbn [re_sub_from]. rewrite Hm, <-Hlen.
  cbn [String.length pred]. by rewrite re_sub_from_skip.
Qed.

Lemma re_sub_Sub pat repl s : pat <> [] -> Sub pat repl s (re_sub pat repl s).
Proof.
  intros Hp. remember (String.length s) as n eqn:Hn. assert (String.length s <= n)%nat as Hlen by lia. clear Hn.
  revert s Hlen. induction n as [|n IH]; intros [|c s] Hlen; try (cbn in Hlen; lia); try apply Sub_end.
  destruct (match_here pat (String c s)) eqn:H.
  - destruct (match_here_split _ _ H) as (m & r & Hs & Hm & Hmm). rewrite Hs, re_sub_match by done.
    apply Sub_match; [done..|]. apply IH. apply (f_equal String.length) in Hs. rewrite str_length_app in Hs. cbn in Hs, Hlen.
    destruct pat; [done|]. cbn in Hm. lia.
  - rewrite re_sub_keep by done. apply Sub_keep; [done|]. apply IH. cbn in Hlen. lia.
Qed.

Lemma Sub_re_sub pat repl s t : pat <> [] -> Sub pat repl s t -> t = re_sub pat repl s.
Proof.
  intros Hp. induction 1 as [|c s t H _ IH|m s t Hm Hlen _ IH]; [done| |].
  - by rewrite re_sub_keep, <-IH.
  - by rewrite re_sub_match, <-IH.
Qed.

Lemma Sub_absent pat repl s : occurs pat s = false -> Sub pat repl s s.
Proof.
  induction s as [|c s IH]; intros H; [apply Sub_end|]. cbn [occurs] in H. apply orb_false_iff in H as [H1 H2].
  by apply Sub_keep; [|apply IH].
Qed.

Lemma re_sub_absent pat repl s : pat <> [] -> occurs pat s = false -> re_sub pat repl s = s.
Proof. intros Hp H. symmetry. apply Sub_re_sub; [done|]. by apply Sub_absent. Qed.

Lemma Sub_no_char pat repl c s t :
  has_char c repl = false -> has_char c s = false -> Sub pat repl s t -> has_char c t = false.
Proof.
  intros Hr Hs H. revert Hs. induction H as [|d s t _ _ IH|m s t _ _ _ IH]; [done| |].
  - rewrite !has_char_cons, !orb_false_iff. naive_solver.
  - rewrite !has_char_app, !orb_false_iff. naive_solver.
Qed.

(** *** Where a pattern can match in a substituted text *)

(** The pattern and the text differ at a place that both have. *)
Fixpoint clash (pat : list atom) (s : string) : bool :=
  match pat, s with
  | a :: pat, String c s => negb (accepts a c) || clash pat s
  | _, _ => false
  end.

(** Every non-empty end of the pattern clashes with the text, so that a match cannot
    run into it. *)
Fixpoint no_entry (pat : list atom) (s : string) : bool :=
  match pat with [] => true | _ :: pat' => clash pat s && no_entry pat' s end.
(** The pattern clashes with every non-empty end of the text, so that a match cannot
    begin in it. *)
Fixpoint no_start (pat : list atom) (s : string) : bool :=
  match s with EmptyString => true | String _ s' => clash pat s && no_start pat s' end.

Lemma clash_no_match pat s t : clash pat s = true -> match_here pat (s ++ t) = false.
Proof.
  revert s. induction pat as [|a pat IH]; intros [|c s] H; try done. cbn in *. apply orb_true_iff in H as [H|H].
  - apply negb_true_iff in H. by rewrite H.
  - rewrite IH by done. apply andb_false_r.
Qed.

Section Substituted.
Context (pat pat' : list atom) (repl : string).

(** What an end of [pat] matches in the substituted text, it matches in the text. *)
Lemma Sub_match_back s t tl :
  no_entry tl repl = true -> Sub pat' repl s t -> match_here tl t = true -> match_here tl s = true.
Proof.
  intros Hn H. revert tl Hn. induction H as [|c s t _ _ IH|m s t _ _ _ _]; intros tl Hn Ht.
  - done.
  - destruct tl as [|a tl]; [done|]. cbn in *. apply andb_true_iff in Hn as [_ Hn]. apply andb_true_iff in Ht as [-> Ht].
    by apply IH.
  - destruct tl as [|a tl]; [by destruct m|]. cbn [no_entry] in Hn. apply andb_true_iff in Hn as [Hn _].
    by rewrite clash_no_match in Ht.
Qed.

Lemma no_start_absent r t : no_start pat r = true -> occurs pat t = false -> occurs pat (r ++ t) = false.
Proof.
  intros Hr Ht. induction r as [|c r IH]; [done|]. cbn [no_start] in Hr. apply andb_true_iff in Hr as [Hc Hr].
  cbn [String.append occurs]. change (String c (r ++ t)) with (String c r ++ t)%string.
  rewrite clash_no_match by done. by apply IH.
Qed.

(** A pattern that cannot enter nor begin in the replacement is not in the substituted
    text, when it is the replaced one or was not in the text. *)
Lemma Sub_absent_after s t :
  pat <> [] -> no_entry pat repl = true -> no_start pat repl = true ->
  pat = pat' \/ occurs pat s = false -> Sub pat' repl s t -> occurs pat t = false.
Proof.
  intros Hp He Hs Hpat H. induction H as [|c s t Hc Hst IH|m s t Hm Hlen Hst IH].
  - cbn. by destruct pat.
  - cbn [occurs]. apply orb_false_iff. split.
    + destruct (match_here pat (String c t)) eqn:E; [|done].
      apply (Sub_match_back _ _ _ He (Sub_keep _ _ c s t Hc Hst)) in E.
      destruct Hpat as [->|Hpat]; [congruence|]. cbn [occurs] in Hpat. by rewrite E in Hpat.
    + apply IH. destruct Hpat as [->|Hpat]; [by left|right]. cbn [occurs] in Hpat. by apply orb_false_iff in Hpat as [_ Hpat].
  - apply no_start_absent; [done|]. apply IH. destruct Hpat as [->|Hpat]; [by left|right].
    clear -Hpat. induction m as [|c m IH]; [done|]. cbn [String.append occurs] in Hpat. apply orb_false_iff in Hpat as [_ Hpat]. by apply IH.
Qed.
End Substituted.

(** ** [str.replace] *)

(** [s.replace(old, new)] for a non-empty [old]. *)
Definition str_replace (old new s : string) : string := re_sub (chars old) new s.

(** A pattern that cannot match a newline replaces in each line. *)
Lemma match_here_line pat a b :
  Forall (fun x => accepts x nl = false) pat -> match_here pat (a ++ String nl b) = true -> match_here pat a = true.
Proof.
  intros Hp. revert a. induction Hp as [|x pat Hx Hp IH]; intros a H; [by destruct a|].
  destruct a as [|c a]; cbn [String.append match_here] in *; apply andb_true_iff in H as [H1 H2]; [congruence|].
  rewrite H1. by apply IH.
Qed.

Lemma Sub_line pat repl a b t u :
  Forall (fun x => accepts x nl = false) pat ->
  Sub pat repl a t -> Sub pat repl b u -> pat <> [] -> Sub pat repl (a ++ String nl b) (t ++ String nl u).
Proof.
  intros Hp Ha Hb Hne. induction Ha as [|c s t H _ IH|m s t Hm Hlen _ IH].
  - apply Sub_keep; [|done]. destruct pat as [|x pat]; [done|]. cbn. apply Forall_cons in Hp as [-> _]. done.
  - cbn [String.append]. apply Sub_keep; [|done]. apply not_true_iff_false. intros E.
    change (String c (s ++ String nl b)) with (String c s ++ String nl b)%string in E.
    apply (match_here_line _ _ _ Hp) in E. congruence.
  - rewrite <-!str_app_assoc. by apply Sub_match.
Qed.

Lemma re_sub_line pat repl a b :
  pat <> [] -> Forall (fun x => accepts x nl = false) pat ->
  re_sub pat repl (a ++ String nl b) = (re_sub pat repl a ++ String nl (re_sub pat repl b))%string.
Proof. intros Hne Hp. symmetry. apply Sub_re_sub; [done|]. apply Sub_line; auto using re_sub_Sub. Qed.
