(* ===== verification/StubPatch.v ===== *)
(** * The post-processing of the generated client stub (scripts/allow-null-return-in-json-rpc.py)

    The script rewrites, in the generated C++ header, the test of the answers of two
    calls, by two regular-expression substitutions. *)

From S2P Require Import Prelude PyStr PySub.

(** ** The script *)

Abbreviation path := (list string).

(** What the script reads and writes: the directories, and the files by their paths. *)
Record Tree : Type := MkTree { dirs : gset path; files : gmap path string }.

Definition path_exists (t : Tree) (p : path) : bool := bool_decide (p ∈ dirs t) || bool_decide (is_Some (files t !! p)).
(** Reading a directory fails with an [OSError]. *)
Definition read_text (t : Tree) (p : path) : result string :=
  _ ← ensure (negb (bool_decide (p ∈ dirs t))) OSError;
  content ← or_raise OSError (files t !! p);
  Ok (universal_newlines content).
Definition write_text (t : Tree) (p : path) (text : string) : result Tree :=
  _ ← ensure (negb (bool_decide (p ∈ dirs t))) OSError;
  Ok (MkTree (dirs t) (<[p := text]> (files t))).

Definition BITCOIN_CLIENT_STUB_FILE_SUFFIX : path :=
  ["generated-include-dir"; "generated"; "bitcoin_jsonrpc"; "BitcoinClientStub.h"]%string.

(** The text of the call up to the name of the tested value. *)
Definition call_text (rpc_method_name : string) : string :=
  ("this->CallMethod(" ++ DQ ++ rpc_method_name ++ DQ ++ ",p);" ++ NL ++ "            if (result")%string.

(** The two format strings; the names given to them have no special characters. *)
Definition to_replace (rpc_method_name : string) : list atom :=
  chars (call_text rpc_method_name) ++ Dot :: chars "isObject())".
Definition replacement (rpc_method_name : string) : string :=
  (call_text rpc_method_name ++ ".isObject() or result.isNull())")%string.

Definition allow_null_return_in_json_rpc (stub_file : path) (rpc_method_name : string) (t : Tree) : result Tree :=
  old_content ← read_text t stub_file;
  write_text t stub_file (re_sub (to_replace rpc_method_name) (replacement rpc_method_name) old_content).

Definition process_submitblock (stub_file : path) (t : Tree) : result Tree :=
  allow_null_return_in_json_rpc stub_file "submitblock" t.
Definition process_testblockvalidity (stub_file : path) (t : Tree) : result Tree :=
  allow_null_return_in_json_rpc stub_file "testblockvalidity" t.

(** The value of [--build-dir] on the command line, if it is there. *)
Definition parse_args (ROOT_DIRECTORY : path) (build_dir : option path) : path :=
  default (ROOT_DIRECTORY ++ ["build"%string]) build_dir.

Section Script.
Context (resolve : path -> path) (ROOT_DIRECTORY : path).

Definition stub_path (arg : option path) : path :=
  resolve (parse_args ROOT_DIRECTORY arg) ++ BITCOIN_CLIENT_STUB_FILE_SUFFIX.

Definition main (arg : option path) (t : Tree) : result Tree :=
  let build_dir := resolve (parse_args ROOT_DIRECTORY arg) in
  _ ← ensure (path_exists t build_dir) ValueError;
  let BITCOIN_CLIENT_STUB_FILE := build_dir ++ BITCOIN_CLIENT_STUB_FILE_SUFFIX in
  _ ← ensure (path_exists t BITCOIN_CLIENT_STUB_FILE) ValueError;
  t ← process_submitblock BITCOIN_CLIENT_STUB_FILE t;
  process_testblockvalidity BITCOIN_CLIENT_STUB_FILE t.

(** The script itself: every exception of [main] is an exit with code 1. *)
Definition script (arg : option path) (t : Tree) : result Tree :=
  py_except (main arg t) (fun _ => Raise (SystemExit 1)).
End Script.

(** ** The script on a header *)

Lemma to_replace_not_nil name : to_replace name <> [].
Proof. unfold to_replace. by destruct (chars (call_text name)). Qed.
#[export] Hint Resolve to_replace_not_nil : py.

(** The two substitutions, on a text. *)
Definition patched (s : string) : string :=
  re_sub (to_replace "testblockvalidity") (replacement "testblockvalidity")
    (re_sub (to_replace "submitblock") (replacement "submitblock") s).

Lemma patched_absent s name :
  name = "submitblock"%string \/ name = "testblockvalidity"%string -> occurs (to_replace name) (patched s) = false.
Proof.
  intros Hname. unfold patched. pose proof (re_sub_Sub (to_replace "submitblock") (replacement "submitblock") s) as H1.
  apply Sub_absent_after with (pat' := to_replace "testblockvalidity") (repl := replacement "testblockvalidity")
    (s := re_sub (to_replace "submitblock") (replacement "submitblock") s);
    [auto with py|destruct Hname as [-> | ->]; by vm_compute..| |apply re_sub_Sub; auto with py].
  destruct Hname as [-> | ->]; [right|by left].
  apply Sub_absent_after with (pat' := to_replace "submitblock") (repl := replacement "submitblock") (s := s);
    [auto with py|by vm_compute..|by left|apply H1; auto with py].
Qed.

Lemma patched_twice s : patched (patched s) = patched s.
Proof.
  assert (forall name, name = "submitblock"%string \/ name = "testblockvalidity"%string ->
            re_sub (to_replace name) (replacement name) (patched s) = patched s) as Hid.
  { intros name Hname. apply re_sub_absent; [auto with py|by apply patched_absent]. }
  unfold patched at 1. rewrite (Hid "submitblock"%string) by by left. by rewrite (Hid "testblockvalidity"%string) by by right.
Qed.

Lemma re_sub_no_cr name s :
  has_char cr (replacement name) = false -> has_char cr s = false ->
  has_char cr (re_sub (to_replace name) (replacement name) s) = false.
Proof.
  intros Hr Hs. apply (Sub_no_char (to_replace name) (replacement name) cr s); [done..|]. apply re_sub_Sub. auto with py.
Qed.

Lemma patched_no_cr s : has_char cr s = false -> has_char cr (patched s) = false.
Proof. intros Hs. by apply re_sub_no_cr, re_sub_no_cr. Qed.

Section Main.
Context (resolve : path -> path) (ROOT_DIRECTORY : path).

(** The stub can be read. *)
Definition has_stub (arg : option path) (t : Tree) : bool :=
  path_exists t (resolve (parse_args ROOT_DIRECTORY arg))
  && negb (bool_decide (stub_path resolve ROOT_DIRECTORY arg ∈ dirs t))
  && bool_decide (is_Some (files t !! stub_path resolve ROOT_DIRECTORY arg)).

Lemma script_result arg t :
  script resolve ROOT_DIRECTORY arg t =
  if has_stub arg t
  then Ok (MkTree (dirs t) (<[stub_path resolve ROOT_DIRECTORY arg
                              := patched (universal_newlines (default EmptyString (files t !! stub_path resolve ROOT_DIRECTORY arg)))]> (files t)))
  else Raise (SystemExit 1).
Proof.
  unfold script, main, has_stub. fold (stub_path resolve ROOT_DIRECTORY arg).
  destruct (path_exists t (resolve _)); [|done]. cbn [ensure mbind result_bind andb]. unfold path_exists.
  unfold process_submitblock, process_testblockvalidity, allow_null_return_in_json_rpc, read_text, write_text.
  destruct (bool_decide (_ ∈ dirs t)) eqn:Hd; cbn [orb negb ensure mbind result_bind andb]; [done|].
  destruct (files t !! stub_path resolve ROOT_DIRECTORY arg) as [content|]; [|done].
  cbn [or_raise mbind result_bind default dirs files]. rewrite Hd. cbn [negb ensure mbind result_bind].
  rewrite lookup_insert_eq. cbn [or_raise mbind result_bind]. cbn [py_except].
  rewrite insert_insert_eq. unfold patched. rewrite (universal_newlines_id (re_sub _ _ _)); [done|].
  apply re_sub_no_cr; [by vm_compute|apply universal_newlines_no_cr].
Qed.

(** C10: The script ends with code 1 exactly when there is no stub to read, and else writes
    the stub and nothing else: the text with the leftmost matches of the two patterns
    replaced, one after the other. *)
Theorem script_rewrites arg t :
  match script resolve ROOT_DIRECTORY arg t with
  | Ok t' =>
      exists content mid new,
        has_stub arg t = true /\ files t !! stub_path resolve ROOT_DIRECTORY arg = Some content
        /\ Sub (to_replace "submitblock") (replacement "submitblock") (universal_newlines content) mid
        /\ Sub (to_replace "testblockvalidity") (replacement "testblockvalidity") mid new
        /\ t' = MkTree (dirs t) (<[stub_path resolve ROOT_DIRECTORY arg := new]> (files t))
  | Raise e => e = SystemExit 1 /\ has_stub arg t = false
  end.
Proof.
  rewrite script_result. destruct (has_stub arg t) eqn:H; [|done].
  pose proof H as Hs. unfold has_stub in Hs. bool_hyps. match goal with Hx : is_Some _ |- _ => destruct Hx as [content Hc] end.
  exists content, (re_sub (to_replace "submitblock") (replacement "submitblock") (universal_newlines content)).
  eexists. rewrite Hc. split_and!; try done; apply re_sub_Sub; auto with py.
Qed.

(** C9: After the script, neither test of the answers is left in the stub, and running the
    script again changes nothing. *)
Theorem script_settles arg t t' :
  script resolve ROOT_DIRECTORY arg t = Ok t' ->
  (exists new, files t' !! stub_path resolve ROOT_DIRECTORY arg = Some new
               /\ occurs (to_replace "submitblock") new = false /\ occurs (to_replace "testblockvalidity") new = false)
  /\ script resolve ROOT_DIRECTORY arg t' = Ok t'.
Proof.
  rewrite !script_result. destruct (has_stub arg t) eqn:H; [|done]. intros [= <-]. cbn [files dirs].
  rewrite lookup_insert_eq. cbn [from_option id]. split.
  - eexists. split; [done|]. split; apply patched_absent; tauto.
  - assert (has_stub arg (MkTree (dirs t) (<[stub_path resolve ROOT_DIRECTORY arg
       := patched (universal_newlines (default EmptyString (files t !! stub_path resolve ROOT_DIRECTORY arg)))]> (files t))) = true) as ->.
    { unfold has_stub, path_exists in *. cbn [files dirs]. rewrite lookup_insert_eq. bool_hyps.
      rewrite !andb_true_iff, (bool_decide_eq_true (is_Some (Some _))). split_and!; try done.
      match goal with Hx : _ || _ = true |- _ => rewrite orb_true_iff in Hx |- *; destruct Hx as [Hx|Hx]; [by left|right] end.
      rewrite bool_decide_eq_true, lookup_insert_is_Some' in *. tauto. }
    by rewrite insert_insert_eq, (universal_newlines_id (patched _)), patched_twice by apply patched_no_cr, universal_newlines_no_cr.
Qed.
End Main.

(** A header with the test of one of the calls. *)
Definition stub_text : string :=
  ("            Json::Value result = this->CallMethod(" ++ DQ ++ "submitblock" ++ DQ ++ ",p);" ++ NL
   ++ "            if (result.isObject())" ++ NL ++ "                return result;" ++ NL)%string.
Definition stub_tree : Tree :=
  MkTree {[ ["build"%string] ]} {[ "build"%string :: BITCOIN_CLIENT_STUB_FILE_SUFFIX := stub_text ]}.

Example script_example :
  (fun t => files t !! ("build"%string :: BITCOIN_CLIENT_STUB_FILE_SUFFIX)) <$> script id [] None stub_tree
  = Ok (Some ("            Json::Value result = this->CallMethod(" ++ DQ ++ "submitblock" ++ DQ ++ ",p);" ++ NL
   ++ "            if (result.isObject() or result.isNull())" ++ NL ++ "                return result;" ++ NL)%string).
Proof. by vm_compute. Qed.

Definition patched_tree : Tree := match script id [] None stub_tree with Ok t => t | Raise _ => stub_tree end.

Lemma script_settles_witness :
  script id [] None stub_tree = Ok patched_tree /\ script id [] None patched_tree = Ok patched_tree.
Proof.
  assert (script id [] None stub_tree = Ok patched_tree) as H.
  { assert (is_ok (script id [] None stub_tree) = true) as H by (vm_compute; reflexivity).
    unfold patched_tree. by destruct (script id [] None stub_tree). }
  split; [exact H|]. exact (proj2 (script_settles id [] None stub_tree patched_tree H)).
Defined.
