(* ===== verification/CodeConsistency.v ===== *)
(** * Is the copied code that of the other repository? (scripts/check-code-consistency.py)

    The script compares 25 lines of a file of the repository with 25 lines of the file
    it was copied from, fetched over the network: [http_get] gives the text of a page,
    or the exception of [urllib]. *)

From S2P Require Import Prelude PyStr PySub Naming.

Abbreviation path := (list string).

Definition THIRD_PARTY_DIR (ROOT_DIR : path) : path := ROOT_DIR ++ ["src"; "grind"]%string.
Definition THIRD_PARTY_GRIND_CPP (ROOT_DIR : path) : path := THIRD_PARTY_DIR ROOT_DIR ++ ["grind.cpp"]%string.
Definition BITCOIN_CORE_BITCOIN_UTIL_CPP_URL : string :=
  "https://raw.githubusercontent.com/bitcoin/bitcoin/23.x/src/bitcoin-util.cpp".

(** [s.splitlines()[offset: offset + 25]] *)
Definition grind_task_lines (offset : nat) (s : string) : list string := take 25 (drop offset (splitlines s)).

Definition our_grind_task_offset : nat := 12.
Definition their_grind_task_offset : nat := 85.

Definition our_grind_task_function (our_file : string) : string :=
  join NL (grind_task_lines our_grind_task_offset our_file).
Definition their_grind_task_function (their_file : string) : string :=
  str_replace "static " "" (join NL (grind_task_lines their_grind_task_offset their_file)).

Section Script.
Context (http_get : string -> result string) (files : gmap path string) (ROOT_DIR : path).

Definition check_grind : result unit :=
  their_file ← http_get BITCOIN_CORE_BITCOIN_UTIL_CPP_URL;
  our_file ← universal_newlines <$> or_raise OSError (files !! THIRD_PARTY_GRIND_CPP ROOT_DIR);
  py_assert (String.eqb (our_grind_task_function our_file) (their_grind_task_function their_file)).

Definition main : result unit := check_grind.
End Script.

(** ** Lines *)

(** A line without its [static]s. *)
Definition no_static (line : string) : string := str_replace "static " "" line.

Lemma splitlines_no_nl_go n cur s :
  (String.length s <= n)%nat -> has_char nl cur = false ->
  Forall (fun l => has_char nl l = false) (splitlines_go cur s).
Proof.
  assert (forall a b, has_char nl a = false -> has_char nl b = false -> has_char nl (str_rev_app a b) = false) as Hrev.
  { intros a. induction a as [|c a IH]; intros b Ha Hb; [done|]. rewrite has_char_cons, orb_false_iff in Ha.
    cbn. apply IH; [tauto|]. rewrite has_char_cons. by rewrite (proj1 Ha), Hb. }
  revert cur s. induction n as [|n IH]; intros cur [|c s] Hn Hcur; cbn in Hn; try lia; cbn [splitlines_go].
  1,2: destruct cur; repeat constructor; by apply Hrev.
  destruct (is_line_break c) eqn:Hc.
  - constructor; [by apply Hrev|]. destruct s as [|d s]; [done|]. cbn in Hn.
    destruct (Ascii.eqb c cr && Ascii.eqb d nl); apply IH; cbn; lia || done.
  - apply IH; [lia|]. rewrite has_char_cons, Hcur, orb_false_r. destruct (Ascii.eqb_spec nl c) as [<-|]; [discriminate Hc|done].
Qed.

Lemma grind_task_lines_no_nl offset s : Forall (fun l => has_char nl l = false) (grind_task_lines offset s).
Proof. unfold grind_task_lines. by apply Forall_take, Forall_drop, (splitlines_no_nl_go (String.length s)). Qed.

Lemma no_static_no_nl l : has_char nl l = false -> has_char nl (no_static l) = false.
Proof. intros H. by apply (Sub_no_char (chars "static ") "" nl l), re_sub_Sub. Qed.

Lemma no_static_join ls : str_replace "static " "" (join NL ls) = join NL (map no_static ls).
Proof.
  induction ls as [|l ls IH]; [done|]. destruct ls as [|k ls]; [done|].
  change (join NL (l :: k :: ls)) with (l ++ String nl (join NL (k :: ls)))%string. unfold str_replace in *.
  rewrite re_sub_line; [by rewrite IH|done|]. by repeat constructor.
Qed.

(** The text of no line is that of an empty line. *)
Definition at_least_one (ls : list string) : list string := match ls with [] => [EmptyString] | _ => ls end.

Lemma line_split a b a' b' :
  has_char nl a = false -> has_char nl a' = false -> (a ++ String nl b)%string = (a' ++ String nl b')%string -> a = a' /\ b = b'.
Proof.
  revert a'. induction a as [|c a IH]; intros [|c' a'] Ha Ha' H; cbn in H; rewrite ?has_char_cons, ?orb_false_iff in *.
  - by injection H.
  - injection H as <- _. by destruct Ha'.
  - injection H as -> _. by destruct Ha.
  - injection H as <- H. apply IH in H as [-> ->]; tauto.
Qed.

Lemma join_at_least_one ls : join NL ls = join NL (at_least_one ls).
Proof. by destruct ls. Qed.

Lemma join_inj_nonempty l ls k ks :
  Forall (fun l => has_char nl l = false) (l :: ls) -> Forall (fun l => has_char nl l = false) (k :: ks) ->
  join NL (l :: ls) = join NL (k :: ks) -> l :: ls = k :: ks.
Proof.
  revert l k ks. induction ls as [|l' ls IH]; intros l k [|k' ks] Hl Hk H; apply Forall_cons in Hl as [Hl Hls]; apply Forall_cons in Hk as [Hk Hks].
  - cbn in H. congruence.
  - cbn [join] in H. subst l. rewrite has_char_app in Hl. cbn in Hl. by rewrite orb_true_r in Hl.
  - cbn [join] in H. subst k. rewrite has_char_app in Hk. cbn in Hk. by rewrite orb_true_r in Hk.
  - change (l ++ String nl (join NL (l' :: ls)) = k ++ String nl (join NL (k' :: ks)))%string in H.
    apply line_split in H as [-> H]; [|done..]. f_equal. by apply IH.
Qed.

Lemma join_inj ls ks :
  Forall (fun l => has_char nl l = false) ls -> Forall (fun l => has_char nl l = false) ks ->
  join NL ls = join NL ks <-> at_least_one ls = at_least_one ks.
Proof.
  intros Hl Hk. rewrite (join_at_least_one ls), (join_at_least_one ks). split; [|congruence].
  destruct ls, ks; cbn [at_least_one]; intros H; apply join_inj_nonempty in H; auto.
Qed.

(** ** What the check says *)

(** C20: The script succeeds exactly when both files can be read and their 25 lines are the
    same one by one, those of the original without [static]; it fails with an
    AssertionError when they differ. *)
Theorem main_compares_lines http_get files ROOT_DIR their_file our_bytes :
  http_get BITCOIN_CORE_BITCOIN_UTIL_CPP_URL = Ok their_file ->
  files !! THIRD_PARTY_GRIND_CPP ROOT_DIR = Some our_bytes ->
  main http_get files ROOT_DIR =
  if decide (at_least_one (grind_task_lines our_grind_task_offset (universal_newlines our_bytes))
             = at_least_one (map no_static (grind_task_lines their_grind_task_offset their_file)))
  then Ok tt else Raise AssertionError.
Proof.
  intros Ht Ho. unfold main, check_grind. rewrite Ht, Ho. cbn [mbind result_bind or_raise fmap result_fmap].
  unfold our_grind_task_function, their_grind_task_function. rewrite no_static_join.
  match goal with |- context [decide ?P] => set (eq_lines := P) end.
  match goal with |- context [String.eqb ?a ?b] => assert (a = b <-> eq_lines) as Hiff end.
  { apply join_inj; [apply grind_task_lines_no_nl|]. apply Forall_map. eapply Forall_impl; [apply grind_task_lines_no_nl|].
    apply no_static_no_nl. }
  match goal with |- context [String.eqb ?a ?b] => destruct (String.eqb_spec a b) end; destruct (decide eq_lines); try done; tauto.
Qed.

(** The lines of two files that agree on the compared lines. *)
Definition our_sample : string :=
  foldr (fun r s => r ++ String nl s)%string EmptyString (repeat "//"%string 12 ++ ["{"; "    arith_uint256 target;"; "}"]%string).
Definition their_sample : string :=
  foldr (fun r s => r ++ String nl s)%string EmptyString
    (repeat "//"%string 85 ++ ["{"; "    static arith_uint256 target;"; "}"]%string).
Definition sample_files : gmap path string := {[ ["src"; "grind"; "grind.cpp"]%string := our_sample ]}.

Lemma main_compares_lines_witness :
  main (fun _ => Ok their_sample) sample_files [] = Ok tt.
Proof. rewrite (main_compares_lines _ _ _ their_sample our_sample) by (vm_compute; reflexivity). by vm_compute. Defined.

(** ** What it does not say

    Files that end before the compared lines are the same for the script, and so are two
    files that differ outside of them. *)
Lemma short_files_pass http_get files ROOT_DIR their_file our_bytes :
  http_get BITCOIN_CORE_BITCOIN_UTIL_CPP_URL = Ok their_file ->
  files !! THIRD_PARTY_GRIND_CPP ROOT_DIR = Some our_bytes ->
  (length (splitlines (universal_newlines our_bytes)) <= our_grind_task_offset)%nat ->
  (length (splitlines their_file) <= their_grind_task_offset)%nat ->
  main http_get files ROOT_DIR = Ok tt.
Proof.
  intros Ht Ho Hours Htheirs. unfold main, check_grind. rewrite Ht, Ho. cbn [mbind result_bind or_raise fmap result_fmap].
  unfold our_grind_task_function, their_grind_task_function, grind_task_lines. by rewrite !drop_ge.
Qed.

(** Without the file at the path the script reads, it fails: the repository keeps the
    copy under [src/blockchain]. *)
Definition repository_files : gmap path string := {[ ["src"; "blockchain"; "grind.cpp"]%string := our_sample ]}.

Lemma copy_moved : main (fun _ => Ok their_sample) repository_files [] = Raise OSError.
Proof. by vm_compute. Qed.
