(* ===== verification/Engine.v ===== *)
(** * The engine of the replica: its state and its auxiliary predicates

    Model of engine/fbft-replica-engine.pl up to its actions (EngineActions.v).  The
    dynamic predicates that hold several facts are the constructors of [Fact], without
    the identifier of the replica, and the database is the list of the facts in the
    order of their assertion; the predicates that hold one fact are fields of [State].
    A goal with unbound arguments is the list of its solutions, in the order of Prolog. *)

From S2P Require Import Prelude PyFloat.

(** ** Numbers: an integer or a float, as [Base_timeout] *)

Inductive num : Type :=
  | NInt (z : Z)
  | NFlt (x : float).

#[global] Instance num_eq_dec : EqDecision num.
Proof. solve_decision. Defined.

(** The number in units of the floats, for comparisons. *)
Definition num_units (a : num) : Z :=
  match a with NInt z => z * one | NFlt x => x end.

(** [Target_block_time/2]: exact on an even integer, a float otherwise. *)
Definition half (z : Z) : num :=
  if Z.even z then NInt (z / 2) else NFlt (round_frac (z * one) 2).

(** [K * X], the integer [K] being made a float when [X] is one. *)
Definition scale (k : Z) (a : num) : num :=
  match a with NInt z => NInt (k * z) | NFlt x => NFlt (fmul (of_int k) x) end.

(** [floor((Csize-1)/3)]. *)
Definition floor_third (z : Z) : Z :=
  if z mod 3 =? 0 then z / 3 else ffloor (round_frac (z * one) 3).

(** ** The facts *)

Definition Nu : Type := list (Z * string).
(** [N, Req_digest, Associated_pre_prepare_data]. *)
Definition Chi : Type := list (Z * string * string).
(** [N, Req_digest, V]. *)
Definition PSet : Type := list (Z * string * Z).
(** [N, Req_digest, Associated_pre_prepare_data, V]. *)
Definition QSet : Type := list (Z * string * string * Z).

Inductive Fact : Type :=
  | checkpoint (n : Z) (state_val : string) (last_rep_t : Z)
  | msg_log_request (req_digest : string) (req_timestamp : Z)
  | msg_log_pre_prepare (v n : Z) (req_digest data : string) (sender_id : Z) (sender_sig : string)
  | msg_out_pre_prepare (v n : Z) (req_digest data : string)
  | msg_log_prepare (v n : Z) (req_digest : string) (sender_id : Z) (sender_sig : string)
  | msg_out_prepare (v n : Z) (req_digest : string)
  | msg_log_commit (v n : Z) (data : string) (sender_id : Z) (sender_sig : string)
  | msg_out_commit (v n : Z) (data : string)
  | msg_log_commit_view_recovery (v n : Z) (sender_id : Z)
  | msg_log_view_change (vc_digest : string) (v hi : Z) (c : string) (p : PSet) (q : QSet)
      (sender_id : Z) (sender_sig : string)
  | msg_out_view_change (v hi : Z) (c : string) (p : PSet) (q : QSet)
  | msg_log_new_view (v : Z) (nu : Nu) (chi : Chi) (sender_sig : string)
  | msg_out_new_view (v : Z) (nu : Nu) (chi : Chi)
  | view_change_Pi (n : Z) (req_digest : string) (v : Z)
  | view_change_Qi (n : Z) (req_digest data : string) (v : Z)
  | roast_active (v n : Z) (req_digest : string)
  | roast_responsive_signer (signer : Z)
  | roast_malicious_signer (signer : Z)
  | roast_latest_pre_signature_share (signer : Z) (pre_signature_share : string)
  | roast_session_counter (counter : Z)
  | roast_signers_sid (signer sid : Z)
  | roast_signature_session (sid : Z) (signers : list Z) (pre_signature : string)
      (signature_shares : list (option string))
  | msg_out_roast_pre_signature (signers : list Z) (pre_signature : string)
  | msg_out_roast_signature_share (signature_share next_pre_signature_share : string).

#[global] Instance fact_eq_dec : EqDecision Fact.
Proof. solve_decision. Defined.

(** ** The state of a replica *)

Record State : Type := mkState {
  view : Z;
  active_view : bool;
  timeout : num;
  val : string;
  last_rep : Z;
  last_exec : Z;
  seqno : Z;
  db : list Fact
}.

(** The identifier of the replica and the global variables of [init]. *)
Record Config : Type := {
  replica_id : Z;
  cluster_size : Z;
  target_block_time : Z
}.

Definition request_buffer_len : Z := 1.

Definition with_db (st : State) (l : list Fact) : State :=
  mkState (view st) (active_view st) (timeout st) (val st) (last_rep st) (last_exec st) (seqno st) l.

(** ** The database *)

(** Assert a fact only once. *)
Definition assertz_once (f : Fact) (l : list Fact) : list Fact :=
  if decide (f ∈ l) then l else l ++ [f].

Definition retractall (q : Fact -> bool) (l : list Fact) : list Fact :=
  filter (fun f => q f = false) l.

Definition add_fact (f : Fact) (st : State) : State := with_db st (assertz_once f (db st)).
Definition retract (q : Fact -> bool) (st : State) : State := with_db st (retractall q (db st)).

(** [findall] on one predicate: [q] selects its facts. *)
Definition findall {A} (q : Fact -> option A) (st : State) : list A := omap q (db st).

(** [min_list], [max_list]: they fail on an empty list. *)
Definition min_list (l : list Z) : option Z :=
  match l with [] => None | x :: xs => Some (foldl Z.min x xs) end.
Definition max_list (l : list Z) : option Z :=
  match l with [] => None | x :: xs => Some (foldl Z.max x xs) end.

(** The solutions of the goals on one predicate. *)
Definition checkpoints : State -> list (Z * string * Z) :=
  findall (fun f => match f with checkpoint n c t => Some (n, c, t) | _ => None end).
Definition requests : State -> list (string * Z) :=
  findall (fun f => match f with msg_log_request d t => Some (d, t) | _ => None end).
Definition pre_prepares : State -> list (Z * Z * string * string * Z) :=
  findall (fun f => match f with msg_log_pre_prepare v n d b k _ => Some (v, n, d, b, k) | _ => None end).
(** The senders of the prepares of (V, N, Req_digest), one by fact. *)
Definition prepare_senders (v n : Z) (d : string) : State -> list Z :=
  findall (fun f => match f with
    | msg_log_prepare v' n' d' k _ => if bool_decide ((v', n', d') = (v, n, d)) then Some k else None
    | _ => None end).
(** The senders and data of the commits of (V, N), one by fact. *)
Definition commits (v n : Z) : State -> list (Z * string) :=
  findall (fun f => match f with
    | msg_log_commit v' n' b k _ => if bool_decide ((v', n') = (v, n)) then Some (k, b) else None
    | _ => None end).
Definition recoveries : State -> list (Z * Z * Z) :=
  findall (fun f => match f with msg_log_commit_view_recovery v n k => Some (v, n, k) | _ => None end).
Definition view_changes : State -> list (string * Z * Z * string * PSet * QSet * Z) :=
  findall (fun f => match f with msg_log_view_change dg v hi c p q k _ => Some (dg, v, hi, c, p, q, k) | _ => None end).
Definition new_views : State -> list (Z * Nu * Chi) :=
  findall (fun f => match f with msg_log_new_view v nu chi _ => Some (v, nu, chi) | _ => None end).
Definition Pi_entries : State -> list (Z * string * Z) :=
  findall (fun f => match f with view_change_Pi n d v => Some (n, d, v) | _ => None end).
Definition Qi_entries : State -> list (Z * string * string * Z) :=
  findall (fun f => match f with view_change_Qi n d b v => Some (n, d, b, v) | _ => None end).

Definition is_Pi (f : Fact) : bool := match f with view_change_Pi _ _ _ => true | _ => false end.
Definition is_Qi (f : Fact) : bool := match f with view_change_Qi _ _ _ _ => true | _ => false end.

(** ** Auxiliary predicates 0 to 8 *)

Section Engine.
Context (c : Config).

Definition quorum : Z := 2 * floor_third (cluster_size c - 1) + 1.
Definition quorum_prepare : Z := quorum - 1.
Definition primary (v : Z) : Z := v mod cluster_size c.

(** The minimum of the checkpoints. *)
Definition get_h (st : State) : option Z :=
  min_list ((fun '(n, _, _) => n) <$> checkpoints st).

Definition in_w (n : Z) (st : State) : bool :=
  match get_h st with
  | Some h => (n - h <=? request_buffer_len) && (0 <? n - h)
  | None => false
  end.

Definition in_wv (v n : Z) (st : State) : bool := in_w n st && (v =? view st).

(** The solutions (Req_digest, V, N) of [pre_prepared]: its clauses in order. *)
Definition pre_prepared_all (st : State) : list (string * Z * Z) :=
  ((fun '(n, d, _, v) => (d, v, n)) <$> Qi_entries st) ++
  ('(d, _) ← requests st;
   '(v, n, d', _, k) ← pre_prepares st;
   if bool_decide (d' = d) && (k =? primary v) then [(d, v, n)] else []).

Definition pre_prepared (d : string) (v n : Z) (st : State) : bool :=
  bool_decide ((d, v, n) ∈ pre_prepared_all st).

(** The second clause of [prepared], and the list of both. *)
Definition prepare_quorum (d : string) (v n : Z) (st : State) : bool :=
  quorum_prepare <=? Z.of_nat (length (prepare_senders v n d st)).

Definition prepared_all (st : State) : list (string * Z * Z) :=
  ((fun '(n, d, v) => (d, v, n)) <$> Pi_entries st) ++
  filter (fun '(d, v, n) => prepare_quorum d v n st = true) (pre_prepared_all st).

Definition prepared (d : string) (v n : Z) (st : State) : bool :=
  bool_decide ((d, v, n) ∈ prepared_all st).

Definition commit_quorum (v n : Z) (st : State) : bool :=
  quorum <=? Z.of_nat (length (commits v n st)).

Definition committed_all (st : State) : list (string * Z * Z) :=
  filter (fun '(_, v, n) => commit_quorum v n st = true) (prepared_all st).

Definition committed (d : string) (v n : Z) (st : State) : bool :=
  bool_decide ((d, v, n) ∈ committed_all st).

Definition correct_view_change (v h : Z) (p : PSet) (q : QSet) : bool :=
  let ok n v1 := (v1 <? v) && (h <? n) && (n <=? h + request_buffer_len) in
  forallb (fun '(n, _, v1) => ok n v1) p && forallb (fun '(n, _, _, v1) => ok n v1) q.

(** ** The sets of the view changes *)

(** For each (N, M, V1) prepared and not prepared in a higher view. *)
Definition update_view_change_Pi (st : State) : State :=
  let st1 := retract is_Pi st in
  let sols := prepared_all st1 in
  foldl (fun s '(m, v1, n) =>
    if existsb (fun '(_, v2, n2) => (v1 <? v2) && (n2 =? n)) sols then s
    else add_fact (view_change_Pi n m v1) s) st1 sols.

Definition update_view_change_Qi (st : State) : State :=
  let st1 := retract is_Qi st in
  let sols := pre_prepared_all st1 in
  foldl (fun s '(m, v1, n) =>
    if existsb (fun '(m2, v2, n2) => bool_decide (m2 = m) && (v1 <? v2) && (n2 =? n)) sols then s
    else foldl (fun s' '(v', n', m', b, k) =>
      if bool_decide ((v', n', m', k) = (v1, n, m, primary v1))
      then add_fact (view_change_Qi n m b v1) s' else s') s (pre_prepares st1)) st1 sols.

(** ** Auxiliary predicates 10 to 12 *)

(** The solutions [J, D] of [correct_nu_element]: its last goal always succeeds. *)
Definition correct_nu_elements (st : State) : Nu :=
  (fun '(dg, _, _, _, _, _, k) => (k, dg)) <$> view_changes st.

(** [sort/2] on such pairs: the standard order of terms, without duplicates. *)
Definition nu_le (a b : Z * string) : bool :=
  (a.1 <? b.1) || ((a.1 =? b.1) && (String.leb a.2 b.2)).

Fixpoint nu_insert (a : Z * string) (l : Nu) : Nu :=
  match l with
  | [] => [a]
  | b :: k => if bool_decide (a = b) then l else if nu_le a b then a :: l else b :: nu_insert a k
  end.

Definition nu_sort (l : Nu) : Nu := foldr nu_insert [] l.

Definition correct_nu_once (st : State) : option Nu :=
  let l := correct_nu_elements st in
  if quorum <=? Z.of_nat (length l) then Some (nu_sort l) else None.

Fixpoint subsets {A} (l : list A) : list (list A) :=
  match l with
  | [] => [[]]
  | x :: k => ((x ::.) <$> subsets k) ++ subsets k
  end.

Definition correct_nu_all (nu : Nu) (st : State) : bool :=
  existsb (fun l => (quorum <=? Z.of_nat (length l)) && bool_decide (nu_sort l = nu))
    (subsets (correct_nu_elements st)).

(** The view changes of the log with a digest of [Nu]: their Hi, C, P and Q. *)
Definition nu_vset (nu : Nu) (st : State) : list (Z * string * PSet * QSet) :=
  '(_, d) ← nu;
  '(dg, _, hi, ck, p, q, _) ← view_changes st;
  if bool_decide (dg = d) then [(hi, ck, p, q)] else [].

(** CASE1: the solutions (Req_digest, data) for the sequence number [n]. *)
Definition chi_case1 (vset : list (Z * string * PSet * QSet)) (n : Z) : list (string * string) :=
  '(_, _, p, _) ← vset;
  '(_, _, _, q) ← vset;
  '(n1, d1, v1) ← p;
  '(n2, d2, b, v2) ← q;
  if bool_decide ((n1, n2, d2, v2) = (n, n, d1, v1)) &&
     forallb (fun '(n', d', v') => negb (n' =? n) || (v' <? v1) || ((v' =? v1) && bool_decide (d' = d1))) p
  then [(d1, b)] else [].

(** [once]: the first solution of CASE1, otherwise "null" with unbound data. *)
Definition chi_entry (vset : list (Z * string * PSet * QSet)) (n : Z) : Z * string * option string :=
  match chi_case1 vset n with
  | (d, b) :: _ => (n, d, Some b)
  | [] => (n, "null", None)
  end.

Definition correct_chi (nu : Nu) (st : State) : option (list (Z * string * option string)) :=
  let vset := nu_vset nu st in
  if quorum <=? Z.of_nat (length vset) then
    min_s ← min_list ((fun '(hi, _, _, _) => hi) <$> vset);
    let ns := '(_, _, p, _) ← vset; (fun '(n, _, _) => n) <$> p in
    let max_s := default min_s (max_list ns) in
    Some (chi_entry vset <$> seqZ (min_s + 1) (max_s - min_s))
  else None.

(** A given [Chi] unifies with the computed one. *)
Fixpoint chi_instance (chi : Chi) (l : list (Z * string * option string)) : bool :=
  match chi, l with
  | [], [] => true
  | (n, d, b) :: chi', (n', d', b') :: l' =>
      bool_decide ((n, d) = (n', d')) && (match b' with None => true | Some x => bool_decide (x = b) end) &&
      chi_instance chi' l'
  | _, _ => false
  end.

(** The solutions (Nu, Chi). *)
Definition correct_new_views (st : State) : list (Nu * Chi) :=
  '(v, nu, chi) ← new_views st;
  if (v =? view st) && correct_nu_all nu st &&
     (match correct_chi nu st with Some l => chi_instance chi l | None => false end)
  then [(nu, chi)] else [].

End Engine.
