(* ===== verification/EngineActions.v ===== *)
(** * The actions of the replica

    Model of the actions of engine/fbft-replica-engine.pl and of the C++ classes of
    src/fbft/actions that call them.  [pre_ACTION] gives the solutions of the
    precondition, [apply_ACTION] the new state; a goal that fails is [None], and as each
    effect is a transaction a failing action leaves the state as it was.  What the C++
    asks of the wallet and of bitcoin is the record [Wallet]. *)

From S2P Require Import Prelude PyFloat Engine.

(** What the actions ask of the wallet and of the blockchain, at the time of the step. *)
Record Wallet : Type := {
  GenerateBlock : Z -> option string;
  TestBlockValidity : Z -> string -> bool;
  block_time : string -> Z;
  GetHash : string -> string;
  GetPreSignatureShare : string;
  GetSignatureShare : list Z -> string -> string -> string;
  FinalizeBlock : string -> string -> list string -> option string
}.

(** The messages, without their signature. *)
Inductive Msg : Type :=
  | PrePrepare (v n : Z) (req_digest data : string)
  | Prepare (v n : Z) (req_digest : string)
  | Commit (v n : Z) (data : string)
  | ViewChange (v hi : Z) (c : string) (p : PSet) (q : QSet)
  | NewView (v : Z) (nu : Nu) (chi : Chi)
  | RoastPreSignature (signers : list Z) (pre_signature : string)
  | RoastSignatureShare (signature_share next_pre_signature_share : string).

#[global] Instance msg_eq_dec : EqDecision Msg.
Proof. solve_decision. Defined.

(** The actions that depend on the state only, with the arguments C++ reads. *)
Inductive Action : Type :=
  | EXECUTE (d : string) (v n : Z)
  | SEND_COMMIT (d : string) (v n : Z)
  | SEND_PREPARE (d : string) (v n : Z)
  | SEND_PRE_PREPARE (d : string) (v n : Z)
  | SEND_VIEW_CHANGE (v : Z)
  | RECOVER_VIEW (v : Z)
  | SEND_NEW_VIEW (nu : Nu) (chi : Chi)
  | PROCESS_NEW_VIEW (hi : Z) (nu : Nu) (chi : Chi)
  | ROAST_INIT (d : string) (v n : Z).

#[global] Instance action_eq_dec : EqDecision Action.
Proof. solve_decision. Defined.

Definition SIG_OWN_REPLICA : string := "SIG_OWN_REPLICA".
Definition SIG_IN_NEW_VIEW : string := "SIG_IN_NEW_VIEW".

(** ** Clearing the logs and the out buffer *)

(** The facts of a lower view are retracted, but for the commits of the view recovery:
    the code retracts [msg_log_commit/4], a predicate without facts, in their place. *)
Definition of_lower_view (v : Z) (f : Fact) : bool :=
  match f with
  | msg_log_pre_prepare v1 _ _ _ _ _ | msg_log_prepare v1 _ _ _ _ | msg_log_commit v1 _ _ _ _
  | msg_log_view_change _ v1 _ _ _ _ _ _ | msg_log_new_view v1 _ _ _ => v1 <? v
  | _ => false
  end.

Definition msg_log_clear_where_view_less_than (v : Z) (st : State) : State := retract (of_lower_view v) st.

Definition is_log (f : Fact) : bool :=
  match f with
  | msg_log_request _ _ | msg_log_pre_prepare _ _ _ _ _ _ | msg_log_prepare _ _ _ _ _
  | msg_log_commit _ _ _ _ _ | msg_log_commit_view_recovery _ _ _
  | msg_log_view_change _ _ _ _ _ _ _ _ | msg_log_new_view _ _ _ _ => true
  | _ => false
  end.

Definition is_out (f : Fact) : bool :=
  match f with
  | msg_out_pre_prepare _ _ _ _ | msg_out_prepare _ _ _ | msg_out_commit _ _ _
  | msg_out_view_change _ _ _ _ _ | msg_out_new_view _ _ _
  | msg_out_roast_pre_signature _ _ | msg_out_roast_signature_share _ _ => true
  | _ => false
  end.

Definition msg_log_clear_all (st : State) : State := retract is_log st.
Definition msg_out_clear_all (st : State) : State := retract is_out st.

Definition is_checkpoint (f : Fact) : bool := match f with checkpoint _ _ _ => true | _ => false end.

(** ** The setters *)

Definition set_active_view (b : bool) (st : State) : State :=
  mkState (view st) b (timeout st) (val st) (last_rep st) (last_exec st) (seqno st) (db st).
Definition set_seqno (n : Z) (st : State) : State :=
  mkState (view st) (active_view st) (timeout st) (val st) (last_rep st) (last_exec st) n (db st).
Definition set_executed (n t : Z) (sv : string) (st : State) : State :=
  mkState (view st) (active_view st) (timeout st) sv t n (seqno st) (db st).

(** Each view doubles the timeout. *)
Definition view_timeout (target v : Z) : num := scale (2 ^ v) (half target).

Section Actions.
Context (c : Config).
(** SHA-1 of the JSON text of the message. *)
Context (digest_view_change : Z -> Z -> string -> PSet -> QSet -> Z -> string).
(** The aggregation of the pre-signature shares (a predicate of the wallet). *)
Context (roast_crypto_pre_sig_aggregate : list string -> option string).
(** The text C++ reads of an unbound variable, if it gets any. *)
Context (unbound_text : option string).

Definition set_view (v : Z) (st : State) : State :=
  mkState v (active_view st) (view_timeout (target_block_time c) v)
    (val st) (last_rep st) (last_exec st) (seqno st) (db st).

(** ** 0. INIT

    [old] is what the database holds before, [file] the persisted view when the file of
    the database exists. *)
Definition init (height : Z) (hash : string) (timestamp : Z) (old : list Fact)
    (file : option (option Z)) (reset : bool) : option State :=
  v ← (match file with
       | Some persisted => if reset then Some 0 else persisted
       | None => Some 0
       end);
  let l := assertz_once (checkpoint height hash timestamp) (retractall is_checkpoint old) in
  let l := retractall is_Qi (retractall is_Pi (retractall is_out (retractall is_log l))) in
  Some (mkState v true (view_timeout (target_block_time c) v) hash timestamp height height l).

(** ** 1 to 6. Requests, pre-prepares and prepares *)

Definition apply_RECEIVE_REQUEST (d : string) (t : Z) (st : State) : option State :=
  if t <=? last_rep st then Some st else Some (add_fact (msg_log_request d t) st).

(** The timestamps of the requests due that the replica has not pre-prepared. *)
Definition due_requests (now : float) (st : State) : list Z :=
  '(d, t) ← requests st;
  if negb (existsb (fun '(_, _, d', _, k) => bool_decide ((d', k) = (d, replica_id c))) (pre_prepares st))
     && (t * one <=? now)
  then [t] else [].

Definition pre_SEND_PRE_PREPARE (now : float) (st : State) : list (string * Z * Z) :=
  let n := seqno st + 1 in
  if active_view st && (primary c (view st) =? replica_id c) && in_wv (view st) n st then
    '(d, t) ← requests st;
    if bool_decide (min_list (due_requests now st) = Some t)
       && negb (existsb (fun '(v', n', d', _, k) =>
            bool_decide ((v', d', k) = (view st, d, replica_id c)) && negb (n' =? n)) (pre_prepares st))
    then [(d, view st, n)] else []
  else [].

Definition apply_SEND_PRE_PREPARE (d data : string) (v n : Z) (st : State) : option State :=
  Some (add_fact (msg_log_pre_prepare v n d data (replica_id c) SIG_OWN_REPLICA)
    (add_fact (msg_out_pre_prepare v n d data) (set_seqno n st))).

Definition apply_RECEIVE_PRE_PREPARE (v n : Z) (d data : string) (sender : Z) (sig : string)
    (st : State) : option State :=
  let same := filter (fun '(v', n', _, _, k) => (v', n', k) = (v, n, sender)) (pre_prepares st) in
  if negb (sender =? replica_id c) && (primary c (view st) =? sender) && in_wv v n st && active_view st
     && (bool_decide (same = []) || existsb (fun '(_, _, d', _, _) => bool_decide (d' = d)) same)
  then Some (add_fact (msg_log_pre_prepare v n d data sender sig) st) else None.

(** In [pre_SEND_PREPARE] and [pre_SEND_COMMIT] the window bounds the unbound N. *)
Definition pre_SEND_PREPARE (st : State) : list (string * Z * Z) :=
  if negb (primary c (view st) =? replica_id c) then
    filter (fun '(d, v, n) => in_wv v n st = true /\ ¬ replica_id c ∈ prepare_senders v n d st)
      (pre_prepared_all c st)
  else [].

Definition apply_SEND_PREPARE (d : string) (v n : Z) (st : State) : option State :=
  Some (add_fact (msg_log_prepare v n d (replica_id c) SIG_OWN_REPLICA) (add_fact (msg_out_prepare v n d) st)).

Definition apply_RECEIVE_PREPARE (v n : Z) (d : string) (sender : Z) (sig : string) (st : State) : option State :=
  if negb (sender =? replica_id c) && negb (primary c (view st) =? sender) && in_wv v n st
  then Some (add_fact (msg_log_prepare v n d sender sig) st) else None.

Definition pre_SEND_COMMIT (st : State) : list (string * Z * Z) :=
  filter (fun '(d, v, n) => in_wv v n st = true /\ ¬ replica_id c ∈ (commits v n st).*1) (prepared_all c st).

Definition apply_SEND_COMMIT (v n : Z) (data : string) (st : State) : option State :=
  Some (add_fact (msg_log_commit v n data (replica_id c) SIG_OWN_REPLICA) (add_fact (msg_out_commit v n data) st)).

(** ** ROAST: the sessions of the signers *)

Definition roast_actives : State -> list (Z * Z * string) :=
  findall (fun f => match f with roast_active v n d => Some (v, n, d) | _ => None end).
Definition responsive_signers : State -> list Z :=
  findall (fun f => match f with roast_responsive_signer s => Some s | _ => None end).
Definition signer_sids (i : Z) : State -> list Z :=
  findall (fun f => match f with roast_signers_sid s x => if s =? i then Some x else None | _ => None end).
Definition latest_shares (i : Z) : State -> list string :=
  findall (fun f => match f with
    | roast_latest_pre_signature_share s x => if s =? i then Some x else None | _ => None end).
Definition session_counters : State -> list Z :=
  findall (fun f => match f with roast_session_counter x => Some x | _ => None end).
Definition sessions : State -> list (Z * list Z * string * list (option string)) :=
  findall (fun f => match f with roast_signature_session i s p h => Some (i, s, p, h) | _ => None end).

Definition sig_quorum : Z := floor_third (cluster_size c - 1) + 1.

(** [roast_final_signature_session]: its solutions. *)
Definition final_sessions (st : State) : list (Z * list Z * string * list (option string)) :=
  _ ← roast_actives st;
  filter (fun '(_, _, _, h) => Z.of_nat (length h) = sig_quorum) (sessions st).

Definition is_final (st : State) : bool := negb (bool_decide (final_sessions st = [])).

Definition is_roast_active (f : Fact) : bool := match f with roast_active _ _ _ => true | _ => false end.

Definition set_roast_active (a : option (Z * Z * string)) (st : State) : State :=
  let st := retract is_roast_active st in
  match a with Some (v, n, d) => add_fact (roast_active v n d) st | None => st end.

Definition set_latest_pre_signature_share (i : Z) (x : string) (st : State) : State :=
  add_fact (roast_latest_pre_signature_share i x)
    (retract (fun f => match f with roast_latest_pre_signature_share s _ => s =? i | _ => false end) st).

Definition set_roast_session_counter (x : Z) (st : State) : State :=
  add_fact (roast_session_counter x)
    (retract (fun f => match f with roast_session_counter _ => true | _ => false end) st).

Definition set_roast_signers_sid (i x : Z) (st : State) : State :=
  add_fact (roast_signers_sid i x)
    (retract (fun f => match f with roast_signers_sid s _ => s =? i | _ => false end) st).

Definition set_roast_signature_session (i : Z) (s : list Z) (p : string) (h : list (option string))
    (st : State) : State :=
  add_fact (roast_signature_session i s p h)
    (retract (fun f => match f with roast_signature_session i' _ _ _ => i' =? i | _ => false end) st).

Definition roast_clear_responsive_signers (st : State) : State :=
  retract (fun f => match f with roast_responsive_signer _ => true | _ => false end) st.

Definition is_roast (f : Fact) : bool :=
  match f with
  | roast_active _ _ _ | roast_responsive_signer _ | roast_malicious_signer _
  | roast_latest_pre_signature_share _ _ | roast_session_counter _ | roast_signers_sid _ _
  | roast_signature_session _ _ _ _ | msg_out_roast_pre_signature _ _ | msg_out_roast_signature_share _ _ => true
  | _ => false
  end.

Definition roast_collect_garbage (st : State) : State := retract is_roast st.

(** A signer in a session: its share is appended to those of the session. *)
Definition store_share (i : Z) (share : option string) (st : State) : option State :=
  match signer_sids i st with
  | [] => Some st
  | sid :: _ =>
      '(_, s, p, h) ← head (filter (fun x => x.1.1.1 = sid) (sessions st));
      _ ← head (latest_shares i st);
      Some (set_roast_signature_session sid s p (h ++ [share]) st)
  end.

(** The responsive signers make a new session when they are enough. *)
Definition start_session (st : State) : option State :=
  let r := responsive_signers st in
  if Z.of_nat (length r) =? sig_quorum then
    old ← head (session_counters st);
    let sid := old + 1 in
    let st := set_roast_session_counter sid st in
    pre ← roast_crypto_pre_sig_aggregate (i ← r; latest_shares i st);
    let st := foldl (fun s i => set_roast_signers_sid i sid s) st r in
    let st := add_fact (msg_out_roast_pre_signature r pre) st in
    Some (roast_clear_responsive_signers (set_roast_signature_session sid r pre [] st))
  else Some st.

(** A signature share is [None] when it is the atom [false] of a commit. *)
Definition apply_RECEIVE_SIG_SHARE (i : Z) (share : option string) (next : string) (st : State) : option State :=
  if existsb (fun '(v, _, _) => primary c v =? replica_id c) (roast_actives st) && negb (is_final st) then
    let st := if decide (i ∈ responsive_signers st) then add_fact (roast_malicious_signer i) st else st in
    st ← store_share i share st;
    if is_final st then Some st
    else start_session (add_fact (roast_responsive_signer i) (set_latest_pre_signature_share i next st))
  else None.

Definition pre_ROAST_INIT (st : State) : list (string * Z * Z) :=
  filter (fun '(_, _, n) => n = last_exec st + 1 /\ roast_actives st = [] /\ is_final st = false)
    (committed_all c st).

Definition apply_ROAST_INIT (v n : Z) (d : string) (st : State) : option State :=
  let st := set_roast_active (Some (v, n, d)) st in
  if primary c v =? replica_id c then
    let st := set_roast_session_counter 0 st in
    foldl (fun acc '(k, data) => s ← acc; apply_RECEIVE_SIG_SHARE k None data s) (Some st) (commits v n st)
  else Some st.

Definition apply_RECEIVE_PRE_SIGNATURE (share next : string) (st : State) : option State :=
  if bool_decide (roast_actives st = []) then None
  else Some (add_fact (msg_out_roast_signature_share share next) st).

(** ** 7. Commits and the recovery of a view *)

Definition apply_RECEIVE_COMMIT (v n : Z) (data : string) (sender : Z) (sig : string) (st : State) : option State :=
  if sender =? replica_id c then None
  else if in_wv v n st then
    let st := add_fact (msg_log_commit v n data sender sig) st in
    if existsb (fun '(v', n', _) => (v' =? v) && (n' =? n)) (roast_actives st)
       && (primary c v =? replica_id c) && negb (is_final st)
    then apply_RECEIVE_SIG_SHARE sender None data st
    else Some st
  else if view st <? v then Some (add_fact (msg_log_commit_view_recovery v n sender) st)
  else None.

Definition pre_RECOVER_VIEW (st : State) : option Z :=
  if active_view st then
    max_list ('(n, _, _) ← checkpoints st;
              '(v1, n1, _) ← recoveries st;
              if (n1 =? n) && (view st <? v1)
                 && (quorum c <=? Z.of_nat (length (filter (fun '(v2, n2, _) => (v2, n2) = (v1, n)) (recoveries st))))
              then [v1] else [])
  else None.

Definition apply_RECOVER_VIEW (v : Z) (st : State) : option State :=
  Some (msg_log_clear_where_view_less_than v (set_view v st)).

(** ** 8 and 11. Execution, blocks and garbage *)

Definition pre_EXECUTE (st : State) : list (string * Z * Z) :=
  '(d, v, n) ← committed_all c st;
  if (last_exec st =? n - 1) && (primary c v =? replica_id c)
  then (fun _ => (d, v, n)) <$> final_sessions st else [].

Definition apply_EXECUTE (d : string) (n : Z) (sv : string) (st : State) : State :=
  match head (filter (fun '(d', t) => d' = d /\ last_rep st < t) (requests st)) with
  | Some (_, t) => set_executed n t sv st
  | None => st
  end.

(** The retractions of [view_change_Pi/5] and [view_change_Qi/6] for the lower numbers
    meet no fact, so that the entries of [Pi] and [Qi] below [n] stay. *)
Definition garbage (n last : Z) (f : Fact) : bool :=
  match f with
  | checkpoint n1 _ _ => (0 <=? n1) && (n1 <? n)
  | msg_log_pre_prepare _ n1 _ _ _ _ | msg_log_prepare _ n1 _ _ _ | msg_log_commit _ n1 _ _ _ =>
      ((0 <=? n1) && (n1 <? n)) || (n1 =? n)
  | view_change_Pi n1 _ _ | view_change_Qi n1 _ _ _ => n1 =? n
  | msg_log_request _ t => t <=? last
  | _ => false
  end.

Definition collect_garbage (n : Z) (st : State) : State :=
  roast_collect_garbage (retract (garbage n (last_rep st)) st).

Definition apply_RECEIVE_BLOCK (height timestamp : Z) (hash : string) (st : State) : option State :=
  '(d, _) ← head (filter (fun '(_, t) => t = timestamp) (requests st));
  Some (collect_garbage height (add_fact (checkpoint height hash timestamp) (apply_EXECUTE d height hash st))).

(** ** 12 to 20. The change of view *)

Definition pre_SEND_VIEW_CHANGE (now : float) (st : State) : list Z :=
  '(_, t) ← requests st;
  if (last_rep st <? t) && (num_units (timeout st) <? fsub now (of_int t)) then [view st + 1] else [].

Definition apply_SEND_VIEW_CHANGE (v : Z) (st : State) : option State :=
  let st := set_roast_active None (set_active_view false (set_view v st)) in
  let st := update_view_change_Pi c st in
  let p := Pi_entries st in
  let st := update_view_change_Qi c st in
  let q := Qi_entries st in
  hi ← get_h st;
  '(_, ck, _) ← head (filter (fun '(n, _, _) => n = hi) (checkpoints st));
  let st := add_fact (msg_out_view_change v hi ck p q) st in
  let dg := digest_view_change v hi ck p q (replica_id c) in
  let st := add_fact (msg_log_view_change dg v hi ck p q (replica_id c) SIG_OWN_REPLICA) st in
  Some (msg_log_clear_where_view_less_than v st).

Definition apply_RECEIVE_VIEW_CHANGE (v hi : Z) (ck : string) (p : PSet) (q : QSet) (sender : Z) (sig : string)
    (st : State) : option State :=
  if negb (sender =? replica_id c) && (view st <=? v) && correct_view_change v hi p q
     && negb (existsb (fun '(_, v', _, _, _, _, k) => (v' =? v) && (k =? sender)) (view_changes st))
  then Some (add_fact (msg_log_view_change (digest_view_change v hi ck p q sender) v hi ck p q sender sig) st)
  else None.

Definition pre_SEND_NEW_VIEW (st : State) : option (Nu * list (Z * string * option string)) :=
  if (primary c (view st) =? replica_id c)
     && negb (existsb (fun '(v, _, _) => v =? view st) (new_views st))
  then nu ← correct_nu_once c st; chi ← correct_chi c nu st; Some (nu, chi)
  else None.

Definition apply_SEND_NEW_VIEW (nu : Nu) (chi : Chi) (st : State) : option State :=
  Some (add_fact (msg_out_new_view (view st) nu chi)
    (add_fact (msg_log_new_view (view st) nu chi SIG_OWN_REPLICA) st)).

Definition apply_RECEIVE_NEW_VIEW (v : Z) (nu : Nu) (chi : Chi) (sender : Z) (sig : string) (st : State) :
    option State :=
  if negb (sender =? replica_id c) && (0 <? v) && (v <=? view st) && (sender =? primary c v) then
    if existsb (fun '(v', nu', chi') => bool_decide ((v', nu', chi') = (view st, nu, chi))) (new_views st)
    then Some st
    else Some (add_fact (msg_log_new_view v nu chi sig) st)
  else None.

(** [Hi] is bound when the view changes of [Nu] are collected: those of the same height. *)
Definition processable (hi : Z) (st : State) (nu : Nu) (chi : Chi) : bool :=
  let vset := filter (fun '(vhi, _, _, _) => vhi = hi) (nu_vset nu st) in
  match min_list ((fun '(vhi, _, _, _) => vhi) <$> vset) with
  | Some min_s =>
      (min_s <=? hi)
      && forallb (fun '(_, ck, _, _) => existsb (fun '(_, ck', _) => bool_decide (ck' = ck)) (checkpoints st)) vset
      && (bool_decide (chi = []) || bool_decide (min_list ((fun '(n, _, _) => n) <$> chi) = Some (min_s + 1)))
      && forallb (fun '(_, d, _) => bool_decide (d = "null"%string) ||
                    existsb (fun '(d', _) => bool_decide (d' = d)) (requests st)) chi
  | None => false
  end.

Definition pre_PROCESS_NEW_VIEW (st : State) : list (Z * Nu * Chi) :=
  if active_view st then []
  else match get_h st with
       | Some hi =>
           '(nu, chi) ← correct_new_views c st;
           if processable hi st nu chi then [(hi, nu, chi)] else []
       | None => []
       end.

Definition log_new_view (v : Z) (chi : Chi) (st : State) : State :=
  foldl (fun s '(n, d, b) => add_fact (msg_log_pre_prepare v n d b (primary c v) SIG_IN_NEW_VIEW) s) st chi.

Definition prepare_new_view (v : Z) (chi : Chi) (st : State) : State :=
  let st := foldl (fun s '(n, d, _) => add_fact (msg_log_prepare v n d (replica_id c) SIG_OWN_REPLICA) s) st chi in
  foldl (fun s '(n, d, _) => add_fact (msg_out_prepare v n d) s) st chi.

Definition apply_PROCESS_NEW_VIEW (hi : Z) (chi : Chi) (st : State) : option State :=
  let v := view st in
  let st := log_new_view v chi (set_active_view true st) in
  let ns := '(v', n, _, _, _) ← pre_prepares st; if v' =? v then [n] else [] in
  let st := set_seqno (default hi (max_list ns)) st in
  Some (if primary c v =? replica_id c then st else prepare_new_view v chi st).

(** ** The C++ side of the actions *)

(** [Request::FindByDigest] and [PrePrepare::FindByV_N_Req]: the latter gives unbound
    variables for V and N, so that only the digest is looked up. *)
Definition FindByDigest (d : string) (st : State) : option (string * Z) :=
  head (filter (fun '(d', _) => d' = d) (requests st)).

Definition FindByV_N_Req (v n : Z) (d : string) (st : State) : option string :=
  (fun '(_, _, _, data, _) => data) <$> head (filter (fun '(_, _, d', _, _) => d' = d) (pre_prepares st)).

(** [ReceivePrePrepare::effect]; [!nTime == timestamp] compares the negation. *)
Definition ReceivePrePrepare_effect (w : Wallet) (now tolerance : float) (v n : Z) (d data : string)
    (sender : Z) (sig : string) (st : State) : option State :=
  if TestBlockValidity w n data then
    '(_, t) ← FindByDigest d st;
    if (if block_time w data =? 0 then 1 else 0) =? t then None
    else if fadd now tolerance <? of_int t then None
    else apply_RECEIVE_PRE_PREPARE v n d data sender sig st
  else None.

(** [RoastReceivePreSignature::effect]. *)
Definition ReceivePreSignature_effect (w : Wallet) (signers : list Z) (pre : string) (st : State) : option State :=
  '(v, n, d) ← head (roast_actives st);
  block ← FindByV_N_Req v n d st;
  if bool_decide (replica_id c ∈ signers)
  then apply_RECEIVE_PRE_SIGNATURE (GetSignatureShare w signers pre block) (GetPreSignatureShare w) st
  else None.

(** [Execute::effect]: the block is submitted when its hash is that of the proposal. *)
Definition Execute_effect (w : Wallet) (d : string) (v n : Z) (st : State) : option State :=
  let fs := final_sessions st in
  pre ← (fun '(_, _, p, _) => p) <$> last fs;
  let shares := '(_, _, _, h) ← fs; default "false"%string <$> h in
  block ← FindByV_N_Req v n d st;
  final ← FinalizeBlock w block pre shares;
  if bool_decide (GetHash w final = GetHash w block) then Some (apply_EXECUTE d n (GetHash w block) st) else None.

(** [chi_from_plterm]. *)
Definition chi_from_plterm (l : list (Z * string * option string)) : option Chi :=
  mapM (fun '(n, d, b) => b' ← (match b with Some x => Some x | None => unbound_text end); Some (n, d, b')) l.

(** [UpdateActiveActions]: the actions that depend on the state only. *)
Definition active_actions (now : float) (st : State) : list Action :=
  ((fun '(d, v, n) => EXECUTE d v n) <$> pre_EXECUTE st) ++
  ((fun '(d, v, n) => SEND_COMMIT d v n) <$> pre_SEND_COMMIT st) ++
  ((fun '(d, v, n) => SEND_PREPARE d v n) <$> pre_SEND_PREPARE st) ++
  ((fun '(d, v, n) => SEND_PRE_PREPARE d v n) <$> pre_SEND_PRE_PREPARE now st) ++
  (SEND_VIEW_CHANGE <$> pre_SEND_VIEW_CHANGE now st) ++
  (match pre_RECOVER_VIEW st with Some v => [RECOVER_VIEW v] | None => [] end) ++
  (match pre_SEND_NEW_VIEW st with
   | Some (nu, chi) => match chi_from_plterm chi with Some chi' => [SEND_NEW_VIEW nu chi'] | None => [] end
   | None => []
   end) ++
  ((fun '(hi, nu, chi) => PROCESS_NEW_VIEW hi nu chi) <$> pre_PROCESS_NEW_VIEW st) ++
  ((fun '(d, v, n) => ROAST_INIT d v n) <$> pre_ROAST_INIT st).

(** The effect of an action of this list. *)
Definition effect (w : Wallet) (a : Action) (st : State) : option State :=
  match a with
  | EXECUTE d v n => Execute_effect w d v n st
  | SEND_COMMIT d v n => apply_SEND_COMMIT v n (GetPreSignatureShare w) st
  | SEND_PREPARE d v n => apply_SEND_PREPARE d v n st
  | SEND_PRE_PREPARE d v n =>
      '(_, t) ← FindByDigest d st;
      data ← GenerateBlock w t;
      apply_SEND_PRE_PREPARE d data v n st
  | SEND_VIEW_CHANGE v => apply_SEND_VIEW_CHANGE v st
  | RECOVER_VIEW v => apply_RECOVER_VIEW v st
  | SEND_NEW_VIEW nu chi => apply_SEND_NEW_VIEW nu chi st
  | PROCESS_NEW_VIEW hi nu chi => apply_PROCESS_NEW_VIEW hi chi st
  | ROAST_INIT d v n => apply_ROAST_INIT v n d st
  end.

(** The effect of a message received from the network. *)
Definition receive (w : Wallet) (now tolerance : float) (m : Msg) (sender : Z) (sig : string) (st : State) :
    option State :=
  match m with
  | PrePrepare v n d data => ReceivePrePrepare_effect w now tolerance v n d data sender sig st
  | Prepare v n d => apply_RECEIVE_PREPARE v n d sender sig st
  | Commit v n data => apply_RECEIVE_COMMIT v n data sender sig st
  | ViewChange v hi ck p q => apply_RECEIVE_VIEW_CHANGE v hi ck p q sender sig st
  | NewView v nu chi => apply_RECEIVE_NEW_VIEW v nu chi sender sig st
  | RoastPreSignature signers pre => ReceivePreSignature_effect w signers pre st
  | RoastSignatureShare share next => apply_RECEIVE_SIG_SHARE sender (Some share) next st
  end.

(** [UpdateOutMessageBuffer]: the messages to be sent, by type. *)
Definition out_messages (st : State) : list Msg :=
  findall (fun f => match f with msg_out_pre_prepare v n d b => Some (PrePrepare v n d b) | _ => None end) st ++
  findall (fun f => match f with msg_out_prepare v n d => Some (Prepare v n d) | _ => None end) st ++
  findall (fun f => match f with msg_out_commit v n b => Some (Commit v n b) | _ => None end) st ++
  findall (fun f => match f with msg_out_view_change v h ck p q => Some (ViewChange v h ck p q) | _ => None end) st ++
  findall (fun f => match f with msg_out_new_view v nu chi => Some (NewView v nu chi) | _ => None end) st ++
  findall (fun f => match f with msg_out_roast_pre_signature s p => Some (RoastPreSignature s p) | _ => None end) st ++
  findall (fun f => match f with msg_out_roast_signature_share x y => Some (RoastSignatureShare x y) | _ => None end) st.

End Actions.
