(* ===== verification/EngineFacts.v ===== *)
(** * Lemmas on the database of the engine

    Membership in the database after the assertions and retractions of the actions, the
    queries as membership, and the set of the prepared and pre-prepared requests that a
    view change announces. *)

From S2P Require Import Prelude PyFloat Engine EngineActions.

(** ** Membership *)

Lemma elem_of_assertz_once f g l : f ∈ assertz_once g l <-> f = g \/ f ∈ l.
Proof.
  unfold assertz_once. destruct (decide (g ∈ l)) as [Hg|Hg]; [naive_solver|].
  rewrite elem_of_app, list_elem_of_singleton. tauto.
Qed.

Lemma elem_of_retractall f q l : f ∈ retractall q l <-> q f = false /\ f ∈ l.
Proof. unfold retractall. now rewrite list_elem_of_filter. Qed.

Lemma NoDup_assertz_once f l : NoDup l -> NoDup (assertz_once f l).
Proof.
  intros H. unfold assertz_once. destruct (decide (f ∈ l)) as [|Hf]; [done|].
  apply NoDup_app. split; [done|]. split; [|apply NoDup_singleton].
  intros x Hx ->%list_elem_of_singleton. done.
Qed.

Lemma NoDup_retractall q l : NoDup l -> NoDup (retractall q l).
Proof. apply NoDup_filter. Qed.

Lemma elem_of_add_fact f g st : f ∈ db (add_fact g st) <-> f = g \/ f ∈ db st.
Proof. apply elem_of_assertz_once. Qed.

Lemma elem_of_retract f q st : f ∈ db (retract q st) <-> q f = false /\ f ∈ db st.
Proof. apply elem_of_retractall. Qed.

Lemma NoDup_add_fact f st : NoDup (db st) -> NoDup (db (add_fact f st)).
Proof. apply NoDup_assertz_once. Qed.

Lemma NoDup_retract q st : NoDup (db st) -> NoDup (db (retract q st)).
Proof. apply NoDup_retractall. Qed.

Lemma elem_of_findall {A} (q : Fact -> option A) x st :
  x ∈ findall q st <-> exists f, f ∈ db st /\ q f = Some x.
Proof. apply list_elem_of_omap. Qed.

(** A goal on one predicate has the solutions that are facts of it. *)
Ltac destruct_ex H := repeat (let s := fresh in destruct H as [s H]).
Ltac solve_query q :=
  unfold q; rewrite elem_of_findall; split;
  [ intros (f & Hf & Hq); destruct f; try done; simpl in Hq; try case_bool_decide; naive_solver
  | intros H; destruct_ex H; eexists; (split; [exact H|]); simpl; rewrite ?bool_decide_true by done; done ].

Lemma elem_of_checkpoints n x t st : (n, x, t) ∈ checkpoints st <-> checkpoint n x t ∈ db st.
Proof. solve_query checkpoints. Qed.

Lemma elem_of_requests d t st : (d, t) ∈ requests st <-> msg_log_request d t ∈ db st.
Proof. solve_query requests. Qed.

Lemma elem_of_pre_prepares v n d b k st :
  (v, n, d, b, k) ∈ pre_prepares st <-> exists s, msg_log_pre_prepare v n d b k s ∈ db st.
Proof. solve_query pre_prepares. Qed.

Lemma elem_of_prepare_senders v n d k st :
  k ∈ prepare_senders v n d st <-> exists s, msg_log_prepare v n d k s ∈ db st.
Proof. solve_query prepare_senders. Qed.

Lemma elem_of_commits v n k b st :
  (k, b) ∈ commits v n st <-> exists s, msg_log_commit v n b k s ∈ db st.
Proof. solve_query commits. Qed.

Lemma elem_of_recoveries v n k st : (v, n, k) ∈ recoveries st <-> msg_log_commit_view_recovery v n k ∈ db st.
Proof. solve_query recoveries. Qed.

Lemma elem_of_new_views v nu chi st :
  (v, nu, chi) ∈ new_views st <-> exists s, msg_log_new_view v nu chi s ∈ db st.
Proof. solve_query new_views. Qed.

Lemma elem_of_Pi_entries n d v st : (n, d, v) ∈ Pi_entries st <-> view_change_Pi n d v ∈ db st.
Proof. solve_query Pi_entries. Qed.

Lemma elem_of_Qi_entries n d b v st : (n, d, b, v) ∈ Qi_entries st <-> view_change_Qi n d b v ∈ db st.
Proof. solve_query Qi_entries. Qed.

Lemma elem_of_sessions i s p h st :
  (i, s, p, h) ∈ sessions st <-> roast_signature_session i s p h ∈ db st.
Proof. solve_query sessions. Qed.

Lemma elem_of_roast_actives v n d st : (v, n, d) ∈ roast_actives st <-> roast_active v n d ∈ db st.
Proof. solve_query roast_actives. Qed.

Lemma elem_of_responsive_signers i st : i ∈ responsive_signers st <-> roast_responsive_signer i ∈ db st.
Proof. solve_query responsive_signers. Qed.

(** Facts that a goal does not meet may come and go. *)
Lemma findall_retract {A} (q : Fact -> option A) r st :
  (forall f, r f = true -> q f = None) -> findall q (retract r st) = findall q st.
Proof.
  intros H. unfold findall, retract, retractall. cbn [db with_db]. induction (db st) as [|f l IH]; [done|].
  rewrite filter_cons. destruct (decide (r f = false)) as [Hf|Hf]; csimpl; [by rewrite IH|].
  rewrite (H f) by (by destruct (r f)). exact IH.
Qed.

Lemma findall_add_fact {A} (q : Fact -> option A) f st :
  q f = None -> findall q (add_fact f st) = findall q st.
Proof.
  intros H. unfold findall, add_fact, assertz_once. simpl. case_decide; [done|].
  rewrite omap_app. simpl. by rewrite H, app_nil_r.
Qed.

Lemma findall_add_le {A} (q : Fact -> option A) f st :
  (length (findall q (add_fact f st)) <= S (length (findall q st)))%nat.
Proof.
  unfold findall, add_fact, assertz_once. cbn [db with_db]. case_decide; [lia|].
  rewrite omap_app, length_app. csimpl. destruct (q f); simpl; lia.
Qed.

(** ** Folds of assertions *)

Lemma elem_of_foldl_add {A} (g : A -> bool) (F : A -> Fact) (l : list A) f st :
  f ∈ db (foldl (fun s x => if g x then s else add_fact (F x) s) st l) <->
  f ∈ db st \/ exists x, x ∈ l /\ g x = false /\ f = F x.
Proof.
  revert st. induction l as [|x l IH]; intros st; cbn [foldl].
  - split; [tauto|]. intros [|(? & []%not_elem_of_nil & _)]; done.
  - rewrite IH. split.
    + intros [Hf|(y & Hy & Hg & ->)]; [|right; exists y; split; [by right|done]].
      destruct (g x) eqn:Hx; [by left|]. apply elem_of_add_fact in Hf as [->|]; [right|by left].
      exists x. split; [left|done].
    + intros [Hf|(y & [->|Hy]%elem_of_cons & Hg & ->)].
      * left. destruct (g x); [done|]. apply elem_of_add_fact. by right.
      * left. rewrite Hg. apply elem_of_add_fact. by left.
      * right. by exists y.
Qed.

Lemma foldl_ind {A S} (P : S -> Prop) (h : S -> A -> S) l s :
  P s -> (forall s x, x ∈ l -> P s -> P (h s x)) -> P (foldl h s l).
Proof.
  intros H0 Hs. revert s H0. induction l as [|x l IH]; intros s H0; [done|]. cbn [foldl].
  apply IH; [|apply Hs; [left|done]]. intros s' y Hy. apply Hs. by right.
Qed.

Lemma foldl_congr {A S} (h1 h2 : S -> A -> S) l s :
  (forall s x, h1 s x = h2 s x) -> foldl h1 s l = foldl h2 s l.
Proof. intros H. revert s. induction l as [|x l IH]; intros s; [done|]. cbn [foldl]. by rewrite H, IH. Qed.

Lemma elem_of_foldl_adds {A} (h : State -> A -> State) (F : A -> Fact) l f st :
  (forall s x, h s x = add_fact (F x) s) ->
  f ∈ db (foldl h st l) <-> f ∈ db st \/ exists x, x ∈ l /\ f = F x.
Proof.
  intros Hh. rewrite (foldl_congr h (fun s x => if false then s else add_fact (F x) s)) by done.
  rewrite (elem_of_foldl_add (fun _ => false) F). naive_solver.
Qed.

Lemma max_list_spec l m : max_list l = Some m -> m ∈ l /\ forall x, x ∈ l -> x <= m.
Proof.
  destruct l as [|x l]; [done|]. intros [= <-]. destruct (foldl_max_spec x l) as [Hin Hall].
  rewrite Forall_forall in Hall. done.
Qed.

(** ** The entries of a new view *)

Lemma chi_keys (nu : Nu) (c : Config) st l :
  correct_chi c nu st = Some l -> NoDup l.*1.*1.
Proof.
  unfold correct_chi. case_match; [|done]. destruct (min_list _) as [m|]; [|done]. simpl. intros [= <-].
  set (ns := seqZ _ _). replace ((_ <$> ns).*1.*1) with ns; [apply NoDup_seqZ|].
  rewrite <- !list_fmap_compose. symmetry. rewrite <- (list_fmap_id ns) at 2. apply list_fmap_ext. intros _ n _. simpl. unfold chi_entry.
  by destruct (chi_case1 _ n) as [|[]].
Qed.

Lemma chi_instance_keys chi l : chi_instance chi l = true -> chi.*1.*1 = l.*1.*1.
Proof.
  revert l. induction chi as [|[[n d] b] chi IH]; intros [|[[n' d'] b'] l]; try done.
  cbn [chi_instance]. rewrite !andb_true_iff. intros [[H _] H']. apply bool_decide_eq_true in H.
  simplify_eq. csimpl. by rewrite (IH _ H').
Qed.

Lemma chi_from_plterm_keys u l chi : chi_from_plterm u l = Some chi -> chi.*1.*1 = l.*1.*1.
Proof.
  unfold chi_from_plterm. intros H%mapM_Some. induction H as [|[[n d] b] [[n' d'] b'] l chi H _ IH]; [done|].
  csimpl. rewrite IH. by destruct b as [x|]; [|destruct u as [x|]]; simplify_eq/=.
Qed.

Section Facts.
Context (c : Config).

(** ** The pre-prepared and the prepared requests *)

Lemma elem_of_pre_prepared_all d v n st :
  (d, v, n) ∈ pre_prepared_all c st <->
  (exists b, view_change_Qi n d b v ∈ db st) \/
  (exists t, msg_log_request d t ∈ db st) /\ (exists b s, msg_log_pre_prepare v n d b (primary c v) s ∈ db st).
Proof.
  unfold pre_prepared_all. rewrite elem_of_app, list_elem_of_fmap, list_elem_of_bind.
  apply Morphisms_Prop.or_iff_morphism.
  - split.
    + intros ([[[n' d'] b] v'] & Heq & H%elem_of_Qi_entries). simplify_eq. eauto.
    + intros [b H%elem_of_Qi_entries]. by eexists (n, d, b, v).
  - split.
    + intros ([d1 t] & H1 & Hr%elem_of_requests). apply list_elem_of_bind in H1 as ([[[[v1 n1] d2] b] k] & H2 & [s Hs]%elem_of_pre_prepares).
      case_bool_decide; simpl in H2; [|by apply not_elem_of_nil in H2].
      destruct (k =? primary c v1) eqn:Hk; [|by apply not_elem_of_nil in H2].
      apply list_elem_of_singleton in H2. apply Z.eqb_eq in Hk. simplify_eq. eauto.
    + intros [[t Ht%elem_of_requests] (b & s & Hs)].
      exists (d, t). split; [|done]. apply list_elem_of_bind. exists (v, n, d, b, primary c v).
      rewrite bool_decide_true, Z.eqb_refl by done. split; [by apply list_elem_of_singleton|].
      apply elem_of_pre_prepares. eauto.
Qed.

Lemma pre_prepared_spec d v n st : pre_prepared c d v n st = true <-> (d, v, n) ∈ pre_prepared_all c st.
Proof. apply bool_decide_eq_true. Qed.

Lemma elem_of_prepared_all d v n st :
  (d, v, n) ∈ prepared_all c st <->
  view_change_Pi n d v ∈ db st \/ prepare_quorum c d v n st = true /\ (d, v, n) ∈ pre_prepared_all c st.
Proof.
  unfold prepared_all. rewrite elem_of_app, list_elem_of_fmap, list_elem_of_filter.
  apply Morphisms_Prop.or_iff_morphism; [|done]. split.
  - intros ([[n' d'] v'] & Heq & H%elem_of_Pi_entries). by simplify_eq.
  - intros H%elem_of_Pi_entries. by exists (n, d, v).
Qed.

(** ** The sets of a view change *)

Definition no_Pi (st : State) : State := retract is_Pi st.
Definition no_Qi (st : State) : State := retract is_Qi st.

Lemma elem_of_update_Pi f st :
  f ∈ db (update_view_change_Pi c st) <->
  (is_Pi f = false /\ f ∈ db st) \/
  exists m v n, f = view_change_Pi n m v /\ (m, v, n) ∈ prepared_all c (no_Pi st) /\
    forall m2 v2, (m2, v2, n) ∈ prepared_all c (no_Pi st) -> v2 <= v.
Proof.
  unfold update_view_change_Pi. fold (no_Pi st).
  set (sols := prepared_all c (no_Pi st)).
  rewrite <- (elem_of_retract f is_Pi st). fold (no_Pi st).
  rewrite (foldl_congr _ (fun s x => if existsb (fun '(_, v2, n2) => (x.1.2 <? v2) && (n2 =? x.2)) sols
     then s else add_fact (view_change_Pi x.2 x.1.1 x.1.2) s)) by (intros s [[m v] n]; done).
  rewrite elem_of_foldl_add. apply Morphisms_Prop.or_iff_morphism; [done|]. split.
  - intros ([[m v] n] & Hin & Hg & ->). exists m, v, n. split; [done|]. split; [done|].
    intros m2 v2 H2. apply Z.nlt_ge. intros Hlt. apply not_true_iff_false in Hg. apply Hg.
    apply existsb_exists. exists (m2, v2, n). split; [by apply list_elem_of_In|]. simpl in *. lia.
  - intros (m & v & n & -> & Hin & Hmax). exists (m, v, n). split; [done|]. split; [|done].
    apply not_true_iff_false. intros ([[m2 v2] n2] & Hin2 & Hb)%existsb_exists. simpl in Hb.
    apply andb_true_iff in Hb as [Hv Hn]. apply Z.eqb_eq in Hn as ->. apply list_elem_of_In in Hin2.
    specialize (Hmax _ _ Hin2). lia.
Qed.

Lemma NoDup_update_Pi st : NoDup (db st) -> NoDup (db (update_view_change_Pi c st)).
Proof.
  intros H. unfold update_view_change_Pi. apply foldl_ind; [by apply NoDup_retract|].
  intros s [[m v] n] _ Hs. case_match; [done|]. by apply NoDup_add_fact.
Qed.

(** An entry of [Qi] is a pre-prepare of the primary of its view. *)
Lemma elem_of_update_Qi f st :
  f ∈ db (update_view_change_Qi c st) ->
  (is_Qi f = false /\ f ∈ db st) \/
  exists n m b v s, f = view_change_Qi n m b v /\ msg_log_pre_prepare v n m b (primary c v) s ∈ db st.
Proof.
  unfold update_view_change_Qi. fold (no_Qi st). rewrite <- (elem_of_retract f is_Qi st). fold (no_Qi st).
  set (sols := pre_prepared_all c (no_Qi st)). set (pps := pre_prepares (no_Qi st)).
  assert (Hpp : forall v n d b k, (v, n, d, b, k) ∈ pps -> exists s, msg_log_pre_prepare v n d b k s ∈ db st).
  { intros v n d b k [s [_ Hs]%elem_of_retract]%elem_of_pre_prepares. eauto. }
  clearbody pps. apply (foldl_ind (fun s => f ∈ db s -> f ∈ db (no_Qi st) \/ _)); [tauto|].
  intros s [[m v1] n] _ Hs. case_match; [done|]. apply foldl_ind; [done|].
  intros s' [[[[v' n'] m'] b] k] [sg Hsg]%Hpp Hs'. case_bool_decide; simplify_eq; [|done].
  intros [->|Hf]%elem_of_add_fact; [|auto]. right. naive_solver.
Qed.

Lemma elem_of_update_Qi_other f st :
  is_Qi f = false -> f ∈ db (update_view_change_Qi c st) <-> f ∈ db st.
Proof.
  intros Hf. unfold update_view_change_Qi. fold (no_Qi st).
  apply (foldl_ind (fun s => f ∈ db s <-> f ∈ db st)).
  - unfold no_Qi. rewrite elem_of_retract. tauto.
  - intros s [[m v1] n] _ Hs. case_match; [done|]. apply foldl_ind; [done|].
    intros s' [[[[v' n'] m'] b] k] _ Hs'. case_bool_decide; [|done].
    rewrite elem_of_add_fact, Hs'. split; [|tauto]. intros [->|]; done.
Qed.

Lemma NoDup_update_Qi st : NoDup (db st) -> NoDup (db (update_view_change_Qi c st)).
Proof.
  intros H. unfold update_view_change_Qi. apply foldl_ind; [by apply NoDup_retract|].
  intros s [[m v] n] _ Hs. case_match; [done|]. apply foldl_ind; [done|].
  intros s' [[[[v' n'] m'] b] k] _ Hs'. case_bool_decide; [|done]. by apply NoDup_add_fact.
Qed.

(** ** The lowest checkpoint *)

Lemma get_h_Some st h :
  get_h st = Some h ->
  (exists x t, checkpoint h x t ∈ db st) /\ (forall n x t, checkpoint n x t ∈ db st -> h <= n).
Proof.
  unfold get_h, min_list. destruct (_ <$> checkpoints st) as [|m l] eqn:Hl; [done|]. intros [= <-].
  destruct (foldl_min_spec m l) as [Hin Hall]. rewrite <- Hl in Hin, Hall. split.
  - apply list_elem_of_fmap in Hin as ([[n x] t] & -> & H%elem_of_checkpoints). eauto.
  - intros n x t H%elem_of_checkpoints. rewrite Forall_forall in Hall. apply Hall.
    apply list_elem_of_fmap. by exists (n, x, t).
Qed.

(** With one height among its checkpoints the replica has this height. *)
Lemma get_h_single st h x t :
  checkpoint h x t ∈ db st -> (forall n y u, checkpoint n y u ∈ db st -> n = h) -> get_h st = Some h.
Proof.
  intros Hin Hall. destruct (get_h st) as [h'|] eqn:Hh.
  - apply get_h_Some in Hh as [(y & u & Hy) _]. by rewrite (Hall _ _ _ Hy).
  - unfold get_h, min_list in Hh. apply elem_of_checkpoints in Hin.
    destruct (checkpoints st) as [|a l]; [by apply not_elem_of_nil in Hin|done].
Qed.

Lemma in_wv_spec v n st :
  in_wv v n st = true <-> v = view st /\ exists h, get_h st = Some h /\ h < n <= h + request_buffer_len.
Proof.
  unfold in_wv, in_w. destruct (get_h st) as [h|]; [|naive_solver].
  rewrite !andb_true_iff, Z.eqb_eq, Z.leb_le, Z.ltb_lt. split.
  - intros [[] ?]. split; [done|]. exists h. split; [done|lia].
  - intros (-> & h' & [= <-] & ?). lia.
Qed.

End Facts.
