(* ===== verification/EngineSteps.v ===== *)
(** * The steps of one replica

    Each action of EngineActions.v, with its precondition, is a [step]: what it does to
    the view, to the sequence number and to the facts on which agreement depends
    ([relevant]), which leaves the sessions of ROAST, the view changes received and the
    commits of the log apart.  The proofs about agreement are by cases on these steps. *)

From S2P Require Import Prelude PyFloat Engine EngineActions EngineFacts.

Definition relevant (f : Fact) : bool :=
  match f with
  | checkpoint _ _ _ | msg_log_request _ _ | msg_log_pre_prepare _ _ _ _ _ _ | msg_out_pre_prepare _ _ _ _
  | msg_log_prepare _ _ _ _ _ | msg_out_prepare _ _ _ | msg_out_commit _ _ _
  | msg_log_commit_view_recovery _ _ _ | msg_log_new_view _ _ _ _ | msg_out_new_view _ _ _
  | view_change_Pi _ _ _ | view_change_Qi _ _ _ _ => true
  | _ => false
  end.

(** The relevant facts of the new database: the old ones that [rm] spares and [ad]. *)
Record frame (rm : Fact -> bool) (ad : Fact -> Prop) (st st' : State) : Prop := {
  fr_nodup : NoDup (db st) -> NoDup (db st');
  fr_db f : relevant f = true -> (f ∈ db st' <-> (rm f = false /\ f ∈ db st) \/ ad f)
}.

Definition keep (_ : Fact) : bool := false.
Definition among (l : list Fact) (f : Fact) : Prop := f ∈ l.

(** The fields that steps keep unless said otherwise. *)
Record same (st st' : State) : Prop := {
  same_view : view st' = view st;
  same_active : active_view st' = active_view st;
  same_seqno : seqno st' = seqno st;
  same_last_rep : last_rep st' = last_rep st
}.

Section Steps.
Context (c : Config).
Context (digest_view_change : Z -> Z -> string -> PSet -> QSet -> Z -> string).
Context (aggregate : list string -> option string).
Context (unbound_text : option string).
(** What the others have sent, with the signatures that are accepted. *)
Context (sent : Z -> Msg -> Prop) (verify : Z -> Msg -> string -> bool).
(** The timestamp of the block of a height and the digest of the request of a time. *)
Context (block_timestamp : Z -> Z) (request_digest : Z -> string).

Abbreviation me := (replica_id c).

Definition incoming (k : Z) (m : Msg) (s : string) : Prop := k <> me /\ sent k m /\ verify k m s = true.

Inductive step (st st' : State) : Prop :=
  | step_quiet :
      view st' = view st -> active_view st' = active_view st -> seqno st' = seqno st ->
      last_rep st <= last_rep st' -> frame keep (among []) st st' -> step st st'
  | step_request t :
      0 <= t -> last_rep st < t -> same st st' ->
      frame keep (among [msg_log_request (request_digest t) t]) st st' -> step st st'
  | step_send_pre_prepare d b :
      active_view st = true -> primary c (view st) = me ->
      view st' = view st -> active_view st' = true -> seqno st' = seqno st + 1 -> last_rep st' = last_rep st ->
      frame keep (among [msg_log_pre_prepare (view st) (seqno st + 1) d b me SIG_OWN_REPLICA;
                         msg_out_pre_prepare (view st) (seqno st + 1) d b]) st st' -> step st st'
  | step_receive_pre_prepare n d b k s :
      active_view st = true -> primary c (view st) = k -> incoming k (PrePrepare (view st) n d b) s ->
      ((forall d' b' s', msg_log_pre_prepare (view st) n d' b' k s' ∉ db st) \/
       (exists b' s', msg_log_pre_prepare (view st) n d b' k s' ∈ db st)) ->
      same st st' -> frame keep (among [msg_log_pre_prepare (view st) n d b k s]) st st' -> step st st'
  | step_send_prepare n d h :
      primary c (view st) <> me -> get_h st = Some h -> h < n ->
      (d, view st, n) ∈ pre_prepared_all c st ->
      same st st' ->
      frame keep (among [msg_log_prepare (view st) n d me SIG_OWN_REPLICA; msg_out_prepare (view st) n d]) st st' ->
      step st st'
  | step_receive_prepare n d k s :
      primary c (view st) <> k -> incoming k (Prepare (view st) n d) s ->
      same st st' -> frame keep (among [msg_log_prepare (view st) n d k s]) st st' -> step st st'
  | step_send_commit d n b :
      (d, view st, n) ∈ prepared_all c st ->
      same st st' -> frame keep (among [msg_out_commit (view st) n b]) st st' -> step st st'
  | step_recovery_commit v n b k s :
      view st < v -> incoming k (Commit v n b) s ->
      same st st' -> frame keep (among [msg_log_commit_view_recovery v n k]) st st' -> step st st'
  | step_recover_view v :
      pre_RECOVER_VIEW c st = Some v ->
      view st' = v -> active_view st' = active_view st -> seqno st' = seqno st -> last_rep st' = last_rep st ->
      frame (of_lower_view v) (among []) st st' -> step st st'
  | step_block d n x :
      msg_log_request d (block_timestamp n) ∈ db st ->
      view st' = view st -> active_view st' = active_view st -> seqno st' = seqno st ->
      last_rep st' = Z.max (last_rep st) (block_timestamp n) ->
      frame (garbage n (last_rep st')) (among [checkpoint n x (block_timestamp n)]) st st' -> step st st'
  | step_send_view_change (ad : Fact -> Prop) :
      view st' = view st + 1 -> active_view st' = false -> seqno st' = seqno st -> last_rep st' = last_rep st ->
      (forall f, ad f ->
        (exists n d v, f = view_change_Pi n d v /\
           prepare_quorum c d v n st = true /\ (d, v, n) ∈ pre_prepared_all c st) \/
        (exists n d b v s, f = view_change_Qi n d b v /\ msg_log_pre_prepare v n d b (primary c v) s ∈ db st)) ->
      frame (fun f => of_lower_view (view st + 1) f || is_Pi f || is_Qi f) ad st st' -> step st st'
  | step_send_new_view nu chi :
      primary c (view st) = me -> (forall nu' chi' s, msg_log_new_view (view st) nu' chi' s ∉ db st) ->
      NoDup chi.*1.*1 ->
      same st st' ->
      frame keep (among [msg_log_new_view (view st) nu chi SIG_OWN_REPLICA; msg_out_new_view (view st) nu chi]) st st' ->
      step st st'
  | step_receive_new_view v nu chi s :
      0 < v <= view st -> incoming (primary c v) (NewView v nu chi) s ->
      same st st' -> frame keep (among [msg_log_new_view v nu chi s]) st st' -> step st st'
  | step_process_new_view nu chi s :
      active_view st = false -> msg_log_new_view (view st) nu chi s ∈ db st -> NoDup chi.*1.*1 ->
      view st' = view st -> active_view st' = true -> last_rep st' = last_rep st ->
      (forall n d b, (n, d, b) ∈ chi -> n <= seqno st') ->
      frame keep (fun f =>
        (exists n d b, (n, d, b) ∈ chi /\ f = msg_log_pre_prepare (view st) n d b (primary c (view st)) SIG_IN_NEW_VIEW) \/
        (primary c (view st) <> me /\ exists n d b, (n, d, b) ∈ chi /\
           (f = msg_log_prepare (view st) n d me SIG_OWN_REPLICA \/ f = msg_out_prepare (view st) n d))) st st' ->
      step st st'.

(** ** Steps that touch no relevant fact *)

Definition quiet (st st' : State) : Prop :=
  same st st' /\ (NoDup (db st) -> NoDup (db st')) /\
  forall f, relevant f = true -> (f ∈ db st' <-> f ∈ db st).

Lemma same_refl st : same st st.
Proof. by split. Qed.

Lemma same_trans st1 st2 st3 : same st1 st2 -> same st2 st3 -> same st1 st3.
Proof. intros [] []. split; congruence. Qed.

Lemma same_add_fact f st : same st (add_fact f st).
Proof. by split. Qed.

Lemma same_foldl {A} (h : State -> A -> State) l st :
  (forall s x, same s (h s x)) -> same st (foldl h st l).
Proof. intros Hh. apply foldl_ind; [apply same_refl|]. intros s x _ Hs. by eapply same_trans. Qed.

Lemma same_prepare_new_view v chi st : same st (prepare_new_view c v chi st).
Proof.
  unfold prepare_new_view. eapply same_trans; [|apply same_foldl; intros s [[] ?]; apply same_add_fact].
  apply same_foldl. intros s [[] ?]. apply same_add_fact.
Qed.

Lemma same_log_new_view v chi st : same st (log_new_view c v chi st).
Proof. apply same_foldl. intros s [[] ?]. apply same_add_fact. Qed.

Lemma same_update_Pi st : same st (update_view_change_Pi c st).
Proof.
  eapply (same_trans _ (retract is_Pi st)); [by split|]. apply same_foldl.
  intros s [[] ?]. case_match; [apply same_refl|apply same_add_fact].
Qed.

Lemma same_update_Qi st : same st (update_view_change_Qi c st).
Proof.
  eapply (same_trans _ (retract is_Qi st)); [by split|]. apply same_foldl.
  intros s [[] ?]. case_match; [apply same_refl|]. apply same_foldl.
  intros s' [[[[] ?] ?] ?]. case_bool_decide; [apply same_add_fact|apply same_refl].
Qed.

Lemma quiet_refl st : quiet st st.
Proof. repeat split; auto. Qed.

Lemma quiet_trans st1 st2 st3 : quiet st1 st2 -> quiet st2 st3 -> quiet st1 st3.
Proof.
  intros (H1 & Hn1 & Hf1) (H2 & Hn2 & Hf2). split; [by eapply same_trans|]. split; [auto|].
  intros f Hf. by rewrite Hf2, Hf1.
Qed.

Lemma quiet_add f st : relevant f = false -> quiet st (add_fact f st).
Proof.
  intros Hr. split; [by split|]. split; [apply NoDup_add_fact|].
  intros g Hg. rewrite elem_of_add_fact. split; [|tauto]. intros [->|]; congruence.
Qed.

Lemma quiet_retract q st : (forall f, relevant f = true -> q f = false) -> quiet st (retract q st).
Proof.
  intros Hr. split; [by split|]. split; [apply NoDup_retract|].
  intros g Hg. rewrite elem_of_retract, (Hr g Hg). tauto.
Qed.

Lemma quiet_frame st st' : quiet st st' -> frame keep (among []) st st'.
Proof.
  intros (_ & Hn & Hf). split; [done|]. intros f Hr. rewrite (Hf f Hr).
  unfold keep, among. rewrite elem_of_nil. tauto.
Qed.

Lemma quiet_step st st' : quiet st st' -> step st st'.
Proof. intros H. pose proof H as ([] & _). apply step_quiet; [done..| |by apply quiet_frame]. lia. Qed.

Lemma quiet_foldl {A} (h : State -> A -> State) l st :
  (forall s x, quiet s (h s x)) -> quiet st (foldl h st l).
Proof. intros Hh. apply foldl_ind; [apply quiet_refl|]. intros s x _ Hs. by eapply quiet_trans. Qed.

(** One relevant fact more, and quiet changes. *)
Lemma frame_then_quiet rm ad st1 st2 st3 : frame rm ad st1 st2 -> quiet st2 st3 -> frame rm ad st1 st3.
Proof.
  intros [Hn Hd] (_ & Hn' & Hd'). split; [auto|]. intros f Hf. by rewrite (Hd' f Hf), (Hd f Hf).
Qed.

Lemma frame_add f st : frame keep (among [f]) st (add_fact f st).
Proof.
  split; [apply NoDup_add_fact|]. intros g _. rewrite elem_of_add_fact.
  unfold keep, among. rewrite list_elem_of_singleton. tauto.
Qed.

Lemma frame_add2 f g st : frame keep (among [f; g]) st (add_fact f (add_fact g st)).
Proof.
  split; [intros H; by do 2 apply NoDup_add_fact|]. intros h _. rewrite !elem_of_add_fact.
  unfold keep, among. rewrite elem_of_cons, list_elem_of_singleton. tauto.
Qed.

Lemma frame_from rm ad st1 st2 st3 : db st1 = db st2 -> frame rm ad st1 st3 -> frame rm ad st2 st3.
Proof. intros He [Hn Hd]. rewrite He in Hn, Hd. by split. Qed.

(** ** ROAST is quiet *)

Ltac quiet_retract := apply quiet_retract; by intros [].

Lemma quiet_set_latest i x st : quiet st (set_latest_pre_signature_share i x st).
Proof. eapply quiet_trans; [|by apply quiet_add]. quiet_retract. Qed.

Lemma quiet_set_counter x st : quiet st (set_roast_session_counter x st).
Proof. eapply quiet_trans; [|by apply quiet_add]. quiet_retract. Qed.

Lemma quiet_set_sid i x st : quiet st (set_roast_signers_sid i x st).
Proof. eapply quiet_trans; [|by apply quiet_add]. quiet_retract. Qed.

Lemma quiet_set_session i s p h st : quiet st (set_roast_signature_session i s p h st).
Proof. eapply quiet_trans; [|by apply quiet_add]. quiet_retract. Qed.

Lemma quiet_set_active a st : quiet st (set_roast_active a st).
Proof.
  unfold set_roast_active. destruct a as [[[v n] d]|]; [eapply quiet_trans; [|by apply quiet_add]|]; quiet_retract.
Qed.

Lemma quiet_store_share i share st st' : store_share i share st = Some st' -> quiet st st'.
Proof.
  unfold store_share. destruct (signer_sids i st) as [|sid l]; [intros [= <-]; apply quiet_refl|].
  destruct (head (filter _ _)) as [[[[? s] p] h]|]; [|done]. simpl. destruct (head _); [|done]. intros [= <-].
  apply quiet_set_session.
Qed.

Lemma quiet_start_session st st' : start_session c aggregate st = Some st' -> quiet st st'.
Proof.
  unfold start_session. case_match; [|intros [= <-]; apply quiet_refl].
  destruct (head _) as [old|]; [|done]. simpl. destruct (aggregate _) as [pre|]; [|done]. intros [= <-].
  eapply quiet_trans; [apply (quiet_set_counter (old + 1))|].
  eapply quiet_trans; [|quiet_retract]. eapply quiet_trans; [|apply quiet_set_session].
  eapply quiet_trans; [|by apply quiet_add]. apply quiet_foldl. intros s i. apply quiet_set_sid.
Qed.

Lemma quiet_receive_sig_share i share next st st' :
  apply_RECEIVE_SIG_SHARE c aggregate i share next st = Some st' -> quiet st st'.
Proof.
  unfold apply_RECEIVE_SIG_SHARE. case_match; [|done].
  set (st0 := if decide _ then _ else _).
  assert (quiet st st0) as H0. { unfold st0. case_decide; [by apply quiet_add|apply quiet_refl]. }
  destruct (store_share i share st0) as [st1|] eqn:H1; [|done]. simpl.
  apply quiet_store_share in H1. case_match.
  - intros [= <-]. by eapply quiet_trans.
  - intros Hss%quiet_start_session. do 2 (eapply quiet_trans; [eassumption|]).
    eapply quiet_trans; [|done]. eapply quiet_trans; [|by apply quiet_add]. apply quiet_set_latest.
Qed.

Lemma quiet_roast_init v n d st st' : apply_ROAST_INIT c aggregate v n d st = Some st' -> quiet st st'.
Proof.
  unfold apply_ROAST_INIT. case_match; [|intros [= <-]; apply (quiet_set_active (Some (v, n, d)))].
  set (st0 := set_roast_session_counter _ _).
  assert (quiet st st0) as H0. { eapply quiet_trans; [apply (quiet_set_active (Some (v, n, d)))|apply quiet_set_counter]. }
  intros Hf. eapply quiet_trans; [exact H0|]. revert Hf. generalize (commits v n st0). intros l.
  clearbody st0. clear H0. revert st0. induction l as [|[k data] l IH]; intros st0; cbn [foldl].
  - intros [= <-]. apply quiet_refl.
  - simpl. destruct (apply_RECEIVE_SIG_SHARE _ _ _ _ _ st0) as [st1|] eqn:H1.
    + intros Hf. eapply quiet_trans; [by eapply quiet_receive_sig_share|]. by apply IH.
    + intros Hf. exfalso. clear -Hf. induction l as [|[k' data'] l IH]; [done|]. simpl in Hf. auto.
Qed.

(** ** The other actions *)

(** What an action of the list satisfies. *)
Definition precondition (now : float) (a : Action) (st : State) : Prop :=
  match a with
  | EXECUTE d v n => (d, v, n) ∈ pre_EXECUTE c st
  | SEND_COMMIT d v n => (d, v, n) ∈ pre_SEND_COMMIT c st
  | SEND_PREPARE d v n => (d, v, n) ∈ pre_SEND_PREPARE c st
  | SEND_PRE_PREPARE d v n => (d, v, n) ∈ pre_SEND_PRE_PREPARE c now st
  | SEND_VIEW_CHANGE v => v ∈ pre_SEND_VIEW_CHANGE now st
  | RECOVER_VIEW v => pre_RECOVER_VIEW c st = Some v
  | SEND_NEW_VIEW nu chi => exists chi0,
      pre_SEND_NEW_VIEW c st = Some (nu, chi0) /\ chi_from_plterm unbound_text chi0 = Some chi
  | PROCESS_NEW_VIEW hi nu chi => (hi, nu, chi) ∈ pre_PROCESS_NEW_VIEW c st
  | ROAST_INIT d v n => (d, v, n) ∈ pre_ROAST_INIT c st
  end.

Lemma active_precondition now a st :
  a ∈ active_actions c unbound_text now st <-> precondition now a st.
Proof.
  clear digest_view_change aggregate sent verify block_timestamp request_digest. unfold active_actions. rewrite !elem_of_app, !list_elem_of_fmap. split.
  - intros [(([d v] & n) & -> & H)|[(([d v] & n) & -> & H)|[(([d v] & n) & -> & H)|[(([d v] & n) & -> & H)|
      [(v & -> & H)|[H|[H|[(([hi nu] & chi) & -> & H)|(([d v] & n) & -> & H)]]]]]]]]; try done.
    + destruct (pre_RECOVER_VIEW c st) eqn:Hr; [|by apply not_elem_of_nil in H].
      by apply list_elem_of_singleton in H as ->.
    + destruct (pre_SEND_NEW_VIEW c st) as [[nu chi0]|] eqn:Hr; [|by apply not_elem_of_nil in H].
      destruct (chi_from_plterm _ _) eqn:Hc; [|by apply not_elem_of_nil in H].
      apply list_elem_of_singleton in H as ->. simpl. eauto.
  - destruct a; simpl; intros H; try (destruct H as (chi0 & -> & ->)); rewrite ?H, ?list_elem_of_singleton;
      intuition eauto 12 using list_elem_of_singleton.
    all: try (match goal with H : (?d, ?v, ?n) ∈ _ |- _ => first
      [ left; exists (d, v, n); done | right; left; exists (d, v, n); done
      | do 2 right; left; exists (d, v, n); done | do 3 right; left; exists (d, v, n); done
      | do 7 right; left; exists (d, v, n); done | do 8 right; exists (d, v, n); done ] end).
Qed.

Lemma apply_EXECUTE_db d n sv st : db (apply_EXECUTE d n sv st) = db st.
Proof. unfold apply_EXECUTE. by destruct (head _) as [[]|]. Qed.

Lemma apply_EXECUTE_fields d n sv st :
  view (apply_EXECUTE d n sv st) = view st /\ active_view (apply_EXECUTE d n sv st) = active_view st /\
  seqno (apply_EXECUTE d n sv st) = seqno st /\ last_rep st <= last_rep (apply_EXECUTE d n sv st).
Proof.
  unfold apply_EXECUTE. destruct (head _) as [[d' t]|] eqn:Hh; [|repeat split; lia].
  apply head_Some_elem_of, list_elem_of_filter in Hh as [[_ Ht] _]. simpl. repeat split; lia.
Qed.

Lemma step_execute d n sv st : step st (apply_EXECUTE d n sv st).
Proof.
  clear digest_view_change aggregate unbound_text.
  destruct (apply_EXECUTE_fields d n sv st) as (Hv & Ha & Hs & Hl). apply step_quiet; [done..|].
  split; rewrite apply_EXECUTE_db; [done|]. intros f _. unfold keep, among. rewrite elem_of_nil. tauto.
Qed.

Lemma step_commit d v n b st st' :
  (d, v, n) ∈ pre_SEND_COMMIT c st -> apply_SEND_COMMIT c v n b st = Some st' -> step st st'.
Proof.
  intros [[[-> _]%in_wv_spec _] Hp]%list_elem_of_filter [= <-]. eapply step_send_commit; [exact Hp|by split|].
  eapply frame_then_quiet; [apply frame_add|by apply quiet_add].
Qed.

Lemma step_prepare d v n st st' :
  (d, v, n) ∈ pre_SEND_PREPARE c st -> apply_SEND_PREPARE c d v n st = Some st' -> step st st'.
Proof.
  unfold pre_SEND_PREPARE. destruct (_ =? _) eqn:Hp; [by intros ?%not_elem_of_nil|]. apply Z.eqb_neq in Hp.
  intros [[[-> (h & Hh & Hn)]%in_wv_spec _] Hpp]%list_elem_of_filter [= <-].
  eapply (step_send_prepare _ _ n d h); [done|done|lia|done|by split|apply frame_add2].
Qed.

Lemma step_pre_prepare now d b v n st st' :
  (d, v, n) ∈ pre_SEND_PRE_PREPARE c now st -> apply_SEND_PRE_PREPARE c d b v n st = Some st' -> step st st'.
Proof.
  unfold pre_SEND_PRE_PREPARE. destruct (active_view st) eqn:Ha; [|by intros ?%not_elem_of_nil].
  destruct (primary c (view st) =? me) eqn:Hp; [|by intros ?%not_elem_of_nil]. apply Z.eqb_eq in Hp.
  destruct (in_wv (view st) (seqno st + 1) st); [|by intros ?%not_elem_of_nil]. cbn [andb].
  intros ([d' t] & Hin & _)%list_elem_of_bind [= <-].
  destruct (_ && _); [|by apply not_elem_of_nil in Hin]. apply list_elem_of_singleton in Hin. simplify_eq.
  eapply (step_send_pre_prepare _ _ d' b); [done..|]. by eapply frame_from, frame_add2.
Qed.

Lemma step_recover v st st' : pre_RECOVER_VIEW c st = Some v -> apply_RECOVER_VIEW c v st = Some st' -> step st st'.
Proof.
  intros Hp [= <-]. apply (step_recover_view _ _ v); [done..|]. apply (frame_from _ _ (set_view c v st)); [done|].
  split; [apply NoDup_retract|]. intros f _. unfold msg_log_clear_where_view_less_than, among.
  rewrite elem_of_retract, elem_of_nil. tauto.
Qed.

Lemma step_new_view nu chi0 chi st st' :
  pre_SEND_NEW_VIEW c st = Some (nu, chi0) -> chi_from_plterm unbound_text chi0 = Some chi ->
  apply_SEND_NEW_VIEW nu chi st = Some st' -> step st st'.
Proof.
  unfold pre_SEND_NEW_VIEW. destruct (primary c (view st) =? me) eqn:Hp; [|done]. apply Z.eqb_eq in Hp.
  destruct (existsb _ _) eqn:He; [done|]. cbn [andb negb].
  destruct (correct_nu_once c st) as [nu'|]; [|done]. simpl. destruct (correct_chi c nu' st) as [chi'|] eqn:Hc; [|done].
  intros [= -> ->] Hk%chi_from_plterm_keys [= <-].
  apply (step_send_new_view _ _ nu chi); [done| |rewrite Hk; by eapply chi_keys|by split|].
  - intros nu' chi' s Hin. apply not_true_iff_false in He. apply He. apply existsb_exists.
    exists (view st, nu', chi'). split; [|by apply Z.eqb_eq]. apply list_elem_of_In, elem_of_new_views. eauto.
  - split; [intros H; by do 2 apply NoDup_add_fact|]. intros h _. rewrite !elem_of_add_fact.
    unfold keep, among. rewrite elem_of_cons, list_elem_of_singleton. tauto.
Qed.

(** What the precondition says of the new view. *)
Lemma new_view_logged hi nu chi st :
  (hi, nu, chi) ∈ pre_PROCESS_NEW_VIEW c st ->
  active_view st = false /\ NoDup chi.*1.*1 /\ exists s, msg_log_new_view (view st) nu chi s ∈ db st.
Proof.
  clear digest_view_change aggregate unbound_text sent verify block_timestamp request_digest.
  unfold pre_PROCESS_NEW_VIEW. destruct (active_view st) eqn:Ha; [by intros ?%not_elem_of_nil|].
  destruct (get_h st) as [hi'|]; [|by intros ?%not_elem_of_nil].
  intros ([nu' chi'] & Hin & Hc)%list_elem_of_bind.
  destruct (processable _ _ _ _); [|by apply not_elem_of_nil in Hin]. apply list_elem_of_singleton in Hin. simplify_eq.
  apply list_elem_of_bind in Hc as ([[v nu2] chi2] & Hin & [s Hs]%elem_of_new_views).
  destruct (v =? view st) eqn:Hv; [|by apply not_elem_of_nil in Hin]. apply Z.eqb_eq in Hv as ->.
  destruct (correct_nu_all _ _ _); [|by apply not_elem_of_nil in Hin].
  destruct (correct_chi c nu2 st) as [l|] eqn:Hc; [|by apply not_elem_of_nil in Hin].
  destruct (chi_instance chi2 l) eqn:Hk; [|by apply not_elem_of_nil in Hin].
  apply list_elem_of_singleton in Hin. injection Hin as <- <-. apply chi_instance_keys in Hk. apply chi_keys in Hc.
  split; [done|]. split; [by rewrite Hk|by exists s].
Qed.

Lemma elem_of_log_new_view v chi f st :
  f ∈ db (log_new_view c v chi st) <-> f ∈ db st \/
    exists n d b, (n, d, b) ∈ chi /\ f = msg_log_pre_prepare v n d b (primary c v) SIG_IN_NEW_VIEW.
Proof.
  clear digest_view_change aggregate unbound_text sent verify block_timestamp request_digest.
  unfold log_new_view.
  rewrite (elem_of_foldl_adds _ (fun x => msg_log_pre_prepare v x.1.1 x.1.2 x.2 (primary c v) SIG_IN_NEW_VIEW))
    by (by intros ? [[] ?]).
  split; (intros [|H]; [by left|right]); [destruct H as ([[n d] b] & H)|destruct H as (n & d & b & H)]; by repeat eexists; apply H.
Qed.

Lemma elem_of_prepare_new_view v chi f st :
  f ∈ db (prepare_new_view c v chi st) <-> f ∈ db st \/
    exists n d b, (n, d, b) ∈ chi /\ (f = msg_log_prepare v n d me SIG_OWN_REPLICA \/ f = msg_out_prepare v n d).
Proof.
  clear digest_view_change aggregate unbound_text sent verify block_timestamp request_digest.
  unfold prepare_new_view.
  rewrite (elem_of_foldl_adds _ (fun x => msg_out_prepare v x.1.1 x.1.2)) by (by intros ? [[] ?]).
  rewrite (elem_of_foldl_adds _ (fun x => msg_log_prepare v x.1.1 x.1.2 me SIG_OWN_REPLICA)) by (by intros ? [[] ?]). split.
  - intros [[|([[n d] b] & Hx & ->)]|([[n d] b] & Hx & ->)]; [by left|right..]; exists n, d, b; auto.
  - intros [|(n & d & b & Hx & [->| ->])]; [by left; left|left; right|right]; by exists (n, d, b).
Qed.

Lemma NoDup_new_view v chi st :
  NoDup (db st) -> NoDup (db (log_new_view c v chi st)) /\ NoDup (db (prepare_new_view c v chi st)).
Proof.
  clear digest_view_change aggregate unbound_text sent verify block_timestamp request_digest.
  intros H. split; [unfold log_new_view|unfold prepare_new_view];
    repeat (apply foldl_ind; [|intros s' [[] ?] _ H'; by apply NoDup_add_fact]); done.
Qed.

Lemma step_process hi nu chi st st' :
  (hi, nu, chi) ∈ pre_PROCESS_NEW_VIEW c st -> apply_PROCESS_NEW_VIEW c hi chi st = Some st' -> step st st'.
Proof.
  intros (Ha & Hk & s & Hs)%new_view_logged [= <-].
  set (st1 := log_new_view c (view st) chi (set_active_view true st)).
  set (ns := mbind _ _). set (st2 := set_seqno _ st1).
  assert (Hst1 : same (set_active_view true st) st1) by apply same_log_new_view.
  assert (Hsame : same st2 (if primary c (view st) =? me then st2 else prepare_new_view c (view st) chi st2)).
  { case_match; [apply same_refl|apply same_prepare_new_view]. }
  apply (step_process_new_view _ _ nu chi s); [done..| | | | |].
  - etrans; [apply (same_view _ _ Hsame)|exact (same_view _ _ Hst1)].
  - etrans; [apply (same_active _ _ Hsame)|exact (same_active _ _ Hst1)].
  - etrans; [apply (same_last_rep _ _ Hsame)|exact (same_last_rep _ _ Hst1)].
  - intros n d b Hin. rewrite (same_seqno _ _ Hsame). simpl.
    assert (n ∈ ns) as Hn.
    { apply list_elem_of_bind. exists (view st, n, d, b, primary c (view st)). rewrite Z.eqb_refl.
      split; [by apply list_elem_of_singleton|]. apply elem_of_pre_prepares. exists SIG_IN_NEW_VIEW.
      apply elem_of_log_new_view. right. by exists n, d, b. }
    destruct (max_list ns) as [m|] eqn:Hm; [by apply (max_list_spec ns)|].
    by destruct ns; [apply not_elem_of_nil in Hn|].
  - split.
    + intros H. destruct (primary c (view st) =? me); [|apply NoDup_new_view; change (NoDup (db st1))];
        by apply (NoDup_new_view _ _ (set_active_view true st)).
    + intros f _. unfold keep. destruct (primary c (view st) =? me) eqn:Hp; [apply Z.eqb_eq in Hp|apply Z.eqb_neq in Hp].
      * change (db st2) with (db st1). unfold st1. rewrite elem_of_log_new_view. simpl. tauto.
      * rewrite elem_of_prepare_new_view. change (db st2) with (db st1). unfold st1. rewrite elem_of_log_new_view. simpl. tauto.
Qed.

(** The view change meets the prepares of the log as they were. *)
Lemma quorum_kept d v n r st :
  (forall f, r f = true -> is_roast_active f || is_Pi f || is_Qi f = true) ->
  prepare_quorum c d v n (retract r st) = prepare_quorum c d v n st.
Proof.
  intros Hr. unfold prepare_quorum, prepare_senders. rewrite findall_retract; [done|].
  intros f Hf%Hr. by destruct f.
Qed.

Lemma view_change_sets st f :
  let st0 := retract is_roast_active st in
  let st2 := update_view_change_Qi c (update_view_change_Pi c st0) in
  f ∈ db st2 ->
  (f ∈ db st /\ is_roast_active f || is_Pi f || is_Qi f = false) \/
  (exists n d v, f = view_change_Pi n d v /\ prepare_quorum c d v n st = true /\ (d, v, n) ∈ pre_prepared_all c st) \/
  (exists n d b v s, f = view_change_Qi n d b v /\ msg_log_pre_prepare v n d b (primary c v) s ∈ db st).
Proof.
  intros st0 st2 [[Hq Hf]|(n & m & b & v & s & -> & Hs)]%elem_of_update_Qi.
  - apply elem_of_update_Pi in Hf as [[Hp Hf]|(m & v & n & -> & Hp & _)].
    + apply elem_of_retract in Hf as [Hr Hf]. left. split; [done|]. by rewrite Hr, Hp, Hq.
    + right; left. exists n, m, v. split; [done|]. apply elem_of_prepared_all in Hp as [[Hp _]%elem_of_retract|[Hp Hpp]]; [done|].
      unfold no_Pi, st0 in Hp. rewrite !quorum_kept in Hp by (intros [] ?; done). split; [done|].
      apply elem_of_pre_prepared_all in Hpp. apply elem_of_pre_prepared_all.
      assert (Hin : forall g, g ∈ db (no_Pi st0) -> g ∈ db st) by (intros g [_ [_ Hg]%elem_of_retract]%elem_of_retract; done).
      destruct Hpp as [[b Hb]|[[t Ht] (b & s & Hs)]]; eauto 10.
  - right; right. exists n, m, b, v, s. split; [done|].
    apply elem_of_update_Pi in Hs as [[_ Hs]|(? & ? & ? & ? & _)]; [|done]. by apply elem_of_retract in Hs as [_ Hs].
Qed.

Lemma view_change_kept st f :
  let st0 := retract is_roast_active st in
  let st2 := update_view_change_Qi c (update_view_change_Pi c st0) in
  relevant f = true -> is_Pi f = false -> is_Qi f = false -> (f ∈ db st2 <-> f ∈ db st).
Proof.
  intros st0 st2 Hr Hp Hq. unfold st2. rewrite elem_of_update_Qi_other, elem_of_update_Pi by done.
  unfold st0. rewrite elem_of_retract. split; [|intros Hf; left; split; [done|]; split; [|done]; by destruct f].
  intros [(_ & _ & Hf)|(m & v & n & -> & _)]; done.
Qed.

Lemma step_view_change now v st st' :
  v ∈ pre_SEND_VIEW_CHANGE now st -> apply_SEND_VIEW_CHANGE c digest_view_change v st = Some st' -> step st st'.
Proof.
  intros Hv. assert (v = view st + 1) as ->.
  { unfold pre_SEND_VIEW_CHANGE in Hv. apply list_elem_of_bind in Hv as ([d t] & Hin & _).
    case_match; [by apply list_elem_of_singleton in Hin|by apply not_elem_of_nil in Hin]. }
  clear Hv. unfold apply_SEND_VIEW_CHANGE.
  set (st0 := set_roast_active None _). set (st2 := update_view_change_Qi c _).
  destruct (get_h st2) as [hi|]; [|done]. simpl. destruct (head _) as [[[? ck] ?]|]; [|done]. intros [= <-].
  assert (Hsame : same st0 st2) by (eapply same_trans; [apply same_update_Pi|apply same_update_Qi]).
  set (vc := msg_log_view_change _ _ _ _ _ _ _ _). set (out := msg_out_view_change _ _ _ _ _).
  apply (step_send_view_change _ _ (fun f => is_Pi f || is_Qi f = true /\ f ∈ db st2)).
  - apply (same_view _ _ Hsame).
  - apply (same_active _ _ Hsame).
  - apply (same_seqno _ _ Hsame).
  - apply (same_last_rep _ _ Hsame).
  - intros f [Hf [[_ H]|H]%view_change_sets]; [|done]. change (retract _ _) with (retract is_roast_active st) in *.
    rewrite <- orb_assoc, orb_false_iff in H. destruct H; congruence.
  - split.
    + intros H. apply NoDup_retract, NoDup_add_fact, NoDup_add_fact, NoDup_update_Qi, NoDup_update_Pi, NoDup_retract, H.
    + intros f Hf. unfold msg_log_clear_where_view_less_than. rewrite elem_of_retract, !elem_of_add_fact.
      rewrite !orb_false_iff. destruct (is_Pi f || is_Qi f) eqn:Hpq.
      * assert (of_lower_view (view st + 1) f = false) by by destruct f. apply orb_true_iff in Hpq.
        split; [|intros [[[[] ?] ?]|[_ Hin]]; [by destruct Hpq; congruence|tauto]].
        intros (_ & [->|[->|Hin]]); [done..|]. right. by split.
      * apply orb_false_iff in Hpq as [Hp Hq].
        pose proof (view_change_kept (set_active_view false (set_view c (view st + 1) st)) f Hf Hp Hq) as Hk.
        change (f ∈ db st2 <-> f ∈ db st) in Hk. rewrite Hk, Hp, Hq. split; [|intros [[[[] ?] ?]|[? _]]; [tauto|done]].
        intros (Ho & [->|[->|Hin]]); [done..|]. left. tauto.
Qed.

(** ** The messages received, the requests and the blocks *)

Lemma step_incoming_pre_prepare v n d b k s st st' :
  sent k (PrePrepare v n d b) -> verify k (PrePrepare v n d b) s = true ->
  apply_RECEIVE_PRE_PREPARE c v n d b k s st = Some st' -> step st st'.
Proof.
  intros Hs Hk. unfold apply_RECEIVE_PRE_PREPARE. set (l := filter _ _).
  destruct (negb _) eqn:Hme; [|done]. destruct (_ =? k) eqn:Hp; [|done]. destruct (in_wv v n st) eqn:Hw; [|done].
  destruct (active_view st) eqn:Ha; [|done]. cbn [andb]. apply Z.eqb_eq in Hp. apply in_wv_spec in Hw as [-> _].
  apply negb_true_iff, Z.eqb_neq in Hme. destruct (_ || _) eqn:Hl; [|done]. intros [= <-].
  eapply (step_receive_pre_prepare _ _ n d b k s); [done|done|by split|  |by split|apply frame_add].
  assert (Hin : forall d' b', (view st, n, d', b', k) ∈ l <-> exists s', msg_log_pre_prepare (view st) n d' b' k s' ∈ db st).
  { intros d' b'. unfold l. rewrite list_elem_of_filter, elem_of_pre_prepares. naive_solver. }
  apply orb_true_iff in Hl as [Hl%bool_decide_eq_true|Hl].
  - left. intros d' b' s' H. assert (H' : (view st, n, d', b', k) ∈ l) by (apply Hin; eauto).
    rewrite Hl in H'. by apply not_elem_of_nil in H'.
  - right. apply existsb_exists in Hl as ([[[[v' n'] d'] b'] k'] & Hl%list_elem_of_In & ->%bool_decide_eq_true).
    pose proof Hl as [Heq _]%list_elem_of_filter. simplify_eq. exists b'. by apply Hin.
Qed.

Lemma step_incoming_prepare v n d k s st st' :
  sent k (Prepare v n d) -> verify k (Prepare v n d) s = true ->
  apply_RECEIVE_PREPARE c v n d k s st = Some st' -> step st st'.
Proof.
  intros Hs Hk. unfold apply_RECEIVE_PREPARE.
  destruct (k =? me) eqn:Hme; [done|]. destruct (_ =? k) eqn:Hp; [done|]. destruct (in_wv v n st) eqn:Hw; [|done].
  intros [= <-]. apply Z.eqb_neq in Hme, Hp. apply in_wv_spec in Hw as [-> _].
  eapply (step_receive_prepare _ _ n d k s); [done|by split|by split|apply frame_add].
Qed.

Lemma step_incoming_commit v n b k s st st' :
  sent k (Commit v n b) -> verify k (Commit v n b) s = true ->
  apply_RECEIVE_COMMIT c aggregate v n b k s st = Some st' -> step st st'.
Proof.
  intros Hs Hk. unfold apply_RECEIVE_COMMIT. destruct (k =? me) eqn:Hme; [done|]. apply Z.eqb_neq in Hme.
  destruct (in_wv v n st).
  - assert (H0 : quiet st (add_fact (msg_log_commit v n b k s) st)) by by apply quiet_add.
    destruct (_ && _); [|intros [= <-]; by apply quiet_step].
    intros H%quiet_receive_sig_share. apply quiet_step. by eapply quiet_trans.
  - destruct (view st <? v) eqn:Hv; [|done]. apply Z.ltb_lt in Hv. intros [= <-].
    eapply (step_recovery_commit _ _ v n b k s); [done|by split|by split|apply frame_add].
Qed.

Lemma step_incoming_view_change v hi ck p q k s st st' :
  apply_RECEIVE_VIEW_CHANGE c digest_view_change v hi ck p q k s st = Some st' -> step st st'.
Proof.
  unfold apply_RECEIVE_VIEW_CHANGE. case_match; [|done]. intros [= <-]. by apply quiet_step, quiet_add.
Qed.

Lemma step_incoming_new_view v nu chi k s st st' :
  sent k (NewView v nu chi) -> verify k (NewView v nu chi) s = true ->
  apply_RECEIVE_NEW_VIEW c v nu chi k s st = Some st' -> step st st'.
Proof.
  intros Hs Hk. unfold apply_RECEIVE_NEW_VIEW. destruct (k =? me) eqn:Hme; [done|]. apply Z.eqb_neq in Hme.
  destruct (0 <? v) eqn:H0; [|done]. destruct (v <=? view st) eqn:Hv; [|done].
  destruct (k =? primary c v) eqn:Hp; [|done]. cbn [andb negb].
  apply Z.ltb_lt in H0. apply Z.leb_le in Hv. apply Z.eqb_eq in Hp as ->.
  case_match; intros [= <-]; [apply quiet_step, quiet_refl|].
  eapply (step_receive_new_view _ _ v nu chi s); [done|by split|by split|apply frame_add].
Qed.

Lemma step_of_receive w now tolerance m k s st st' :
  sent k m -> verify k m s = true ->
  receive c digest_view_change aggregate w now tolerance m k s st = Some st' -> step st st'.
Proof.
  intros Hs Hk. destruct m; cbn [receive].
  - unfold ReceivePrePrepare_effect. destruct (TestBlockValidity _ _ _); [|done].
    destruct (FindByDigest _ _) as [[? t]|]; [|done]. simpl.
    destruct (_ =? t); [done|]. destruct (_ <? _); [done|].
    by apply step_incoming_pre_prepare.
  - by apply step_incoming_prepare.
  - by apply step_incoming_commit.
  - apply step_incoming_view_change.
  - by apply step_incoming_new_view.
  - unfold ReceivePreSignature_effect, apply_RECEIVE_PRE_SIGNATURE. destruct (head _) as [[[v n] d]|]; [|done]. simpl.
    destruct (FindByV_N_Req _ _ _ _); [|done]. simpl. case_bool_decide; [|done]. case_bool_decide; [done|].
    intros [= <-]. by apply quiet_step, quiet_add.
  - intros H%quiet_receive_sig_share. by apply quiet_step.
Qed.

Lemma step_of_effect w now a st st' :
  a ∈ active_actions c unbound_text now st ->
  effect c digest_view_change aggregate w a st = Some st' -> step st st'.
Proof.
  rewrite active_precondition. destruct a; cbn [precondition effect].
  - intros _. unfold Execute_effect. destruct (_ <$> last _); [|done]. simpl. destruct (FindByV_N_Req _ _ _ _); [|done].
    simpl. destruct (FinalizeBlock _ _ _ _); [|done]. simpl. case_bool_decide; [|done]. intros [= <-].
    apply step_execute.
  - apply step_commit.
  - apply step_prepare.
  - destruct (FindByDigest _ _) as [[? t]|]; [|done]. simpl. destruct (GenerateBlock _ _); [|done]. apply step_pre_prepare.
  - apply step_view_change.
  - apply step_recover.
  - intros (chi0 & Hp & Hc). by apply (step_new_view _ chi0).
  - apply step_process.
  - intros _ H%quiet_roast_init. by apply quiet_step.
Qed.

Lemma step_of_request t st st' : 0 <= t -> apply_RECEIVE_REQUEST (request_digest t) t st = Some st' -> step st st'.
Proof.
  intros H0. unfold apply_RECEIVE_REQUEST. destruct (t <=? last_rep st) eqn:Ht; intros [= <-]; [apply quiet_step, quiet_refl|].
  apply Z.leb_gt in Ht. eapply (step_request _ _ t); [done|done|by split|apply frame_add].
Qed.

(** What a block does to the database and to the time of the last reply. *)
Lemma receive_block_effect n t x st st' :
  (forall d t t', msg_log_request d t ∈ db st -> msg_log_request d t' ∈ db st -> t = t') ->
  apply_RECEIVE_BLOCK n t x st = Some st' ->
  exists d, msg_log_request d t ∈ db st /\ last_rep st' = Z.max (last_rep st) t /\
    forall f, f ∈ db st' <-> is_roast f = false /\ garbage n (last_rep st') f = false /\ (f = checkpoint n x t \/ f ∈ db st).
Proof.
  clear digest_view_change aggregate unbound_text.
  intros Hd. unfold apply_RECEIVE_BLOCK. destruct (head _) as [[d u]|] eqn:Hh; [|done]. simpl. intros [= <-].
  apply head_Some_elem_of, list_elem_of_filter in Hh as [-> Hr%elem_of_requests]. exists d. split; [done|].
  set (st1 := apply_EXECUTE d n x st).
  assert (Hlast : last_rep st1 = Z.max (last_rep st) t).
  { unfold st1, apply_EXECUTE. destruct (head _) as [[d' t']|] eqn:Hh.
    - apply head_Some_elem_of, list_elem_of_filter in Hh as [[-> Ht] Hr'%elem_of_requests].
      rewrite (Hd _ _ _ Hr Hr'). simpl. lia.
    - destruct (decide (last_rep st < t)) as [Hlt|]; [exfalso|lia]. apply elem_of_requests in Hr.
      assert (Hin : (d, t) ∈ filter (fun '(d', t) => d' = d /\ last_rep st < t) (requests st)) by by apply list_elem_of_filter.
      destruct (filter _ _); [by apply not_elem_of_nil in Hin|done]. }
  split; [exact Hlast|]. intros f. unfold collect_garbage, roast_collect_garbage.
  change (last_rep (retract is_roast _)) with (last_rep st1). change (last_rep (add_fact _ st1)) with (last_rep st1).
  rewrite !elem_of_retract, elem_of_add_fact. unfold st1 at 2. by rewrite apply_EXECUTE_db.
Qed.

(** The block of a height carries its timestamp; a digest stands for one timestamp. *)
Lemma step_of_block n x st st' :
  (forall d t t', msg_log_request d t ∈ db st -> msg_log_request d t' ∈ db st -> t = t') ->
  apply_RECEIVE_BLOCK n (block_timestamp n) x st = Some st' -> step st st'.
Proof.
  clear digest_view_change aggregate unbound_text.
  intros Hd He. pose proof (receive_block_effect _ _ _ _ _ Hd He) as (d & Hreq & Hlast & Hdb).
  unfold apply_RECEIVE_BLOCK in He. destruct (head _) as [[d' t]|]; [|done]. simpl in He. injection He as <-.
  destruct (apply_EXECUTE_fields d' n x st) as (Hv & Ha & Hs & _).
  eapply (step_block _ _ d n x); [done|exact Hv|exact Ha|exact Hs|exact Hlast|]. split.
  - intros H. apply NoDup_retract, NoDup_retract, NoDup_add_fact. by rewrite apply_EXECUTE_db.
  - intros f Hf. rewrite Hdb. unfold among. rewrite list_elem_of_singleton. split; [tauto|].
    intros [[Hg H]| ->]; [split; [by destruct f|tauto]|]. split; [done|]. split; [simpl; lia|by left].
Qed.

Lemma recover_view_higher v st : pre_RECOVER_VIEW c st = Some v -> view st < v /\ active_view st = true.
Proof.
  unfold pre_RECOVER_VIEW. destruct (active_view st); [|done]. intros [Hin _]%max_list_spec. split; [|done].
  apply list_elem_of_bind in Hin as ([[n x] t] & Hin & _). apply list_elem_of_bind in Hin as ([[v1 n1] k] & Hin & _).
  destruct (_ && _) eqn:Hb; [|by apply not_elem_of_nil in Hin]. apply list_elem_of_singleton in Hin as ->. lia.
Qed.

(** The view never decreases. *)
Lemma step_view st st' : step st st' -> view st <= view st'.
Proof.
  intros [ Hv _ _ _ _|t _ _ [Hv _ _ _] _|d b _ _ Hv _ _ _ _|n d b k s _ _ _ _ [Hv _ _ _] _|n d h0 _ _ _ _ [Hv _ _ _] _
    |n d k s _ _ [Hv _ _ _] _|d n b _ [Hv _ _ _] _|v n b k s _ _ [Hv _ _ _] _|v Hp Hv _ _ _ _|d n x _ Hv _ _ _ _
    |ad Hv _ _ _ _ _|nu chi _ _ _ [Hv _ _ _] _|v nu chi s _ _ [Hv _ _ _] _|nu chi s _ _ _ Hv _ _ _ _]; try lia.
  apply recover_view_higher in Hp as [? _]. lia.
Qed.

End Steps.
