(* ===== verification/EngineInv.v ===== *)
(** * The invariants of one replica

    What holds between the steps of a correct replica, of its state and of the messages
    sent on the network ([said]): its logs hold messages of its view that their senders
    have sent, it prepares one request for a view and a number, and as a primary it
    announces one. *)

From S2P Require Import Prelude PyFloat Engine EngineActions EngineFacts EngineSteps.

(** The fact of the out buffer for a message. *)
Definition out_fact (m : Msg) : Fact :=
  match m with
  | PrePrepare v n d b => msg_out_pre_prepare v n d b
  | Prepare v n d => msg_out_prepare v n d
  | Commit v n b => msg_out_commit v n b
  | ViewChange v hi ck p q => msg_out_view_change v hi ck p q
  | NewView v nu chi => msg_out_new_view v nu chi
  | RoastPreSignature s p => msg_out_roast_pre_signature s p
  | RoastSignatureShare x y => msg_out_roast_signature_share x y
  end.

Definition no_out (st : State) : Prop := forall f, is_out f = true -> f ∉ db st.

Section Invariants.
Context (c : Config).
Context (verify : Z -> Msg -> string -> bool).
Context (block_timestamp : Z -> Z) (request_digest : Z -> string).
Hypothesis timestamps_grow : forall a b, a < b -> block_timestamp a < block_timestamp b.

Abbreviation me := (replica_id c).
Abbreviation step said := (EngineSteps.step c said verify block_timestamp request_digest).

(** ** The height *)

Record heights (h : Z) (st : State) : Prop := {
  h_checkpoint : exists x, checkpoint h x (block_timestamp h) ∈ db st;
  h_only n x t : checkpoint n x t ∈ db st -> n = h;
  h_nonneg : 0 <= h;
  h_last_rep : block_timestamp h <= last_rep st;
  h_requests d t : msg_log_request d t ∈ db st -> block_timestamp h < t /\ 0 <= t /\ d = request_digest t
}.

Lemma heights_get_h h st : heights h st -> get_h st = Some h.
Proof. intros [[x Hx] Ho _ _ _]. eapply get_h_single; eauto. Qed.

(** ** What has been announced and certified *)

Section Said.
Context (said : Z -> Msg -> Prop).

(** A primary announces a request in a pre-prepare or, above view 0, in a new view. *)
Definition announced (k v n : Z) (d : string) : Prop :=
  (exists b, said k (PrePrepare v n d b)) \/
  (0 < v /\ exists nu chi b, said k (NewView v nu chi) /\ (n, d, b) ∈ chi).

(** The signature of a prepare of the log: the mark of the replica, or one that is verified. *)
Definition signed (k : Z) (m : Msg) (s : string) : Prop :=
  (k = me /\ s = SIG_OWN_REPLICA) \/ (k <> me /\ verify k m s = true).

(** What the primary has announced has enough prepares of others, each with a signature;
    one sender counts once for each of its signatures. *)
Definition certificate (d : string) (v n : Z) : Prop :=
  announced (primary c v) v n d /\
  exists l : list (Z * string), NoDup l /\ quorum_prepare c <= Z.of_nat (length l) /\
    forall k s, (k, s) ∈ l -> k <> primary c v /\ said k (Prepare v n d) /\ signed k (Prepare v n d) s.

Definition fact_ok (st : State) (f : Fact) : Prop :=
  match f with
  | msg_log_pre_prepare v n d b k s => v = view st /\ k = primary c v /\ announced k v n d
  | msg_log_prepare v n d k s =>
      v = view st /\ k <> primary c v /\ said k (Prepare v n d) /\ signed k (Prepare v n d) s
  | msg_log_new_view v nu chi s => said (primary c v) (NewView v nu chi)
  | msg_log_commit_view_recovery v n k => k <> me /\ exists b, said k (Commit v n b)
  | view_change_Qi n d b v => v < view st /\ announced (primary c v) v n d
  | view_change_Pi n d v => v < view st /\ certificate d v n
  | _ => True
  end.

Record logs (st : State) : Prop := {
  l_nodup : NoDup (db st);
  l_view : 0 <= view st /\ (active_view st = false -> 0 < view st);
  l_fact f : f ∈ db st -> fact_ok st f
}.

(** Between entering a view and processing its new view, a replica is silent. *)
Record idle (st : State) : Prop := {
  i_log v n d b k s : active_view st = false -> msg_log_pre_prepare v n d b k s ∉ db st;
  i_pre_prepare n d b : active_view st = false -> ~ said me (PrePrepare (view st) n d b);
  i_prepare n d : active_view st = false -> ~ said me (Prepare (view st) n d)
}.

(** The announcements of the replica when it is the primary. *)
Record announcer (st : State) : Prop := {
  a_pre_prepare v n d b : said me (PrePrepare v n d b) ->
    v <= view st /\ primary c v = me /\ (v = view st -> n <= seqno st);
  a_new_view v nu chi : said me (NewView v nu chi) ->
    v <= view st /\ primary c v = me /\ NoDup chi.*1.*1 /\
    (v = view st -> exists s, msg_log_new_view v nu chi s ∈ db st) /\
    (v = view st -> active_view st = true -> 0 < v -> forall n d b, (n, d, b) ∈ chi -> n <= seqno st);
  a_new_view_unique v nu nu' chi chi' :
    said me (NewView v nu chi) -> said me (NewView v nu' chi') -> chi = chi';
  a_active : active_view st = true -> 0 < view st -> primary c (view st) = me ->
    exists nu chi, said me (NewView (view st) nu chi);
  a_unique v n d d' : announced me v n d -> announced me v n d' -> d = d'
}.

(** What the replica prepares, at height [h]. *)
Record preparer (h : Z) (st : State) : Prop := {
  p_unique v n d d' : said me (Prepare v n d) -> said me (Prepare v n d') -> d = d';
  p_prepare v n d : said me (Prepare v n d) ->
    v <= view st /\ primary c v <> me /\
    (v = view st -> h < n -> exists b s, msg_log_pre_prepare v n d b (primary c v) s ∈ db st);
  p_log v n d d' b b' k k' s s' :
    msg_log_pre_prepare v n d b k s ∈ db st -> msg_log_pre_prepare v n d' b' k' s' ∈ db st -> d = d';
  p_commit v n b : said me (Commit v n b) -> exists n' d', announced (primary c v) v n' d'
}.

End Said.

Lemma l_pre_prepare said st : logs said st -> forall v n d b k s, msg_log_pre_prepare v n d b k s ∈ db st ->
  v = view st /\ k = primary c v /\ announced said k v n d.
Proof. intros H v n d b k s Hf. exact (l_fact _ _ H _ Hf). Qed.

Lemma l_prepare said st : logs said st -> forall v n d k s, msg_log_prepare v n d k s ∈ db st ->
  v = view st /\ k <> primary c v /\ said k (Prepare v n d) /\ signed k (Prepare v n d) s.
Proof. intros H v n d k s Hf. exact (l_fact _ _ H _ Hf). Qed.

Lemma l_new_view said st : logs said st -> forall v nu chi s, msg_log_new_view v nu chi s ∈ db st ->
  said (primary c v) (NewView v nu chi).
Proof. intros H v nu chi s Hf. exact (l_fact _ _ H _ Hf). Qed.

Lemma l_recovery said st : logs said st -> forall v n k, msg_log_commit_view_recovery v n k ∈ db st ->
  k <> me /\ exists b, said k (Commit v n b).
Proof. intros H v n k Hf. exact (l_fact _ _ H _ Hf). Qed.

Lemma l_Qi said st : logs said st -> forall n d b v, view_change_Qi n d b v ∈ db st ->
  v < view st /\ announced said (primary c v) v n d.
Proof. intros H n d b v Hf. exact (l_fact _ _ H _ Hf). Qed.

Lemma l_Pi said st : logs said st -> forall n d v, view_change_Pi n d v ∈ db st ->
  v < view st /\ certificate said d v n.
Proof. intros H n d v Hf. exact (l_fact _ _ H _ Hf). Qed.

Lemma announced_mono (said said' : Z -> Msg -> Prop) k v n d :
  (forall k m, said k m -> said' k m) -> announced said k v n d -> announced said' k v n d.
Proof. intros H [[b Hb]|(H0 & nu & chi & b & Hn & Hin)]; [left|right]; eauto 10. Qed.

Lemma certificate_mono (said said' : Z -> Msg -> Prop) d v n :
  (forall k m, said k m -> said' k m) -> certificate said d v n -> certificate said' d v n.
Proof.
  intros H [Ha (l & Hl & Hq & Hk)]. split; [by eapply announced_mono|].
  exists l. split; [done|]. split; [done|]. intros k s Hin. destruct (Hk k s Hin) as (? & ? & ?). auto.
Qed.

(** ** Prepared requests have certificates *)

Lemma NoDup_omap_inj {A B} (f : A -> option B) (l : list A) :
  NoDup l -> (forall x y z, x ∈ l -> y ∈ l -> f x = Some z -> f y = Some z -> x = y) -> NoDup (omap f l).
Proof.
  induction 1 as [|x l Hx Hl IH]; intros Hinj; [constructor|]. csimpl.
  assert (IH' : NoDup (omap f l)) by (apply IH; intros; eapply Hinj; eauto; by right).
  destruct (f x) as [z|] eqn:Hz; [|done]. constructor; [|done].
  intros (y & Hy & Hfy)%list_elem_of_omap. apply Hx.
  rewrite (Hinj x y z); [done|left|by right|done|done].
Qed.

(** The senders of the prepares with their signatures. *)
Definition signed_prepares (v n : Z) (d : string) (st : State) : list (Z * string) :=
  findall (fun f => match f with
                    | msg_log_prepare v' n' d' k s => if bool_decide ((v', n', d') = (v, n, d)) then Some (k, s) else None
                    | _ => None end) st.

Lemma elem_of_signed_prepares v n d k s st :
  (k, s) ∈ signed_prepares v n d st <-> msg_log_prepare v n d k s ∈ db st.
Proof.
  unfold signed_prepares. rewrite elem_of_findall. split.
  - intros (f & Hf & H). destruct f; try done. case_bool_decide; naive_solver.
  - intros H. exists (msg_log_prepare v n d k s). split; [exact H|]. simpl. by rewrite bool_decide_true.
Qed.

Lemma signed_prepares_NoDup v n d st : NoDup (db st) -> NoDup (signed_prepares v n d st).
Proof.
  intros Hn. apply NoDup_omap_inj; [done|].
  intros f g z _ _ Hf Hg. destruct f; try done. destruct g; try done. repeat case_bool_decide; naive_solver.
Qed.

Lemma signed_prepares_senders v n d st : (signed_prepares v n d st).*1 = prepare_senders v n d st.
Proof.
  unfold signed_prepares, prepare_senders, findall. induction (db st) as [|f l IH]; [done|].
  destruct f; simpl; try exact IH. destruct (bool_decide _); simpl; [by f_equal|exact IH].
Qed.

Lemma log_certificate said d v n st :
  logs said st -> prepare_quorum c d v n st = true -> (d, v, n) ∈ pre_prepared_all c st -> certificate said d v n.
Proof.
  intros Hl Hq Hp. split.
  - apply elem_of_pre_prepared_all in Hp as [[b Hb]|[_ (b & s & Hs)]].
    + by apply (l_Qi _ _ Hl) in Hb as [_ ?].
    + by apply (l_pre_prepare _ _ Hl) in Hs as (_ & _ & ?).
  - exists (signed_prepares v n d st). split; [apply signed_prepares_NoDup, (l_nodup _ _ Hl)|]. apply Z.leb_le in Hq.
    rewrite <- signed_prepares_senders, length_fmap in Hq. split; [done|].
    intros k s Hs%elem_of_signed_prepares. by apply (l_prepare _ _ Hl) in Hs as (_ & ? & ? & ?).
Qed.

Lemma prepared_certificate said d v n st :
  logs said st -> (d, v, n) ∈ prepared_all c st -> certificate said d v n.
Proof.
  intros Hl [Hp|[Hq Hp]]%elem_of_prepared_all; [by apply (l_Pi _ _ Hl) in Hp as [_ ?]|by eapply log_certificate].
Qed.

Lemma pre_prepared_view said d v n st :
  logs said st -> (d, v, n) ∈ pre_prepared_all c st ->
  v < view st \/ v = view st /\ exists b s, msg_log_pre_prepare v n d b (primary c v) s ∈ db st.
Proof.
  intros Hl [[b Hb]|[_ (b & s & Hs)]]%elem_of_pre_prepared_all.
  - left. by apply (l_Qi _ _ Hl) in Hb as [? _].
  - right. pose proof Hs as Hs'. apply (l_pre_prepare _ _ Hl) in Hs' as (-> & _ & _). eauto.
Qed.

(** ** The steps keep the invariants *)

(** A fact of the new database is an old one or one that the step asserts. *)
Ltac new_fact H :=
  unfold among in H; cbn [out_fact] in H; rewrite ?elem_of_cons, ?elem_of_nil in H;
  repeat match type of H with _ \/ _ => destruct H as [H|H] | False => destruct H end;
  try discriminate H; simplify_eq.

Ltac old_or_new F H :=
  apply (fr_db _ _ _ _ F) in H; [|reflexivity];
  destruct H as [[_ H]|H]; [|first [now new_fact H | new_fact H | idtac]].

Lemma heights_frame h rm ad st st' :
  heights h st -> frame rm ad st st' -> last_rep st <= last_rep st' ->
  (forall n x t, rm (checkpoint n x t) = false) ->
  (forall n x t, ~ ad (checkpoint n x t)) ->
  (forall d t, ad (msg_log_request d t) -> last_rep st < t /\ 0 <= t /\ d = request_digest t) ->
  heights h st'.
Proof.
  intros [[x Hx] Ho Hn Hl Hr] F Hle Hrm Had Hadr. split; [| |done|lia|].
  - exists x. apply (fr_db _ _ _ _ F); [done|]. left. by rewrite Hrm.
  - intros n y t H. apply (fr_db _ _ _ _ F) in H as [[_ H]|H]; [by eapply Ho|by apply Had in H|done].
  - intros d t H. apply (fr_db _ _ _ _ F) in H as [[_ H]|H]; [by apply Hr|apply Hadr in H; split; [lia|tauto]|done].
Qed.

Lemma heights_step said h st st' :
  heights h st -> step said st st' -> exists h', h <= h' /\ heights h' st'.
Proof.
  intros Hh Hs.
  assert (Hq : forall rm ad, frame rm ad st st' -> last_rep st <= last_rep st' ->
    (forall n x t, rm (checkpoint n x t) = false) -> (forall n x t, ~ ad (checkpoint n x t)) ->
    (forall d t, ad (msg_log_request d t) -> last_rep st < t /\ 0 <= t /\ d = request_digest t) ->
    exists h', h <= h' /\ heights h' st').
  { intros rm ad F ????. exists h. split; [lia|]. by eapply heights_frame. }
  destruct Hs as [ Hv Ha Hsq Hl F|t Hpos Ht Hsm F|d b Ha Hp Hv Ha' Hsq Hl F|n d b k s Ha Hp Hin Hlog Hsm F|n d h0 Hp Hg Hn Hpp Hsm F
    |n d k s Hp Hin Hsm F|d n b Hp Hsm F|v n b k s Hv Hin Hsm F|v Hp Hv Ha Hsq Hl F|d n x Hd Hv Ha Hsq Hl F
    |ad Hv Ha Hsq Hl Had F|nu chi Hp Hlog Hk Hsm F|v nu chi s Hv Hin Hsm F|nu chi s Ha Hlog Hk Hv Ha' Hl Hsq F].
  10: { (* a block *)
    destruct Hh as [[x0 Hx0] Ho Hn Hlr Hr]. apply Hr in Hd as (Hlt & _ & ->).
    assert (h < n). { apply Z.nle_gt. intros Hle. destruct (decide (n = h)) as [->|]; [lia|].
      assert (n < h) as H%timestamps_grow by lia. lia. }
    exists n. split; [lia|]. split; [| |lia|lia|].
    - exists x. apply (fr_db _ _ _ _ F); [done|]. right. by apply list_elem_of_singleton.
    - intros n1 y t H1. apply (fr_db _ _ _ _ F) in H1 as [[Hrm H1]|H1]; [|by new_fact H1|done].
      rewrite (Ho _ _ _ H1) in Hrm. simpl in Hrm. lia.
    - intros d t H1. apply (fr_db _ _ _ _ F) in H1 as [[Hrm H1]|H1]; [|by new_fact H1|done].
      apply Hr in H1 as (_ & ? & ->). split; [|done]. simpl in Hrm. lia. }
  all: try (destruct Hsm as [? ? ? Hl]); eapply Hq; [exact F|lia|by intros| |];
    try (intros n' x' t' H; by new_fact H); try (intros d' t' H; by new_fact H).
  - intros n x t [(? & ? & ? & ? & _)|(? & ? & ? & ? & ? & ? & _)]%Had; done.
  - intros d t [(? & ? & ? & ? & _)|(? & ? & ? & ? & ? & ? & _)]%Had; done.
  - intros n x t [(? & ? & ? & _ & ?)|(_ & ? & ? & ? & _ & [?|?])]; done.
  - intros d t [(? & ? & ? & _ & ?)|(_ & ? & ? & ? & _ & [?|?])]; done.
Qed.

(** What is said once the messages of the step are out. *)
Definition saying (said : Z -> Msg -> Prop) (st' : State) (k : Z) (m : Msg) : Prop :=
  said k m \/ (k = me /\ out_fact m ∈ db st').

Lemma saying_mono said st' k m : said k m -> saying said st' k m.
Proof. by left. Qed.

Lemma fact_ok_mono (said said' : Z -> Msg -> Prop) st st' f :
  (forall k m, said k m -> said' k m) ->
  view st' = view st \/ (view st < view st' /\ of_lower_view (view st') f = false) ->
  fact_ok said st f -> fact_ok said' st' f.
Proof.
  intros Hs Hv. assert (Hm : forall v, v < view st -> v < view st') by (intros; lia).
  destruct f; simpl; try done.
  - intros (-> & ? & ?). destruct Hv as [->|[Hlt Hv]]; [|simpl in Hv; lia]. split; [done|]. split; [done|]. by eapply announced_mono.
  - intros (-> & ? & ? & ?). destruct Hv as [->|[Hlt Hv]]; [|simpl in Hv; lia]. auto.
  - intros [? [b ?]]. eauto.
  - intros ?. auto.
  - intros [? ?]. split; [auto|]. by eapply certificate_mono.
  - intros [? ?]. split; [auto|]. by eapply announced_mono.
Qed.

(** The cases of a step, the frame always named [F]. *)
Ltac case_step Hs :=
  destruct Hs as [Hv Ha Hsq Hl' F|t Hpos Ht [Hv Ha Hsq Hl'] F|d b Ha' Hp Hv Ha Hsq Hl' F
    |n d b k s Ha' Hp (Hk & Hsd & Hvf) Hlog [Hv Ha Hsq Hl'] F|n d h0 Hp Hg Hn Hpp [Hv Ha Hsq Hl'] F
    |n d k s Hp (Hk & Hsd & Hvf) [Hv Ha Hsq Hl'] F|d n b Hp [Hv Ha Hsq Hl'] F
    |v n b k s Hvv (Hk & Hsd & Hvf) [Hv Ha Hsq Hl'] F
    |v Hp Hv Ha Hsq Hl' F|d n x Hd Hv Ha Hsq Hl' F
    |ad Hv Ha Hsq Hl' Had F|nu chi Hp Hlog Hk [Hv Ha Hsq Hl'] F
    |v nu chi s Hvv (Hk & Hsd & Hvf) [Hv Ha Hsq Hl'] F|nu chi s Ha' Hlog Hk Hv Ha Hl' Hsq F].

Lemma logs_step said st st' : logs said st -> step said st st' -> logs (saying said st') st'.
Proof.
  intros Hl Hs. pose proof (saying_mono said st') as Hm.
  assert (Hout : forall m, out_fact m ∈ db st' -> saying said st' me m) by (intros m H; by right).
  assert (Hq : forall rm ad, frame rm ad st st' ->
    (view st' = view st \/ view st < view st' /\ forall f, rm f = false -> of_lower_view (view st') f = false) ->
    (active_view st' = false -> view st < view st' \/ active_view st = false) ->
    (forall f, ad f -> f ∈ db st' -> fact_ok (saying said st') st' f) -> logs (saying said st') st').
  { intros rm ad F Hv Ha Hf. destruct Hl as [Hn [H0 H1] Hok]. split.
    - by apply (fr_nodup _ _ _ _ F).
    - split; [lia|]. intros [|H]%Ha; [lia|]. specialize (H1 H). lia.
    - intros f Hin. destruct (relevant f) eqn:Hr; [|by destruct f].
      pose proof Hin as Hin'. apply (fr_db _ _ _ _ F) in Hin as [[Hrm Hin]|Had]; [|by apply Hf|done].
      eapply fact_ok_mono; [exact Hm| |by apply Hok]. naive_solver. }
  case_step Hs.
  all: try (match type of F with frame _ (among _) _ _ => idtac end;
    eapply Hq; [exact F|by left|right; congruence|]; intros f Hf Hin; new_fact Hf; simpl; rewrite ?Hv).
  all: try done.
  - (* send pre-prepare *) split; [done|]. split; [done|]. left. exists b. apply Hout. apply (fr_db _ _ _ _ F); [done|]. right. right. left.
  - (* receive pre-prepare *) split; [done|]. split; [done|]. left. exists b. by apply Hm.
  - (* send prepare *) split; [done|]. split; [done|]. split; [|by left]. apply Hout, (fr_db _ _ _ _ F); [done|]. right. right. left.
  - (* receive prepare *) split; [done|]. split; [done|]. split; [by apply Hm|by right].
  - (* recovery *) split; [done|]. exists b. by apply Hm.
  - (* recover view *) destruct (recover_view_higher _ _ _ Hp) as [Hlt Hact].
    eapply Hq; [exact F|right; by subst v|congruence|]. intros f Hf _. by new_fact Hf.
  - (* view change *) eapply Hq; [exact F| |left; lia|].
    + right. split; [lia|]. intros f. rewrite Hv, !orb_false_iff. tauto.
    + intros f [(n & d & v & -> & Hpq & Hpp)|(n & d & b & v & s & -> & Hlog)]%Had _; simpl.
      * split; [destruct (pre_prepared_view _ _ _ _ _ Hl Hpp); lia|].
        eapply certificate_mono; [exact Hm|]. by eapply log_certificate.
      * apply (l_pre_prepare _ _ Hl) in Hlog as (-> & _ & ?). split; [lia|]. by eapply announced_mono.
  - (* send new view *) rewrite Hp. apply Hout, (fr_db _ _ _ _ F); [done|]. right. right. left.
  - (* receive new view *) by apply Hm.
  - (* process new view *) eapply Hq; [exact F|by left|congruence|]. intros f Hf Hin.
    destruct (l_view _ _ Hl) as [_ H0]. specialize (H0 Ha').
    destruct Hf as [(n & d & b & Hc & ->)|(Hp & n & d & b & Hc & [->| ->])]; simpl; rewrite ?Hv; [| |done].
    + split; [done|]. split; [done|]. right. split; [done|]. exists nu, chi, b. split; [|done]. by apply Hm, (l_new_view _ _ Hl _ _ _ s).
    + split; [done|]. split; [done|]. split; [|by left]. apply Hout, (fr_db _ _ _ _ F); [done|]. right. right. split; [done|]. exists n, d, b. auto.
Qed.

(** What is said is old or in the out buffer, where the step has put it. *)
Lemma saying_cases said rm ad st st' k m :
  no_out st -> frame rm ad st st' -> relevant (out_fact m) = true -> saying said st' k m ->
  said k m \/ (k = me /\ ad (out_fact m)).
Proof.
  intros Ho F Hr [H|[-> H]]; [by left|]. apply (fr_db _ _ _ _ F) in H as [[_ H]|H]; [|by right|done].
  exfalso. apply (Ho (out_fact m)); [by destruct m|done].
Qed.

(** Nothing in [ad] of a list of other facts. *)
Ltac not_new := intros; match goal with |- ~ _ => let H := fresh in intros H; new_fact H end.

Lemma idle_frame said rm ad st st' :
  no_out st -> idle said st -> frame rm ad st st' -> view st' = view st -> active_view st' = active_view st ->
  (forall v n d b k s, active_view st = false -> ~ ad (msg_log_pre_prepare v n d b k s)) ->
  (forall v n d b, active_view st = false -> ~ ad (msg_out_pre_prepare v n d b)) ->
  (forall v n d, active_view st = false -> ~ ad (msg_out_prepare v n d)) ->
  idle (saying said st') st'.
Proof.
  intros Ho [I1 I2 I3] F Hv Ha N1 N2 N3. split; rewrite Ha; rewrite ?Hv.
  - intros v n d b k s Hi H. apply (fr_db _ _ _ _ F) in H as [[_ H]|H]; [by eapply I1|by eapply N1|done].
  - intros n d b Hi H. apply (saying_cases _ _ _ _ _ _ _ Ho F) in H as [H|[_ H]]; [by eapply I2|by eapply N2|done].
  - intros n d Hi H. apply (saying_cases _ _ _ _ _ _ _ Ho F) in H as [H|[_ H]]; [by eapply I3|by eapply N3|done].
Qed.

Lemma idle_active said st : active_view st = true -> idle said st.
Proof. intros Ha. split; intros; congruence. Qed.

Lemma view_change_ad st (ad : Fact -> Prop) f :
  (forall f, ad f ->
     (exists n d v, f = view_change_Pi n d v /\
        prepare_quorum c d v n st = true /\ (d, v, n) ∈ pre_prepared_all c st) \/
     (exists n d b v s, f = view_change_Qi n d b v /\ msg_log_pre_prepare v n d b (primary c v) s ∈ db st)) ->
  ad f -> is_Pi f || is_Qi f = true.
Proof. intros Had [(? & ? & ? & -> & _)|(? & ? & ? & ? & ? & -> & _)]%Had; done. Qed.

Lemma idle_step said h st st' :
  no_out st -> logs said st -> announcer said st -> preparer said h st -> idle said st ->
  step said st st' -> idle (saying said st') st'.
Proof.
  intros Ho Hl Han Hpr Hi Hs. case_step Hs.
  9: apply idle_active; destruct (recover_view_higher _ _ _ Hp); congruence.
  13: by apply idle_active.
  10: { assert (Hn : forall m, relevant (out_fact m) = true -> is_out (out_fact m) = true ->
          saying said st' me m -> said me m).
    { intros m Hr Hm H. apply (saying_cases _ _ _ _ _ _ _ Ho F) in H as [|[_ H]]; [done| |done].
      apply (view_change_ad _ _ _ Had) in H. by destruct m. }
    split; intros *; rewrite ?Hv; intros _ H.
    - apply (fr_db _ _ _ _ F) in H as [[Hrm H]|H]; [|by apply (view_change_ad _ _ _ Had) in H|done].
      apply (l_pre_prepare _ _ Hl) in H as (-> & _). simpl in Hrm. lia.
    - apply Hn in H; [|done..]. apply (a_pre_prepare _ _ Han) in H. lia.
    - apply Hn in H; [|done..]. apply (p_prepare _ _ _ Hpr) in H. lia. }
  all: eapply idle_frame; [exact Ho|exact Hi|exact F|done|congruence|..]; intros *; intros Hact; try congruence; try not_new.
  (* a replica that prepares has a pre-prepare in its log *)
  destruct (pre_prepared_view _ _ _ _ _ Hl Hpp) as [|(_ & b & s & H)]; [lia|]. by apply (i_log _ _ Hi) in H.
Qed.

(** ** The announcements of a primary *)

Lemma chi_unique (chi : Chi) n d b d' b' :
  NoDup chi.*1.*1 -> (n, d, b) ∈ chi -> (n, d', b') ∈ chi -> d = d'.
Proof.
  intros Hn H1 H2. apply list_elem_of_lookup in H1 as [i Hi]. apply list_elem_of_lookup in H2 as [j Hj].
  assert (i = j) as ->; [|by simplify_eq].
  eapply (NoDup_lookup _ _ _ n Hn); rewrite !list_lookup_fmap; [by rewrite Hi|by rewrite Hj].
Qed.

(** Steps that announce nothing and stay in the view. *)
Lemma announcer_frame said rm ad st st' :
  no_out st -> announcer said st -> frame rm ad st st' -> view st' = view st -> active_view st' = active_view st ->
  seqno st' = seqno st ->
  (forall v n d b, ~ ad (msg_out_pre_prepare v n d b)) -> (forall v nu chi, ~ ad (msg_out_new_view v nu chi)) ->
  (forall nu chi s, rm (msg_log_new_view (view st) nu chi s) = false) ->
  announcer (saying said st') st'.
Proof.
  intros Ho [A1 A2 A3 A4 A5] F Hv Ha Hs N1 N2 Hrm.
  assert (P1 : forall v n d b, saying said st' me (PrePrepare v n d b) -> said me (PrePrepare v n d b)).
  { intros v n d b H. apply (saying_cases _ _ _ _ _ _ _ Ho F) in H as [H|[_ H]]; [done|by apply N1 in H|done]. }
  assert (P2 : forall v nu chi, saying said st' me (NewView v nu chi) -> said me (NewView v nu chi)).
  { intros v nu chi H. apply (saying_cases _ _ _ _ _ _ _ Ho F) in H as [H|[_ H]]; [done|by apply N2 in H|done]. }
  assert (P3 : forall v n d, announced (saying said st') me v n d -> announced said me v n d).
  { intros v n d [[b H]|(H0 & nu & chi & b & H & Hin)]; [left; eauto|right; eauto 10]. }
  split; rewrite ?Hv, ?Ha, ?Hs.
  - intros v n d b H%P1. by apply A1 in H.
  - intros v nu chi H%P2. destruct (A2 _ _ _ H) as (Hx & Hy & Hz & Hlog & ?). split_and!; [done..| |done].
    intros Hvv. destruct (Hlog Hvv) as [s Hs']. exists s. apply (fr_db _ _ _ _ F); [done|]. left. subst v. by split.
  - intros v nu nu' chi chi' H1%P2 H2%P2. by eapply A3.
  - intros H1 H2 H3. destruct (A4 H1 H2 H3) as (nu & chi & H). exists nu, chi. by left.
  - intros v n d d' H1%P3 H2%P3. by eapply A5.
Qed.

(** A replica that enters a view which is not its own, or that waits for its new view. *)
Lemma announcer_enter said rm ad st st' :
  no_out st -> announcer said st -> frame rm ad st st' -> view st < view st' ->
  (active_view st' = true -> primary c (view st') <> me) ->
  (forall v n d b, ~ ad (msg_out_pre_prepare v n d b)) -> (forall v nu chi, ~ ad (msg_out_new_view v nu chi)) ->
  announcer (saying said st') st'.
Proof.
  intros Ho [A1 A2 A3 A4 A5] F Hv Ha N1 N2.
  assert (P1 : forall v n d b, saying said st' me (PrePrepare v n d b) -> said me (PrePrepare v n d b)).
  { intros v n d b H. apply (saying_cases _ _ _ _ _ _ _ Ho F) in H as [H|[_ H]]; [done|by apply N1 in H|done]. }
  assert (P2 : forall v nu chi, saying said st' me (NewView v nu chi) -> said me (NewView v nu chi)).
  { intros v nu chi H. apply (saying_cases _ _ _ _ _ _ _ Ho F) in H as [H|[_ H]]; [done|by apply N2 in H|done]. }
  assert (P3 : forall v n d, announced (saying said st') me v n d -> announced said me v n d).
  { intros v n d [[b H]|(H0 & nu & chi & b & H & Hin)]; [left; eauto|right; eauto 10]. }
  split.
  - intros v n d b H%P1%A1. split; [lia|]. split; [tauto|lia].
  - intros v nu chi H%P2. destruct (A2 _ _ _ H) as (? & ? & ? & _). split_and!; [lia|done|done|lia|lia].
  - intros v nu nu' chi chi' H1%P2 H2%P2. by eapply A3.
  - intros H1 H2 H3. by apply Ha in H1.
  - intros v n d d' H1%P3 H2%P3. by eapply A5.
Qed.

Lemma announcer_send_pre_prepare said st st' d b :
  no_out st -> announcer said st -> active_view st = true -> primary c (view st) = me ->
  view st' = view st -> active_view st' = true -> seqno st' = seqno st + 1 ->
  frame keep (among [msg_log_pre_prepare (view st) (seqno st + 1) d b me SIG_OWN_REPLICA;
                     msg_out_pre_prepare (view st) (seqno st + 1) d b]) st st' ->
  announcer (saying said st') st'.
Proof.
  intros Ho [A1 A2 A3 A4 A5] Hact Hp Hv Ha Hs F.
  assert (P1 : forall v n d' b', saying said st' me (PrePrepare v n d' b') ->
    said me (PrePrepare v n d' b') \/ (v = view st /\ n = seqno st + 1 /\ d' = d)).
  { intros v n d' b' H. apply (saying_cases _ _ _ _ _ _ _ Ho F) in H as [H|[_ H]]; [by left| |done]. new_fact H. by right. }
  assert (P2 : forall v nu chi, saying said st' me (NewView v nu chi) -> said me (NewView v nu chi)).
  { intros v nu chi H. apply (saying_cases _ _ _ _ _ _ _ Ho F) in H as [H|[_ H]]; [done|by new_fact H|done]. }
  assert (P3 : forall v n d', announced (saying said st') me v n d' ->
    announced said me v n d' \/ (v = view st /\ n = seqno st + 1 /\ d' = d)).
  { intros v n d' [[b' [H|H]%P1]|(H0 & nu & chi & b' & H & Hin)]; [left; left; eauto|by right|left; right; eauto 10]. }
  assert (P4 : forall d', ~ announced said me (view st) (seqno st + 1) d').
  { intros d' [[b' H]|(H0 & nu & chi & b' & H & Hin)].
    - apply A1 in H as (_ & _ & H). specialize (H eq_refl). lia.
    - apply A2 in H as (_ & _ & _ & _ & H). specialize (H eq_refl Hact H0 _ _ _ Hin). lia. }
  split; rewrite ?Hv, ?Ha, ?Hs.
  - intros v n d' b' [H|(-> & -> & ->)]%P1; [|split; [lia|]; split; [done|lia]].
    apply A1 in H as (? & ? & H). split; [done|]. split; [done|]. intros Hvv. specialize (H Hvv). lia.
  - intros v nu chi H%P2. destruct (A2 _ _ _ H) as (Hx & Hy & Hz & Hlog & Hle). split_and!; [done..| |].
    + intros Hvv. destruct (Hlog Hvv) as [s Hs']. exists s. apply (fr_db _ _ _ _ F); [done|]. left. by split.
    + intros Hvv _ H0 n d' b' Hin. specialize (Hle Hvv Hact H0 _ _ _ Hin). lia.
  - intros v nu nu' chi chi' H1%P2 H2%P2. by eapply A3.
  - intros _ H2 H3. destruct (A4 Hact H2 H3) as (nu & chi & H). exists nu, chi. by left.
  - intros v n d1 d2 [H1|(-> & -> & ->)]%P3 [H2|(Hv2 & Hn2 & ->)]%P3; [by eapply A5| | |done].
    + subst. by apply P4 in H1.
    + by apply P4 in H2.
Qed.

Lemma announcer_send_new_view said st st' nu chi :
  no_out st -> logs said st -> idle said st -> announcer said st -> primary c (view st) = me ->
  (forall nu' chi' s, msg_log_new_view (view st) nu' chi' s ∉ db st) -> NoDup chi.*1.*1 -> same st st' ->
  frame keep (among [msg_log_new_view (view st) nu chi SIG_OWN_REPLICA; msg_out_new_view (view st) nu chi]) st st' ->
  announcer (saying said st') st'.
Proof.
  intros Ho Hl Hi [A1 A2 A3 A4 A5] Hp Hlog Hk [Hv Ha Hs _] F.
  assert (P0 : forall nu' chi', ~ said me (NewView (view st) nu' chi')).
  { intros nu' chi' H. apply A2 in H as (_ & _ & _ & H & _). destruct (H eq_refl) as [s Hs']. by apply Hlog in Hs'. }
  assert (Pact : 0 < view st -> active_view st = false).
  { intros H0. destruct (active_view st) eqn:Hact; [|done]. destruct (A4 eq_refl H0 Hp) as (nu' & chi' & H). by apply P0 in H. }
  assert (P1 : forall v n d b, saying said st' me (PrePrepare v n d b) -> said me (PrePrepare v n d b)).
  { intros v n d b H. apply (saying_cases _ _ _ _ _ _ _ Ho F) in H as [H|[_ H]]; [done|by new_fact H|done]. }
  assert (P2 : forall v nu' chi', saying said st' me (NewView v nu' chi') ->
    said me (NewView v nu' chi') \/ (v = view st /\ nu' = nu /\ chi' = chi)).
  { intros v nu' chi' H. apply (saying_cases _ _ _ _ _ _ _ Ho F) in H as [H|[_ H]]; [by left| |done]. new_fact H. by right. }
  assert (P3 : forall v n d, announced (saying said st') me v n d ->
    announced said me v n d \/ (v = view st /\ 0 < view st /\ exists b, (n, d, b) ∈ chi)).
  { intros v n d [[b H%P1]|(H0 & nu' & chi' & b & [H|(-> & -> & ->)]%P2 & Hin)]; [left; left; eauto|left; right; eauto 10|].
    right. eauto. }
  assert (P4 : forall n d, 0 < view st -> ~ announced said me (view st) n d).
  { intros n d H0 [[b H]|(_ & nu' & chi' & b & H & _)]; [|by apply P0 in H]. by apply (i_pre_prepare _ _ Hi) in H; [|apply Pact]. }
  split; rewrite ?Hv, ?Ha, ?Hs.
  - intros v n d b H%P1. by eapply A1.
  - intros v nu' chi' [H|(-> & -> & ->)]%P2.
    + destruct (A2 _ _ _ H) as (Hx & Hy & Hz & Hlg & Hle). split_and!; [done..| |done].
      intros Hvv. destruct (Hlg Hvv) as [s Hs']. exists s. apply (fr_db _ _ _ _ F); [done|]. left. by split.
    + split_and!; [lia|done|done| |].
      * intros _. exists SIG_OWN_REPLICA. apply (fr_db _ _ _ _ F); [done|]. right. left.
      * intros _ Hact H0. rewrite (Pact H0) in Hact. done.
  - intros v nu1 nu2 chi1 chi2 [H1|(-> & -> & ->)]%P2 [H2|(Hv2 & -> & ->)]%P2; [by eapply A3| | |done].
    + subst. by apply P0 in H1.
    + by apply P0 in H2.
  - intros H1 H2 H3. rewrite (Pact H2) in H1. done.
  - intros v n d1 d2 [H1|(-> & H0 & b1 & Hb1)]%P3 [H2|(Hv2 & H0' & b2 & Hb2)]%P3; [by eapply A5| | |].
    + subst. by apply P4 in H1.
    + by apply P4 in H2.
    + by eapply chi_unique.
Qed.

Lemma announcer_process said st st' nu chi s rm ad :
  no_out st -> logs said st -> idle said st -> announcer said st ->
  active_view st = false -> msg_log_new_view (view st) nu chi s ∈ db st ->
  view st' = view st -> active_view st' = true -> (forall n d b, (n, d, b) ∈ chi -> n <= seqno st') ->
  frame rm ad st st' -> (forall f, rm f = false) ->
  (forall v n d b, ~ ad (msg_out_pre_prepare v n d b)) -> (forall v nu chi, ~ ad (msg_out_new_view v nu chi)) ->
  announcer (saying said st') st'.
Proof.
  intros Ho Hl Hi [A1 A2 A3 A4 A5] Hact Hlog Hv Ha Hseq F Hrm N1 N2.
  assert (P1 : forall v n d b, saying said st' me (PrePrepare v n d b) -> said me (PrePrepare v n d b)).
  { intros v n d b H. apply (saying_cases _ _ _ _ _ _ _ Ho F) in H as [H|[_ H]]; [done|by apply N1 in H|done]. }
  assert (P2 : forall v nu chi, saying said st' me (NewView v nu chi) -> said me (NewView v nu chi)).
  { intros v nu' chi' H. apply (saying_cases _ _ _ _ _ _ _ Ho F) in H as [H|[_ H]]; [done|by apply N2 in H|done]. }
  assert (P3 : forall v n d, announced (saying said st') me v n d -> announced said me v n d).
  { intros v n d [[b H]|(H0 & nu' & chi' & b & H & Hin)]; [left; eauto|right; eauto 10]. }
  pose proof (l_new_view _ _ Hl _ _ _ _ Hlog) as Hsaid.
  split; rewrite ?Hv, ?Ha.
  - intros v n d b H%P1. destruct (A1 _ _ _ _ H) as (Hx & Hy & _). split_and!; [done..|].
    intros ->. exfalso. by apply (i_pre_prepare _ _ Hi) in H.
  - intros v nu' chi' H%P2. destruct (A2 _ _ _ H) as (Hx & Hy & Hz & Hlg & _). split_and!; [done..| |].
    + intros Hvv. destruct (Hlg Hvv) as [s' Hs']. exists s'. apply (fr_db _ _ _ _ F); [done|]. left. by split.
    + intros -> _ _ n d b Hin. assert (chi' = chi) as -> by (eapply A3; [exact H|]; rewrite <- Hy; exact Hsaid). by eapply Hseq.
  - intros v nu1 nu2 chi1 chi2 H1%P2 H2%P2. by eapply A3.
  - intros _ H2 H3. exists nu, chi. left. congruence.
  - intros v n d1 d2 H1%P3 H2%P3. by eapply A5.
Qed.

Lemma announcer_step said st st' :
  no_out st -> logs said st -> idle said st -> announcer said st -> step said st st' ->
  (forall v, pre_RECOVER_VIEW c st = Some v -> primary c v <> me) ->
  announcer (saying said st') st'.
Proof.
  intros Ho Hl Hi Han Hs Hrec. case_step Hs.
  3: by eapply announcer_send_pre_prepare.
  8: { destruct (recover_view_higher _ _ _ Hp). eapply announcer_enter; [done|done|exact F|lia| |not_new|not_new].
       rewrite Hv. intros _. by apply Hrec. }
  9: { eapply announcer_enter; [done|done|exact F|lia|congruence| |];
         intros * H; by apply (view_change_ad _ _ _ Had) in H. }
  9: by eapply announcer_send_new_view.
  10: { eapply announcer_process; [done|done|done|done|done|exact Hlog|done|done|done|exact F|done| |].
        - intros * [(? & ? & ? & _ & ?)|(_ & ? & ? & ? & _ & [?|?])]; done.
        - intros * [(? & ? & ? & _ & ?)|(_ & ? & ? & ? & _ & [?|?])]; done. }
  all: eapply announcer_frame; [exact Ho|exact Han|exact F|done|congruence|congruence|not_new|not_new|done].
Qed.

(** ** What a replica prepares *)

(** Steps in the view that add no prepare and no pre-prepare. *)
Lemma preparer_frame said h h' rm ad st st' :
  no_out st -> preparer said h st -> frame rm ad st st' -> view st' = view st -> h <= h' ->
  (forall v n d, ~ ad (msg_out_prepare v n d)) -> (forall v n b, ~ ad (msg_out_commit v n b)) ->
  (forall v n d b k s, ~ ad (msg_log_pre_prepare v n d b k s)) ->
  (forall v n d b k s, h' < n -> rm (msg_log_pre_prepare v n d b k s) = false) ->
  preparer (saying said st') h' st'.
Proof.
  intros Ho [P1 P2 P3 P4] F Hv Hh N1 N2 N3 Hrm.
  assert (Q1 : forall v n d, saying said st' me (Prepare v n d) -> said me (Prepare v n d)).
  { intros v n d H. apply (saying_cases _ _ _ _ _ _ _ Ho F) in H as [H|[_ H]]; [done|by apply N1 in H|done]. }
  assert (Q2 : forall v n d b k s, msg_log_pre_prepare v n d b k s ∈ db st' -> msg_log_pre_prepare v n d b k s ∈ db st).
  { intros * H. apply (fr_db _ _ _ _ F) in H as [[_ H]|H]; [done|by apply N3 in H|done]. }
  split; rewrite ?Hv.
  - intros v n d d' H1%Q1 H2%Q1. by eapply P1.
  - intros v n d H%Q1. destruct (P2 _ _ _ H) as (H1 & H2 & H3). split; [done|]. split; [done|].
    intros Hvv Hn. destruct (H3 Hvv) as (b & s & Hb); [lia|]. exists b, s. apply (fr_db _ _ _ _ F); [done|]. left. auto.
  - intros v n d d' b b' k k' s s' H1%Q2 H2%Q2. by eapply P3.
  - intros v n b H. apply (saying_cases _ _ _ _ _ _ _ Ho F) in H as [H|[_ H]]; [|by apply N2 in H|done].
    destruct (P4 _ _ _ H) as (n' & d' & Ha). exists n', d'. eapply announced_mono; [|exact Ha]. apply saying_mono.
Qed.

Lemma preparer_enter said h h' rm ad st st' :
  no_out st -> preparer said h st -> frame rm ad st st' -> view st < view st' ->
  (forall v n d, ~ ad (msg_out_prepare v n d)) -> (forall v n b, ~ ad (msg_out_commit v n b)) ->
  (forall v n d b k s, ~ ad (msg_log_pre_prepare v n d b k s)) ->
  preparer (saying said st') h' st'.
Proof.
  intros Ho [P1 P2 P3 P4] F Hv N1 N2 N3.
  assert (Q1 : forall v n d, saying said st' me (Prepare v n d) -> said me (Prepare v n d)).
  { intros v n d H. apply (saying_cases _ _ _ _ _ _ _ Ho F) in H as [H|[_ H]]; [done|by apply N1 in H|done]. }
  assert (Q2 : forall v n d b k s, msg_log_pre_prepare v n d b k s ∈ db st' -> msg_log_pre_prepare v n d b k s ∈ db st).
  { intros * H. apply (fr_db _ _ _ _ F) in H as [[_ H]|H]; [done|by apply N3 in H|done]. }
  split.
  - intros v n d d' H1%Q1 H2%Q1. by eapply P1.
  - intros v n d H%Q1. destruct (P2 _ _ _ H) as (H1 & H2 & H3). split; [lia|]. split; [done|]. lia.
  - intros v n d d' b b' k k' s s' H1%Q2 H2%Q2. by eapply P3.
  - intros v n b H. apply (saying_cases _ _ _ _ _ _ _ Ho F) in H as [H|[_ H]]; [|by apply N2 in H|done].
    destruct (P4 _ _ _ H) as (n' & d' & Ha). exists n', d'. eapply announced_mono; [|exact Ha]. apply saying_mono.
Qed.

(** A pre-prepare more in the log. *)
Lemma preparer_log said h h' ad st st' :
  no_out st -> preparer said h st -> frame keep ad st st' -> view st' = view st -> h <= h' ->
  (forall v n d, ~ ad (msg_out_prepare v n d)) -> (forall v n b, ~ ad (msg_out_commit v n b)) ->
  (forall v n d d' b b' k k' s s', msg_log_pre_prepare v n d b k s ∈ db st' ->
     msg_log_pre_prepare v n d' b' k' s' ∈ db st' -> d = d') ->
  preparer (saying said st') h' st'.
Proof.
  intros Ho [P1 P2 P3 P4] F Hv Hh N1 N2 Hlog.
  assert (Q1 : forall v n d, saying said st' me (Prepare v n d) -> said me (Prepare v n d)).
  { intros v n d H. apply (saying_cases _ _ _ _ _ _ _ Ho F) in H as [H|[_ H]]; [done|by apply N1 in H|done]. }
  split; rewrite ?Hv.
  - intros v n d d' H1%Q1 H2%Q1. by eapply P1.
  - intros v n d H%Q1. destruct (P2 _ _ _ H) as (H1 & H2 & H3). split; [done|]. split; [done|].
    intros Hvv Hn. destruct (H3 Hvv) as (b & s & Hb); [lia|]. exists b, s. apply (fr_db _ _ _ _ F); [done|]. by left.
  - exact Hlog.
  - intros v n b H. apply (saying_cases _ _ _ _ _ _ _ Ho F) in H as [H|[_ H]]; [|by apply N2 in H|done].
    destruct (P4 _ _ _ H) as (n' & d' & Ha). exists n', d'. eapply announced_mono; [|exact Ha]. apply saying_mono.
Qed.

Lemma preparer_send_prepare said h st st' n d :
  no_out st -> logs said st -> heights h st -> preparer said h st -> primary c (view st) <> me ->
  h < n -> (d, view st, n) ∈ pre_prepared_all c st -> view st' = view st ->
  frame keep (among [msg_log_prepare (view st) n d me SIG_OWN_REPLICA; msg_out_prepare (view st) n d]) st st' ->
  preparer (saying said st') h st'.
Proof.
  intros Ho Hl Hh [P1 P2 P3 P4] Hp Hn Hpp Hv F.
  destruct (pre_prepared_view _ _ _ _ _ Hl Hpp) as [|(_ & b0 & s0 & Hlog)]; [lia|].
  assert (Q1 : forall v n' d', saying said st' me (Prepare v n' d') ->
    said me (Prepare v n' d') \/ (v = view st /\ n' = n /\ d' = d)).
  { intros v n' d' H. apply (saying_cases _ _ _ _ _ _ _ Ho F) in H as [H|[_ H]]; [by left| |done]. new_fact H. by right. }
  assert (Q2 : forall v n' d' b k s, msg_log_pre_prepare v n' d' b k s ∈ db st' <-> msg_log_pre_prepare v n' d' b k s ∈ db st).
  { intros *. rewrite (fr_db _ _ _ _ F) by done. split; [intros [[_ H]|H]; [done|by new_fact H]|by left]. }
  assert (Q3 : forall d', said me (Prepare (view st) n d') -> d' = d).
  { intros d' H. apply P2 in H as (_ & _ & H). destruct (H eq_refl Hn) as (b & s & Hb). by eapply P3. }
  split; rewrite ?Hv.
  - intros v n' d1 d2 [H1|(-> & -> & ->)]%Q1 [H2|(Hv2 & Hn2 & ->)]%Q1; [by eapply P1| | |done].
    + subst. by apply Q3.
    + symmetry. by apply Q3.
  - intros v n' d' [H|(-> & -> & ->)]%Q1.
    + destruct (P2 _ _ _ H) as (H1 & H2 & H3). split; [done|]. split; [done|].
      intros Hvv Hn'. destruct (H3 Hvv Hn') as (b & s & Hb). exists b, s. by apply Q2.
    + split; [lia|]. split; [done|]. intros _ _. exists b0, s0. by apply Q2.
  - intros v n' d1 d2 b b' k k' s s'. rewrite !Q2. apply P3.
  - intros v n' b H. apply (saying_cases _ _ _ _ _ _ _ Ho F) in H as [H|[_ H]]; [|by new_fact H|done].
    destruct (P4 _ _ _ H) as (n2 & d2 & Ha). exists n2, d2. eapply announced_mono; [|exact Ha]. apply saying_mono.
Qed.

Lemma preparer_send_commit said h st st' d n b :
  no_out st -> logs said st -> preparer said h st -> (d, view st, n) ∈ prepared_all c st -> view st' = view st ->
  frame keep (among [msg_out_commit (view st) n b]) st st' -> preparer (saying said st') h st'.
Proof.
  intros Ho Hl [P1 P2 P3 P4] Hp Hv F.
  assert (Q1 : forall v n' d', saying said st' me (Prepare v n' d') -> said me (Prepare v n' d')).
  { intros v n' d' H. apply (saying_cases _ _ _ _ _ _ _ Ho F) in H as [H|[_ H]]; [done|by new_fact H|done]. }
  assert (Q2 : forall v n' d' b k s, msg_log_pre_prepare v n' d' b k s ∈ db st' <-> msg_log_pre_prepare v n' d' b k s ∈ db st).
  { intros *. rewrite (fr_db _ _ _ _ F) by done. split; [intros [[_ H]|H]; [done|by new_fact H]|by left]. }
  split; rewrite ?Hv.
  - intros v n' d1 d2 H1%Q1 H2%Q1. by eapply P1.
  - intros v n' d' H%Q1. destruct (P2 _ _ _ H) as (H1 & H2 & H3). split; [done|]. split; [done|].
    intros Hvv Hn'. destruct (H3 Hvv Hn') as (b0 & s0 & Hb). exists b0, s0. by apply Q2.
  - intros v n' d1 d2 b1 b2 k k' s s'. rewrite !Q2. apply P3.
  - intros v n' b' H. apply (saying_cases _ _ _ _ _ _ _ Ho F) in H as [H|[_ H]]; [| |done].
    + destruct (P4 _ _ _ H) as (n2 & d2 & Ha). exists n2, d2. eapply announced_mono; [|exact Ha]. apply saying_mono.
    + new_fact H. eexists _, d. destruct (prepared_certificate _ _ _ _ _ Hl Hp) as [Ha _].
      eapply announced_mono; [|exact Ha]. apply saying_mono.
Qed.

Lemma preparer_process said h st st' nu chi s :
  no_out st -> logs said st -> idle said st -> preparer said h st ->
  active_view st = false -> NoDup chi.*1.*1 -> msg_log_new_view (view st) nu chi s ∈ db st -> view st' = view st ->
  frame keep (fun f =>
        (exists n d b, (n, d, b) ∈ chi /\ f = msg_log_pre_prepare (view st) n d b (primary c (view st)) SIG_IN_NEW_VIEW) \/
        (primary c (view st) <> me /\ exists n d b, (n, d, b) ∈ chi /\
           (f = msg_log_prepare (view st) n d me SIG_OWN_REPLICA \/ f = msg_out_prepare (view st) n d))) st st' ->
  preparer (saying said st') h st'.
Proof.
  intros Ho Hl Hi [P1 P2 P3 P4] Hact Hk Hlog Hv F.
  assert (Q1 : forall v n d, saying said st' me (Prepare v n d) ->
    said me (Prepare v n d) /\ v <> view st \/ (v = view st /\ primary c v <> me /\ exists b, (n, d, b) ∈ chi)).
  { intros v n d H. apply (saying_cases _ _ _ _ _ _ _ Ho F) in H as [H|[_ H]]; [|right|done].
    - left. split; [done|]. intros ->. by apply (i_prepare _ _ Hi) in H.
    - destruct H as [(? & ? & ? & _ & H)|(Hp & n1 & d1 & b1 & Hin & [H|H])]; [done..|]. simpl in H. simplify_eq. eauto. }
  assert (Q2 : forall v n d b k s, msg_log_pre_prepare v n d b k s ∈ db st' -> v = view st /\ (n, d, b) ∈ chi).
  { intros v n d b k s' H. apply (fr_db _ _ _ _ F) in H as [[_ H]|H]; [by apply (i_log _ _ Hi) in H| |done].
    destruct H as [(n1 & d1 & b1 & Hin & H)|(_ & ? & ? & ? & _ & [H|H])]; by simplify_eq. }
  split; rewrite ?Hv.
  - intros v n d1 d2 [[H1 Hv1]|(Hv1 & _ & b1 & Hb1)]%Q1 [[H2 Hv2]|(Hv2 & _ & b2 & Hb2)]%Q1; [by eapply P1|done|done|].
    by eapply chi_unique.
  - intros v n d [[H Hvv]|(-> & Hp & b & Hb)]%Q1.
    + destruct (P2 _ _ _ H) as (H1 & H2 & H3). done.
    + split; [lia|]. split; [done|]. intros _ _. exists b, SIG_IN_NEW_VIEW. apply (fr_db _ _ _ _ F); [done|].
      right. left. eauto.
  - intros v n d d' b b' k k' s1 s2 [_ H1]%Q2 [_ H2]%Q2. by eapply chi_unique.
  - intros v n b H. apply (saying_cases _ _ _ _ _ _ _ Ho F) in H as [H|[_ H]]; [| |done].
    + destruct (P4 _ _ _ H) as (n2 & d2 & Ha). exists n2, d2. eapply announced_mono; [|exact Ha]. apply saying_mono.
    + destruct H as [(? & ? & ? & _ & H)|(_ & ? & ? & ? & _ & [H|H])]; done.
Qed.

Lemma preparer_step said h h' st st' :
  no_out st -> logs said st -> idle said st -> heights h st -> preparer said h st -> step said st st' ->
  h <= h' -> heights h' st' -> logs (saying said st') st' -> announcer (saying said st') st' ->
  preparer (saying said st') h' st'.
Proof.
  intros Ho Hl Hi Hh Hpr Hs Hle Hh' Hlg Han'.
  assert (Hmore : preparer (saying said st') h st' -> preparer (saying said st') h' st').
  { intros [P1 P2 P3 P4]. split; [done| |done|done]. intros v n d H. destruct (P2 _ _ _ H) as (H1 & H2 & H3).
    split; [done|]. split; [done|]. intros Hv Hn. apply H3; [done|lia]. }
  case_step Hs.
  3: { (* send pre-prepare: the announcements are unique *)
    eapply preparer_log; [done|done|exact F|done|done|not_new|not_new|].
    intros v n d1 d2 b1 b2 k1 k2 s1 s2 H1 H2. apply (l_pre_prepare _ _ Hlg) in H1 as (Hv1 & Hk1 & H1).
    apply (l_pre_prepare _ _ Hlg) in H2 as (Hv2 & Hk2 & H2). assert (k1 = me /\ k2 = me) as [-> ->] by (subst; rewrite Hv; done).
    by eapply (a_unique _ _ Han'). }
  3: { (* receive pre-prepare: the guard of the engine *)
    eapply preparer_log; [done|done|exact F|done|done|not_new|not_new|].
    intros v n1 d1 d2 b1 b2 k1 k2 s1 s2 H1 H2.
    assert (Hold : forall d' b' k' s', msg_log_pre_prepare (view st) n d' b' k' s' ∈ db st -> d' = d).
    { intros d' b' k' s' H. destruct Hlog as [Hno|(b0 & s0 & Hyes)]; [|by eapply (p_log _ _ _ Hpr)].
      pose proof (l_pre_prepare _ _ Hl _ _ _ _ _ _ H) as (_ & -> & _). rewrite Hp in H. by apply Hno in H. }
    apply (fr_db _ _ _ _ F) in H1 as [[_ H1]|H1]; [| |done];
      apply (fr_db _ _ _ _ F) in H2 as [[_ H2]|H2]; try done.
    - by eapply (p_log _ _ _ Hpr).
    - new_fact H2. by eapply Hold.
    - new_fact H1. symmetry. by eapply Hold.
    - new_fact H1. by new_fact H2. }
  3: { apply Hmore. apply heights_get_h in Hh as Hg'. rewrite Hg in Hg'. simplify_eq. by eapply preparer_send_prepare. }
  4: { apply Hmore. by eapply preparer_send_commit. }
  5: { destruct (recover_view_higher _ _ _ Hp). eapply preparer_enter; [done|exact Hpr|exact F|lia|not_new..]. }
  5: { (* a block: the facts above its height stay *)
    assert (h' = n) as ->. { symmetry. eapply (h_only _ _ Hh'), (fr_db _ _ _ _ F); [done|]. right. by apply list_elem_of_singleton. }
    eapply preparer_frame; [done|exact Hpr|exact F|done|done|not_new|not_new|not_new|]. intros * H. simpl. lia. }
  5: { eapply preparer_enter; [done|exact Hpr|exact F|lia|..]; intros * H; by apply (view_change_ad _ _ _ Had) in H. }
  7: { apply Hmore. by eapply preparer_process. }
  all: eapply preparer_frame; [done|exact Hpr|exact F|done|done|not_new|not_new|not_new|done].
Qed.

(** ** All of them *)

Record invariant (said : Z -> Msg -> Prop) (st : State) : Prop := {
  inv_out : no_out st;
  inv_logs : logs said st;
  inv_idle : idle said st;
  inv_announcer : announcer said st;
  inv_height : exists h, heights h st /\ preparer said h st
}.

Lemma elem_of_out_messages m st : m ∈ out_messages st <-> out_fact m ∈ db st.
Proof.
  unfold out_messages. rewrite !elem_of_app, !elem_of_findall. split.
  - intros H; repeat destruct H as [H|H]; destruct H as (f & Hf & Hq); destruct f; simplify_eq/=; done.
  - intros H. destruct m; simpl in H; eauto 15.
Qed.

(** The out buffer is sent and cleared. *)
Lemma emit_logs (said1 said2 : Z -> Msg -> Prop) st :
  (forall k m, said1 k m <-> said2 k m) -> logs said1 st -> logs said2 (msg_out_clear_all st).
Proof.
  intros Hs [Hn Hv Hf]. split; [by apply NoDup_retract|done|].
  intros f [_ Hin]%elem_of_retract. eapply fact_ok_mono; [|by left|by apply Hf]. intros. by apply Hs.
Qed.

Lemma emit_announced (said1 said2 : Z -> Msg -> Prop) k v n d :
  (forall k m, said1 k m <-> said2 k m) -> announced said2 k v n d <-> announced said1 k v n d.
Proof. intros Hs. split; apply announced_mono; intros; by apply Hs. Qed.

Lemma emit_idle (said1 said2 : Z -> Msg -> Prop) st :
  (forall k m, said1 k m <-> said2 k m) -> idle said1 st -> idle said2 (msg_out_clear_all st).
Proof.
  intros Hs [I1 I2 I3]. split; intros *; simpl.
  - intros Ha [_ H]%elem_of_retract. by eapply I1.
  - intros Ha H%Hs. by eapply I2.
  - intros Ha H%Hs. by eapply I3.
Qed.

Lemma emit_announcer (said1 said2 : Z -> Msg -> Prop) st :
  (forall k m, said1 k m <-> said2 k m) -> announcer said1 st -> announcer said2 (msg_out_clear_all st).
Proof.
  intros Hs [A1 A2 A3 A4 A5]. split; simpl.
  - intros v n d b H%Hs. by eapply A1.
  - intros v nu chi H%Hs. destruct (A2 _ _ _ H) as (Hx & Hy & Hz & Hlog & Hle). split_and!; [done..| |done].
    intros Hv. destruct (Hlog Hv) as [s Hs']. exists s. by apply elem_of_retract.
  - intros v nu nu' chi chi' H1%Hs H2%Hs. by eapply A3.
  - intros H1 H2 H3. destruct (A4 H1 H2 H3) as (nu & chi & H). exists nu, chi. by apply Hs.
  - intros v n d d'. rewrite !(emit_announced _ _ _ _ _ _ Hs). apply A5.
Qed.

Lemma emit_preparer (said1 said2 : Z -> Msg -> Prop) h st :
  (forall k m, said1 k m <-> said2 k m) -> preparer said1 h st -> preparer said2 h (msg_out_clear_all st).
Proof.
  intros Hs [P1 P2 P3 P4]. split; simpl.
  - intros v n d d' H1%Hs H2%Hs. by eapply P1.
  - intros v n d H%Hs. destruct (P2 _ _ _ H) as (H1 & H2 & H3). split; [done|]. split; [done|].
    intros Hv Hn. destruct (H3 Hv Hn) as (b & s & Hb). exists b, s. by apply elem_of_retract.
  - intros * [_ H1]%elem_of_retract [_ H2]%elem_of_retract. by eapply P3.
  - intros v n b H%Hs. destruct (P4 _ _ _ H) as (n' & d' & Ha). exists n', d'. by apply (emit_announced _ _ _ _ _ _ Hs).
Qed.

Lemma emit_heights h st : heights h st -> heights h (msg_out_clear_all st).
Proof.
  intros [[x Hx] Ho Hn Hl Hr]. split; [exists x; by apply elem_of_retract| |done|done|].
  - intros n y t [_ H]%elem_of_retract. by eapply Ho.
  - intros d t [_ H]%elem_of_retract. by apply Hr.
Qed.

(** What the network has seen once the replica has sent its out buffer. *)
Definition emitting (said : Z -> Msg -> Prop) (st' : State) (k : Z) (m : Msg) : Prop :=
  said k m \/ (k = me /\ m ∈ out_messages st').

Lemma invariant_step said st st' :
  invariant said st -> step said st st' ->
  (forall v, pre_RECOVER_VIEW c st = Some v -> primary c v <> me) ->
  invariant (emitting said st') (msg_out_clear_all st').
Proof.
  intros [Ho Hl Hi Ha (h & Hh & Hp)] Hs Hrec.
  assert (Hsay : forall k m, saying said st' k m <-> emitting said st' k m).
  { intros k m. unfold saying, emitting. by rewrite elem_of_out_messages. }
  destruct (heights_step _ _ _ _ Hh Hs) as (h' & Hle & Hh').
  pose proof (logs_step _ _ _ Hl Hs) as Hl'.
  pose proof (announcer_step _ _ _ Ho Hl Hi Ha Hs Hrec) as Ha'.
  split.
  - intros f Hf [Hr _]%elem_of_retract. congruence.
  - by eapply emit_logs.
  - eapply emit_idle; [exact Hsay|]. by eapply idle_step.
  - by eapply emit_announcer.
  - exists h'. split; [by apply emit_heights|]. eapply emit_preparer; [exact Hsay|]. by eapply preparer_step.
Qed.

(** More messages of others change nothing. *)
Lemma invariant_more (said said' : Z -> Msg -> Prop) st :
  (forall k m, said k m -> said' k m) -> (forall m, said' me m -> said me m) -> invariant said st -> invariant said' st.
Proof.
  intros Hs Hm [Ho [Hn Hv Hf] [I1 I2 I3] [A1 A2 A3 A4 A5] (h & Hh & [P1 P2 P3 P4])].
  assert (Han : forall v n d, announced said' me v n d -> announced said me v n d).
  { intros v n d [[b H%Hm]|(H0 & nu & chi & b & H%Hm & Hin)]; [left|right]; eauto 10. }
  split; [done| | | |exists h; split; [done|]].
  - split; [done|done|]. intros f Hin. eapply fact_ok_mono; [exact Hs|by left|by apply Hf].
  - split; [done| |]; intros * Ha H%Hm; [by eapply I2|by eapply I3].
  - split; [intros * H%Hm; by eapply A1|intros * H%Hm; by eapply A2|intros * H1%Hm H2%Hm; by eapply A3| |].
    + intros H1 H2 H3. destruct (A4 H1 H2 H3) as (nu & chi & H). eauto.
    + intros * H1%Han H2%Han. by eapply A5.
  - split; [intros * H1%Hm H2%Hm; by eapply P1|intros * H%Hm; by eapply P2|done|].
    intros * H%Hm. destruct (P4 _ _ _ H) as (n' & d' & Ha). exists n', d'. by eapply announced_mono.
Qed.

End Invariants.

(** A certificate stays one when more is accepted, and so does the invariant. *)
Lemma signed_verify c (verify verify' : Z -> Msg -> string -> bool) k m s :
  (forall k m s, verify k m s = true -> verify' k m s = true) -> signed c verify k m s -> signed c verify' k m s.
Proof. intros Hv [?|[? ?]]; [by left|right; auto]. Qed.

Lemma certificate_verify c (verify verify' : Z -> Msg -> string -> bool) said d v n :
  (forall k m s, verify k m s = true -> verify' k m s = true) ->
  certificate c verify said d v n -> certificate c verify' said d v n.
Proof.
  intros Hv [? (l & ? & ? & Hl)]. split; [done|]. exists l. split; [done|]. split; [done|].
  intros k s Hk. destruct (Hl k s Hk) as (? & ? & ?). split_and!; [done..|]. by eapply signed_verify.
Qed.

Lemma invariant_verify c (verify verify' : Z -> Msg -> string -> bool) bt rd said st :
  (forall k m s, verify k m s = true -> verify' k m s = true) ->
  invariant c verify bt rd said st -> invariant c verify' bt rd said st.
Proof.
  intros Hv [Ho [Hn Hw Hf] Hi Ha Hh]. split; [done| |done..]. split; [done|done|]. intros f Hin. specialize (Hf f Hin).
  destruct f; simpl in *; try done.
  - destruct Hf as (? & ? & ? & ?). split_and!; [done..|]. by eapply signed_verify.
  - destruct Hf. split; [done|]. by eapply certificate_verify.
Qed.

(** A sender of a list of signed messages comes once, or with two signatures. *)
Lemma senders_once (l : list (Z * string)) :
  NoDup l -> NoDup l.*1 \/ exists k s s', s <> s' /\ (k, s) ∈ l /\ (k, s') ∈ l.
Proof.
  induction 1 as [|[k s] l Hin Hl IH]; [left; constructor|].
  destruct IH as [IH|(k1 & s1 & s2 & Hne & H1 & H2)]; [|right; exists k1, s1, s2; split_and!; [done|by right..]].
  destruct (decide (k ∈ l.*1)) as [([k' s'] & -> & H)%list_elem_of_fmap|Hk]; [right|left; by constructor].
  exists k', s, s'. split_and!; [by intros ->|left|by right].
Qed.
