(* ===== verification/EngineNet.v ===== *)
(** * Agreement in a network of replicas

    A network of correct replicas, each with the state of EngineActions.v, and of faulty
    ones that send any message under their own name.  A message is delivered any number
    of times, in any order, once it has been sent.  Two correct replicas do not prepare
    different requests for the same view and number, unless one of them has accepted one
    prepare with two signatures. *)

From S2P Require Import Prelude PyStr PyInt PyFloat Engine EngineActions EngineFacts EngineSteps EngineInv.

(** ** The digest of a request: [Request::digest]

    The height is computed on 32 bits. *)

Definition u32 (z : Z) : Z := z mod 2 ^ 32.

Definition request_height (genesis target t : Z) : Z := u32 (t - genesis) / target.

Definition request_digest (genesis target t : Z) : string :=
  ("(H=" ++ str_of_Z (request_height genesis target t) ++ ", T=" ++ str_of_Z t ++ ")")%string.

(** The text after the first occurrence of a character, and before it. *)
Fixpoint after (a : ascii) (s : string) : string :=
  match s with
  | EmptyString => EmptyString
  | String b s' => if Ascii.eqb a b then s' else after a s'
  end.

Fixpoint before (a : ascii) (s : string) : string :=
  match s with
  | EmptyString => EmptyString
  | String b s' => if Ascii.eqb a b then EmptyString else String b (before a s')
  end.

Lemma after_app a s t : has_char a s = false -> after a (s ++ String a t) = t.
Proof.
  induction s as [|b s IH]; simpl; [by rewrite Ascii.eqb_refl|]. unfold has_char in *. simpl.
  destruct (Ascii.eqb a b); [done|]. done.
Qed.

Lemma before_app a s t : has_char a s = false -> before a (s ++ String a t) = s.
Proof.
  induction s as [|b s IH]; simpl; [by rewrite Ascii.eqb_refl|]. unfold has_char in *. simpl.
  destruct (Ascii.eqb a b); [done|]. intros H. by rewrite IH.
Qed.

Lemma request_height_nonneg genesis target t : 0 <= target -> 0 <= request_height genesis target t.
Proof.
  intros Ht. unfold request_height. destruct (decide (target = 0)) as [->|]; [by rewrite Z.div_0_r|].
  apply Z.div_pos; [|lia]. unfold u32. apply Z.mod_pos_bound. lia.
Qed.

Lemma str_of_Z_inj a b : 0 <= a -> 0 <= b -> str_of_Z a = str_of_Z b -> a = b.
Proof. intros Ha Hb H. apply py_int_str_of_Z in Ha, Hb. congruence. Qed.

(** A digest stands for one timestamp. *)
Lemma request_digest_inj genesis target t t' :
  0 <= target -> 0 <= t -> 0 <= t' -> request_digest genesis target t = request_digest genesis target t' -> t = t'.
Proof.
  intros Hg Ht Ht' H. apply str_of_Z_inj; [done|done|].
  assert (Hd : forall a z, is_digit a = false -> 0 <= z -> has_char a (str_of_Z z) = false).
  { intros a z Ha Hz. eapply str_all_no_char; [exact Ha|by apply str_of_Z_digits]. }
  assert (Hs : forall u, 0 <= u -> before ")" (after "=" (after "," (request_digest genesis target u))) = str_of_Z u).
  { intros u Hu. unfold request_digest. change ("(H=" ++ ?x)%string with (String "(" (String "H" (String "=" x))).
    cbn [after Ascii.eqb Bool.eqb].
    change (", T=" ++ ?x)%string with (String "," (String " " (String "T" (String "=" x)))).
    rewrite after_app by (apply Hd; [done|by apply request_height_nonneg]). cbn [after Ascii.eqb Bool.eqb].
    by rewrite before_app by by apply Hd. }
  rewrite <- (Hs t Ht), <- (Hs t' Ht'). by rewrite H.
Qed.

(** ** The network *)

(** [accepted] records the messages that the replicas have taken from the network: the
    receiver, the sender, the message and its signature. *)
Record Net : Type := mkNet {
  states : Z -> State;
  sent : list (Z * Msg);
  accepted : list (Z * Z * Msg * string)
}.

Inductive Event : Type :=
  | Act (i : Z) (now : float) (w : Wallet) (a : Action)
  | Deliver (i k : Z) (m : Msg) (sig : string) (now tolerance : float) (w : Wallet)
  | Generate (i t : Z)
  | NewBlock (i n : Z) (hash : string)
  | Byzantine (k : Z) (m : Msg).

Section Network.
(** The network of [replicas], and the identifiers of the faulty ones. *)
Context (replicas target genesis : Z) (faulty : list Z).
Context (digest_view_change : Z -> Z -> string -> PSet -> QSet -> Z -> string).
Context (aggregate : list string -> option string) (unbound_text : option string).
(** The verification of the signature of a message of a sender. *)
Context (verify : Z -> Msg -> string -> bool).
(** The blocks of the chain: the timestamp of each height. *)
Context (block_timestamp : Z -> Z).

Definition conf (i : Z) : Config := {| replica_id := i; cluster_size := replicas; target_block_time := target |}.

Definition digest_of : Z -> string := request_digest genesis target.

Definition correct (i : Z) : bool := (0 <=? i) && (i <? replicas) && bool_decide (i ∉ faulty).

Definition set_state (i : Z) (st : State) (f : Z -> State) (j : Z) : State := if j =? i then st else f j.

(** The replica broadcasts its out buffer and clears it, as [ApplyActiveActions] does. *)
Definition finish (i : Z) (net : Net) (st : State) : Net :=
  mkNet (set_state i (msg_out_clear_all st) (states net)) (sent net ++ ((i,.) <$> out_messages st)) (accepted net).

(** The replica [i] takes a message of [k] from the network. *)
Definition accept (i k : Z) (m : Msg) (s : string) (net : Net) : Net :=
  mkNet (states net) (sent net) (accepted net ++ [(i, k, m, s)]).

Definition net_step (e : Event) (net : Net) : option Net :=
  match e with
  | Act i now w a =>
      if correct i && bool_decide (a ∈ active_actions (conf i) unbound_text now (states net i))
      then finish i net <$> effect (conf i) digest_view_change aggregate w a (states net i) else None
  | Deliver i k m s now tolerance w =>
      if correct i && bool_decide ((k, m) ∈ sent net) && verify k m s
      then finish i (accept i k m s net) <$> receive (conf i) digest_view_change aggregate w now tolerance m k s (states net i) else None
  | Generate i t =>
      if correct i && (0 <=? t)
      then finish i net <$> apply_RECEIVE_REQUEST (digest_of t) t (states net i) else None
  | NewBlock i n hash =>
      if correct i then finish i net <$> apply_RECEIVE_BLOCK n (block_timestamp n) hash (states net i) else None
  | Byzantine k m =>
      if bool_decide (k ∈ faulty) then Some (mkNet (states net) (sent net ++ [(k, m)]) (accepted net)) else None
  end.

Definition net_run (es : list Event) (net : Net) : option Net := foldl (fun n e => n ≫= net_step e) (Some net) es.

(** Each replica starts at the height of its chain, without a persisted view. *)
Definition start (height : Z -> Z) (hash : Z -> string) : Net :=
  mkNet (fun i => default (mkState 0 true (NInt 0) "" 0 0 0 [])
           (init (conf i) (height i) (hash i) (block_timestamp (height i)) [] None false)) [] [].

Inductive reachable : Net -> Prop :=
  | reachable_start height hash : (forall i, 0 <= height i) -> reachable (start height hash)
  | reachable_step e net net' : reachable net -> net_step e net = Some net' -> reachable net'.

Inductive steps (net : Net) : Net -> Prop :=
  | steps_refl : steps net net
  | steps_step e net1 net2 : steps net net1 -> net_step e net1 = Some net2 -> steps net net2.

(** ** The invariant of the network *)

(** What the theorems ask of the setting: the blocks of the chain have increasing
    timestamps, the target block time is not negative, and at most F replicas of 3F+1 are
    faulty. *)
Record assumptions : Prop := {
  as_timestamps a b : a < b -> block_timestamp a < block_timestamp b;
  as_target : 0 <= target;
  as_replicas : replicas = 3 * (replicas / 3) + 1 /\ 1 <= replicas;
  as_faulty : Z.of_nat (length faulty) <= replicas / 3 /\ Forall (fun k => 0 <= k < replicas) faulty
}.

Definition said (net : Net) (k : Z) (m : Msg) : Prop := (k, m) ∈ sent net.

(** The signatures that the replica [i] has accepted. *)
Definition accepted_by (net : Net) (i k : Z) (m : Msg) (s : string) : bool := bool_decide ((i, k, m, s) ∈ accepted net).

(** The replica [i] has accepted one prepare of a sender with two signatures: the quorums
    of the engine count the facts with their signatures, so that the sender counts twice
    (see [repeated_prepares_disagree] in EngineRuns.v). *)
Definition counted_twice (net : Net) (i v n : Z) (d : string) : Prop :=
  exists k s s', k <> i /\ s <> s' /\ (i, k, Prepare v n d, s) ∈ accepted net /\ (i, k, Prepare v n d, s') ∈ accepted net.

Record net_ok (net : Net) : Prop := {
  ok_senders k m : (k, m) ∈ sent net -> 0 <= k < replicas;
  ok_replica i : correct i = true -> invariant (conf i) (accepted_by net i) block_timestamp digest_of (said net) (states net i)
}.

Lemma correct_spec i : correct i = true <-> 0 <= i < replicas /\ i ∉ faulty.
Proof. unfold correct. rewrite !andb_true_iff, bool_decide_eq_true, Z.leb_le, Z.ltb_lt. tauto. Qed.

Lemma start_ok height hash : (forall i, 0 <= height i) -> net_ok (start height hash).
Proof.
  intros Hh. split; [intros k m H; by apply not_elem_of_nil in H|]. intros i _. simpl.
  assert (Hdb : forall f, f ∈ [checkpoint (height i) (hash i) (block_timestamp (height i))] <->
    f = checkpoint (height i) (hash i) (block_timestamp (height i))) by (intros; apply list_elem_of_singleton).
  set (l := [_]) in *. split.
  - intros f Hf H%Hdb. by subst.
  - split; [apply NoDup_singleton|simpl; split; [lia|done]|]. intros f H%Hdb. by subst.
  - by apply idle_active.
  - split; simpl; [intros * H%not_elem_of_nil; done..|lia|].
    intros v n d d' [[b H%not_elem_of_nil]|(_ & nu & chi & b & H%not_elem_of_nil & _)]; done.
  - exists (height i). split; [split|split]; simpl.
    + exists (hash i). by apply Hdb.
    + intros n x t H%Hdb. by simplify_eq.
    + apply Hh.
    + lia.
    + intros d t H%Hdb. done.
    + intros * H%not_elem_of_nil. done.
    + intros * H%not_elem_of_nil. done.
    + intros * H%Hdb. done.
    + intros * H%not_elem_of_nil. done.
Qed.

(** A list of distinct elements within another one is not longer. *)
Lemma NoDup_length_le {A} (l k : list A) : NoDup l -> (forall x, x ∈ l -> x ∈ k) -> (length l <= length k)%nat.
Proof. intros Hn Hs. apply submseteq_length. by apply NoDup_submseteq. Qed.

Section Assumed.
Context (As : assumptions).

Abbreviation F := (replicas / 3).

Lemma floor_third_replicas : floor_third (replicas - 1) = F.
Proof.
  destruct (as_replicas As) as [He _]. unfold floor_third.
  replace (replicas - 1) with (3 * F) by lia. rewrite Z.mul_comm, Z.mod_mul, Z.eqb_refl by lia. apply Z.div_mul. lia.
Qed.

Lemma quorum_conf i : quorum (conf i) = 2 * F + 1.
Proof. unfold quorum. simpl. by rewrite floor_third_replicas. Qed.

Lemma primary_range i v : 0 <= primary (conf i) v < replicas.
Proof. destruct (as_replicas As). unfold primary. simpl. apply Z.mod_pos_bound. lia. Qed.

(** More than F replicas have a correct one among them. *)
Lemma some_correct (l : list Z) :
  NoDup l -> (forall k, k ∈ l -> 0 <= k < replicas) -> F < Z.of_nat (length l) -> exists k, k ∈ l /\ correct k = true.
Proof.
  intros Hn Hr Hl. destruct (as_faulty As) as [Hf _].
  destruct (decide (Exists (fun k => k ∉ faulty) l)) as [He|He].
  - apply Exists_exists in He as (k & Hk & Hnf). exists k. split; [done|]. apply correct_spec. auto.
  - assert (length l <= length faulty)%nat; [|lia]. apply NoDup_length_le; [done|]. intros x Hx.
    destruct (decide (x ∈ faulty)) as [|Hno]; [done|]. exfalso. apply He, Exists_exists. eauto.
Qed.

(** A replica that recovers a view by the commits of others is not its primary. *)
Lemma recovered_view_of_another net i v :
  net_ok net -> correct i = true -> pre_RECOVER_VIEW (conf i) (states net i) = Some v -> primary (conf i) v <> i.
Proof.
  intros [Hsend Hok] Hi Hrec Hp. pose proof (Hok i Hi) as Hinv.
  destruct (recover_view_higher _ _ _ Hrec) as [Hlt Hact]. unfold pre_RECOVER_VIEW in Hrec. rewrite Hact in Hrec.
  apply max_list_spec in Hrec as [Hin _].
  apply list_elem_of_bind in Hin as ([[n x] t] & Hin & _). apply list_elem_of_bind in Hin as ([[v1 n1] k1] & Hin & _).
  destruct (_ && _) eqn:Hb; [|by apply not_elem_of_nil in Hin]. apply list_elem_of_singleton in Hin as ->.
  apply andb_true_iff in Hb as [_ Hq]. apply Z.leb_le in Hq. rewrite quorum_conf in Hq.
  set (l := filter _ _) in Hq.
  assert (Hl : forall a, a ∈ l -> exists k, a = (v1, n, k) /\ msg_log_commit_view_recovery v1 n k ∈ db (states net i)).
  { intros [[v2 n2] k] [Heq H%elem_of_recoveries]%list_elem_of_filter. simplify_eq. eauto. }
  assert (Hnd : NoDup (snd <$> l)).
  { assert (NoDup l) as Hnl.
    { apply NoDup_filter. unfold recoveries, findall. apply NoDup_omap_inj; [apply (l_nodup _ _ _ _ (inv_logs _ _ _ _ _ _ Hinv))|].
      intros f g z _ _ Hf Hg. destruct f; try done. destruct g; try done. simpl in *. congruence. }
    apply NoDup_fmap_2_strong; [|done]. intros a b (k & -> & _)%Hl (k' & -> & _)%Hl. simpl. congruence. }
  destruct (as_replicas As) as [_ Hpos].
  destruct (some_correct (snd <$> l)) as (k & Hk & Hc); [done| |rewrite length_fmap; lia|].
  { intros k ([[v2 n2] k2] & -> & (k3 & Heq & H)%Hl)%list_elem_of_fmap. simplify_eq. simpl.
    apply (l_recovery _ _ _ _ (inv_logs _ _ _ _ _ _ Hinv)) in H as (_ & b & H). by eapply Hsend. }
  apply list_elem_of_fmap in Hk as ([[v2 n2] k2] & -> & (k3 & Heq & H)%Hl). simplify_eq. simpl in Hc.
  apply (l_recovery _ _ _ _ (inv_logs _ _ _ _ _ _ Hinv)) in H as (_ & b & H).
  destruct (inv_height _ _ _ _ _ _ (Hok _ Hc)) as (h & _ & Hpr). destruct (p_commit _ _ _ _ Hpr _ _ _ H) as (n' & d' & Ha).
  change (primary (conf k3) v1) with (primary (conf i) v1) in Ha. rewrite Hp in Ha.
  pose proof (inv_announcer _ _ _ _ _ _ Hinv) as Han.
  destruct Ha as [[b' Hs]|(_ & nu & chi & b' & Hs & _)].
  - apply (a_pre_prepare _ _ _ Han) in Hs. lia.
  - apply (a_new_view _ _ _ Han) in Hs. lia.
Qed.

Lemma accept_ok i k m s net : net_ok net -> net_ok (accept i k m s net).
Proof.
  intros [Hsend Hok]. split; [done|]. intros j Hj. eapply invariant_verify; [|by apply Hok].
  intros k' m' s' H%bool_decide_eq_true. apply bool_decide_eq_true, elem_of_app. by left.
Qed.

(** One replica steps, sends what it has to send, and the others keep their invariant. *)
Lemma finish_ok net i st' :
  net_ok net -> correct i = true ->
  step (conf i) (said net) (accepted_by net i) block_timestamp digest_of (states net i) st' -> net_ok (finish i net st').
Proof.
  intros Hnet Hi Hs. pose proof Hnet as [Hsend Hok].
  assert (Hsaid : forall k m, said (finish i net st') k m <-> said net k m \/ (k = i /\ m ∈ out_messages st')).
  { intros k m. unfold said. simpl. rewrite elem_of_app, list_elem_of_fmap. naive_solver. }
  split.
  - intros k m [H|[-> _]]%Hsaid; [by eapply Hsend|]. by apply correct_spec in Hi as [? _].
  - intros j Hj. unfold finish at 3. cbn [states]. unfold set_state. destruct (j =? i) eqn:Hji.
    + apply Z.eqb_eq in Hji as ->.
      pose proof (invariant_step (conf i) (accepted_by net i) block_timestamp digest_of (as_timestamps As)
        _ _ _ (Hok i Hi) Hs (fun v => recovered_view_of_another net i v Hnet Hi)) as Hinv.
      eapply (invariant_more _ _ _ _ _ (said (finish i net st'))); [| |exact Hinv].
      * intros k m H. by apply Hsaid.
      * intros m H. by apply Hsaid in H.
    + apply Z.eqb_neq in Hji. eapply (invariant_more _ _ _ _ (said net)); [| |by apply Hok].
      * intros k m H. apply Hsaid. by left.
      * intros m [H|[H _]]%Hsaid; [done|]. simpl in H. congruence.
Qed.

(** A step of the network is a step of one correct replica, once it has taken a message or
    not, or a faulty one sends. *)
Lemma net_step_cases e net net' :
  net_ok net -> net_step e net = Some net' ->
  (exists i net1 st', correct i = true /\ net_ok net1 /\ states net1 = states net /\
     step (conf i) (said net1) (accepted_by net1 i) block_timestamp digest_of (states net i) st' /\
     net' = finish i net1 st') \/
  (exists k m, k ∈ faulty /\ net' = mkNet (states net) (sent net ++ [(k, m)]) (accepted net)).
Proof.
  intros Hnet. pose proof Hnet as [Hsend Hok]. destruct e; cbn [net_step].
  - destruct (correct i) eqn:Hi; [|done]. case_bool_decide as Ha; [|done]. cbn [andb].
    destruct (effect _ _ _ _ _ _) as [st'|] eqn:He; [|done]. intros [= <-]. left. exists i, net, st'. split_and!; [done..| |done].
    by eapply step_of_effect.
  - destruct (correct i) eqn:Hi; [|done]. case_bool_decide as Ha; [|done]. destruct (verify k m sig) eqn:Hv; [|done]. cbn [andb].
    destruct (receive _ _ _ _ _ _ _ _ _ _) as [st'|] eqn:He; [|done]. intros [= <-]. left. exists i, (accept i k m sig net), st'.
    split_and!; [done|by apply accept_ok|done| |done]. eapply step_of_receive; [exact Ha| |exact He].
    apply bool_decide_eq_true, elem_of_app. right. by apply list_elem_of_singleton.
  - destruct (correct i) eqn:Hi; [|done]. destruct (0 <=? t) eqn:Ht; [|done]. cbn [andb]. apply Z.leb_le in Ht.
    destruct (apply_RECEIVE_REQUEST _ _ _) as [st'|] eqn:He; [|done]. intros [= <-]. left. exists i, net, st'.
    split_and!; [done..| |done]. by eapply step_of_request.
  - destruct (correct i) eqn:Hi; [|done].
    destruct (apply_RECEIVE_BLOCK _ _ _ _) as [st'|] eqn:He; [|done]. intros [= <-]. left. exists i, net, st'.
    split_and!; [done..| |done]. eapply step_of_block; [|exact He]. intros d t t' H1 H2.
    destruct (inv_height _ _ _ _ _ _ (Hok _ Hi)) as (h & Hh & _).
    apply (h_requests _ _ _ _ Hh) in H1 as (_ & Ht & ->). apply (h_requests _ _ _ _ Hh) in H2 as (_ & Ht' & Heq).
    by eapply request_digest_inj; [apply (as_target As)| | |].
  - case_bool_decide as Hk; [|done]. intros [= <-]. right. eauto.
Qed.

Lemma net_step_ok e net net' : net_ok net -> net_step e net = Some net' -> net_ok net'.
Proof.
  intros Hnet [(i & net1 & st' & Hi & Hn1 & Hst & Hs & ->)|(k & m & Hk & ->)]%net_step_cases;
    [apply finish_ok; [done..|by rewrite Hst]| |done].
  pose proof Hnet as [Hsend Hok]. destruct (as_faulty As) as [_ Hf]. rewrite Forall_forall in Hf. split.
  - intros k' m' [H|H%list_elem_of_singleton]%elem_of_app; [by eapply Hsend|]. simplify_eq. by apply Hf.
  - intros j Hj. eapply invariant_more; [| |by apply Hok].
    + intros k' m' H. apply elem_of_app. by left.
    + intros m' [H|H%list_elem_of_singleton]%elem_of_app; [done|]. simplify_eq. apply correct_spec in Hj as [_ Hj]. done.
Qed.

Lemma reachable_ok net : reachable net -> net_ok net.
Proof. induction 1; [by apply start_ok|by eapply net_step_ok]. Qed.

(** What has been sent and accepted stays so. *)
Lemma net_step_more e net net' :
  net_step e net = Some net' -> sent net ⊆ sent net' /\ accepted net ⊆ accepted net'.
Proof.
  intros Hs. destruct e; cbn [net_step] in Hs; (case_match; [|done]).
  1-4: match type of Hs with _ <$> ?o = _ => destruct o; [|done] end.
  all: injection Hs as <-; split; simpl; intros x Hx; rewrite ?elem_of_app; auto.
Qed.

Lemma steps_more net net' : steps net net' -> sent net ⊆ sent net' /\ accepted net ⊆ accepted net'.
Proof. induction 1 as [|e net1 net2 _ [H1 H2] He]; [done|]. apply net_step_more in He as [? ?]. set_solver. Qed.

Lemma steps_reachable net net' : reachable net -> steps net net' -> reachable net'.
Proof. induction 2; [done|]. eapply reachable_step; eauto. Qed.

(** Two sets of 2F replicas other than a faulty one have a correct replica in common. *)
Lemma quorums_meet p (l l' : list Z) :
  p ∈ faulty -> NoDup l -> NoDup l' -> 2 * F <= Z.of_nat (length l) -> 2 * F <= Z.of_nat (length l') ->
  (forall k, k ∈ l \/ k ∈ l' -> 0 <= k < replicas /\ k <> p) -> exists k, k ∈ l /\ k ∈ l' /\ k ∉ faulty.
Proof.
  intros Hp Hnd Hnd' Hl Hl' Hr. destruct (as_replicas As) as [Hrep _]. destruct (as_faulty As) as [Hfl Hfr].
  set (l1 := filter (fun k => k ∉ l) l'). set (l2 := filter (fun k => k ∈ l) l').
  assert (Hlen : (length l' = length l1 + length l2)%nat).
  { unfold l1, l2. clear. induction l' as [|x k IH]; [done|]. rewrite !filter_cons. repeat case_decide; simpl; lia || done. }
  assert (H1 : (length (p :: l ++ l1) <= length (seqZ 0 replicas))%nat).
  { apply NoDup_length_le.
    - constructor; [intros [H|[_ H]%list_elem_of_filter]%elem_of_app; [destruct (Hr p)|destruct (Hr p)]; auto|].
      apply NoDup_app. split; [done|]. split; [|by apply NoDup_filter]. by intros x Hx [Hno _]%list_elem_of_filter.
    - rewrite Forall_forall in Hfr. intros x [->|[H|[_ H]%list_elem_of_filter]%elem_of_app]%elem_of_cons; apply elem_of_seqZ.
      + specialize (Hfr _ Hp). lia.
      + destruct (Hr x); [by left|lia].
      + destruct (Hr x); [by right|lia]. }
  destruct (decide (Exists (fun k => k ∉ faulty) l2)) as [He|He].
  - apply Exists_exists in He as (k & [Hkl Hkl']%list_elem_of_filter & Hnf). by exists k.
  - exfalso. assert (H2 : (length (p :: l2) <= length faulty)%nat).
    { apply NoDup_length_le.
      - constructor; [|by apply NoDup_filter]. intros [_ H]%list_elem_of_filter. destruct (Hr p); auto.
      - intros x [->|Hx]%elem_of_cons; [done|]. destruct (decide (x ∈ faulty)) as [|Hno]; [done|].
        exfalso. apply He, Exists_exists. eauto. }
    simpl in H1, H2. rewrite length_app, length_seqZ in H1. lia.
Qed.

(** The senders of a certificate are different, or one has two signatures. *)
Lemma certificate_senders net i d v n :
  certificate (conf i) (accepted_by net i) (said net) d v n ->
  counted_twice net i v n d \/
  exists l : list Z, NoDup l /\ quorum_prepare (conf i) <= Z.of_nat (length l) /\
    forall k, k ∈ l -> k <> primary (conf i) v /\ said net k (Prepare v n d).
Proof.
  intros [_ (l & Hnd & Hl & Hk)]. destruct (senders_once l Hnd) as [Hnd'|(k & s & s' & Hne & H & H')]; [right|left].
  - exists l.*1. split; [done|]. split; [by rewrite length_fmap|].
    intros k ([k' s] & -> & H)%list_elem_of_fmap. by destruct (Hk k' s H) as (? & ? & _).
  - exists k, s, s'. apply Hk in H as (_ & _ & [[-> ->]|[Hk1 H%bool_decide_eq_true]]);
      apply Hk in H' as (_ & _ & [[? ->]|[Hk2 H'%bool_decide_eq_true]]); done.
Qed.

(** Two certificates of one view and number are of one request. *)
Lemma certificates_agree net i i' d d' v n :
  net_ok net -> certificate (conf i) (accepted_by net i) (said net) d v n ->
  certificate (conf i') (accepted_by net i') (said net) d' v n ->
  d = d' \/ counted_twice net i v n d \/ counted_twice net i' v n d'.
Proof.
  intros [Hsend Hok] Hcert Hcert'. pose proof Hcert as [Ha _]. pose proof Hcert' as [Ha' _].
  apply certificate_senders in Hcert as [?|(l & Hnd & Hl & Hk)]; [by auto|].
  apply certificate_senders in Hcert' as [?|(l' & Hnd' & Hl' & Hk')]; [by auto|]. left.
  change (primary (conf i') v) with (primary (conf i) v) in *.
  unfold quorum_prepare in Hl, Hl'. rewrite quorum_conf in Hl, Hl'.
  destruct (correct (primary (conf i) v)) eqn:Hc.
  - by eapply (a_unique _ _ _ (inv_announcer _ _ _ _ _ _ (Hok _ Hc))).
  - destruct (quorums_meet (primary (conf i) v) l l') as (k & Hkl & Hkl' & Hnf); [|done|done|lia|lia| |].
    + destruct (decide (primary (conf i) v ∈ faulty)) as [|Hno]; [done|].
      rewrite <- not_true_iff_false, correct_spec in Hc. exfalso. apply Hc. split; [apply primary_range|done].
    + intros k [[? H%Hsend]%Hk|[? H%Hsend]%Hk']; done.
    + apply Hk in Hkl as [_ Hm]. apply Hk' in Hkl' as [_ Hm'].
      assert (Hck : correct k = true) by (apply correct_spec; split; [by eapply Hsend|done]).
      destruct (inv_height _ _ _ _ _ _ (Hok _ Hck)) as (h & _ & Hpr). by eapply (p_unique _ _ _ _ Hpr).
Qed.

(** ** Views and heights *)

(** A replica has one height, that of its checkpoints. *)
Definition height_of (net : Net) (i h : Z) : Prop := get_h (states net i) = Some h.

Lemma reachable_height net i : net_ok net -> correct i = true ->
  exists h, height_of net i h /\ heights block_timestamp digest_of h (states net i).
Proof.
  intros [_ Hok] Hi. destruct (inv_height _ _ _ _ _ _ (Hok _ Hi)) as (h & Hh & _). exists h. split; [|done].
  by eapply heights_get_h.
Qed.

Lemma get_h_clear st : get_h (msg_out_clear_all st) = get_h st.
Proof. unfold get_h, checkpoints, msg_out_clear_all. rewrite findall_retract; [done|]. by intros []. Qed.

Lemma net_step_grows e net net' i h :
  net_ok net -> net_step e net = Some net' -> correct i = true -> height_of net i h ->
  view (states net i) <= view (states net' i) /\ exists h', height_of net' i h' /\ h <= h'.
Proof.
  intros Hnet Hstep Hi Hh. pose proof Hnet as [_ Hok].
  destruct (net_step_cases _ _ _ Hnet Hstep) as [(j & net1 & st' & Hj & Hn1 & Hst & Hs & ->)|(k & m & Hk & ->)];
    [|split; [done|by exists h]].
  unfold height_of. simpl. unfold set_state. rewrite Hst. destruct (i =? j) eqn:Hij; [|split; [done|by exists h]].
  apply Z.eqb_eq in Hij as <-. rewrite get_h_clear. split.
  - change (view (msg_out_clear_all st')) with (view st'). eapply step_view; exact Hs.
  - destruct (inv_height _ _ _ _ _ _ (Hok _ Hi)) as (h0 & Hh0 & _).
    assert (h0 = h) as -> by (pose proof (heights_get_h _ _ _ _ Hh0) as H0; unfold height_of in Hh; congruence).
    destruct (heights_step _ _ _ _ (as_timestamps As) _ _ _ _ Hh0 Hs) as (h' & Hle & Hh').
    exists h'. split; [by eapply heights_get_h|done].
Qed.

Lemma prepared_same net net' i i' d d' v n :
  reachable net -> steps net net' -> correct i = true -> correct i' = true ->
  prepared (conf i) d v n (states net i) = true -> prepared (conf i') d' v n (states net' i') = true ->
  d = d' \/ counted_twice net' i v n d \/ counted_twice net' i' v n d'.
Proof.
  intros Hr Hs Hi Hi' Hp%bool_decide_eq_true Hp'%bool_decide_eq_true.
  pose proof (steps_reachable _ _ Hr Hs) as Hr'. pose proof (reachable_ok _ Hr) as Hok. pose proof (reachable_ok _ Hr') as Hok'.
  apply (prepared_certificate (conf i) (accepted_by net i) digest_of (said net)) in Hp; [|apply (inv_logs _ _ _ _ _ _ (ok_replica _ Hok _ Hi))].
  apply (prepared_certificate (conf i') (accepted_by net' i') digest_of (said net')) in Hp'; [|apply (inv_logs _ _ _ _ _ _ (ok_replica _ Hok' _ Hi'))].
  destruct (steps_more _ _ Hs) as [Hsent Hacc]. eapply (certificates_agree net' i i'); [done| |exact Hp'].
  eapply certificate_mono; [|eapply certificate_verify; [|exact Hp]]; [intros k m H; by apply Hsent|].
  intros k m s H%bool_decide_eq_true. by apply bool_decide_eq_true, Hacc.
Qed.

(** In a network of 3F+1 replicas with at most F faulty ones, whatever the faulty ones
    send and in whatever order messages, blocks and actions come, two correct replicas
    that hold a request prepared for the same view and number, at any two times, hold the
    same request, unless one of them has accepted one prepare with two signatures. *)
Theorem prepared_agreement net net' i i' d d' v n :
  reachable net -> steps net net' -> correct i = true -> correct i' = true ->
  prepared (conf i) d v n (states net i) = true -> prepared (conf i') d' v n (states net' i') = true ->
  d = d' \/ counted_twice net' i v n d \/ counted_twice net' i' v n d'.
Proof. apply prepared_same. Qed.

(** C13: In a reachable network of 3F+1 replicas with at most F faulty ones, over a chain
    with increasing timestamps, a correct replica sends prepares for at most one request in
    a view and a number. *)
Theorem one_prepare net i v n d d' :
  reachable net -> correct i = true -> (i, Prepare v n d) ∈ sent net -> (i, Prepare v n d') ∈ sent net -> d = d'.
Proof.
  intros Hr Hi. destruct (inv_height _ _ _ _ _ _ (ok_replica _ (reachable_ok _ Hr) _ Hi)) as (h & _ & Hp).
  apply (p_unique _ _ _ _ Hp).
Qed.

(** C4: In a reachable network of 3F+1 replicas with at most F faulty ones, over a chain
    with increasing timestamps, a correct primary announces at most one request for a view
    and a number, in its pre-prepares and in its new view together. *)
Theorem one_announcement net i v n d d' :
  reachable net -> correct i = true -> announced (said net) i v n d -> announced (said net) i v n d' -> d = d'.
Proof.
  intros Hr Hi. apply (a_unique _ _ _ (inv_announcer _ _ _ _ _ _ (ok_replica _ (reachable_ok _ Hr) _ Hi))).
Qed.

(** C15: Along the steps of a network of 3F+1 replicas with at most F faulty ones, over a
    chain with increasing timestamps, the view and the height of a correct replica never
    decrease. *)
Theorem views_and_heights_grow net net' i h :
  reachable net -> steps net net' -> correct i = true -> height_of net i h ->
  view (states net i) <= view (states net' i) /\ exists h', height_of net' i h' /\ h <= h'.
Proof.
  intros Hr Hs Hi Hh. induction Hs as [|e net1 net2 Hs IH He]; [split; [done|by exists h]|].
  destruct IH as (Hv & h1 & Hh1 & Hle).
  destruct (net_step_grows _ _ _ _ _ (reachable_ok _ (steps_reachable _ _ Hr Hs)) He Hi Hh1) as (Hv' & h2 & Hh2 & Hle').
  split; [lia|]. exists h2. split; [done|lia].
Qed.

(** C14: In a reachable network of 3F+1 replicas with at most F faulty ones, a block of a
    chain with increasing timestamps that a correct replica takes is above its height and
    becomes its height: no pre-prepare, prepare or commit of the log is left at or below it,
    and every request of the log is later than the block.  (The commits of the recovery of a
    view and the view changes are kept.) *)
Theorem block_moves_window net net' i n hash :
  reachable net -> correct i = true -> net_step (NewBlock i n hash) net = Some net' ->
  exists h, height_of net i h /\ h < n /\ height_of net' i n /\
    last_rep (states net' i) = Z.max (last_rep (states net i)) (block_timestamp n) /\
    (forall d t, msg_log_request d t ∈ db (states net' i) -> last_rep (states net' i) < t) /\
    (forall v n' d b k s, msg_log_pre_prepare v n' d b k s ∈ db (states net' i) -> 0 <= n' -> n < n') /\
    (forall v n' d k s, msg_log_prepare v n' d k s ∈ db (states net' i) -> 0 <= n' -> n < n') /\
    (forall v n' b k s, msg_log_commit v n' b k s ∈ db (states net' i) -> 0 <= n' -> n < n').
Proof.
  intros Hr Hi Hstep. pose proof (reachable_ok _ Hr) as Hnet.
  destruct (reachable_height _ _ Hnet Hi) as (h & Hh & Hhs). exists h. split; [done|].
  cbn [net_step] in Hstep. rewrite Hi in Hstep.
  destruct (apply_RECEIVE_BLOCK _ _ _ _) as [st'|] eqn:He; [|done]. injection Hstep as <-.
  assert (Hd : forall d t t', msg_log_request d t ∈ db (states net i) -> msg_log_request d t' ∈ db (states net i) -> t = t').
  { intros d t t' H1 H2. apply (h_requests _ _ _ _ Hhs) in H1 as (_ & Ht & ->). apply (h_requests _ _ _ _ Hhs) in H2 as (_ & Ht' & Heq).
    by eapply request_digest_inj; [apply (as_target As)| | |]. }
  destruct (receive_block_effect _ _ _ _ _ Hd He) as (d & Hreq & Hlast & Hdb).
  apply (h_requests _ _ _ _ Hhs) in Hreq as (Hlt & _ & _).
  assert (Hn : h < n).
  { apply Z.nle_gt. intros Hle. destruct (decide (n = h)) as [->|]; [lia|].
    assert (H : block_timestamp n < block_timestamp h) by (apply (as_timestamps As); lia). lia. }
  unfold height_of. cbn [states finish]. unfold set_state. rewrite Z.eqb_refl, get_h_clear.
  assert (Hin : forall f, f ∈ db (msg_out_clear_all st') -> garbage n (last_rep st') f = false).
  { intros f [_ H]%elem_of_retract. by apply Hdb in H as (_ & ? & _). }
  pose proof (h_nonneg _ _ _ _ Hhs) as H0.
  split; [done|]. split; [|split; [exact Hlast|split_and!]].
  - eapply get_h_single; [apply Hdb; split; [done|]; split; [|by left]; simpl; lia|].
    intros m y u (_ & Hg & [[= -> -> ->]|H])%Hdb; [done|]. apply (h_only _ _ _ _ Hhs) in H as ->. simpl in Hg. lia.
  - intros d' t' H%Hin. simpl in *. lia.
  - intros * H%Hin ?. simpl in H. lia.
  - intros * H%Hin ?. simpl in H. lia.
  - intros * H%Hin ?. simpl in H. lia.
Qed.

End Assumed.

End Network.

(** ** A network of four replicas

    The third is faulty; the digest, the aggregation and the signatures are simple
    functions.  A block is due every minute. *)

Definition sample_digest (v hi : Z) (ck : string) (p : PSet) (q : QSet) (k : Z) : string :=
  (str_of_Z v ++ "/" ++ str_of_Z k)%string.
Definition sample_aggregate (l : list string) : option string := Some (String.concat "," l).
Definition sample_verify (k : Z) (m : Msg) (s : string) : bool := bool_decide (s = "sig"%string).
Definition minutes (n : Z) : Z := 60 * n.

Definition sample_wallet (block : string) : Wallet :=
  {| GenerateBlock t := Some block; TestBlockValidity _ _ := true; block_time _ := 60; GetHash b := b;
     GetPreSignatureShare := "ps"; GetSignatureShare _ _ _ := "share"%string; FinalizeBlock b _ _ := Some b |}.

Definition sample_start (replicas : Z) : Net := start replicas 60 minutes (fun _ => 0) (fun _ => "genesis"%string).
Definition sample_run (replicas : Z) (faulty : list Z) (verify : Z -> Msg -> string -> bool) (es : list Event) :
    option Net :=
  net_run replicas 60 0 faulty sample_digest sample_aggregate None verify minutes es (sample_start replicas).

Definition at_time (t : Z) (block : string) (i : Z) (a : Action) : Event := Act i (of_int t) (sample_wallet block) a.
Definition deliver (i k : Z) (m : Msg) : Event := Deliver i k m "sig" (of_int 61) 0 (sample_wallet "").
Definition broadcast (ids : list Z) (k : Z) (m : Msg) : list Event := (fun i => deliver i k m) <$> ids.

Definition d1 : string := request_digest 0 60 60.

(** The replicas 1 and 2 prepare the request of the primary 0. *)
Definition sample_prepared : list Event :=
  [Generate 0 60; Generate 1 60; Generate 2 60; at_time 61 "block" 0 (SEND_PRE_PREPARE d1 0 1)]
  ++ broadcast [1; 2] 0 (PrePrepare 0 1 d1 "block")
  ++ [at_time 61 "" 1 (SEND_PREPARE d1 0 1); at_time 61 "" 2 (SEND_PREPARE d1 0 1); Byzantine 3 (Prepare 0 1 d1);
      deliver 1 2 (Prepare 0 1 d1); deliver 2 1 (Prepare 0 1 d1); deliver 2 3 (Prepare 0 1 d1)].

Lemma reachable_run replicas target genesis faulty dvc agg u verify bt es net net' :
  reachable replicas target genesis faulty dvc agg u verify bt net ->
  net_run replicas target genesis faulty dvc agg u verify bt es net = Some net' ->
  reachable replicas target genesis faulty dvc agg u verify bt net'.
Proof.
  intros Hr. unfold net_run. revert net Hr. induction es as [|e es IH]; intros net Hr; cbn [foldl].
  - by intros [= <-].
  - simpl. destruct (net_step _ _ _ _ _ _ _ _ _ e net) as [net1|] eqn:He.
    + apply IH. by eapply reachable_step.
    + intros H. exfalso. clear -H. induction es as [|e' es IH]; [done|]. simpl in H. auto.
Qed.

Lemma sample_reachable replicas faulty verify es net :
  sample_run replicas faulty verify es = Some net ->
  reachable replicas 60 0 faulty sample_digest sample_aggregate None verify minutes net.
Proof. apply reachable_run. apply reachable_start. intros i. lia. Qed.

Lemma sample_assumptions : assumptions 4 60 [3] minutes.
Proof.
  split; [intros; unfold minutes; lia|lia|split; [reflexivity|lia]|].
  split; [reflexivity || (vm_compute; discriminate)|]. repeat constructor; lia.
Qed.

Definition holds (o : option Net) (p : Net -> bool) : bool := match o with Some net => p net | None => false end.

(** All the signatures of the samples are the same. *)
Definition signed_once (net : Net) : bool := forallb (fun '(_, _, _, s) => bool_decide (s = "sig"%string)) (accepted net).

Lemma signed_once_spec net i v n d : signed_once net = true -> ~ counted_twice net i v n d.
Proof.
  unfold signed_once. rewrite forallb_forall. intros H (k & s & s' & _ & Hne & H1%list_elem_of_In%H & H2%list_elem_of_In%H).
  simpl in H1, H2. apply bool_decide_eq_true in H1, H2. congruence.
Qed.

Example prepared_agreement_witness :
  exists net, sample_run 4 [3] sample_verify sample_prepared = Some net /\
    prepared (conf 4 60 1) d1 0 1 (states net 1) = true /\ prepared (conf 4 60 2) d1 0 1 (states net 2) = true /\
    (forall d, prepared (conf 4 60 2) d 0 1 (states net 2) = true -> d1 = d).
Proof.
  assert (H : holds (sample_run 4 [3] sample_verify sample_prepared) (fun net =>
    prepared (conf 4 60 1) d1 0 1 (states net 1) && prepared (conf 4 60 2) d1 0 1 (states net 2) && signed_once net) = true)
    by (vm_compute; reflexivity).
  destruct (sample_run 4 [3] sample_verify sample_prepared) as [net|] eqn:Hr; [|discriminate H].
  exists net. apply andb_true_iff in H as [[H1 H2]%andb_true_iff H3]. split; [reflexivity|]. split; [exact H1|]. split; [exact H2|].
  intros d Hd.
  destruct (prepared_agreement 4 60 0 [3] sample_digest sample_aggregate None sample_verify minutes sample_assumptions
    net net 1 2 d1 d 0 1 (sample_reachable _ _ _ _ _ Hr) (steps_refl _ _ _ _ _ _ _ _ _ _) eq_refl eq_refl H1 Hd) as [Hd'|Ht]; [exact Hd'|].
  exfalso. destruct Ht as [Ht|Ht]; exact (signed_once_spec _ _ _ _ _ H3 Ht).
Defined.

Example one_prepare_witness :
  exists net, sample_run 4 [3] sample_verify sample_prepared = Some net /\
    (1, Prepare 0 1 d1) ∈ sent net /\ (forall d, (1, Prepare 0 1 d) ∈ sent net -> d1 = d).
Proof.
  assert (H : holds (sample_run 4 [3] sample_verify sample_prepared) (fun net =>
    bool_decide ((1, Prepare 0 1 d1) ∈ sent net)) = true) by (vm_compute; reflexivity).
  destruct (sample_run 4 [3] sample_verify sample_prepared) as [net|] eqn:Hr; [|discriminate H].
  exists net. apply bool_decide_eq_true in H. split; [reflexivity|]. split; [exact H|]. intros d Hd.
  exact (one_prepare 4 60 0 [3] sample_digest sample_aggregate None sample_verify minutes sample_assumptions
    net 1 0 1 d1 d (sample_reachable _ _ _ _ _ Hr) eq_refl H Hd).
Defined.

Example one_announcement_witness :
  exists net, sample_run 4 [3] sample_verify sample_prepared = Some net /\
    announced (said net) 0 0 1 d1 /\ (forall d, announced (said net) 0 0 1 d -> d1 = d).
Proof.
  assert (H : holds (sample_run 4 [3] sample_verify sample_prepared) (fun net =>
    bool_decide ((0, PrePrepare 0 1 d1 "block") ∈ sent net)) = true) by (vm_compute; reflexivity).
  destruct (sample_run 4 [3] sample_verify sample_prepared) as [net|] eqn:Hr; [|discriminate H].
  apply bool_decide_eq_true in H. exists net.
  assert (Ha : announced (said net) 0 0 1 d1) by (left; exists "block"%string; exact H).
  split; [reflexivity|]. split; [exact Ha|]. intros d Hd.
  exact (one_announcement 4 60 0 [3] sample_digest sample_aggregate None sample_verify minutes sample_assumptions
    net 0 0 1 d1 d (sample_reachable _ _ _ _ _ Hr) eq_refl Ha Hd).
Defined.

Abbreviation sample_step := (net_step 4 60 0 [3] sample_digest sample_aggregate None sample_verify minutes).

Example block_moves_window_witness :
  exists net net', sample_run 4 [3] sample_verify sample_prepared = Some net /\ sample_step (NewBlock 1 1 "B") net = Some net' /\
    height_of net' 1 1.
Proof.
  assert (H : holds (sample_run 4 [3] sample_verify sample_prepared) (fun net =>
    bool_decide (is_Some (sample_step (NewBlock 1 1 "B") net))) = true) by (vm_compute; reflexivity).
  destruct (sample_run 4 [3] sample_verify sample_prepared) as [net|] eqn:Hr; [|discriminate H].
  apply bool_decide_eq_true in H as [net' H]. exists net, net'. split; [reflexivity|]. split; [exact H|].
  destruct (block_moves_window 4 60 0 [3] sample_digest sample_aggregate None sample_verify minutes sample_assumptions
    net net' 1 1 "B" (sample_reachable _ _ _ _ _ Hr) eq_refl H) as (h & _ & _ & Hh & _). exact Hh.
Defined.

Example views_and_heights_grow_witness :
  exists net net', sample_run 4 [3] sample_verify sample_prepared = Some net /\ sample_step (NewBlock 1 1 "B") net = Some net' /\
    view (states net 1) <= view (states net' 1).
Proof.
  assert (H : holds (sample_run 4 [3] sample_verify sample_prepared) (fun net =>
    bool_decide (is_Some (sample_step (NewBlock 1 1 "B") net)) && bool_decide (get_h (states net 1) = Some 0)) = true)
    by (vm_compute; reflexivity).
  destruct (sample_run 4 [3] sample_verify sample_prepared) as [net|] eqn:Hr; [|discriminate H].
  apply andb_true_iff in H as [H Hh]. apply bool_decide_eq_true in H as [net' H]. apply bool_decide_eq_true in Hh.
  exists net, net'. split; [reflexivity|]. split; [exact H|].
  exact (proj1 (views_and_heights_grow 4 60 0 [3] sample_digest sample_aggregate None sample_verify minutes sample_assumptions
    net net' 1 0 (sample_reachable _ _ _ _ _ Hr) (steps_step _ _ _ _ _ _ _ _ _ _ _ _ _ (steps_refl _ _ _ _ _ _ _ _ _ _) H)
    eq_refl Hh)).
Defined.
