(* ===== verification/EngineRoast.v ===== *)
(** * The coordinator of ROAST

    The invariant of the sessions of a replica: each has F+1 distinct signers and at most
    F+1 shares, and every signer of the tables has its session and its pre-signature
    share.  It holds in every reachable network, and with it a coordinator always accepts
    the next share. *)

From S2P Require Import Prelude PyFloat Engine EngineActions EngineFacts EngineSteps EngineInv EngineNet.

(** The facts of the sessions. *)
Definition roast_state (f : Fact) : bool :=
  match f with
  | roast_active _ _ _ | roast_responsive_signer _ | roast_latest_pre_signature_share _ _
  | roast_session_counter _ | roast_signers_sid _ _ | roast_signature_session _ _ _ _ => true
  | _ => false
  end.

Section Roast.
Context (c : Config).
Context (aggregate : list string -> option string).

Abbreviation me := (replica_id c).
Abbreviation q := (sig_quorum c).

Record roast_ok (st : State) : Prop := {
  ro_nodup : NoDup (db st);
  ro_session i s p h : roast_signature_session i s p h ∈ db st ->
    NoDup s /\ Z.of_nat (length s) = q /\ Z.of_nat (length h) <= q;
  ro_sid i x : roast_signers_sid i x ∈ db st ->
    (exists s p h, roast_signature_session x s p h ∈ db st) /\ exists y, roast_latest_pre_signature_share i y ∈ db st;
  ro_responsive i : roast_responsive_signer i ∈ db st -> exists y, roast_latest_pre_signature_share i y ∈ db st;
  ro_few : Z.of_nat (length (responsive_signers st)) < q;
  ro_coordinator v n d : roast_active v n d ∈ db st -> primary c v = me -> exists x, roast_session_counter x ∈ db st
}.

(** ** Steps that leave the sessions *)

Definition calm (st st' : State) : Prop :=
  (NoDup (db st) -> NoDup (db st')) /\ responsive_signers st' = responsive_signers st /\
  forall f, roast_state f = true -> (f ∈ db st' <-> f ∈ db st).

Lemma calm_refl st : calm st st.
Proof. by repeat split. Qed.

Lemma calm_trans st1 st2 st3 : calm st1 st2 -> calm st2 st3 -> calm st1 st3.
Proof.
  intros (Hn & Hr & Hf) (Hn' & Hr' & Hf'). split; [auto|]. split; [congruence|]. intros f H. by rewrite Hf', Hf.
Qed.

Lemma calm_db st st' : db st' = db st -> calm st st'.
Proof. intros He. unfold calm, responsive_signers, findall. rewrite He. by repeat split. Qed.

Lemma calm_add f st : roast_state f = false -> calm st (add_fact f st).
Proof.
  intros Hf. split; [apply NoDup_add_fact|]. split; [apply findall_add_fact; by destruct f|].
  intros g Hg. rewrite elem_of_add_fact. split; [intros [->|]; [congruence|done]|by right].
Qed.

Lemma calm_retract r st : (forall f, roast_state f = true -> r f = false) -> calm st (retract r st).
Proof.
  intros Hr. split; [apply NoDup_retract|]. split.
  - apply findall_retract. intros f Hf. destruct f; try done. by rewrite Hr in Hf.
  - intros f Hf. rewrite elem_of_retract, (Hr f Hf). tauto.
Qed.

Lemma calm_foldl {A} (h : State -> A -> State) l st : (forall s x, calm s (h s x)) -> calm st (foldl h st l).
Proof. intros Hh. apply foldl_ind; [apply calm_refl|]. intros s x _ Hs. by eapply calm_trans. Qed.

Lemma calm_ok st st' : calm st st' -> roast_ok st -> roast_ok st'.
Proof.
  intros (Hn & Hr & Hf) [R1 R2 R3 R4 R5 R6]. split.
  - auto.
  - intros i s p h H%Hf; [by eapply R2|done].
  - intros i x H%Hf; [|done]. destruct (R3 _ _ H) as [(s & p & h & Hs) [y Hy]].
    split; [exists s, p, h|exists y]; by apply Hf.
  - intros i H%Hf; [|done]. destruct (R4 _ H) as [y Hy]. exists y. by apply Hf.
  - by rewrite Hr.
  - intros v n d H%Hf Hp; [|done]. destruct (R6 _ _ _ H Hp) as [x Hx]. exists x. by apply Hf.
Qed.

Ltac calm_step := first [by apply calm_add | apply calm_retract; by intros [] | by apply calm_db].

Lemma calm_then_add f st st' : roast_state f = false -> calm st st' -> calm st (add_fact f st').
Proof. intros Hf H. eapply calm_trans; [exact H|by apply calm_add]. Qed.

Lemma calm_update_Pi st : calm st (update_view_change_Pi c st).
Proof.
  eapply (calm_trans _ (retract is_Pi st)); [calm_step|]. apply calm_foldl.
  intros s [[] ?]. case_match; [apply calm_refl|calm_step].
Qed.

Lemma calm_update_Qi st : calm st (update_view_change_Qi c st).
Proof.
  eapply (calm_trans _ (retract is_Qi st)); [calm_step|]. apply calm_foldl.
  intros s [[] ?]. case_match; [apply calm_refl|]. apply calm_foldl.
  intros s' [[[[] ?] ?] ?]. case_bool_decide; [calm_step|apply calm_refl].
Qed.

(** ** The sessions *)

Lemma sessions_not_final st i s p h :
  roast_ok st -> roast_signature_session i s p h ∈ db st -> roast_actives st <> [] -> is_final c st = false ->
  Z.of_nat (length h) < q.
Proof.
  intros Hok Hs Ha Hf. destruct (ro_session _ Hok _ _ _ _ Hs) as (_ & _ & Hle).
  destruct (decide (Z.of_nat (length h) = q)) as [He|]; [|lia]. exfalso.
  destruct (roast_actives st) as [|a l] eqn:Hact; [done|]. apply negb_false_iff, bool_decide_eq_true in Hf.
  assert (H : (i, s, p, h) ∈ final_sessions c st).
  { unfold final_sessions. apply list_elem_of_bind. exists a. rewrite Hact. split; [|left].
    apply list_elem_of_filter. split; [done|]. by apply elem_of_sessions. }
  rewrite Hf in H. by apply not_elem_of_nil in H.
Qed.





Lemma store_share_ok i share st st' :
  roast_ok st -> roast_actives st <> [] -> is_final c st = false -> store_share i share st = Some st' ->
  roast_ok st' /\ roast_actives st' <> [].
Proof.
  intros Hok Ha Hf. unfold store_share. destruct (signer_sids i st) as [|sid l]; [by intros [= <-]|].
  destruct (head (filter _ _)) as [[[[sid' s] p] h]|] eqn:Hh; [|done]. simpl.
  destruct (head (latest_shares i st)) as [y|]; [|done]. simpl. intros [= <-].
  apply head_Some_elem_of, list_elem_of_filter in Hh as [Heq Hs%elem_of_sessions]. simpl in Heq. subst sid'.
  set (f := roast_signature_session sid s p (h ++ [share])).
  assert (Hdb : forall g, g ∈ db (set_roast_signature_session sid s p (h ++ [share]) st) <->
    g = f \/ (match g with roast_signature_session i' _ _ _ => i' =? sid | _ => false end = false /\ g ∈ db st)).
  { intros g. unfold set_roast_signature_session. by rewrite elem_of_add_fact, elem_of_retract. }
  assert (Hkeep : forall g, g ∈ db st -> match g with roast_signature_session i' _ _ _ => False | _ => True end ->
    g ∈ db (set_roast_signature_session sid s p (h ++ [share]) st)).
  { intros g Hg Hng. apply Hdb. right. split; [by destruct g|done]. }
  pose proof (sessions_not_final _ _ _ _ _ Hok Hs Ha Hf) as Hlt. destruct Hok as [R1 R2 R3 R4 R5 R6]. split; [split|].
  - by apply NoDup_add_fact, NoDup_retract.
  - intros i' s' p' h' [[= -> -> -> ->]|[_ H]]%Hdb; [|by eapply R2].
    destruct (R2 _ _ _ _ Hs) as (? & ? & _). rewrite length_app. simpl. split; [done|]. split; [done|lia].
  - intros j x [[=]|[_ H]]%Hdb. destruct (R3 _ _ H) as [(s' & p' & h' & Hs') [z Hz]]. split.
    + destruct (decide (x = sid)) as [->|Hne]; [exists s, p, (h ++ [share]); apply Hdb; by left|].
      exists s', p', h'. apply Hdb. right. split; [by apply Z.eqb_neq|done].
    + exists z. by apply Hkeep.
  - intros j [[=]|[_ H]]%Hdb. destruct (R4 _ H) as [z Hz]. exists z. by apply Hkeep.
  - unfold responsive_signers, set_roast_signature_session in *. rewrite findall_add_fact, findall_retract; [done| |done]. by intros [].
  - intros v n d [[=]|[_ H]]%Hdb Hp. destruct (R6 _ _ _ H Hp) as [x Hx]. exists x. by apply Hkeep.
  - unfold roast_actives, set_roast_signature_session in *. rewrite findall_add_fact, findall_retract; [done| |done]. by intros [].
Qed.

Lemma responsive_NoDup st : NoDup (db st) -> NoDup (responsive_signers st).
Proof.
  intros H. unfold responsive_signers, findall. apply NoDup_omap_inj; [done|].
  intros f g z _ _ Hf Hg. destruct f; try done. destruct g; try done. simpl in *. congruence.
Qed.

(** The share of the signer is recorded, which is responsive from now on. *)
Definition with_share (i : Z) (next : string) (st : State) : State :=
  add_fact (roast_responsive_signer i) (set_latest_pre_signature_share i next st).

Lemma elem_of_with_share f i next st :
  f ∈ db (with_share i next st) <->
  f = roast_responsive_signer i \/ f = roast_latest_pre_signature_share i next \/
  (match f with roast_latest_pre_signature_share s _ => s =? i | _ => false end = false /\ f ∈ db st).
Proof. unfold with_share, set_latest_pre_signature_share. by rewrite !elem_of_add_fact, elem_of_retract. Qed.

(** The invariant but for the bound on the responsive signers. *)
Record tables_ok (st : State) : Prop := {
  to_nodup : NoDup (db st);
  to_session i s p h : roast_signature_session i s p h ∈ db st ->
    NoDup s /\ Z.of_nat (length s) = q /\ Z.of_nat (length h) <= q;
  to_sid i x : roast_signers_sid i x ∈ db st ->
    (exists s p h, roast_signature_session x s p h ∈ db st) /\ exists y, roast_latest_pre_signature_share i y ∈ db st;
  to_responsive i : roast_responsive_signer i ∈ db st -> exists y, roast_latest_pre_signature_share i y ∈ db st;
  to_coordinator v n d : roast_active v n d ∈ db st -> primary c v = me -> exists x, roast_session_counter x ∈ db st
}.

Lemma with_share_ok i next st :
  roast_ok st -> tables_ok (with_share i next st) /\ Z.of_nat (length (responsive_signers (with_share i next st))) <= q.
Proof.
  intros [R1 R2 R3 R4 R5 R6].
  assert (Hkeep : forall f, f ∈ db st -> match f with roast_latest_pre_signature_share _ _ => False | _ => True end ->
    f ∈ db (with_share i next st)).
  { intros f Hf Hn. apply elem_of_with_share. right; right. split; [by destruct f|done]. }
  assert (Hlatest : forall j y, roast_latest_pre_signature_share j y ∈ db st ->
    exists z, roast_latest_pre_signature_share j z ∈ db (with_share i next st)).
  { intros j y Hj. destruct (decide (j = i)) as [->|Hne].
    - exists next. apply elem_of_with_share. tauto.
    - exists y. apply elem_of_with_share. right; right. split; [by apply Z.eqb_neq|done]. }
  split; [split|].
  - by apply NoDup_add_fact, NoDup_add_fact, NoDup_retract.
  - intros j s p h [[=]|[[=]|[_ H]]]%elem_of_with_share. by eapply R2.
  - intros j x [[=]|[[=]|[_ H]]]%elem_of_with_share. destruct (R3 _ _ H) as [(s & p & h & Hs) [y Hy]].
    split; [exists s, p, h; by apply Hkeep|by eapply Hlatest].
  - intros j [[= ->]|[[=]|[_ H]]]%elem_of_with_share.
    + exists next. apply elem_of_with_share. tauto.
    + destruct (R4 _ H) as [y Hy]. by eapply Hlatest.
  - intros v n d [[=]|[[=]|[_ H]]]%elem_of_with_share Hp. destruct (R6 _ _ _ H Hp) as [x Hx]. exists x. by apply Hkeep.
  - assert (He : responsive_signers (set_latest_pre_signature_share i next st) = responsive_signers st).
    { unfold responsive_signers, set_latest_pre_signature_share. rewrite findall_add_fact, findall_retract; [done| |done]. by intros []. }
    pose proof (findall_add_le (fun f => match f with roast_responsive_signer s => Some s | _ => None end)
      (roast_responsive_signer i) (set_latest_pre_signature_share i next st)) as Hle.
    change (findall _ (set_latest_pre_signature_share i next st)) with (responsive_signers (set_latest_pre_signature_share i next st)) in Hle.
    rewrite He in Hle. unfold responsive_signers at 1, with_share. lia.
Qed.

(** The state with a new session. *)
Definition new_session (sid : Z) (r : list Z) (pre : string) (st : State) : State :=
  roast_clear_responsive_signers (set_roast_signature_session sid r pre []
    (add_fact (msg_out_roast_pre_signature r pre)
      (foldl (fun s i => set_roast_signers_sid i sid s) (set_roast_session_counter sid st) r))).

(** Its facts come from the session, its signers and the state before. *)
Lemma elem_of_new_session sid r pre st g :
  g ∈ db (new_session sid r pre st) ->
  match g with roast_responsive_signer _ => false | _ => true end = true /\
  (g = roast_signature_session sid r pre [] \/ g = msg_out_roast_pre_signature r pre \/ g = roast_session_counter sid \/
   (exists i, i ∈ r /\ g = roast_signers_sid i sid) \/
   (g ∈ db st /\ match g with roast_signature_session i' _ _ _ => i' =? sid | _ => false end = false)).
Proof.
  unfold new_session. set (st1 := set_roast_session_counter sid st). set (st2 := foldl _ st1 r).
  assert (Hsid : g ∈ db st2 -> (exists i, i ∈ r /\ g = roast_signers_sid i sid) \/ g ∈ db st1).
  { unfold st2. apply (foldl_ind (fun s => g ∈ db s -> _)); [auto|].
    intros s i Hi IH [->|[_ H]%elem_of_retract]%elem_of_add_fact; eauto. }
  intros [Hr [->|[Hs [->|[Hg|Hg]%Hsid]%elem_of_add_fact]%elem_of_retract]%elem_of_add_fact]%elem_of_retract;
    [split; [done|tauto]|split; [done|tauto]|split; [by destruct g|tauto]|].
  split; [by destruct g|]. apply elem_of_add_fact in Hg as [->|[_ Hg]%elem_of_retract]; [tauto|]. do 4 right. by split.
Qed.

(** What it keeps, and what it has. *)
Lemma new_session_keeps sid r pre st g :
  g = roast_session_counter sid \/
  (match g with roast_responsive_signer _ | roast_session_counter _ | roast_signers_sid _ _ => False
   | roast_signature_session i _ _ _ => i <> sid | _ => True end /\ g ∈ db st) ->
  g ∈ db (new_session sid r pre st).
Proof.
  intros Hg. unfold new_session. apply elem_of_retract. split; [by destruct Hg as [->|[? _]]; [|destruct g]|].
  apply elem_of_add_fact. right. apply elem_of_retract.
  split; [destruct Hg as [->|[? _]]; [done|destruct g; try done; by apply Z.eqb_neq]|]. apply elem_of_add_fact. right.
  apply (foldl_ind (fun s => g ∈ db s)).
  - apply elem_of_add_fact. destruct Hg as [->|[? H]]; [by left|right]. apply elem_of_retract. split; [by destruct g|done].
  - intros s i _ IH. apply elem_of_add_fact. right. apply elem_of_retract. split; [|done]. by destruct Hg as [->|[? _]]; [|destruct g].
Qed.

Lemma new_session_there sid r pre st : roast_signature_session sid r pre [] ∈ db (new_session sid r pre st).
Proof. apply elem_of_retract. split; [done|]. apply elem_of_add_fact. by left. Qed.

Lemma new_session_NoDup sid r pre st : NoDup (db st) -> NoDup (db (new_session sid r pre st)).
Proof.
  intros H. apply NoDup_retract, NoDup_add_fact, NoDup_retract, NoDup_add_fact. apply foldl_ind.
  - by apply NoDup_add_fact, NoDup_retract.
  - intros s i _ Hs. by apply NoDup_add_fact, NoDup_retract.
Qed.

(** A new session takes all the responsive signers. *)
Lemma start_session_ok st st' :
  tables_ok st -> Z.of_nat (length (responsive_signers st)) <= q -> 0 < q -> start_session c aggregate st = Some st' ->
  roast_ok st'.
Proof.
  intros [R1 R2 R3 R4 R6] Hle Hq. unfold start_session. destruct (_ =? q) eqn:He.
  2: { intros [= <-]. apply Z.eqb_neq in He. split; [done|done|done|done|lia|done]. }
  apply Z.eqb_eq in He. destruct (head _) as [old|]; [|done]. simpl. destruct (aggregate _) as [pre|]; [|done]. intros [= <-].
  set (r := responsive_signers st) in *. set (sid := old + 1). change (roast_clear_responsive_signers _) with (new_session sid r pre st).
  assert (Hsess : forall x s p h, roast_signature_session x s p h ∈ db st ->
    exists s' p' h', roast_signature_session x s' p' h' ∈ db (new_session sid r pre st)).
  { intros x s p h H. destruct (decide (x = sid)) as [->|]; [exists r, pre, []; apply new_session_there|].
    exists s, p, h. apply new_session_keeps. by right. }
  split.
  - by apply new_session_NoDup.
  - intros i s p h [_ [H|[[=]|[[=]|[(? & _ & [=])|[H _]]]]]]%elem_of_new_session; [|by eapply R2].
    injection H as -> -> -> ->. split; [by apply responsive_NoDup|]. simpl. lia.
  - intros i x [_ [[=]|[[=]|[[=]|[(j & Hj & [= -> ->])|[H _]]]]]]%elem_of_new_session.
    + split; [exists r, pre, []; apply new_session_there|]. apply elem_of_responsive_signers in Hj. destruct (R4 _ Hj) as [y Hy].
      exists y. apply new_session_keeps. by right.
    + destruct (R3 _ _ H) as [(s & p & h & Hs) [y Hy]]. split; [by eapply Hsess|]. exists y. apply new_session_keeps. by right.
  - intros i [? _]%elem_of_new_session. done.
  - replace (responsive_signers (new_session sid r pre st)) with (@nil Z); [simpl; lia|]. symmetry.
    destruct (responsive_signers (new_session sid r pre st)) as [|i l] eqn:Hl; [done|]. exfalso.
    assert (H : i ∈ responsive_signers (new_session sid r pre st)) by (rewrite Hl; left).
    by apply elem_of_responsive_signers, elem_of_new_session in H as [? _].
  - intros v n d _ _. exists sid. apply new_session_keeps. by left.
Qed.



Definition marked (i : Z) (st : State) : State :=
  if decide (i ∈ responsive_signers st) then add_fact (roast_malicious_signer i) st else st.

Lemma marked_calm i st : calm st (marked i st).
Proof. unfold marked. case_decide; [calm_step|apply calm_refl]. Qed.

Lemma calm_final st st' : calm st st' -> (forall x, x ∈ roast_actives st <-> x ∈ roast_actives st') ->
  (forall x, x ∈ sessions st <-> x ∈ sessions st') -> is_final c st = is_final c st'.
Proof.
  intros _ Ha Hs. unfold is_final. f_equal. apply bool_decide_ext.
  assert (Hnil : forall {A} (l : list A), l = [] <-> forall x, ~ x ∈ l).
  { intros A l. split; [intros ->; apply not_elem_of_nil|]. destruct l as [|x l]; [done|]. intros H. exfalso. apply (H x). left. }
  rewrite !Hnil. unfold final_sessions. setoid_rewrite list_elem_of_bind. setoid_rewrite list_elem_of_filter.
  split; intros H x (y & [Hx Hxs] & Hy); apply (H x); exists y; (split; [split; [done|by apply Hs]|by apply Ha]).
Qed.

Lemma marked_final i st : is_final c (marked i st) = is_final c st.
Proof.
  symmetry. apply calm_final; [apply marked_calm| |]; intros x; unfold marked; (case_decide; [|done]).
  - unfold roast_actives. by rewrite findall_add_fact.
  - unfold sessions. by rewrite findall_add_fact.
Qed.

Lemma marked_actives i st : roast_actives (marked i st) = roast_actives st.
Proof. unfold marked. case_decide; [|done]. unfold roast_actives. by rewrite findall_add_fact. Qed.

Lemma receive_sig_share_ok i share next st st' :
  0 < q -> roast_ok st -> apply_RECEIVE_SIG_SHARE c aggregate i share next st = Some st' -> roast_ok st'.
Proof.
  intros Hq Hok. unfold apply_RECEIVE_SIG_SHARE. destruct (existsb _ _) eqn:Ha; [|done]. destruct (is_final c st) eqn:Hf; [done|].
  cbn [andb negb]. fold (marked i st).
  assert (Hact : roast_actives (marked i st) <> []). { rewrite marked_actives. intros He. by rewrite He in Ha. }
  assert (Hok1 : roast_ok (marked i st)) by (eapply calm_ok; [apply marked_calm|done]).
  destruct (store_share i share (marked i st)) as [st1|] eqn:Hs; [|done]. simpl.
  apply store_share_ok in Hs as [Hok2 _]; [|done|done|by rewrite marked_final].
  destruct (is_final c st1); [by intros [= <-]|]. fold (with_share i next st1).
  destruct (with_share_ok i next st1 Hok2) as [Ht Hle]. by apply start_session_ok.
Qed.

Lemma roast_init_ok v n d st st' :
  0 < q -> roast_ok st -> apply_ROAST_INIT c aggregate v n d st = Some st' -> roast_ok st'.
Proof.
  intros Hq [R1 R2 R3 R4 R5 R6]. unfold apply_ROAST_INIT. set (st0 := set_roast_active (Some (v, n, d)) st).
  assert (H0 : forall f, f ∈ db st0 <-> f = roast_active v n d \/ (is_roast_active f = false /\ f ∈ db st)).
  { intros f. unfold st0, set_roast_active. by rewrite elem_of_add_fact, elem_of_retract. }
  assert (Hr0 : responsive_signers st0 = responsive_signers st).
  { unfold st0, set_roast_active, responsive_signers. rewrite findall_add_fact, findall_retract; [done| |done]. by intros []. }
  assert (Hn0 : NoDup (db st0)) by by apply NoDup_add_fact, NoDup_retract.
  assert (Hk0 : forall f, f ∈ db st -> is_roast_active f = false -> f ∈ db st0) by (intros f Hf Hn; apply H0; by right).
  assert (T1 : forall i s p h, roast_signature_session i s p h ∈ db st0 ->
    NoDup s /\ Z.of_nat (length s) = q /\ Z.of_nat (length h) <= q).
  { intros i s p h [[=]|[_ H]]%H0. by eapply R2. }
  assert (T2 : forall i x, roast_signers_sid i x ∈ db st0 ->
    (exists s p h, roast_signature_session x s p h ∈ db st0) /\ exists y, roast_latest_pre_signature_share i y ∈ db st0).
  { intros i x [[=]|[_ H]]%H0. destruct (R3 _ _ H) as [(s & p & h & Hs) [y Hy]].
    split; [exists s, p, h|exists y]; by apply Hk0. }
  assert (T3 : forall i, roast_responsive_signer i ∈ db st0 -> exists y, roast_latest_pre_signature_share i y ∈ db st0).
  { intros i [[=]|[_ H]]%H0. destruct (R4 _ H) as [y Hy]. exists y. by apply Hk0. }
  destruct (primary c v =? me) eqn:Hp.
  2: { intros [= <-]. apply Z.eqb_neq in Hp. split; [done|done|done|done|by rewrite Hr0|].
       intros v' n' d' [[= -> -> ->]|[? _]]%H0 Hp'; [done|]. by destruct Hp. }
  set (st1 := set_roast_session_counter 0 st0).
  assert (Hok1 : roast_ok st1).
  { assert (H1 : forall f, f ∈ db st1 <-> f = roast_session_counter 0 \/
      (match f with roast_session_counter _ => true | _ => false end = false /\ f ∈ db st0)).
    { intros f. unfold st1, set_roast_session_counter. by rewrite elem_of_add_fact, elem_of_retract. }
    split.
    - by apply NoDup_add_fact, NoDup_retract.
    - intros i s p h [[=]|[_ H]]%H1. by eapply T1.
    - intros i x [[=]|[_ H]]%H1. destruct (T2 _ _ H) as [(s & p & h & Hs) [y Hy]].
      split; [exists s, p, h|exists y]; apply H1; by right.
    - intros i [[=]|[_ H]]%H1. destruct (T3 _ H) as [y Hy]. exists y. apply H1. by right.
    - unfold responsive_signers, st1, set_roast_session_counter in *.
      rewrite findall_add_fact, findall_retract; [by rewrite Hr0| |done]. by intros [].
    - intros _ _ _ _ _. exists 0. apply H1. by left. }
  generalize (commits v n st1). intros l. clearbody st1. clear -Hq Hok1. revert st1 Hok1.
  induction l as [|[k data] l IH]; intros st1 Hok1; cbn [foldl]; [by intros [= <-]|]. simpl.
  destruct (apply_RECEIVE_SIG_SHARE _ _ _ _ _ st1) as [st2|] eqn:H2.
  - apply IH. by eapply receive_sig_share_ok.
  - intros H. exfalso. clear -H. induction l as [|[k' data'] l IH]; [done|]. simpl in H. auto.
Qed.




(** Leaving ROAST, by a view change or with a block. *)
Lemma deactivated_ok st : roast_ok st -> roast_ok (retract is_roast_active st).
Proof.
  intros [R1 R2 R3 R4 R5 R6].
  assert (Hk : forall f, f ∈ db st -> is_roast_active f = false -> f ∈ db (retract is_roast_active st)).
  { intros f Hf Hn. by apply elem_of_retract. }
  split.
  - by apply NoDup_retract.
  - intros i s p h [_ H]%elem_of_retract. by eapply R2.
  - intros i x [_ H]%elem_of_retract. destruct (R3 _ _ H) as [(s & p & h & Hs) [y Hy]].
    split; [exists s, p, h|exists y]; by apply Hk.
  - intros i [_ H]%elem_of_retract. destruct (R4 _ H) as [y Hy]. exists y. by apply Hk.
  - unfold responsive_signers in *. rewrite findall_retract; [done|]. by intros [].
  - by intros v n d [? _]%elem_of_retract.
Qed.

Lemma no_roast_ok st : 0 < q -> NoDup (db st) -> (forall f, roast_state f = true -> f ∉ db st) -> roast_ok st.
Proof.
  intros Hq Hn Hf. split; [done|..].
  - intros i s p h H. by apply Hf in H.
  - intros i x H. by apply Hf in H.
  - intros i H. by apply Hf in H.
  - replace (responsive_signers st) with (@nil Z); [simpl; lia|]. symmetry.
    destruct (responsive_signers st) as [|i l] eqn:Hl; [done|]. exfalso.
    assert (H : i ∈ responsive_signers st) by (rewrite Hl; left). apply elem_of_responsive_signers in H. by apply Hf in H.
  - intros v n d H. by apply Hf in H.
Qed.

Lemma view_change_ok dvc v st st' :
  roast_ok st -> apply_SEND_VIEW_CHANGE c dvc v st = Some st' -> roast_ok st'.
Proof.
  intros Hok. unfold apply_SEND_VIEW_CHANGE. destruct (get_h _) as [hi|]; [|done]. simpl.
  destruct (head _) as [[[? ck] ?]|]; [|done]. intros [= <-].
  eapply calm_ok; [calm_step|]. eapply calm_ok; [calm_step|]. eapply calm_ok; [calm_step|].
  eapply calm_ok; [apply calm_update_Qi|]. eapply calm_ok; [apply calm_update_Pi|].
  apply (deactivated_ok (set_active_view false (set_view c v st))). eapply calm_ok; [|exact Hok]. by apply calm_db.
Qed.

Lemma process_new_view_ok hi chi st st' :
  roast_ok st -> apply_PROCESS_NEW_VIEW c hi chi st = Some st' -> roast_ok st'.
Proof.
  intros Hok. unfold apply_PROCESS_NEW_VIEW.
  set (st1 := log_new_view _ _ _ _). assert (H1 : calm st st1).
  { eapply (calm_trans _ (set_active_view true st)); [by apply calm_db|]. apply calm_foldl. intros s [[] ?]. calm_step. }
  set (st2 := set_seqno _ st1). assert (H2 : calm st st2) by (eapply calm_trans; [exact H1|by apply calm_db]).
  case_match; intros [= <-]; (eapply calm_ok; [|exact Hok]); [done|]. eapply calm_trans; [exact H2|].
  unfold prepare_new_view. eapply calm_trans; [|apply calm_foldl; intros s [[] ?]; calm_step].
  apply calm_foldl. intros s [[] ?]. calm_step.
Qed.

Lemma block_ok n t x st st' : 0 < q -> roast_ok st -> apply_RECEIVE_BLOCK n t x st = Some st' -> roast_ok st'.
Proof.
  intros Hq Hok. unfold apply_RECEIVE_BLOCK. destruct (head _) as [[d u]|]; [|done]. simpl. intros [= <-].
  apply no_roast_ok; [done| |].
  - apply NoDup_retract, NoDup_retract, NoDup_add_fact. rewrite apply_EXECUTE_db. apply (ro_nodup _ Hok).
  - intros f Hf [Hr _]%elem_of_retract. by destruct f.
Qed.

Lemma effect_ok dvc w a st st' : 0 < q -> roast_ok st -> effect c dvc aggregate w a st = Some st' -> roast_ok st'.
Proof.
  intros Hq Hok. destruct a; cbn [effect].
  - unfold Execute_effect. destruct (_ <$> last _); [|done]. simpl. destruct (FindByV_N_Req _ _ _ _); [|done].
    simpl. destruct (FinalizeBlock _ _ _ _); [|done]. simpl. case_bool_decide; [|done]. intros [= <-].
    eapply calm_ok; [|exact Hok]. apply calm_db, apply_EXECUTE_db.
  - intros [= <-]. do 2 (eapply calm_ok; [calm_step|]). done.
  - intros [= <-]. do 2 (eapply calm_ok; [calm_step|]). done.
  - destruct (FindByDigest _ _) as [[? t]|]; [|done]. simpl. destruct (GenerateBlock _ _); [|done]. intros [= <-].
    do 2 (eapply calm_ok; [calm_step|]). eapply calm_ok; [|exact Hok]. by apply calm_db.
  - by apply view_change_ok.
  - intros [= <-]. eapply calm_ok; [calm_step|]. eapply calm_ok; [|exact Hok]. by apply calm_db.
  - intros [= <-]. do 2 (eapply calm_ok; [calm_step|]). done.
  - by apply process_new_view_ok.
  - by apply roast_init_ok.
Qed.

Lemma receive_ok dvc w now tolerance m k s st st' :
  0 < q -> roast_ok st -> receive c dvc aggregate w now tolerance m k s st = Some st' -> roast_ok st'.
Proof.
  intros Hq Hok. destruct m; cbn [receive].
  - unfold ReceivePrePrepare_effect, apply_RECEIVE_PRE_PREPARE. destruct (TestBlockValidity _ _ _); [|done].
    destruct (FindByDigest _ _) as [[? t]|]; [|done]. simpl. destruct (_ =? t); [done|]. destruct (_ <? _); [done|].
    case_match; [|done]. intros [= <-]. eapply calm_ok; [calm_step|done].
  - unfold apply_RECEIVE_PREPARE. case_match; [|done]. intros [= <-]. eapply calm_ok; [calm_step|done].
  - unfold apply_RECEIVE_COMMIT. destruct (k =? me); [done|]. destruct (in_wv v n st).
    + assert (H0 : roast_ok (add_fact (msg_log_commit v n data k s) st)) by (eapply calm_ok; [calm_step|done]).
      destruct (_ && _); [by apply receive_sig_share_ok|by intros [= <-]].
    + case_match; [|done]. intros [= <-]. eapply calm_ok; [calm_step|done].
  - unfold apply_RECEIVE_VIEW_CHANGE. case_match; [|done]. intros [= <-]. eapply calm_ok; [calm_step|done].
  - unfold apply_RECEIVE_NEW_VIEW. case_match; [|done]. case_match; intros [= <-]; [done|]. eapply calm_ok; [calm_step|done].
  - unfold ReceivePreSignature_effect, apply_RECEIVE_PRE_SIGNATURE. destruct (head _) as [[[v n] d]|]; [|done]. simpl.
    destruct (FindByV_N_Req _ _ _ _); [|done]. simpl. case_bool_decide; [|done]. case_bool_decide; [done|].
    intros [= <-]. eapply calm_ok; [calm_step|done].
  - by apply receive_sig_share_ok.
Qed.

End Roast.

(** ** In the network *)

Section RoastNetwork.
Context (replicas target genesis : Z) (faulty : list Z).
Context (digest_view_change : Z -> Z -> string -> PSet -> QSet -> Z -> string).
Context (aggregate : list string -> option string) (unbound_text : option string).
Context (verify : Z -> Msg -> string -> bool) (block_timestamp : Z -> Z).
Hypothesis some_replica : 1 <= replicas.

Abbreviation conf := (EngineNet.conf replicas target).
Abbreviation reachable :=
  (EngineNet.reachable replicas target genesis faulty digest_view_change aggregate unbound_text verify block_timestamp).

Lemma floor_third_nonneg z : 0 <= z -> 0 <= floor_third z.
Proof.
  intros Hz. unfold floor_third. case_match; [apply Z.div_pos; lia|]. unfold ffloor.
  pose proof one_pos. apply Z.div_pos; [|lia]. apply round_frac_nonneg; lia.
Qed.

Lemma sig_quorum_pos i : 0 < sig_quorum (conf i).
Proof. unfold sig_quorum. simpl. pose proof (floor_third_nonneg (replicas - 1)). lia. Qed.

Lemma finished_roast_ok net i st' :
  (forall j, roast_ok (conf j) (states net j)) -> roast_ok (conf i) st' ->
  forall j, roast_ok (conf j) (states (finish i net st') j).
Proof.
  intros Hall Hok j. simpl. unfold set_state. destruct (j =? i) eqn:Hj; [|done]. apply Z.eqb_eq in Hj as ->.
  eapply calm_ok; [|exact Hok]. apply calm_retract. by intros [].
Qed.

Lemma reachable_roast_ok net : reachable net -> forall i, roast_ok (conf i) (states net i).
Proof.
  induction 1 as [height hash _|e net net' _ IH He].
  - intros i. apply no_roast_ok; [apply sig_quorum_pos|apply NoDup_singleton|].
    intros f Hf ->%list_elem_of_singleton. done.
  - destruct e as [i now w a|i k m s now tolerance w|i t|i n hash|k m]; cbn [net_step] in He; (case_match; [|done]).
    + destruct (effect _ _ _ _ _ _) as [st'|] eqn:Hs; [|done]. injection He as <-. apply finished_roast_ok; [done|].
      eapply effect_ok; [apply sig_quorum_pos|apply IH|exact Hs].
    + destruct (receive _ _ _ _ _ _ _ _ _ _) as [st'|] eqn:Hs; [|done]. injection He as <-. apply finished_roast_ok; [done|].
      eapply receive_ok; [apply sig_quorum_pos|apply IH|exact Hs].
    + destruct (apply_RECEIVE_REQUEST _ _ _) as [st'|] eqn:Hs; [|done]. injection He as <-. apply finished_roast_ok; [done|].
      unfold apply_RECEIVE_REQUEST in Hs. case_match; injection Hs as <-; [apply IH|]. eapply calm_ok; [by apply calm_add|apply IH].
    + destruct (apply_RECEIVE_BLOCK _ _ _ _) as [st'|] eqn:Hs; [|done]. injection He as <-. apply finished_roast_ok; [done|].
      eapply block_ok; [apply sig_quorum_pos|apply IH|exact Hs].
    + by injection He as <-.
Qed.

(** C16: In every reachable network a session of ROAST has F+1 distinct signers and never more
    than F+1 signature shares. *)
Theorem session_signers net i sid signers pre shares :
  reachable net -> roast_signature_session sid signers pre shares ∈ db (states net i) ->
  NoDup signers /\ Z.of_nat (length signers) = sig_quorum (conf i) /\ Z.of_nat (length shares) <= sig_quorum (conf i).
Proof. intros Hr. apply (ro_session _ _ (reachable_roast_ok _ Hr i)). Qed.


End RoastNetwork.

(** ** Witnesses *)

(** The primary 0 has started a session with the commits of 0 and 1. *)
Definition sample_roast : list Event :=
  sample_prepared
  ++ [deliver 0 1 (Prepare 0 1 d1); deliver 0 2 (Prepare 0 1 d1); at_time 61 "" 0 (SEND_COMMIT d1 0 1);
      at_time 61 "" 1 (SEND_COMMIT d1 0 1); at_time 61 "" 2 (SEND_COMMIT d1 0 1);
      deliver 0 1 (Commit 0 1 "ps"); deliver 0 2 (Commit 0 1 "ps"); at_time 61 "" 0 (ROAST_INIT d1 0 1)].

Example session_signers_witness :
  exists net, sample_run 4 [3] sample_verify sample_roast = Some net /\
    roast_signature_session 1 [0; 1] "ps,ps" [] ∈ db (states net 0) /\ NoDup [0; 1] /\ sig_quorum (conf 4 60 0) = 2.
Proof.
  assert (H : holds (sample_run 4 [3] sample_verify sample_roast) (fun net =>
    bool_decide (roast_signature_session 1 [0; 1] "ps,ps" [] ∈ db (states net 0))) = true) by (vm_compute; reflexivity).
  destruct (sample_run 4 [3] sample_verify sample_roast) as [net|] eqn:Hr; [|discriminate H].
  apply bool_decide_eq_true in H. exists net. split; [reflexivity|]. split; [exact H|].
  split; [|vm_compute; reflexivity].
  refine (proj1 (session_signers 4 60 0 [3] sample_digest sample_aggregate None sample_verify minutes _ net 0 1 [0; 1]
    "ps,ps"%string [] (sample_reachable _ _ _ _ _ Hr) H)). discriminate.
Defined.

