(* ===== verification/EngineRuns.v ===== *)
(** * Runs of the network that show what the replica does

    Each lemma evaluates a run of the network of EngineNet.v, or one operation, where the
    code does something else than its comments or the protocol it follows say. *)

From S2P Require Import Prelude PyFloat Engine EngineActions EngineFacts EngineNet.

(** ** Runs *)

(** Each replica of [ids] does the action, its message goes to the others of [ids]. *)
Definition all_do (t : Z) (ids : list Z) (a : Action) (m : Msg) : list Event :=
  ((fun i => at_time t "" i a) <$> ids)
  ++ (k ← ids; broadcast (filter (fun i => i <> k) ids) k m).

(** The signers [r] make the block of the coordinator: pre-signature, shares, execution. *)
Definition sign_block (t : Z) (p : Z) (r : list Z) (v n : Z) (d : string) : list Event :=
  ((fun i => at_time t "" i (ROAST_INIT d v n)) <$> r)
  ++ broadcast r p (RoastPreSignature r (String.concat "," ((fun _ => "ps"%string) <$> r)))
  ++ ((fun k => deliver p k (RoastSignatureShare "share" "ps")) <$> r)
  ++ [at_time t "" p (EXECUTE d v n)].

Definition backups_prepare (t : Z) (p : Z) (backups : list Z) (v n : Z) (d block : string) : list Event :=
  [at_time t block p (SEND_PRE_PREPARE d v n)]
  ++ broadcast backups p (PrePrepare v n d block)
  ++ ((fun i => at_time t "" i (SEND_PREPARE d v n)) <$> backups)
  ++ (k ← backups; broadcast (filter (fun i => i <> k) (p :: backups)) k (Prepare v n d)).

Definition executed (net : Net) (i n : Z) (block : string) : bool :=
  bool_decide ((last_exec (states net i), val (states net i)) = (n, block)).

(** *** Two timeouts in a row make the network forget what it has prepared

    [update_view_change_Pi] retracts the set before it computes it again from the log, and
    the log of the lower views is cleared by the view change: at a second timeout the set
    is empty.  Four correct replicas: the primary of view 0 executes block A, which the
    others do not receive in time; after two view changes the primary of view 2 executes
    another block at the same height. *)

Definition nu2 : Nu := [(1, "2/1"%string); (2, "2/2"%string); (3, "2/3"%string)].

Definition two_timeouts : list Event :=
  ((fun i => Generate i 60) <$> [0; 1; 2; 3])
  ++ backups_prepare 61 0 [1; 2] 0 1 d1 "A"
  ++ all_do 61 [0; 1; 2] (SEND_COMMIT d1 0 1) (Commit 0 1 "ps")
  ++ sign_block 61 0 [0; 1] 0 1 d1
  ++ ((fun i => at_time 200 "" i (SEND_VIEW_CHANGE 1)) <$> [1; 2; 3])
  ++ all_do 200 [1; 2; 3] (SEND_VIEW_CHANGE 2) (ViewChange 2 0 "genesis" [] [])
  ++ [at_time 200 "" 2 (SEND_NEW_VIEW nu2 [])]
  ++ broadcast [1; 3] 2 (NewView 2 nu2 [])
  ++ ((fun i => at_time 200 "" i (PROCESS_NEW_VIEW 0 nu2 [])) <$> [1; 2; 3])
  ++ backups_prepare 200 2 [1; 3] 2 1 d1 "B"
  ++ all_do 200 [1; 2; 3] (SEND_COMMIT d1 2 1) (Commit 2 1 "ps")
  ++ sign_block 200 2 [2; 1] 2 1 d1.

Lemma fork_after_two_view_changes :
  holds (sample_run 4 [] sample_verify two_timeouts)
    (fun net => executed net 0 1 "A" && executed net 2 1 "B") = true.
Proof. vm_compute. reflexivity. Qed.

(** *** A quorum counts facts, not senders

    The facts of [msg_log_prepare] carry the signature: when more than one signature of a
    message is accepted, two faulty replicas of seven make two correct ones prepare different
    requests. *)

Definition any_signature (k : Z) (m : Msg) (s : string) : bool := true.
Definition d2 : string := request_digest 0 60 120.

Definition signed_by (i k : Z) (m : Msg) (s : string) : Event := Deliver i k m s (of_int 130) 0 (sample_wallet "").

Definition repeated_prepares : list Event :=
  (i ← [1; 2]; Generate i <$> [60; 120])
  ++ [Byzantine 0 (PrePrepare 0 1 d1 "A"); Byzantine 0 (PrePrepare 0 1 d2 "B");
      Byzantine 6 (Prepare 0 1 d1); Byzantine 6 (Prepare 0 1 d2);
      signed_by 1 0 (PrePrepare 0 1 d1 "A") "sig"; signed_by 2 0 (PrePrepare 0 1 d2 "B") "sig"]
  ++ ((fun s => signed_by 1 6 (Prepare 0 1 d1) s) <$> ["sig1"; "sig2"; "sig3"; "sig4"]%string)
  ++ ((fun s => signed_by 2 6 (Prepare 0 1 d2) s) <$> ["sig1"; "sig2"; "sig3"; "sig4"]%string).

Lemma repeated_prepares_disagree :
  holds (sample_run 7 [0; 6] any_signature repeated_prepares)
    (fun net => prepared (conf 7 60 1) d1 0 1 (states net 1) && prepared (conf 7 60 2) d2 0 1 (states net 2)) = true.
Proof. vm_compute. reflexivity. Qed.

(** The view of a view change is not compared with that of the new view
    ([correct_nu_element] ends in [once((...); true)]): the primary of view 1 makes a
    quorum of its own view change and of two of one faulty replica, for views 1 and 2. *)
Definition lone_new_view : list Event :=
  [Generate 1 60; at_time 200 "" 1 (SEND_VIEW_CHANGE 1);
   Byzantine 3 (ViewChange 1 0 "genesis" [] []); Byzantine 3 (ViewChange 2 0 "genesis" [] []);
   deliver 1 3 (ViewChange 1 0 "genesis" [] []); deliver 1 3 (ViewChange 2 0 "genesis" [] []);
   at_time 200 "" 1 (SEND_NEW_VIEW [(1, "1/1"); (3, "1/3"); (3, "2/3")]%string [])].

Lemma lone_new_view_sent :
  holds (sample_run 4 [3] sample_verify lone_new_view)
    (fun net => bool_decide ((1, NewView 1 [(1, "1/1"); (3, "1/3"); (3, "2/3")]%string []) ∈ sent net)) = true.
Proof. vm_compute. reflexivity. Qed.

(** One digest, two blocks: the prepares cover the height and the time of a request, and
    a second pre-prepare of the same digest is accepted, so that the replicas 1 and 2
    prepare, and look up to sign, different blocks. *)
Definition two_blocks : list Event :=
  [Generate 1 60; Generate 2 60; Byzantine 0 (PrePrepare 0 1 d1 "A"); Byzantine 0 (PrePrepare 0 1 d1 "B");
   deliver 1 0 (PrePrepare 0 1 d1 "A"); deliver 1 0 (PrePrepare 0 1 d1 "B"); deliver 2 0 (PrePrepare 0 1 d1 "B");
   at_time 61 "" 1 (SEND_PREPARE d1 0 1); at_time 61 "" 2 (SEND_PREPARE d1 0 1);
   deliver 1 2 (Prepare 0 1 d1); deliver 2 1 (Prepare 0 1 d1)].

Lemma two_blocks_prepared :
  holds (sample_run 4 [0] sample_verify two_blocks)
    (fun net => prepared (conf 4 60 1) d1 0 1 (states net 1) && prepared (conf 4 60 2) d1 0 1 (states net 2)
       && bool_decide (FindByV_N_Req 0 1 d1 (states net 1) = Some "A"%string)
       && bool_decide (FindByV_N_Req 0 1 d1 (states net 2) = Some "B"%string)) = true.
Proof. vm_compute. reflexivity. Qed.

(** *** The sessions of ROAST *)

(** A commit that comes during a session is taken for a signature share of its sender,
    the atom [false]: a faulty replica that sends three more commits fills a session, and
    the primary executes with no signature at all. *)
Definition more_commits : list Event :=
  ((fun b => Byzantine 1 (Commit 0 1 b)) <$> ["ps"; "x"; "y"; "z"]%string)
  ++ ((fun i => Generate i 60) <$> [0; 2; 3])
  ++ backups_prepare 61 0 [2; 3] 0 1 d1 "A"
  ++ [deliver 0 1 (Commit 0 1 "ps"); at_time 61 "" 0 (SEND_COMMIT d1 0 1); at_time 61 "" 2 (SEND_COMMIT d1 0 1);
      deliver 0 2 (Commit 0 1 "ps"); at_time 61 "" 0 (ROAST_INIT d1 0 1)]
  ++ ((fun b => deliver 0 1 (Commit 0 1 b)) <$> ["x"; "y"; "z"]%string).

Lemma more_commits_fill_session :
  holds (sample_run 4 [1] sample_verify more_commits)
    (fun net => bool_decide (final_sessions (conf 4 60 0) (states net 0) = [(2, [2; 1], "ps,x", [None; None])]%string)
       && bool_decide (EXECUTE d1 0 1 ∈ active_actions (conf 4 60 0) None (of_int 61) (states net 0))) = true.
Proof. vm_compute. reflexivity. Qed.

(** The shares of a session are not compared with its signers: two shares of one faulty
    signer close the session of two. *)
Definition one_signer : list Event :=
  [Byzantine 1 (RoastSignatureShare "bad" "x"); Byzantine 1 (RoastSignatureShare "worse" "y");
   Byzantine 1 (RoastSignatureShare "worst" "z")]
  ++ [Byzantine 1 (Commit 0 1 "ps")] ++ ((fun i => Generate i 60) <$> [0; 2; 3])
  ++ backups_prepare 61 0 [2; 3] 0 1 d1 "A"
  ++ [deliver 0 1 (Commit 0 1 "ps"); at_time 61 "" 0 (SEND_COMMIT d1 0 1); at_time 61 "" 2 (SEND_COMMIT d1 0 1);
      deliver 0 2 (Commit 0 1 "ps"); at_time 61 "" 0 (ROAST_INIT d1 0 1)]
  ++ [deliver 0 1 (RoastSignatureShare "bad" "x"); deliver 0 1 (RoastSignatureShare "worse" "y");
      deliver 0 1 (RoastSignatureShare "worst" "z")].

Lemma one_signer_fills_session :
  holds (sample_run 4 [1] sample_verify one_signer)
    (fun net => bool_decide (final_sessions (conf 4 60 0) (states net 0)
                  = [(2, [2; 1], "ps,x", [Some "worse"; Some "worst"])]%string)
       && bool_decide (1 ∈ responsive_signers (states net 0))
       && bool_decide (roast_malicious_signer 1 ∈ db (states net 0))) = true.
Proof. vm_compute. reflexivity. Qed.

(** ** Operations *)

Section Operations.
Context (c : Config).

(** After a view change the logs of the lower views are empty, and a second view change
    before anything else is received has nothing to announce. *)
Lemma second_view_change_forgets st :
  (forall f, f ∈ db st -> match f with msg_log_pre_prepare _ _ _ _ _ _ => False | _ => True end) ->
  (forall f, f ∈ db st -> is_Qi f = false) ->
  Pi_entries (update_view_change_Pi c st) = [].
Proof.
  intros Hlog Hq. destruct (Pi_entries (update_view_change_Pi c st)) as [|[[n d] v] l] eqn:He; [done|]. exfalso.
  assert (Hin : (n, d, v) ∈ Pi_entries (update_view_change_Pi c st)) by (rewrite He; left).
  apply elem_of_Pi_entries, elem_of_update_Pi in Hin as [[Hp _]|(m & v' & n' & Heq & Hp & _)]; [done|].
  apply elem_of_prepared_all in Hp as [[Hp _]%elem_of_retract|[_ Hp]]; [done|].
  apply elem_of_pre_prepared_all in Hp as [[b [_ Hb]%elem_of_retract]|(_ & b & s & [_ Hs]%elem_of_retract)].
  - by apply Hq in Hb.
  - by apply Hlog in Hs.
Qed.

(** The commits of the view recovery of the lower views are kept: the code retracts
    [msg_log_commit/4], which has no facts. *)
Lemma recovery_commits_kept v v1 n k st :
  msg_log_commit_view_recovery v1 n k ∈ db st ->
  msg_log_commit_view_recovery v1 n k ∈ db (msg_log_clear_where_view_less_than v st).
Proof. intros H. by apply elem_of_retract. Qed.

(** So are the entries of [Pi] and [Qi] below the height of a block: the code retracts
    [view_change_Pi/5] and [view_change_Qi/6]. *)
Lemma garbage_keeps_old_Pi n1 d v n st :
  n1 < n -> view_change_Pi n1 d v ∈ db st -> view_change_Pi n1 d v ∈ db (collect_garbage n st).
Proof.
  intros Hn H. apply elem_of_retract. split; [done|]. apply elem_of_retract. split; [|done]. simpl. by apply Z.eqb_neq; lia.
Qed.

(** The check of the timestamp of a proposed block compares a negation: a pre-prepare
    passes whatever the time of its block, unless its request has timestamp 0 or 1. *)
Lemma block_time_unchecked w now tolerance v n d data k s st t d' :
  TestBlockValidity w n data = true -> FindByDigest d st = Some (d', t) -> 1 < t -> of_int t <= fadd now tolerance ->
  ReceivePrePrepare_effect c w now tolerance v n d data k s st = apply_RECEIVE_PRE_PREPARE c v n d data k s st.
Proof.
  intros Hv Hd Ht Hn. unfold ReceivePrePrepare_effect. rewrite Hv, Hd. simpl.
  destruct (_ =? t) eqn:He; [apply Z.eqb_eq in He; destruct (block_time w data =? 0); lia|].
  destruct (_ <? _) eqn:Hl; [apply Z.ltb_lt in Hl; lia|]. done.
Qed.

(** The highest view is looked for in each set [P] alone: of two view changes that report
    different requests for one number, the first in the order of [Nu] wins, even when the
    other one was prepared in a higher view. *)
Lemma lower_view_wins :
  chi_case1 [(0, "c", [(1, d1, 0)], [(1, d1, "A", 0)]); (0, "c", [(1, d2, 1)], [(1, d2, "B", 1)])]%string 1
  = [(d1, "A"); (d2, "B")]%string.
Proof. vm_compute. reflexivity. Qed.

(** A session that a view change has left behind keeps the next one from starting: the
    precondition of [ROAST_INIT] holds, and its effect fails. *)
Definition stale_session : State :=
  mkState 4 true (NInt 480) "genesis" 0 0 1
    [checkpoint 0 "genesis" 0; msg_log_request d1 60; msg_log_pre_prepare 4 1 d1 "B" 0 "s";
     msg_log_prepare 4 1 d1 1 "s"; msg_log_prepare 4 1 d1 2 "s";
     msg_log_commit 4 1 "ps" 0 "s"; msg_log_commit 4 1 "ps" 1 "s"; msg_log_commit 4 1 "ps" 2 "s";
     roast_session_counter 1; roast_signature_session 1 [0; 1] "ps,ps" [Some "s0"; Some "s1"]]%string.

Lemma stale_session_blocks :
  pre_ROAST_INIT (conf 4 60 0) stale_session = [(d1, 4, 1)]
  /\ apply_ROAST_INIT (conf 4 60 0) sample_aggregate 4 1 d1 stale_session = None.
Proof. by vm_compute. Qed.

(** "Ensure that I know all the checkpoints in the view change messages": [Hi] is bound
    when [pre_PROCESS_NEW_VIEW] collects the view changes of [Nu], so that only those of the
    height of the replica are looked at.  At height 4 the replica processes a new view made
    of view changes at the heights 4, 5 and 5, whose checkpoint it does not know. *)
Definition nu_ahead : Nu := [(1, "1"%string); (2, "2"%string); (3, "3"%string)].

Definition behind : State :=
  mkState 1 false (NInt 120) "c4" 240 4 4
    [checkpoint 4 "c4" 240; msg_log_view_change "1" 1 4 "c4" [] [] 1 "s";
     msg_log_view_change "2" 1 5 "c5" [] [] 2 "s"; msg_log_view_change "3" 1 5 "c5" [] [] 3 "s";
     msg_log_new_view 1 nu_ahead [] "s"]%string.

Lemma unknown_checkpoint_processed :
  pre_PROCESS_NEW_VIEW (conf 4 60 0) behind = [(4, nu_ahead, [])]
  /\ existsb (fun '(_, ck, _) => bool_decide (ck = "c5"%string)) (checkpoints behind) = false.
Proof. by vm_compute. Qed.

End Operations.
