(* ===== verification/EngineProgress.v ===== *)
(** * Progress of a backup, and what a view change carries over

    A backup that receives the pre-prepare of its primary and enough prepares prepares and
    commits; a request that a replica has prepared is in its view change message and in
    the new view that is computed from it. *)

From S2P Require Import Prelude PyFloat Engine EngineActions EngineFacts EngineSteps.

Section Progress.
Context (c : Config).
Context (digest_view_change : Z -> Z -> string -> PSet -> QSet -> Z -> string).
Context (aggregate : list string -> option string) (unbound_text : option string).

Abbreviation me := (replica_id c).

(** ** A backup commits *)

(** A backup of an active view with the request, that has nothing yet for the number. *)
Record ready (n : Z) (d : string) (st : State) : Prop := {
  rd_active : active_view st = true;
  rd_backup : primary c (view st) <> me;
  rd_window : in_wv (view st) n st = true;
  rd_request : exists t, msg_log_request d t ∈ db st;
  rd_pre_prepare d' b s : msg_log_pre_prepare (view st) n d' b (primary c (view st)) s ∉ db st;
  rd_prepare s : msg_log_prepare (view st) n d me s ∉ db st;
  rd_commit b s : msg_log_commit (view st) n b me s ∉ db st
}.

(** Prepares received one after the other. *)
Definition receive_prepares (v n : Z) (d : string) (ks : list (Z * string)) (st : State) : option State :=
  foldl (fun o '(k, s) => o ≫= apply_RECEIVE_PREPARE c v n d k s) (Some st) ks.

Lemma in_wv_add v n f st : is_checkpoint f = false -> in_wv v n (add_fact f st) = in_wv v n st.
Proof.
  intros Hf. unfold in_wv, in_w, get_h, checkpoints. rewrite findall_add_fact; [done|]. by destruct f.
Qed.

Lemma receive_prepares_all v n d ks st :
  in_wv v n st = true -> Forall (fun x => x.1 <> me /\ x.1 <> primary c (view st)) ks ->
  exists st', receive_prepares v n d ks st = Some st' /\ same st st' /\ in_wv v n st' = true /\
    forall f, f ∈ db st' <-> f ∈ db st \/ exists k s, (k, s) ∈ ks /\ f = msg_log_prepare v n d k s.
Proof.
  unfold receive_prepares. revert st. induction ks as [|[k s] ks IH]; intros st Hw Hk.
  - exists st. split; [done|]. split; [by split|]. split; [done|]. intros f. split; [by left|].
    intros [|(k & s & []%not_elem_of_nil & _)]; done.
  - apply Forall_cons in Hk as [[Hm Hp] Hk]. cbn [foldl]. simpl in Hm, Hp. simpl.
    unfold apply_RECEIVE_PREPARE at 2. rewrite (proj2 (Z.eqb_neq k me)), (proj2 (Z.eqb_neq (primary c (view st)) k)), Hw by congruence.
    cbn [negb andb]. set (st1 := add_fact (msg_log_prepare v n d k s) st).
    destruct (IH st1) as (st' & He & Hs & Hw' & Hdb); [unfold st1; by rewrite in_wv_add|done|].
    exists st'. split; [exact He|]. split; [eapply same_trans; [|exact Hs]; by split|]. split; [done|].
    intros f. rewrite Hdb. unfold st1. rewrite elem_of_add_fact. split.
    + intros [[->|Hf]|(k' & s' & Hin & ->)]; [right; exists k, s; split; [left|done]|by left|right; exists k', s'; split; [by right|done]].
    + intros [Hf|(k' & s' & [[= -> ->]|Hin]%elem_of_cons & ->)]; [by left; right|by left; left|right; by exists k', s'].
Qed.

(** The senders of the prepares received and the replica itself are in the log. *)
Lemma senders_counted v n d k0 (ks : list (Z * string)) st :
  NoDup ks.*1 -> Forall (fun x => x.1 <> k0) ks -> (exists s, msg_log_prepare v n d k0 s ∈ db st) ->
  (forall k s, (k, s) ∈ ks -> msg_log_prepare v n d k s ∈ db st) ->
  (length (k0 :: ks.*1) <= length (prepare_senders v n d st))%nat.
Proof.
  intros Hnd Hks H0 Hin. apply submseteq_length, NoDup_submseteq.
  - constructor; [|done]. intros ([k s] & Hk & Hx)%list_elem_of_fmap. rewrite Forall_forall in Hks. by apply Hks in Hx.
  - intros k [->|([k' s] & -> & Hx)%list_elem_of_fmap]%elem_of_cons; apply elem_of_prepare_senders; eauto.
Qed.

(** C3: Of a backup that is ready, the pre-prepare of the primary and the prepares of 2F-1
    other backups, in this order and with any signatures, make a replica that prepares
    and then commits: each step is enabled and succeeds, and both messages are sent. *)
Theorem backup_commits w now st n d b s ks :
  ready n d st -> let v := view st in let p := primary c v in
  NoDup ks.*1 -> Forall (fun x => x.1 <> me /\ x.1 <> p) ks -> quorum_prepare c <= Z.of_nat (length ks) + 1 ->
  exists st1 st2 st3 st4,
    apply_RECEIVE_PRE_PREPARE c v n d b p s st = Some st1 /\
    SEND_PREPARE d v n ∈ active_actions c unbound_text now st1 /\
    effect c digest_view_change aggregate w (SEND_PREPARE d v n) st1 = Some st2 /\ Prepare v n d ∈ out_messages st2 /\
    receive_prepares v n d ks st2 = Some st3 /\
    SEND_COMMIT d v n ∈ active_actions c unbound_text now st3 /\
    effect c digest_view_change aggregate w (SEND_COMMIT d v n) st3 = Some st4 /\
    Commit v n (GetPreSignatureShare w) ∈ out_messages st4.
Proof.
  intros [Ha Hb Hw [t Ht] Hpp Hpr Hcm] v p Hnd Hks Hq. subst p v.
  set (st1 := add_fact (msg_log_pre_prepare (view st) n d b (primary c (view st)) s) st).
  set (st2 := add_fact (msg_log_prepare (view st) n d me SIG_OWN_REPLICA) (add_fact (msg_out_prepare (view st) n d) st1)).
  assert (Hw1 : in_wv (view st) n st1 = true) by (unfold st1; by rewrite in_wv_add).
  assert (Hw2 : in_wv (view st) n st2 = true) by (unfold st2; by rewrite !in_wv_add).
  destruct (receive_prepares_all (view st) n d ks st2 Hw2 Hks) as (st3 & He3 & Hs3 & Hw3 & Hdb3).
  exists st1, st2, st3, (add_fact (msg_log_commit (view st) n (GetPreSignatureShare w) me SIG_OWN_REPLICA)
    (add_fact (msg_out_commit (view st) n (GetPreSignatureShare w)) st3)).
  assert (Hpre : forall st', (forall f, f ∈ db st1 -> f ∈ db st') -> (d, view st, n) ∈ pre_prepared_all c st').
  { intros st' Hsub. apply elem_of_pre_prepared_all. right. split; [exists t|exists b, s]; apply Hsub, elem_of_add_fact; [by right|by left]. }
  assert (H23 : forall f, f ∈ db st1 -> f ∈ db st3).
  { intros f Hf. apply Hdb3. left. apply elem_of_add_fact. right. apply elem_of_add_fact. by right. }
  split; [|split; [|split; [done|split; [|split; [exact He3|split; [|split; [done|]]]]]]].
  - unfold apply_RECEIVE_PRE_PREPARE. rewrite (proj2 (Z.eqb_neq (primary c (view st)) me)), Z.eqb_refl, Hw, Ha by done. cbn [negb andb].
    rewrite bool_decide_true; [done|]. destruct (filter _ _) as [|[[[[v' n'] d'] b'] k'] l] eqn:Hl; [done|]. exfalso.
    assert (Hin : (v', n', d', b', k') ∈ filter (fun '(v', n', _, _, k) => (v', n', k) = (view st, n, primary c (view st))) (pre_prepares st)) by (rewrite Hl; left).
    apply list_elem_of_filter in Hin as [[= -> -> ->] [s' Hin]%elem_of_pre_prepares]. by apply Hpp in Hin.
  - apply active_precondition. cbn [precondition]. unfold pre_SEND_PREPARE. change (view st1) with (view st).
    rewrite (proj2 (Z.eqb_neq (primary c (view st)) me)) by done. cbn [negb]. apply list_elem_of_filter. split; [split; [done|]|by apply Hpre].
    intros [s' [[=]|Hin]%elem_of_add_fact]%elem_of_prepare_senders. by apply Hpr in Hin.
  - unfold out_messages. rewrite !elem_of_app. right; left. apply elem_of_findall. exists (msg_out_prepare (view st) n d). split; [|done].
    apply elem_of_add_fact. right. apply elem_of_add_fact. by left.
  - apply active_precondition. cbn [precondition]. unfold pre_SEND_COMMIT. apply list_elem_of_filter. split; [split; [done|]|].
    + intros ([k b'] & Hk & [s' Hin]%elem_of_commits)%list_elem_of_fmap. simpl in Hk. subst k.
      apply Hdb3 in Hin as [[[=]|[[=]|[[=]|Hin]%elem_of_add_fact]%elem_of_add_fact]%elem_of_add_fact|(? & ? & _ & [=])].
      by apply Hcm in Hin.
    + apply elem_of_prepared_all. right. split; [|by apply Hpre]. unfold prepare_quorum. apply Z.leb_le.
      assert (Hlen : (length (me :: ks.*1) <= length (prepare_senders (view st) n d st3))%nat).
      { apply (senders_counted (view st) n d me ks); [done|by eapply Forall_impl; [exact Hks|intros ? [? _]]|..].
        - exists SIG_OWN_REPLICA. apply Hdb3. left. apply elem_of_add_fact. by left.
        - intros k s' Hin. apply Hdb3. right. by exists k, s'. }
      cbn [length] in Hlen. rewrite length_fmap in Hlen. lia.
  - unfold out_messages. rewrite !elem_of_app. right; right; left. apply elem_of_findall.
    exists (msg_out_commit (view st) n (GetPreSignatureShare w)). split; [|done]. apply elem_of_add_fact. right. apply elem_of_add_fact. by left.
Qed.

(** ** What a view change carries over *)

Lemma findall_update_Qi {A} (q : Fact -> option A) x st :
  (forall f, is_Qi f = true -> q f = None) ->
  x ∈ findall q (update_view_change_Qi c st) <-> x ∈ findall q st.
Proof.
  intros Hq. rewrite !elem_of_findall. split; intros (f & Hf & Hx); exists f; (split; [|done]);
    (destruct (is_Qi f) eqn:Hi; [by rewrite Hq in Hx|by apply (elem_of_update_Qi_other c f st Hi)]).
Qed.

(** A request with the highest view of those prepared at its number is an entry of the set. *)
Lemma highest_prepared n (l : list (string * Z * Z)) d v :
  (d, v, n) ∈ l -> exists d' v', (d', v', n) ∈ l /\ v <= v' /\ forall d2 v2, (d2, v2, n) ∈ l -> v2 <= v'.
Proof.
  intros Hin. set (vs := (fun x => x.1.2) <$> filter (fun x => x.2 = n) l).
  assert (Hv : forall d0 v0, (d0, v0, n) ∈ l -> v0 ∈ vs).
  { intros d0 v0 H. apply list_elem_of_fmap. exists (d0, v0, n). split; [done|]. by apply list_elem_of_filter. }
  destruct (max_list vs) as [m|] eqn:Hm; [|destruct vs eqn:Hvs; [by apply Hv, not_elem_of_nil in Hin|done]].
  apply max_list_spec in Hm as [Hmin Hall].
  apply list_elem_of_fmap in Hmin as ([[d' v'] n'] & -> & [Hn H]%list_elem_of_filter). simpl in Hn, Hall. subst n'.
  exists d', v'. split; [done|]. split; [by eapply Hall, Hv|]. intros d2 v2 H2. by eapply Hall, Hv.
Qed.

Lemma prepared_all_active st d v n :
  (d, v, n) ∈ prepared_all c (no_Pi (retract is_roast_active st)) <-> (d, v, n) ∈ prepared_all c (no_Pi st).
Proof.
  unfold no_Pi.
  assert (H : forall f, is_roast_active f = false ->
    f ∈ db (retract is_Pi (retract is_roast_active st)) <-> f ∈ db (retract is_Pi st)).
  { intros f Hf. rewrite !elem_of_retract. tauto. }
  rewrite !elem_of_prepared_all, !elem_of_pre_prepared_all, !quorum_kept, H by (done || by intros []).
  repeat first [setoid_rewrite H; [|done..]]. tauto.
Qed.

Lemma get_h_update st : get_h (update_view_change_Qi c (update_view_change_Pi c st)) = get_h st.
Proof.
  unfold get_h. do 2 f_equal.
  assert (Hadd : forall f s, is_checkpoint f = false -> checkpoints (add_fact f s) = checkpoints s).
  { intros f s Hf. apply findall_add_fact. by destruct f. }
  transitivity (checkpoints (update_view_change_Pi c st)).
  - set (st1 := update_view_change_Pi c st). apply (foldl_ind (fun s => checkpoints s = checkpoints st1)).
    { apply findall_retract. by intros []. }
    intros s [[m v] n] _ Hs. case_match; [done|].
    apply (foldl_ind (fun s => checkpoints s = checkpoints st1)); [done|]. intros s' [[[[v' n'] m'] b] k] _ Hs'. case_bool_decide; [|done]. by rewrite Hadd.
  - apply (foldl_ind (fun s => checkpoints s = checkpoints st)); [apply findall_retract; by intros []|].
    intros s [[m v] n] _ Hs. case_match; [done|]. by rewrite Hadd.
Qed.

(** The requests that are prepared without the set [P] have their prepares in the log. *)
Lemma prepared_all_no_Pi st d v n :
  (d, v, n) ∈ prepared_all c (no_Pi st) <-> prepare_quorum c d v n st = true /\ (d, v, n) ∈ pre_prepared_all c st.
Proof.
  unfold no_Pi. assert (H : forall f, is_Pi f = false -> f ∈ db (retract is_Pi st) <-> f ∈ db st).
  { intros f Hf. rewrite elem_of_retract. tauto. }
  rewrite elem_of_prepared_all, !elem_of_pre_prepared_all, !quorum_kept, elem_of_retract by (done || by intros []).
  repeat first [setoid_rewrite H; [|done..]]. simpl. split; [intros [[? _]|?]; done|by right].
Qed.

(** C11: A replica that changes view announces what its log has prepared: its view change
    message has the height of the replica; it has an entry for every number at which a
    request is pre-prepared and has its quorum of prepares in the log, of a view not lower
    than that of the request; and every entry is of such a request.  (What was prepared only
    in the set [P] of an earlier view change is not in the log and is not announced, see
    [second_view_change_forgets] in EngineRuns.v.) *)
Theorem view_change_announces v st st' d v0 n :
  apply_SEND_VIEW_CHANGE c digest_view_change v st = Some st' ->
  (d, v0, n) ∈ pre_prepared_all c st -> prepare_quorum c d v0 n st = true ->
  exists hi ck p q, ViewChange v hi ck p q ∈ out_messages st' /\ get_h st = Some hi /\
    (exists d1 v1, (n, d1, v1) ∈ p /\ v0 <= v1) /\
    forall n2 d2 v2, (n2, d2, v2) ∈ p -> (d2, v2, n2) ∈ pre_prepared_all c st /\ prepare_quorum c d2 v2 n2 st = true.
Proof.
  unfold apply_SEND_VIEW_CHANGE. set (st0 := set_roast_active None (set_active_view false (set_view c v st))).
  set (st1 := update_view_change_Pi c st0). set (st2 := update_view_change_Qi c st1).
  destruct (get_h st2) as [hi|] eqn:Hh; [|done]. simpl. destruct (head _) as [[[? ck] ?]|]; [|done]. simpl.
  intros [= <-] Hpp Hpq. assert (Hp : (d, v0, n) ∈ prepared_all c (no_Pi st)) by by apply prepared_all_no_Pi.
  exists hi, ck, (Pi_entries st1), (Qi_entries st2).
  assert (Hall : forall d1 v1 n1, (d1, v1, n1) ∈ prepared_all c (no_Pi st0) <-> (d1, v1, n1) ∈ prepared_all c (no_Pi st))
    by (intros; apply (prepared_all_active (set_active_view false (set_view c v st)))).
  assert (Hentry : forall n1 d1 v1, (n1, d1, v1) ∈ Pi_entries st1 <-> (d1, v1, n1) ∈ prepared_all c (no_Pi st) /\
    forall m2 v2, (m2, v2, n1) ∈ prepared_all c (no_Pi st) -> v2 <= v1).
  { intros n1 d1 v1. rewrite elem_of_Pi_entries. unfold st1. rewrite elem_of_update_Pi. setoid_rewrite Hall. split.
    - intros [[? _]|(? & ? & ? & [= -> -> ->] & ?)]; done.
    - intros ?. right. by exists d1, v1, n1. }
  split; [|split; [|split]].
  - unfold out_messages. rewrite !elem_of_app. do 3 right. left. apply elem_of_findall.
    eexists (msg_out_view_change _ _ _ _ _). split; [|done]. apply elem_of_retract. split; [done|].
    apply elem_of_add_fact. right. apply elem_of_add_fact. by left.
  - rewrite <- Hh. unfold st2, st1. rewrite get_h_update. unfold get_h. do 2 f_equal. symmetry.
    apply (findall_retract _ _ (set_active_view false (set_view c v st))). by intros [].
  - destruct (highest_prepared n _ d v0 Hp) as (d1 & v1 & Hin & Hle & Hmax). exists d1, v1. split; [|done]. by apply Hentry.
  - intros n2 d2 v2 Hin%Hentry. destruct Hin as [Hin%prepared_all_no_Pi _]. tauto.
Qed.

(** ** What a new view carries over *)

Lemma elem_of_chi_case1 vset n d b :
  (d, b) ∈ chi_case1 vset n <->
  exists hi ck p q hi' ck' p' q' v, (hi, ck, p, q) ∈ vset /\ (hi', ck', p', q') ∈ vset /\
    (n, d, v) ∈ p /\ (n, d, b, v) ∈ q' /\
    forall d' v', (n, d', v') ∈ p -> v' < v \/ (v' = v /\ d' = d).
Proof.
  unfold chi_case1. split.
  - intros ([[[hi ck] p] q] & H & H1)%list_elem_of_bind.
    apply list_elem_of_bind in H as ([[[hi' ck'] p'] q'] & H & H2).
    apply list_elem_of_bind in H as ([[n1 d1] v1] & H & H3).
    apply list_elem_of_bind in H as ([[[n2 d2] b2] v2] & H & H4).
    case_bool_decide as Heq; simpl in H; [|by apply not_elem_of_nil in H].
    destruct (forallb _ p) eqn:Hf; [|by apply not_elem_of_nil in H].
    apply list_elem_of_singleton in H. simplify_eq.
    do 9 eexists. split; [exact H1|]. split; [exact H2|]. split; [exact H3|]. split; [exact H4|].
    intros d' v' Hin%list_elem_of_In. rewrite forallb_forall in Hf. apply Hf in Hin. rewrite Z.eqb_refl in Hin. simpl in Hin.
    apply orb_true_iff in Hin as [?|[? ?%bool_decide_eq_true]%andb_true_iff]; [left|right; split; [|done]]; lia.
  - intros (hi & ck & p & q & hi' & ck' & p' & q' & v & H1 & H2 & H3 & H4 & Hmax).
    apply list_elem_of_bind. exists (hi, ck, p, q). split; [|done].
    apply list_elem_of_bind. exists (hi', ck', p', q'). split; [|done].
    apply list_elem_of_bind. exists (n, d, v). split; [|done].
    apply list_elem_of_bind. exists (n, d, b, v). split; [|done].
    rewrite bool_decide_true by done. simpl.
    rewrite (proj2 (forallb_forall _ p)); [by apply list_elem_of_singleton|].
    intros [[n' d'] v'] Hin%list_elem_of_In. destruct (n' =? n) eqn:Hn; [|done]. apply Z.eqb_eq in Hn as ->.
    apply Hmax in Hin as [?|[-> ->]]; apply orb_true_iff; [left; simpl; lia|right]. by rewrite Z.eqb_refl, bool_decide_true.
Qed.

(** C12: The request of a number that is announced is carried over: when every view change of
    a new view with an entry for the number names the same request, and one of them names
    it in the view of its pre-prepare, the new view has this request with the block of a
    pre-prepare announced by one of them. *)
Theorem new_view_carries nu chi st hi ck p q hi' ck' p' q' n d b v :
  correct_chi c nu st = Some chi -> n ∈ chi.*1.*1 ->
  (forall h1 c1 p1 q1 d1 v1, (h1, c1, p1, q1) ∈ nu_vset nu st -> (n, d1, v1) ∈ p1 -> d1 = d) ->
  (hi, ck, p, q) ∈ nu_vset nu st -> (n, d, v) ∈ p -> (forall d' v', (n, d', v') ∈ p -> v' <= v) ->
  (hi', ck', p', q') ∈ nu_vset nu st -> (n, d, b, v) ∈ q' ->
  exists b' v', (n, d, Some b') ∈ chi /\
    exists h1 c1 p1 q1, (h1, c1, p1, q1) ∈ nu_vset nu st /\ (n, d, b', v') ∈ q1.
Proof.
  intros Hchi Hn Hall Hin Hp Hmax Hin' Hq.
  assert (Hchi' : exists l, chi = chi_entry (nu_vset nu st) <$> l).
  { unfold correct_chi in Hchi. case_match; [|done]. destruct (min_list _); [|done]. simpl in Hchi. simplify_eq. by eexists. }
  destruct Hchi' as [l ->].
  assert (Hl : n ∈ l).
  { apply list_elem_of_fmap in Hn as ([n1 d1] & -> & Hn). apply list_elem_of_fmap in Hn as ([[n2 d2] o] & [= -> ->] & Hn).
    apply list_elem_of_fmap in Hn as (n3 & Heq & Hn). unfold chi_entry in Heq. by destruct (chi_case1 _ n3) as [|[]]; simplify_eq. }
  assert (Hc : (d, b) ∈ chi_case1 (nu_vset nu st) n).
  { apply elem_of_chi_case1. do 9 eexists. split; [exact Hin|]. split; [exact Hin'|]. split; [exact Hp|]. split; [exact Hq|].
    intros d' v' H. rewrite (Hall _ _ _ _ _ _ Hin H). specialize (Hmax _ _ H).
    destruct (decide (v' = v)) as [->|]; [by right|left; lia]. }
  destruct (chi_case1 (nu_vset nu st) n) as [|[d0 b0] k] eqn:Hk; [by apply not_elem_of_nil in Hc|].
  assert (H0 : (d0, b0) ∈ chi_case1 (nu_vset nu st) n) by (rewrite Hk; left).
  apply elem_of_chi_case1 in H0 as (? & ? & ? & ? & ? & ? & ? & ? & v0 & H1 & H2 & H3 & H4 & _).
  pose proof (Hall _ _ _ _ _ _ H1 H3) as ->. exists b0, v0. split; [|by do 4 eexists].
  apply list_elem_of_fmap. exists n. split; [|done]. unfold chi_entry. by rewrite Hk.
Qed.

End Progress.

(** ** Samples *)

Definition sample_config (i : Z) : Config := {| replica_id := i; cluster_size := 4; target_block_time := 60 |}.
Definition sample_effects : Wallet :=
  {| GenerateBlock t := None; TestBlockValidity _ _ := true; block_time _ := 60; GetHash b := b;
     GetPreSignatureShare := "ps"; GetSignatureShare _ _ _ := "share"%string; FinalizeBlock b _ _ := None |}.
Definition no_digest (v hi : Z) (ck : string) (p : PSet) (q : QSet) (k : Z) : string := "vc".

(** The replica 1 has the request [D]; it then gets the pre-prepare of the replica 0 and
    the prepare of the replica 2. *)
Definition sample_backup : State :=
  mkState 0 true (NInt 30) "genesis" 0 0 0 [checkpoint 0 "genesis" 0; msg_log_request "D" 60]%string.

Lemma sample_backup_ready : ready (sample_config 1) 1 "D" sample_backup.
Proof.
  assert (H : forall f, f ∈ db sample_backup -> f = checkpoint 0 "genesis" 0 \/ f = msg_log_request "D" 60).
  { intros f [|[|[]%not_elem_of_nil]%elem_of_cons]%elem_of_cons; auto. }
  split; [done|done|done| |by intros * [|]%H..]. exists 60. right. left.
Qed.

Example backup_commits_witness :
  exists st1 st2 st3 st4,
    apply_RECEIVE_PRE_PREPARE (sample_config 1) 0 1 "D" "block" 0 "s" sample_backup = Some st1 /\
    effect (sample_config 1) no_digest (fun _ => None) sample_effects (SEND_PREPARE "D" 0 1) st1 = Some st2 /\
    receive_prepares (sample_config 1) 0 1 "D" [(2, "s"%string)] st2 = Some st3 /\
    effect (sample_config 1) no_digest (fun _ => None) sample_effects (SEND_COMMIT "D" 0 1) st3 = Some st4 /\
    Commit 0 1 "ps" ∈ out_messages st4.
Proof.
  destruct (backup_commits (sample_config 1) no_digest (fun _ => None) None sample_effects (of_int 61) sample_backup
    1 "D" "block" "s" [(2, "s"%string)] sample_backup_ready)
    as (st1 & st2 & st3 & st4 & H1 & _ & H2 & _ & H3 & _ & H4 & H5).
  - apply NoDup_singleton.
  - repeat constructor; done.
  - by vm_compute.
  - exists st1, st2, st3, st4. done.
Defined.

(** The same replica once it has prepared. *)
Definition sample_prepared_log : State :=
  mkState 0 true (NInt 30) "genesis" 0 0 0
    [checkpoint 0 "genesis" 0; msg_log_request "D" 60; msg_log_pre_prepare 0 1 "D" "block" 0 "s";
     msg_log_prepare 0 1 "D" 1 SIG_OWN_REPLICA; msg_log_prepare 0 1 "D" 2 "s"]%string.

Example view_change_announces_witness :
  exists st' hi ck p q, apply_SEND_VIEW_CHANGE (sample_config 1) no_digest 1 sample_prepared_log = Some st' /\
    ViewChange 1 hi ck p q ∈ out_messages st' /\ exists d v, (1, d, v) ∈ p.
Proof.
  destruct (apply_SEND_VIEW_CHANGE (sample_config 1) no_digest 1 sample_prepared_log) as [st'|] eqn:He; [|by vm_compute in He].
  assert (Hp : ("D"%string, 0, 1) ∈ pre_prepared_all (sample_config 1) sample_prepared_log).
  { apply (bool_decide_eq_true_1 _). vm_compute. reflexivity. }
  destruct (view_change_announces (sample_config 1) no_digest 1 sample_prepared_log st' "D" 0 1 He Hp)
    as (hi & ck & p & q & H1 & _ & (d & v & H2 & _) & _); [by vm_compute|].
  exists st', hi, ck, p, q. eauto.
Defined.

(** The replica 1 of the view 1 with three view changes, two of which have prepared. *)
Definition sample_changes : State :=
  mkState 1 false (NInt 60) "genesis" 0 0 0
    ([checkpoint 0 "genesis" 0; msg_log_view_change "vc1" 1 0 "genesis" [(1, "D", 0)] [(1, "D", "block", 0)] 1 "s";
      msg_log_view_change "vc2" 1 0 "genesis" [(1, "D", 0)] [(1, "D", "block", 0)] 2 "s";
      msg_log_view_change "vc3" 1 0 "genesis" [] [] 3 "s"])%string.

Example new_view_carries_witness :
  exists chi b, correct_chi (sample_config 1) [(1, "vc1"); (2, "vc2"); (3, "vc3")]%string sample_changes = Some chi /\
    (1, "D"%string, Some b) ∈ chi.
Proof.
  destruct (new_view_carries (sample_config 1) [(1, "vc1"); (2, "vc2"); (3, "vc3")]%string [(1, "D", Some "block")]%string
    sample_changes 0 "genesis" [(1, "D", 0)]%string [(1, "D", "block", 0)]%string
    0 "genesis" [(1, "D", 0)]%string [(1, "D", "block", 0)]%string 1 "D" "block" 0) as (b & v & H & _).
  - by vm_compute.
  - left.
  - intros h1 c1 p1 q1 d1 v1 H.
    repeat (apply elem_of_cons in H as [H|H]; [injection H as -> -> -> ->; intros Hp;
      repeat (apply elem_of_cons in Hp as [Hp|Hp]; [by injection Hp as -> ->|]); by apply not_elem_of_nil in Hp|]).
    by apply not_elem_of_nil in H.
  - left.
  - left.
  - intros d' v' H. repeat (apply elem_of_cons in H as [H|H]; [by injection H as -> ->|]). by apply not_elem_of_nil in H.
  - left.
  - left.
  - exists [(1, "D", Some "block")]%string, b. split; [by vm_compute|exact H].
Defined.
