(* ===== verification/EngineDriver.v ===== *)
(** * The driver of the engine: the class Replica2 and its buffers

    Model of src/fbft/Replica2.cpp and of [ReplicaState::Apply] of
    src/fbft/state/ReplicaState.cpp: the buffers of the messages received, the list of the
    active actions, the generation of the requests, the loop that applies active actions
    and broadcasts what the engine has to send.  The operations of the engine are
    transactions: one that fails changes nothing. *)

From S2P Require Import Prelude PyFloat Engine EngineActions EngineFacts EngineInv EngineNet.

(** ** Messages in the buffers *)

Record Incoming : Type := mkIncoming {
  sender_id : Z;
  content : Msg;
  signature : string
}.

(** [Message::equals]: blocks are compared by their hash, the data of commits are not. *)
Definition same_content (hash : string -> string) (m m' : Msg) : bool :=
  match m, m' with
  | PrePrepare v n d b, PrePrepare v' n' d' b' => bool_decide ((v, n, d, hash b) = (v', n', d', hash b'))
  | Prepare v n d, Prepare v' n' d' => bool_decide ((v, n, d) = (v', n', d'))
  | Commit v n _, Commit v' n' _ => bool_decide ((v, n) = (v', n'))
  | ViewChange v hi ck p q, ViewChange v' hi' ck' p' q' => bool_decide ((v, hi, ck, p, q) = (v', hi', ck', p', q'))
  | NewView v nu chi, NewView v' nu' chi' =>
      bool_decide ((v, nu, prod_map id hash <$> chi) = (v', nu', prod_map id hash <$> chi'))
  | RoastPreSignature s p, RoastPreSignature s' p' => bool_decide ((s, p) = (s', p'))
  | RoastSignatureShare x y, RoastSignatureShare x' y' => bool_decide ((x, y) = (x', y'))
  | _, _ => false
  end.

Definition equals (hash : string -> string) (x y : Incoming) : bool :=
  same_content hash (content x) (content y) &&
  bool_decide ((sender_id x, signature x) = (sender_id y, signature y)).

(** [seq_number_as_opt]. *)
Definition seq_number_as_opt (m : Msg) : option Z :=
  match m with
  | PrePrepare _ n _ _ | Prepare _ n _ | Commit _ n _ => Some n
  | _ => None
  end.

(** ** The replica *)

(** The actions that are applied; a message received keeps the time at which its action
    was made. *)
Inductive Applied : Type :=
  | ApplyMessage (x : Incoming) (now : float)
  | ApplyAction (a : Action)
  | ApplyRequest (t : Z)
  | ApplyBlock (height timestamp : Z) (hash : string).

Record Node : Type := mkNode {
  engine : State;
  in_msg_buffer : list Incoming;
  awaiting_checkpoint : list Incoming;
  active : list Applied
}.

(** A random number, the wallet and the time when an action is applied. *)
Record Choice : Type := mkChoice {
  random : nat;
  wallet : Wallet;
  time : float
}.

Section Driver.
Context (c : Config) (genesis : Z).
Context (digest_view_change : Z -> Z -> string -> PSet -> QSet -> Z -> string).
Context (aggregate : list string -> option string) (unbound_text : option string).
(** The signature of the replica, and the tolerance of the time of a pre-prepare. *)
Context (sign : Msg -> string) (tolerance : float).

Abbreviation me := (replica_id c).
Abbreviation target := (target_block_time c).

(** [UpdateActiveActions]. *)
Definition UpdateActiveActions (now : float) (r : Node) : Node :=
  mkNode (engine r) (in_msg_buffer r) (awaiting_checkpoint r)
    (((fun x => ApplyMessage x now) <$> in_msg_buffer r) ++
     (ApplyAction <$> active_actions c unbound_text now (engine r))).

(** [Action::effect]. *)
Definition action_effect (w : Wallet) (x : Applied) (st : State) : option State :=
  match x with
  | ApplyMessage y now => receive c digest_view_change aggregate w now tolerance (content y) (sender_id y) (signature y) st
  | ApplyAction a => effect c digest_view_change aggregate w a st
  | ApplyRequest t => apply_RECEIVE_REQUEST (request_digest genesis target t) t st
  | ApplyBlock height timestamp hash => apply_RECEIVE_BLOCK height timestamp hash st
  end.

(** What [Apply] does with the buffers: a block that is applied puts the messages that
    wait for it back; a message that has been processed is removed, and waits for a block
    when it was refused and is for the number after the next one. *)
Definition update_buffers (hash : string -> string) (applied : bool) (x : Applied) (h : option Z)
    (input waiting : list Incoming) : list Incoming * list Incoming :=
  match x with
  | ApplyBlock _ _ _ => if applied then (input ++ waiting, []) else (input, waiting)
  | ApplyMessage y _ =>
      match list_find (fun z => equals hash z y = true) input with
      | Some (i, z) =>
          (delete i input,
           if negb applied && bool_decide (is_Some h /\ seq_number_as_opt (content y) = (fun n => u32 (n + 2)) <$> h)
           then waiting ++ [z] else waiting)
      | None => (input, waiting)
      end
  | _ => (input, waiting)
  end.

(** [ReplicaState::Apply]. *)
Definition Apply (w : Wallet) (now : float) (x : Applied) (r : Node) : Node :=
  let result := action_effect w x (engine r) in
  let st := default (engine r) result in
  let '(input, waiting) :=
    update_buffers (GetHash w) (bool_decide (is_Some result)) x (get_h st) (in_msg_buffer r) (awaiting_checkpoint r) in
  UpdateActiveActions now (mkNode st input waiting []).

(** The messages of ROAST that a replica sends to itself. *)
Definition loopback (m : Msg) : list Incoming :=
  match m with
  | RoastPreSignature signers _ => if bool_decide (me ∈ signers) then [mkIncoming me m (sign m)] else []
  | RoastSignatureShare _ _ => [mkIncoming me m (sign m)]
  | _ => []
  end.

(** The out buffer is broadcast and cleared. *)
Definition broadcast_out (r : Node) : Node * list Msg :=
  let out := out_messages (engine r) in
  if bool_decide (out = []) then (r, [])
  else (mkNode (msg_out_clear_all (engine r)) (in_msg_buffer r ++ (out ≫= loopback)) (awaiting_checkpoint r) (active r), out).

(** [ApplyActiveActions]: [k] rounds at most, the code's bound being 11. *)
Fixpoint ApplyActiveActions (k : nat) (rnd : nat -> Choice) (r : Node) : Node * list Msg :=
  match k with
  | O => (r, [])
  | S k' =>
      match active r !! (random (rnd k') `mod` length (active r))%nat with
      | Some x =>
          let '(r1, out) := broadcast_out (Apply (wallet (rnd k')) (time (rnd k')) x r) in
          let '(r2, out') := ApplyActiveActions k' rnd r1 in (r2, out ++ out')
      | None => (r, [])
      end
  end.

Definition MAX_NUM_APPLIED_ACTIONS : nat := 11.
Definition MAX_NUM_GENERATED_REQUESTS : Z := 5.

Definition get_latest_request_time (st : State) : option Z :=
  max_list (((fun '(_, t) => t) <$> requests st) ++ [last_rep st]).

(** [GenerateRequests]: the comparisons and the sums are on 32 bits; [None] when [fuel]
    does not suffice. *)
Definition more_requests (current last_rep_time : Z) (last_req_time : Z) : bool :=
  (last_req_time <? u32 (current + MAX_NUM_GENERATED_REQUESTS * target)) &&
  (last_req_time <? u32 (last_rep_time + MAX_NUM_GENERATED_REQUESTS * target)).

Definition latest_request_time (st : State) : Z := u32 (default genesis (get_latest_request_time st)).

Fixpoint generate_loop (fuel : nat) (w : Wallet) (now : float) (last_rep_time : Z) (r : Node) : option Node :=
  let last_req_time := latest_request_time (engine r) in
  if more_requests (u32 (ffloor now)) last_rep_time last_req_time then
    match fuel with
    | O => None
    | S k => generate_loop k w now last_rep_time (Apply w now (ApplyRequest (u32 (last_req_time + target))) r)
    end
  else Some r.

Definition GenerateRequests (fuel : nat) (w : Wallet) (now : float) (r : Node) : option Node :=
  generate_loop fuel w now (u32 (last_rep (engine r))) r.

(** [ReceiveIncomingMessage] of the two classes and [CheckTimedActions]; blocks come from
    the chain, not from the other replicas. *)
Definition CheckTimedActions (fuel : nat) (w : Wallet) (now : float) (rnd : nat -> Choice) (r : Node) :
    option (Node * list Msg) :=
  r ← GenerateRequests fuel w now r;
  Some (ApplyActiveActions MAX_NUM_APPLIED_ACTIONS rnd (UpdateActiveActions now r)).

Definition ReceiveIncomingMessage (fuel : nat) (w : Wallet) (now : float) (rnd : nat -> Choice) (valid : bool)
    (x : Incoming) (r : Node) : option (Node * list Msg) :=
  r ← GenerateRequests fuel w now r;
  Some (if valid then
    ApplyActiveActions MAX_NUM_APPLIED_ACTIONS rnd
      (UpdateActiveActions now (mkNode (engine r) (in_msg_buffer r ++ [x]) (awaiting_checkpoint r) (active r)))
  else (r, [])).

Definition ReceiveIncomingBlock (fuel : nat) (w : Wallet) (now : float) (height timestamp : Z) (hash : string) (r : Node) :
    option Node :=
  r ← GenerateRequests fuel w now r; Some (Apply w now (ApplyBlock height timestamp hash) r).

End Driver.
