(* ===== verification/EngineDriverFacts.v ===== *)
(** * Lemmas on the driver: the out buffer, the loop of the requests, the buffers *)

From S2P Require Import Prelude PyFloat Engine EngineActions EngineFacts EngineInv EngineNet EngineDriver.

(** ** The active actions do not depend on the out buffer *)

Section Clear.
Context (c : Config) (unbound_text : option string) (st : State).
Abbreviation st' := (msg_out_clear_all st).

Lemma findall_clear {A} (q : Fact -> option A) :
  (forall f, is_out f = true -> q f = None) -> findall q st' = findall q st.
Proof. intros Hq. by apply findall_retract. Qed.

Lemma checkpoints_clear : checkpoints st' = checkpoints st.
Proof. apply findall_clear. by intros []. Qed.
Lemma requests_clear : requests st' = requests st.
Proof. apply findall_clear. by intros []. Qed.
Lemma pre_prepares_clear : pre_prepares st' = pre_prepares st.
Proof. apply findall_clear. by intros []. Qed.
Lemma prepare_senders_clear v n d : prepare_senders v n d st' = prepare_senders v n d st.
Proof. apply findall_clear. by intros []. Qed.
Lemma commits_clear v n : commits v n st' = commits v n st.
Proof. apply findall_clear. by intros []. Qed.
Lemma recoveries_clear : recoveries st' = recoveries st.
Proof. apply findall_clear. by intros []. Qed.
Lemma view_changes_clear : view_changes st' = view_changes st.
Proof. apply findall_clear. by intros []. Qed.
Lemma new_views_clear : new_views st' = new_views st.
Proof. apply findall_clear. by intros []. Qed.
Lemma Pi_clear : Pi_entries st' = Pi_entries st.
Proof. apply findall_clear. by intros []. Qed.
Lemma Qi_clear : Qi_entries st' = Qi_entries st.
Proof. apply findall_clear. by intros []. Qed.
Lemma roast_actives_clear : roast_actives st' = roast_actives st.
Proof. apply findall_clear. by intros []. Qed.
Lemma sessions_clear : sessions st' = sessions st.
Proof. apply findall_clear. by intros []. Qed.

Lemma in_wv_clear v n : in_wv v n st' = in_wv v n st.
Proof. unfold in_wv, in_w, get_h. by rewrite checkpoints_clear. Qed.

Lemma pre_prepared_clear : pre_prepared_all c st' = pre_prepared_all c st.
Proof. unfold pre_prepared_all. by rewrite Qi_clear, requests_clear, pre_prepares_clear. Qed.

Lemma prepared_clear : prepared_all c st' = prepared_all c st.
Proof.
  unfold prepared_all. rewrite Pi_clear, pre_prepared_clear. f_equal. apply list_filter_iff.
  intros [[d v] n]. unfold prepare_quorum. by rewrite prepare_senders_clear.
Qed.

Lemma committed_clear : committed_all c st' = committed_all c st.
Proof.
  unfold committed_all. rewrite prepared_clear. apply list_filter_iff.
  intros [[d v] n]. unfold commit_quorum. by rewrite commits_clear.
Qed.

Lemma final_clear : final_sessions c st' = final_sessions c st.
Proof. unfold final_sessions. by rewrite roast_actives_clear, sessions_clear. Qed.

Lemma nu_elements_clear : correct_nu_elements st' = correct_nu_elements st.
Proof. unfold correct_nu_elements. by rewrite view_changes_clear. Qed.

Lemma nu_vset_clear nu : nu_vset nu st' = nu_vset nu st.
Proof. unfold nu_vset. by rewrite view_changes_clear. Qed.

Lemma correct_chi_clear nu : correct_chi c nu st' = correct_chi c nu st.
Proof. unfold correct_chi. by rewrite nu_vset_clear. Qed.

Lemma correct_new_views_clear : correct_new_views c st' = correct_new_views c st.
Proof.
  unfold correct_new_views. rewrite new_views_clear. apply list_bind_ext; [|done].
  intros [[v nu] chi]. unfold correct_nu_all. by rewrite nu_elements_clear, correct_chi_clear.
Qed.

Lemma processable_clear hi nu chi : processable hi st' nu chi = processable hi st nu chi.
Proof. unfold processable. by rewrite nu_vset_clear, checkpoints_clear, requests_clear. Qed.

Lemma active_actions_clear now : active_actions c unbound_text now st' = active_actions c unbound_text now st.
Proof.
  unfold active_actions. f_equal; [|f_equal; [|f_equal; [|f_equal; [|f_equal; [|f_equal; [|f_equal; [|f_equal]]]]]]]; try f_equal.
  - unfold pre_EXECUTE. by rewrite committed_clear, final_clear.
  - unfold pre_SEND_COMMIT. rewrite prepared_clear. apply list_filter_iff.
    intros [[d v] n]. by rewrite in_wv_clear, commits_clear.
  - unfold pre_SEND_PREPARE. rewrite pre_prepared_clear. change (view st') with (view st). case_match; [|done].
    apply list_filter_iff. intros [[d v] n]. by rewrite in_wv_clear, prepare_senders_clear.
  - unfold pre_SEND_PRE_PREPARE, due_requests. by rewrite in_wv_clear, requests_clear, pre_prepares_clear.
  - unfold pre_SEND_VIEW_CHANGE. by rewrite requests_clear.
  - unfold pre_RECOVER_VIEW. by rewrite checkpoints_clear, recoveries_clear.
  - unfold pre_SEND_NEW_VIEW, correct_nu_once. rewrite new_views_clear, nu_elements_clear.
    change (view st') with (view st). destruct (_ && _); [|done]. destruct (_ <=? _); [|done].
    simpl. by rewrite correct_chi_clear.
  - unfold pre_PROCESS_NEW_VIEW, get_h. rewrite checkpoints_clear, correct_new_views_clear.
    change (active_view st') with (active_view st). case_match; [done|]. case_match; [|done].
    apply list_bind_ext; [|done]. intros [nu chi]. by rewrite processable_clear.
  - unfold pre_ROAST_INIT, is_final. by rewrite committed_clear, final_clear, roast_actives_clear.
Qed.

End Clear.

(** ** The out buffer *)

Lemma is_out_fact f : is_out f = true -> exists m, f = out_fact m.
Proof.
  destruct f; try done; intros _.
  - by eexists (PrePrepare _ _ _ _).
  - by eexists (Prepare _ _ _).
  - by eexists (Commit _ _ _).
  - by eexists (ViewChange _ _ _ _ _).
  - by eexists (NewView _ _ _).
  - by eexists (RoastPreSignature _ _).
  - by eexists (RoastSignatureShare _ _).
Qed.

Lemma no_out_messages st : no_out st <-> out_messages st = [].
Proof.
  split.
  - intros H. destruct (out_messages st) as [|m l] eqn:Ho; [done|]. exfalso.
    assert (Hm : m ∈ out_messages st) by (rewrite Ho; left). apply elem_of_out_messages, H in Hm; [done|by destruct m].
  - intros H f [m ->]%is_out_fact Hf%elem_of_out_messages. rewrite H in Hf. by apply not_elem_of_nil in Hf.
Qed.

Lemma no_out_clear st : no_out (msg_out_clear_all st).
Proof. intros f Hf [H _]%elem_of_retract. congruence. Qed.

Lemma clear_no_out st : no_out st -> msg_out_clear_all st = st.
Proof.
  intros H. destruct st as [a b t x l e s k]. unfold msg_out_clear_all, retract, with_db. simpl. f_equal.
  unfold no_out in H. simpl in H. induction k as [|f k IH]; [done|]. unfold retractall in *. rewrite filter_cons.
  destruct (is_out f) eqn:Hf; [by destruct (H f Hf); left|]. rewrite decide_True by done. f_equal.
  apply IH. intros g Hg Hin. apply (H g Hg). by right.
Qed.

Lemma no_out_sub st st2 : (forall f, is_out f = true -> f ∈ db st2 -> f ∈ db st) -> no_out st -> no_out st2.
Proof. intros Hs H f Hf Hin. by eapply H, Hs. Qed.

Lemma no_out_request d t st st2 : apply_RECEIVE_REQUEST d t st = Some st2 -> no_out st -> no_out st2.
Proof.
  unfold apply_RECEIVE_REQUEST. case_match; intros [= <-]; [done|]. apply no_out_sub.
  intros f Hf [->|]%elem_of_add_fact; done.
Qed.

Lemma no_out_block n t x st st2 : apply_RECEIVE_BLOCK n t x st = Some st2 -> no_out st -> no_out st2.
Proof.
  unfold apply_RECEIVE_BLOCK. destruct (head _) as [[d ?]|]; [|done]. intros [= <-]. apply no_out_sub.
  intros f Hf [_ [_ [->|H]%elem_of_add_fact]%elem_of_retract]%elem_of_retract; [done|].
  unfold apply_EXECUTE in H. by destruct (head _) as [[]|].
Qed.

(** ** The generation of the requests *)

Section Loop.
Context (c : Config) (genesis : Z).
Context (digest_view_change : Z -> Z -> string -> PSet -> QSet -> Z -> string).
Context (aggregate : list string -> option string) (unbound_text : option string) (tolerance : float).

Abbreviation target := (target_block_time c).
Abbreviation apply := (Apply c genesis digest_view_change aggregate unbound_text tolerance).
Abbreviation loop := (generate_loop c genesis digest_view_change aggregate unbound_text tolerance).

(** The effect of a request on the replica. *)
Lemma apply_request w now t r :
  exists st, apply_RECEIVE_REQUEST (request_digest genesis target t) t (engine r) = Some st /\
    apply w now (ApplyRequest t) r =
    UpdateActiveActions c unbound_text now (mkNode st (in_msg_buffer r) (awaiting_checkpoint r) []).
Proof.
  unfold Apply. simpl. unfold apply_RECEIVE_REQUEST. destruct (_ <=? _); by eexists.
Qed.

Definition latest (st : State) : Z := default genesis (get_latest_request_time st).

Lemma foldl_max_app x l : foldl Z.max x l = Z.max x (foldl Z.max x l).
Proof.
  assert (H : forall l x, x <= foldl Z.max x l); [|specialize (H l x); lia].
  clear. induction l as [|y l IH]; intros x; simpl; [lia|]. specialize (IH (Z.max x y)). lia.
Qed.

Lemma latest_spec st :
  last_rep st <= latest st /\ (forall d t, msg_log_request d t ∈ db st -> t <= latest st) /\
  (latest st = last_rep st \/ exists d, msg_log_request d (latest st) ∈ db st).
Proof.
  unfold latest, get_latest_request_time. set (l := (_ <$> _) ++ _).
  assert (Hl : forall t, t ∈ l <-> t = last_rep st \/ exists d, msg_log_request d t ∈ db st).
  { intros t. unfold l. rewrite elem_of_app, list_elem_of_singleton, list_elem_of_fmap. split.
    - intros [([d u] & -> & H%elem_of_requests)|H]; [right; by exists d|by left].
    - intros [H|[d H]]; [by right|left]. exists (d, t). split; [done|by apply elem_of_requests]. }
  destruct (max_list l) as [m|] eqn:Hm.
  - apply max_list_spec in Hm as [Hin Hmax]. simpl. split; [apply Hmax, Hl; by left|]. split; [|by apply Hl].
    intros d t H. apply Hmax, Hl. right. by exists d.
  - exfalso. destruct l eqn:He; [|done]. specialize (Hl (last_rep st)). rewrite elem_of_nil in Hl. tauto.
Qed.

(** A request after the last reply becomes the latest one. *)
Lemma latest_request st st' t :
  apply_RECEIVE_REQUEST (request_digest genesis target t) t st = Some st' -> latest st <= t -> last_rep st < t ->
  latest st' = t.
Proof.
  unfold apply_RECEIVE_REQUEST. intros He Hle Hlt. rewrite (proj2 (Z.leb_gt _ _) Hlt) in He. injection He as <-.
  set (st' := add_fact _ st). destruct (latest_spec st) as (_ & Hall & _). destruct (latest_spec st') as (_ & Hall' & Hin').
  apply Z.le_antisymm; [|apply (Hall' (request_digest genesis target t)), elem_of_add_fact; by left].
  destruct Hin' as [->|[d [[= _ ->]|H%Hall]%elem_of_add_fact]]; [change (last_rep st') with (last_rep st)|..]; lia.
Qed.

(** The loop stops within as many rounds as there are block times between the latest
    request and the bound. *)
Lemma generate_loop_stops k w now r :
  let rep := last_rep (engine r) in
  0 < target -> 0 <= rep -> 0 <= ffloor now ->
  ffloor now + (MAX_NUM_GENERATED_REQUESTS + 1) * target < 2 ^ 32 ->
  rep + (MAX_NUM_GENERATED_REQUESTS + 1) * target < 2 ^ 32 ->
  latest (engine r) < 2 ^ 32 ->
  rep + MAX_NUM_GENERATED_REQUESTS * target <= latest (engine r) + Z.of_nat k * target ->
  exists r', loop k w now rep r = Some r' /\
    Z.min (ffloor now) rep + MAX_NUM_GENERATED_REQUESTS * target <= latest (engine r') /\
    last_rep (engine r') = rep /\ in_msg_buffer r' = in_msg_buffer r /\ awaiting_checkpoint r' = awaiting_checkpoint r /\
    (forall f, f ∈ db (engine r) -> f ∈ db (engine r')) /\
    (forall f, f ∈ db (engine r') -> f ∈ db (engine r) \/ exists t, 0 <= t /\ f = msg_log_request (request_digest genesis target t) t).
Proof.
  intros rep Ht H0 Hn. assert (Hu : forall z, 0 <= z < 2 ^ 32 -> u32 z = z) by (intros; by apply Z.mod_small).
  unfold rep in *. clear rep. revert r H0. induction k as [|k IH]; intros r H0 Hcur Hbound Hlt Hk;
    destruct (latest_spec (engine r)) as (Hl & _); cbn [generate_loop];
    unfold latest_request_time; fold (latest (engine r)); rewrite (Hu (latest (engine r))) by lia;
    unfold more_requests; rewrite (Hu (ffloor now)), (Hu (ffloor now + _)), (Hu (last_rep (engine r) + _)) by (unfold MAX_NUM_GENERATED_REQUESTS in *; lia).
  all: destruct (_ && _) eqn:Hg.
  2, 4: exists r; split; [done|]; split; [apply andb_false_iff in Hg as [Hg%Z.ltb_ge|Hg%Z.ltb_ge]; lia|]; split_and!; try done; by left.
  - simpl in Hk. apply andb_true_iff in Hg as [_ Hg%Z.ltb_lt]. lia.
  - apply andb_true_iff in Hg as [Hg1%Z.ltb_lt Hg2%Z.ltb_lt]. unfold MAX_NUM_GENERATED_REQUESTS in *. rewrite Hu by lia. destruct (apply_request w now (latest (engine r) + target) r) as (st & He & ->).
    pose proof (latest_request _ _ _ He ltac:(lia) ltac:(lia)) as Hlat.
    assert (Hrep' : last_rep st = last_rep (engine r)).
    { unfold apply_RECEIVE_REQUEST in He. destruct (_ <=? _) in He; by injection He as <-. }
    set (r1 := UpdateActiveActions _ _ _ _).
    destruct (IH r1) as (r' & Hr & H1 & H2 & H3 & H4 & H5 & H6); try (change (engine r1) with st; lia).
    change (last_rep (engine r1)) with (last_rep st) in Hr, H1, H2. rewrite Hrep' in Hr, H1, H2.
    exists r'. split; [exact Hr|]. split; [exact H1|]. split; [exact H2|]. split; [exact H3|]. split; [exact H4|].
    unfold apply_RECEIVE_REQUEST in He. rewrite (proj2 (Z.leb_gt _ _)) in He by lia. injection He as <-. split.
    + intros f Hf. apply H5. apply elem_of_add_fact. by right.
    + intros f [[->|Hf]%elem_of_add_fact|Hf]%H6; [right; eexists; split; [|done]; lia|by left|by right].
Qed.

(** C18: The generation of the requests ends within five rounds, far from the bound of the
    32-bit timestamps: then there are requests up to five block times after the current
    time or after the last reply, nothing is forgotten and only requests are added. *)
Theorem generate_requests_done k w now r :
  let rep := last_rep (engine r) in
  (5 <= k)%nat -> 0 < target -> 0 <= rep -> 0 <= ffloor now ->
  ffloor now + (MAX_NUM_GENERATED_REQUESTS + 1) * target < 2 ^ 32 ->
  rep + (MAX_NUM_GENERATED_REQUESTS + 1) * target < 2 ^ 32 -> latest (engine r) < 2 ^ 32 ->
  exists r', GenerateRequests c genesis digest_view_change aggregate unbound_text tolerance k w now r = Some r' /\
    Z.min (ffloor now) rep + MAX_NUM_GENERATED_REQUESTS * target <= latest (engine r') /\
    last_rep (engine r') = rep /\ in_msg_buffer r' = in_msg_buffer r /\ awaiting_checkpoint r' = awaiting_checkpoint r /\
    (forall f, f ∈ db (engine r) -> f ∈ db (engine r')) /\
    (forall f, f ∈ db (engine r') -> f ∈ db (engine r) \/ exists t, 0 <= t /\ f = msg_log_request (request_digest genesis target t) t).
Proof.
  intros rep Hk Ht H0 Hn H1 H2 H3. unfold GenerateRequests. unfold u32 at 1. rewrite Z.mod_small by (unfold MAX_NUM_GENERATED_REQUESTS in *; lia).
  apply generate_loop_stops; try done. destruct (latest_spec (engine r)) as (Hl & _).
  change (rep + MAX_NUM_GENERATED_REQUESTS * target <= latest (engine r) + Z.of_nat k * target).
  unfold MAX_NUM_GENERATED_REQUESTS in *. fold rep in Hl. nia.
Qed.

End Loop.

(** ** A message that comes before its block *)

Section Early.
Context (c : Config) (genesis : Z).
Context (digest_view_change : Z -> Z -> string -> PSet -> QSet -> Z -> string).
Context (aggregate : list string -> option string) (unbound_text : option string) (tolerance : float).

Abbreviation apply := (Apply c genesis digest_view_change aggregate unbound_text tolerance).

Lemma equals_prepare hash z k v n d s :
  equals hash z (mkIncoming k (Prepare v n d) s) = true -> z = mkIncoming k (Prepare v n d) s.
Proof.
  destruct z as [k' m s']. unfold equals. simpl. intros [Hm Hs%bool_decide_eq_true]%andb_true_iff.
  destruct m; try done. apply bool_decide_eq_true in Hm. simpl in Hs. congruence.
Qed.

Lemma equals_refl hash x : equals hash x x = true.
Proof. unfold equals, same_content. destruct (content x); rewrite !bool_decide_true; done. Qed.

(** [Apply] on a prepare of the input buffer. *)
Lemma apply_prepare w now t r k v n d s :
  let x := mkIncoming k (Prepare v n d) s in
  x ∈ in_msg_buffer r ->
  exists input, in_msg_buffer r ≡ₚ x :: input /\
  in_msg_buffer (apply w now (ApplyMessage x t) r) = input /\
  match apply_RECEIVE_PREPARE c v n d k s (engine r) with
  | Some st => engine (apply w now (ApplyMessage x t) r) = st /\
      awaiting_checkpoint (apply w now (ApplyMessage x t) r) = awaiting_checkpoint r
  | None => engine (apply w now (ApplyMessage x t) r) = engine r /\
      awaiting_checkpoint (apply w now (ApplyMessage x t) r) =
        awaiting_checkpoint r ++ (if bool_decide ((fun h => u32 (h + 2)) <$> get_h (engine r) = Some n) then [x] else [])
  end.
Proof.
  intros x Hx. unfold Apply. cbn [action_effect update_buffers]. change (content x) with (Prepare v n d).
  cbn [receive]. change (sender_id x) with k. change (signature x) with s.
  destruct (list_find (fun z => equals (GetHash w) z x = true) (in_msg_buffer r)) as [[i z]|] eqn:Hf.
  - apply list_find_Some in Hf as (Hi & Heq%equals_prepare & _). subst z.
    exists (delete i (in_msg_buffer r)). split; [by apply delete_Permutation|].
    destruct (apply_RECEIVE_PREPARE _ _ _ _ _ _ _) as [st|] eqn:He; simpl; [by split|]. split; [done|]. split; [done|].
    destruct (get_h (engine r)) as [h|]; simpl.
    + case_bool_decide as H; case_bool_decide as H'; [done|..|by rewrite app_nil_r].
      * destruct H as [_ H]. by destruct H'.
      * exfalso. apply H. by split; [eexists|].
    + by rewrite app_nil_r.
  - exfalso. apply list_find_None in Hf. rewrite Forall_forall in Hf. apply (Hf x Hx), equals_refl.
Qed.

(** The height after a block. *)
Lemma block_height h ts hash st st' :
  0 <= h -> apply_RECEIVE_BLOCK (h + 1) ts hash st = Some st' ->
  (forall n y u, checkpoint n y u ∈ db st -> 0 <= n) ->
  get_h st' = Some (h + 1) /\ view st' = view st.
Proof.
  unfold apply_RECEIVE_BLOCK. destruct (head _) as [[d ?]|]; [|done]. intros H0 [= <-] Hpos.
  set (st1 := apply_EXECUTE d (h + 1) hash st).
  assert (Hdb : db st1 = db st /\ view st1 = view st) by (unfold st1, apply_EXECUTE; by destruct (head _) as [[]|]).
  destruct Hdb as [Hdb Hview]. split; [|exact Hview]. set (st2 := collect_garbage _ _).
  assert (Hc : forall n y u, checkpoint n y u ∈ db st2 <->
    garbage (h + 1) (last_rep st1) (checkpoint n y u) = false /\ (checkpoint n y u = checkpoint (h + 1) hash ts \/ checkpoint n y u ∈ db st)).
  { intros n y u. unfold st2, collect_garbage, roast_collect_garbage.
    rewrite !elem_of_retract, elem_of_add_fact, Hdb. split; [by intros (_ & ? & ?)|by intros []]. }
  assert (Hin : checkpoint (h + 1) hash ts ∈ db st2) by (apply Hc; split; [simpl; lia|by left]).
  destruct (get_h st2) as [m|] eqn:Hm.
  - apply get_h_Some in Hm as [(y & u & [Hg Hy]%Hc) Hmin]. specialize (Hmin _ _ _ Hin). f_equal.
    destruct Hy as [[= -> -> ->]|Hy%Hpos]; [done|]. simpl in Hg. lia.
  - exfalso. unfold get_h, min_list in Hm. apply elem_of_checkpoints in Hin.
    by destruct (checkpoints st2) as [|a l]; [apply not_elem_of_nil in Hin|].
Qed.

(** C19: A prepare for the number after the next one is refused and waits; the block of the
    next number puts it back, and it is then accepted. *)
Theorem early_prepare_accepted w1 w2 w3 now1 now2 now3 t r k v n d s h ts hash st :
  let x := mkIncoming k (Prepare v n d) s in
  let r1 := apply w1 now1 (ApplyMessage x t) r in
  let r2 := apply w2 now2 (ApplyBlock (h + 1) ts hash) r1 in
  let r3 := apply w3 now3 (ApplyMessage x t) r2 in
  x ∈ in_msg_buffer r -> get_h (engine r) = Some h -> 0 <= h -> n = h + 2 -> n < 2 ^ 32 ->
  (forall n' y u, checkpoint n' y u ∈ db (engine r) -> 0 <= n') ->
  k <> replica_id c -> k <> primary c v -> v = view (engine r) ->
  apply_RECEIVE_BLOCK (h + 1) ts hash (engine r) = Some st ->
  engine r1 = engine r /\ x ∈ awaiting_checkpoint r1 /\
  engine r2 = st /\ x ∈ in_msg_buffer r2 /\ awaiting_checkpoint r2 = [] /\
  msg_log_prepare v n d k s ∈ db (engine r3).
Proof.
  intros x r1 r2 r3 Hx Hh H0 -> Hn Hpos Hk Hp Hv Hb.
  destruct (apply_prepare w1 now1 t r k v (h + 2) d s Hx) as (input & _ & Hi & He). fold x r1 in Hi, He.
  assert (Hno : apply_RECEIVE_PREPARE c v (h + 2) d k s (engine r) = None).
  { unfold apply_RECEIVE_PREPARE, in_wv, in_w. rewrite Hh. unfold request_buffer_len.
    rewrite (proj2 (Z.leb_gt (h + 2 - h) 1)) by lia. by rewrite !andb_false_r. }
  rewrite Hno, Hh, bool_decide_true in He by (simpl; unfold u32; by rewrite Z.mod_small by lia).
  destruct He as [He Hw]. split; [done|]. assert (Hx1 : x ∈ awaiting_checkpoint r1) by (rewrite Hw; apply elem_of_app; right; left).
  split; [done|].
  assert (H2 : engine r2 = st /\ in_msg_buffer r2 = in_msg_buffer r1 ++ awaiting_checkpoint r1 /\ awaiting_checkpoint r2 = []).
  { unfold r2, Apply. simpl. by rewrite He, Hb. }
  destruct H2 as (E2 & I2 & W2). split; [done|]. assert (Hx2 : x ∈ in_msg_buffer r2) by (rewrite I2; apply elem_of_app; by right).
  split; [done|]. split; [done|].
  destruct (apply_prepare w3 now3 t r2 k v (h + 2) d s Hx2) as (_ & _ & _ & He3). fold x r3 in He3. rewrite E2 in He3.
  destruct (block_height _ _ _ _ _ H0 Hb Hpos) as [Hh' Hview].
  unfold apply_RECEIVE_PREPARE, in_wv, in_w in He3. rewrite Hh', Hview, <- Hv, (proj2 (Z.eqb_neq k _) Hk) in He3.
  rewrite (proj2 (Z.eqb_neq (primary c v) k)), Z.eqb_refl in He3 by congruence. unfold request_buffer_len in He3.
  rewrite (proj2 (Z.leb_le (h + 2 - (h + 1)) 1)), (proj2 (Z.ltb_lt 0 (h + 2 - (h + 1)))) in He3 by lia.
  destruct He3 as [-> _]. apply elem_of_add_fact. by left.
Qed.

End Early.

(** ** Samples *)

Definition driver_config : Config := {| replica_id := 1; cluster_size := 4; target_block_time := 60 |}.
Definition driver_digest (v hi : Z) (ck : string) (p : PSet) (q : QSet) (k : Z) : string := "vc".

(** A replica at height 0 with the requests of the heights 1 and 2, and a prepare for the
    height 2. *)
Definition driver_sample : Node :=
  mkNode (mkState 0 true (NInt 30) "genesis" 0 0 0
      [checkpoint 0 "genesis" 0; msg_log_request "D1" 60; msg_log_request "D2" 120]%string)
    [mkIncoming 2 (Prepare 0 2 "D2") "s"] [] [].

Abbreviation sample_apply := (Apply driver_config 0 driver_digest (fun _ => None) None 0).

Example generate_requests_done_witness :
  exists r, GenerateRequests driver_config 0 driver_digest (fun _ => None) None 0 5 (sample_wallet "") (of_int 61) driver_sample = Some r /\
    300 <= latest 0 (engine r).
Proof.
  destruct (generate_requests_done driver_config 0 driver_digest (fun _ => None) None 0 5 (sample_wallet "") (of_int 61) driver_sample)
    as (r & Hr & Hl & _); try (vm_compute; congruence || reflexivity).
  exists r. split; [exact Hr|]. change (Z.min (ffloor (of_int 61)) 0 + 5 * 60 <= latest 0 (engine r)) in Hl.
  assert (H : ffloor (of_int 61) = 61) by (vm_compute; reflexivity). rewrite H in Hl. exact Hl.
Defined.

Example early_prepare_accepted_witness :
  let w := sample_wallet "" in
  let x := mkIncoming 2 (Prepare 0 2 "D2") "s" in
  msg_log_prepare 0 2 "D2" 2 "s" ∈
    db (engine (sample_apply w 0 (ApplyMessage x 0) (sample_apply w 0 (ApplyBlock (0 + 1) 60 "B1")
      (sample_apply w 0 (ApplyMessage x 0) driver_sample)))).
Proof.
  intros w x. destruct (apply_RECEIVE_BLOCK (0 + 1) 60 "B1" (engine driver_sample)) as [st|] eqn:Hb; [|vm_compute in Hb; congruence].
  apply (early_prepare_accepted driver_config 0 driver_digest (fun _ => None) None 0 w w w 0 0 0 0 driver_sample
    2 0 2 "D2" "s" 0 60 "B1" st); try done.
  - left.
  - intros n' y u H. repeat (apply elem_of_cons in H as [H|H]; [by simplify_eq|]). by apply not_elem_of_nil in H.
Defined.
