(* ===== verification/EngineCluster.v ===== *)
(** * A network of drivers refines the network of engines

    The replicas of EngineDriver.v, with their buffers, their loops and their random
    choices, take the steps of the network of EngineNet.v: each action that they apply is
    active or a message that was sent and verified. *)

From S2P Require Import Prelude PyFloat Engine EngineActions EngineFacts EngineInv EngineNet EngineDriver EngineDriverFacts.

(** [received] records the messages that the drivers have verified and put in their
    buffers: the receiver, the sender, the message and its signature. *)
Record Cluster : Type := mkCluster {
  nodes : Z -> Node;
  broadcasts : list (Z * Msg);
  received : list (Z * Z * Msg * string)
}.

Inductive ClusterEvent : Type :=
  | Timer (i : Z) (w : Wallet) (now : float) (rnd : nat -> Choice)
  | Receive (i : Z) (x : Incoming) (w : Wallet) (now : float) (rnd : nat -> Choice)
  | ReceiveBlock (i n : Z) (hash : string) (w : Wallet) (now : float)
  | FaultySends (k : Z) (m : Msg).

Section Cluster.
Context (replicas target genesis : Z) (faulty : list Z).
Context (digest_view_change : Z -> Z -> string -> PSet -> QSet -> Z -> string).
Context (aggregate : list string -> option string) (unbound_text : option string).
Context (verify : Z -> Msg -> string -> bool) (sign : Z -> Msg -> string).
Context (block_timestamp : Z -> Z) (tolerance : float) (fuel : nat).

Abbreviation conf := (conf replicas target).
Abbreviation correct := (correct replicas faulty).
Abbreviation net_step := (net_step replicas target genesis faulty digest_view_change aggregate unbound_text verify block_timestamp).
Abbreviation steps := (steps replicas target genesis faulty digest_view_change aggregate unbound_text verify block_timestamp).
Abbreviation reachable := (reachable replicas target genesis faulty digest_view_change aggregate unbound_text verify block_timestamp).
Abbreviation apply i := (Apply (conf i) genesis digest_view_change aggregate unbound_text tolerance).
Abbreviation apply_all i := (ApplyActiveActions (conf i) genesis digest_view_change aggregate unbound_text (sign i) tolerance).

Definition set_node (i : Z) (r : Node) (f : Z -> Node) (j : Z) : Node := if j =? i then r else f j.

(** The replica [i] has become [r] and has broadcast [out]. *)
Definition done_by (i : Z) (cl : Cluster) (x : Node * list Msg) : Cluster :=
  mkCluster (set_node i x.1 (nodes cl)) (broadcasts cl ++ ((i,.) <$> x.2)) (received cl).

Definition record (i : Z) (x : Incoming) (cl : Cluster) : Cluster :=
  mkCluster (nodes cl) (broadcasts cl) (received cl ++ [(i, sender_id x, content x, signature x)]).

(** A message that a replica accepts was sent: signatures are not forged. *)
Definition cluster_step (e : ClusterEvent) (cl : Cluster) : option Cluster :=
  match e with
  | Timer i w now rnd =>
      if correct i then
        done_by i cl <$> CheckTimedActions (conf i) genesis digest_view_change aggregate unbound_text (sign i) tolerance
          fuel w now rnd (nodes cl i)
      else None
  | Receive i x w now rnd =>
      let valid := verify (sender_id x) (content x) (signature x) in
      if correct i && (negb valid || bool_decide ((sender_id x, content x) ∈ broadcasts cl)) then
        done_by i (if valid then record i x cl else cl) <$> ReceiveIncomingMessage (conf i) genesis digest_view_change aggregate unbound_text (sign i) tolerance
          fuel w now rnd valid x (nodes cl i)
      else None
  | ReceiveBlock i n hash w now =>
      if correct i then
        (fun r => done_by i cl (r, [])) <$> ReceiveIncomingBlock (conf i) genesis digest_view_change aggregate unbound_text
          tolerance fuel w now n (block_timestamp n) hash (nodes cl i)
      else None
  | FaultySends k m => if bool_decide (k ∈ faulty) then Some (mkCluster (nodes cl) (broadcasts cl ++ [(k, m)]) (received cl)) else None
  end.

Definition cluster_start (height : Z -> Z) (hash : Z -> string) : Cluster :=
  mkCluster (fun i => mkNode (states (start replicas target block_timestamp height hash) i) [] [] []) [] [].

Inductive cluster_steps (cl : Cluster) : Cluster -> Prop :=
  | cluster_steps_refl : cluster_steps cl cl
  | cluster_steps_step e cl1 cl2 : cluster_steps cl cl1 -> cluster_step e cl1 = Some cl2 -> cluster_steps cl cl2.

(** ** The simulation *)

(** A message that the replica [i] has taken from its buffers: its own, or one of [a]. *)
Definition heard (a : list (Z * Z * Msg * string)) (x : Z * Z * Msg * string) : Prop := x.1.1.1 = x.1.1.2 \/ x ∈ a.

(** A message of the buffers was sent, is verified and was received. *)
Definition known (i : Z) (a : list (Z * Z * Msg * string)) (s : list (Z * Msg)) (x : Incoming) : Prop :=
  (sender_id x, content x) ∈ s /\ verify (sender_id x) (content x) (signature x) = true /\
  heard a (i, sender_id x, content x, signature x).

Definition allowed (i : Z) (a : list (Z * Z * Msg * string)) (s : list (Z * Msg)) (st : State) (x : Applied) : Prop :=
  match x with
  | ApplyMessage y _ => known i a s y
  | ApplyAction b => exists now, b ∈ active_actions (conf i) unbound_text now st
  | _ => False
  end.

Record node_ok (i : Z) (a : list (Z * Z * Msg * string)) (s : list (Z * Msg)) (r : Node) : Prop := {
  nd_input x : x ∈ in_msg_buffer r -> known i a s x;
  nd_waiting x : x ∈ awaiting_checkpoint r -> known i a s x;
  nd_active x : x ∈ active r -> allowed i a s (engine r) x;
  nd_out : no_out (engine r)
}.

(** What the simulation keeps of one replica. *)
Record follows (i : Z) (a : list (Z * Z * Msg * string)) (net : Net) (r : Node) : Prop := {
  fl_state : states net i = engine r;
  fl_node : node_ok i a (sent net) r
}.

(** [net'] is reached by steps of the replica [i] that broadcast [out] and accept messages
    of [a]. *)
Record moved (i : Z) (a : list (Z * Z * Msg * string)) (net net' : Net) (out : list Msg) : Prop := {
  mv_steps : steps net net';
  mv_others j : j <> i -> states net' j = states net j;
  mv_sent : sent net' = sent net ++ ((i,.) <$> out);
  mv_accepted x : x ∈ accepted net' -> x ∈ accepted net \/ heard a x
}.

Lemma moved_refl i a net : moved i a net net [].
Proof. split; [apply steps_refl|done| |by left]. by rewrite app_nil_r. Qed.

Lemma steps_trans net1 net2 net3 : steps net1 net2 -> steps net2 net3 -> steps net1 net3.
Proof. intros H. induction 1; [done|]. by eapply steps_step. Qed.

Lemma moved_trans i a net1 net2 net3 o1 o2 : moved i a net1 net2 o1 -> moved i a net2 net3 o2 -> moved i a net1 net3 (o1 ++ o2).
Proof.
  intros [S1 H1 E1 A1] [S2 H2 E2 A2]. split; [by eapply steps_trans|intros j Hj; by rewrite H2, H1| |].
  - by rewrite E2, E1, fmap_app, app_assoc.
  - intros x [H|H]%A2; [by apply A1|by right].
Qed.

(** [net1] is [net], a message of [a] may have been accepted. *)
Record taken (a : list (Z * Z * Msg * string)) (net net1 : Net) : Prop := {
  tk_states : states net1 = states net;
  tk_sent : sent net1 = sent net;
  tk_accepted x : x ∈ accepted net1 -> x ∈ accepted net \/ heard a x
}.

Lemma taken_refl a net : taken a net net.
Proof. split; [done..|by left]. Qed.

Lemma taken_accept i a k m s net : heard a (i, k, m, s) -> taken a net (accept i k m s net).
Proof. intros H. split; [done..|]. intros x [Hx|Hx%list_elem_of_singleton]%elem_of_app; [by left|subst x; by right]. Qed.

(** A step of the replica of the network. *)
Lemma moved_finish i a e net net1 st :
  taken a net net1 -> net_step e net = Some (finish i net1 st) -> moved i a net (finish i net1 st) (out_messages st).
Proof.
  intros [Hst Hsent Hacc] H. split; [eapply steps_step; [apply steps_refl|exact H]| |by simpl; rewrite Hsent|done].
  intros j Hj. simpl. unfold set_state. by rewrite (proj2 (Z.eqb_neq j i)), Hst.
Qed.

Lemma finish_state i net st : states (finish i net st) i = msg_out_clear_all st.
Proof. simpl. unfold set_state. by rewrite Z.eqb_refl. Qed.

Lemma known_more i a s s' x : known i a s x -> known i a (s ++ s') x.
Proof. intros [H Hv]. split; [|done]. apply elem_of_app. by left. Qed.

Lemma heard_more a a' x : heard a x -> heard (a ++ a') x.
Proof. intros [H|H]; [by left|right]. apply elem_of_app. by left. Qed.

(** More that is sent or received changes nothing. *)
Lemma node_ok_more i a a' s s' r : node_ok i a s r -> node_ok i (a ++ a') (s ++ s') r.
Proof.
  intros [Hin Hw Hact Ho]. assert (Hk : forall x, known i a s x -> known i (a ++ a') (s ++ s') x).
  { intros x (H & Hv & Hh). split; [apply elem_of_app; by left|]. split; [done|by apply heard_more]. }
  split; [auto..| |done]. intros y Hy%Hact. destruct y; [by apply Hk|done..].
Qed.

(** The buffers after an action are among the buffers before it. *)
Lemma update_buffers_sub hash b x h input waiting y :
  let bufs := update_buffers hash b x h input waiting in
  (y ∈ bufs.1 -> y ∈ input \/ y ∈ waiting) /\ (y ∈ bufs.2 -> y ∈ input \/ y ∈ waiting).
Proof.
  unfold update_buffers. destruct x as [z now|a|t|n t hs]; simpl; [|split; auto..|].
  - destruct (list_find _ input) as [[j u]|] eqn:Hf; simpl; [|split; auto].
    apply list_find_Some in Hf as (Hj & _). split.
    + intros H. left. eapply elem_of_submseteq; [exact H|apply sublist_submseteq, sublist_delete].
    + destruct (_ && _); [|auto]. intros [H|H%list_elem_of_singleton]%elem_of_app; [auto|]. subst. left. by eapply list_elem_of_lookup_2.
  - destruct b; simpl; [|split; auto]. split; [by intros []%elem_of_app; auto|by intros H%not_elem_of_nil].
Qed.

Lemma update_active_ok i a s now r :
  (forall x, x ∈ in_msg_buffer r -> known i a s x) -> (forall x, x ∈ awaiting_checkpoint r -> known i a s x) ->
  no_out (engine r) -> node_ok i a s (UpdateActiveActions (conf i) unbound_text now r).
Proof.
  intros Hi Hw Ho. split; [done..| |done]. intros x [H|H]%elem_of_app; apply list_elem_of_fmap in H as (y & -> & H).
  - by apply Hi.
  - by exists now.
Qed.

(** The out buffer is empty after a broadcast. *)
Lemma broadcast_ok i a net net1 e st input waiting now :
  taken a net net1 -> net_step e net = Some (finish i net1 st) -> (forall m, verify i m (sign i m) = true) ->
  (forall x, x ∈ input -> known i a (sent net) x) -> (forall x, x ∈ waiting -> known i a (sent net) x) ->
  let r := broadcast_out (conf i) (sign i) (UpdateActiveActions (conf i) unbound_text now (mkNode st input waiting [])) in
  moved i a net (finish i net1 st) r.2 /\ follows i a (finish i net1 st) r.1.
Proof.
  intros Ht Hs Hsign Hi Hw. unfold broadcast_out. simpl. pose proof (moved_finish _ _ _ _ _ _ Ht Hs) as Hm.
  assert (Hi' : forall x, x ∈ input -> known i a (sent (finish i net1 st)) x)
    by (intros; simpl; rewrite (tk_sent _ _ _ Ht); by apply known_more, Hi).
  assert (Hw' : forall x, x ∈ waiting -> known i a (sent (finish i net1 st)) x)
    by (intros; simpl; rewrite (tk_sent _ _ _ Ht); by apply known_more, Hw).
  case_bool_decide as Ho; simpl.
  - rewrite Ho in Hm. split; [done|]. apply no_out_messages in Ho. split; [|by apply update_active_ok].
    rewrite finish_state. by apply clear_no_out.
  - split; [done|]. split; [by rewrite finish_state|]. split.
    + intros x [H|H]%elem_of_app; [by apply Hi'|]. apply list_elem_of_bind in H as (m & Hx & H).
      assert (Hx' : x = mkIncoming i m (sign i m)).
      { destruct m; simpl in Hx; try (by apply not_elem_of_nil in Hx); [|by apply list_elem_of_singleton in Hx].
        case_bool_decide; [by apply list_elem_of_singleton in Hx|by apply not_elem_of_nil in Hx]. }
      subst x. split; [|split; [apply Hsign|by left]]. apply elem_of_app. right. apply list_elem_of_fmap. by exists m.
    + exact Hw'.
    + intros x H. simpl in H. destruct (update_active_ok i a (sent (finish i net1 st)) now (mkNode (msg_out_clear_all st) input waiting []) Hi' Hw'
        (no_out_clear st)) as [_ _ Ha _]. simpl in Ha. rewrite active_actions_clear in Ha. by apply Ha.
    + apply no_out_clear.
Qed.

(** The effect of an action that is allowed is a step of the network, or none. *)
Lemma allowed_step i a net w x st :
  correct i = true -> allowed i a (sent net) (states net i) x ->
  action_effect (conf i) genesis digest_view_change aggregate tolerance w x (states net i) = Some st ->
  exists e net1, taken a net net1 /\ net_step e net = Some (finish i net1 st).
Proof.
  intros Hi Hx He. destruct x as [y t|b|t|n t hs]; [| |done..]; simpl in Hx, He.
  - destruct Hx as (Hin & Hv & Hh). exists (Deliver i (sender_id y) (content y) (signature y) t tolerance w).
    exists (accept i (sender_id y) (content y) (signature y) net). split; [by apply taken_accept|].
    cbn [EngineNet.net_step]. rewrite Hi, bool_decide_true, Hv by done. simpl. by rewrite He.
  - destruct Hx as [now Ha]. exists (Act i now w b), net. split; [apply taken_refl|].
    cbn [EngineNet.net_step]. rewrite Hi, bool_decide_true by done. simpl. by rewrite He.
Qed.

Lemma round_ok i a net r x w now :
  correct i = true -> (forall m, verify i m (sign i m) = true) -> follows i a net r -> x ∈ active r ->
  let r' := broadcast_out (conf i) (sign i) (apply i w now x r) in
  exists net', moved i a net net' r'.2 /\ follows i a net' r'.1.
Proof.
  intros Hi Hsign [Hst [Hin Hw Hact Ho]] Hx. unfold Apply.
  destruct (update_buffers _ _ _ _ _ _) as [input waiting] eqn:Hb.
  assert (Hbufs : (forall y, y ∈ input -> known i a (sent net) y) /\ (forall y, y ∈ waiting -> known i a (sent net) y)).
  { pose proof (update_buffers_sub (GetHash w) (bool_decide (is_Some (action_effect (conf i) genesis digest_view_change aggregate tolerance w x (engine r))))
      x (get_h (default (engine r) (action_effect (conf i) genesis digest_view_change aggregate tolerance w x (engine r))))
      (in_msg_buffer r) (awaiting_checkpoint r)) as Hsub. rewrite Hb in Hsub.
    split; intros y Hy; apply Hsub in Hy as [Hy|Hy]; auto. }
  destruct Hbufs as [Hi' Hw']. apply Hact in Hx. rewrite <- Hst in Hx.
  destruct (action_effect _ _ _ _ _ _ _ _) as [st|] eqn:He; simpl.
  - rewrite <- Hst in He. destruct (allowed_step _ _ _ _ _ _ Hi Hx He) as (e & net1 & Ht & Hs). exists (finish i net1 st).
    by apply (broadcast_ok i a net net1 e).
  - exists net. unfold broadcast_out. rewrite bool_decide_true; [|by apply no_out_messages].
    split; [apply moved_refl|]. split; [done|]. by apply update_active_ok.
Qed.

Lemma rounds_ok i a k rnd net r :
  correct i = true -> (forall m, verify i m (sign i m) = true) -> follows i a net r ->
  exists net', moved i a net net' (apply_all i k rnd r).2 /\ follows i a net' (apply_all i k rnd r).1.
Proof.
  intros Hi Hsign. revert net r. induction k as [|k IH]; intros net r Hf; cbn [ApplyActiveActions].
  { exists net. split; [apply moved_refl|done]. }
  destruct (_ !! _) as [x|] eqn:Hx; [|exists net; split; [apply moved_refl|done]].
  apply list_elem_of_lookup_2 in Hx.
  destruct (round_ok i a net r x (wallet (rnd k)) (time (rnd k)) Hi Hsign Hf Hx) as (net1 & Hm1 & Hf1).
  destruct (broadcast_out _ _ _) as [r1 out]. simpl in Hm1, Hf1.
  destruct (IH net1 r1 Hf1) as (net2 & Hm2 & Hf2). destruct (apply_all i k rnd r1) as [r2 out']. simpl in Hm2, Hf2.
  exists net2. split; [|done]. by eapply moved_trans.
Qed.

(** ** Requests and blocks *)

(** Requests and blocks send nothing. *)
Lemma silent_ok i a e net r st now input waiting :
  net_step e net = Some (finish i net st) -> no_out st -> states net i = engine r ->
  (forall x, x ∈ input -> known i a (sent net) x) -> (forall x, x ∈ waiting -> known i a (sent net) x) ->
  moved i a net (finish i net st) [] /\
  follows i a (finish i net st) (UpdateActiveActions (conf i) unbound_text now (mkNode st input waiting [])).
Proof.
  intros Hs Ho Hst Hi Hw. pose proof (moved_finish _ a _ _ _ _ (taken_refl a net) Hs) as Hm.
  pose proof (proj1 (no_out_messages _) Ho) as Hno.
  rewrite Hno in Hm. split; [done|]. split; [rewrite finish_state; by apply clear_no_out|].
  apply update_active_ok; [..|done]; intros x H; by apply known_more; auto.
Qed.

Lemma requests_ok i a k w now rep net r r' :
  correct i = true -> follows i a net r ->
  generate_loop (conf i) genesis digest_view_change aggregate unbound_text tolerance k w now rep r = Some r' ->
  exists net', moved i a net net' [] /\ follows i a net' r'.
Proof.
  intros Hi. revert net r. induction k as [|k IH]; intros net r Hf; cbn [generate_loop]; case_match; try done.
  1, 3: intros [= <-]; exists net; split; [apply moved_refl|done].
  intros Hl. set (t := u32 _) in Hl.
  destruct (apply_request (conf i) genesis digest_view_change aggregate unbound_text tolerance w now t r) as (st & He & Hr).
  rewrite Hr in Hl. destruct Hf as [Hst [Hin Hw Hact Ho]].
  assert (Hs : net_step (Generate i t) net = Some (finish i net st)).
  { cbn [EngineNet.net_step]. rewrite Hi, (proj2 (Z.leb_le 0 t)) by (unfold t, u32; apply Z.mod_pos_bound; lia). simpl.
    rewrite Hst. change (digest_of target genesis t) with (request_digest genesis (target_block_time (conf i)) t). by rewrite He. }
  destruct (silent_ok i a (Generate i t) net r st now (in_msg_buffer r) (awaiting_checkpoint r) Hs (no_out_request _ _ _ _ He Ho) Hst Hin Hw)
    as [Hm Hf'].
  destruct (IH _ _ Hf' Hl) as (net' & Hm' & Hf''). exists net'. split; [|done]. by eapply (moved_trans _ _ _ _ _ [] []).
Qed.

Lemma silent_block_ok i a n hash w now net r :
  correct i = true -> follows i a net r ->
  exists net', moved i a net net' [] /\ follows i a net' (apply i w now (ApplyBlock n (block_timestamp n) hash) r).
Proof.
  intros Hi [Hst [Hin Hw Hact Ho]]. unfold Apply. simpl. rewrite <- Hst.
  destruct (apply_RECEIVE_BLOCK _ _ _ _) as [st|] eqn:He; simpl.
  - assert (Hs : net_step (NewBlock i n hash) net = Some (finish i net st)) by (cbn [EngineNet.net_step]; by rewrite Hi, He).
    exists (finish i net st).
    apply (silent_ok i a (NewBlock i n hash) net r); [done| |done| |].
    + eapply no_out_block; [exact He|]. by rewrite Hst.
    + intros x []%elem_of_app; auto.
    + intros x H. by apply not_elem_of_nil in H.
  - exists net. split; [apply moved_refl|]. split; [done|].
    by apply update_active_ok; [..|rewrite Hst].
Qed.

(** ** The refinement *)

(** The cluster and the network have sent the same and hold the same states; the network
    accepts, of other replicas, what the drivers have received. *)
Record refines (cl : Cluster) (net : Net) : Prop := {
  rf_sent : broadcasts cl = sent net;
  rf_node i : correct i = true -> follows i (received cl) net (nodes cl i);
  rf_accepted x : x ∈ accepted net -> heard (received cl) x
}.

Lemma done_by_ok i cl net net' x :
  refines cl net -> correct i = true -> moved i (received cl) net net' x.2 -> follows i (received cl) net' x.1 ->
  refines (done_by i cl x) net'.
Proof.
  intros [Hs Hn Hacc] Hi [Hst Hoth Hsent Hmore] Hf. split; [simpl; by rewrite Hs, Hsent| |].
  - intros j Hj. simpl. unfold set_node. destruct (j =? i) eqn:Hij; [by apply Z.eqb_eq in Hij as ->|].
    apply Z.eqb_neq in Hij. destruct (Hn j Hj) as [Hst' Hok].
    split; [by rewrite Hoth|]. rewrite Hsent, <- (app_nil_r (received cl)). by apply node_ok_more.
  - intros y [H|H]%Hmore; [by apply Hacc|done].
Qed.

(** A message more in the record. *)
Lemma record_ok i x cl net : refines cl net -> refines (record i x cl) net.
Proof.
  intros [Hs Hn Hacc]. split; [done| |].
  - intros j Hj. destruct (Hn j Hj) as [Hst Hok]. split; [done|]. simpl.
    rewrite <- (app_nil_r (sent net)). by apply node_ok_more.
  - intros y H%Hacc. by apply heard_more.
Qed.

Lemma start_refines height hash :
  refines (cluster_start height hash) (start replicas target block_timestamp height hash).
Proof.
  split; [done| |intros x H; by apply not_elem_of_nil in H]. intros i _. split; [done|].
  split; try (intros x H; by apply not_elem_of_nil in H). by apply no_out_messages.
Qed.

Lemma timer_ok i a w now rnd net r x :
  correct i = true -> (forall m, verify i m (sign i m) = true) -> follows i a net r ->
  CheckTimedActions (conf i) genesis digest_view_change aggregate unbound_text (sign i) tolerance fuel w now rnd r = Some x ->
  exists net', moved i a net net' x.2 /\ follows i a net' x.1.
Proof.
  intros Hi Hsign Hf. unfold CheckTimedActions. destruct (GenerateRequests _ _ _ _ _ _ _ _ _ _) as [r1|] eqn:Hg; [|done].
  intros [= <-]. destruct (requests_ok _ a _ _ _ _ _ _ _ Hi Hf Hg) as (net1 & Hm1 & [Hst1 [Hi1 Hw1 Ha1 Ho1]]).
  destruct (rounds_ok i a MAX_NUM_APPLIED_ACTIONS rnd net1 (UpdateActiveActions (conf i) unbound_text now r1) Hi Hsign)
    as (net2 & Hm2 & Hf2).
  { split; [done|]. by apply update_active_ok. }
  exists net2. split; [|done]. by apply (moved_trans _ _ _ _ _ [] _ Hm1).
Qed.

Lemma receiver_ok i a w now rnd net r x y :
  let valid := verify (sender_id y) (content y) (signature y) in
  correct i = true -> (forall m, verify i m (sign i m) = true) -> follows i a net r ->
  (valid = true -> (sender_id y, content y) ∈ sent net /\ (i, sender_id y, content y, signature y) ∈ a) ->
  ReceiveIncomingMessage (conf i) genesis digest_view_change aggregate unbound_text (sign i) tolerance fuel w now rnd valid y r = Some x ->
  exists net', moved i a net net' x.2 /\ follows i a net' x.1.
Proof.
  intros valid Hi Hsign Hf Hy. unfold ReceiveIncomingMessage. destruct (GenerateRequests _ _ _ _ _ _ _ _ _ _) as [r1|] eqn:Hg; [|done].
  intros [= <-]. destruct (requests_ok _ a _ _ _ _ _ _ _ Hi Hf Hg) as (net1 & Hm1 & Hf1).
  destruct valid eqn:Hv; [|by exists net1]. destruct (Hy eq_refl) as [Hy1 Hy2]. destruct Hf1 as [Hst1 [Hi1 Hw1 Ha1 Ho1]].
  set (r2 := UpdateActiveActions _ _ _ _).
  destruct (rounds_ok i a MAX_NUM_APPLIED_ACTIONS rnd net1 r2 Hi Hsign) as (net2 & Hm2 & Hf2).
  { split; [done|]. apply update_active_ok; [|done..]. intros z [H|H%list_elem_of_singleton]%elem_of_app; [auto|subst z].
    split; [|split; [done|by right]]. rewrite (mv_sent _ _ _ _ _ Hm1). apply elem_of_app. auto. }
  exists net2. split; [|done]. by apply (moved_trans _ _ _ _ _ [] _ Hm1).
Qed.

(** Each event of the cluster is a sequence of steps of the network. *)
Lemma cluster_step_refines e cl cl' net :
  (forall i m, correct i = true -> verify i m (sign i m) = true) ->
  refines cl net -> cluster_step e cl = Some cl' -> exists net', steps net net' /\ refines cl' net'.
Proof.
  intros Hsign Hr Hstep. destruct e as [i w now rnd|i x w now rnd|i n hash w now|k m]; cbn [cluster_step] in Hstep.
  - destruct (correct i) eqn:Hi; [|done]. destruct (CheckTimedActions _ _ _ _ _ _ _ _ _ _ _ _) as [y|] eqn:He; [|done].
    injection Hstep as <-. destruct (timer_ok i _ w now rnd net (nodes cl i) y Hi ltac:(auto) (rf_node _ _ Hr _ Hi) He) as (net' & Hm & Hf).
    exists net'. split; [apply Hm|]. by eapply done_by_ok.
  - destruct (correct i) eqn:Hi; [|done]. simpl in Hstep. destruct (_ || _) eqn:Hv; [|done].
    destruct (ReceiveIncomingMessage _ _ _ _ _ _ _ _ _ _ _ _ _ _) as [y|] eqn:He; [|done]. injection Hstep as <-.
    set (cl1 := if verify (sender_id x) (content x) (signature x) then record i x cl else cl).
    assert (Hr1 : refines cl1 net) by (unfold cl1; case_match; [by apply record_ok|done]).
    assert (Hn1 : nodes cl1 i = nodes cl i) by (unfold cl1; by case_match).
    destruct (receiver_ok i (received cl1) w now rnd net (nodes cl i) y x Hi ltac:(auto)) as (net' & Hm & Hf); [| |exact He|].
    { rewrite <- Hn1. exact (rf_node _ _ Hr1 _ Hi). }
    { intros Hv'. rewrite Hv' in Hv. apply bool_decide_eq_true in Hv. rewrite <- (rf_sent _ _ Hr). split; [done|].
      unfold cl1. rewrite Hv'. apply elem_of_app. right. by apply list_elem_of_singleton. }
    exists net'. split; [apply Hm|]. by eapply done_by_ok.
  - destruct (correct i) eqn:Hi; [|done]. unfold ReceiveIncomingBlock in Hstep.
    destruct (GenerateRequests _ _ _ _ _ _ _ _ _ _) as [r1|] eqn:Hg; [|done]. injection Hstep as <-.
    destruct (requests_ok _ _ _ _ _ _ _ _ _ Hi (rf_node _ _ Hr _ Hi) Hg) as (net1 & Hm1 & Hf1).
    destruct (silent_block_ok i (received cl) n hash w now net1 r1 Hi Hf1) as (net2 & Hm2 & Hf2).
    exists net2. pose proof (moved_trans _ _ _ _ _ _ _ Hm1 Hm2) as Hm. split; [apply Hm|]. by eapply done_by_ok.
  - destruct (bool_decide (k ∈ faulty)) eqn:Hk; [|done]. injection Hstep as <-.
    exists (mkNet (states net) (sent net ++ [(k, m)]) (accepted net)). split.
    { eapply steps_step; [apply steps_refl|]. instantiate (1 := Byzantine k m). cbn [EngineNet.net_step]. by rewrite Hk. }
    destruct Hr as [Hs Hn Hacc]. split; [simpl; by rewrite Hs| |done]. intros i Hi. destruct (Hn i Hi) as [Hst Hok].
    split; [done|]. simpl. rewrite <- (app_nil_r (received cl)). by apply node_ok_more.
Qed.

Lemma cluster_steps_refine cl cl' net :
  (forall i m, correct i = true -> verify i m (sign i m) = true) ->
  refines cl net -> cluster_steps cl cl' -> exists net', steps net net' /\ refines cl' net'.
Proof.
  intros Hsign Hr. induction 1 as [|e cl1 cl2 _ (net1 & Hs1 & Hr1) He]; [exists net; split; [apply steps_refl|done]|].
  destruct (cluster_step_refines e cl1 cl2 net1 Hsign Hr1 He) as (net2 & Hs2 & Hr2).
  exists net2. split; [by eapply steps_trans|done].
Qed.

(** The replica [i] has received one prepare of another with two signatures, both verified. *)
Definition received_twice (cl : Cluster) (i v n : Z) (d : string) : Prop :=
  exists k s s', k <> i /\ s <> s' /\
    (i, k, Prepare v n d, s) ∈ received cl /\ (i, k, Prepare v n d, s') ∈ received cl.

Lemma counted_received cl net i v n d : refines cl net -> counted_twice net i v n d -> received_twice cl i v n d.
Proof.
  intros Hr (k & s & s' & Hk & Hne & [H|H]%(rf_accepted _ _ Hr) & [H'|H']%(rf_accepted _ _ Hr)); simpl in *; try congruence.
  by exists k, s, s'.
Qed.

(** C2: A cluster started as the code starts it does what the network of engines does: after
    any events, and after any more of them, the messages broadcast and the states of the
    engines of the correct replicas are those of a network reached by its steps.  A correct
    replica signs what is verified, and a message that is verified was sent by its sender:
    signatures are not forged. *)
Theorem cluster_refines_network height hash cl cl' :
  (forall i, 0 <= height i) -> (forall i m, correct i = true -> verify i m (sign i m) = true) ->
  cluster_steps (cluster_start height hash) cl -> cluster_steps cl cl' ->
  exists net net', steps (start replicas target block_timestamp height hash) net /\ steps net net' /\
    broadcasts cl = sent net /\ broadcasts cl' = sent net' /\
    forall i, correct i = true -> engine (nodes cl i) = states net i /\ engine (nodes cl' i) = states net' i.
Proof.
  intros Hh Hsign H1 H2.
  destruct (cluster_steps_refine _ _ _ Hsign (start_refines height hash) H1) as (net & Hs & Hr).
  destruct (cluster_steps_refine _ _ _ Hsign Hr H2) as (net' & Hs' & Hr').
  exists net, net'. split; [done|]. split; [done|]. split; [apply Hr|]. split; [apply Hr'|].
  intros i Hi. split; symmetry; [apply (rf_node _ _ Hr i Hi)|apply (rf_node _ _ Hr' i Hi)].
Qed.

(** C1: The drivers of 3F+1 replicas, of which at most F are faulty, over a chain of blocks
    with increasing timestamps, when signatures are not forged: whatever the faulty ones
    send and in whatever order messages come, blocks arrive, timers fire and actions are
    drawn, two correct replicas that hold a request prepared for the same view and number,
    at any two times, hold the same request, unless one of them has received one and the
    same prepare with two different signatures.  [repeated_prepares_disagree] shows that the
    exception is needed: the quorum counts the signatures of a prepare, not its senders. *)
Theorem cluster_agreement height hash cl cl' i i' d d' v n :
  assumptions replicas target faulty block_timestamp ->
  (forall i, 0 <= height i) -> (forall i m, correct i = true -> verify i m (sign i m) = true) ->
  cluster_steps (cluster_start height hash) cl -> cluster_steps cl cl' -> correct i = true -> correct i' = true ->
  prepared (conf i) d v n (engine (nodes cl i)) = true ->
  prepared (conf i') d' v n (engine (nodes cl' i')) = true ->
  d = d' \/ received_twice cl' i v n d \/ received_twice cl' i' v n d'.
Proof.
  intros As Hh Hsign H1 H2 Hi Hi' Hp Hp'.
  destruct (cluster_steps_refine _ _ _ Hsign (start_refines height hash) H1) as (net & Hs & Hr).
  destruct (cluster_steps_refine _ _ _ Hsign Hr H2) as (net' & Hs' & Hr').
  rewrite <- (fl_state _ _ _ _ (rf_node _ _ Hr i Hi)) in Hp. rewrite <- (fl_state _ _ _ _ (rf_node _ _ Hr' i' Hi')) in Hp'.
  assert (Hreach : reachable net) by (eapply steps_reachable; [by apply reachable_start|exact Hs]).
  destruct (prepared_same _ _ _ _ _ _ _ _ _ As _ _ _ _ _ _ _ _ Hreach Hs' Hi Hi' Hp Hp') as [?|[Ht|Ht]];
    [by left|right; left|right; right]; by eapply counted_received.
Qed.

End Cluster.

(** ** A cluster of four replicas *)

Definition sample_choice (t : Z) (block : string) (k : nat) : Choice := mkChoice 0 (sample_wallet block) (of_int t).
Definition sample_sign (k : Z) (m : Msg) : string := "sig".

Abbreviation sample_cluster_step :=
  (cluster_step 4 60 0 [3] sample_digest sample_aggregate None sample_verify sample_sign minutes (of_int 60) 5).
Abbreviation sample_cluster_steps :=
  (cluster_steps 4 60 0 [3] sample_digest sample_aggregate None sample_verify sample_sign minutes (of_int 60) 5).

Definition sample_cluster : Cluster := cluster_start 4 60 minutes (fun _ => 0) (fun _ => "genesis"%string).

Definition cluster_run (es : list ClusterEvent) (cl : Cluster) : option Cluster :=
  foldl (fun o e => o ≫= sample_cluster_step e) (Some cl) es.

(** The primary proposes a block, the replica 1 receives it and a prepare of the faulty one. *)
Definition cluster_prepares : list ClusterEvent :=
  let receive i k m := Receive i (mkIncoming k m "sig") (sample_wallet "") (of_int 61) (sample_choice 61 "") in
  [Timer 0 (sample_wallet "block") (of_int 61) (sample_choice 61 "block");
   FaultySends 3 (Prepare 0 1 d1); receive 1 0 (PrePrepare 0 1 d1 "block"); receive 1 3 (Prepare 0 1 d1)].

Lemma cluster_run_steps es cl cl' : cluster_run es cl = Some cl' -> sample_cluster_steps cl cl'.
Proof.
  unfold cluster_run. assert (H : forall o, foldl (fun o e => o ≫= sample_cluster_step e) o es = Some cl' ->
    exists cl1, o = Some cl1 /\ (sample_cluster_steps cl cl1 -> sample_cluster_steps cl cl')).
  { induction es as [|e es IH]; intros o Ho; cbn [foldl] in Ho; [by exists cl'|].
    apply IH in Ho as (cl2 & He & Hs). destruct o as [cl1|]; [|done]. exists cl1. split; [done|].
    intros H1. apply Hs. eapply cluster_steps_step; [exact H1|exact He]. }
  intros (cl1 & [= <-] & Hs)%H. apply Hs, cluster_steps_refl.
Qed.

Lemma sample_sign_ok i m : correct 4 [3] i = true -> sample_verify i m (sample_sign i m) = true.
Proof. done. Qed.

Lemma sample_cluster_run :
  exists cl, cluster_run cluster_prepares sample_cluster = Some cl /\
    prepared (conf 4 60 1) d1 0 1 (engine (nodes cl 1)) = true /\
    received cl = [(1, 0, PrePrepare 0 1 d1 "block", "sig"); (1, 3, Prepare 0 1 d1, "sig")]%string.
Proof.
  assert (H : match cluster_run cluster_prepares sample_cluster with
    | Some cl => prepared (conf 4 60 1) d1 0 1 (engine (nodes cl 1)) &&
        bool_decide (received cl = [(1, 0, PrePrepare 0 1 d1 "block", "sig"); (1, 3, Prepare 0 1 d1, "sig")]%string)
    | None => false end = true) by (vm_compute; reflexivity).
  destruct (cluster_run cluster_prepares sample_cluster) as [cl|]; [|done].
  apply andb_true_iff in H as [H1 H2]. apply bool_decide_eq_true in H2. by exists cl.
Qed.

Lemma sample_not_twice cl i v n d :
  received cl = [(1, 0, PrePrepare 0 1 d1 "block", "sig"); (1, 3, Prepare 0 1 d1, "sig")]%string ->
  ~ received_twice cl i v n d.
Proof.
  intros Hr (k & s & s' & _ & Hne & H & H'). rewrite Hr in H, H'. rewrite !elem_of_cons, elem_of_nil in H, H'.
  naive_solver.
Qed.

Example cluster_agreement_witness :
  exists cl, sample_cluster_steps sample_cluster cl /\ prepared (conf 4 60 1) d1 0 1 (engine (nodes cl 1)) = true /\
    forall d, prepared (conf 4 60 1) d 0 1 (engine (nodes cl 1)) = true -> d1 = d.
Proof.
  destruct sample_cluster_run as (cl & Hr & H1 & H2). apply cluster_run_steps in Hr. exists cl.
  split; [exact Hr|]. split; [exact H1|]. intros d Hd.
  destruct (cluster_agreement 4 60 0 [3] sample_digest sample_aggregate None sample_verify sample_sign minutes (of_int 60) 5
    (fun _ => 0) (fun _ => "genesis"%string) cl cl 1 1 d1 d 0 1 sample_assumptions (fun _ => Z.le_refl 0) sample_sign_ok
    Hr (cluster_steps_refl _ _ _ _ _ _ _ _ _ _ _ _ _) eq_refl eq_refl H1 Hd) as [Hd'|Ht]; [exact Hd'|].
  exfalso. destruct Ht as [Ht|Ht]; exact (sample_not_twice _ _ _ _ _ H2 Ht).
Defined.

Example cluster_refines_network_witness :
  exists cl net, sample_cluster_steps sample_cluster cl /\ broadcasts cl = sent net /\
    prepared (conf 4 60 1) d1 0 1 (states net 1) = true.
Proof.
  destruct sample_cluster_run as (cl & Hr & H1 & _). apply cluster_run_steps in Hr.
  destruct (cluster_refines_network 4 60 0 [3] sample_digest sample_aggregate None sample_verify sample_sign minutes (of_int 60) 5
    (fun _ => 0) (fun _ => "genesis"%string) cl cl (fun _ => Z.le_refl 0) sample_sign_ok Hr
    (cluster_steps_refl _ _ _ _ _ _ _ _ _ _ _ _ _)) as (net & net' & _ & _ & Hs & _ & Hn).
  exists cl, net. split; [exact Hr|]. split; [exact Hs|]. rewrite <- (proj1 (Hn 1 eq_refl)). exact H1.
Defined.
